(* ===== verification/_CoqProject ===== *)
-Q . S2P
Prelude.v
LibReac.v
Pcm.v
Decode.v
MediaClock.v
Plc.v
Rtp.v
Pipeline.v
Packetizer.v
Factor.v
Ring.v
RingSpsc.v
RingRelaxed.v
RingQueue.v
RingProgress.v
Rounding.v
Float32.v
Float64.v
Samples.v
Tx.v
Rx.v
Loopback.v
SinkNode.v
SourceNode.v
Bridge.v
Relay.v
PcapSource.v
Send.v
Sdp.v
Sap.v
Text.v
Pw.v
Tone.v
PtpClock.v
Listen.v
Ubus.v
Replay.v
Live.v
Dante.v
Cli.v
