(* ===== verification/Prelude.v ===== *)
(** A verification development of reac-aes67.

    reac-aes67 turns the audio of a Roland REAC stream (raw Ethernet frames of 40
    channels, 12 samples each) into AES67: RTP L24 packets over multicast UDP,
    described by SDP and announced by SAP.  A second program, reac-pw, joins the
    same decoder to PipeWire through a lock-free ring, in both directions.

    * Parts of the program and files of the development

    Receiving.  src/src/reac_decode.c validates a frame and de-interleaves it:
    [Decode].  src/src/media_clock.c turns the 16-bit frame counters into one
    timeline of RTP timestamps and says how many packets were lost: [MediaClock].
    src/src/plc.c conceals lost packets from a history of each channel: [Plc], with
    the 24-bit loads and stores of [Pcm].  src/src/rtp_l24.c builds packets: [Rtp].
    src/src/pipeline.c composes these four for each received frame: [Pipeline].
    [Factor] shows that what these emit does not depend on the world the callbacks
    act on, so that a result about the recorded packets is one about every sender.

    Sending as Dante-compatible flows.  src/src/packetizer.c splits the channels
    into flows and aggregates frames to 1 ms packets behind the pipeline:
    [Packetizer].  src/src/ptp_clock.c gives the timestamp anchor: [PtpClock].
    The session around it, run_dante of src/src/main.c, is [Dante].

    Announcing and sending.  src/src/sdp.c is [Sdp], src/src/sap.c and the
    announcer of main.c are [Sap], src/src/aes67_send.c is [Send].

    Sources and modes.  src/src/pcap_source.c is [PcapSource]; the replay modes of
    main.c are [Replay]; src/src/reac_capture.c and the loops of the live mode are
    [Listen]; src/src/ubus_stats.c with its event loop is [Ubus]; run_listen of
    main.c as a whole is [Live]; src/src/tone.c with run_gen_tone of main.c is
    [Tone]; the readers of addresses and numbers are [Text]; [Cli] is [main]: the
    options, what they settle, and the choice of the mode.

    PipeWire bridge.  pipewire/src/reac_ring.c is [Ring] for each operation run
    alone, [RingSpsc] for the producer and the consumer access by access,
    [RingRelaxed] for the two on the memory of C11, acquire loads that give old
    values included, [RingQueue] and [RingProgress] for the queue they make and
    their progress there.  pipewire/src/reac_tx.c is [Tx] (frames) with the
    conversions of [Samples]; pipewire/src/reac_rx.c is [Rx]; the realtime
    callbacks of pipewire/src/reac_sink_node.c and reac_source_node.c are
    [SinkNode] and [SourceNode].  [Loopback] composes transmitter and receiver,
    [Bridge] feeder, ring and source, [Relay] the sink of one process with the
    bridge of another; [Pw] is pipewire/src/main.c with the construction and the
    teardown of the nodes.

    Floating point.  [Float32] and [Float64] are the operations the source uses on
    float and double, the Standard Library's IEEE 754 specification at the two
    formats, each operation rounded once.  [Rounding] has what holds at both:
    when an operation is exact, and how large or small its result can be.

    Interfaces.  libreac, the library that owns the wire geometry, is the class
    [ReacLib] of [LibReac], and what the repository documents about it the class
    [ReacDoc]; [inet_pton] is the class [InetPton] of [Send], with [InetDoc], and
    the C library's sin the class [Libm] of [Tone], with its range in [LibmDoc].  The
    instances [documented_lib], [quad_inet] and [square_sine], which the witnesses use, show that
    the laws can hold together.

    * Conventions

    The names are those of the source.  A computation that can run into undefined
    behaviour has type [res]: [Ok] and a value, or [Err] and the [ub] met (an access
    out of bounds, the read of an indeterminate cell, an [int] overflow, a division
    by zero, a null pointer).  Every theorem of functional behaviour therefore also
    says that its code runs into none.  [int], [long] check signed results, [u8]
    to [u64] and [i16], [i32] wrap.  A buffer is a list of cells, [None] being
    indeterminate: a local array starts as [undef n].  [for_] is the counting loop,
    [ok m Q] says that [m] gives a value with [Q]; the rules [ok_bind], [ok_for],
    [ok_for2] and the tactic [ok_step] run a program under [ok].  Callbacks are
    functions on a world the caller chooses; the world [trace] records what was
    emitted, the world of the senders is the list of the system calls made.  What
    the operating system answers (recv, fopen, fseek, socket, clocks) is an
    argument.

    * What the theorems show

    The numbers Cn are those of the comments of the theorems.  One group is about
    the streams the program sends: no gap in sequence numbers and timestamps
    whatever is received, and exactly as many concealed packets as the frame
    counters show missing ([pipeline_gapless], [dante_gapless]), bit transparency
    ([pipeline_bit_transparent]), the contents of every packet, real or concealed
    ([pipeline_on_frame_correct], [packetizer_push_correct], [plc_conceal_correct]).
    One is about each component against its specification: the clock's timeline,
    the packet and frame formats with the readers a receiver would use (round
    trips), the conversions between 24-bit and float, the ring as a queue
    ([reac_ring_refines_queue]).  One is about concurrency: on the memory of C11 the
    two threads of the ring have no data race and lose nothing ([spsc_race_free],
    [spsc_safe] where memory is sequentially consistent), are an atomic queue
    ([spsc_linearizable]), and each finishes in a bounded number of its own steps
    ([spsc_wait_free]).  One is about whole modes,
    down to the system calls: [dante_session], [dante_refused],
    [run_listen_correct], [run_listen_event_loop], [replay_udp] and the equivalence
    of a replay and a live session [replay_equals_live], [sink_stream], [loopback] for
    one frame, [relay_stream] from the applications of one reac-pw to those of another,
    and [bridge_stream], which takes reac-pw's receive direction to a queue, while
    [bridge_defined] says that on a stream that keeps its pace that direction meets
    nothing undefined and its rate estimator stays in range.  [tone_stream] is the
    test tone: packets, samples, pace and the phase, for a session of any length.
    One is about the program from its command line on: [parse_render],
    [main_rejects], [main_count_rtp], [main_print_dante] and, over any files and
    any arguments, [main_terminates]; for reac-pw, [pw_main_lifecycle], which
    also says when the program goes on with the null pointer of a main loop that could
    not be made.  The rest are
    error paths and bounds.

    * Bounds and fuel

    [next_loop] of [PcapSource] has the fuel [S (length bytes)]: each turn reads a
    16-byte record header.  [while_next] and [read_all] take a fuel argument; any
    with 16 times it above the length of the file is enough, whatever the file
    holds ([pcap_replay], [main_terminates]), and for a file of well-formed records
    any above their number.  [listen_loop] has one unit per result of [recv] and
    one for the end, [dante_live] takes such a fuel.  [c_string] takes the size of
    the buffer it reads.  [digits] has 20, the digits of a 64-bit number,
    [hex_digits] the 8 of a 32-bit one.  [wrap_phase] has the integer part of the
    phase and one more, since each turn takes at least 6 from it ([wrap_phase_ok]);
    [carry_seconds] one turn per whole second.  [main_terminates] shows that these
    are enough at every frequency.  The number of turns the tone generator makes
    before the signal is part of the surroundings of [main].  The burst fade is assumed at most 81920
    packets, above which the code overflows ([burst_gain_overflow]).

    * Where documents and code differ

    The model follows the code.  The README and DESIGN.md of the bridge, and the
    comment at the top of its main.c, describe the sink as a skeleton that sends
    nothing; reac_sink_node.c and reac_tx.c encode and send frames, as their own
    comments say, and [sink_stream], [relay_stream] and the sink of
    [pw_main_lifecycle] are about that code.

    * Not modelled

    What PipeWire does with a node and its properties, and its main loop; the rate
    detection of [--rate auto] (libreac's; its answer is an argument); the values of
    sin; the texts on stderr, the LuCI application, packaging, scripts and tests.
    The arithmetic is that of a compiler that keeps to the formats, as the Makefiles'
    -std=c11 asks: no contraction, no wider intermediate results.  The memory
    model of the ring is C11's for the two cursors, each with one writing thread, and
    the samples; the relaxed counters of overruns and underruns, which no decision
    depends on, are outside it. *)

From Stdlib Require Import ZArith Lia.
From stdpp Require Export base tactics numbers list option list_numbers.

#[global] Open Scope Z_scope.

(** * Results: a value, or the undefined behaviour the C code ran into *)

Inductive ub : Type :=
| OutOfBounds
| Uninitialised
| SignedOverflow
| DivisionByZero
| NullPointer.

#[export] Instance ub_eq_dec : EqDecision ub.
Proof. solve_decision. Defined.

Inductive res (A : Type) : Type :=
| Ok (a : A)
| Err (e : ub).
Arguments Ok {A} a.
Arguments Err {A} e.

#[export] Instance res_ret : MRet res := fun A a => Ok a.

#[export] Instance res_bind : MBind res :=
  fun A B k m => match m with Ok a => k a | Err e => Err e end.

#[export] Instance res_fmap : FMap res :=
  fun A B f m => match m with Ok a => Ok (f a) | Err e => Err e end.

(** [ok m Q]: the computation [m] runs into no undefined behaviour and its
    value satisfies [Q]. *)
Definition ok {A} (m : res A) (Q : A -> Prop) : Prop :=
  match m with Ok a => Q a | Err _ => False end.

(** * Machine integers *)

Definition INT_MAX : Z := 2147483647.
Definition INT_MIN : Z := -2147483648.

(** unsigned conversions: reduction modulo 2^w *)
Definition u8 (x : Z) : Z := x mod 256.
Definition u16 (x : Z) : Z := x mod 65536.
Definition u32 (x : Z) : Z := x mod 4294967296.
Definition u64 (x : Z) : Z := x mod 18446744073709551616.

(** signed conversions: two's complement reading of the low w bits *)
Definition i16 (x : Z) : Z :=
  let y := x mod 65536 in if y <? 32768 then y else y - 65536.
Definition i32 (x : Z) : Z :=
  let y := x mod 4294967296 in if y <? 2147483648 then y else y - 4294967296.

(** the result of an [int] operation, undefined when it does not fit *)
Definition int (x : Z) : res Z :=
  if (INT_MIN <=? x) && (x <=? INT_MAX) then Ok x else Err SignedOverflow.

(** the same for an [int64_t] operation *)
Definition long (x : Z) : res Z :=
  if (-9223372036854775808 <=? x) && (x <=? 9223372036854775807) then Ok x
  else Err SignedOverflow.

(** C's truncating [int] division *)
Definition idiv (x y : Z) : res Z :=
  if y =? 0 then Err DivisionByZero else int (Z.quot x y).

(** * Buffers: cells that hold a value or are still indeterminate *)

Abbreviation buf A := (list (option A)).

Definition blen {A} (b : buf A) : Z := Z.of_nat (length b).

(** the value of an initialised cell *)
Definition get {A} (b : buf A) (i : Z) : option A :=
  if i <? 0 then None else mjoin (b !! Z.to_nat i).

(** [b[i]] as an rvalue *)
Definition rd {A} (b : buf A) (i : Z) : res A :=
  if i <? 0 then Err OutOfBounds
  else match b !! Z.to_nat i with
       | None => Err OutOfBounds
       | Some None => Err Uninitialised
       | Some (Some v) => Ok v
       end.

Definition upd {A} (b : buf A) (i : Z) (v : A) : buf A :=
  <[Z.to_nat i := Some v]> b.

(** [b[i] = v] *)
Definition wr {A} (b : buf A) (i : Z) (v : A) : res (buf A) :=
  if (0 <=? i) && (i <? blen b) then Ok (upd b i v) else Err OutOfBounds.

(** [memcpy(dst + di, src + si, n)] between distinct objects: the cells are
    copied as they are, indeterminate ones too *)
Definition blit {A} (dst : buf A) (di : Z) (src : buf A) (si n : Z) : res (buf A) :=
  if (0 <=? di) && (0 <=? si) && (0 <=? n)
     && (di + n <=? blen dst) && (si + n <=? blen src)
  then Ok (take (Z.to_nat di) dst
           ++ take (Z.to_nat n) (drop (Z.to_nat si) src)
           ++ drop (Z.to_nat (di + n)) dst)
  else Err OutOfBounds.

(** [n] indeterminate cells (a local array), [n] cells of one value ([memset],
    [calloc]), and initialised data received from outside *)
Definition undef {A} (n : Z) : buf A := replicate (Z.to_nat n) None.
Definition filled_with {A} (n : Z) (v : A) : buf A := replicate (Z.to_nat n) (Some v).
Definition of_list {A} (l : list A) : buf A := Some <$> l.

(** [p + k] seen as an array of its own *)
Definition from {A} (b : buf A) (k : Z) : buf A := drop (Z.to_nat k) b.
(** the first [n] cells *)
Definition upto {A} (b : buf A) (n : Z) : buf A := take (Z.to_nat n) b.

(** [n] cells from 0 on all hold a byte *)
Definition bytes_upto (b : buf Z) (n : Z) : Prop :=
  forall i, 0 <= i < n -> exists v, get b i = Some v /\ 0 <= v < 256.

(** [b'] has [b]'s size and holds [f i] in the cells [lo <= i < hi] and [b]'s
    content elsewhere *)
Definition patched {A} (b : buf A) (lo hi : Z) (f : Z -> option A) (b' : buf A) : Prop :=
  blen b' = blen b
  /\ (forall i, lo <= i < hi -> get b' i = f i)
  /\ (forall i, ~ (lo <= i < hi) -> get b' i = get b i).

(** * Loops: [for (int i = lo; i < hi; i++) s = body(i, s)] *)

Fixpoint for_loop {S} (n : nat) (i : Z) (body : Z -> S -> res S) (s : S) : res S :=
  match n with
  | O => Ok s
  | Datatypes.S n' => s' ← body i s; for_loop n' (i + 1) body s'
  end.

Definition for_ {S} (lo hi : Z) (body : Z -> S -> res S) (s : S) : res S :=
  for_loop (Z.to_nat (hi - lo)) lo body s.

(** * Lemmas on results *)

Section Results.
Context {A B : Type}.

Lemma ok_ret (a : A) (Q : A -> Prop) : Q a -> ok (Ok a) Q.
Proof. done. Qed.

Lemma ok_bind (m : res A) (k : A -> res B) (Q : B -> Prop) :
  ok m (fun a => ok (k a) Q) -> ok (m ≫= k) Q.
Proof. by destruct m. Qed.

Lemma ok_mono (m : res A) (P Q : A -> Prop) :
  ok m P -> (forall a, P a -> Q a) -> ok m Q.
Proof. destruct m; simpl; auto. Qed.

Lemma ok_iff (m : res A) (Q : A -> Prop) : ok m Q <-> exists a, m = Ok a /\ Q a.
Proof.
  destruct m as [a|e]; simpl; split; [eauto|by intros (?&[= <-]&?)|done|by intros (?&?&?)].
Qed.

Lemma ok_eq (m : res A) (a : A) : ok m (eq a) <-> m = Ok a.
Proof. destruct m; simpl; split; intros H; try done; congruence. Qed.
End Results.

Lemma ok_iff2 {A B} (m : res (A * B)) Q : ok m (fun '(a, b) => Q a b) <-> exists a b, m = Ok (a, b) /\ Q a b.
Proof. rewrite ok_iff. split; [intros ([a b] & H1 & H2)|intros (a & b & H1 & H2)]; eauto. Qed.

Lemma ok_iff3 {A B C} (m : res (A * B * C)) Q :
  ok m (fun '(a, b, c) => Q a b c) <-> exists a b c, m = Ok (a, b, c) /\ Q a b c.
Proof. rewrite ok_iff. split; [intros ([[a b] c] & H1 & H2)|intros (a & b & c & H1 & H2)]; eauto 6. Qed.

Lemma ok_int (x : Z) (Q : Z -> Prop) :
  INT_MIN <= x <= INT_MAX -> Q x -> ok (int x) Q.
Proof.
  unfold int, ok. intros [H1 H2] HQ.
  apply Z.leb_le in H1, H2. by rewrite H1, H2.
Qed.

Lemma ok_long (x : Z) (Q : Z -> Prop) :
  -9223372036854775808 <= x <= 9223372036854775807 -> Q x -> ok (long x) Q.
Proof.
  unfold long, ok. intros [H1 H2] HQ.
  apply Z.leb_le in H1, H2. by rewrite H1, H2.
Qed.

Lemma ok_idiv (x y : Z) (Q : Z -> Prop) :
  y <> 0 -> INT_MIN <= Z.quot x y <= INT_MAX -> Q (Z.quot x y) -> ok (idiv x y) Q.
Proof.
  intros Hy Hr HQ. unfold idiv. apply Z.eqb_neq in Hy. rewrite Hy. by apply ok_int.
Qed.

Lemma int_inv (x y : Z) : int x = Ok y -> y = x /\ INT_MIN <= x <= INT_MAX.
Proof.
  unfold int. case_match eqn:E; [|done]. intros [= ->].
  apply andb_true_iff in E as [E1%Z.leb_le E2%Z.leb_le]. auto.
Qed.

(** * Lemmas on loops *)

Section Loops.
Context {S : Type}.
Implicit Types (body : Z -> S -> res S) (P : Z -> S -> Prop).

Lemma ok_for_loop P n : forall i body s,
  P i s ->
  (forall j s, i <= j < i + Z.of_nat n -> P j s -> ok (body j s) (P (j + 1))) ->
  ok (for_loop n i body s) (P (i + Z.of_nat n)).
Proof.
  induction n as [|n IH]; intros i body s HP Hb; cbn [for_loop].
  - simpl. by rewrite Z.add_0_r.
  - apply ok_bind. eapply ok_mono; [apply Hb; [lia|done]|].
    intros s' HP'. eapply ok_mono; [apply IH; [done|]|].
    + intros j s'' Hj. apply Hb. lia.
    + intros s''. by replace (i + 1 + Z.of_nat n) with (i + Z.of_nat (Datatypes.S n)) by lia.
Qed.

(** the invariant rule *)
Lemma ok_for P lo hi body s (Q : S -> Prop) :
  lo <= hi -> P lo s ->
  (forall i s, lo <= i < hi -> P i s -> ok (body i s) (P (i + 1))) ->
  (forall s, P hi s -> Q s) ->
  ok (for_ lo hi body s) Q.
Proof.
  intros Hle HP Hb HQ. unfold for_.
  eapply ok_mono; [apply (ok_for_loop P); [done|]|].
  - intros j s' Hj. apply Hb. lia.
  - intros s'. rewrite Z2Nat.id by lia. replace (lo + (hi - lo)) with hi by lia. apply HQ.
Qed.

(** two nested loops in row-major order, with the linear index as counter *)
Lemma ok_for2 P rows cols (body : Z -> Z -> S -> res S) s (Q : S -> Prop) :
  0 <= rows -> 0 <= cols -> P 0 s ->
  (forall a b s, 0 <= a < rows -> 0 <= b < cols -> P (a * cols + b) s ->
     ok (body a b s) (P (a * cols + b + 1))) ->
  (forall s, P (rows * cols) s -> Q s) ->
  ok (for_ 0 rows (fun a => for_ 0 cols (body a)) s) Q.
Proof.
  intros Hr Hc HP Hb HQ.
  apply (ok_for (fun a => P (a * cols))); [done|by rewrite Z.mul_0_l| |done].
  intros a s' Ha HP'. apply (ok_for (fun b => P (a * cols + b))); [done|by rewrite Z.add_0_r| |].
  - intros b s'' Hb' HP''. rewrite Z.add_assoc. by apply Hb.
  - intros s''. by replace (a * cols + cols) with ((a + 1) * cols) by lia.
Qed.

(** loops whose bodies agree on the range *)
Lemma for_ext lo hi body body' s :
  (forall i s, lo <= i < hi -> body i s = body' i s) -> for_ lo hi body s = for_ lo hi body' s.
Proof.
  intros H. unfold for_.
  assert (forall n i s, lo <= i -> i + Z.of_nat n <= Z.max lo hi -> for_loop n i body s = for_loop n i body' s) as HL.
  { induction n as [|n IH]; intros i s0 Hi Hn; cbn [for_loop]; [done|]. rewrite H by lia.
    destruct (body' i s0) as [s1|e]; [|done]. cbn [mbind res_bind]. apply IH; lia. }
  apply HL; lia.
Qed.

Lemma for_empty lo hi body s : hi <= lo -> for_ lo hi body s = Ok s.
Proof. intros H. unfold for_. by replace (Z.to_nat (hi - lo)) with O by lia. Qed.

Lemma for_cons lo hi body s :
  lo < hi -> for_ lo hi body s = (s' ← body lo s; for_ (lo + 1) hi body s').
Proof.
  intros H. unfold for_.
  by replace (Z.to_nat (hi - lo)) with (Datatypes.S (Z.to_nat (hi - (lo + 1)))) by lia.
Qed.
End Loops.

(** * Lemmas on buffers *)

Section Buffers.
Context {A : Type}.
Implicit Types (b : buf A) (v : A).

Lemma blen_nonneg b : 0 <= blen b.
Proof. unfold blen. lia. Qed.

Lemma blen_upd b i v : blen (upd b i v) = blen b.
Proof. unfold blen, upd. by rewrite length_insert. Qed.

Lemma get_neg b i : i < 0 -> get b i = None.
Proof. intros H. unfold get. by apply Z.ltb_lt in H as ->. Qed.

Lemma get_lookup b i : 0 <= i -> get b i = mjoin (b !! Z.to_nat i).
Proof. intros H. unfold get. by destruct (Z.ltb_spec i 0); [lia|]. Qed.

Lemma get_Some_lookup b i v : get b i = Some v <-> 0 <= i /\ b !! Z.to_nat i = Some (Some v).
Proof.
  unfold get. destruct (Z.ltb_spec i 0); [split; [done|lia]|].
  destruct (b !! Z.to_nat i) as [[w|]|]; simpl; split;
    first [done | intros [_ ?]; congruence | intros; split; [lia|congruence]].
Qed.

Lemma get_lt b i v : get b i = Some v -> 0 <= i < blen b.
Proof.
  intros [? Hl]%get_Some_lookup. apply lookup_lt_Some in Hl. unfold blen. lia.
Qed.

Lemma get_ge b i : blen b <= i -> get b i = None.
Proof.
  intros H. destruct (get b i) eqn:E; [|done]. apply get_lt in E. lia.
Qed.

Lemma rd_get b i v : rd b i = Ok v <-> get b i = Some v.
Proof.
  rewrite get_Some_lookup. unfold rd.
  destruct (Z.ltb_spec i 0); [split; [done|lia]|].
  destruct (b !! Z.to_nat i) as [[w|]|] eqn:E; split; try done;
    first [intros [= ->]; split; [lia|done] | intros [_ [= ->]]; done | by intros [_ ?]].
Qed.

(** the first [n] bytes are those of another buffer *)
Definition agree (b b' : buf A) (n : Z) : Prop := forall i, 0 <= i < n -> get b' i = get b i.

Lemma ok_rd b i v (Q : A -> Prop) : get b i = Some v -> Q v -> ok (rd b i) Q.
Proof. intros H HQ. apply rd_get in H as ->. done. Qed.

Lemma wr_upd b i v : 0 <= i < blen b -> wr b i v = Ok (upd b i v).
Proof.
  intros [H1 H2]. unfold wr. apply Z.leb_le in H1. apply Z.ltb_lt in H2. by rewrite H1, H2.
Qed.

Lemma ok_wr b i v (Q : buf A -> Prop) :
  0 <= i < blen b -> Q (upd b i v) -> ok (wr b i v) Q.
Proof. intros H HQ. by rewrite wr_upd. Qed.

Lemma get_upd b i j v :
  0 <= i < blen b -> get (upd b i v) j = if decide (j = i) then Some v else get b j.
Proof.
  intros H. unfold blen in H. unfold get, upd. destruct (Z.ltb_spec j 0).
  { by rewrite decide_False by lia. }
  case_decide as E.
  - subst. rewrite list_lookup_insert_eq; [done|lia].
  - rewrite list_lookup_insert_ne; [done|lia].
Qed.

Lemma get_upd_eq b i v : 0 <= i < blen b -> get (upd b i v) i = Some v.
Proof. intros H. rewrite get_upd by done. by rewrite decide_True. Qed.

Lemma get_upd_ne b i j v : 0 <= i -> j <> i -> get (upd b i v) j = get b j.
Proof.
  intros Hi Hne. unfold get, upd. destruct (Z.ltb_spec j 0); [done|].
  rewrite list_lookup_insert_ne; [done|lia].
Qed.

Lemma blen_undef n : 0 <= n -> blen (undef (A:=A) n) = n.
Proof. intros H. unfold blen, undef. rewrite length_replicate. lia. Qed.

Lemma blen_filled_with n v : 0 <= n -> blen (filled_with n v) = n.
Proof. intros H. unfold blen, filled_with. rewrite length_replicate. lia. Qed.

Lemma get_filled_with n v i : 0 <= i < n -> get (filled_with n v) i = Some v.
Proof.
  intros H. apply get_Some_lookup. split; [lia|].
  unfold filled_with. rewrite lookup_replicate_2; [done|lia].
Qed.

Lemma blen_of_list (l : list A) : blen (of_list l) = Z.of_nat (length l).
Proof. unfold blen, of_list. by rewrite length_fmap. Qed.

Lemma get_of_list (l : list A) i : 0 <= i -> get (of_list l) i = l !! Z.to_nat i.
Proof.
  intros H. rewrite get_lookup by done. unfold of_list. rewrite list_lookup_fmap.
  by destruct (l !! Z.to_nat i).
Qed.

Lemma blen_upto b n : 0 <= n <= blen b -> blen (upto b n) = n.
Proof. unfold blen, upto. intros H. rewrite length_take. lia. Qed.

Lemma get_upto b n i : 0 <= i < n -> get (upto b n) i = get b i.
Proof.
  intros H. rewrite !get_lookup by lia. unfold upto.
  by rewrite lookup_take_lt by lia.
Qed.

Lemma blen_from b k : 0 <= k <= blen b -> blen (from b k) = blen b - k.
Proof. unfold blen, from. intros H. rewrite length_drop. lia. Qed.

Lemma get_from b k i : 0 <= k -> 0 <= i -> get (from b k) i = get b (k + i).
Proof.
  intros Hk Hi. rewrite !get_lookup by lia. unfold from. rewrite lookup_drop.
  by rewrite Z2Nat.inj_add by lia.
Qed.

(** a buffer is determined by its cells when they are all initialised *)
Lemma buf_ext b b' :
  blen b = blen b' -> (forall i, 0 <= i < blen b -> is_Some (get b i)) ->
  (forall i, 0 <= i < blen b -> get b' i = get b i) -> b' = b.
Proof.
  unfold blen. intros Hl Hs Hg. apply (list_eq_same_length _ _ (length b)); [done|lia|].
  intros i x y Hi Hx Hy. specialize (Hg (Z.of_nat i)). specialize (Hs (Z.of_nat i)).
  rewrite get_lookup in Hs by lia. rewrite !get_lookup in Hg by lia.
  rewrite Nat2Z.id in Hs, Hg. rewrite Hx in Hg. rewrite Hy in Hg, Hs.
  destruct Hs as [v Hv]; [lia|]. simpl in *. subst y. rewrite Hg by lia. done.
Qed.

Lemma ok_blit b di b2 si n (Q : buf A -> Prop) :
  0 <= di -> 0 <= si -> 0 <= n -> di + n <= blen b -> si + n <= blen b2 ->
  (forall b', patched b di (di + n) (fun i => get b2 (si + (i - di))) b' -> Q b') ->
  ok (blit b di b2 si n) Q.
Proof.
  intros H1 H2 H3 H4 H5 HQ. unfold blit.
  rewrite (proj2 (Z.leb_le _ _) H1), (proj2 (Z.leb_le _ _) H2), (proj2 (Z.leb_le _ _) H3),
    (proj2 (Z.leb_le _ _) H4), (proj2 (Z.leb_le _ _) H5). simpl. apply HQ.
  unfold blen in *. split; [|split].
  - unfold blen. rewrite !length_app, !length_take, !length_drop. lia.
  - intros i Hi. rewrite !get_lookup by lia.
    rewrite lookup_app_r by (rewrite length_take; lia).
    rewrite lookup_app_l by (rewrite !length_take, length_drop; lia).
    rewrite lookup_take_lt by (rewrite length_take; lia).
    rewrite lookup_drop, length_take. do 2 f_equal. lia.
  - intros i Hi. destruct (decide (i < 0)); [by rewrite !get_neg by lia|].
    rewrite !get_lookup by lia. destruct (decide (i < di)).
    + rewrite lookup_app_l by (rewrite length_take; lia).
      by rewrite lookup_take_lt by lia.
    + rewrite lookup_app_r by (rewrite length_take; lia).
      rewrite lookup_app_r by (rewrite !length_take, length_drop; lia).
      rewrite lookup_drop, !length_take, length_drop. do 2 f_equal. lia.
Qed.
End Buffers.

(** a property of every element, by evaluation *)
Lemma forall_test {A} (P : A -> Prop) (f : A -> bool) l :
  (forall x, f x = true -> P x) -> forallb f l = true -> Forall P l.
Proof. rewrite forallb_forall. intros HP H. apply Forall_forall. intros x Hx%list_elem_of_In. by apply HP, H. Qed.

Lemma forall_bytes l : forallb (fun v => (0 <=? v) && (v <? 256)) l = true -> Forall (fun b => 0 <= b < 256) l.
Proof. apply forall_test. intros x [?%Z.leb_le ?%Z.ltb_lt]%andb_true_iff. lia. Qed.

Lemma forall_chars l : forallb (fun v => (0 <? v) && (v <? 256)) l = true -> Forall (fun b => 0 < b < 256) l.
Proof. apply forall_test. intros x [?%Z.ltb_lt ?%Z.ltb_lt]%andb_true_iff. lia. Qed.

Lemma bytes_of_list (l : list Z) n :
  forallb (fun v => (0 <=? v) && (v <? 256)) l = true -> n <= Z.of_nat (length l) ->
  bytes_upto (of_list l) n.
Proof.
  intros H Hn i Hi. rewrite get_of_list by lia.
  destruct (lookup_lt_is_Some_2 l (Z.to_nat i)) as [v Hv]; [lia|].
  exists v. split; [done|]. apply forall_bytes in H. rewrite Forall_forall in H.
  apply H. by eapply list_elem_of_lookup_2.
Qed.

(** * Lemmas on integers *)

(** row-major indices determine their coordinates *)
Lemma lex_inj n a b a' b' :
  0 <= b < n -> 0 <= b' < n -> a * n + b = a' * n + b' -> a = a' /\ b = b'.
Proof. intros. assert (a = a') by nia. subst. lia. Qed.

Lemma lex_lt n m a b : 0 <= a < m -> 0 <= b < n -> 0 <= a * n + b < m * n.
Proof. nia. Qed.

Lemma mod_small' x m : 0 <= x < m -> x mod m = x.
Proof. apply Z.mod_small. Qed.

Lemma u8_range x : 0 <= u8 x < 256.
Proof. by apply Z.mod_pos_bound. Qed.
Lemma u16_range x : 0 <= u16 x < 65536.
Proof. by apply Z.mod_pos_bound. Qed.
Lemma u32_range x : 0 <= u32 x < 4294967296.
Proof. by apply Z.mod_pos_bound. Qed.
Lemma u64_range x : 0 <= u64 x < 18446744073709551616.
Proof. by apply Z.mod_pos_bound. Qed.

Lemma u32_add_l a b : u32 (u32 a + b) = u32 (a + b).
Proof. unfold u32. by rewrite Zplus_mod_idemp_l. Qed.

Lemma u32_add_r a b : u32 (a + u32 b) = u32 (a + b).
Proof. unfold u32. by rewrite Zplus_mod_idemp_r. Qed.

Lemma u32_mul a b : u32 (u32 a * u32 b) = u32 (a * b).
Proof. unfold u32. by rewrite <- Zmult_mod. Qed.

Lemma u32_small x : 0 <= x < 4294967296 -> u32 x = x.
Proof. apply Z.mod_small. Qed.

Lemma u64_add_l a b : u64 (u64 a + b) = u64 (a + b).
Proof. unfold u64. by rewrite Zplus_mod_idemp_l. Qed.

Lemma u16_add_l a b : u16 (u16 a + b) = u16 (a + b).
Proof. unfold u16. by rewrite Zplus_mod_idemp_l. Qed.

Lemma u8_small x : 0 <= x < 256 -> u8 x = x.
Proof. intros. by apply Z.mod_small. Qed.
Lemma u16_small x : 0 <= x < 65536 -> u16 x = x.
Proof. apply Z.mod_small. Qed.

Lemma u64_small x : 0 <= x < 18446744073709551616 -> u64 x = x.
Proof. apply Z.mod_small. Qed.

Lemma i16_range x : -32768 <= i16 x < 32768.
Proof. unfold i16. pose proof (Z.mod_pos_bound x 65536). case_match; lia. Qed.

Lemma i32_id x : INT_MIN <= x <= INT_MAX -> i32 x = x.
Proof.
  unfold i32, INT_MIN, INT_MAX. intros H.
  destruct (Z.ltb_spec (x mod 4294967296) 2147483648); Z.div_mod_to_equations; lia.
Qed.

(** or of disjoint bit ranges is a sum *)
Lemma lor_shiftl_add a b n : 0 <= n -> 0 <= a < 2 ^ n -> Z.lor a (Z.shiftl b n) = a + b * 2 ^ n.
Proof.
  intros Hn Ha. rewrite Z.shiftl_mul_pow2 by done.
  rewrite <- Z.lxor_lor, <- Z.add_nocarry_lxor; [done| |];
    apply Z.bits_inj'; intros k Hk; rewrite Z.land_spec, Z.bits_0;
    (destruct (decide (k < n)); [rewrite Z.mul_pow2_bits_low by lia; apply andb_false_r|]);
    rewrite <- (Z.mod_small a (2 ^ n)) by done;
    rewrite Z.mod_pow2_bits_high by lia; done.
Qed.

(** * Automation *)

Create HintDb cbuf discriminated.
#[export] Hint Resolve u8_range u16_range u32_range u64_range i16_range : cbuf.

(** one step of a monadic computation under [ok] *)
Ltac ok_step :=
  lazymatch goal with
  | |- ok (_ ≫= _) _ => apply ok_bind
  | |- ok (mret _) _ => apply ok_ret
  | |- ok (Ok _) _ => apply ok_ret
  | |- ok (int _) _ => apply ok_int; [unfold INT_MIN, INT_MAX; try lia|]
  | |- ok (long _) _ => apply ok_long; [try lia|]
  | |- ok (wr _ _ _) _ => apply ok_wr; [rewrite ?blen_upd; try lia|]
  end.
Ltac ok_steps := repeat ok_step.

(** read a cell whose content is known *)
Ltac ok_read H := eapply ok_rd; [exact H|].

(** evaluate [get] through a stack of updates with decidable indices *)
Ltac get_upds :=
  repeat first
    [ rewrite get_upd_eq by (rewrite ?blen_upd; lia)
    | rewrite get_upd_ne by lia ].
