(* ===== verification/LibReac.v ===== *)
(** The interface to libreac, the external library that owns the REAC wire
    geometry ([<reac/reac.h>]).  Its source is not part of the repository, so
    its constants and functions are the fields of a class, and what the
    repository documents about them (README "Verified facts", ARCHITECTURE
    "Clock model", the comments of reac_decode.c, reac_tx.h and reac_rx.h) are
    the laws of a second class.  Clients are stated against the classes;
    [documented_lib] shows that the laws can hold together. *)

From S2P Require Import Prelude.

(** [struct reac_mode], the stream descriptor: the three fields the code reads. *)
Record reac_mode : Type := ReacMode {
  sample_rate : Z;
  n_channels : Z;
  samples_per_pkt : Z;
}.

#[export] Instance reac_mode_eq_dec : EqDecision reac_mode.
Proof. solve_decision. Defined.

(** Constants and functions of [<reac/reac.h>] used by the program. *)
Class ReacLib : Type := {
  REAC_FRAME_BYTES : Z;
  REAC_L2_HEADER_LEN : Z;
  REAC_AUDIO_OFFSET : Z;
  REAC_RESOLUTION : Z;
  REAC_MAX_CHANNELS : Z;
  REAC_SAMPLES_PER_PKT : Z;
  REAC_ETHERTYPE : Z;
  REAC_HDR_COUNTER_OFF : Z;
  REAC_END_MARKER_0 : Z;
  REAC_END_MARKER_1 : Z;
  reac_mode_for : Z -> reac_mode;
  reac_counter_gap : Z -> Z -> Z;
}.

(** What the repository documents about them. *)
Class ReacDoc (L : ReacLib) : Prop := {
  doc_frame_bytes : REAC_FRAME_BYTES = 1492;
  doc_header_len : REAC_L2_HEADER_LEN = 50;
  doc_audio_offset : REAC_AUDIO_OFFSET = 50;
  doc_resolution : REAC_RESOLUTION = 3;
  doc_max_channels : REAC_MAX_CHANNELS = 40;
  doc_samples_per_pkt : REAC_SAMPLES_PER_PKT = 12;
  doc_ethertype : REAC_ETHERTYPE = 34841;
  doc_counter_off : REAC_HDR_COUNTER_OFF = 14;
  doc_end_marker_0 : REAC_END_MARKER_0 = 194;
  doc_end_marker_1 : REAC_END_MARKER_1 = 234;
  doc_mode_channels : forall r, n_channels (reac_mode_for r) = 40;
  doc_mode_samples : forall r, samples_per_pkt (reac_mode_for r) = 12;
  doc_mode_rate : forall r, 0 < sample_rate (reac_mode_for r) <= 192000;
  doc_gap_range : forall a b, 0 <= reac_counter_gap a b < 65536;
}.

(** A mode whose audio fits one REAC frame and the buffers sized for it. *)
Definition mode_ok {L : ReacLib} (m : reac_mode) : Prop :=
  0 < n_channels m <= REAC_MAX_CHANNELS
  /\ 0 < samples_per_pkt m <= 24
  /\ REAC_L2_HEADER_LEN + n_channels m * samples_per_pkt m * REAC_RESOLUTION
     <= REAC_FRAME_BYTES.

#[export] Instance mode_ok_dec {L : ReacLib} (m : reac_mode) : Decision (mode_ok m).
Proof. unfold mode_ok. apply _. Defined.

(** An instance with the documented values: 44.1, 48 and 96 kHz modes of 40
    channels and 12 samples, and the number of frames missing between two
    consecutive counters. *)
Definition documented_lib : ReacLib := {|
  REAC_FRAME_BYTES := 1492;
  REAC_L2_HEADER_LEN := 50;
  REAC_AUDIO_OFFSET := 50;
  REAC_RESOLUTION := 3;
  REAC_MAX_CHANNELS := 40;
  REAC_SAMPLES_PER_PKT := 12;
  REAC_ETHERTYPE := 34841;
  REAC_HDR_COUNTER_OFF := 14;
  REAC_END_MARKER_0 := 194;
  REAC_END_MARKER_1 := 234;
  reac_mode_for r := ReacMode (if (r =? 96000) || (r =? 44100) then r else 48000) 40 12;
  reac_counter_gap a b := u16 (b - a - 1);
|}.

Lemma documented_lib_doc : ReacDoc documented_lib.
Proof.
  split; try done; intros; simpl.
  - case_match; [|lia].
    destruct (Z.eqb_spec r 96000), (Z.eqb_spec r 44100); simpl in *; lia || done.
  - apply u16_range.
Qed.

(** every mode libreac hands out is usable *)
Lemma reac_mode_for_ok `{D : ReacDoc} r : mode_ok (reac_mode_for r).
Proof.
  unfold mode_ok. rewrite doc_mode_channels, doc_mode_samples, doc_header_len,
    doc_resolution, doc_frame_bytes, doc_max_channels. lia.
Qed.

(** rewrite the libreac constants with their documented values *)
Ltac reac_consts :=
  rewrite ?doc_frame_bytes, ?doc_header_len, ?doc_audio_offset, ?doc_resolution,
    ?doc_max_channels, ?doc_samples_per_pkt, ?doc_ethertype, ?doc_counter_off,
    ?doc_end_marker_0, ?doc_end_marker_1 in *.
