(* ===== verification/Pcm.v ===== *)
(** Signed 24-bit little-endian PCM in byte buffers: the [load24] and [store24]
    helpers (plc.c, and the identical [store24] of tone.c), and the shape of the
    loops that fill a buffer three bytes at a time. *)

From S2P Require Import Prelude.

Definition SMAX : Z := 8388607.
Definition SMIN : Z := -8388608.

(** [load24(p)] with [p = b + i] *)
Definition load24 (b : buf Z) (i : Z) : res Z :=
  p0 ← rd b i; p1 ← rd b (i + 1); p2 ← rd b (i + 2);
  let v := Z.lor (Z.lor p0 (Z.shiftl p1 8)) (Z.shiftl p2 16) in
  mret (if Z.land v 8388608 =? 0 then v else Z.lor v (Z.lnot 16777215)).

(** the saturation at the head of [store24] *)
Definition clamp24 (x : Z) : Z := if x >? SMAX then SMAX else if x <? SMIN then SMIN else x.

(** [store24(p, x)] with [p = b + i] *)
Definition store24 (b : buf Z) (i x : Z) : res (buf Z) :=
  let x := clamp24 x in
  b ← wr b i (u8 x);
  b ← wr b (i + 1) (u8 (Z.shiftr x 8));
  wr b (i + 2) (u8 (Z.shiftr x 16)).

(** * Specification side *)

(** the signed value of three little-endian bytes *)
Definition s24 (p0 p1 p2 : Z) : Z :=
  let v := p0 + p1 * 256 + p2 * 65536 in if v <? 8388608 then v else v - 16777216.

(** byte [k] of a signed 24-bit value *)
Definition byte24 (x k : Z) : Z := u8 (Z.shiftr x (8 * k)).

(** the [n]-th sample of a planar buffer, when its bytes are initialised *)
Definition sample (b : buf Z) (n : Z) : option Z :=
  match get b (n * 3), get b (n * 3 + 1), get b (n * 3 + 2) with
  | Some p0, Some p1, Some p2 => Some (s24 p0 p1 p2)
  | _, _, _ => None
  end.

(** [o] is [o0] after the three-byte groups [0 .. N-1] from offset [off] on have
    been written, byte [k] of group [n] being [f n k] *)
Definition written (o0 : buf Z) (off N : Z) (f : Z -> Z -> option Z) (o : buf Z) : Prop :=
  blen o = blen o0
  /\ (forall n k, 0 <= n < N -> 0 <= k < 3 -> get o (off + n * 3 + k) = f n k)
  /\ (forall j, ~ (off <= j < off + N * 3) -> get o j = get o0 j).

(** * Lemmas *)

Lemma s24_range p0 p1 p2 :
  0 <= p0 < 256 -> 0 <= p1 < 256 -> 0 <= p2 < 256 -> SMIN <= s24 p0 p1 p2 <= SMAX.
Proof. unfold s24, SMIN, SMAX. intros. case_match; lia. Qed.

Lemma clamp24_range x : SMIN <= clamp24 x <= SMAX.
Proof.
  unfold clamp24, SMIN, SMAX.
  destruct (Z.gtb_spec x 8388607), (Z.ltb_spec x (-8388608)); lia.
Qed.

Lemma clamp24_id x : SMIN <= x <= SMAX -> clamp24 x = x.
Proof.
  unfold clamp24, SMIN, SMAX. intros.
  destruct (Z.gtb_spec x 8388607), (Z.ltb_spec x (-8388608)); lia.
Qed.

Lemma byte24_range x k : 0 <= byte24 x k < 256.
Proof. apply u8_range. Qed.

(** the three stored bytes determine the value *)
Lemma s24_byte24 x : SMIN <= x <= SMAX -> s24 (byte24 x 0) (byte24 x 1) (byte24 x 2) = x.
Proof.
  unfold SMIN, SMAX, byte24, s24, u8. intros H.
  rewrite !Z.shiftr_div_pow2 by lia.
  change (2 ^ (8 * 0)) with 1. change (2 ^ (8 * 1)) with 256. change (2 ^ (8 * 2)) with 65536.
  rewrite Z.div_1_r.
  case_match; Z.div_mod_to_equations; lia.
Qed.

Lemma byte24_s24 p0 p1 p2 k :
  0 <= p0 < 256 -> 0 <= p1 < 256 -> 0 <= p2 < 256 -> 0 <= k < 3 ->
  byte24 (s24 p0 p1 p2) k = if k =? 0 then p0 else if k =? 1 then p1 else p2.
Proof.
  intros H0 H1 H2 Hk. unfold byte24, s24, u8. rewrite Z.shiftr_div_pow2 by lia.
  assert (k = 0 \/ k = 1 \/ k = 2) as [->|[->| ->]] by lia; simpl Z.eqb;
    simpl Z.mul; [change (2 ^ 0) with 1|change (2 ^ 8) with 256|change (2 ^ 16) with 65536];
    cbv iota zeta; case_match; Z.div_mod_to_equations; lia.
Qed.

Lemma land_sign v : 0 <= v < 16777216 -> (Z.land v 8388608 =? 0) = (v <? 8388608).
Proof.
  intros Hv. change 8388608 with (2 ^ 23) at 1.
  assert (Z.testbit (Z.land v (2 ^ 23)) 23 = Z.testbit v 23) as Hb.
  { rewrite Z.land_spec, Z.pow2_bits_true by lia. apply andb_true_r. }
  destruct (Z.ltb_spec v 8388608) as [Hl|Hl].
  - apply Z.eqb_eq, Z.bits_inj'. intros k Hk.
    rewrite Z.land_spec, Z.bits_0, Z.pow2_bits_eqb by lia.
    destruct (Z.eqb_spec 23 k) as [<-|]; [|apply andb_false_r].
    rewrite andb_true_r, Z.testbit_false by lia. by rewrite Z.div_small by (simpl; lia).
  - apply Z.eqb_neq. intros E. rewrite E, Z.bits_0 in Hb. symmetry in Hb.
    rewrite Z.testbit_false in Hb by lia. change (2 ^ 23) with 8388608 in Hb.
    Z.div_mod_to_equations; lia.
Qed.

Lemma load24_bits p0 p1 p2 :
  0 <= p0 < 256 -> 0 <= p1 < 256 -> 0 <= p2 < 256 ->
  let v := Z.lor (Z.lor p0 (Z.shiftl p1 8)) (Z.shiftl p2 16) in
  (if Z.land v 8388608 =? 0 then v else Z.lor v (Z.lnot 16777215)) = s24 p0 p1 p2.
Proof.
  intros H0 H1 H2 v.
  assert (v = p0 + p1 * 256 + p2 * 65536) as ->.
  { unfold v. rewrite (lor_shiftl_add p0) by (simpl; lia).
    rewrite lor_shiftl_add by (simpl; lia). done. }
  rewrite land_sign by lia. unfold s24. case_match; [done|].
  change (Z.lnot 16777215) with (Z.shiftl (-1) 24). rewrite lor_shiftl_add by (simpl; lia).
  change (2 ^ 24) with 16777216. lia.
Qed.

(** [load24] reads the sample *)
Lemma ok_load24 b i (Q : Z -> Prop) :
  (forall k, 0 <= k < 3 -> exists v, get b (i + k) = Some v /\ 0 <= v < 256) ->
  (forall p0 p1 p2, get b i = Some p0 -> get b (i + 1) = Some p1 -> get b (i + 2) = Some p2 ->
     SMIN <= s24 p0 p1 p2 <= SMAX -> Q (s24 p0 p1 p2)) ->
  ok (load24 b i) Q.
Proof.
  intros Hb HQ.
  destruct (Hb 0) as (p0 & E0 & R0); [lia|]. destruct (Hb 1) as (p1 & E1 & R1); [lia|].
  destruct (Hb 2) as (p2 & E2 & R2); [lia|]. rewrite Z.add_0_r in E0.
  unfold load24. ok_step. ok_read E0. ok_step. ok_read E1. ok_step. ok_read E2.
  ok_step. rewrite load24_bits by done. apply HQ; auto using s24_range.
Qed.

Section Written.
Implicit Types (o : buf Z) (f : Z -> Z -> option Z).

Lemma written_start o off f : written o off 0 f o.
Proof. split; [done|]. split; [lia|done]. Qed.

(** one more group *)
Lemma written_step o0 off N f o x0 x1 x2 :
  written o0 off N f o -> 0 <= off -> 0 <= N -> off + N * 3 + 3 <= blen o0 ->
  f N 0 = Some x0 -> f N 1 = Some x1 -> f N 2 = Some x2 ->
  written o0 off (N + 1) f
    (upd (upd (upd o (off + N * 3) x0) (off + N * 3 + 1) x1) (off + N * 3 + 2) x2).
Proof.
  intros (Hl & Hw & Hr) Ho HN Hb F0 F1 F2. split; [|split].
  - by rewrite !blen_upd.
  - intros n k Hn Hk. destruct (decide (n = N)) as [->|].
    + assert (k = 0 \/ k = 1 \/ k = 2) as [->|[->| ->]] by lia; rewrite ?Z.add_0_r;
        get_upds; done.
    + get_upds. apply Hw; lia.
  - intros j Hj. get_upds. apply Hr. lia.
Qed.

Lemma written_blen o0 off N f o : written o0 off N f o -> blen o = blen o0.
Proof. by intros [? _]. Qed.

(** writing one group, byte by byte *)
Lemma ok_write3 o0 off N f o x0 x1 x2 i (Q : buf Z -> Prop) :
  written o0 off N f o -> 0 <= off -> 0 <= N -> off + N * 3 + 3 <= blen o0 ->
  f N 0 = Some x0 -> f N 1 = Some x1 -> f N 2 = Some x2 -> i = off + N * 3 ->
  (forall o', written o0 off (N + 1) f o' -> Q o') ->
  ok (o ← wr o i x0; o ← wr o (i + 1) x1; wr o (i + 2) x2) Q.
Proof.
  intros W H1 H2 H3 F0 F1 F2 -> HQ. pose proof (written_blen _ _ _ _ _ W).
  ok_steps. apply HQ. by apply written_step.
Qed.

(** [store24] as the writer of a group *)
Lemma ok_store24 o0 off N f o x i (Q : buf Z -> Prop) :
  written o0 off N f o -> 0 <= off -> 0 <= N -> off + N * 3 + 3 <= blen o0 ->
  (forall k, 0 <= k < 3 -> f N k = Some (byte24 (clamp24 x) k)) -> i = off + N * 3 ->
  (forall o', written o0 off (N + 1) f o' -> Q o') ->
  ok (store24 o i x) Q.
Proof.
  intros W H1 H2 H3 F -> HQ. unfold store24.
  eapply ok_write3; try done; rewrite F by lia; done.
Qed.

Lemma written_get o0 off N f o n k :
  written o0 off N f o -> 0 <= n < N -> 0 <= k < 3 -> get o (off + n * 3 + k) = f n k.
Proof. intros (_ & Hw & _). apply Hw. Qed.

(** only the function's values matter *)
Lemma written_ext o0 off N f g o :
  written o0 off N f o ->
  (forall n k, 0 <= n < N -> 0 <= k < 3 -> f n k = g n k) -> written o0 off N g o.
Proof.
  intros (Hl & Hw & Hr) E. split; [done|]. split; [|done].
  intros n k Hn Hk. rewrite Hw by done. by apply E.
Qed.
End Written.

(** written groups of bytes are bytes *)
Lemma written_bytes o0 N f o :
  written o0 0 N f o ->
  (forall n k, 0 <= n < N -> 0 <= k < 3 -> exists v, f n k = Some v /\ 0 <= v < 256) ->
  bytes_upto o (N * 3).
Proof.
  intros W F i Hi.
  assert (exists n k, i = n * 3 + k /\ 0 <= k < 3) as (n & k & -> & Hk)
    by (exists (i / 3), (i mod 3); Z.div_mod_to_equations; lia).
  rewrite <- (Z.add_0_l (n * 3)). rewrite (written_get _ _ _ _ _ _ _ W) by lia. apply F; lia.
Qed.

(** the sample that a group of [written] bytes of a value denotes *)
Lemma written_sample o0 N f o n x :
  written o0 0 N f o -> 0 <= n < N ->
  (forall k, 0 <= k < 3 -> f n k = Some (byte24 x k)) -> SMIN <= x <= SMAX ->
  sample o n = Some x.
Proof.
  intros W Hn F Hx. unfold sample.
  pose proof (written_get _ _ _ _ _ n 0 W Hn) as E0.
  pose proof (written_get _ _ _ _ _ n 1 W Hn) as E1.
  pose proof (written_get _ _ _ _ _ n 2 W Hn) as E2.
  rewrite F in E0, E1, E2 by lia.
  replace (0 + n * 3 + 0) with (n * 3) in E0 by lia. rewrite Z.add_0_l in E1, E2.
  rewrite E0, E1, E2 by lia. by rewrite s24_byte24.
Qed.

Lemma row_div n a b : 0 <= b < n -> (a * n + b) / n = a.
Proof. intros. rewrite Z.div_add_l by lia. rewrite Z.div_small by lia. lia. Qed.

Lemma row_mod n a b : 0 <= b < n -> (a * n + b) mod n = b.
Proof. intros. rewrite Z.add_comm, Z.mod_add by lia. by apply Z.mod_small. Qed.
