(* ===== verification/Decode.v ===== *)
(** reac_decode.c: validation of a raw REAC Ethernet frame and de-interleaving of
    its audio into planar 24-bit little-endian PCM. *)

From S2P Require Import Prelude LibReac Pcm.

(** [struct reac_frame] *)
Record reac_frame : Type := ReacFrame {
  counter : Z;  (* uint16_t *)
  valid : Z;    (* int *)
}.

Section Decode.
Context {L : ReacLib}.
Implicit Types (mode : reac_mode) (raw out : buf Z).

Definition no_frame : reac_frame := ReacFrame 0 0.

Definition reac_frame_inspect raw (len : Z) mode : res reac_frame :=
  if negb (len =? REAC_FRAME_BYTES) then mret no_frame else
  (* ethertype at bytes 12-13 *)
  e0 ← rd raw 12;
  if negb (e0 =? 136) then mret no_frame else
  e1 ← rd raw 13;
  if negb (e1 =? 25) then mret no_frame else
  (* end marker *)
  m0 ← rd raw (len - 2);
  if negb (m0 =? REAC_END_MARKER_0) then mret no_frame else
  m1 ← rd raw (len - 1);
  if negb (m1 =? REAC_END_MARKER_1) then mret no_frame else
  c0 ← rd raw 14;
  c1 ← rd raw 15;
  mret (ReacFrame (u16 (Z.lor c0 (Z.shiftl c1 8))) 1).

(** body of the inner loop: one 3-byte copy; the state is [out] and the offset
    of [dptr] in it *)
Definition decode_sample raw (nch ch s : Z) (st : buf Z * Z) : res (buf Z * Z) :=
  let '(out, d) := st in
  m ← int (s * nch);
  idx ← int (m + ch);
  let sptr := REAC_L2_HEADER_LEN + idx * REAC_RESOLUTION in
  v0 ← rd raw sptr;
  out ← wr out d v0;
  v1 ← rd raw (sptr + 1);
  out ← wr out (d + 1) v1;
  v2 ← rd raw (sptr + 2);
  out ← wr out (d + 2) v2;
  mret (out, d + 3).

Definition reac_decode raw (len : Z) mode out : res (Z * buf Z) :=
  f ← reac_frame_inspect raw len mode;
  if valid f =? 0 then mret (-1, out) else
  let nch := n_channels mode in
  let ns := samples_per_pkt mode in
  '(out, _) ← for_ 0 nch (fun ch st => for_ 0 ns (fun s => decode_sample raw nch ch s) st)
                (out, 0);
  mret (ns, out).

(** * Specification *)

(** what [reac_frame_inspect] accepts *)
Definition well_formed raw (len : Z) : bool :=
  bool_decide (len = REAC_FRAME_BYTES
               /\ get raw 12 = Some 136 /\ get raw 13 = Some 25
               /\ get raw (len - 2) = Some REAC_END_MARKER_0
               /\ get raw (len - 1) = Some REAC_END_MARKER_1).

Definition le16 raw (i : Z) : Z :=
  match get raw i, get raw (i + 1) with Some c0, Some c1 => c0 + c1 * 256 | _, _ => 0 end.

(** offset in the frame of byte [k] of channel [ch], time sample [s] *)
Definition wire_offset mode (ch s k : Z) : Z :=
  REAC_L2_HEADER_LEN + (s * n_channels mode + ch) * REAC_RESOLUTION + k.

(** byte [k] of the [n]-th sample in planar order *)
Definition planar_byte mode raw (n k : Z) : option Z :=
  get raw (wire_offset mode (n / samples_per_pkt mode) (n mod samples_per_pkt mode) k).

(** [out] holds the de-interleaved audio of [raw], and [out0] elsewhere *)
Definition decoded mode raw out0 out : Prop :=
  written out0 0 (n_channels mode * samples_per_pkt mode) (planar_byte mode raw) out.

(** * Lemmas *)

Context {D : ReacDoc L}.

Lemma inspect_spec raw len mode :
  bytes_upto raw len ->
  reac_frame_inspect raw len mode =
    Ok (if well_formed raw len then ReacFrame (le16 raw 14) 1 else no_frame).
Proof.
  intros HB. unfold reac_frame_inspect, well_formed, le16.
  destruct (Z.eqb_spec len REAC_FRAME_BYTES) as [El|]; simpl;
    [|by rewrite bool_decide_eq_false_2 by intuition congruence].
  assert (len = 1492) as Hl by (rewrite El; apply doc_frame_bytes).
  destruct (HB 12) as (e0 & E0 & _); [lia|]. destruct (HB 13) as (e1 & E1 & _); [lia|].
  destruct (HB (len - 2)) as (m0 & M0 & _); [lia|].
  destruct (HB (len - 1)) as (m1 & M1 & _); [lia|].
  destruct (HB 14) as (c0 & C0 & R0); [lia|]. destruct (HB 15) as (c1 & C1 & R1); [lia|].
  change (14 + 1) with 15.
  rewrite (proj2 (rd_get _ _ _) E0), (proj2 (rd_get _ _ _) E1),
    (proj2 (rd_get _ _ _) M0), (proj2 (rd_get _ _ _) M1),
    (proj2 (rd_get _ _ _) C0), (proj2 (rd_get _ _ _) C1), E0, E1, M0, M1, C0, C1.
  cbn [mbind res_bind].
  destruct (Z.eqb_spec e0 136); simpl; [|by rewrite bool_decide_eq_false_2 by intuition congruence].
  destruct (Z.eqb_spec e1 25); simpl; [|by rewrite bool_decide_eq_false_2 by intuition congruence].
  destruct (Z.eqb_spec m0 REAC_END_MARKER_0); simpl;
    [|by rewrite bool_decide_eq_false_2 by intuition congruence].
  destruct (Z.eqb_spec m1 REAC_END_MARKER_1); simpl;
    [|by rewrite bool_decide_eq_false_2 by intuition congruence].
  rewrite bool_decide_eq_true_2 by (repeat split; congruence). do 2 f_equal.
  rewrite lor_shiftl_add by (simpl; lia). unfold u16. apply Z.mod_small.
  change (2 ^ 8) with 256. lia.
Qed.

Lemma well_formed_len raw len : well_formed raw len = true -> len = 1492.
Proof. intros [-> _]%bool_decide_eq_true. apply doc_frame_bytes. Qed.

Lemma wire_offset_range mode ch s k :
  mode_ok mode -> 0 <= ch < n_channels mode -> 0 <= s < samples_per_pkt mode -> 0 <= k < 3 ->
  50 <= wire_offset mode ch s k < 1492.
Proof.
  unfold mode_ok, wire_offset. reac_consts. intros (Hc & Hs & Hf) ? ? ?.
  pose proof (lex_lt (n_channels mode) (samples_per_pkt mode) s ch). lia.
Qed.

Lemma planar_byte_row mode raw ch s k :
  0 <= s < samples_per_pkt mode ->
  planar_byte mode raw (ch * samples_per_pkt mode + s) k = get raw (wire_offset mode ch s k).
Proof. intros Hs. unfold planar_byte. by rewrite row_div, row_mod. Qed.

Lemma ok_decode_sample raw mode out0 o ch s :
  mode_ok mode -> bytes_upto raw 1492 ->
  0 <= ch < n_channels mode -> 0 <= s < samples_per_pkt mode ->
  n_channels mode * samples_per_pkt mode * 3 <= blen out0 ->
  let n := ch * samples_per_pkt mode + s in
  written out0 0 n (planar_byte mode raw) o ->
  ok (decode_sample raw (n_channels mode) ch s (o, n * 3))
     (fun '(o', d) => written out0 0 (n + 1) (planar_byte mode raw) o' /\ d = (n + 1) * 3).
Proof.
  intros HM HB Hch Hs Hlen n W. pose proof (written_blen _ _ _ _ _ W) as Hbl.
  assert (0 <= n < n_channels mode * samples_per_pkt mode) by by apply lex_lt.
  assert (0 <= s * n_channels mode /\ 0 <= s * n_channels mode + ch < 960).
  { destruct HM as (HM1 & HM2 & _). revert HM1. reac_consts. nia. }
  pose proof (fun k => wire_offset_range mode ch s k HM Hch Hs) as Hw.
  assert (forall k, 0 <= k < 3 -> exists v, get raw (wire_offset mode ch s k) = Some v) as Hv.
  { intros k Hk. destruct (HB (wire_offset mode ch s k)) as (v & ? & _); [|eauto].
    specialize (Hw k Hk). lia. }
  destruct (Hv 0) as (v0 & E0); [lia|]. destruct (Hv 1) as (v1 & E1); [lia|].
  destruct (Hv 2) as (v2 & E2); [lia|].
  pose proof (planar_byte_row mode raw ch s) as Hp. fold n in Hp.
  unfold decode_sample. do 2 (ok_step; ok_step).
  unfold wire_offset in *. rewrite Z.add_0_r in E0.
  ok_step. ok_read E0. do 2 ok_step. ok_step. ok_read E1. do 2 ok_step. ok_step. ok_read E2.
  ok_steps. split; [|lia].
  rewrite <- (Z.add_0_l (n * 3)). apply written_step; try done; try lia;
    rewrite Hp by done; try done. by rewrite Z.add_0_r.
Qed.

(** the decoder, whatever the frame holds *)
Lemma ok_reac_decode raw len mode out (Q : Z * buf Z -> Prop) :
  mode_ok mode -> bytes_upto raw len ->
  n_channels mode * samples_per_pkt mode * 3 <= blen out ->
  (well_formed raw len = false -> Q (-1, out)) ->
  (forall out', well_formed raw len = true -> decoded mode raw out out' ->
     Q (samples_per_pkt mode, out')) ->
  ok (reac_decode raw len mode out) Q.
Proof.
  intros HM HB Hlen Hbad Hgood. unfold reac_decode. rewrite inspect_spec by done.
  cbn [mbind res_bind]. destruct (well_formed raw len) eqn:WF; simpl; [|by apply Hbad].
  pose proof (well_formed_len _ _ WF) as ->. ok_step.
  apply (ok_for2 (fun n '(o, d) => written out 0 n (planar_byte mode raw) o /\ d = n * 3)).
  - destruct HM; lia.
  - destruct HM as (_ & ? & _); lia.
  - split; [apply written_start|done].
  - intros ch s [o d] Hch Hs [W ->]. by apply ok_decode_sample.
  - intros [o d] [W _]. ok_step. by apply Hgood.
Qed.

(** the three bytes of channel [ch], sample [s] in a decoded buffer *)
Lemma decoded_get mode raw out0 out ch s k :
  decoded mode raw out0 out -> mode_ok mode ->
  0 <= ch < n_channels mode -> 0 <= s < samples_per_pkt mode -> 0 <= k < 3 ->
  get out ((ch * samples_per_pkt mode + s) * 3 + k) = get raw (wire_offset mode ch s k).
Proof.
  intros W HM Hch Hs Hk. rewrite <- planar_byte_row by done.
  rewrite <- (written_get _ _ _ _ _ _ k W); [f_equal; lia|by apply lex_lt|done].
Qed.

(** decoded PCM is made of bytes *)
Lemma decoded_bytes mode raw out0 out :
  decoded mode raw out0 out -> mode_ok mode -> bytes_upto raw 1492 ->
  bytes_upto out (n_channels mode * samples_per_pkt mode * 3).
Proof.
  intros W HM HB i Hi. pose proof HM as (HM1 & HM2 & _).
  set (ns := samples_per_pkt mode) in *.
  assert (exists n k, i = n * 3 + k /\ 0 <= k < 3) as (n & k & -> & Hk)
    by (exists (i / 3), (i mod 3); Z.div_mod_to_equations; lia).
  assert (0 <= n / ns < n_channels mode) as Hc by (split; [apply Z.div_pos|apply Z.div_lt_upper_bound]; lia).
  assert (0 <= n mod ns < ns) as Hm by (apply Z.mod_pos_bound; lia).
  replace (n * 3 + k) with ((n / ns * ns + n mod ns) * 3 + k)
    by (pose proof (Z.div_mod n ns); lia).
  unfold ns in *. erewrite decoded_get by done. apply HB.
  pose proof (wire_offset_range _ _ _ k HM Hc Hm Hk). lia.
Qed.

(** * Properties *)

(** A frame is accepted exactly when it is a REAC frame.  Whatever bytes
    arrive, [reac_frame_inspect] runs into no undefined behaviour; it reports
    a valid frame exactly when the length is the REAC frame length, the
    ethertype is 0x8819 and the end marker closes the frame, and then the
    counter is the little-endian 16-bit field at offset 14. *)
Theorem reac_frame_inspect_correct raw len mode (HB : bytes_upto raw len) :
  exists f, reac_frame_inspect raw len mode = Ok f
    /\ (valid f = 1 <->
          len = 1492 /\ get raw 12 = Some 136 /\ get raw 13 = Some 25
          /\ get raw 1490 = Some 194 /\ get raw 1491 = Some 234)
    /\ (valid f = 1 -> exists lo hi, get raw 14 = Some lo /\ get raw 15 = Some hi
          /\ counter f = lo + 256 * hi /\ 0 <= counter f < 65536)
    /\ (valid f <> 1 -> f = no_frame).
Proof.
  rewrite inspect_spec by done. eexists. split; [reflexivity|].
  destruct (well_formed raw len) eqn:WF; cbn [valid counter no_frame].
  - pose proof (well_formed_len _ _ WF) as ->.
    apply bool_decide_eq_true in WF as (_ & H1 & H2 & H3 & H4).
    rewrite doc_end_marker_0 in H3. rewrite doc_end_marker_1 in H4.
    split; [done|]. split; [|done]. intros _.
    destruct (HB 14) as (lo & E0 & R0); [lia|]. destruct (HB 15) as (hi & E1 & R1); [lia|].
    exists lo, hi. unfold le16. change (14 + 1) with 15. rewrite E0, E1.
    repeat split; try done; lia.
  - split; [|done]. split; [done|]. intros (-> & H1 & H2 & H3 & H4).
    apply bool_decide_eq_false in WF. destruct WF. reac_consts. done.
Qed.

(** C17: decoding is safe and de-interleaves exactly.  For a usable mode and an
    output buffer that holds its audio, whatever bytes arrive, the call runs
    into no undefined behaviour; a frame that is not well formed gives -1 and
    leaves the output untouched; a well-formed one gives the sample count, and
    byte [k] of channel [ch], time [s] of the output is byte [k] of the
    interleaved sample [s * n_channels + ch] of the frame, nothing else of the
    output being written. *)
Theorem reac_decode_correct raw len mode out
  (HM : mode_ok mode) (HB : bytes_upto raw len)
  (Hout : n_channels mode * samples_per_pkt mode * 3 <= blen out) :
  exists r out', reac_decode raw len mode out = Ok (r, out') /\ blen out' = blen out
    /\ (well_formed raw len = false -> r = -1 /\ out' = out)
    /\ (well_formed raw len = true -> r = samples_per_pkt mode
         /\ (forall ch s k, 0 <= ch < n_channels mode -> 0 <= s < samples_per_pkt mode ->
               0 <= k < 3 ->
               get out' ((ch * samples_per_pkt mode + s) * 3 + k)
               = get raw (50 + (s * n_channels mode + ch) * 3 + k))
         /\ (forall i, n_channels mode * samples_per_pkt mode * 3 <= i -> get out' i = get out i)).
Proof.
  assert (ok (reac_decode raw len mode out) (fun '(r, out') =>
    (well_formed raw len = false /\ r = -1 /\ out' = out)
    \/ (well_formed raw len = true /\ r = samples_per_pkt mode /\ decoded mode raw out out'))) as H.
  { eapply ok_reac_decode; try done; eauto. }
  apply ok_iff in H as ([r out'] & Hc & H). exists r, out'. split; [done|].
  destruct H as [(WF & -> & ->)|(WF & -> & W)]; rewrite WF; [by repeat split|].
  pose proof W as (Hl & _ & Hr). repeat split; try done.
  - intros ch s k Hch Hs Hk. rewrite (decoded_get _ _ _ _ _ _ _ W) by done.
    unfold wire_offset. by reac_consts.
  - intros i Hi. apply Hr. lia.
Qed.
(** ** Only the frame's own bytes matter *)

Lemma bytes_agree raw raw' len : bytes_upto raw len -> agree raw raw' len -> bytes_upto raw' len.
Proof. intros HB HA i Hi. rewrite HA by done. by apply HB. Qed.

Lemma rd_agree raw raw' len i : bytes_upto raw len -> agree raw raw' len -> 0 <= i < len -> rd raw' i = rd raw i.
Proof.
  intros HB HA Hi. destruct (HB i Hi) as (v & Hv & _). rewrite (proj2 (rd_get raw i v) Hv). apply rd_get. by rewrite HA.
Qed.

Lemma well_formed_agree raw raw' len : agree raw raw' len -> well_formed raw' len = well_formed raw len.
Proof.
  intros HA. unfold well_formed. apply bool_decide_ext. pose proof doc_frame_bytes as HF.
  split; intros (El & H); (split; [done|]); rewrite ?HA in * by lia; done.
Qed.

Lemma inspect_agree raw raw' len mode : bytes_upto raw len -> agree raw raw' len ->
  reac_frame_inspect raw' len mode = reac_frame_inspect raw len mode.
Proof.
  intros HB HA. rewrite !inspect_spec by (done || by eapply bytes_agree). rewrite (well_formed_agree raw) by done.
  destruct (well_formed raw len) eqn:WF; [|done]. apply well_formed_len in WF. unfold le16. by rewrite !HA by lia.
Qed.

Lemma decode_agree raw raw' len mode out : mode_ok mode -> bytes_upto raw len -> agree raw raw' len ->
  reac_decode raw' len mode out = reac_decode raw len mode out.
Proof.
  intros HM HB HA. unfold reac_decode. rewrite (inspect_agree raw) by done. rewrite inspect_spec by done. cbn [mbind res_bind].
  destruct (well_formed raw len) eqn:WF; [|done]. apply well_formed_len in WF. cbn [valid Z.eqb].
  f_equal. apply for_ext. intros ch st Hch. apply for_ext. intros s [o d] Hs. unfold decode_sample.
  assert (0 <= s * n_channels mode /\ 0 <= s * n_channels mode + ch < 960) as [H1 H2].
  { destruct HM as (HM1 & HM2 & _). revert HM1. reac_consts. nia. }
  assert (int (s * n_channels mode) = Ok (s * n_channels mode)) as -> by (apply ok_eq, ok_int; unfold INT_MIN, INT_MAX; lia).
  cbn [mbind res_bind].
  assert (int (s * n_channels mode + ch) = Ok (s * n_channels mode + ch)) as ->
    by (apply ok_eq, ok_int; unfold INT_MIN, INT_MAX; lia).
  cbn [mbind res_bind]. pose proof (fun k => wire_offset_range mode ch s k HM Hch Hs) as Hw. unfold wire_offset in Hw.
  pose proof (Hw 0 ltac:(lia)). pose proof (Hw 2 ltac:(lia)).
  by rewrite !(rd_agree raw raw' len) by (done || lia).
Qed.
End Decode.

(** * A frame to evaluate on *)

(** a frame with the given counter and audio *)
Definition test_frame (c : Z) (audio : Z -> Z) : list Z :=
  replicate 12 255 ++ [136; 25; c mod 256; c / 256] ++ replicate 34 0
  ++ ((fun i => u8 (audio i)) <$> seqZ 0 1440) ++ [194; 234].

Definition ramp_frame : buf Z := of_list (test_frame 258 (fun i => i * 7)).

Lemma ramp_frame_bytes : bytes_upto ramp_frame 1492.
Proof. by apply bytes_of_list; vm_compute. Qed.

Lemma reac_frame_inspect_correct_witness :
  exists f, reac_frame_inspect (L := documented_lib) ramp_frame 1492
              (reac_mode_for (ReacLib := documented_lib) 48000) = Ok f
    /\ valid f = 1 /\ 0 <= counter f < 65536.
Proof.
  destruct (reac_frame_inspect_correct (L := documented_lib) (D := documented_lib_doc) ramp_frame 1492
    (reac_mode_for (ReacLib := documented_lib) 48000) ramp_frame_bytes) as (f & H1 & H2 & H3 & _).
  assert (valid f = 1) as Hv by (apply H2; by vm_compute).
  exists f. split; [exact H1|]. split; [exact Hv|].
  destruct (H3 Hv) as (lo & hi & _ & _ & _ & Hr). exact Hr.
Defined.

Lemma reac_decode_correct_witness :
  exists out', reac_decode (L := documented_lib) ramp_frame 1492
      (reac_mode_for (ReacLib := documented_lib) 48000) (undef 2880) = Ok (12, out')
    /\ get out' ((3 * 12 + 5) * 3 + 1) = Some (u8 ((5 * 40 + 3) * 3 * 7 + 7)).
Proof.
  destruct (reac_decode_correct (L := documented_lib) (D := documented_lib_doc) ramp_frame 1492
    (reac_mode_for (ReacLib := documented_lib) 48000) (undef 2880)
    (reac_mode_for_ok (L := documented_lib) (D := documented_lib_doc) 48000) ramp_frame_bytes)
    as (r & out' & H1 & _ & _ & H2); [by vm_compute|].
  destruct H2 as (-> & H2 & _); [by vm_compute|].
  exists out'. split; [exact H1|]. refine (eq_trans (H2 3 5 1 _ _ _) _);
    [vm_compute; split; congruence..|by vm_compute].
Defined.
