(* ===== verification/MediaClock.v ===== *)
(** media_clock.c: the per-stream media clock.  The RTP timestamp is a running
    sample count; the REAC frame counter tells how many frames were lost. *)

From S2P Require Import Prelude.

(** [struct media_clock] *)
Record media_clock : Type := MediaClock {
  mc_rtp_ts : Z;           (* uint32_t *)
  mc_anchor : Z;           (* uint32_t *)
  mc_last_counter : Z;     (* uint16_t *)
  mc_started : bool;
  mc_samples_per_pkt : Z;  (* int *)
  mc_total_lost : Z;       (* uint64_t *)
}.

(** [struct media_clock_step] *)
Record media_clock_step : Type := Step {
  step_rtp_ts : Z;          (* uint32_t *)
  step_silence_packets : Z; (* int *)
}.

Definition media_clock_init_anchored (samples_per_pkt anchor : Z) : media_clock :=
  MediaClock anchor anchor 0 false samples_per_pkt 0.

Definition media_clock_init (samples_per_pkt : Z) : media_clock :=
  media_clock_init_anchored samples_per_pkt 0.

Definition media_clock_on_packet (mc : media_clock) (counter : Z)
  : media_clock * media_clock_step :=
  let sps := mc_samples_per_pkt mc in
  if negb (mc_started mc) then
    (MediaClock (mc_anchor mc) (mc_anchor mc) counter true sps (mc_total_lost mc),
     Step (mc_anchor mc) 0)
  else
    let delta := i16 (u16 (counter - mc_last_counter mc - 1)) in
    if delta <? 0 then
      (* duplicate or reordered *)
      let ts := u32 (mc_rtp_ts mc + u32 sps) in
      (MediaClock ts (mc_anchor mc) (mc_last_counter mc) true sps (mc_total_lost mc),
       Step ts 0)
    else
      let lost := u16 delta in
      let ts := u32 (mc_rtp_ts mc + u32 (u32 (lost + 1) * u32 sps)) in
      (MediaClock ts (mc_anchor mc) counter true sps (u64 (mc_total_lost mc + lost)),
       Step ts lost).

(** the clock over a sequence of received counters *)
Fixpoint media_clock_run (mc : media_clock) (counters : list Z)
  : media_clock * list media_clock_step :=
  match counters with
  | [] => (mc, [])
  | c :: cs =>
      let '(mc, step) := media_clock_on_packet mc c in
      let '(mc, steps) := media_clock_run mc cs in
      (mc, step :: steps)
  end.

(** * Specification *)

(** frames missing between [last] and [c] when [c] is ahead; 32768 and above
    when [c] repeats or precedes [last] *)
Definition gap (last c : Z) : Z := (c - last - 1) mod 65536.

Definition late (last c : Z) : bool := 32768 <=? gap last c.

(** history of a started clock: the first counter, the frames by which the
    high-water mark is ahead of it, the late packets and the frames lost *)
Record history : Type := History { h_first : Z; h_ahead : Z; h_late : Z; h_lost : Z }.

Definition h_last (h : history) : Z := u16 (h_first h + h_ahead h).

Definition h_next (h : history) (c : Z) : history :=
  if late (h_last h) c then History (h_first h) (h_ahead h) (h_late h + 1) (h_lost h)
  else History (h_first h) (h_ahead h + gap (h_last h) c + 1) (h_late h)
         (h_lost h + gap (h_last h) c).

(** the history of a non-empty sequence of counters *)
Definition history_of (c0 : Z) (cs : list Z) : history :=
  foldl h_next (History c0 0 0 0) cs.

(** the clock's state as a function of the history *)
Definition clock_of (sps anchor : Z) (h : history) : media_clock :=
  MediaClock (u32 (anchor + sps * (h_ahead h + h_late h))) anchor (h_last h) true sps
    (u64 (h_lost h)).

(** frames missing from a sequence of counters after the high-water mark [last] *)
Fixpoint missing (last : option Z) (cs : list Z) : Z :=
  match cs with
  | [] => 0
  | c :: cs =>
      match last with
      | None => missing (Some c) cs
      | Some l => if late l c then missing (Some l) cs else gap l c + missing (Some c) cs
      end
  end.

Definition last_of (mc : media_clock) : option Z := if mc_started mc then Some (mc_last_counter mc) else None.

(** slots of the timeline a list of steps takes: the concealed packets and one
    received packet each *)
Fixpoint slots (steps : list media_clock_step) : Z :=
  match steps with [] => 0 | s :: steps => step_silence_packets s + 1 + slots steps end.

(** the same history without its late packets *)
Definition forget_late (h : history) : history :=
  History (h_first h) (h_ahead h) 0 (h_lost h).

(** the counters of [cs] that are not late, in order *)
Fixpoint on_time (h : history) (cs : list Z) : list Z :=
  match cs with
  | [] => []
  | c :: cs => if late (h_last h) c then on_time h cs else c :: on_time (h_next h c) cs
  end.

(** an in-order stream: each frame is 1 to 32768 frames after the previous one *)
Fixpoint in_order (prev : Z) (offs : list Z) : Prop :=
  match offs with [] => True | o :: offs => 1 <= o - prev <= 32768 /\ in_order o offs end.

(** its steps when the stream is stamped by its frame offsets *)
Fixpoint steps_of (sps anchor prev : Z) (offs : list Z) : list media_clock_step :=
  match offs with
  | [] => []
  | o :: offs => Step (u32 (anchor + sps * o)) (o - prev - 1) :: steps_of sps anchor o offs
  end.

Definition counter_ok (c : Z) : Prop := 0 <= c < 65536.

(** the step a started clock takes *)
Definition step_of (sps anchor : Z) (h : history) (c : Z) : media_clock_step :=
  Step (u32 (anchor + sps * (h_ahead (h_next h c) + h_late (h_next h c))))
    (if late (h_last h) c then 0 else gap (h_last h) c).

(** * Lemmas *)

Lemma gap_range last c : 0 <= gap last c < 65536.
Proof. by apply Z.mod_pos_bound. Qed.

Lemma delta_gap last c :
  i16 (u16 (c - last - 1)) = if late last c then gap last c - 65536 else gap last c.
Proof.
  unfold i16, u16, late. fold (gap last c). pose proof (gap_range last c).
  rewrite (Z.mod_small (gap last c)) by lia.
  destruct (Z.leb_spec 32768 (gap last c)), (Z.ltb_spec (gap last c) 32768); lia.
Qed.

Lemma on_packet_started mc c :
  mc_started mc = true ->
  media_clock_on_packet mc c =
    let sps := mc_samples_per_pkt mc in
    if late (mc_last_counter mc) c then
      let ts := u32 (mc_rtp_ts mc + sps) in
      (MediaClock ts (mc_anchor mc) (mc_last_counter mc) true sps (mc_total_lost mc), Step ts 0)
    else
      let n := gap (mc_last_counter mc) c in
      let ts := u32 (mc_rtp_ts mc + (n + 1) * sps) in
      (MediaClock ts (mc_anchor mc) c true sps (u64 (mc_total_lost mc + n)), Step ts n).
Proof.
  intros Hs. unfold media_clock_on_packet. rewrite Hs. cbn [negb]. rewrite delta_gap.
  pose proof (gap_range (mc_last_counter mc) c). unfold late at 1 3.
  destruct (Z.leb_spec 32768 (gap (mc_last_counter mc) c)) as [Hl|Hl].
  - unfold late. rewrite (proj2 (Z.leb_le _ _) Hl). destruct (Z.ltb_spec (gap (mc_last_counter mc) c - 65536) 0); [|lia].
    cbv zeta. by rewrite u32_add_r.
  - unfold late. rewrite (proj2 (Z.leb_gt _ _) Hl).
    destruct (Z.ltb_spec (gap (mc_last_counter mc) c) 0); [lia|].
    cbv zeta. unfold u16. rewrite Z.mod_small by lia.
    by rewrite u32_mul, u32_add_r.
Qed.

(** the silence a step asks for is what it adds to the missing frames *)
Lemma on_packet_missing mc c cs :
  missing (last_of mc) (c :: cs)
  = step_silence_packets (media_clock_on_packet mc c).2 + missing (last_of (media_clock_on_packet mc c).1) cs.
Proof.
  unfold last_of. destruct (mc_started mc) eqn:Hs.
  - rewrite on_packet_started by done. cbn [missing]. by destruct (late _ c).
  - unfold media_clock_on_packet. by rewrite Hs.
Qed.

Lemma missing_nonneg cs : forall last, 0 <= missing last cs.
Proof.
  induction cs as [|c cs IH]; intros last; [done|]. cbn [missing]. destruct last as [l|]; [|apply IH].
  destruct (late l c); [apply IH|]. pose proof (gap_range l c). specialize (IH (Some c)). lia.
Qed.

Lemma clock_first sps anchor c :
  counter_ok c -> 0 <= anchor < 4294967296 ->
  media_clock_on_packet (media_clock_init_anchored sps anchor) c =
    (clock_of sps anchor (History c 0 0 0), Step anchor 0).
Proof.
  intros Hc Ha. unfold media_clock_on_packet, clock_of, h_last; simpl.
  rewrite Z.mul_0_r, !Z.add_0_r, u32_small by done.
  unfold u16. by rewrite Z.mod_small.
Qed.

Lemma h_last_next h c :
  counter_ok c -> h_last (h_next h c) = if late (h_last h) c then h_last h else c.
Proof.
  intros Hc. unfold h_next. destruct (late (h_last h) c); [done|].
  unfold h_last, gap, u16; simpl. unfold counter_ok in Hc. Z.div_mod_to_equations. lia.
Qed.

Lemma clock_next sps anchor h c :
  counter_ok c ->
  media_clock_on_packet (clock_of sps anchor h) c =
    (clock_of sps anchor (h_next h c), step_of sps anchor h c).
Proof.
  intros Hc. pose proof (h_last_next h c Hc) as Hl.
  rewrite on_packet_started by done. unfold step_of, clock_of. rewrite Hl.
  cbn [mc_started mc_samples_per_pkt mc_last_counter mc_rtp_ts mc_anchor mc_total_lost].
  unfold h_next. destruct (late (h_last h) c); cbv zeta; cbn [h_ahead h_late h_lost h_first];
    rewrite u32_add_l, ?u64_add_l.
  - by replace (anchor + sps * (h_ahead h + (h_late h + 1)))
      with (anchor + sps * (h_ahead h + h_late h) + sps) by lia.
  - replace (anchor + sps * (h_ahead h + gap (h_last h) c + 1 + h_late h))
      with (anchor + sps * (h_ahead h + h_late h) + (gap (h_last h) c + 1) * sps) by lia.
    done.
Qed.

Lemma clock_run sps anchor : forall cs h,
  Forall counter_ok cs ->
  fst (media_clock_run (clock_of sps anchor h) cs) = clock_of sps anchor (foldl h_next h cs).
Proof.
  induction cs as [|c cs IH]; intros h Hcs; [done|].
  apply Forall_cons_1 in Hcs as [Hc Hcs]. cbn [media_clock_run foldl].
  rewrite clock_next by done. specialize (IH (h_next h c) Hcs).
  by destruct (media_clock_run _ cs).
Qed.

Lemma foldl_on_time : forall cs h,
  let h' := foldl h_next h cs in
  foldl h_next (forget_late h) (on_time (forget_late h) cs) = forget_late h'
  /\ h_late h' = h_late h + Z.of_nat (length cs)
                  - Z.of_nat (length (on_time (forget_late h) cs)).
Proof.
  induction cs as [|c cs IH]; intros h; [simpl; split; [done|lia]|].
  cbn [foldl on_time]. change (h_last (forget_late h)) with (h_last h).
  specialize (IH (h_next h c)). cbv zeta in *. destruct IH as [IH1 IH2].
  destruct (late (h_last h) c) eqn:E.
  - assert (forget_late (h_next h c) = forget_late h) as Hf by (unfold h_next; by rewrite E).
    rewrite Hf in IH1, IH2. split; [exact IH1|]. rewrite IH2. unfold h_next at 1. rewrite E.
    simpl. lia.
  - assert (h_next (forget_late h) c = forget_late (h_next h c)) as Hf.
    { unfold h_next. change (h_last (forget_late h)) with (h_last h). by rewrite E. }
    cbn [foldl]. rewrite Hf. split; [exact IH1|]. rewrite IH2. unfold h_next at 1. rewrite E.
    simpl. lia.
Qed.

Lemma on_packet_advance mc c mc' s :
  mc_started mc = true -> media_clock_on_packet mc c = (mc', s) ->
  mc_started mc' = true /\ mc_samples_per_pkt mc' = mc_samples_per_pkt mc
  /\ mc_anchor mc' = mc_anchor mc
  /\ step_rtp_ts s = mc_rtp_ts mc' /\ 0 <= step_silence_packets s < 32768
  /\ mc_rtp_ts mc' = u32 (mc_rtp_ts mc + mc_samples_per_pkt mc * (step_silence_packets s + 1)).
Proof.
  intros Hs. rewrite on_packet_started by done. cbv zeta.
  pose proof (gap_range (mc_last_counter mc) c).
  destruct (late (mc_last_counter mc) c) eqn:El; intros [= <- <-]; simpl.
  - repeat split; try done. f_equal. lia.
  - unfold late in El. apply Z.leb_gt in El. repeat split; try lia. f_equal. lia.
Qed.

Lemma run_tiles : forall cs mc i s,
  mc_started mc = true ->
  snd (media_clock_run mc cs) !! i = Some s ->
  step_rtp_ts s = u32 (mc_rtp_ts mc + mc_samples_per_pkt mc
    * (slots (take i (snd (media_clock_run mc cs))) + step_silence_packets s + 1)).
Proof.
  induction cs as [|c cs IH]; intros mc i s Hs Hi; [done|].
  cbn [media_clock_run] in *.
  destruct (media_clock_on_packet mc c) as [mc1 s1] eqn:E.
  apply on_packet_advance in E as (Hs1 & Hsps & _ & Hts & _ & Hadv); [|done].
  specialize (IH mc1). destruct (media_clock_run mc1 cs) as [mc' steps].
  cbn [snd] in *. destruct i as [|i]; simpl in Hi.
  - injection Hi as <-. rewrite Hts, Hadv. simpl. done.
  - rewrite (IH _ _ Hs1 Hi), Hadv, Hsps, u32_add_l. cbn [take slots]. f_equal. lia.
Qed.

Lemma run_in_order sps anchor first : forall offs prev lost,
  in_order prev offs ->
  snd (media_clock_run (clock_of sps anchor (History first prev 0 lost))
         (map (fun o => u16 (first + o)) offs)) = steps_of sps anchor prev offs.
Proof.
  induction offs as [|o offs IH]; intros prev lost Ho; [done|].
  destruct Ho as [Ho Hos]. cbn [map media_clock_run].
  set (h := History first prev 0 lost).
  assert (gap (h_last h) (u16 (first + o)) = o - prev - 1) as Hg.
  { unfold gap, h_last, u16; simpl. Z.div_mod_to_equations. lia. }
  assert (late (h_last h) (u16 (first + o)) = false) as Hlate.
  { unfold late. rewrite Hg. lia. }
  rewrite clock_next by apply u16_range. unfold step_of, h_next. rewrite Hlate, Hg.
  cbn [h_first h_ahead h_late h_lost h]. specialize (IH o (lost + (o - prev - 1)) Hos).
  replace (prev + (o - prev - 1) + 1) with o by lia.
  destruct (media_clock_run _ _) as [mc steps]. simpl in *. rewrite Z.add_0_r. by f_equal.
Qed.

Lemma run_silence_range : forall cs mc,
  Forall (fun s => 0 <= step_silence_packets s < 32768) (snd (media_clock_run mc cs)).
Proof.
  induction cs as [|c cs IH]; intros mc; [constructor|]. cbn [media_clock_run].
  destruct (media_clock_on_packet mc c) as [mc1 s1] eqn:E.
  specialize (IH mc1). destruct (media_clock_run mc1 cs) as [mc' steps].
  constructor; [|exact IH]. destruct (mc_started mc) eqn:Hs.
  - by apply on_packet_advance in E as (_ & _ & _ & _ & ? & _).
  - unfold media_clock_on_packet in E. rewrite Hs in E. cbv in E. injection E as _ <-. simpl. lia.
Qed.

(** * Properties *)

(** C12: the RTP timeline has no hole and no overlap.  Whatever counters arrive,
    the timestamp of the i-th received packet is the anchor plus
    [samples_per_pkt] for every packet before it, concealed or received
    (mod 2^32), and no step asks for more than 32767 concealment packets. *)
Theorem media_clock_timeline (sps anchor : Z) (counters : list Z) (i : nat) s
  (Ha : 0 <= anchor < 4294967296)
  (Hi : snd (media_clock_run (media_clock_init_anchored sps anchor) counters) !! i = Some s) :
  step_rtp_ts s = u32 (anchor + sps
    * (slots (take i (snd (media_clock_run (media_clock_init_anchored sps anchor) counters)))
       + step_silence_packets s))
  /\ 0 <= step_silence_packets s <= 32767.
Proof.
  split.
  - destruct counters as [|c cs]; [done|]. cbn [media_clock_run] in *.
    unfold media_clock_on_packet in *. cbn [negb mc_started media_clock_init_anchored] in *.
    set (mc1 := MediaClock _ _ _ _ _ _) in *.
    pose proof (run_tiles cs mc1) as HT. destruct (media_clock_run mc1 cs) as [mc' steps].
    destruct i as [|i]; cbn [snd lookup list_lookup] in Hi.
    + injection Hi as <-. cbn. by rewrite Z.mul_0_r, Z.add_0_r, u32_small.
    + rewrite (HT _ _ eq_refl Hi). cbn. f_equal. lia.
  - pose proof (run_silence_range counters (media_clock_init_anchored sps anchor)) as HF.
    eapply Forall_lookup_1 in HF; [|exact Hi]. lia.
Qed.

Lemma media_clock_timeline_witness :
  snd (media_clock_run (media_clock_init_anchored 12 1000000) [100; 103; 102; 104]) !! 3%nat
    = Some (Step 1000060 0)
  /\ step_rtp_ts (Step 1000060 0) = u32 (1000000 + 12
       * (slots (take 3 (snd (media_clock_run (media_clock_init_anchored 12 1000000) [100; 103; 102; 104])))
          + step_silence_packets (Step 1000060 0))).
Proof.
  split; [reflexivity|].
  apply (media_clock_timeline 12 1000000 [100; 103; 102; 104] 3 (Step 1000060 0));
    [lia|reflexivity].
Defined.

(** The clock computes the stream's history.  After the counters [c0 :: cs]
    its state is: the timestamp of the frames elapsed plus the late packets, the
    high-water counter, and the number of lost frames; a late packet moves the
    timestamp only. *)
Theorem media_clock_history (sps anchor c0 : Z) (cs : list Z)
  (Ha : 0 <= anchor < 4294967296) (H0 : counter_ok c0) (Hcs : Forall counter_ok cs) :
  fst (media_clock_run (media_clock_init_anchored sps anchor) (c0 :: cs))
  = clock_of sps anchor (history_of c0 cs).
Proof.
  cbn [media_clock_run]. rewrite clock_first by done.
  pose proof (clock_run sps anchor cs (History c0 0 0 0) Hcs) as HR.
  by destruct (media_clock_run _ cs).
Qed.

Lemma media_clock_history_witness :
  fst (media_clock_run (media_clock_init_anchored 12 7) [65534; 1; 65535; 2])
  = MediaClock 67 7 2 true 12 2.
Proof.
  rewrite (media_clock_history 12 7 65534 [1; 65535; 2]);
    [reflexivity|lia|unfold counter_ok; lia|].
  repeat constructor; unfold counter_ok; lia.
Defined.

(** On an in-order stream (each frame 1 to 32768 after the previous one, the
    counter wrapping at 16 bits) every packet is stamped with the desk's own
    timeline, anchor + samples_per_pkt * (frames since the first), and exactly
    the missing frames are reported as lost. *)
Theorem media_clock_in_order (sps anchor first : Z) (offs : list Z)
  (Ha : 0 <= anchor < 4294967296) (H0 : counter_ok first) (Ho : in_order 0 offs) :
  snd (media_clock_run (media_clock_init_anchored sps anchor)
         (first :: map (fun o => u16 (first + o)) offs))
  = Step anchor 0 :: steps_of sps anchor 0 offs.
Proof.
  cbn [media_clock_run]. rewrite clock_first by done.
  pose proof (run_in_order sps anchor first offs 0 0 Ho) as HR.
  destruct (media_clock_run _ _). simpl in *. by f_equal.
Qed.

Lemma media_clock_in_order_witness :
  snd (media_clock_run (media_clock_init_anchored 12 0) [65535; 0; 3])
  = [Step 0 0; Step 12 0; Step 48 2].
Proof.
  exact (media_clock_in_order 12 0 65535 [1; 4] ltac:(lia) ltac:(unfold counter_ok; lia)
           ltac:(simpl; lia)).
Defined.

(** Late (duplicate or reordered) packets are transparent to the loss
    accounting: without them the clock reaches the same counter and the same
    loss total.  But each one pushes the timeline one packet further: the
    timestamp ends [samples_per_pkt] ahead per late packet. *)
Theorem media_clock_late_packets (sps anchor c0 : Z) (cs : list Z)
  (Ha : 0 <= anchor < 4294967296) (H0 : counter_ok c0) (Hcs : Forall counter_ok cs) :
  let clock l := fst (media_clock_run (media_clock_init_anchored sps anchor) (c0 :: l)) in
  let kept := on_time (History c0 0 0 0) cs in
  mc_last_counter (clock cs) = mc_last_counter (clock kept)
  /\ mc_total_lost (clock cs) = mc_total_lost (clock kept)
  /\ mc_rtp_ts (clock cs) =
       u32 (mc_rtp_ts (clock kept) + sps * (Z.of_nat (length cs) - Z.of_nat (length kept))).
Proof.
  cbv zeta. assert (Forall counter_ok (on_time (History c0 0 0 0) cs)) as Hk.
  { generalize (History c0 0 0 0). clear H0. induction Hcs as [|c cs Hc _ IH]; intros h; [constructor|].
    simpl. destruct (late _ _); [apply IH|constructor; [done|apply IH]]. }
  cbn [media_clock_run]. rewrite clock_first by done.
  pose proof (clock_run sps anchor cs (History c0 0 0 0) Hcs) as HR.
  pose proof (clock_run sps anchor _ (History c0 0 0 0) Hk) as HR'.
  destruct (foldl_on_time cs (History c0 0 0 0)) as [HF HL].
  change (forget_late (History c0 0 0 0)) with (History c0 0 0 0) in HF, HL.
  rewrite HF in HR'.
  destruct (media_clock_run _ cs), (media_clock_run _ (on_time _ _)).
  simpl in HR, HR' |- *. rewrite HR, HR'. unfold clock_of. simpl. repeat split; try done.
  rewrite HL, u32_add_l. f_equal. simpl. lia.
Qed.

Lemma media_clock_late_packets_witness :
  mc_rtp_ts (fst (media_clock_run (media_clock_init_anchored 12 0) [100; 101; 99; 101; 102]))
  = u32 (mc_rtp_ts (fst (media_clock_run (media_clock_init_anchored 12 0) [100; 101; 102])) + 12 * 2).
Proof.
  refine (proj2 (proj2 (media_clock_late_packets 12 0 100 [101; 99; 101; 102] _ _ _)));
    [lia|unfold counter_ok; lia|].
  repeat constructor; unfold counter_ok; lia.
Defined.
