(* ===== verification/Plc.v ===== *)
(** plc.c: integer packet loss concealment.  A ring of recent samples per channel;
    a lost packet is synthesised from it by a ladder of four tiers. *)

From S2P Require Import Prelude LibReac Pcm.

Definition Q15 : Z := 32768.
Definition PLC_HIST_SAMPLES : Z := 40.

Definition PLC_TIER_REPEAT_XFADE : Z := 0.
Definition PLC_TIER_BURST_FADE : Z := 1.
Definition PLC_TIER_HOLD_LAST : Z := 2.
Definition PLC_TIER_SILENCE : Z := 3.

(** [struct plc_chan] *)
Record plc_chan : Type := PlcChan {
  hist : buf Z;   (* int32_t[PLC_HIST_SAMPLES] *)
  head : Z;       (* next write index *)
  filled : Z;     (* valid samples *)
}.

(** [struct plc] *)
Record plc : Type := Plc {
  plc_S : Z;
  plc_n_channels : Z;
  xfade_w : Z;
  fade_packets : Z;
  fade_flat_packets : Z;
  ch : buf plc_chan;
}.

Definition set_ch (st : plc) (c : buf plc_chan) : plc :=
  Plc (plc_S st) (plc_n_channels st) (xfade_w st) (fade_packets st) (fade_flat_packets st) c.

(** back-th newest sample (0 = newest), 0 if not present *)
Definition hist_at (c : plc_chan) (back : Z) : res Z :=
  if back >=? filled c then mret 0 else
  h ← int (head c - 1); h ← int (h - back);
  let idx := Z.rem h PLC_HIST_SAMPLES in
  let idx := if idx <? 0 then idx + PLC_HIST_SAMPLES else idx in
  rd (hist c) idx.

Definition hist_push (c : plc_chan) (v : Z) : res plc_chan :=
  h ← wr (hist c) (head c) v;
  n ← int (head c + 1);
  mret (PlcChan h (Z.rem n PLC_HIST_SAMPLES)
          (if filled c <? PLC_HIST_SAMPLES then filled c + 1 else filled c)).

Section Plc.
Context {L : ReacLib}.
Implicit Types (st : plc) (pcm out : buf Z).

Definition plc_init (mode : reac_mode) (fade xfade : Z) : plc :=
  let s := samples_per_pkt mode in
  let w := if xfade >? 0 then xfade else if s <? 8 then s else 8 in
  let w := if w >? s then s else w in
  let fade := if fade >? 0 then fade else 200 in
  Plc s (n_channels mode) w fade (Z.quot fade 5)
    (filled_with REAC_MAX_CHANNELS (PlcChan (filled_with PLC_HIST_SAMPLES 0) 0 0)).

Definition plc_observe st pcm : res plc :=
  let s_ := plc_S st in
  for_ 0 (plc_n_channels st) (fun i st =>
    let base := i * s_ * 3 in
    for_ 0 s_ (fun s st =>
      c ← rd (ch st) i;
      v ← load24 pcm (base + s * 3);
      c ← hist_push c v;
      chs ← wr (ch st) i c;
      mret (set_ch st chs)) st) st.

(** Q15 burst gain for loss_index k *)
Definition burst_gain_q15 st (k : Z) : res Z :=
  if k <=? fade_flat_packets st then mret Q15 else
  if k >=? fade_packets st then mret 0 else
  span ← int (fade_packets st - fade_flat_packets st);
  into ← int (k - fade_flat_packets st);
  d ← int (span - into);
  p ← int (Q15 * d);
  idiv p span.

(** [(int32_t)(((int64_t)x * g) >> 15)] *)
Definition scale_q15 (x g : Z) : res Z :=
  p ← long (x * g);
  mret (i32 (Z.shiftr p 15)).

(** the sample of TIER 0 *)
Definition xfade_sample st (c : plc_chan) (last s : Z) : res Z :=
  sub ← hist_at c (plc_S st - 1 - s);
  if s <? xfade_w st then
    n ← int ((s + 1) * Q15);
    w ← int (xfade_w st + 1);
    a ← idiv n w;
    p ← long (last * (Q15 - a));
    q ← long (sub * a);
    y ← long (p + q);
    mret (i32 (Z.shiftr y 15))
  else mret sub.

(** the sample of TIER 1 *)
Definition burst_sample st (c : plc_chan) (g s : Z) : res Z :=
  sub ← hist_at c (plc_S st - 1 - s);
  scale_q15 sub g.

(** the sample loop every tier ends in: [store24(o + s * 3, value(s))] *)
Definition fill_channel st (o : Z) (value : Z -> res Z) out : res (buf Z) :=
  for_ 0 (plc_S st) (fun s out => y ← value s; store24 out (o + s * 3) y) out.

(** the body of the channel loop *)
Definition conceal_channel st (g loss_index i : Z) (acc : Z * buf Z) : res (Z * buf Z) :=
  let '(tier, out) := acc in
  c ← rd (ch st) i;
  let o := i * plc_S st * 3 in
  if filled c =? 0 then                (* TIER 3: cold start *)
    out ← fill_channel st o (fun _ => mret 0) out;
    mret (if tier <? PLC_TIER_SILENCE then PLC_TIER_SILENCE else tier, out)
  else if filled c <? plc_S st then    (* TIER 2: hold-last (DC) *)
    last ← hist_at c 0;
    hv ← scale_q15 last g;
    out ← fill_channel st o (fun _ => mret hv) out;
    mret (if tier <? PLC_TIER_HOLD_LAST then PLC_TIER_HOLD_LAST else tier, out)
  else if loss_index =? 0 then         (* TIER 0: repeat + linear xfade *)
    last ← hist_at c 0;
    out ← fill_channel st o (xfade_sample st c last) out;
    mret (tier, out)
  else                                 (* TIER 1: scaled-repeat (burst) *)
    let tier := if tier <? PLC_TIER_BURST_FADE then PLC_TIER_BURST_FADE else tier in
    out ← fill_channel st o (burst_sample st c g) out;
    mret (tier, out).

Definition plc_conceal st out (loss_index : Z) : res (Z * buf Z) :=
  g ← burst_gain_q15 st loss_index;
  for_ 0 (plc_n_channels st) (conceal_channel st g loss_index) (PLC_TIER_REPEAT_XFADE, out).

(** * Specification *)

(** a channel's ring holds [l], the most recent sample first *)
Definition chan_rep (c : plc_chan) (l : list Z) : Prop :=
  blen (hist c) = PLC_HIST_SAMPLES /\ 0 <= head c < PLC_HIST_SAMPLES
  /\ filled c = Z.of_nat (length l) /\ filled c <= PLC_HIST_SAMPLES
  /\ Forall (fun x => SMIN <= x <= SMAX) l
  /\ forall back, 0 <= back < filled c ->
       get (hist c) ((head c - 1 - back) mod PLC_HIST_SAMPLES) = l !! Z.to_nat back.

Definition push (l : list Z) (v : Z) : list Z := take (Z.to_nat PLC_HIST_SAMPLES) (v :: l).

(** the histories of all the channels *)
Definition rep st (h : Z -> list Z) : Prop :=
  forall i, 0 <= i < plc_n_channels st ->
    exists c, get (ch st) i = Some c /\ chan_rep c (h i).

(** the parameters [plc_init] computes, for fades that stay clear of overflow *)
Definition params_ok st : Prop :=
  0 < plc_S st <= PLC_HIST_SAMPLES /\ 0 <= plc_n_channels st
  /\ 0 < xfade_w st <= plc_S st
  /\ 0 < fade_packets st <= 81920
  /\ fade_flat_packets st = Z.quot (fade_packets st) 5.

(** the gain as a number *)
Definition gain st (k : Z) : Z :=
  if k <=? fade_flat_packets st then Q15
  else if k >=? fade_packets st then 0
  else let span := fade_packets st - fade_flat_packets st in
       Q15 * (fade_packets st - k) / span.

Definition past (l : list Z) (back : Z) : Z := default 0 (l !! Z.to_nat back).

(** the value of concealment sample [s], given the channel's history *)
Definition concealed st (k : Z) (l : list Z) (s : Z) : Z :=
  let n := Z.of_nat (length l) in
  let sub := past l (plc_S st - 1 - s) in
  if n =? 0 then 0
  else if n <? plc_S st then Z.shiftr (past l 0 * gain st k) 15
  else if k =? 0 then
    if s <? xfade_w st then
      let a := (s + 1) * Q15 / (xfade_w st + 1) in
      Z.shiftr (past l 0 * (Q15 - a) + sub * a) 15
    else sub
  else Z.shiftr (sub * gain st k) 15.

Definition tier_of st (k : Z) (l : list Z) : Z :=
  let n := Z.of_nat (length l) in
  if n =? 0 then PLC_TIER_SILENCE
  else if n <? plc_S st then PLC_TIER_HOLD_LAST
  else if k =? 0 then PLC_TIER_REPEAT_XFADE else PLC_TIER_BURST_FADE.

(** the worst tier over channels [0 .. n-1] *)
Definition worst_tier st (k : Z) (h : Z -> list Z) (n : Z) : Z :=
  foldl Z.max 0 ((fun i => tier_of st k (h i)) <$> seqZ 0 n).

(** byte [b] of sample [n] (planar order) of a concealment packet *)
Definition concealed_byte st (k : Z) (h : Z -> list Z) (n b : Z) : option Z :=
  Some (byte24 (concealed st k (h (n / plc_S st)) (n mod plc_S st)) b).

(** samples of channel [i] in a planar packet, in time order *)
Definition chan_samples pcm (s_ i : Z) : list Z :=
  (fun s => default 0 (sample pcm (i * s_ + s))) <$> seqZ 0 s_.

(** * The history ring *)

Lemma hist_at_spec c l back :
  chan_rep c l -> 0 <= back <= PLC_HIST_SAMPLES -> hist_at c back = Ok (past l back).
Proof.
  intros (Hb & Hh & Hf & Hle & Hr & Hg) Hback. unfold hist_at, past, PLC_HIST_SAMPLES in *.
  rewrite Z.geb_leb. destruct (Z.leb_spec (filled c) back) as [Hge|Hlt].
  { rewrite lookup_ge_None_2 by lia. done. }
  apply ok_eq. ok_steps.
  specialize (Hg back ltac:(lia)).
  destruct (lookup_lt_is_Some_2 l (Z.to_nat back)) as [v Hv]; [lia|].
  rewrite Hv in Hg |- *. simpl.
  match goal with |- ok (rd _ ?i) _ =>
    replace i with ((head c - 1 - back) mod 40);
      [by apply ok_rd with (v := v)|] end.
  destruct (Z.ltb_spec (Z.rem (head c - 1 - back) 40) 0);
    Z.to_euclidean_division_equations; lia.
Qed.

Lemma ok_hist_push c l v :
  chan_rep c l -> SMIN <= v <= SMAX ->
  ok (hist_push c v) (fun c' => chan_rep c' (push l v)).
Proof.
  intros (Hb & Hh & Hf & Hle & Hr & Hg) Hv. unfold hist_push, push, PLC_HIST_SAMPLES in *.
  ok_steps. unfold chan_rep, PLC_HIST_SAMPLES; cbn [hist head filled].
  rewrite blen_upd, length_take. cbn [length].
  set (n' := if filled c <? 40 then _ else _).
  assert (n' = Z.min 40 (filled c + 1)) as Hn'
    by (unfold n'; destruct (Z.ltb_spec (filled c) 40); lia).
  repeat split; try lia.
  - Z.to_euclidean_division_equations; lia.
  - Z.to_euclidean_division_equations; lia.
  - apply Forall_take. by constructor.
  - intros back Hback. rewrite lookup_take_lt by lia.
    assert ((Z.rem (head c + 1) 40 - 1 - back) mod 40 = (head c - back) mod 40) as ->
      by (Z.to_euclidean_division_equations; lia).
    destruct (decide (back = 0)) as [->|].
    + rewrite Z.sub_0_r, Z.mod_small by lia. rewrite get_upd_eq by lia. done.
    + rewrite get_upd_ne by (try lia; Z.to_euclidean_division_equations; lia).
      replace (head c - back) with (head c - 1 - (back - 1)) by lia. rewrite Hg by lia.
      by replace (Z.to_nat back) with (S (Z.to_nat (back - 1))) by lia.
Qed.

Lemma foldl_push vs l :
  (length l <= Z.to_nat PLC_HIST_SAMPLES)%nat ->
  foldl push l vs = take (Z.to_nat PLC_HIST_SAMPLES) (reverse vs ++ l).
Proof.
  intros Hl. induction vs as [|v vs IH] using rev_ind; [simpl; by rewrite take_ge|].
  rewrite foldl_app, reverse_snoc, IH. simpl. unfold push.
  change (Z.to_nat PLC_HIST_SAMPLES) with 40%nat. cbn [take]. f_equal.
  by rewrite take_take.
Qed.

Lemma chan_rep_length c l : chan_rep c l -> Z.of_nat (length l) <= PLC_HIST_SAMPLES.
Proof. intros (_ & _ & Hf & Hle & _). lia. Qed.

(** * Observing a packet *)

Lemma sample_some pcm n N :
  bytes_upto pcm (N * 3) -> 0 <= n < N ->
  exists v, sample pcm n = Some v /\ SMIN <= v <= SMAX.
Proof.
  intros HB Hn. unfold sample.
  destruct (HB (n * 3)) as (p0 & -> & ?); [lia|].
  destruct (HB (n * 3 + 1)) as (p1 & -> & ?); [lia|].
  destruct (HB (n * 3 + 2)) as (p2 & -> & ?); [lia|].
  eexists. split; [done|]. by apply s24_range.
Qed.

Lemma ok_load_sample pcm n N (Q : Z -> Prop) :
  bytes_upto pcm (N * 3) -> 0 <= n < N ->
  (forall v, sample pcm n = Some v -> SMIN <= v <= SMAX -> Q v) ->
  ok (load24 pcm (n * 3)) Q.
Proof.
  intros HB Hn HQ. apply ok_load24; [intros k Hk; apply HB; lia|].
  intros p0 p1 p2 E0 E1 E2 Hr. apply HQ; [|done]. unfold sample. by rewrite E0, E1, E2.
Qed.

(** the histories after channels [0 .. i-1] and the first [s] samples of
    channel [i] have been pushed *)
Definition progress (h : Z -> list Z) pcm (s_ i s j : Z) : list Z :=
  foldl push (h j) ((fun s => default 0 (sample pcm (j * s_ + s)))
                      <$> seqZ 0 (if j <? i then s_ else if j =? i then s else 0)).

Lemma progress_row h pcm s_ i j :
  progress h pcm s_ i s_ j = progress h pcm s_ (i + 1) 0 j.
Proof.
  unfold progress. destruct (Z.ltb_spec j i), (Z.ltb_spec j (i + 1)), (Z.eqb_spec j i),
    (Z.eqb_spec j (i + 1)); done || lia.
Qed.

Lemma progress_next h pcm s_ i s v :
  0 <= s -> sample pcm (i * s_ + s) = Some v ->
  progress h pcm s_ i (s + 1) i = push (progress h pcm s_ i s i) v.
Proof.
  intros Hs Hv. unfold progress. rewrite Z.ltb_irrefl, Z.eqb_refl.
  rewrite seqZ_app, fmap_app, foldl_app by lia. rewrite Z.add_0_l. change (seqZ s 1) with [s]. cbn [fmap list_fmap foldl]. by rewrite Hv.
Qed.

Lemma progress_other h pcm s_ i s s' j :
  j <> i -> progress h pcm s_ i s j = progress h pcm s_ i s' j.
Proof. intros Hne. unfold progress. destruct (j <? i); [done|]. by destruct (Z.eqb_spec j i). Qed.

Lemma rep_ext st h h' : rep st h -> (forall i, h i = h' i) -> rep st h'.
Proof. intros HR E i Hi. rewrite <- E. by apply HR. Qed.

(** one sample of one channel *)
Lemma ok_observe_sample st chs pcm h i s :
  rep (set_ch st chs) (progress h pcm (plc_S st) i s) ->
  bytes_upto pcm (plc_n_channels st * plc_S st * 3) ->
  0 <= i < plc_n_channels st -> 0 <= s < plc_S st ->
  ok (c ← rd chs i; v ← load24 pcm (i * plc_S st * 3 + s * 3); c ← hist_push c v;
      chs' ← wr chs i c; mret (set_ch (set_ch st chs) chs'))
     (fun st' => exists chs', st' = set_ch st chs'
        /\ rep (set_ch st chs') (progress h pcm (plc_S st) i (s + 1))).
Proof.
  intros HR HB Hi Hs. destruct (HR i Hi) as (c & Hc & Hrep). cbn [ch set_ch] in Hc.
  ok_step. ok_read Hc. ok_step.
  replace (i * plc_S st * 3 + s * 3) with ((i * plc_S st + s) * 3) by lia.
  apply ok_load_sample with (N := plc_n_channels st * plc_S st); [done|by apply lex_lt|].
  intros v Hv Hvr. ok_step. eapply ok_mono; [by apply ok_hist_push|].
  intros c' Hc'. pose proof (get_lt _ _ _ Hc) as Hlt. ok_steps.
  eexists. split; [reflexivity|]. intros j Hj. cbn [ch set_ch].
  destruct (decide (j = i)) as [->|Hne].
  - exists c'. rewrite get_upd_eq by done. split; [done|]. by erewrite progress_next by (lia || done).
  - destruct (HR j Hj) as (cj & Hcj & Hrj). exists cj. cbn [ch set_ch] in Hcj.
    rewrite get_upd_ne by lia. split; [done|]. by rewrite progress_other with (s' := s).
Qed.

(** what observing a packet does to the histories *)
Lemma ok_plc_observe st pcm h (Q : plc -> Prop) :
  0 <= plc_n_channels st -> 0 <= plc_S st -> rep st h ->
  bytes_upto pcm (plc_n_channels st * plc_S st * 3) ->
  (forall chs, rep (set_ch st chs)
                 (fun i => foldl push (h i) (chan_samples pcm (plc_S st) i)) ->
     Q (set_ch st chs)) ->
  ok (plc_observe st pcm) Q.
Proof.
  intros HN HS HR HB HQ.
  apply ok_for with (P := fun i st' => exists chs, st' = set_ch st chs
    /\ rep (set_ch st chs) (progress h pcm (plc_S st) i 0)); [done| | |].
  - exists (ch st). split; [by destruct st|].
    intros i Hi. destruct (HR i Hi) as (c & ? & ?). exists c. split; [done|].
    unfold progress. destruct (Z.ltb_spec i 0); [lia|]. by destruct (i =? 0).
  - intros i st' Hi (chs & -> & HR').
    apply ok_for with (P := fun s st' => exists chs, st' = set_ch st chs
      /\ rep (set_ch st chs) (progress h pcm (plc_S st) i s)); [done| | |].
    + exists chs. by split.
    + intros s st'' Hs (chs' & -> & HR''). by apply ok_observe_sample.
    + intros st'' (chs' & -> & HR''). exists chs'. split; [done|].
      eapply rep_ext; [exact HR''|]. apply progress_row.
  - intros st' (chs & -> & HR'). apply HQ. intros i Hi. destruct (HR' i Hi) as (c & ? & Hrep).
    exists c. split; [done|]. unfold progress in Hrep. cbn in Hi.
    by destruct (Z.ltb_spec i (plc_n_channels st)); [|lia].
Qed.

(** * The burst gain *)

Lemma flat_bounds st :
  params_ok st -> 0 <= fade_flat_packets st < fade_packets st
                  /\ fade_packets st - fade_flat_packets st <= 65536.
Proof.
  intros (_ & _ & _ & Hf & ->). Z.to_euclidean_division_equations; lia.
Qed.

Lemma burst_gain_spec st k :
  params_ok st -> 0 <= k <= INT_MAX -> burst_gain_q15 st k = Ok (gain st k).
Proof.
  intros HP Hk. pose proof (flat_bounds _ HP) as [Hf Hs]. unfold INT_MAX in Hk.
  apply ok_eq. unfold burst_gain_q15, gain. rewrite Z.geb_leb.
  destruct (Z.leb_spec k (fade_flat_packets st)); [done|].
  destruct (Z.leb_spec (fade_packets st) k); [done|].
  set (fl := fade_flat_packets st) in *. set (fp := fade_packets st) in *.
  assert (0 <= Q15 * (fp - k) / (fp - fl) <= Q15).
  { unfold Q15. split; [apply Z.div_pos; lia|]. apply Z.div_le_upper_bound; lia. }
  unfold Q15 in *. ok_steps. replace (fp - fl - (k - fl)) with (fp - k) by lia.
  apply ok_idiv; [lia| |]; rewrite Z.quot_div_nonneg by lia; [unfold INT_MIN, INT_MAX; lia|done].
Qed.

Lemma gain_range st k : params_ok st -> 0 <= gain st k <= Q15.
Proof.
  intros HP. pose proof (flat_bounds _ HP) as [Hf Hs]. unfold gain. rewrite Z.geb_leb.
  destruct (Z.leb_spec k (fade_flat_packets st)); [unfold Q15; lia|].
  destruct (Z.leb_spec (fade_packets st) k); [unfold Q15; lia|]. cbv zeta.
  split; [apply Z.div_pos; unfold Q15; lia|]. apply Z.div_le_upper_bound; unfold Q15; lia.
Qed.

Lemma gain_antitone st k k' : params_ok st -> k <= k' -> gain st k' <= gain st k.
Proof.
  intros HP Hk. pose proof (flat_bounds _ HP) as [Hf Hs].
  pose proof (gain_range st k HP). pose proof (gain_range st k' HP).
  unfold gain in *. rewrite !Z.geb_leb in *.
  destruct (Z.leb_spec k (fade_flat_packets st)), (Z.leb_spec k' (fade_flat_packets st));
    try lia.
  destruct (Z.leb_spec (fade_packets st) k), (Z.leb_spec (fade_packets st) k'); try lia.
  apply Z.div_le_mono; [lia|]. unfold Q15. lia.
Qed.

(** * Sample values *)

Lemma shiftr15_scale x g : 0 <= g <= Q15 -> Z.min x 0 <= Z.shiftr (x * g) 15 <= Z.max x 0.
Proof.
  unfold Q15. intros Hg. rewrite Z.shiftr_div_pow2 by lia. change (2 ^ 15) with 32768.
  destruct (Z.le_ge_cases 0 x).
  - rewrite Z.min_r, Z.max_l by lia.
    split; [apply Z.div_pos; lia|]. apply Z.div_le_upper_bound; nia.
  - rewrite Z.min_l, Z.max_r by lia.
    split; [apply Z.div_le_lower_bound; nia|]. apply Z.div_le_upper_bound; nia.
Qed.

Lemma shiftr15_blend x y a :
  0 <= a <= Q15 -> Z.min x y <= Z.shiftr (x * (Q15 - a) + y * a) 15 <= Z.max x y.
Proof.
  unfold Q15. intros Ha. rewrite Z.shiftr_div_pow2 by lia. change (2 ^ 15) with 32768.
  split; [apply Z.div_le_lower_bound|apply Z.div_le_upper_bound]; try lia;
    destruct (Z.le_ge_cases x y); nia.
Qed.

Lemma xfade_weight s w : 0 <= s < w -> 0 <= (s + 1) * Q15 / (w + 1) <= Q15.
Proof.
  unfold Q15. intros H.
  split; [apply Z.div_pos; lia|apply Z.div_le_upper_bound; lia].
Qed.

Lemma past_range l back : Forall (fun x => SMIN <= x <= SMAX) l -> SMIN <= past l back <= SMAX.
Proof.
  intros Hl. unfold past. destruct (l !! Z.to_nat back) as [v|] eqn:E; simpl.
  - eapply Forall_lookup_1 in E; [|exact Hl]. exact E.
  - unfold SMIN, SMAX. lia.
Qed.

(** a concealment sample stays within the signal it is made of *)
Lemma concealed_bounded st k l s p :
  params_ok st -> 0 <= s < plc_S st -> 0 <= p ->
  (forall back, 0 <= back < plc_S st -> - p <= past l back <= p) ->
  - p <= concealed st k l s <= p.
Proof.
  intros HP Hs Hp Hl. pose proof (gain_range st k HP) as Hg.
  pose proof (Hl 0 ltac:(lia)) as H0. pose proof (Hl (plc_S st - 1 - s) ltac:(lia)) as Hsub.
  unfold concealed.
  pose proof (shiftr15_scale (past l 0) _ Hg). pose proof (shiftr15_scale (past l (plc_S st - 1 - s)) _ Hg).
  repeat case_match; try lia.
  pose proof (shiftr15_blend (past l 0) (past l (plc_S st - 1 - s)) _
                (xfade_weight s (xfade_w st) ltac:(lia))). lia.
Qed.

Lemma concealed_range st k l s :
  params_ok st -> 0 <= s < plc_S st -> Forall (fun x => SMIN <= x <= SMAX) l ->
  SMIN <= concealed st k l s <= SMAX.
Proof.
  intros HP Hs Hl. pose proof (gain_range st k HP) as Hg.
  pose proof (past_range l 0 Hl) as H0. pose proof (past_range l (plc_S st - 1 - s) Hl) as H1.
  unfold concealed, SMIN, SMAX in *.
  pose proof (shiftr15_scale (past l 0) _ Hg). pose proof (shiftr15_scale (past l (plc_S st - 1 - s)) _ Hg).
  repeat case_match; try lia.
  pose proof (shiftr15_blend (past l 0) (past l (plc_S st - 1 - s)) _
                (xfade_weight s (xfade_w st) ltac:(lia))). lia.
Qed.

Lemma scale_q15_spec x g :
  SMIN <= x <= SMAX -> 0 <= g <= Q15 -> scale_q15 x g = Ok (Z.shiftr (x * g) 15).
Proof.
  intros Hx Hg. pose proof (shiftr15_scale x g Hg). unfold SMIN, SMAX, Q15 in *.
  apply ok_eq. unfold scale_q15. ok_step. apply ok_long; [nia|]. ok_step.
  by rewrite i32_id by (unfold INT_MIN, INT_MAX; lia).
Qed.

Lemma xfade_sample_spec st c l s :
  params_ok st -> chan_rep c l -> 0 <= s < plc_S st ->
  xfade_sample st c (past l 0) s = Ok
    (let sub := past l (plc_S st - 1 - s) in
     if s <? xfade_w st then
       let a := (s + 1) * Q15 / (xfade_w st + 1) in
       Z.shiftr (past l 0 * (Q15 - a) + sub * a) 15
     else sub).
Proof.
  intros HP HR Hs. pose proof HP as (HS & _ & HW & _).
  pose proof HR as (_ & _ & _ & _ & Hl & _).
  pose proof (past_range l 0 Hl) as H0. pose proof (past_range l (plc_S st - 1 - s) Hl) as H1.
  unfold xfade_sample. rewrite (hist_at_spec c l) by (unfold PLC_HIST_SAMPLES in *; done || lia).
  cbn [mbind res_bind]. apply ok_eq. destruct (Z.ltb_spec s (xfade_w st)); [|done].
  pose proof (xfade_weight s (xfade_w st) ltac:(lia)) as Ha.
  set (a := (s + 1) * Q15 / (xfade_w st + 1)) in *.
  pose proof (shiftr15_blend (past l 0) (past l (plc_S st - 1 - s)) a Ha).
  unfold SMIN, SMAX, Q15, PLC_HIST_SAMPLES in *. ok_steps.
  apply ok_idiv; [lia| |]; rewrite Z.quot_div_nonneg by lia; fold a; [unfold INT_MIN, INT_MAX; lia|].
  ok_step. apply ok_long; [nia|]. ok_step. apply ok_long; [nia|]. ok_step. apply ok_long; [nia|].
  ok_step. by rewrite i32_id by (unfold INT_MIN, INT_MAX; lia).
Qed.

Lemma burst_sample_spec st c l g s :
  params_ok st -> chan_rep c l -> 0 <= s < plc_S st -> 0 <= g <= Q15 ->
  burst_sample st c g s = Ok (Z.shiftr (past l (plc_S st - 1 - s) * g) 15).
Proof.
  intros (HS & _) HR Hs Hg. pose proof HR as (_ & _ & _ & _ & Hl & _).
  unfold burst_sample. rewrite (hist_at_spec c l) by (unfold PLC_HIST_SAMPLES in *; done || lia).
  cbn [mbind res_bind]. apply scale_q15_spec; [by apply past_range|done].
Qed.

(** * Concealing a packet *)

Lemma ok_fill_channel st i out0 out value vals f (Q : buf Z -> Prop) :
  written out0 0 (i * plc_S st) f out -> 0 <= i -> 0 <= plc_S st ->
  (i + 1) * plc_S st * 3 <= blen out0 ->
  (forall s, 0 <= s < plc_S st -> value s = Ok (vals s)) ->
  (forall s k, 0 <= s < plc_S st -> 0 <= k < 3 ->
     f (i * plc_S st + s) k = Some (byte24 (clamp24 (vals s)) k)) ->
  (forall out', written out0 0 ((i + 1) * plc_S st) f out' -> Q out') ->
  ok (fill_channel st (i * plc_S st * 3) value out) Q.
Proof.
  intros W Hi HS Hlen Hv Hf HQ. unfold fill_channel.
  apply ok_for with (P := fun s out => written out0 0 (i * plc_S st + s) f out);
    [done|by rewrite Z.add_0_r| |].
  - intros s o Hs W'. rewrite Hv by done. cbn [mbind res_bind]. rewrite Z.add_assoc.
    assert (0 <= i * plc_S st) by nia.
    eapply ok_store24; [exact W'|lia|lia|lia| |lia|done]. intros k Hk. by apply Hf.
  - intros o W'. apply HQ. by replace ((i + 1) * plc_S st) with (i * plc_S st + plc_S st) by lia.
Qed.

Lemma tier_of_range st k l : 0 <= tier_of st k l <= 3.
Proof.
  unfold tier_of, PLC_TIER_SILENCE, PLC_TIER_HOLD_LAST, PLC_TIER_REPEAT_XFADE, PLC_TIER_BURST_FADE.
  repeat case_match; lia.
Qed.

Lemma ok_conceal_channel st h k out0 out i tier :
  params_ok st -> rep st h -> 0 <= k <= INT_MAX -> 0 <= i < plc_n_channels st -> 0 <= tier ->
  plc_n_channels st * plc_S st * 3 <= blen out0 ->
  written out0 0 (i * plc_S st) (concealed_byte st k h) out ->
  ok (conceal_channel st (gain st k) k i (tier, out))
     (fun '(t, out') => t = Z.max tier (tier_of st k (h i))
        /\ written out0 0 ((i + 1) * plc_S st) (concealed_byte st k h) out').
Proof.
  intros HP HR Hk Hi Ht Hlen W. pose proof HP as (HS & _).
  destruct (HR i Hi) as (c & Hc & Hrep).
  pose proof Hrep as (_ & _ & Hfil & _ & Hl & _).
  assert (Hlen' : (i + 1) * plc_S st * 3 <= blen out0) by nia.
  assert (forall s j, 0 <= s < plc_S st -> 0 <= j < 3 ->
            concealed_byte st k h (i * plc_S st + s) j
            = Some (byte24 (clamp24 (concealed st k (h i) s)) j)) as HF.
  { intros s j Hs Hj. unfold concealed_byte. rewrite row_div, row_mod by done.
    by rewrite clamp24_id by by apply concealed_range. }
  unfold conceal_channel. ok_step. ok_read Hc. cbv zeta.
  rewrite Hfil. unfold tier_of.
  pose proof (fun value vals E => ok_fill_channel st i out0 out value vals _
                (fun o => written out0 0 ((i + 1) * plc_S st) (concealed_byte st k h) o)
                W ltac:(lia) ltac:(lia) Hlen' E) as HFill.
  pose proof (hist_at_spec c (h i) 0 Hrep ltac:(unfold PLC_HIST_SAMPLES in *; lia)) as H0.
  pose proof (gain_range st k HP) as Hg.
  unfold concealed in HF, HFill.
  destruct (Z.of_nat (length (h i)) =? 0).
  { ok_step. eapply ok_mono; [by apply (HFill _ (fun _ => 0))|]. intros o Ho. ok_step.
    split; [|done]. unfold PLC_TIER_SILENCE. destruct (Z.ltb_spec tier 3); lia. }
  destruct (Z.of_nat (length (h i)) <? plc_S st).
  { rewrite H0. cbn [mbind res_bind].
    rewrite (scale_q15_spec (past (h i) 0) (gain st k)) by (done || by apply past_range).
    cbn [mbind res_bind]. ok_step.
    eapply ok_mono; [by apply (HFill _ (fun _ => Z.shiftr (past (h i) 0 * gain st k) 15))|].
    intros o Ho. ok_step.
    split; [|done]. unfold PLC_TIER_HOLD_LAST. destruct (Z.ltb_spec tier 2); lia. }
  destruct (k =? 0).
  - rewrite H0. cbn [mbind res_bind]. ok_step.
    eapply ok_mono; [eapply HFill; [intros s Hs; by apply xfade_sample_spec|exact HF|done]|].
    intros o Ho. ok_step. split; [|done]. unfold PLC_TIER_REPEAT_XFADE. lia.
  - ok_step.
    eapply ok_mono; [eapply HFill; [intros s Hs; by apply burst_sample_spec|exact HF|done]|].
    intros o Ho. ok_step. split; [|done]. unfold PLC_TIER_BURST_FADE.
    destruct (Z.ltb_spec tier 1); lia.
Qed.

Lemma worst_tier_next st k h n :
  0 <= n -> worst_tier st k h (n + 1) = Z.max (worst_tier st k h n) (tier_of st k (h n)).
Proof.
  intros Hn. unfold worst_tier. rewrite seqZ_app, fmap_app, foldl_app by lia.
  rewrite Z.add_0_l. by change (seqZ n 1) with [n].
Qed.

Lemma worst_tier_nonneg st k h n : 0 <= n -> 0 <= worst_tier st k h n.
Proof.
  intros Hn. pattern n. apply natlike_ind; [done| |done].
  intros m Hm IH. change (Z.succ m) with (m + 1). rewrite worst_tier_next by done. lia.
Qed.

Lemma ok_plc_conceal st h out k (Q : Z * buf Z -> Prop) :
  params_ok st -> rep st h -> 0 <= k <= INT_MAX ->
  plc_n_channels st * plc_S st * 3 <= blen out ->
  (forall out', written out 0 (plc_n_channels st * plc_S st) (concealed_byte st k h) out' ->
     Q (worst_tier st k h (plc_n_channels st), out')) ->
  ok (plc_conceal st out k) Q.
Proof.
  intros HP HR Hk Hlen HQ. pose proof HP as (HS & HN & _).
  unfold plc_conceal. rewrite burst_gain_spec by done. cbn [mbind res_bind].
  apply ok_for with (P := fun i '(t, o) => t = worst_tier st k h i
      /\ written out 0 (i * plc_S st) (concealed_byte st k h) o); [done| | |].
  - split; [done|]. apply written_start.
  - intros i [t o] Hi [-> W]. eapply ok_mono; [apply ok_conceal_channel; try done|].
    + apply worst_tier_nonneg; lia.
    + intros [t' o'] [-> W']. by rewrite worst_tier_next by lia.
  - intros [t o] [-> W]. by apply HQ.
Qed.

(** * From the initial state *)

Lemma init_params_ok mode fade xfade :
  mode_ok mode -> fade <= 81920 -> params_ok (plc_init mode fade xfade).
Proof.
  intros (Hc & Hs & _) Hf. unfold params_ok, plc_init, PLC_HIST_SAMPLES; cbn.
  rewrite !Z.gtb_ltb. set (w := if 0 <? xfade then _ else _).
  assert (0 < w) by (unfold w; repeat case_match; lia). clearbody w.
  destruct (Z.ltb_spec 0 fade), (Z.ltb_spec (samples_per_pkt mode) w); lia.
Qed.

Lemma init_rep mode fade xfade :
  n_channels mode <= REAC_MAX_CHANNELS -> rep (plc_init mode fade xfade) (fun _ => []).
Proof.
  intros Hc i Hi. cbn in Hi |- *. eexists. split; [apply get_filled_with; lia|].
  unfold chan_rep, PLC_HIST_SAMPLES; cbn. repeat split; try lia; try constructor.
Qed.

(** the last packet observed is what the newest samples of the history are *)
Lemma past_observed st pcm l i s :
  params_ok st -> Z.of_nat (length l) <= PLC_HIST_SAMPLES ->
  bytes_upto pcm (plc_n_channels st * plc_S st * 3) ->
  0 <= i < plc_n_channels st -> 0 <= s < plc_S st ->
  sample pcm (i * plc_S st + s)
  = Some (past (foldl push l (chan_samples pcm (plc_S st) i)) (plc_S st - 1 - s)).
Proof.
  intros (HS & _) Hl HB Hi Hs. unfold PLC_HIST_SAMPLES in *.
  rewrite foldl_push by (unfold PLC_HIST_SAMPLES; lia). unfold past, PLC_HIST_SAMPLES.
  assert (length (chan_samples pcm (plc_S st) i) = Z.to_nat (plc_S st)) as Hlen.
  { unfold chan_samples. by rewrite length_fmap, length_seqZ. }
  rewrite lookup_take_lt by lia. rewrite lookup_app_l by (rewrite length_reverse; lia).
  rewrite reverse_lookup by lia. unfold chan_samples in *.
  rewrite list_lookup_fmap, lookup_seqZ_lt by (rewrite Hlen; lia).
  rewrite Hlen. cbn [fmap option_fmap option_map default id].
  replace (i * plc_S st + (0 + Z.of_nat (Z.to_nat (plc_S st) - S (Z.to_nat (plc_S st - 1 - s)))))
    with (i * plc_S st + s) by lia.
  by destruct (sample_some pcm (i * plc_S st + s) (plc_n_channels st * plc_S st))
    as (v & -> & _); [done|by apply lex_lt|].
Qed.

Lemma push_length l v :
  (length (push l v) = Nat.min (Z.to_nat PLC_HIST_SAMPLES) (S (length l)))%nat.
Proof. unfold push. by rewrite length_take. Qed.

Lemma observed_length l pcm s_ i :
  0 <= s_ -> Z.of_nat (length l) <= PLC_HIST_SAMPLES ->
  Z.of_nat (length (foldl push l (chan_samples pcm s_ i)))
  = Z.min PLC_HIST_SAMPLES (s_ + Z.of_nat (length l)).
Proof.
  intros Hs Hl. unfold PLC_HIST_SAMPLES in *. rewrite foldl_push by (unfold PLC_HIST_SAMPLES; lia).
  rewrite length_take, length_app, length_reverse. unfold chan_samples, PLC_HIST_SAMPLES.
  rewrite length_fmap, length_seqZ. lia.
Qed.

Lemma params_ok_set_ch st c : params_ok st -> params_ok (set_ch st c).
Proof. done. Qed.

Lemma rep_length st h i :
  rep st h -> 0 <= i < plc_n_channels st -> Z.of_nat (length (h i)) <= PLC_HIST_SAMPLES.
Proof. intros HR Hi. destruct (HR i Hi) as (c & _ & Hc). by eapply chan_rep_length. Qed.

Lemma rep_range st h i :
  rep st h -> 0 <= i < plc_n_channels st -> Forall (fun x => SMIN <= x <= SMAX) (h i).
Proof. intros HR Hi. by destruct (HR i Hi) as (c & _ & _ & _ & _ & _ & ? & _). Qed.

(** the samples of a concealment packet *)
Lemma concealed_samples st k h out out' i s :
  params_ok st -> rep st h ->
  written out 0 (plc_n_channels st * plc_S st) (concealed_byte st k h) out' ->
  0 <= i < plc_n_channels st -> 0 <= s < plc_S st ->
  sample out' (i * plc_S st + s) = Some (concealed st k (h i) s).
Proof.
  intros HP HR W Hi Hs. eapply written_sample; [exact W|by apply lex_lt| |].
  - intros b Hb. unfold concealed_byte. by rewrite row_div, row_mod.
  - eapply concealed_range; [done..|]. by eapply rep_range.
Qed.

Lemma concealed_bytes st k h out out' :
  written out 0 (plc_n_channels st * plc_S st) (concealed_byte st k h) out' ->
  bytes_upto out' (plc_n_channels st * plc_S st * 3).
Proof.
  intros W. eapply written_bytes; [exact W|]. intros n b _ _. eexists.
  split; [reflexivity|apply byte24_range].
Qed.

(** observing a packet, then concealing the next *)
Lemma observe_conceal st h pcm out k :
  params_ok st -> rep st h -> 0 <= k <= INT_MAX ->
  bytes_upto pcm (plc_n_channels st * plc_S st * 3) ->
  plc_n_channels st * plc_S st * 3 <= blen out ->
  let h' := fun i => foldl push (h i) (chan_samples pcm (plc_S st) i) in
  exists st' out',
    plc_observe st pcm = Ok st' /\ rep st' h'
    /\ plc_conceal st' out k = Ok (worst_tier st k h' (plc_n_channels st), out')
    /\ forall i s, 0 <= i < plc_n_channels st -> 0 <= s < plc_S st ->
         sample out' (i * plc_S st + s) = Some (concealed st k (h' i) s).
Proof.
  intros HP HR Hk HB Hlen h'.
  assert (ok (plc_observe st pcm) (fun st' => exists chs, st' = set_ch st chs /\ rep st' h')) as HO.
  { pose proof HP as (? & ? & _). eapply ok_plc_observe; try done; [lia|]. eauto. }
  apply ok_iff in HO as (st' & Ho & chs & -> & HR').
  assert (ok (plc_conceal (set_ch st chs) out k)
            (fun r => r.1 = worst_tier st k h' (plc_n_channels st)
               /\ forall i s, 0 <= i < plc_n_channels st -> 0 <= s < plc_S st ->
                    sample r.2 (i * plc_S st + s) = Some (concealed st k (h' i) s))) as HC.
  { eapply ok_plc_conceal; try done. intros out' W. split; [done|]. intros i s Hi Hs.
    exact (concealed_samples (set_ch st chs) k h' out out' i s HP HR' W Hi Hs). }
  apply ok_iff in HC as ([t out'] & Hc & Ht & Hs). simpl in Ht. subst t.
  by exists (set_ch st chs), out'.
Qed.

Lemma worst_tier_const st k h n t :
  (forall i, 0 <= i < n -> tier_of st k (h i) = t) -> 0 < n -> 0 <= t ->
  worst_tier st k h n = t.
Proof.
  intros HT Hn Ht.
  assert (forall m, 0 <= m -> m < n -> worst_tier st k h (m + 1) = t) as H.
  { apply (natlike_ind (fun m => m < n -> worst_tier st k h (m + 1) = t)).
    - intros _. rewrite worst_tier_next, HT by lia. change (worst_tier st k h 0) with 0. lia.
    - intros m Hm IH Hlt. rewrite worst_tier_next, HT by lia.
      change (Z.succ m) with (m + 1). rewrite IH by lia. lia. }
  replace n with (n - 1 + 1) by lia. apply H; lia.
Qed.

(** one step of the crossfade ramp *)
Lemma splice_step x y w :
  0 < w -> let a := Q15 / (w + 1) in
  (w + 1) * Z.abs (Z.shiftr (x * (Q15 - a) + y * a) 15 - x) <= Z.abs (y - x) + (w + 1).
Proof.
  intros Hw a. unfold Q15 in *.
  rewrite Z.shiftr_div_pow2 by lia. change (2 ^ 15) with 32768.
  replace (x * (32768 - a) + y * a) with ((y - x) * a + x * 32768) by lia.
  rewrite Z.div_add by lia. replace ((y - x) * a / 32768 + x - x) with ((y - x) * a / 32768) by lia.
  assert (0 <= a) as Ha by (apply Z.div_pos; lia).
  pose proof (Z.mul_div_le 32768 (w + 1) ltac:(lia)) as Hw'. fold a in Hw'.
  set (d := y - x). set (q := d * a / 32768).
  pose proof (Z.mul_div_le (d * a) 32768 ltac:(lia)) as H1.
  pose proof (Z.mul_succ_div_gt (d * a) 32768 ltac:(lia)) as H2. fold q in H1, H2.
  clearbody q a d. clear x y.
  destruct (Z.le_ge_cases 0 d) as [Hd|Hd].
  - assert (0 <= q) by nia. rewrite (Z.abs_eq q), (Z.abs_eq d) by done. nia.
  - assert (q <= 0) by nia. rewrite (Z.abs_neq q), (Z.abs_neq d) by done. nia.
Qed.

(** * Properties *)

(** C14: concealment is safe and computes the documented ladder.  For any channel
    histories the call runs into no undefined behaviour, sample [s] of channel
    [i] is [concealed] of that channel's own history (silence, hold-last,
    repeat with crossfade, scaled repeat), the returned tier is the worst one
    used, and no byte outside the packet is touched. *)
Theorem plc_conceal_correct st h out (k : Z)
  (HP : params_ok st) (HR : rep st h) (Hk : 0 <= k <= INT_MAX)
  (Hlen : plc_n_channels st * plc_S st * 3 <= blen out) :
  exists out',
    plc_conceal st out k = Ok (worst_tier st k h (plc_n_channels st), out')
    /\ (forall i s, 0 <= i < plc_n_channels st -> 0 <= s < plc_S st ->
          sample out' (i * plc_S st + s) = Some (concealed st k (h i) s))
    /\ blen out' = blen out
    /\ forall j, plc_n_channels st * plc_S st * 3 <= j -> get out' j = get out j.
Proof.
  assert (ok (plc_conceal st out k) (fun r =>
    r.1 = worst_tier st k h (plc_n_channels st)
    /\ written out 0 (plc_n_channels st * plc_S st) (concealed_byte st k h) r.2)) as HC
    by by eapply ok_plc_conceal.
  apply ok_iff in HC as ([t out'] & Hc & Ht & W). simpl in Ht. subst t.
  exists out'. split; [done|]. split; [intros; by eapply concealed_samples|].
  destruct W as (Hl & _ & Ho). split; [done|]. intros j Hj. apply Ho. lia.
Qed.

(** The ring is the channel's recent history.  Observing a packet pushes
    its samples, and the newest [S] samples of every channel are then exactly
    that packet, so the packet that tier 0 repeats is the last one received. *)
Theorem plc_observe_history st h pcm
  (HP : params_ok st) (HR : rep st h)
  (HB : bytes_upto pcm (plc_n_channels st * plc_S st * 3)) :
  exists st',
    plc_observe st pcm = Ok st'
    /\ rep st' (fun i => foldl push (h i) (chan_samples pcm (plc_S st) i))
    /\ forall i s, 0 <= i < plc_n_channels st -> 0 <= s < plc_S st ->
         sample pcm (i * plc_S st + s)
         = Some (past (foldl push (h i) (chan_samples pcm (plc_S st) i)) (plc_S st - 1 - s)).
Proof.
  destruct (observe_conceal st h pcm (undef (plc_n_channels st * plc_S st * 3)) 0)
    as (st' & _ & Ho & HR' & _); try done.
  { destruct HP as (? & ? & _). rewrite blen_undef; nia. }
  exists st'. split; [done|]. split; [done|].
  intros i s Hi Hs. apply past_observed; try done. by eapply rep_length.
Qed.

(** C40: concealment never amplifies.  Whatever the position [k] in the loss
    run, if the samples of channel [i] in the last packet are within [-p, p],
    so is every sample synthesised for that channel. *)
Theorem plc_never_amplifies st h pcm out (k i p : Z)
  (HP : params_ok st) (HR : rep st h) (Hk : 0 <= k <= INT_MAX)
  (HB : bytes_upto pcm (plc_n_channels st * plc_S st * 3))
  (Hlen : plc_n_channels st * plc_S st * 3 <= blen out)
  (Hi : 0 <= i < plc_n_channels st) (Hp : 0 <= p)
  (Hpeak : forall s v, 0 <= s < plc_S st -> sample pcm (i * plc_S st + s) = Some v -> - p <= v <= p) :
  exists st' t out',
    plc_observe st pcm = Ok st' /\ plc_conceal st' out k = Ok (t, out')
    /\ forall s, 0 <= s < plc_S st ->
         exists y, sample out' (i * plc_S st + s) = Some y /\ - p <= y <= p.
Proof.
  destruct (observe_conceal st h pcm out k) as (st' & out' & Ho & _ & Hc & Hs); try done.
  do 3 eexists. split; [exact Ho|]. split; [exact Hc|]. intros s Hs'.
  eexists. split; [by apply Hs|]. apply concealed_bounded; try done. intros back Hback.
  apply (Hpeak (plc_S st - 1 - back)); [lia|].
  rewrite (past_observed st pcm (h i)); try done; [|by eapply rep_length|lia].
  do 2 f_equal. lia.
Qed.

(** The burst gain is total for fades up to 81920 packets, is full scale
    through the flat part, never increases and is zero from [fade_packets] on. *)
Theorem burst_gain_shape mode (fade xfade k k' : Z)
  (HM : mode_ok mode) (Hf : fade <= 81920) (Hk : 0 <= k <= k') (Hk' : k' <= INT_MAX) :
  let st := plc_init mode fade xfade in
  exists g g', burst_gain_q15 st k = Ok g /\ burst_gain_q15 st k' = Ok g'
    /\ 0 <= g' <= g /\ g <= Q15
    /\ (k <= fade_flat_packets st -> g = Q15) /\ (fade_packets st <= k -> g = 0).
Proof.
  cbv zeta. pose proof (init_params_ok mode fade xfade HM Hf) as HP.
  set (st := plc_init mode fade xfade) in *. pose proof (flat_bounds st HP).
  exists (gain st k), (gain st k'). rewrite !burst_gain_spec by (done || lia).
  pose proof (gain_range st k HP). pose proof (gain_range st k' HP).
  pose proof (gain_antitone st k k' HP ltac:(lia)).
  repeat split; try lia; intros; unfold gain.
  - destruct (Z.leb_spec k (fade_flat_packets st)); [done|lia].
  - rewrite Z.geb_leb.
    destruct (Z.leb_spec k (fade_flat_packets st)), (Z.leb_spec (fade_packets st) k); done || lia.
Qed.

(** A fade above 81920 packets (--plc-fade) overflows [int] in the gain of
    the first decaying packet, which is undefined behaviour. *)
Theorem burst_gain_overflow mode (fade xfade : Z) (Hf : 81920 < fade <= INT_MAX) :
  let st := plc_init mode fade xfade in
  burst_gain_q15 st (fade_flat_packets st + 1) = Err SignedOverflow.
Proof.
  cbv zeta. unfold burst_gain_q15, plc_init; cbn [fade_packets fade_flat_packets].
  unfold INT_MAX in Hf. rewrite Z.gtb_ltb, (proj2 (Z.ltb_lt 0 fade)) by lia.
  set (fl := Z.quot fade 5). assert (0 <= fl /\ 65536 < fade - fl /\ fl + 1 < fade)
    by (unfold fl; Z.to_euclidean_division_equations; lia).
  rewrite (proj2 (Z.leb_gt _ _)), Z.geb_leb, (proj2 (Z.leb_gt _ _)) by lia.
  assert (forall x, 0 <= x <= 2147483647 -> int x = Ok x) as HI
    by (intros x Hx; apply ok_eq, ok_int; [unfold INT_MIN, INT_MAX; lia|done]).
  rewrite (HI (fade - fl)) by lia. cbn [mbind res_bind].
  rewrite (HI (fl + 1 - fl)) by lia. cbn [mbind res_bind].
  rewrite (HI (fade - fl - (fl + 1 - fl))) by lia. cbn [mbind res_bind].
  unfold int. rewrite andb_comm, (proj2 (Z.leb_gt _ _)); [done|]. unfold Q15, INT_MAX. lia.
Qed.

(** Hold-last is not the floor of a long loss.  From [fade_packets] lost
    packets on, live audio is concealed with digital silence, reported as the
    burst-fade tier. *)
Theorem plc_long_loss_is_silent st h pcm out (k : Z)
  (HP : params_ok st) (HR : rep st h) (Hk : fade_packets st <= k <= INT_MAX)
  (HB : bytes_upto pcm (plc_n_channels st * plc_S st * 3))
  (Hlen : plc_n_channels st * plc_S st * 3 <= blen out) (Hch : 0 < plc_n_channels st) :
  exists st' out',
    plc_observe st pcm = Ok st' /\ plc_conceal st' out k = Ok (PLC_TIER_BURST_FADE, out')
    /\ forall n, 0 <= n < plc_n_channels st * plc_S st -> sample out' n = Some 0.
Proof.
  pose proof HP as (HS & _ & _ & Hfp & _). pose proof (flat_bounds st HP).
  destruct (observe_conceal st h pcm out k) as (st' & out' & Ho & _ & Hc & Hs); try done; [lia|].
  set (h' := fun i => foldl push (h i) (chan_samples pcm (plc_S st) i)) in *.
  assert (forall i, 0 <= i < plc_n_channels st -> plc_S st <= Z.of_nat (length (h' i))) as HL.
  { intros i Hi. unfold h'. pose proof (rep_length st h i HR Hi).
    rewrite observed_length by lia. lia. }
  change (forall i s, 0 <= i < plc_n_channels st -> 0 <= s < plc_S st ->
    sample out' (i * plc_S st + s) = Some (concealed st k (h' i) s)) in Hs.
  clearbody h'.
  assert (gain st k = 0) as Hg.
  { unfold gain. rewrite Z.geb_leb, (proj2 (Z.leb_gt k _)), (proj2 (Z.leb_le _ k)) by lia. done. }
  assert (forall i, 0 <= i < plc_n_channels st -> tier_of st k (h' i) = PLC_TIER_BURST_FADE) as HT.
  { intros i Hi. specialize (HL i Hi). unfold tier_of.
    destruct (Z.eqb_spec (Z.of_nat (length (h' i))) 0), (Z.eqb_spec k 0),
      (Z.ltb_spec (Z.of_nat (length (h' i))) (plc_S st)); done || lia. }
  rewrite (worst_tier_const st k h' _ _ HT) in Hc by (done || lia).
  exists st', out'. split; [done|]. split; [done|]. intros n Hn.
  replace n with (n / plc_S st * plc_S st + n mod plc_S st)
    by (pose proof (Z.div_mod n (plc_S st)); lia).
  assert (0 <= n / plc_S st < plc_n_channels st)
    by (split; [apply Z.div_pos|apply Z.div_lt_upper_bound]; lia).
  pose proof (Z.mod_pos_bound n (plc_S st) ltac:(lia)).
  rewrite Hs by done. f_equal. specialize (HL (n / plc_S st) ltac:(done)).
  unfold concealed. rewrite Hg, !Z.mul_0_r.
  destruct (Z.eqb_spec (Z.of_nat (length (h' (n / plc_S st)))) 0), (Z.eqb_spec k 0),
    (Z.ltb_spec (Z.of_nat (length (h' (n / plc_S st)))) (plc_S st)); done || lia.
Qed.

(** The splice starts next to the last real sample: the first sample of a
    loss is at most 1/(W+1) of the way to the repeated packet (plus rounding),
    and after the [W] crossfade samples the repeat is verbatim. *)
Theorem plc_splice st h pcm out (i : Z)
  (HP : params_ok st) (HR : rep st h) (Hi : 0 <= i < plc_n_channels st)
  (HB : bytes_upto pcm (plc_n_channels st * plc_S st * 3))
  (Hlen : plc_n_channels st * plc_S st * 3 <= blen out) :
  exists st' t out' first last y,
    plc_observe st pcm = Ok st' /\ plc_conceal st' out 0 = Ok (t, out')
    /\ sample pcm (i * plc_S st) = Some first
    /\ sample pcm (i * plc_S st + (plc_S st - 1)) = Some last
    /\ sample out' (i * plc_S st) = Some y
    /\ (xfade_w st + 1) * Z.abs (y - last) <= Z.abs (first - last) + (xfade_w st + 1)
    /\ forall s, xfade_w st <= s < plc_S st ->
         sample out' (i * plc_S st + s) = sample pcm (i * plc_S st + s).
Proof.
  pose proof HP as (HS & _ & HW & _).
  destruct (observe_conceal st h pcm out 0) as (st' & out' & Ho & _ & Hc & Hs); try done.
  pose proof (rep_length st h i HR Hi) as HL.
  pose proof (fun s => past_observed st pcm (h i) i s HP HL HB Hi) as Hpast.
  pose proof (observed_length (h i) pcm (plc_S st) i ltac:(lia) HL) as Hol.
  set (l := foldl push (h i) (chan_samples pcm (plc_S st) i)) in *.
  assert (forall s, concealed st 0 l s = let sub := past l (plc_S st - 1 - s) in
     if s <? xfade_w st then
       let a := (s + 1) * Q15 / (xfade_w st + 1) in
       Z.shiftr (past l 0 * (Q15 - a) + sub * a) 15 else sub) as Hcv.
  { intros s. unfold concealed.
    destruct (Z.eqb_spec (Z.of_nat (length l)) 0), (Z.ltb_spec (Z.of_nat (length l)) (plc_S st));
      done || lia. }
  exists st', (worst_tier st 0 (fun i => foldl push (h i) (chan_samples pcm (plc_S st) i)) (plc_n_channels st)),
    out', (past l (plc_S st - 1)), (past l 0), (concealed st 0 l 0).
  split; [done|]. split; [done|].
  pose proof (Hpast 0 ltac:(lia)) as Hp0. pose proof (Hpast (plc_S st - 1) ltac:(lia)) as Hp1.
  rewrite Z.add_0_r, Z.sub_0_r in Hp0. rewrite Z.sub_diag in Hp1.
  pose proof (Hs i 0 Hi ltac:(lia)) as Hs0. rewrite Z.add_0_r in Hs0.
  repeat (split; [done|]). split.
  - rewrite Hcv. rewrite (proj2 (Z.ltb_lt 0 _)) by lia. cbv zeta.
    rewrite Z.sub_0_r, Z.add_0_l, Z.mul_1_l. apply splice_step; lia.
  - intros s Hs1. rewrite Hs by (done || lia). rewrite Hpast by lia. f_equal.
    rewrite Hcv. by rewrite (proj2 (Z.ltb_ge s _)) by lia.
Qed.
End Plc.

(** * Concrete instances *)

Definition toy_mode : reac_mode := ReacMode 48000 2 2.
Definition toy_plc : plc := plc_init (L := documented_lib) toy_mode 0 0.
Definition toy_pcm : buf Z := of_list [16; 39; 0; 240; 216; 255; 1; 0; 0; 255; 255; 127].

Lemma toy_params : params_ok toy_plc.
Proof. apply (init_params_ok (L := documented_lib)); [by vm_compute|lia]. Qed.

Lemma toy_rep : rep toy_plc (fun _ => []).
Proof. apply (init_rep (L := documented_lib)). by vm_compute. Qed.

Lemma toy_bytes : bytes_upto toy_pcm 12.
Proof.
  intros i Hi. assert (i = 0 \/ i = 1 \/ i = 2 \/ i = 3 \/ i = 4 \/ i = 5 \/ i = 6 \/ i = 7
    \/ i = 8 \/ i = 9 \/ i = 10 \/ i = 11) as HC by lia.
  repeat destruct HC as [->|HC]; try subst i; eexists; (split; [reflexivity|lia]).
Qed.

Lemma plc_conceal_correct_witness :
  exists out', plc_conceal toy_plc (undef 12) 0 = Ok (PLC_TIER_SILENCE, out')
    /\ sample out' 3 = Some 0.
Proof.
  destruct (plc_conceal_correct toy_plc (fun _ => []) (undef 12) 0 toy_params toy_rep)
    as (out' & H1 & H2 & _); [by vm_compute|by vm_compute|].
  exists out'. split; [exact H1|]. apply (H2 1 1); by vm_compute.
Defined.

Lemma plc_observe_history_witness :
  exists st', plc_observe toy_plc toy_pcm = Ok st' /\ rep st' (fun i => nth (Z.to_nat i) [[-10000; 10000]; [8388607; 1]] []).
Proof.
  destruct (plc_observe_history toy_plc (fun _ => []) toy_pcm toy_params toy_rep toy_bytes)
    as (st' & H1 & H2 & _).
  exists st'. split; [exact H1|]. intros i Hi. destruct (H2 i Hi) as (c & Hc & Hr).
  exists c. split; [exact Hc|].
  assert (plc_n_channels st' = 2) as Hn by (apply (f_equal (fun r => match r with Ok s => plc_n_channels s | _ => 0 end)) in H1; symmetry; exact H1).
  assert (i = 0 \/ i = 1) as [->| ->] by lia; exact Hr.
Defined.

Lemma plc_never_amplifies_witness :
  exists st' t out', plc_observe toy_plc toy_pcm = Ok st'
    /\ plc_conceal st' (undef 12) 0 = Ok (t, out')
    /\ exists y, sample out' 1 = Some y /\ -10000 <= y <= 10000.
Proof.
  destruct (plc_never_amplifies toy_plc (fun _ => []) toy_pcm (undef 12) 0 0 10000
              toy_params toy_rep) as (st' & t & out' & H1 & H2 & H3);
    [by vm_compute|exact toy_bytes|by vm_compute|by vm_compute|lia| |].
  { intros s v Hs. assert (s = 0 \/ s = 1) as [->| ->] by (change (plc_S toy_plc) with 2 in Hs; lia);
      vm_compute; intros [= <-]; split; discriminate. }
  exists st', t, out'. split; [exact H1|]. split; [exact H2|]. apply (H3 1). by vm_compute.
Defined.

Lemma burst_gain_shape_witness :
  burst_gain_q15 toy_plc 40 = Ok 32768 /\ burst_gain_q15 toy_plc 120 = Ok 16384
  /\ exists g g', burst_gain_q15 toy_plc 40 = Ok g /\ burst_gain_q15 toy_plc 120 = Ok g' /\ g' <= g.
Proof.
  split; [reflexivity|]. split; [reflexivity|].
  destruct (burst_gain_shape (L := documented_lib) toy_mode 0 0 40 120)
    as (g & g' & H1 & H2 & H3 & _); [by vm_compute|lia|lia|by vm_compute|].
  exists g, g'. split; [exact H1|]. split; [exact H2|]. lia.
Defined.

Lemma burst_gain_overflow_witness :
  burst_gain_q15 (plc_init (L := documented_lib) toy_mode 100000 0) 20001 = Err SignedOverflow.
Proof. apply (burst_gain_overflow (L := documented_lib) toy_mode 100000 0). by vm_compute. Defined.

Lemma plc_long_loss_is_silent_witness :
  exists st' out', plc_observe toy_plc toy_pcm = Ok st'
    /\ plc_conceal st' (undef 12) 200 = Ok (PLC_TIER_BURST_FADE, out') /\ sample out' 3 = Some 0.
Proof.
  destruct (plc_long_loss_is_silent toy_plc (fun _ => []) toy_pcm (undef 12) 200 toy_params toy_rep)
    as (st' & out' & H1 & H2 & H3); [by vm_compute|exact toy_bytes|by vm_compute|by vm_compute|].
  exists st', out'. split; [exact H1|]. split; [exact H2|]. apply H3. by vm_compute.
Defined.

Lemma plc_splice_witness :
  exists st' t out' y, plc_observe toy_plc toy_pcm = Ok st'
    /\ plc_conceal st' (undef 12) 0 = Ok (t, out')
    /\ sample out' 0 = Some y /\ 3 * Z.abs (y - -10000) <= 20003.
Proof.
  destruct (plc_splice toy_plc (fun _ => []) toy_pcm (undef 12) 0 toy_params toy_rep)
    as (st' & t & out' & first & last & y & H1 & H2 & H3 & H4 & H5 & H6 & _);
    [by vm_compute|exact toy_bytes|by vm_compute|].
  exists st', t, out', y. split; [exact H1|]. split; [exact H2|]. split; [exact H5|].
  vm_compute in H3, H4. injection H3 as <-. injection H4 as <-. exact H6.
Defined.
