(* ===== verification/Rtp.v ===== *)
(** rtp_l24.c: building one RTP L24 packet, the RFC 3550 header and the audio
    re-interleaved frame-major and flipped to big endian, from all or a slice of
    the channels of a planar block. *)

From S2P Require Import Prelude LibReac Pcm.

Definition RTP_HEADER_LEN : Z := 12.
Definition RTP_VERSION : Z := 2.

(** [struct rtp_params] *)
Record rtp_params : Type := RtpParams {
  payload_type : Z;  (* uint8_t *)
  seq : Z;           (* uint16_t *)
  timestamp : Z;     (* uint32_t *)
  ssrc : Z;          (* uint32_t *)
}.

Definition write_rtp_header (out : buf Z) (p : rtp_params) : res (buf Z) :=
  out ← wr out 0 (u8 (Z.shiftl RTP_VERSION 6));
  out ← wr out 1 (u8 (Z.land (payload_type p) 127));
  out ← wr out 2 (u8 (Z.shiftr (seq p) 8));
  out ← wr out 3 (u8 (Z.land (seq p) 255));
  out ← wr out 4 (u8 (Z.shiftr (timestamp p) 24));
  out ← wr out 5 (u8 (Z.shiftr (timestamp p) 16));
  out ← wr out 6 (u8 (Z.shiftr (timestamp p) 8));
  out ← wr out 7 (u8 (Z.land (timestamp p) 255));
  out ← wr out 8 (u8 (Z.shiftr (ssrc p) 24));
  out ← wr out 9 (u8 (Z.shiftr (ssrc p) 16));
  out ← wr out 10 (u8 (Z.shiftr (ssrc p) 8));
  wr out 11 (u8 (Z.land (ssrc p) 255)).

(** body of the inner loop: one sample, little endian to big endian *)
Definition flow_sample (planar : buf Z) (ch_start flow_nch n_samples s fc : Z) (out : buf Z)
  : res (buf Z) :=
  ch ← int (ch_start + fc);
  m ← int (ch * n_samples);
  i ← int (m + s);
  let src := i * 3 in
  r ← int (s * flow_nch);
  j ← int (r + fc);
  let dst := RTP_HEADER_LEN + j * 3 in
  b2 ← rd planar (src + 2);
  out ← wr out dst b2;
  b1 ← rd planar (src + 1);
  out ← wr out (dst + 1) b1;
  b0 ← rd planar src;
  wr out (dst + 2) b0.

Definition rtp_l24_build_flow (out : buf Z) (cap : Z) (p : rtp_params) (planar : buf Z)
  (total_nch ch_start flow_nch n_samples : Z) : res (Z * buf Z) :=
  if (ch_start <? 0) || (flow_nch <=? 0) || (n_samples <=? 0) then mret (-1, out) else
  last ← int (ch_start + flow_nch);
  if last >? total_nch then mret (-1, out) else
  let payload := u64 (u64 (flow_nch * n_samples) * 3) in
  let total := u64 (RTP_HEADER_LEN + payload) in
  if cap <? total then mret (-1, out) else
  out ← write_rtp_header out p;
  out ← for_ 0 n_samples (fun s =>
          for_ 0 flow_nch (flow_sample planar ch_start flow_nch n_samples s)) out;
  mret (total, out).

Definition rtp_l24_build (out : buf Z) (cap : Z) (p : rtp_params) (planar : buf Z)
  (mode : reac_mode) : res (Z * buf Z) :=
  rtp_l24_build_flow out cap p planar (n_channels mode) 0 (n_channels mode)
    (samples_per_pkt mode).

(** * Specification: what a receiver reads *)

Definition be16 (b : buf Z) (i : Z) : option Z :=
  x0 ← get b i; x1 ← get b (i + 1); mret (x0 * 256 + x1).

Definition be32 (b : buf Z) (i : Z) : option Z :=
  x ← be16 b i; y ← be16 b (i + 2); mret (x * 65536 + y).

(** an RFC 3550 fixed header without padding, extension, CSRC list or marker *)
Definition parse_rtp_header (b : buf Z) : option rtp_params :=
  v ← get b 0;
  if negb (v =? 128) then None else
  m ← get b 1;
  if 128 <=? m then None else
  s ← be16 b 2; t ← be32 b 4; i ← be32 b 8;
  mret (RtpParams m s t i).

(** the [n]-th big-endian 24-bit sample of the payload *)
Definition payload_sample (b : buf Z) (n : Z) : option Z :=
  x2 ← get b (RTP_HEADER_LEN + n * 3);
  x1 ← get b (RTP_HEADER_LEN + n * 3 + 1);
  x0 ← get b (RTP_HEADER_LEN + n * 3 + 2);
  mret (s24 x0 x1 x2).

(** parameters as C holds them *)
Definition rtp_params_ok (p : rtp_params) : Prop :=
  0 <= payload_type p < 256 /\ 0 <= seq p < 65536
  /\ 0 <= timestamp p < 4294967296 /\ 0 <= ssrc p < 4294967296.

(** the parameters with the payload type's top bit dropped *)
Definition wire_params (p : rtp_params) : rtp_params :=
  RtpParams (payload_type p mod 128) (seq p) (timestamp p) (ssrc p).

(** byte [k] of the [n]-th sample of the payload *)
Definition payload_byte (planar : buf Z) (ch_start flow_nch n_samples n k : Z) : option Z :=
  get planar (((ch_start + n mod flow_nch) * n_samples + n / flow_nch) * 3 + (2 - k)).

(** [out] is the packet: header, then [n] samples, then [out0]'s content *)
Definition packet_of (p : rtp_params) (n : Z) (f : Z -> Z -> option Z) (out0 out : buf Z) : Prop :=
  parse_rtp_header out = Some (wire_params p)
  /\ blen out = blen out0
  /\ (forall i k, 0 <= i < n -> 0 <= k < 3 -> get out (RTP_HEADER_LEN + i * 3 + k) = f i k)
  /\ (forall i, 0 <= i < RTP_HEADER_LEN -> exists v, get out i = Some v /\ 0 <= v < 256)
  /\ (forall j, RTP_HEADER_LEN + n * 3 <= j -> get out j = get out0 j).

(** * Lemmas *)

Lemma land_low x n : 0 <= n -> Z.land x (2 ^ n - 1) = x mod 2 ^ n.
Proof. intros Hn. rewrite <- Z.land_ones by done. by rewrite Z.ones_equiv. Qed.

Lemma u8_shiftr x n : 0 <= n -> u8 (Z.shiftr x n) = x / 2 ^ n mod 256.
Proof. intros Hn. unfold u8. by rewrite Z.shiftr_div_pow2. Qed.

Lemma u8_land255 x : u8 (Z.land x 255) = x mod 256.
Proof. unfold u8. change 255 with (2 ^ 8 - 1). rewrite land_low by lia. change (2 ^ 8) with 256. by rewrite Zmod_mod. Qed.

Lemma u8_land127 x : u8 (Z.land x 127) = x mod 128.
Proof.
  unfold u8. change 127 with (2 ^ 7 - 1). rewrite land_low by lia. change (2 ^ 7) with 128.
  apply Z.mod_small. pose proof (Z.mod_pos_bound x 128). lia.
Qed.

(** the two and four bytes of a big-endian field *)
Lemma be16_bytes x : 0 <= x < 65536 -> x / 2 ^ 8 mod 256 * 256 + x mod 256 = x.
Proof. intros H. change (2 ^ 8) with 256. Z.div_mod_to_equations. lia. Qed.

Lemma be32_bytes x :
  0 <= x < 4294967296 ->
  (x / 2 ^ 24 mod 256 * 256 + x / 2 ^ 16 mod 256) * 65536
  + (x / 2 ^ 8 mod 256 * 256 + x mod 256) = x.
Proof.
  intros H. change (2 ^ 24) with 16777216. change (2 ^ 16) with 65536. change (2 ^ 8) with 256.
  Z.div_mod_to_equations. lia.
Qed.

Lemma ok_write_rtp_header out p (Q : buf Z -> Prop) :
  rtp_params_ok p -> RTP_HEADER_LEN <= blen out ->
  (forall out', packet_of p 0 (fun _ _ => None) out out' -> Q out') ->
  ok (write_rtp_header out p) Q.
Proof.
  unfold RTP_HEADER_LEN. intros (H1 & H2 & H3 & H4) Hl HQ. unfold write_rtp_header.
  rewrite !u8_shiftr, !u8_land255, u8_land127 by lia. change (u8 (Z.shiftl RTP_VERSION 6)) with 128.
  ok_steps. apply HQ. unfold packet_of, RTP_HEADER_LEN. split; [|split; [|split; [|split]]].
  - unfold parse_rtp_header, be32, be16. cbn [Z.add Pos.add Pos.succ]. get_upds.
    cbn [mbind option_bind Z.eqb Pos.eqb negb].
    pose proof (Z.mod_pos_bound (payload_type p) 128).
    rewrite (proj2 (Z.leb_gt _ _)) by lia.
    cbv beta iota delta [mret option_ret mbind option_bind].
    by rewrite be16_bytes, !be32_bytes.
  - by rewrite !blen_upd.
  - intros i k Hi. lia.
  - intros i Hi.
    assert (i = 0 \/ i = 1 \/ i = 2 \/ i = 3 \/ i = 4 \/ i = 5 \/ i = 6 \/ i = 7 \/ i = 8
      \/ i = 9 \/ i = 10 \/ i = 11) as HC by lia.
    repeat destruct HC as [->|HC]; try subst i; get_upds; eexists; (split; [reflexivity|]);
      try (apply Z.mod_pos_bound; lia); try lia.
    pose proof (Z.mod_pos_bound (payload_type p) 128). lia.
  - intros j Hj. get_upds. done.
Qed.

(** the integers of a flow whose index arithmetic stays inside [int] *)
Definition flow_ok (total_nch ch_start flow_nch n_samples : Z) : Prop :=
  0 <= ch_start /\ 0 < flow_nch /\ ch_start + flow_nch <= total_nch /\ 0 < n_samples
  /\ total_nch * n_samples <= 100000000.

Section Flow.
Context (planar : buf Z) (total_nch ch_start flow_nch n_samples : Z).
Context (Hflow : flow_ok total_nch ch_start flow_nch n_samples).
Context (Hinit : forall c s k, ch_start <= c < ch_start + flow_nch -> 0 <= s < n_samples ->
           0 <= k < 3 -> is_Some (get planar ((c * n_samples + s) * 3 + k))).

Let pbyte := payload_byte planar ch_start flow_nch n_samples.

Lemma payload_byte_row s fc k :
  0 <= fc < flow_nch ->
  payload_byte planar ch_start flow_nch n_samples (s * flow_nch + fc) k
  = get planar (((ch_start + fc) * n_samples + s) * 3 + (2 - k)).
Proof. intros H. unfold payload_byte. by rewrite row_div, row_mod. Qed.

Lemma ok_flow_sample out0 out s fc :
  0 <= s < n_samples -> 0 <= fc < flow_nch ->
  RTP_HEADER_LEN + n_samples * flow_nch * 3 <= blen out0 ->
  written out0 RTP_HEADER_LEN (s * flow_nch + fc) pbyte out ->
  ok (flow_sample planar ch_start flow_nch n_samples s fc out)
     (written out0 RTP_HEADER_LEN (s * flow_nch + fc + 1) pbyte).
Proof.
  intros Hs Hfc Hlen W. destruct Hflow as (F1 & F2 & F3 & F4 & F5).
  pose proof (written_blen _ _ _ _ _ W) as Hbl. unfold RTP_HEADER_LEN in *.
  pose proof (lex_lt flow_nch n_samples s fc Hs Hfc) as Hd.
  assert (0 <= s * flow_nch) by nia.
  assert (0 <= (ch_start + fc) * n_samples /\ (ch_start + fc) * n_samples + s < total_nch * n_samples) by nia.
  assert (n_samples * flow_nch <= 100000000) by nia.
  assert (flow_nch <= 100000000 /\ ch_start + fc <= 100000000) by nia.
  pose proof (Hinit (ch_start + fc) s) as Hi.
  destruct (Hi 0) as [b0 E0]; [lia..|]. destruct (Hi 1) as [b1 E1]; [lia..|].
  destruct (Hi 2) as [b2 E2]; [lia..|]. rewrite Z.add_0_r in E0.
  pose proof (payload_byte_row s fc) as Hp. fold pbyte in Hp.
  unfold flow_sample, RTP_HEADER_LEN. ok_steps.
  ok_read E2. do 2 ok_step. ok_step. ok_read E1. do 2 ok_step. ok_step. ok_read E0. ok_step.
  apply written_step; try done; try lia; rewrite Hp by done; cbn [Z.sub Z.add Z.opp];
    try done. by rewrite Z.add_0_r.
Qed.

Lemma ok_build_flow out cap p (Q : Z * buf Z -> Prop) :
  rtp_params_ok p -> cap <= blen out ->
  (cap < RTP_HEADER_LEN + flow_nch * n_samples * 3 -> Q (-1, out)) ->
  (forall out', RTP_HEADER_LEN + flow_nch * n_samples * 3 <= cap ->
     packet_of p (n_samples * flow_nch) pbyte out out' ->
     Q (RTP_HEADER_LEN + flow_nch * n_samples * 3, out')) ->
  ok (rtp_l24_build_flow out cap p planar total_nch ch_start flow_nch n_samples) Q.
Proof.
  intros Hp Hcap Hsmall Hbig. destruct Hflow as (F1 & F2 & F3 & F4 & F5).
  unfold rtp_l24_build_flow.
  rewrite (proj2 (Z.ltb_ge ch_start 0)), (proj2 (Z.leb_gt flow_nch 0)),
    (proj2 (Z.leb_gt n_samples 0)) by lia. cbn [orb].
  assert (total_nch <= 100000000 /\ 0 <= flow_nch * n_samples <= 100000000) as H by nia.
  ok_steps. rewrite Z.gtb_ltb, (proj2 (Z.ltb_ge total_nch _)) by lia.
  unfold u64. rewrite (Z.mod_small (flow_nch * n_samples)), (Z.mod_small (_ * 3)) by lia.
  unfold RTP_HEADER_LEN in *. rewrite Z.mod_small by lia. cbv zeta.
  destruct (Z.ltb_spec cap (12 + flow_nch * n_samples * 3)) as [Hlt|Hge]; [by apply Hsmall|].
  ok_step. apply ok_write_rtp_header; [done|unfold RTP_HEADER_LEN; lia|].
  intros out1 (P1 & P2 & _ & P4 & P5). ok_step.
  apply (ok_for2 (fun n => written out1 12 n pbyte)); [lia|lia|apply written_start| |].
  - intros s fc o Hs Hfc W. apply ok_flow_sample; try done. unfold RTP_HEADER_LEN. lia.
  - intros o (W1 & W2 & W3). ok_step. apply Hbig; [done|].
    assert (forall i, i < 12 -> get o i = get out1 i) as Hhd by (intros; apply W3; lia).
    unfold packet_of, RTP_HEADER_LEN in *. split; [|split; [|split; [|split]]].
    + rewrite <- P1. unfold parse_rtp_header, be32, be16. cbn [Z.add Pos.add Pos.succ].
      by rewrite !Hhd by lia.
    + lia.
    + intros i k Hi Hk. by apply W2.
    + intros i Hi. rewrite Hhd by lia. by apply P4.
    + intros j Hj. rewrite W3 by lia. apply P5. lia.
Qed.
End Flow.

(** a sample of the payload is the planar sample of its channel and time *)
Lemma packet_sample planar ch_start flow_nch n_samples p out0 out s fc :
  packet_of p (n_samples * flow_nch) (payload_byte planar ch_start flow_nch n_samples) out0 out ->
  0 <= s < n_samples -> 0 <= fc < flow_nch ->
  payload_sample out (s * flow_nch + fc) = sample planar ((ch_start + fc) * n_samples + s).
Proof.
  intros (_ & _ & W & _) Hs Hfc. pose proof (lex_lt _ _ _ _ Hs Hfc) as Hd.
  unfold payload_sample, sample, RTP_HEADER_LEN in *.
  pose proof (W _ 0 Hd ltac:(lia)) as E2. pose proof (W _ 1 Hd ltac:(lia)) as E1.
  pose proof (W _ 2 Hd ltac:(lia)) as E0. rewrite Z.add_0_r in E2.
  rewrite payload_byte_row in E0, E1, E2 by done. cbn [Z.sub Z.add Z.opp] in E0, E1, E2.
  rewrite Z.add_0_r in E0. rewrite E0, E1, E2.
  by destruct (get planar _), (get planar _), (get planar _).
Qed.

(** every byte of a packet over initialised PCM is initialised *)
Lemma packet_bytes planar total_nch ch_start flow_nch n_samples p out0 out :
  flow_ok total_nch ch_start flow_nch n_samples ->
  bytes_upto planar (total_nch * n_samples * 3) ->
  packet_of p (n_samples * flow_nch) (payload_byte planar ch_start flow_nch n_samples) out0 out ->
  bytes_upto out (RTP_HEADER_LEN + n_samples * flow_nch * 3).
Proof.
  intros (F1 & F2 & F3 & F4 & _) HB (_ & _ & W & Hh & _) i Hi. unfold RTP_HEADER_LEN in *.
  destruct (decide (i < 12)) as [|Hi12]; [apply Hh; lia|].
  assert (exists n k, i = 12 + n * 3 + k /\ 0 <= k < 3) as (n & k & -> & Hk)
    by (exists ((i - 12) / 3), ((i - 12) mod 3); Z.div_mod_to_equations; lia).
  rewrite W by lia. unfold payload_byte. apply HB.
  pose proof (Z.mod_pos_bound n flow_nch F2).
  assert (0 <= n / flow_nch < n_samples) as Hq
    by (split; [apply Z.div_pos|apply Z.div_lt_upper_bound]; lia).
  pose proof (lex_lt n_samples total_nch (ch_start + n mod flow_nch) _ ltac:(lia) Hq). lia.
Qed.

Lemma bytes_is_Some planar total_nch ch_start flow_nch n_samples :
  flow_ok total_nch ch_start flow_nch n_samples ->
  bytes_upto planar (total_nch * n_samples * 3) ->
  forall c s k, ch_start <= c < ch_start + flow_nch -> 0 <= s < n_samples -> 0 <= k < 3 ->
    is_Some (get planar ((c * n_samples + s) * 3 + k)).
Proof.
  intros (F1 & F2 & F3 & F4 & _) HB c s k Hc Hs Hk.
  pose proof (lex_lt n_samples total_nch c s ltac:(lia) Hs).
  destruct (HB ((c * n_samples + s) * 3 + k)) as (v & Hv & _); [lia|]. by exists v.
Qed.

(** * Properties *)

(** C16: a flow packet is well formed and carries its channels.  For a valid slice
    and enough room the call returns the packet length; a receiver reads back
    the header fields and, at frame-major position (s, fc), the 24-bit sample
    of channel [ch_start + fc] at time [s]; bytes after the packet are
    untouched.  With too little room it returns -1 and writes nothing. *)
Theorem rtp_l24_build_flow_correct out cap p planar (total_nch ch_start flow_nch n_samples : Z)
  (HF : flow_ok total_nch ch_start flow_nch n_samples)
  (HP : rtp_params_ok p) (Hcap : cap <= blen out)
  (HB : bytes_upto planar (total_nch * n_samples * 3)) :
  let len := RTP_HEADER_LEN + flow_nch * n_samples * 3 in
  let call := rtp_l24_build_flow out cap p planar total_nch ch_start flow_nch n_samples in
  (cap < len -> call = Ok (-1, out))
  /\ (len <= cap -> exists out',
       call = Ok (len, out') /\ blen out' = blen out
       /\ parse_rtp_header out' = Some (wire_params p)
       /\ bytes_upto out' len
       /\ (forall s fc, 0 <= s < n_samples -> 0 <= fc < flow_nch ->
            payload_sample out' (s * flow_nch + fc) = sample planar ((ch_start + fc) * n_samples + s))
       /\ forall j, len <= j -> get out' j = get out j).
Proof.
  intros len call.
  assert (ok call (fun r => (cap < len /\ r = (-1, out)) \/ (len <= cap /\ r.1 = len /\
    packet_of p (n_samples * flow_nch) (payload_byte planar ch_start flow_nch n_samples) out r.2))) as HO.
  { eapply ok_build_flow; try done; [by eapply bytes_is_Some|by left|by right]. }
  apply ok_iff in HO as ([n out'] & HC & HO). simpl in HO. split.
  - intros Hlt. destruct HO as [[_ HO]|[Hge _]]; [by rewrite HC, HO|lia].
  - intros Hle. destruct HO as [[Hlt _]|(_ & Hn & HPk)]; [lia|]. rewrite Hn in HC. exists out'.
    pose proof (packet_bytes _ _ _ _ _ _ _ _ HF HB HPk) as Hb. unfold len, RTP_HEADER_LEN in *.
    replace (flow_nch * n_samples) with (n_samples * flow_nch) in * by lia.
    pose proof HPk as (P1 & P2 & _ & _ & P5). repeat (split; [done|]).
    split; [|done]. intros s fc Hs Hfc. by eapply packet_sample.
Qed.

Lemma rtp_l24_build_flow_correct_witness :
  exists out', rtp_l24_build_flow (undef 18) 18 (RtpParams 97 7 4096 3405691582)
                 (of_list [1; 2; 3; 4; 5; 6]) 2 1 1 1 = Ok (15, out')
    /\ parse_rtp_header out' = Some (RtpParams 97 7 4096 3405691582)
    /\ payload_sample out' 0 = Some 394500.
Proof.
  destruct (proj2 (rtp_l24_build_flow_correct (undef 18) 18 (RtpParams 97 7 4096 3405691582)
    (of_list [1; 2; 3; 4; 5; 6]) 2 1 1 1 ltac:(unfold flow_ok; lia)
    ltac:(unfold rtp_params_ok; simpl; lia) ltac:(by vm_compute)
    ltac:(intros i Hi; assert (i = 0 \/ i = 1 \/ i = 2 \/ i = 3 \/ i = 4 \/ i = 5) as HC by lia;
          repeat destruct HC as [->|HC]; try subst i; eexists; (split; [reflexivity|lia]))))
    as (out' & H1 & _ & H2 & _ & H3 & _); [by vm_compute|].
  exists out'. split; [exact H1|]. split; [exact H2|]. apply (H3 0 0); lia.
Defined.

(** A slice outside the block is refused.  A negative start, an empty slice,
    no samples, or a slice past the last channel makes the call return -1
    without touching the output (arguments small enough not to overflow [int]). *)
Theorem rtp_l24_build_flow_rejects out cap p planar (total_nch ch_start flow_nch n_samples : Z)
  (Hint : INT_MIN <= ch_start + flow_nch <= INT_MAX)
  (Hbad : ch_start < 0 \/ flow_nch <= 0 \/ n_samples <= 0 \/ total_nch < ch_start + flow_nch) :
  rtp_l24_build_flow out cap p planar total_nch ch_start flow_nch n_samples = Ok (-1, out).
Proof.
  apply ok_eq. unfold rtp_l24_build_flow.
  destruct (Z.ltb_spec ch_start 0), (Z.leb_spec flow_nch 0), (Z.leb_spec n_samples 0);
    cbn [orb]; try done.
  ok_step. apply ok_int; [done|]. rewrite Z.gtb_ltb, (proj2 (Z.ltb_lt _ _)) by lia. done.
Qed.

Lemma rtp_l24_build_flow_rejects_witness :
  rtp_l24_build_flow (undef 18) 18 (RtpParams 97 7 4096 1) (of_list [1; 2; 3]) 40 36 8 12
  = Ok (-1, undef 18).
Proof. apply rtp_l24_build_flow_rejects; [unfold INT_MIN, INT_MAX; lia|lia]. Defined.
