(* ===== verification/Pipeline.v ===== *)
(** pipeline.c: the socket-free heart of the daemon.  A raw REAC frame is decoded,
    accounted by the media clock, preceded by concealment packets when frames
    were lost, and handed on, either as one RTP packet per frame (the AES67
    default) or as planar PCM to a sink (the Dante packetizer).

    Callbacks act on a world [W]: everything the [ctx] pointers reach. *)

From S2P Require Import Prelude LibReac Pcm Decode MediaClock Plc Rtp.

(** [struct pipeline_stats] *)
Record pipeline_stats : Type := PipelineStats {
  packets : Z;            (* uint64_t *)
  concealed_count : Z;    (* uint64_t, [concealed] *)
  loss_total : Z;         (* uint64_t *)
  malformed : Z;          (* uint64_t *)
  last_seq : Z;           (* uint16_t *)
  last_tier : Z;          (* int *)
}.

(** [pipeline_pcm_fn] and [pipeline_emit_fn] *)
Definition pipeline_pcm_fn (W : Type) : Type := buf Z -> Z -> Z -> W -> res W.
Definition pipeline_emit_fn (W : Type) : Type := buf Z -> Z -> Z -> W -> res W.

(** [struct pipeline]; [pcm_ctx] is part of the world *)
Record pipeline {W : Type} : Type := Pipeline {
  mode : reac_mode;
  clock : media_clock;
  rtp : rtp_params;
  plc_state : plc;
  stats : pipeline_stats;
  pcm_sink : option (pipeline_pcm_fn W);
}.
Arguments pipeline W : clear implicits.

Section Updates.
Context {W : Type}.
Implicit Types (pl : pipeline W).

Definition set_clock (c : media_clock) pl : pipeline W :=
  Pipeline _ (mode pl) c (rtp pl) (plc_state pl) (stats pl) (pcm_sink pl).
Definition set_rtp (r : rtp_params) pl : pipeline W :=
  Pipeline _ (mode pl) (clock pl) r (plc_state pl) (stats pl) (pcm_sink pl).
Definition set_plc (p : plc) pl : pipeline W :=
  Pipeline _ (mode pl) (clock pl) (rtp pl) p (stats pl) (pcm_sink pl).
Definition set_stats (f : pipeline_stats -> pipeline_stats) pl : pipeline W :=
  Pipeline _ (mode pl) (clock pl) (rtp pl) (plc_state pl) (f (stats pl)) (pcm_sink pl).
End Updates.

Definition add_packet (s : pipeline_stats) : pipeline_stats :=
  PipelineStats (u64 (packets s + 1)) (concealed_count s) (loss_total s) (malformed s)
    (last_seq s) (last_tier s).
Definition add_concealed (s : pipeline_stats) : pipeline_stats :=
  PipelineStats (packets s) (u64 (concealed_count s + 1)) (loss_total s) (malformed s)
    (last_seq s) (last_tier s).
Definition add_loss (n : Z) (s : pipeline_stats) : pipeline_stats :=
  PipelineStats (packets s) (concealed_count s) (u64 (loss_total s + u64 n)) (malformed s)
    (last_seq s) (last_tier s).
Definition add_malformed (s : pipeline_stats) : pipeline_stats :=
  PipelineStats (packets s) (concealed_count s) (loss_total s) (u64 (malformed s + 1))
    (last_seq s) (last_tier s).
Definition set_last_seq (q : Z) (s : pipeline_stats) : pipeline_stats :=
  PipelineStats (packets s) (concealed_count s) (loss_total s) (malformed s) q (last_tier s).
Definition set_last_tier (t : Z) (s : pipeline_stats) : pipeline_stats :=
  PipelineStats (packets s) (concealed_count s) (loss_total s) (malformed s) (last_seq s) t.

Section Pipeline.
Context {L : ReacLib} {W : Type}.
Implicit Types (pl : pipeline W) (emit : pipeline_emit_fn W) (w : W).

Definition pipeline_init_ex (m : reac_mode) (pt ssrc plc_xfade plc_fade_pkts : Z) : pipeline W :=
  Pipeline _ m
    (media_clock_init (samples_per_pkt m))
    (RtpParams pt 0 0 ssrc)
    (plc_init m plc_fade_pkts plc_xfade)
    (PipelineStats 0 0 0 0 0 (-1))
    None.

Definition pipeline_init (m : reac_mode) (pt ssrc : Z) : pipeline W :=
  pipeline_init_ex m pt ssrc 0 0.

Definition pipeline_set_pcm_sink (fn : option (pipeline_pcm_fn W)) pl : pipeline W :=
  Pipeline _ (mode pl) (clock pl) (rtp pl) (plc_state pl) (stats pl) fn.

Definition pipeline_anchor (anchor : Z) pl : pipeline W :=
  set_clock (media_clock_init_anchored (samples_per_pkt (mode pl)) anchor) pl.

Definition pipeline_get_stats pl : pipeline_stats := stats pl.

(** size of the local packet and PCM buffers *)
Definition PCM_BYTES : Z := REAC_MAX_CHANNELS * 24 * 3.
Definition PKT_BYTES : Z := RTP_HEADER_LEN + REAC_MAX_CHANNELS * 24 * 3.

(** build and emit one RTP packet from planar PCM, or hand the PCM to the sink *)
Definition emit_pcm pl (planar : buf Z) (ts concealed : Z) emit w : res (pipeline W * W) :=
  '(pl, w) ←
    match pcm_sink pl with
    | Some fn => w ← fn planar ts concealed w; mret (pl, w)
    | None =>
        let r := rtp pl in
        let pl := set_rtp (RtpParams (payload_type r) (seq r) ts (ssrc r)) pl in
        '(n, pkt) ← rtp_l24_build (undef PKT_BYTES) PKT_BYTES (rtp pl) planar (mode pl);
        w ← (if n >? 0 then emit (upto pkt n) n concealed w else mret w);
        let pl := set_stats (set_last_seq (seq (rtp pl))) pl in
        let r := rtp pl in
        mret (set_rtp (RtpParams (payload_type r) (u16 (seq r + 1)) (timestamp r) (ssrc r)) pl, w)
    end;
  mret (set_stats (if concealed =? 0 then add_packet else add_concealed) pl, w).

(** iteration [i] of the concealment loop *)
Definition conceal_step (step : media_clock_step) (sps : Z) emit (i : Z) (st : pipeline W * W)
  : res (pipeline W * W) :=
  let '(pl, w) := st in
  d ← int (step_silence_packets step - i);
  let cts := u32 (step_rtp_ts step - u32 (u32 d * u32 sps)) in
  '(tier, cpcm) ← plc_conceal (plc_state pl) (undef PCM_BYTES) i;
  emit_pcm (set_stats (set_last_tier tier) pl) cpcm cts 1 emit w.

Definition pipeline_on_frame pl (raw : buf Z) (len : Z) emit w : res (Z * pipeline W * W) :=
  '(ns, pcm) ← reac_decode raw len (mode pl) (undef PCM_BYTES);
  if ns <? 0 then mret (-1, set_stats add_malformed pl, w) else
  f ← reac_frame_inspect raw len (mode pl);
  let '(mc, step) := media_clock_on_packet (clock pl) (counter f) in
  let pl := set_clock mc pl in
  let pl := set_stats (add_loss (step_silence_packets step)) pl in
  let sps := samples_per_pkt (mode pl) in
  '(pl, w) ← for_ 0 (step_silence_packets step) (conceal_step step sps emit) (pl, w);
  '(pl, w) ← emit_pcm pl pcm (step_rtp_ts step) 0 emit w;
  p ← plc_observe (plc_state pl) pcm;
  mret (0, set_plc p pl, w).

(** the pipeline over a sequence of received frames (buffer and length) *)
Fixpoint pipeline_run pl (frames : list (buf Z * Z)) emit w : res (pipeline W * W) :=
  match frames with
  | [] => mret (pl, w)
  | (raw, len) :: frames =>
      '(_, pl, w) ← pipeline_on_frame pl raw len emit w;
      pipeline_run pl frames emit w
  end.
End Pipeline.

(** * Specification *)

(** the world of the default path: the packets emitted so far, with their flag *)
Abbreviation trace := (list (buf Z * Z)).
Definition trace_emit : pipeline_emit_fn trace := fun pkt n concealed w => Ok (w ++ [(pkt, concealed)]).

(** what one emitted packet is: its flag, its size, its header, its samples *)
Definition packet_spec (m : reac_mode) (p : rtp_params) (flag : Z)
  (sample_at : Z -> Z -> option Z) (e : buf Z * Z) : Prop :=
  e.2 = flag
  /\ blen e.1 = RTP_HEADER_LEN + n_channels m * samples_per_pkt m * 3
  /\ bytes_upto e.1 (RTP_HEADER_LEN + n_channels m * samples_per_pkt m * 3)
  /\ parse_rtp_header e.1 = Some (wire_params p)
  /\ (forall c s, 0 <= c < n_channels m -> 0 <= s < samples_per_pkt m ->
       payload_sample e.1 (s * n_channels m + c) = sample_at c s).

(** number of packets with a flag *)
Definition flagged (f : Z) (t : trace) : Z := Z.of_nat (length (filter (fun e => e.2 = f) t)).

Section Spec.
Context {L : ReacLib} {W : Type}.
Implicit Types (pl : pipeline W) (emit : pipeline_emit_fn W) (w : W).

Definition channels pl : Z := n_channels (mode pl).
Definition sps pl : Z := samples_per_pkt (mode pl).

(** sample [s] of channel [c] of a raw frame *)
Definition wire_sample (m : reac_mode) (raw : buf Z) (c s : Z) : option Z :=
  match get raw (wire_offset m c s 0), get raw (wire_offset m c s 1),
        get raw (wire_offset m c s 2) with
  | Some p0, Some p1, Some p2 => Some (s24 p0 p1 p2)
  | _, _, _ => None
  end.

Definition stats_ok (s : pipeline_stats) : Prop :=
  0 <= packets s < 18446744073709551616 /\ 0 <= concealed_count s < 18446744073709551616
  /\ 0 <= loss_total s < 18446744073709551616 /\ 0 <= malformed s < 18446744073709551616.

(** the invariant: a usable mode, the components agree on its geometry, the
    concealment histories are [h], and a started clock means at least one whole
    packet has been observed on every channel *)
Definition pipeline_ok pl (h : Z -> list Z) : Prop :=
  mode_ok (mode pl)
  /\ params_ok (plc_state pl) /\ plc_S (plc_state pl) = sps pl
  /\ plc_n_channels (plc_state pl) = channels pl /\ rep (plc_state pl) h
  /\ mc_samples_per_pkt (clock pl) = sps pl
  /\ rtp_params_ok (rtp pl) /\ stats_ok (stats pl)
  /\ 0 <= mc_rtp_ts (clock pl) < 4294967296 /\ 0 <= mc_anchor (clock pl) < 4294967296
  /\ 0 <= mc_last_counter (clock pl) < 65536
  /\ (mc_started (clock pl) = true ->
        forall c, 0 <= c < channels pl -> sps pl <= Z.of_nat (length (h c))).

(** the step the clock takes on a well-formed frame *)
Definition frame_clock pl raw : media_clock := (media_clock_on_packet (clock pl) (le16 raw 14)).1.
Definition frame_step pl raw : media_clock_step :=
  (media_clock_on_packet (clock pl) (le16 raw 14)).2.
Definition frame_lost pl raw : Z := step_silence_packets (frame_step pl raw).

(** timestamp of the [i]-th packet the frame gives rise to *)
Definition block_ts pl raw (i : Z) : Z :=
  u32 (step_rtp_ts (frame_step pl raw) - (frame_lost pl raw - i) * sps pl).

(** the clock stands after block [j - 1] of a timeline starting at [anchor] *)
Definition clock_at (anchor j : Z) pl : Prop :=
  mc_anchor (clock pl) = anchor
  /\ if mc_started (clock pl) then mc_rtp_ts (clock pl) = u32 (anchor + sps pl * (j - 1)) else j = 0.

(** RTP sequence number after [i] more packets *)
Definition seq_after pl (i : Z) : Z :=
  match pcm_sink pl with None => u16 (seq (rtp pl) + i) | Some _ => seq (rtp pl) end.

Definition tier_after pl (i : Z) : Z :=
  if i =? 0 then last_tier (stats pl)
  else if i =? 1 then PLC_TIER_REPEAT_XFADE else PLC_TIER_BURST_FADE.

(** the world's side of [emit_pcm] *)
Definition deliver pl (planar : buf Z) (ts concealed : Z) emit w : res W :=
  match pcm_sink pl with
  | Some fn => fn planar ts concealed w
  | None =>
      '(n, pkt) ← rtp_l24_build (undef PKT_BYTES) PKT_BYTES
                    (RtpParams (payload_type (rtp pl)) (seq (rtp pl)) ts (ssrc (rtp pl)))
                    planar (mode pl);
      if n >? 0 then emit (upto pkt n) n concealed w else mret w
  end.

(** the pipeline's side of [emit_pcm] *)
Definition delivered pl (ts concealed : Z) : pipeline W :=
  set_stats (if concealed =? 0 then add_packet else add_concealed)
    match pcm_sink pl with
    | Some _ => pl
    | None =>
        let r := rtp pl in
        set_stats (set_last_seq (seq r))
          (set_rtp (RtpParams (payload_type r) (u16 (seq r + 1)) ts (ssrc r)) pl)
    end.

(** [pl'] is [pl] after its clock stepped on [raw] and [i] concealment packets
    were delivered *)
Definition concealing pl raw (i : Z) pl' : Prop :=
  mode pl' = mode pl /\ clock pl' = frame_clock pl raw /\ plc_state pl' = plc_state pl
  /\ pcm_sink pl' = pcm_sink pl
  /\ payload_type (rtp pl') = payload_type (rtp pl) /\ ssrc (rtp pl') = ssrc (rtp pl)
  /\ seq (rtp pl') = seq_after pl i /\ rtp_params_ok (rtp pl')
  /\ packets (stats pl') = packets (stats pl)
  /\ concealed_count (stats pl') = u64 (concealed_count (stats pl) + i)
  /\ loss_total (stats pl') = u64 (loss_total (stats pl) + frame_lost pl raw)
  /\ malformed (stats pl') = malformed (stats pl)
  /\ last_tier (stats pl') = tier_after pl i.

(** ... and after the whole frame, [pcm] being its decoded audio *)
Definition observed pl (h : Z -> list Z) (pcm : buf Z) (i : Z) : list Z :=
  foldl push (h i) (chan_samples pcm (sps pl) i).

Definition frame_done pl raw pl' : Prop :=
  let n := frame_lost pl raw in
  mode pl' = mode pl /\ clock pl' = frame_clock pl raw /\ pcm_sink pl' = pcm_sink pl
  /\ payload_type (rtp pl') = payload_type (rtp pl) /\ ssrc (rtp pl') = ssrc (rtp pl)
  /\ seq (rtp pl') = seq_after pl (n + 1)
  /\ packets (stats pl') = u64 (packets (stats pl) + 1)
  /\ concealed_count (stats pl') = u64 (concealed_count (stats pl) + n)
  /\ loss_total (stats pl') = u64 (loss_total (stats pl) + n)
  /\ malformed (stats pl') = malformed (stats pl)
  /\ last_tier (stats pl') = tier_after pl n.
End Spec.

(** * Lemmas *)

Section Lemmas.
Context {L : ReacLib} {D : ReacDoc L} {W : Type}.
Implicit Types (pl : pipeline W) (emit : pipeline_emit_fn W) (w : W).

Lemma emit_pcm_deliver pl planar ts c emit w :
  emit_pcm pl planar ts c emit w = (w' ← deliver pl planar ts c emit w; mret (delivered pl ts c, w')).
Proof.
  unfold emit_pcm, deliver, delivered. destruct (pcm_sink pl) as [fn|] eqn:E.
  - by destruct (fn planar ts c w).
  - cbn [rtp set_rtp mode].
    destruct (rtp_l24_build _ _ _ _ _) as [[n pkt]|e]; [|done]. cbn [mbind res_bind].
    by destruct (if n >? 0 then _ else _).
Qed.

Lemma ok_emit_pcm pl planar ts c emit w (Q : pipeline W * W -> Prop) :
  ok (deliver pl planar ts c emit w) (fun w' => Q (delivered pl ts c, w')) ->
  ok (emit_pcm pl planar ts c emit w) Q.
Proof. intros H. rewrite emit_pcm_deliver. ok_step. eapply ok_mono; [exact H|]. done. Qed.

Lemma frame_lost_range pl raw : 0 <= frame_lost pl raw < 32768.
Proof.
  unfold frame_lost, frame_step. destruct (mc_started (clock pl)) eqn:E.
  - destruct (media_clock_on_packet _ _) as [mc s] eqn:Es.
    by apply on_packet_advance in Es as (_ & _ & _ & _ & ? & _).
  - unfold media_clock_on_packet. rewrite E. simpl. lia.
Qed.

Lemma pcm_fits m : mode_ok m -> n_channels m * samples_per_pkt m * 3 <= PCM_BYTES
  /\ flow_ok (n_channels m) 0 (n_channels m) (samples_per_pkt m)
  /\ PKT_BYTES = 2892 /\ n_channels m * samples_per_pkt m <= 960.
Proof.
  intros (H1 & H2 & _). unfold PCM_BYTES, PKT_BYTES, flow_ok, RTP_HEADER_LEN. reac_consts. nia.
Qed.

Lemma block_cts pl raw i :
  0 <= frame_lost pl raw - i < 4294967296 ->
  u32 (step_rtp_ts (frame_step pl raw) - u32 (u32 (frame_lost pl raw - i) * u32 (sps pl)))
  = block_ts pl raw i.
Proof.
  intros H. rewrite u32_mul. unfold block_ts, u32. by rewrite Zminus_mod_idemp_r.
Qed.

Lemma block_ts_range pl raw i : 0 <= block_ts pl raw i < 4294967296.
Proof. apply u32_range. Qed.

(** one more concealment packet *)
Lemma concealing_next pl raw i pl' t :
  0 <= i -> concealing pl raw i pl' -> tier_after pl (i + 1) = t ->
  concealing pl raw (i + 1) (delivered (set_stats (set_last_tier t) pl') (block_ts pl raw i) 1).
Proof.
  intros Hi (H1 & H2 & H3 & H4 & H5 & H6 & H7 & (P1 & P2 & P3 & P4) & H8 & H9 & H10 & H11 & H12) Ht.
  unfold concealing, delivered, set_stats. cbn [pcm_sink]. rewrite H4. unfold seq_after in *.
  pose proof (block_ts_range pl raw i).
  destruct (pcm_sink pl) as [fn|];
    cbn [mode clock rtp plc_state pcm_sink stats Z.eqb set_rtp add_concealed set_last_tier
         set_last_seq packets concealed_count loss_total malformed last_tier
         payload_type seq timestamp ssrc];
    rewrite H9, ?H7, u64_add_l, ?u16_add_l, <- ?Z.add_assoc; repeat split; try done;
    unfold rtp_params_ok; cbn; try apply u16_range; try lia.
Qed.

Lemma frame_clock_lost pl raw h i c :
  pipeline_ok pl h -> 0 <= i < frame_lost pl raw -> 0 <= c < channels pl ->
  sps pl <= Z.of_nat (length (h c)).
Proof.
  intros (_ & _ & _ & _ & _ & _ & _ & _ & _ & _ & _ & Hst) Hi Hc.
  apply Hst; [|done]. unfold frame_lost, frame_step, media_clock_on_packet in Hi.
  destruct (mc_started (clock pl)); [done|]. simpl in Hi. lia.
Qed.

(** past the first frame only the two upper tiers of the ladder are used *)
Lemma conceal_tier pl raw h i :
  pipeline_ok pl h -> 0 <= i < frame_lost pl raw ->
  worst_tier (plc_state pl) i h (plc_n_channels (plc_state pl)) = tier_after pl (i + 1).
Proof.
  intros HK Hi. pose proof HK as ((Hc & Hs & _) & HP & ES & EN & _).
  apply worst_tier_const; [|rewrite EN; unfold channels; lia|].
  - intros c Hch. rewrite EN in Hch. pose proof (frame_clock_lost _ _ _ _ _ HK Hi Hch) as Hl.
    unfold tier_of, tier_after, sps in *. rewrite ES.
    rewrite (proj2 (Z.eqb_neq (Z.of_nat (length (h c))) 0)) by lia.
    rewrite (proj2 (Z.ltb_ge (Z.of_nat (length (h c))) _)) by lia.
    destruct (Z.eqb_spec (i + 1) 0); [lia|]. by destruct (Z.eqb_spec i 0), (Z.eqb_spec (i + 1) 1); try lia.
  - unfold tier_after. destruct (Z.eqb_spec (i + 1) 0); [lia|]. by case_match.
Qed.

Lemma le16_range raw : bytes_upto raw 1492 -> 0 <= le16 raw 14 < 65536.
Proof.
  intros HB. unfold le16. destruct (HB 14) as (a & -> & ?); [lia|].
  destruct (HB (14 + 1)) as (b & -> & ?); [lia|]. lia.
Qed.

(** the clock after a frame *)
Lemma frame_clock_ok pl h raw :
  pipeline_ok pl h -> bytes_upto raw 1492 ->
  let mc := frame_clock pl raw in
  mc_started mc = true /\ mc_samples_per_pkt mc = sps pl
  /\ mc_anchor mc = mc_anchor (clock pl)
  /\ mc_rtp_ts mc = step_rtp_ts (frame_step pl raw)
  /\ 0 <= mc_rtp_ts mc < 4294967296 /\ 0 <= mc_last_counter mc < 65536
  /\ mc_rtp_ts mc = (if mc_started (clock pl)
                     then u32 (mc_rtp_ts (clock pl) + sps pl * (frame_lost pl raw + 1))
                     else mc_anchor (clock pl)).
Proof.
  intros (_ & _ & _ & _ & _ & Hsps & _ & _ & Hts & Ha & Hl & _) HB.
  pose proof (le16_range raw HB) as Hc. unfold frame_clock, frame_lost, frame_step.
  destruct (mc_started (clock pl)) eqn:Hs.
  - destruct (media_clock_on_packet (clock pl) (le16 raw 14)) as [mc s] eqn:E.
    pose proof (on_packet_advance _ _ _ _ Hs E) as (A1 & A2 & A3 & A4 & A5 & A6). cbn [fst snd].
    rewrite Hsps in *. repeat split; try done; try congruence; try (rewrite A6; apply u32_range).
    + rewrite on_packet_started in E by done. cbv zeta in E. case_match; injection E as <- _; simpl; lia.
    + rewrite on_packet_started in E by done. cbv zeta in E. case_match; injection E as <- _; simpl; lia.
  - unfold media_clock_on_packet. rewrite Hs. simpl. repeat split; try done; lia.
Qed.

(** the blocks of a frame are the next ones of the timeline *)
Lemma block_ts_at anchor j pl h raw i :
  clock_at anchor j pl -> pipeline_ok pl h -> bytes_upto raw 1492 ->
  block_ts pl raw i = u32 (anchor + (j + i) * sps pl).
Proof.
  intros [<- Hj] HK HB. unfold block_ts.
  pose proof (frame_clock_ok _ _ _ HK HB) as (_ & _ & _ & <- & _ & _ & ->).
  set (n := sps pl) in *. clearbody n. destruct (mc_started (clock pl)) eqn:Es.
  - rewrite Hj, u32_add_l. unfold u32. rewrite Zminus_mod_idemp_l. f_equal. lia.
  - assert (frame_lost pl raw = 0) as El
      by (unfold frame_lost, frame_step, media_clock_on_packet; by rewrite Es).
    rewrite Hj, El. f_equal. lia.
Qed.

Lemma real_ts_at anchor j pl h raw :
  clock_at anchor j pl -> pipeline_ok pl h -> bytes_upto raw 1492 ->
  step_rtp_ts (frame_step pl raw) = u32 (anchor + (j + frame_lost pl raw) * sps pl).
Proof.
  intros Hj HK HB. erewrite <- block_ts_at by done. unfold block_ts.
  rewrite Z.sub_diag, Z.sub_0_r.
  pose proof (frame_clock_ok _ _ _ HK HB) as (_ & _ & _ & <- & ? & _). by rewrite u32_small.
Qed.

Lemma clock_at_next anchor j pl pl' h raw :
  clock_at anchor j pl -> pipeline_ok pl h -> bytes_upto raw 1492 ->
  mode pl' = mode pl -> clock pl' = frame_clock pl raw ->
  clock_at anchor (j + frame_lost pl raw + 1) pl'.
Proof.
  intros Hj HK HB Em Ec. pose proof (real_ts_at _ _ _ _ _ Hj HK HB) as Hts.
  pose proof (frame_clock_ok _ _ _ HK HB) as (C1 & _ & C3 & C4 & _).
  unfold clock_at, sps in *. rewrite Ec, Em, C1, C3, C4. split; [apply Hj|]. rewrite Hts. f_equal. lia.
Qed.

Lemma concealing_start pl raw h :
  pipeline_ok pl h ->
  concealing pl raw 0 (set_stats (add_loss (frame_lost pl raw)) (set_clock (frame_clock pl raw) pl)).
Proof.
  intros (_ & _ & _ & _ & _ & _ & HP & (S1 & S2 & S3 & S4) & _).
  pose proof (frame_lost_range pl raw). pose proof HP as (P1 & P2 & P3 & P4).
  unfold concealing, seq_after, tier_after; cbn. rewrite !Z.add_0_r, (u64_small (concealed_count _)), (u64_small (frame_lost _ _)) by lia.
  rewrite u16_small by lia. repeat split; try done; first [lia | by case_match].
Qed.

(** one concealment packet *)
Lemma ok_conceal_step pl h raw i pl' emit w (Q : pipeline W * W -> Prop) :
  pipeline_ok pl h -> 0 <= i < frame_lost pl raw -> concealing pl raw i pl' ->
  (forall cpcm, bytes_upto cpcm (channels pl * sps pl * 3) -> blen cpcm = PCM_BYTES ->
     (forall c s, 0 <= c < channels pl -> 0 <= s < sps pl ->
        sample cpcm (c * sps pl + s) = Some (concealed (plc_state pl) i (h c) s)) ->
     ok (deliver pl' cpcm (block_ts pl raw i) 1 emit w)
        (fun w' => forall pl'', concealing pl raw (i + 1) pl'' -> Q (pl'', w'))) ->
  ok (conceal_step (frame_step pl raw) (sps pl) emit i (pl', w)) Q.
Proof.
  intros HK Hi HC HQ. pose proof HK as (HM & HP & ES & EN & HR & _).
  pose proof (pcm_fits _ HM) as (Hfit & _). pose proof (frame_lost_range pl raw) as Hn.
  assert (0 <= PCM_BYTES) as Hpos by (unfold PCM_BYTES; reac_consts; lia).
  pose proof HC as (_ & _ & M3 & _). unfold conceal_step. fold (frame_lost pl raw).
  ok_step. ok_step. rewrite block_cts, M3 by lia. ok_step.
  apply ok_plc_conceal with (h := h); [done|done|unfold INT_MAX; lia|
    by rewrite blen_undef, ES, EN|].
  intros cpcm Wc. apply ok_emit_pcm.
  change (deliver (set_stats ?f pl') ?a ?b ?c ?d ?e) with (deliver pl' a b c d e).
  eapply ok_mono; [apply HQ|].
  - pose proof (concealed_bytes _ _ _ _ _ Wc) as Hb. by rewrite ES, EN in Hb.
  - rewrite (written_blen _ _ _ _ _ Wc). by apply blen_undef.
  - intros c s Hc Hs. rewrite <- ES. eapply concealed_samples; try done; [by rewrite EN|by rewrite ES].
  - intros w' HQ'. apply HQ'. apply concealing_next; [lia|done|].
    symmetry. by apply conceal_tier with (raw := raw).
Qed.

(** the state after the real packet *)
Lemma frame_finish pl h raw pl' pcm chs :
  pipeline_ok pl h -> bytes_upto raw 1492 -> concealing pl raw (frame_lost pl raw) pl' ->
  rep (set_ch (plc_state pl) chs) (observed pl h pcm) ->
  let pl'' := set_plc (set_ch (plc_state pl) chs)
                (delivered pl' (step_rtp_ts (frame_step pl raw)) 0) in
  frame_done pl raw pl'' /\ pipeline_ok pl'' (observed pl h pcm).
Proof.
  intros HK HB (M1 & M2 & M3 & M4 & M5 & M6 & M7 & (P1 & P2 & P3 & P4) & M9 & M10 & M11 & M12 & M13) HR'.
  pose proof (frame_clock_ok pl h raw HK HB) as (C1 & C2 & C3 & C4 & C5 & C6 & _).
  pose proof HK as (HM & HP & ES & EN & HR & _ & _ & (S1 & S2 & S3 & S4) & _ & A & _).
  pose proof HM as (_ & HM2 & _). intros pl''.
  assert (forall c, 0 <= c < channels pl -> sps pl <= Z.of_nat (length (observed pl h pcm c))) as Hlen.
  { intros c Hc. unfold observed. unfold sps in *. rewrite observed_length; [unfold PLC_HIST_SAMPLES; lia|lia|].
    apply (rep_length _ _ _ HR). by rewrite EN. }
  assert (stats_ok (stats pl')) as (T1 & T2 & T3 & T4).
  { unfold stats_ok. rewrite M9, M10, M11, M12. repeat split; try apply u64_range; lia. }
  assert (mode pl'' = mode pl /\ clock pl'' = frame_clock pl raw) as [E1 E2].
  { unfold pl'', delivered. rewrite <- M1, <- M2. by destruct (pcm_sink pl'). }
  split.
  - unfold frame_done. rewrite E1, E2. unfold pl'', delivered, seq_after in *. rewrite M4.
    destruct (pcm_sink pl); cbn; rewrite ?M5, ?M6, ?M7, ?M9, ?M10, ?M11, ?M12, ?M13, ?u16_add_l,
      <- ?Z.add_assoc; by repeat split.
  - unfold pipeline_ok, channels, sps. rewrite E1, E2, C3.
    split; [done|]. split; [done|]. split; [done|]. split; [done|]. split; [done|].
    split; [done|]. unfold pl'', delivered. rewrite M4.
    destruct (pcm_sink pl); unfold rtp_params_ok, stats_ok; cbn;
      repeat split; try done; try apply u64_range; try apply u16_range; try lia;
      rewrite <- ?C4; lia.
Qed.

Lemma malformed_ok pl h : pipeline_ok pl h -> pipeline_ok (set_stats add_malformed pl) h.
Proof.
  intros (H1 & H2 & H3 & H4 & H5 & H6 & H7 & (S1 & S2 & S3 & S4) & H9).
  repeat (split; [done|]). split; [|done]. repeat (split; [done|]). apply u64_range.
Qed.

(** the rule for a frame.  [J i w] is what holds of the world once [i] of the
    frame's concealment packets were delivered. *)
Lemma ok_on_frame pl h raw len emit w (J : Z -> W -> Prop) (Q : Z * pipeline W * W -> Prop) :
  pipeline_ok pl h -> bytes_upto raw len ->
  (well_formed raw len = false -> Q (-1, set_stats add_malformed pl, w)) ->
  (well_formed raw len = true -> J 0 w) ->
  (forall i pl' cpcm w', well_formed raw len = true -> 0 <= i < frame_lost pl raw ->
     concealing pl raw i pl' -> J i w' ->
     bytes_upto cpcm (channels pl * sps pl * 3) -> blen cpcm = PCM_BYTES ->
     (forall c s, 0 <= c < channels pl -> 0 <= s < sps pl ->
        sample cpcm (c * sps pl + s) = Some (concealed (plc_state pl) i (h c) s)) ->
     ok (deliver pl' cpcm (block_ts pl raw i) 1 emit w') (J (i + 1))) ->
  (forall pl' pcm w', well_formed raw len = true ->
     concealing pl raw (frame_lost pl raw) pl' -> J (frame_lost pl raw) w' ->
     bytes_upto pcm (channels pl * sps pl * 3) -> blen pcm = PCM_BYTES ->
     decoded (mode pl) raw (undef PCM_BYTES) pcm ->
     ok (deliver pl' pcm (step_rtp_ts (frame_step pl raw)) 0 emit w')
        (fun w'' => forall pl'', frame_done pl raw pl'' -> pipeline_ok pl'' (observed pl h pcm) ->
           Q (0, pl'', w''))) ->
  ok (pipeline_on_frame pl raw len emit w) Q.
Proof.
  intros HK HB Hbad HJ0 Hstep Hreal. pose proof HK as (HM & HP & ES & EN & HR & _).
  pose proof (pcm_fits _ HM) as (Hfit & _). pose proof (frame_lost_range pl raw) as Hn.
  assert (0 <= PCM_BYTES) as Hpos by (unfold PCM_BYTES; reac_consts; lia).
  unfold pipeline_on_frame. ok_step.
  apply ok_reac_decode; [done|done|by rewrite blen_undef|intros WF; by apply Hbad|].
  intros pcm WF Hdec. pose proof (well_formed_len _ _ WF) as ->.
  cbv beta iota. rewrite (proj2 (Z.ltb_ge (samples_per_pkt (mode pl)) 0)) by (destruct HM; lia).
  rewrite inspect_spec, WF by done. cbn [mbind res_bind counter].
  pose proof (decoded_bytes _ _ _ _ Hdec HM HB) as Hbytes.
  pose proof (written_blen _ _ _ _ _ Hdec) as Hblen. rewrite blen_undef in Hblen by done.
  rewrite (surjective_pairing (media_clock_on_packet (clock pl) (le16 raw 14))).
  fold (frame_clock pl raw) (frame_step pl raw). fold (frame_lost pl raw).
  cbn [mode set_stats set_clock]. fold (sps pl). ok_step.
  apply ok_for with (P := fun i '(pl', w') => concealing pl raw i pl' /\ J i w');
    [lia|split; [by eapply concealing_start|by apply HJ0]| |].
  - intros i [pl' w'] Hi [HC HJ]. eapply ok_conceal_step; try done.
    intros cpcm B1 B2 B3. eapply ok_mono; [by apply Hstep|]. by auto.
  - intros [pl' w'] [HC HJ]. ok_step. apply ok_emit_pcm.
    eapply ok_mono; [by apply Hreal|]. cbv beta. intros w'' HQ.
    assert (plc_state (delivered pl' (step_rtp_ts (frame_step pl raw)) 0) = plc_state pl) as Hplc.
    { pose proof HC as (_ & _ & M3 & M4 & _). unfold delivered. rewrite <- M3. by destruct (pcm_sink pl'). }
    ok_step. rewrite Hplc.
    apply ok_plc_observe with (h := h); [rewrite EN; unfold channels; destruct HM; lia|
      rewrite ES; unfold sps; destruct HM as (_ & ? & _); lia|done|by rewrite EN, ES|].
    intros chs HR'. ok_step. rewrite ES in HR'.
    destruct (frame_finish pl h raw pl' pcm chs) as [F1 F2]; try done. by apply HQ.
Qed.
End Lemmas.

(** * The default path: one RTP packet per frame *)

Section Default.
Context {L : ReacLib} {D : ReacDoc L}.
Implicit Types (pl : pipeline trace) (t : trace).

(** building a whole packet *)
Lemma ok_build_packet m out0 cap p planar c (n := RTP_HEADER_LEN + n_channels m * samples_per_pkt m * 3) (Q : Z * buf Z -> Prop) :
  mode_ok m -> rtp_params_ok p -> bytes_upto planar (n_channels m * samples_per_pkt m * 3) -> n <= cap <= blen out0 ->
  (forall out, blen out = blen out0 ->
     packet_spec m p c (fun ch s => sample planar (ch * samples_per_pkt m + s)) (upto out n, c) ->
     (forall ch s k, 0 <= ch < n_channels m -> 0 <= s < samples_per_pkt m -> 0 <= k < 3 ->
        get (upto out n) (RTP_HEADER_LEN + (s * n_channels m + ch) * 3 + k)
        = get planar ((ch * samples_per_pkt m + s) * 3 + (2 - k))) ->
     Q (n, out)) ->
  ok (rtp_l24_build out0 cap p planar m) Q.
Proof.
  intros HM HP HB Hcap HQ. pose proof (pcm_fits _ HM) as (_ & HF & _). pose proof HM as (HM1 & HM2 & _).
  unfold rtp_l24_build, RTP_HEADER_LEN in *.
  eapply ok_build_flow; [exact HF|by eapply bytes_is_Some|done|lia| |]; unfold RTP_HEADER_LEN; [lia|].
  intros out _ PK. pose proof (packet_bytes _ _ _ _ _ _ _ _ HF HB PK) as Hb.
  pose proof PK as (Hh & Hl & Hw & _). unfold RTP_HEADER_LEN in *.
  assert (0 < n_channels m * samples_per_pkt m) by nia. rewrite (Z.mul_comm (samples_per_pkt _)) in Hb. fold n in Hb |- *.
  assert (forall i, 0 <= i < n -> get (upto out n) i = get out i) as Hg by (intros i Hi; by apply get_upto).
  apply HQ; [done| |].
  - unfold packet_spec, RTP_HEADER_LEN. cbn [fst snd]. fold n. split; [done|split; [|split; [|split]]].
    + apply blen_upto. lia.
    + intros i Hi. rewrite Hg by done. by apply Hb.
    + rewrite <- Hh. unfold parse_rtp_header, be32, be16. cbn [Z.add Pos.add Pos.succ]. by rewrite !Hg by lia.
    + intros ch s Hch Hs. rewrite <- (Z.add_0_l ch) at 2.
      rewrite <- (packet_sample _ _ _ _ _ _ _ s ch PK Hs Hch). unfold payload_sample, RTP_HEADER_LEN.
      pose proof (lex_lt _ _ _ _ Hs Hch). by rewrite !Hg by (unfold n; lia).
  - intros ch s k Hch Hs Hk. pose proof (lex_lt _ _ _ _ Hs Hch). rewrite Hg by (unfold n; lia). rewrite Hw by lia.
    rewrite payload_byte_row by done. by rewrite Z.add_0_l.
Qed.

Lemma ok_deliver_rtp pl planar ts c t (Q : trace -> Prop) :
  mode_ok (mode pl) -> pcm_sink pl = None -> rtp_params_ok (rtp pl) ->
  0 <= ts < 4294967296 -> bytes_upto planar (channels pl * sps pl * 3) ->
  (forall e, packet_spec (mode pl) (RtpParams (payload_type (rtp pl)) (seq (rtp pl)) ts (ssrc (rtp pl)))
               c (fun ch s => sample planar (ch * sps pl + s)) e ->
     (forall ch s k, 0 <= ch < channels pl -> 0 <= s < sps pl -> 0 <= k < 3 ->
        get e.1 (RTP_HEADER_LEN + (s * channels pl + ch) * 3 + k)
        = get planar ((ch * sps pl + s) * 3 + (2 - k))) ->
     Q (t ++ [e])) ->
  ok (deliver pl planar ts c trace_emit t) Q.
Proof.
  intros HM Hsink (P1 & P2 & P3 & P4) Hts HB HQ. pose proof (pcm_fits _ HM) as (_ & _ & HPK & Hfit). pose proof HM as (HM1 & HM2 & _).
  unfold channels, sps in *. unfold deliver. rewrite Hsink, HPK. ok_step.
  apply (ok_build_packet _ _ _ _ _ c); [done|done|done|rewrite blen_undef; unfold RTP_HEADER_LEN; lia|].
  intros out _ HS HG. assert (0 < n_channels (mode pl) * samples_per_pkt (mode pl)) by nia.
  rewrite Z.gtb_ltb, (proj2 (Z.ltb_lt _ _)) by (unfold RTP_HEADER_LEN; lia). by apply HQ.
Qed.

(** the packets a well-formed frame gives rise to *)
Definition frame_packet pl (h : Z -> list Z) raw (i : Z) : buf Z * Z -> Prop :=
  packet_spec (mode pl)
    (RtpParams (payload_type (rtp pl)) (u16 (seq (rtp pl) + i)) (block_ts pl raw i) (ssrc (rtp pl)))
    (if i <? frame_lost pl raw then 1 else 0)
    (fun c s => if i <? frame_lost pl raw then Some (concealed (plc_state pl) i (h c) s)
                else wire_sample (mode pl) raw c s).

Definition emitted pl h raw (t : trace) (i : Z) (t' : trace) : Prop :=
  exists new, t' = t ++ new /\ Z.of_nat (length new) = i
    /\ forall j e, new !! j = Some e -> frame_packet pl h raw (Z.of_nat j) e.

Lemma emitted_next pl h raw t i t' e :
  emitted pl h raw t i t' -> frame_packet pl h raw i e -> emitted pl h raw t (i + 1) (t' ++ [e]).
Proof.
  intros (new & -> & Hl & Hn) He. exists (new ++ [e]). split; [by rewrite app_assoc|].
  rewrite length_app. cbn [length]. split; [lia|]. intros j e' Hj.
  apply lookup_snoc_Some in Hj as [[_ Hj]|[-> ->]]; [by apply Hn|by rewrite Hl].
Qed.

Lemma sample_wire m raw out0 pcm c s :
  decoded m raw out0 pcm -> mode_ok m ->
  0 <= c < n_channels m -> 0 <= s < samples_per_pkt m ->
  sample pcm (c * samples_per_pkt m + s) = wire_sample m raw c s.
Proof.
  intros Hd HM Hc Hs. unfold sample, wire_sample.
  rewrite <- !(decoded_get _ _ _ _ _ _ _ Hd HM Hc Hs) by lia. by rewrite Z.add_0_r.
Qed.

Lemma packet_spec_ext m p f g g' e :
  packet_spec m p f g e ->
  (forall c s, 0 <= c < n_channels m -> 0 <= s < samples_per_pkt m -> g c s = g' c s) ->
  packet_spec m p f g' e.
Proof.
  intros (H1 & H2 & H3 & H4 & H5) E. repeat (split; [done|]).
  intros c s Hc Hs. rewrite H5 by done. by apply E.
Qed.

(** byte [k] of sample [n] of a packet is byte [2 - k] of sample [n] of the frame *)
Definition byte_swapped (m : reac_mode) raw (pkt : buf Z) : Prop :=
  forall n k, 0 <= n < n_channels m * samples_per_pkt m -> 0 <= k < 3 ->
    get pkt (12 + n * 3 + k) = get raw (50 + n * 3 + (2 - k)).

(** the default path, frame by frame *)
Lemma ok_frame_packets pl h raw len t (Q : Z * pipeline trace * trace -> Prop) :
  pipeline_ok pl h -> pcm_sink pl = None -> bytes_upto raw len ->
  (well_formed raw len = false -> Q (-1, set_stats add_malformed pl, t)) ->
  (forall pl' t' pkt pcm, well_formed raw len = true ->
     frame_done pl raw pl' -> pipeline_ok pl' (observed pl h pcm) ->
     emitted pl h raw t (frame_lost pl raw) t' ->
     frame_packet pl h raw (frame_lost pl raw) (pkt, 0) ->
     byte_swapped (mode pl) raw pkt ->
     Q (0, pl', t' ++ [(pkt, 0)])) ->
  ok (pipeline_on_frame pl raw len trace_emit t) Q.
Proof.
  intros HK Hsink HB Hbad Hgood. pose proof HK as (HM & _).
  eapply ok_on_frame with (J := fun i t' => emitted pl h raw t i t'); try done.
  - intros _. exists []. split; [by rewrite app_nil_r|]. by split.
  - intros i pl' cpcm t' WF Hi (M1 & _ & _ & M4 & M5 & M6 & M7 & M8 & _) HJ B1 B2 B3.
    apply ok_deliver_rtp; try (unfold channels, sps; by rewrite M1); [by rewrite M4|done|
      apply block_ts_range|].
    unfold sps, channels in *. rewrite M1, M5, M6, M7. intros e He _.
    apply emitted_next; [done|]. unfold frame_packet.
    rewrite (proj2 (Z.ltb_lt i _)) by lia. unfold seq_after in *. rewrite Hsink in He.
    eapply packet_spec_ext; [exact He|]. intros c s Hc Hs. by apply B3.
  - intros pl' pcm t' WF (M1 & _ & _ & M4 & M5 & M6 & M7 & M8 & _) HJ B1 B2 Hd.
    assert (block_ts pl raw (frame_lost pl raw) = step_rtp_ts (frame_step pl raw)) as Hts.
    { unfold block_ts. rewrite Z.sub_diag, Z.sub_0_r.
      pose proof (well_formed_len _ _ WF) as ->.
      pose proof (frame_clock_ok _ _ _ HK HB) as (_ & _ & _ & <- & ? & _). by apply u32_small. }
    apply ok_deliver_rtp; try (unfold channels, sps; by rewrite M1); [by rewrite M4|done| |].
    { rewrite <- Hts. apply block_ts_range. }
    unfold sps, channels in *. rewrite M1, M5, M6, M7. intros [pkt f] He Hbytes pl'' Hdone HK'.
    assert (f = 0) as -> by apply He. eapply Hgood; try done.
    + unfold frame_packet. rewrite Z.ltb_irrefl, Hts. unfold seq_after in *. rewrite Hsink in He.
      eapply packet_spec_ext; [exact He|]. intros c s Hc Hs. by eapply sample_wire.
    + intros n k Hn Hk. cbn [fst] in Hbytes. pose proof HM as (HM1 & HM2 & _).
      unfold RTP_HEADER_LEN in Hbytes. set (N := n_channels (mode pl)) in *.
      assert (0 <= n / N < samples_per_pkt (mode pl)) as Hq
        by (split; [apply Z.div_pos|apply Z.div_lt_upper_bound]; lia).
      pose proof (Z.mod_pos_bound n N ltac:(lia)) as Hr.
      replace n with (n / N * N + n mod N) by (pose proof (Z.div_mod n N); lia).
      rewrite Hbytes by done. rewrite (decoded_get _ _ _ _ _ _ _ Hd HM Hr Hq) by lia.
      unfold wire_offset. by reac_consts.
Qed.

(** ** Whole runs *)

(** packet number [j] of a stream: one sequence number and one block of
    samples after packet [j - 1] *)
Definition stream_packet (m : reac_mode) (pt ssrc_ anchor j : Z) (e : buf Z * Z) : Prop :=
  blen e.1 = 12 + n_channels m * samples_per_pkt m * 3
  /\ bytes_upto e.1 (12 + n_channels m * samples_per_pkt m * 3)
  /\ parse_rtp_header e.1
     = Some (RtpParams (pt mod 128) (u16 j) (u32 (anchor + j * samples_per_pkt m)) ssrc_).

Definition stream (m : reac_mode) (pt ssrc_ anchor : Z) t : Prop :=
  forall j e, t !! j = Some e -> stream_packet m pt ssrc_ anchor (Z.of_nat j) e.

Definition tlen t : Z := Z.of_nat (length t).

(** the pipeline after a run that emitted [t] and refused [bad] frames *)
Definition run_inv (m : reac_mode) (pt ssrc_ anchor bad : Z) pl t : Prop :=
  (exists h, pipeline_ok pl h) /\ mode pl = m /\ pcm_sink pl = None
  /\ payload_type (rtp pl) = pt /\ ssrc (rtp pl) = ssrc_ /\ seq (rtp pl) = u16 (tlen t)
  /\ clock_at anchor (tlen t) pl
  /\ packets (stats pl) = u64 (flagged 0 t) /\ concealed_count (stats pl) = u64 (flagged 1 t)
  /\ loss_total (stats pl) = u64 (flagged 1 t) /\ malformed (stats pl) = u64 bad
  /\ last_tier (stats pl) ∈ [-1; 0; 1] /\ stream m pt ssrc_ anchor t.

Lemma flagged_app f t t' : flagged f (t ++ t') = flagged f t + flagged f t'.
Proof. unfold flagged. rewrite filter_app, length_app. lia. Qed.

Lemma flagged_all f t :
  (forall j e, t !! j = Some e -> e.2 = f) ->
  flagged f t = Z.of_nat (length t) /\ (forall g, g <> f -> flagged g t = 0).
Proof.
  induction t as [|e t IH]; intros H; [by split|].
  destruct IH as [IH1 IH2]; [intros j e' Hj; by apply (H (S j))|].
  pose proof (H O e eq_refl) as He. unfold flagged in *. split.
  - rewrite filter_cons_True by done. cbn [length]. lia.
  - intros g Hg. rewrite filter_cons_False by congruence. by apply IH2.
Qed.

Lemma emitted_flags pl h raw t t' :
  emitted pl h raw t (frame_lost pl raw) t' ->
  flagged 0 t' = flagged 0 t /\ flagged 1 t' = flagged 1 t + frame_lost pl raw
  /\ tlen t' = tlen t + frame_lost pl raw.
Proof.
  intros (new & -> & Hl & Hn). rewrite !flagged_app. unfold tlen. rewrite length_app.
  destruct (flagged_all 1 new) as [H1 H0].
  { intros j e Hj. destruct (Hn j e Hj) as [-> _]. apply lookup_lt_Some in Hj.
    by rewrite (proj2 (Z.ltb_lt _ _)) by lia. }
  rewrite H1, H0 by done. lia.
Qed.

(** a frame's packets continue the stream *)
Lemma frame_stream_packet m pt ssrc_ anchor bad pl h raw t i e :
  run_inv m pt ssrc_ anchor bad pl t -> pipeline_ok pl h -> bytes_upto raw 1492 ->
  0 <= i <= frame_lost pl raw -> frame_packet pl h raw i e ->
  stream_packet m pt ssrc_ anchor (tlen t + i) e.
Proof.
  intros (_ & <- & _ & <- & <- & Hseq & Hat & _) HK HB Hi (_ & H1 & H2 & H3 & _).
  split; [done|]. split; [done|]. rewrite H3. unfold wire_params; cbn.
  by rewrite Hseq, u16_add_l, (block_ts_at _ _ _ _ _ i Hat HK HB).
Qed.

Lemma emitted_stream m pt ssrc_ anchor bad pl h raw t t' pkt :
  run_inv m pt ssrc_ anchor bad pl t -> pipeline_ok pl h -> bytes_upto raw 1492 ->
  emitted pl h raw t (frame_lost pl raw) t' ->
  frame_packet pl h raw (frame_lost pl raw) (pkt, 0) ->
  stream m pt ssrc_ anchor (t' ++ [(pkt, 0)]).
Proof.
  intros HI HK HB HE HP. pose proof (emitted_flags _ _ _ _ _ HE) as (_ & _ & Hl).
  pose proof (frame_lost_range pl raw). destruct HE as (new & -> & Hn & Hnew).
  intros j e Hj. unfold tlen in *.
  apply lookup_snoc_Some in Hj as [[Hlt Hj]|[-> <-]].
  - apply lookup_app_Some in Hj as [Hj|[Hge Hj]].
    + destruct HI as (_ & _ & _ & _ & _ & _ & _ & _ & _ & _ & _ & _ & Hst). by apply Hst.
    + pose proof (lookup_lt_Some _ _ _ Hj).
      replace (Z.of_nat j) with (tlen t + Z.of_nat (j - length t)) by (unfold tlen; lia).
      eapply frame_stream_packet; try done; [lia|]. by apply Hnew.
  - rewrite Hl. eapply frame_stream_packet; try done. lia.
Qed.

(** one frame of a run *)
Lemma run_step m pt ssrc_ anchor bad pl raw len t :
  run_inv m pt ssrc_ anchor bad pl t -> bytes_upto raw len ->
  ok (pipeline_on_frame pl raw len trace_emit t) (fun '(_, pl', t') =>
    run_inv m pt ssrc_ anchor (if well_formed raw len then bad else bad + 1) pl' t'
    /\ flagged 0 t' = flagged 0 t + (if well_formed raw len then 1 else 0)
    /\ flagged 1 t' = flagged 1 t + (if well_formed raw len then frame_lost pl raw else 0)
    /\ tlen t' - flagged 1 t' = tlen t - flagged 1 t + (if well_formed raw len then 1 else 0)
    /\ clock pl' = if well_formed raw len then frame_clock pl raw else clock pl).
Proof.
  intros HI HB. pose proof HI as ((h & HK) & <- & Hsink & <- & <- & Hseq & Hat & I1 & I2 & I3 & I4 & I5 & I6).
  apply ok_frame_packets with (h := h); try done.
  - intros WF. rewrite WF, !Z.add_0_r. split; [|done].
    unfold run_inv; cbn. rewrite I4, u64_add_l. pose proof (malformed_ok pl h HK).
    split; [by exists h|]. repeat (split; [done|]). done.
  - intros pl' t' pkt pcm WF (D1 & D2 & D3 & D4 & D5 & D6 & D7 & D8 & D9 & D10 & D11) HK' HE HP _.
    rewrite WF. pose proof (well_formed_len _ _ WF) as ->.
    pose proof (emitted_flags _ _ _ _ _ HE) as (F0 & F1 & Fl).
    pose proof (clock_at_next _ _ _ _ _ _ Hat HK HB D1 D2) as Hat'.
    assert (tlen (t' ++ [(pkt, 0)]) = tlen t + frame_lost pl raw + 1) as Hlen
      by (unfold tlen in *; rewrite length_app; cbn [length]; lia).
    assert (flagged 0 [(pkt, 0)] = 1 /\ flagged 1 [(pkt, 0)] = 0) as [G0 G1] by done.
    rewrite !flagged_app, F0, G0, F1, G1, Hlen. split; [|split; [done|split; [lia|split; [lia|done]]]].
    unfold run_inv. rewrite D1, D3, D4, D5, D6, D7, D8, D9, D10, D11, !flagged_app, F0, F1, G0, G1, Hlen.
    rewrite I1, I2, I3, !u64_add_l. unfold seq_after. rewrite Hsink, Hseq, u16_add_l, !Z.add_assoc, !Z.add_0_r.
    split; [by exists (observed pl h pcm)|]. repeat (split; [done|]). split.
    + unfold tier_after, PLC_TIER_REPEAT_XFADE, PLC_TIER_BURST_FADE.
      repeat case_match; first [exact I5 | rewrite !elem_of_cons; auto].
    + by eapply emitted_stream.
Qed.

(** a pipeline as [run_listen], [run_pcap] and [run_dante] set it up *)
Definition fresh (m : reac_mode) (pt ssrc_ xfade fade anchor : Z) : pipeline trace :=
  pipeline_anchor anchor (pipeline_init_ex m pt ssrc_ xfade fade).

Lemma fresh_inv m pt ssrc_ xfade fade anchor :
  mode_ok m -> fade <= 81920 -> 0 <= pt < 256 -> 0 <= ssrc_ < 4294967296 ->
  0 <= anchor < 4294967296 ->
  run_inv m pt ssrc_ anchor 0 (fresh m pt ssrc_ xfade fade anchor) [].
Proof.
  intros HM Hf Hpt Hs Ha. split.
  - exists (fun _ => []). split; [done|]. split; [by apply init_params_ok|].
    split; [done|]. split; [done|]. split; [apply init_rep; apply HM|]. split; [done|].
    unfold rtp_params_ok, stats_ok; cbn. by intuition lia.
  - repeat (split; [done|]). split; [rewrite !elem_of_cons; auto|done].
Qed.

Definition accepted (frames : list (buf Z * Z)) : Z :=
  Z.of_nat (length (filter (fun f => well_formed f.1 f.2 = true) frames)).
Definition refused (frames : list (buf Z * Z)) : Z :=
  Z.of_nat (length (filter (fun f => well_formed f.1 f.2 = false) frames)).

(** packets missing between the accepted frames, after the counter [last] *)
Definition lost_among (last : option Z) (frames : list (buf Z * Z)) : Z :=
  missing last ((fun f => le16 f.1 14) <$> filter (fun f => well_formed f.1 f.2 = true) frames).

Lemma lost_among_cons {V} (pl : pipeline V) raw len frames :
  lost_among (last_of (clock pl)) ((raw, len) :: frames)
  = if well_formed raw len then frame_lost pl raw + lost_among (last_of (frame_clock pl raw)) frames
    else lost_among (last_of (clock pl)) frames.
Proof.
  unfold lost_among. rewrite filter_cons. cbn [fst snd]. destruct (well_formed raw len); case_decide; try done.
  cbn [fmap list_fmap fst]. by rewrite on_packet_missing.
Qed.

Lemma accepted_cons raw len frames :
  accepted ((raw, len) :: frames) = Z.b2z (well_formed raw len) + accepted frames.
Proof.
  unfold accepted. rewrite filter_cons. cbn [fst snd].
  destruct (well_formed raw len); case_decide; try done; cbn [length Z.b2z]; lia.
Qed.

Lemma refused_cons raw len frames :
  refused ((raw, len) :: frames) = Z.b2z (negb (well_formed raw len)) + refused frames.
Proof.
  unfold refused. rewrite filter_cons. cbn [fst snd].
  destruct (well_formed raw len); case_decide; try done; cbn [length Z.b2z negb]; lia.
Qed.

Lemma run_frames m pt ssrc_ anchor : forall frames bad pl t,
  run_inv m pt ssrc_ anchor bad pl t -> Forall (fun f => bytes_upto f.1 f.2) frames ->
  ok (pipeline_run pl frames trace_emit t) (fun '(pl', t') =>
    run_inv m pt ssrc_ anchor (bad + refused frames) pl' t'
    /\ flagged 0 t' = flagged 0 t + accepted frames
    /\ flagged 1 t' = flagged 1 t + lost_among (last_of (clock pl)) frames
    /\ tlen t' - flagged 1 t' = tlen t - flagged 1 t + accepted frames).
Proof.
  induction frames as [|[raw len] frames IH]; intros bad pl t HI HF.
  - cbn. by rewrite !Z.add_0_r.
  - apply Forall_cons_1 in HF as [HB HF]. cbn [pipeline_run]. ok_step.
    eapply ok_mono; [by apply run_step|]. intros [[r pl'] t'] (HI' & F' & L' & G' & C').
    eapply ok_mono; [by apply IH|]. intros [pl'' t''] (HI'' & F'' & L'' & G'').
    rewrite accepted_cons, refused_cons, lost_among_cons.
    destruct (well_formed raw len); cbn [Z.b2z negb] in *; rewrite ?Z.add_0_l, ?Z.add_assoc, C' in *;
      (split; [done|]); lia.
Qed.

(** ** Only the frames' own bytes matter *)

Definition same_frame (f f' : buf Z * Z) : Prop := f'.2 = f.2 /\ agree f.1 f'.1 f.2.

Lemma frame_agree {V} (pl : pipeline V) raw raw' len (emit : pipeline_emit_fn V) w :
  mode_ok (mode pl) -> bytes_upto raw len -> agree raw raw' len ->
  pipeline_on_frame pl raw' len emit w = pipeline_on_frame pl raw len emit w.
Proof.
  intros HM HB HA. unfold pipeline_on_frame. rewrite (decode_agree raw) by done.
  destruct (reac_decode raw len (mode pl) _) as [[ns pcm]|e]; [|done]. cbn [mbind res_bind].
  destruct (ns <? 0); [done|]. by rewrite (inspect_agree raw) by done.
Qed.

Lemma run_agree m pt ssrc_ anchor frames frames' : Forall2 same_frame frames frames' ->
  Forall (fun f => bytes_upto f.1 f.2) frames -> forall bad pl t, run_inv m pt ssrc_ anchor bad pl t ->
  pipeline_run pl frames' trace_emit t = pipeline_run pl frames trace_emit t.
Proof.
  induction 1 as [|[raw len] [raw' len'] frames frames' [E HA] HF2 IH]; intros HF bad pl t HI; [done|].
  apply Forall_cons_1 in HF as [HB HF]. cbn [fst snd pipeline_run] in *. subst len'.
  assert (mode_ok (mode pl)) as HM by (destruct HI as ((h & HK) & _); by apply HK).
  rewrite (frame_agree pl raw) by done. pose proof (run_step m pt ssrc_ anchor bad pl raw len t HI HB) as H.
  apply ok_iff in H as ([[r pl'] t'] & -> & HI' & _). cbn [mbind res_bind]. by eapply IH.
Qed.

(** * Properties *)

(** C2: the emitted RTP stream has no gap.  Over any sequence of received
    byte strings (lost, repeated, reordered, truncated or foreign frames) the
    pipeline runs into no undefined behaviour; the j-th packet it emits, real
    or concealed, carries sequence number j mod 2^16 and timestamp
    anchor + j * samples_per_pkt mod 2^32 with the stream's payload type and
    ssrc, and is complete; there is one real packet per accepted frame and one
    concealment packet per packet missing between them by the media clock's
    accounting, and the counters report exactly these numbers. *)
Theorem pipeline_gapless m (pt ssrc_ xfade fade anchor : Z) (frames : list (buf Z * Z))
  (HM : mode_ok m) (Hfade : fade <= 81920) (Hpt : 0 <= pt < 256)
  (Hssrc : 0 <= ssrc_ < 4294967296) (Hanchor : 0 <= anchor < 4294967296)
  (HB : Forall (fun f => bytes_upto f.1 f.2) frames) :
  let lost := lost_among None frames in
  exists pl t,
    pipeline_run (fresh m pt ssrc_ xfade fade anchor) frames trace_emit [] = Ok (pl, t)
    /\ (forall j e, t !! j = Some e ->
          blen e.1 = 12 + n_channels m * samples_per_pkt m * 3
          /\ bytes_upto e.1 (blen e.1)
          /\ parse_rtp_header e.1
             = Some (RtpParams (pt mod 128) (u16 (Z.of_nat j))
                       (u32 (anchor + Z.of_nat j * samples_per_pkt m)) ssrc_))
    /\ flagged 0 t = accepted frames /\ flagged 1 t = lost
    /\ Z.of_nat (length t) = accepted frames + lost
    /\ let s := pipeline_get_stats pl in
       packets s = u64 (accepted frames) /\ malformed s = u64 (refused frames)
       /\ concealed_count s = u64 lost /\ loss_total s = u64 lost.
Proof.
  intros lost.
  pose proof (run_frames m pt ssrc_ anchor frames 0 (fresh m pt ssrc_ xfade fade anchor) []
    (fresh_inv _ _ _ _ _ _ HM Hfade Hpt Hssrc Hanchor) HB) as H.
  apply ok_iff in H as ([pl t] & Hr & HI & HF & HL & HG). exists pl, t. split; [exact Hr|].
  destruct HI as (_ & _ & _ & _ & _ & _ & _ & I1 & I2 & I3 & I4 & _ & Hst).
  change (flagged 0 []) with 0 in HF. change (flagged 1 []) with 0 in HL. change (tlen [] - 0) with 0 in HG.
  change (flagged 1 t = 0 + lost) in HL. rewrite Z.add_0_l in *.
  unfold pipeline_get_stats. rewrite I1, I2, I3, I4, HF, HL.
  split; [|unfold tlen in HG; repeat split; try done; lia].
  intros j e Hj. destruct (Hst j e Hj) as (S1 & S2 & S3). by rewrite S1.
Qed.

(** C3: one frame, end to end.  On a well-formed frame in any reachable state
    the default path appends exactly the lost frames' concealment packets and
    then the real one.  Packet [i] continues the sequence numbers, is stamped
    [N - i] blocks before the real packet, and carries for every channel the
    PLC output for loss index [i] on that channel's history; the last one
    carries the frame's own samples.  The clock takes its step, the counters
    move by 1, N and N, and the invariant holds again. *)
Theorem pipeline_on_frame_correct pl h raw len t
  (HK : pipeline_ok pl h) (Hsink : pcm_sink pl = None) (HB : bytes_upto raw len)
  (WF : well_formed raw len = true) :
  let n := frame_lost pl raw in
  exists pl' h' new,
    pipeline_on_frame pl raw len trace_emit t = Ok (0, pl', t ++ new)
    /\ Z.of_nat (length new) = n + 1
    /\ (forall i e, new !! i = Some e ->
          let i := Z.of_nat i in
          packet_spec (mode pl)
            (RtpParams (payload_type (rtp pl)) (u16 (seq (rtp pl) + i))
               (u32 (step_rtp_ts (frame_step pl raw) - (n - i) * samples_per_pkt (mode pl)))
               (ssrc (rtp pl)))
            (if i <? n then 1 else 0)
            (fun c s => if i <? n then Some (concealed (plc_state pl) i (h c) s)
                        else wire_sample (mode pl) raw c s) e)
    /\ clock pl' = frame_clock pl raw /\ seq (rtp pl') = u16 (seq (rtp pl) + (n + 1))
    /\ packets (stats pl') = u64 (packets (stats pl) + 1)
    /\ concealed_count (stats pl') = u64 (concealed_count (stats pl) + n)
    /\ loss_total (stats pl') = u64 (loss_total (stats pl) + n)
    /\ malformed (stats pl') = malformed (stats pl)
    /\ pipeline_ok pl' h'.
Proof.
  assert (ok (pipeline_on_frame pl raw len trace_emit t) (fun '(r, pl', t') => r = 0
    /\ frame_done pl raw pl' /\ exists h', pipeline_ok pl' h'
    /\ emitted pl h raw t (frame_lost pl raw + 1) t')) as H.
  { eapply ok_frame_packets; try done; [congruence|]. intros pl' t' pkt pcm _ HD HK' HE HP _.
    split; [done|]. split; [done|]. eexists. split; [done|]. by apply emitted_next. }
  apply ok_iff in H as ([[r pl'] t'] & -> & -> & HD & h' & HK' & new & -> & Hl & Hn).
  destruct HD as (_ & D2 & _ & _ & _ & D6 & D7 & D8 & D9 & D10 & _).
  unfold seq_after in D6. rewrite Hsink in D6.
  exists pl', h', new. repeat (split; [done|]). done.
Qed.

(** C11: the audio path is bit transparent.  The packet emitted for a
    well-formed frame holds, sample by sample in wire order, the frame's own
    24-bit words with their bytes swapped to network order. *)
Theorem pipeline_bit_transparent pl h raw len t
  (HK : pipeline_ok pl h) (Hsink : pcm_sink pl = None) (HB : bytes_upto raw len)
  (WF : well_formed raw len = true) :
  exists pl' t' pkt, pipeline_on_frame pl raw len trace_emit t = Ok (0, pl', t' ++ [(pkt, 0)])
    /\ forall n k, 0 <= n < n_channels (mode pl) * samples_per_pkt (mode pl) -> 0 <= k < 3 ->
         get pkt (12 + n * 3 + k) = get raw (50 + n * 3 + (2 - k)).
Proof.
  assert (ok (pipeline_on_frame pl raw len trace_emit t) (fun '(r, pl', t') => r = 0
    /\ exists t'' pkt, t' = t'' ++ [(pkt, 0)] /\ byte_swapped (mode pl) raw pkt)) as H.
  { eapply ok_frame_packets; try done; [congruence|]. eauto 10. }
  apply ok_iff in H as ([[r pl'] t'] & -> & -> & t'' & pkt & -> & Hb). eauto.
Qed.

(** A frame that is not a REAC frame changes nothing but the malformed
    counter: the call returns -1, no packet is emitted, and the clock, the
    concealment history and the RTP state stay as they were. *)
Theorem pipeline_malformed pl h raw len t
  (HK : pipeline_ok pl h) (HB : bytes_upto raw len) (WF : well_formed raw len = false) :
  exists pl', pipeline_on_frame pl raw len trace_emit t = Ok (-1, pl', t)
    /\ clock pl' = clock pl /\ plc_state pl' = plc_state pl /\ rtp pl' = rtp pl
    /\ packets (stats pl') = packets (stats pl) /\ last_seq (stats pl') = last_seq (stats pl)
    /\ concealed_count (stats pl') = concealed_count (stats pl)
    /\ loss_total (stats pl') = loss_total (stats pl)
    /\ malformed (stats pl') = u64 (malformed (stats pl) + 1).
Proof.
  exists (set_stats add_malformed pl). split; [|done]. apply ok_eq.
  eapply ok_on_frame with (J := fun _ _ => True); try done; congruence.
Qed.

(** Only the two upper tiers of the ladder are ever used.  The media clock
    asks for no concealment before the first frame, and one frame fills the
    history with a whole packet, so after any run the last tier is -1 (nothing
    concealed yet), repeat with crossfade, or burst fade; hold-last and silence
    are unreachable through the pipeline. *)
Theorem pipeline_tiers m (pt ssrc_ xfade fade anchor : Z) (frames : list (buf Z * Z))
  (HM : mode_ok m) (Hfade : fade <= 81920) (Hpt : 0 <= pt < 256)
  (Hssrc : 0 <= ssrc_ < 4294967296) (Hanchor : 0 <= anchor < 4294967296)
  (HB : Forall (fun f => bytes_upto f.1 f.2) frames) :
  let lost := lost_among None frames in
  exists pl t,
    pipeline_run (fresh m pt ssrc_ xfade fade anchor) frames trace_emit [] = Ok (pl, t)
    /\ last_tier (pipeline_get_stats pl) ∈ [-1; PLC_TIER_REPEAT_XFADE; PLC_TIER_BURST_FADE].
Proof.
  pose proof (run_frames m pt ssrc_ anchor frames 0 (fresh m pt ssrc_ xfade fade anchor) []
    (fresh_inv _ _ _ _ _ _ HM Hfade Hpt Hssrc Hanchor) HB) as H.
  apply ok_iff in H as ([pl t] & Hr & HI & _). exists pl, t. split; [exact Hr|].
  by destruct HI as (_ & _ & _ & _ & _ & _ & _ & _ & _ & _ & _ & ? & _).
Qed.
End Default.

(** * Evaluation on concrete frames *)

Definition mode48 : reac_mode := reac_mode_for (ReacLib := documented_lib) 48000.

Lemma mode48_ok : mode_ok (L := documented_lib) mode48.
Proof. apply (reac_mode_for_ok (L := documented_lib) (D := documented_lib_doc)). Qed.

(** frame 5, a truncated frame, then frame 8: two frames lost *)
Definition demo_frames : list (buf Z * Z) :=
  [(of_list (test_frame 5 (fun i => i * 7)), 1492); (of_list (replicate 60 0), 60);
   (of_list (test_frame 8 (fun i => i * 5)), 1492)].

Lemma demo_frames_bytes : Forall (fun f => bytes_upto f.1 f.2) demo_frames.
Proof. repeat constructor; (apply bytes_of_list; by vm_compute). Qed.

(** a pipeline that has received nothing yet *)
Definition demo_pipeline : pipeline trace :=
  fresh (L := documented_lib) mode48 97 3405691582 0 0 4294967290.

Lemma demo_pipeline_ok : pipeline_ok (L := documented_lib) demo_pipeline (fun _ => []).
Proof.
  split; [exact mode48_ok|]. split; [apply (init_params_ok (L := documented_lib)); [exact mode48_ok|lia]|].
  split; [done|]. split; [done|]. split; [by apply (init_rep (L := documented_lib)); vm_compute|].
  split; [done|]. unfold rtp_params_ok, stats_ok; cbn. by intuition lia.
Qed.

Lemma pipeline_gapless_witness :
  exists pl t, pipeline_run (L := documented_lib) demo_pipeline demo_frames trace_emit [] = Ok (pl, t)
    /\ flagged 0 t = 2 /\ length t = 4%nat /\ malformed (stats pl) = 1
    /\ forall e, t !! 1%nat = Some e ->
         parse_rtp_header e.1 = Some (RtpParams 97 1 6 3405691582).
Proof.
  destruct (pipeline_gapless (L := documented_lib) (D := documented_lib_doc) mode48 97 3405691582 0 0
    4294967290 demo_frames mode48_ok ltac:(lia) ltac:(lia) ltac:(lia) ltac:(lia) demo_frames_bytes)
    as (pl & t & H1 & H2 & H3 & _ & H5 & _ & H4 & _).
  exists pl, t. split; [exact H1|]. split; [rewrite H3; by vm_compute|].
  split; [apply Nat2Z.inj; refine (eq_trans H5 _); by vm_compute|].
  split; [refine (eq_trans H4 _); by vm_compute|].
  intros e He. apply (H2 1%nat e He).
Defined.

Lemma pipeline_on_frame_correct_witness :
  exists pl' new, pipeline_on_frame (L := documented_lib) demo_pipeline ramp_frame 1492 trace_emit []
                  = Ok (0, pl', new)
    /\ Z.of_nat (length new) = 1 /\ packets (stats pl') = 1.
Proof.
  destruct (pipeline_on_frame_correct (L := documented_lib) (D := documented_lib_doc) demo_pipeline
    (fun _ => []) ramp_frame 1492 [] demo_pipeline_ok eq_refl ramp_frame_bytes)
    as (pl' & h' & new & H1 & H2 & _ & _ & _ & H3 & _); [by vm_compute|].
  exists pl', new. split; [exact H1|]. split; [exact H2|exact H3].
Defined.

Lemma pipeline_bit_transparent_witness :
  exists pl' t' pkt, pipeline_on_frame (L := documented_lib) demo_pipeline ramp_frame 1492 trace_emit []
                     = Ok (0, pl', t' ++ [(pkt, 0)])
    /\ get pkt 12 = Some 14 /\ get pkt 14 = Some 0.
Proof.
  destruct (pipeline_bit_transparent (L := documented_lib) (D := documented_lib_doc) demo_pipeline
    (fun _ => []) ramp_frame 1492 [] demo_pipeline_ok eq_refl ramp_frame_bytes)
    as (pl' & t' & pkt & H1 & H2); [by vm_compute|].
  exists pl', t', pkt. split; [exact H1|]. clear H1. split.
  - refine (eq_trans (H2 0 0 ltac:(by vm_compute) ltac:(lia)) _). by vm_compute.
  - refine (eq_trans (H2 0 2 ltac:(by vm_compute) ltac:(lia)) _). by vm_compute.
Defined.

Lemma pipeline_malformed_witness :
  exists pl', pipeline_on_frame (L := documented_lib) demo_pipeline (of_list (replicate 60 0)) 60
                trace_emit [] = Ok (-1, pl', [])
    /\ malformed (stats pl') = 1.
Proof.
  destruct (pipeline_malformed (L := documented_lib) (D := documented_lib_doc) demo_pipeline
    (fun _ => []) (of_list (replicate 60 0)) 60 [] demo_pipeline_ok)
    as (pl' & H1 & _ & _ & _ & _ & _ & _ & _ & H2); [by apply bytes_of_list; vm_compute|by vm_compute|].
  exists pl'. split; [exact H1|exact H2].
Defined.

Lemma pipeline_tiers_witness :
  exists pl t, pipeline_run (L := documented_lib) demo_pipeline demo_frames trace_emit [] = Ok (pl, t)
    /\ last_tier (stats pl) ∈ [-1; 0; 1].
Proof.
  exact (pipeline_tiers (L := documented_lib) (D := documented_lib_doc) mode48 97 3405691582 0 0
    4294967290 demo_frames mode48_ok ltac:(lia) ltac:(lia) ltac:(lia) ltac:(lia) demo_frames_bytes).
Defined.
