(* ===== verification/Packetizer.v ===== *)
(** packetizer.c: aggregating decoded frames into one RTP packet per flow, each
    flow a slice of the channels with its own RTP identity.  The Dante profile
    of main.c drives it as the pipeline's PCM sink. *)

From S2P Require Import Prelude LibReac Pcm Decode MediaClock Plc Rtp Pipeline.

Definition PACKETIZER_MAX_FPP : Z := 4.

(** [struct reac_flow] *)
Record reac_flow : Type := ReacFlow {
  ch_start : Z;
  n_ch : Z;
  fl_payload_type : Z;  (* uint8_t *)
  fl_ssrc : Z;          (* uint32_t *)
  fl_seq : Z;           (* uint16_t *)
}.

(** [packetizer_emit_fn], acting on a world [W] *)
Definition packetizer_emit_fn (W : Type) : Type := Z -> buf Z -> Z -> Z -> W -> res W.

(** [struct packetizer]; [flows] is the caller's array, which only the packetizer
    writes once it is initialised *)
Record packetizer : Type := Packetizer {
  pk_mode : reac_mode;
  frames_per_packet : Z;
  frames_buffered : Z;
  pending_ts : Z;         (* uint32_t *)
  pending_concealed : Z;
  flows : buf reac_flow;
  n_flows : Z;
  pk_planar : buf Z;      (* uint8_t[REAC_MAX_CHANNELS * PACKETIZER_MAX_FPP * 24 * 3] *)
}.

Section Updates.
Implicit Types (pk : packetizer).
Definition set_pending (ts concealed : Z) pk : packetizer :=
  Packetizer (pk_mode pk) (frames_per_packet pk) (frames_buffered pk) ts concealed
    (flows pk) (n_flows pk) (pk_planar pk).
Definition set_flows (fl : buf reac_flow) pk : packetizer :=
  Packetizer (pk_mode pk) (frames_per_packet pk) (frames_buffered pk) (pending_ts pk)
    (pending_concealed pk) fl (n_flows pk) (pk_planar pk).
Definition set_planar (b : buf Z) pk : packetizer :=
  Packetizer (pk_mode pk) (frames_per_packet pk) (frames_buffered pk) (pending_ts pk)
    (pending_concealed pk) (flows pk) (n_flows pk) b.
Definition set_buffered (n : Z) pk : packetizer :=
  Packetizer (pk_mode pk) (frames_per_packet pk) n (pending_ts pk)
    (pending_concealed pk) (flows pk) (n_flows pk) (pk_planar pk).
End Updates.

Section Packetizer.
Context {L : ReacLib} {W : Type}.
Implicit Types (pk : packetizer) (emit : packetizer_emit_fn W) (w : W).

(** body of the loop of [dante_build_flows] *)
Definition build_flow (n_channels_ ch_per_flow payload_type_ ssrc_base i : Z) (fls : buf reac_flow)
  : res (buf reac_flow) :=
  start ← int (i * ch_per_flow);
  width ← int (n_channels_ - start);
  let width := if width >? ch_per_flow then ch_per_flow else width in
  wr fls i (ReacFlow start width payload_type_ (u32 (ssrc_base + u32 i)) 0).

Definition dante_build_flows (fls : buf reac_flow) (max n_channels_ ch_per_flow payload_type_ ssrc_base : Z)
  : res (Z * buf reac_flow) :=
  if (ch_per_flow <=? 0) || (n_channels_ <=? 0) then mret (-1, fls) else
  s ← int (n_channels_ + ch_per_flow);
  s ← int (s - 1);
  n ← idiv s ch_per_flow;
  if n >? max then mret (-1, fls) else
  fls ← for_ 0 n (build_flow n_channels_ ch_per_flow payload_type_ ssrc_base) fls;
  mret (n, fls).

(** the fields the call sets; [pk_planar] keeps what the object held before *)
Definition packetizer_init (planar0 : buf Z) (m : reac_mode) (fpp : Z) (fls : buf reac_flow) (nf : Z)
  : packetizer :=
  let fpp := if fpp <? 1 then 1 else fpp in
  let fpp := if fpp >? PACKETIZER_MAX_FPP then PACKETIZER_MAX_FPP else fpp in
  Packetizer m fpp 0 0 0 fls nf planar0.

(** sizes of the window and of the local packet buffer *)
Definition WINDOW_BYTES : Z := REAC_MAX_CHANNELS * PACKETIZER_MAX_FPP * 24 * 3.
Definition FLOW_PKT_BYTES : Z := RTP_HEADER_LEN + REAC_MAX_CHANNELS * PACKETIZER_MAX_FPP * 24 * 3.

(** append channel [c] of the frame to the window *)
Definition append_channel (frame : buf Z) (sps_ total_samples f c : Z) (planar : buf Z) : res (buf Z) :=
  a ← int (c * total_samples);
  b ← int (f * sps_);
  d ← int (a + b);
  s ← int (c * sps_);
  blit planar (d * 3) frame (s * 3) (sps_ * 3).

(** body of the flow loop of [packetizer_push] *)
Definition emit_flow (nch total_samples : Z) emit (i : Z) (st : packetizer * W) : res (packetizer * W) :=
  let '(pk, w) := st in
  fl ← rd (flows pk) i;
  let p := RtpParams (fl_payload_type fl) (fl_seq fl) (pending_ts pk) (fl_ssrc fl) in
  '(n, pkt) ← rtp_l24_build_flow (undef FLOW_PKT_BYTES) FLOW_PKT_BYTES p (pk_planar pk)
                nch (ch_start fl) (n_ch fl) total_samples;
  if n >? 0 then
    w ← emit i (upto pkt n) n (pending_concealed pk) w;
    fls ← wr (flows pk) i (ReacFlow (ch_start fl) (n_ch fl) (fl_payload_type fl) (fl_ssrc fl)
                             (u16 (fl_seq fl + 1)));
    mret (set_flows fls pk, w)
  else mret (pk, w).

Definition packetizer_push pk (frame_planar : buf Z) (rtp_ts concealed : Z) emit w
  : res (packetizer * W) :=
  let nch := n_channels (pk_mode pk) in
  let sps_ := samples_per_pkt (pk_mode pk) in
  total_samples ← int (frames_per_packet pk * sps_);
  let f := frames_buffered pk in
  let pk := if f =? 0 then set_pending rtp_ts 0 pk else pk in
  let pk := set_pending (pending_ts pk)
              (Z.lor (pending_concealed pk) (if concealed =? 0 then 0 else 1)) pk in
  planar ← for_ 0 nch (append_channel frame_planar sps_ total_samples f) (pk_planar pk);
  let pk := set_planar planar pk in
  fb ← int (frames_buffered pk + 1);
  let pk := set_buffered fb pk in
  if frames_buffered pk <? frames_per_packet pk then mret (pk, w) else
  '(pk, w) ← for_ 0 (n_flows pk) (emit_flow nch total_samples emit) (pk, w);
  mret (set_buffered 0 pk, w).
End Packetizer.

(** [dante_pcm_sink]: the pipeline's sink; its world is the packetizer and what
    the packetizer's emit callback reaches *)
Definition dante_pcm_sink `{L : ReacLib} {W} (emit : packetizer_emit_fn W)
  : pipeline_pcm_fn (packetizer * W) :=
  fun planar rtp_ts concealed w => packetizer_push w.1 planar rtp_ts concealed emit w.2.

(** [emit_noop] *)
Definition emit_noop {W} : pipeline_emit_fn W := fun _ _ _ w => Ok w.

(** packets emitted so far: flow index, bytes, flag *)
Abbreviation flow_trace := (list (Z * buf Z * Z)).
Definition trace_flow : packetizer_emit_fn flow_trace :=
  fun i pkt n concealed w => Ok (w ++ [(i, pkt, concealed)]).

(** the audio path of [run_dante]: flows, packetizer and pipeline set up, then
    every received frame; [planar0] is the content of the local packetizer's
    window before, [None] the exit on too many flows *)
Definition run_dante_path `{L : ReacLib} (m : reac_mode) (pt ssrc_base ch_per_flow anchor : Z)
  (planar0 : buf Z) (frames : list (buf Z * Z))
  : res (option (pipeline (packetizer * flow_trace) * packetizer * flow_trace)) :=
  '(n, fls) ← dante_build_flows (undef REAC_MAX_CHANNELS) REAC_MAX_CHANNELS (n_channels m)
                ch_per_flow pt ssrc_base;
  if n <? 0 then mret None else
  let pk := packetizer_init planar0 m 4 fls n in
  let pl := pipeline_set_pcm_sink (Some (dante_pcm_sink trace_flow))
              (pipeline_anchor anchor (pipeline_init m pt ssrc_base)) in
  '(pl, (pk, t)) ← pipeline_run pl frames emit_noop (pk, []);
  mret (Some (pl, pk, t)).

(** * Specification *)

(** one pending frame of the window *)
Record pending : Type := Pending { p_pcm : buf Z; p_ts : Z; p_concealed : Z }.

Definition any_concealed (win : list pending) : Z :=
  if existsb (fun p => negb (p_concealed p =? 0)) win then 1 else 0.

Definition bump (fl : reac_flow) : reac_flow :=
  ReacFlow (ch_start fl) (n_ch fl) (fl_payload_type fl) (fl_ssrc fl) (u16 (fl_seq fl + 1)).

(** a flow as C holds it, inside the channels of the mode *)
Definition flow_valid (nch : Z) (fl : reac_flow) : Prop :=
  0 <= ch_start fl /\ 0 < n_ch fl /\ ch_start fl + n_ch fl <= nch
  /\ 0 <= fl_payload_type fl < 256 /\ 0 <= fl_ssrc fl < 4294967296 /\ 0 <= fl_seq fl < 65536.

Section Spec.
Context {L : ReacLib}.
Implicit Types (pk : packetizer) (win : list pending).

Definition nch_of pk : Z := n_channels (pk_mode pk).
Definition sps_of pk : Z := samples_per_pkt (pk_mode pk).
(** samples per channel of a full window *)
Definition total_of pk : Z := frames_per_packet pk * sps_of pk.

(** frame [f]'s audio is at its place in the window *)
Definition placed pk (planar : buf Z) (f : Z) (pcm : buf Z) : Prop :=
  forall c s k, 0 <= c < nch_of pk -> 0 <= s < sps_of pk -> 0 <= k < 3 ->
    get planar ((c * total_of pk + f * sps_of pk + s) * 3 + k)
    = get pcm ((c * sps_of pk + s) * 3 + k).

Definition frame_ok pk (p : pending) : Prop :=
  bytes_upto (p_pcm p) (nch_of pk * sps_of pk * 3) /\ 0 <= p_ts p < 4294967296.

(** the invariant: [win] are the frames buffered, oldest first *)
Definition static_ok pk : Prop :=
  mode_ok (pk_mode pk) /\ 1 <= frames_per_packet pk <= PACKETIZER_MAX_FPP
  /\ blen (pk_planar pk) = WINDOW_BYTES /\ 0 <= n_flows pk
  /\ (forall i, 0 <= i < n_flows pk -> exists fl, get (flows pk) i = Some fl /\ flow_valid (nch_of pk) fl).

Definition window_ok pk win : Prop :=
  Forall (frame_ok pk) win
  /\ (forall f p, win !! f = Some p -> placed pk (pk_planar pk) (Z.of_nat f) (p_pcm p))
  /\ (forall p, win !! 0%nat = Some p -> pending_ts pk = p_ts p
                                     /\ pending_concealed pk = any_concealed win).

Definition pk_ok pk win : Prop :=
  static_ok pk /\ frames_buffered pk = Z.of_nat (length win)
  /\ frames_buffered pk < frames_per_packet pk /\ window_ok pk win.

(** the packet flow [i] sends for a full window *)
Definition window_packet pk win (i : Z) (e : Z * buf Z * Z) : Prop :=
  exists fl p0, get (flows pk) i = Some fl /\ win !! 0%nat = Some p0
    /\ e.1.1 = i /\ e.2 = any_concealed win
    /\ blen e.1.2 = RTP_HEADER_LEN + n_ch fl * total_of pk * 3
    /\ parse_rtp_header e.1.2
       = Some (RtpParams (fl_payload_type fl mod 128) (fl_seq fl) (p_ts p0) (fl_ssrc fl))
    /\ forall f p s fc, win !! f = Some p -> 0 <= s < sps_of pk -> 0 <= fc < n_ch fl ->
         payload_sample e.1.2 ((Z.of_nat f * sps_of pk + s) * n_ch fl + fc)
         = sample (p_pcm p) ((ch_start fl + fc) * sps_of pk + s).

(** only the flows' sequence numbers differ *)
Definition same_setup pk pk' : Prop :=
  pk_mode pk' = pk_mode pk /\ frames_per_packet pk' = frames_per_packet pk
  /\ n_flows pk' = n_flows pk.
End Spec.

(** * Lemmas *)

Section Lemmas.
Context {L : ReacLib} {D : ReacDoc L}.
Implicit Types (pk : packetizer) (win : list pending).

Lemma bytes_upto_blen (b : buf Z) n : 0 < n -> bytes_upto b n -> n <= blen b.
Proof. intros Hn HB. destruct (HB (n - 1)) as (v & Hv & _); [lia|]. apply get_lt in Hv. lia. Qed.

(** the sizes a packetizer's set-up bounds *)
Lemma static_bounds pk :
  static_ok pk -> 0 < nch_of pk <= 40 /\ 0 < sps_of pk <= 24 /\ 1 <= frames_per_packet pk <= 4
    /\ total_of pk = frames_per_packet pk * sps_of pk /\ 0 < total_of pk <= 96
    /\ nch_of pk * total_of pk <= 3840 /\ @WINDOW_BYTES L = 11520 /\ @FLOW_PKT_BYTES L = 11532.
Proof.
  intros ((H1 & H2 & _) & H3 & _). revert H1. reac_consts. intros H1.
  assert (0 < total_of pk <= 96) as HT by (unfold total_of, sps_of, PACKETIZER_MAX_FPP in *; nia).
  assert (nch_of pk * total_of pk <= 3840) as HN by (unfold nch_of; nia).
  repeat (split; [assumption|]). split; [reflexivity|]. repeat (split; [assumption|]).
  unfold WINDOW_BYTES, FLOW_PKT_BYTES, RTP_HEADER_LEN, PACKETIZER_MAX_FPP. reac_consts. lia.
Qed.

(** byte positions of different frames and channels do not meet *)
Lemma window_index fpp sps_ t c f s k c' f' :
  t = fpp * sps_ -> 0 <= f < fpp -> 0 <= f' < fpp -> 0 <= s < sps_ -> 0 <= k < 3 ->
  (c * t + f * sps_) * 3 <= (c' * t + f' * sps_ + s) * 3 + k < (c * t + f * sps_) * 3 + sps_ * 3 ->
  c' = c /\ f' = f.
Proof.
  intros -> H2 H3 H4 Hk H5.
  assert (exists d, 0 <= d < sps_ /\ (c' * fpp + f') * sps_ + s = (c * fpp + f) * sps_ + d) as (d & Hd & E).
  { exists ((c' * (fpp * sps_) + f' * sps_ + s) - (c * (fpp * sps_) + f * sps_)). split; [lia|ring]. }
  destruct (lex_inj _ _ _ _ _ H4 Hd E) as [E' _]. by apply (lex_inj fpp).
Qed.

(** appending one frame *)
Definition appended pk (f : Z) (frame planar0 : buf Z) (n : Z) (planar : buf Z) : Prop :=
  blen planar = blen planar0
  /\ (forall c s k, 0 <= c < n -> 0 <= s < sps_of pk -> 0 <= k < 3 ->
        get planar ((c * total_of pk + f * sps_of pk + s) * 3 + k)
        = get frame ((c * sps_of pk + s) * 3 + k))
  /\ (forall c f' s k, f' <> f -> 0 <= f' < frames_per_packet pk -> 0 <= s < sps_of pk -> 0 <= k < 3 ->
        get planar ((c * total_of pk + f' * sps_of pk + s) * 3 + k)
        = get planar0 ((c * total_of pk + f' * sps_of pk + s) * 3 + k)).

Lemma append_step pk f frame planar0 c planar planar' :
  0 < sps_of pk -> 0 <= c -> 0 <= f < frames_per_packet pk ->
  appended pk f frame planar0 c planar ->
  patched planar ((c * total_of pk + f * sps_of pk) * 3)
    ((c * total_of pk + f * sps_of pk) * 3 + sps_of pk * 3)
    (fun i => get frame (c * sps_of pk * 3 + (i - (c * total_of pk + f * sps_of pk) * 3))) planar' ->
  appended pk f frame planar0 (c + 1) planar'.
Proof.
  intros Hs Hc Hf (A1 & A2 & A3) (P1 & P2 & P3).
  split; [congruence|]. split.
  - intros c' s k Hc' Hs' Hk. destruct (decide (c' = c)) as [->|Hne].
    + rewrite P2 by lia. f_equal. lia.
    + rewrite P3; [apply A2; lia|].
      intros Hr. by destruct (window_index _ _ _ _ _ _ _ _ _ eq_refl Hf Hf Hs' Hk Hr).
  - intros c' f' s k Hne Hf' Hs' Hk. rewrite P3; [by apply A3|].
    intros Hr. by destruct (window_index _ _ _ _ _ _ _ _ _ eq_refl Hf Hf' Hs' Hk Hr).
Qed.

Lemma ok_append pk frame planar0 f (Q : buf Z -> Prop) :
  static_ok pk -> bytes_upto frame (nch_of pk * sps_of pk * 3) -> blen planar0 = WINDOW_BYTES ->
  0 <= f < frames_per_packet pk ->
  (forall planar, appended pk f frame planar0 (nch_of pk) planar -> Q planar) ->
  ok (for_ 0 (nch_of pk) (append_channel frame (sps_of pk) (total_of pk) f) planar0) Q.
Proof.
  intros HS HB Hl Hf HQ. pose proof (static_bounds _ HS) as (B1 & B2 & B3 & B4 & B5 & B6 & B7 & _).
  assert (nch_of pk * sps_of pk * 3 <= blen frame) as Hfr by (apply bytes_upto_blen; [nia|done]).
  apply ok_for with (P := appended pk f frame planar0); [lia| | |done].
  - split; [done|]. split; [lia|done].
  - intros c planar Hc HA. pose proof (proj1 HA) as Hbl.
    assert (0 <= c * total_of pk /\ c * total_of pk + total_of pk <= 3840) by nia.
    assert (0 <= f * sps_of pk /\ f * sps_of pk + sps_of pk <= total_of pk) by (rewrite B4; nia).
    assert (0 <= c * sps_of pk /\ c * sps_of pk + sps_of pk <= nch_of pk * sps_of pk) by nia.
    assert (nch_of pk * sps_of pk <= 960) by nia.
    unfold append_channel. ok_steps.
    apply ok_blit; try lia. intros planar' HP.
    eapply append_step; try done; lia.
Qed.

(** ** Emitting a full window *)

(** the window as one planar block *)
Definition full pk win : Prop :=
  Z.of_nat (length win) = frames_per_packet pk /\ window_ok pk win.

Lemma full_split pk m :
  static_ok pk -> 0 <= m < total_of pk ->
  exists f s, m = f * sps_of pk + s /\ 0 <= f < frames_per_packet pk /\ 0 <= s < sps_of pk.
Proof.
  intros HS Hm. pose proof (static_bounds _ HS) as (_ & B2 & _ & B4 & _). rewrite B4 in Hm.
  exists (m / sps_of pk), (m mod sps_of pk). split; [pose proof (Z.div_mod m (sps_of pk)); lia|].
  split; [|apply Z.mod_pos_bound; lia].
  split; [apply Z.div_pos|apply Z.div_lt_upper_bound]; lia.
Qed.

Lemma full_lookup pk win f :
  full pk win -> 0 <= f < frames_per_packet pk ->
  exists p, win !! Z.to_nat f = Some p /\ placed pk (pk_planar pk) f (p_pcm p) /\ frame_ok pk p.
Proof.
  intros (Hl & HF & HP & _) Hf. destruct (lookup_lt_is_Some_2 win (Z.to_nat f)) as [p Hp]; [lia|].
  exists p. split; [done|]. pose proof (HP _ _ Hp) as H. rewrite Z2Nat.id in H by lia.
  split; [done|]. rewrite Forall_forall in HF. apply HF. by eapply list_elem_of_lookup_2.
Qed.

Lemma full_bytes pk win :
  static_ok pk -> full pk win -> bytes_upto (pk_planar pk) (nch_of pk * total_of pk * 3).
Proof.
  intros HS HW i Hi. pose proof (static_bounds _ HS) as (B1 & B2 & B3 & B4 & B5 & _).
  assert (exists n k, i = n * 3 + k /\ 0 <= k < 3) as (n & k & -> & Hk)
    by (exists (i / 3), (i mod 3); Z.div_mod_to_equations; lia).
  assert (0 <= n / total_of pk < nch_of pk) as Hc
    by (split; [apply Z.div_pos|apply Z.div_lt_upper_bound]; lia).
  destruct (full_split pk (n mod total_of pk)) as (f & s & E & Hf & Hs);
    [done|apply Z.mod_pos_bound; lia|].
  destruct (full_lookup _ _ _ HW Hf) as (p & _ & HP & HB & _).
  replace n with (n / total_of pk * total_of pk + f * sps_of pk + s)
    by (pose proof (Z.div_mod n (total_of pk)); lia).
  rewrite HP by done. apply HB. pose proof (lex_lt _ _ _ _ Hc Hs). lia.
Qed.

Lemma placed_sample pk planar f pcm c s :
  placed pk planar f pcm -> 0 <= c < nch_of pk -> 0 <= s < sps_of pk ->
  sample planar (c * total_of pk + (f * sps_of pk + s)) = sample pcm (c * sps_of pk + s).
Proof.
  intros HP Hc Hs. unfold sample. rewrite Z.add_assoc.
  pose proof (HP c s 0 Hc Hs ltac:(lia)) as E0. rewrite !Z.add_0_r in E0.
  by rewrite E0, !HP by lia.
Qed.

Lemma placed_bytes_ext pk pk' planar f pcm :
  same_setup pk pk' -> placed pk planar f pcm -> placed pk' planar f pcm.
Proof.
  intros (E1 & E2 & _) HP. unfold placed, nch_of, total_of, sps_of in *. by rewrite E1, E2.
Qed.

(** flows [0 .. n-1] have sent their packet *)
Definition sent pk win (t : flow_trace) (n : Z) (st : packetizer * flow_trace) : Prop :=
  let '(pk', t') := st in
  same_setup pk pk' /\ pk_planar pk' = pk_planar pk /\ pending_ts pk' = pending_ts pk
  /\ pending_concealed pk' = pending_concealed pk
  /\ frames_buffered pk' = frames_buffered pk
  /\ (forall i, get (flows pk') i = if decide (0 <= i < n) then bump <$> get (flows pk) i
                                    else get (flows pk) i)
  /\ exists es, t' = t ++ es /\ Z.of_nat (length es) = n
       /\ forall i e, es !! i = Some e -> window_packet pk win (Z.of_nat i) e.

Lemma flow_packet_spec pk win i fl p0 out :
  static_ok pk -> full pk win -> get (flows pk) i = Some fl -> flow_valid (nch_of pk) fl ->
  win !! 0%nat = Some p0 ->
  packet_of (RtpParams (fl_payload_type fl) (fl_seq fl) (pending_ts pk) (fl_ssrc fl))
    (total_of pk * n_ch fl) (payload_byte (pk_planar pk) (ch_start fl) (n_ch fl) (total_of pk))
    (undef FLOW_PKT_BYTES) out ->
  window_packet pk win i
    (i, upto out (RTP_HEADER_LEN + n_ch fl * total_of pk * 3), any_concealed win).
Proof.
  intros HS HW Hfl (V1 & V2 & V3 & V4) H0 PK.
  pose proof (static_bounds _ HS) as (B1 & B2 & B3 & B4 & B5 & B6 & B7 & B8).
  pose proof HW as (_ & _ & _ & Hp0). destruct (Hp0 _ H0) as [Hts _].
  pose proof PK as (Hh & Hl & _). rewrite B8, blen_undef in Hl by lia.
  assert (0 < n_ch fl * total_of pk <= 3840) as Hn by nia.
  unfold RTP_HEADER_LEN. set (n := 12 + n_ch fl * total_of pk * 3).
  assert (forall j, 0 <= j < n -> get (upto out n) j = get out j) as Hg
    by (intros j Hj; by apply get_upto).
  exists fl, p0. cbn [fst snd]. do 4 (split; [done|]). split; [by rewrite blen_upto by (unfold n; lia)|]. split.
  - rewrite <- Hts. unfold wire_params in Hh; cbn in Hh. rewrite <- Hh.
    unfold parse_rtp_header, be32, be16. cbn [Z.add Pos.add Pos.succ].
    by rewrite !Hg by (unfold n; lia).
  - intros f p s fc Hf Hs Hfc. pose proof (lookup_lt_Some _ _ _ Hf) as Hlt.
    assert (0 <= Z.of_nat f < frames_per_packet pk) as Hf' by (destruct HW; lia).
    assert (0 <= Z.of_nat f * sps_of pk + s < total_of pk) as Hm
      by (rewrite B4; by apply lex_lt).
    destruct HW as (_ & _ & HP & _).
    rewrite <- (placed_sample pk (pk_planar pk) (Z.of_nat f)) by (by apply HP || lia).
    rewrite <- (packet_sample _ _ _ _ _ _ _ _ fc PK Hm Hfc).
    unfold payload_sample, RTP_HEADER_LEN. pose proof (lex_lt _ _ _ _ Hm Hfc).
    by rewrite !Hg by (unfold n; lia).
Qed.

Lemma ok_emit_flow pk win t i st :
  static_ok pk -> full pk win -> 0 <= i < n_flows pk -> sent pk win t i st ->
  ok (emit_flow (nch_of pk) (total_of pk) trace_flow i st) (sent pk win t (i + 1)).
Proof.
  destruct st as [pk' t']. intros HS HW Hi (S1 & S2 & S3 & S4 & S5 & S6 & es & -> & S7 & S8).
  pose proof (static_bounds _ HS) as (B1 & B2 & B3 & B4 & B5 & B6 & B7 & B8).
  pose proof HS as (_ & _ & _ & _ & HF). destruct (HF i Hi) as (fl & Hfl & HV).
  assert (get (flows pk') i = Some fl) as Hfl' by (rewrite S6; by rewrite decide_False by lia).
  pose proof HV as (V1 & V2 & V3 & V4 & V5 & V6).
  pose proof (full_bytes _ _ HS HW) as HB.
  destruct (full_lookup _ _ 0 HW) as (p0 & H0 & _ & _ & Hts0); [lia|]. change (Z.to_nat 0) with 0%nat in H0.
  pose proof HW as (_ & _ & _ & Hp0). destruct (Hp0 _ H0) as [Hts Hcon].
  assert (0 < n_ch fl * total_of pk <= 3840) as Hn by nia.
  unfold emit_flow. ok_step. ok_read Hfl'. rewrite S2, S3, B8.
  ok_step. eapply ok_build_flow;
    [unfold flow_ok; lia
    |eapply bytes_is_Some; [|exact HB]; unfold flow_ok; lia
    |unfold rtp_params_ok; simpl; lia|by rewrite blen_undef|unfold RTP_HEADER_LEN; intros; lia|].
  intros out _ PK. rewrite Z.gtb_ltb, (proj2 (Z.ltb_lt 0 _)) by (unfold RTP_HEADER_LEN; lia).
  rewrite S4, Hcon. unfold trace_flow. cbn [mbind res_bind]. ok_step. ok_step.
  { pose proof (get_lt _ _ _ Hfl'). lia. }
  ok_step. rewrite <- B8 in PK. pose proof (flow_packet_spec _ _ _ _ _ _ HS HW Hfl HV H0 PK) as HE.
  repeat (split; [done|]). split.
  - intros j. cbn [flows set_flows]. rewrite get_upd by (pose proof (get_lt _ _ _ Hfl'); lia).
    destruct (decide (j = i)) as [->|Hne].
    + rewrite decide_True by lia. by rewrite Hfl.
    + rewrite S6. repeat case_decide; done || lia.
  - exists (es ++ [(i, upto out (RTP_HEADER_LEN + n_ch fl * total_of pk * 3), any_concealed win)]).
    rewrite app_assoc. split; [done|]. rewrite length_app. cbn [length]. split; [lia|].
    intros j e Hj. apply lookup_snoc_Some in Hj as [[_ Hj]|[-> <-]]; [by apply S8|by rewrite S7].
Qed.

(** ** One push *)

Lemma any_concealed_snoc win p :
  Z.lor (any_concealed win) (if p_concealed p =? 0 then 0 else 1) = any_concealed (win ++ [p]).
Proof.
  unfold any_concealed. rewrite existsb_app. cbn [existsb].
  destruct (existsb _ win), (p_concealed p =? 0); done.
Qed.

(** the window after one more frame has been appended *)
Lemma window_snoc pk win frame ts c planar n :
  pk_ok pk win -> frame_ok pk (Pending frame ts c) ->
  appended pk (frames_buffered pk) frame (pk_planar pk) (nch_of pk) planar ->
  let pk1 := if frames_buffered pk =? 0 then set_pending ts 0 pk else pk in
  let pk2 := set_pending (pending_ts pk1)
               (Z.lor (pending_concealed pk1) (if c =? 0 then 0 else 1)) pk1 in
  window_ok (set_buffered n (set_planar planar pk2)) (win ++ [Pending frame ts c]).
Proof.
  intros (HS & Hfb & Hlt & HF & HP & Hhd) Hok (A1 & A2 & A3) pk1 pk2.
  set (pk' := set_buffered n (set_planar planar pk2)).
  assert (pk_mode pk' = pk_mode pk /\ frames_per_packet pk' = frames_per_packet pk) as [E1 E2]
    by (unfold pk', pk2, pk1; by case_match).
  assert (forall f pcm, placed pk planar f pcm -> placed pk' planar f pcm) as Hpl
    by (intros f pcm; unfold placed, nch_of, total_of, sps_of; by rewrite E1, E2).
  assert (forall p, frame_ok pk p -> frame_ok pk' p) as Hfo
    by (intros p; unfold frame_ok, nch_of, sps_of; by rewrite E1).
  split; [|split].
  - apply Forall_app. split; [by eapply Forall_impl|]. repeat constructor; by apply Hfo.
  - intros f p Hf. change (pk_planar pk') with planar. apply Hpl. intros c' s k Hc Hs Hk.
    apply lookup_snoc_Some in Hf as [[Hlt' Hf]|[-> <-]].
    + rewrite A3 by lia. by apply (HP _ _ Hf).
    + rewrite <- Hfb. by apply A2.
  - intros p Hp. unfold pk', pk2, pk1. destruct win as [|p0 win].
    + injection Hp as <-. rewrite Hfb. simpl. split; [done|]. unfold any_concealed. simpl.
      by destruct (c =? 0).
    + assert (p0 = p) as -> by (simpl in Hp; congruence).
      destruct (Z.eqb_spec (frames_buffered pk) 0) as [E|_]; [rewrite Hfb in E; simpl in E; lia|].
      cbn [pending_ts pending_concealed set_buffered set_planar set_pending].
      destruct (Hhd p eq_refl) as [H1 H2]. split; [done|]. rewrite H2.
      apply (any_concealed_snoc _ (Pending frame ts c)).
Qed.

Lemma static_setup pk pk' :
  static_ok pk -> same_setup pk pk' -> blen (pk_planar pk') = blen (pk_planar pk) ->
  (forall i, 0 <= i < n_flows pk -> get (flows pk') i = get (flows pk) i
                                    \/ get (flows pk') i = bump <$> get (flows pk) i) ->
  static_ok pk'.
Proof.
  intros (H1 & H2 & H3 & H4 & H5) (E1 & E2 & E3) Hb Hf.
  unfold static_ok, nch_of in *. rewrite E1, E2, E3, Hb. repeat (split; [done|]).
  intros i Hi. destruct (H5 i Hi) as (fl & Hfl & HV). destruct (Hf i Hi) as [->| ->].
  - by exists fl.
  - rewrite Hfl. exists (bump fl). split; [done|]. unfold flow_valid in *; cbn.
    pose proof (u16_range (fl_seq fl + 1)). intuition.
Qed.

Lemma window_packet_setup pk pk' win i e :
  same_setup pk pk' -> flows pk' = flows pk -> window_packet pk' win i e -> window_packet pk win i e.
Proof. intros (E1 & E2 & _) E3 H. unfold window_packet, total_of, sps_of in *. by rewrite E1, E2, E3 in H. Qed.

Definition bumped pk pk' : Prop :=
  forall i, get (flows pk') i = if decide (0 <= i < n_flows pk) then bump <$> get (flows pk) i
                                else get (flows pk) i.

Lemma same_setup_trans pk1 pk2 pk3 : same_setup pk1 pk2 -> same_setup pk2 pk3 -> same_setup pk1 pk3.
Proof. unfold same_setup. intuition congruence. Qed.

(** a full window goes out: one packet per flow, and the window is empty *)
Lemma ok_send_window pk win t (Q : packetizer * flow_trace -> Prop) :
  static_ok pk -> full pk win ->
  (forall pk' es, same_setup pk pk' -> bumped pk pk' -> pk_ok pk' [] -> Z.of_nat (length es) = n_flows pk ->
     (forall i e, es !! i = Some e -> window_packet pk win (Z.of_nat i) e) -> Q (pk', t ++ es)) ->
  ok ('(pk, w) ← for_ 0 (n_flows pk) (emit_flow (nch_of pk) (total_of pk) trace_flow) (pk, t);
      mret (set_buffered 0 pk, w)) Q.
Proof.
  intros HS HF HQ. pose proof (static_bounds _ HS) as (B1 & B2 & B3 & B4 & B5 & B6 & B7 & B8).
  ok_step. apply ok_for with (P := sent pk win t).
  - destruct HS as (_ & _ & _ & ? & _). lia.
  - unfold sent. do 5 (split; [done|]). split.
    + intros i. by rewrite decide_False by lia.
    + exists []. by rewrite app_nil_r.
  - intros i st Hi HS'. by apply ok_emit_flow.
  - intros [pk' t'] (S1 & S2 & S3 & S4 & S5 & S6 & es & -> & S7 & S8). ok_step. apply HQ; [done|done| |done|done].
    split; [|split; [done|split; [|by split]]].
    + eapply static_setup; [exact HS|exact S1|cbn; by rewrite S2|].
      intros i Hi. cbn [flows set_buffered]. rewrite S6. case_decide; auto.
    + cbn. destruct S1 as (_ & -> & _). lia.
Qed.

Lemma ok_push pk win frame ts c t (Q : packetizer * flow_trace -> Prop) :
  pk_ok pk win -> frame_ok pk (Pending frame ts c) ->
  (forall pk', Z.of_nat (length win) + 1 < frames_per_packet pk -> same_setup pk pk' ->
     flows pk' = flows pk -> pk_ok pk' (win ++ [Pending frame ts c]) -> Q (pk', t)) ->
  (forall pk' es, Z.of_nat (length win) + 1 = frames_per_packet pk -> same_setup pk pk' ->
     bumped pk pk' -> pk_ok pk' [] -> Z.of_nat (length es) = n_flows pk ->
     (forall i e, es !! i = Some e ->
        window_packet pk (win ++ [Pending frame ts c]) (Z.of_nat i) e) -> Q (pk', t ++ es)) ->
  ok (packetizer_push pk frame ts c trace_flow t) Q.
Proof.
  intros HK Hok Hpart Hfull. pose proof HK as (HS & Hfb & Hlt & HW).
  pose proof (static_bounds _ HS) as (B1 & B2 & B3 & B4 & B5 & B6 & B7 & B8).
  unfold packetizer_push. ok_step. fold (sps_of pk). rewrite <- B4. ok_step.
  set (pk1 := if frames_buffered pk =? 0 then set_pending ts 0 pk else pk).
  set (pk2 := set_pending (pending_ts pk1) (Z.lor (pending_concealed pk1) (if c =? 0 then 0 else 1)) pk1).
  assert (same_setup pk pk2 /\ flows pk2 = flows pk /\ pk_planar pk2 = pk_planar pk
          /\ frames_buffered pk2 = frames_buffered pk) as ((U1 & U2 & U3) & U4 & U5 & U6)
    by (unfold same_setup, pk2, pk1; by case_match).
  cbv zeta. rewrite U5. fold (nch_of pk). ok_step.
  apply ok_append; [done|apply Hok|by destruct HS as (_ & _ & ? & _)|lia|].
  intros planar HA. pose proof (window_snoc _ _ _ _ _ _ (frames_buffered pk + 1) HK Hok HA) as HW'.
  cbv zeta in HW'. fold pk1 in HW'. fold pk2 in HW'.
  set (pk3 := set_buffered (frames_buffered pk + 1) (set_planar planar pk2)) in HW'.
  cbn [frames_buffered set_planar]. rewrite U6. ok_step. ok_step. fold pk3.
  assert (same_setup pk pk3) as Hsame by done.
  assert (static_ok pk3) as HS3.
  { eapply static_setup; [exact HS|done|unfold pk3; cbn; by destruct HA as [-> _]|].
    intros i _. left. exact (f_equal (fun fl => get fl i) U4). }
  change (frames_buffered pk3) with (frames_buffered pk + 1).
  replace (frames_per_packet pk3) with (frames_per_packet pk) by (symmetry; apply Hsame).
  destruct (Z.ltb_spec (frames_buffered pk + 1) (frames_per_packet pk)) as [Hlt1|Hge1].
  - ok_step. apply Hpart; [lia|done|exact U4|].
    split; [done|]. split; [unfold pk3; cbn; rewrite length_app; cbn [length]; lia|].
    split; [|done]. change (frames_per_packet pk3) with (frames_per_packet pk2). rewrite U2. cbn. lia.
  - assert (full pk3 (win ++ [Pending frame ts c])) as HF.
    { split; [|done]. rewrite length_app; cbn [length].
      replace (frames_per_packet pk3) with (frames_per_packet pk) by (symmetry; apply Hsame). lia. }
    replace (nch_of pk) with (nch_of pk3) by (unfold nch_of; by destruct Hsame as (-> & _)).
    replace (total_of pk) with (total_of pk3) by (unfold total_of, sps_of; by destruct Hsame as (-> & -> & _)).
    assert (flows pk3 = flows pk) as U4' by exact U4.
    apply (ok_send_window pk3 (win ++ [Pending frame ts c])); [done|done|]. intros pk' es S1 S2 S3 S4 S5.
    apply Hfull; [lia|by eapply same_setup_trans| |done|by rewrite S4; apply Hsame|].
    + intros i. rewrite S2, U4'. by replace (n_flows pk3) with (n_flows pk) by (symmetry; apply Hsame).
    + intros i e He. eapply window_packet_setup; [exact Hsame|done|]. by apply S5.
Qed.
End Lemmas.

(** * Splitting the channels into flows *)

Section Flows.
Context {L : ReacLib} {D : ReacDoc L}.

Definition flow_count (nch cpf : Z) : Z := (nch + cpf - 1) / cpf.

(** flow [i] of the split *)
Definition nth_flow (nch cpf pt base i : Z) : reac_flow :=
  ReacFlow (i * cpf) (Z.min cpf (nch - i * cpf)) pt (u32 (base + i)) 0.

Lemma flow_count_spec nch cpf :
  0 < cpf -> 0 < nch ->
  0 < flow_count nch cpf /\ (flow_count nch cpf - 1) * cpf < nch <= flow_count nch cpf * cpf.
Proof. intros Hc Hn. unfold flow_count. Z.div_mod_to_equations. nia. Qed.

Lemma flow_count_le nch cpf : 0 < cpf -> 0 < nch -> 0 < flow_count nch cpf <= nch.
Proof. intros Hc Hn. pose proof (flow_count_spec nch cpf Hc Hn). nia. Qed.

Lemma ok_dante_build_flows fls max nch cpf pt base (Q : Z * buf reac_flow -> Prop) :
  0 < cpf -> 0 < nch -> nch + cpf <= INT_MAX -> max <= blen fls ->
  (max < flow_count nch cpf -> Q (-1, fls)) ->
  (forall fls', flow_count nch cpf <= max -> blen fls' = blen fls ->
     (forall i, get fls' i = if decide (0 <= i < flow_count nch cpf)
                             then Some (nth_flow nch cpf pt base i) else get fls i) ->
     Q (flow_count nch cpf, fls')) ->
  ok (dante_build_flows fls max nch cpf pt base) Q.
Proof.
  intros Hc Hn Hint Hmax Hbad Hgood. unfold INT_MAX in *.
  pose proof (flow_count_spec nch cpf Hc Hn) as (N1 & N2 & N3).
  unfold dante_build_flows. rewrite (proj2 (Z.leb_gt cpf 0)), (proj2 (Z.leb_gt nch 0)) by lia.
  cbn [orb]. ok_steps. unfold flow_count in *.
  assert (Z.quot (nch + cpf - 1) cpf = (nch + cpf - 1) / cpf) as Hq by (apply Z.quot_div_nonneg; lia).
  set (n := (nch + cpf - 1) / cpf) in *.
  assert (n <= nch) as Hnn by nia.
  apply ok_idiv; [lia|rewrite Hq; unfold INT_MIN, INT_MAX; lia|]. rewrite Hq.
  rewrite Z.gtb_ltb. destruct (Z.ltb_spec max n) as [Hlt|Hge]; [by apply Hbad|]. ok_step.
  apply ok_for with (P := fun i fls' => blen fls' = blen fls
    /\ forall j, get fls' j = if decide (0 <= j < i) then Some (nth_flow nch cpf pt base j) else get fls j).
  - lia.
  - split; [done|]. intros j. by rewrite decide_False by lia.
  - intros i fls' Hi [Hb Hg]. unfold build_flow.
    assert (0 <= i * cpf /\ i * cpf < nch) by nia. ok_steps.
    split; [by rewrite blen_upd|]. intros j. rewrite get_upd by lia.
    destruct (decide (j = i)) as [->|Hne].
    + rewrite decide_True by lia. unfold nth_flow. rewrite Z.gtb_ltb, u32_add_r.
      repeat f_equal. destruct (Z.ltb_spec cpf (nch - i * cpf)); lia.
    + rewrite Hg. repeat case_decide; done || lia.
  - intros fls' [Hb Hg]. ok_step. by apply Hgood.
Qed.

Lemma nth_flow_valid nch cpf pt base i :
  0 < cpf -> 0 < nch -> 0 <= pt < 256 -> 0 <= i < flow_count nch cpf ->
  flow_valid nch (nth_flow nch cpf pt base i).
Proof.
  intros Hc Hn Hp Hi. pose proof (flow_count_spec nch cpf Hc Hn).
  pose proof (u32_range (base + i)). unfold flow_valid, nth_flow; cbn. nia.
Qed.
End Flows.

(** * Driving the packetizer with a timeline of frames *)

Section Timeline.
Context {L : ReacLib} {D : ReacDoc L}.

(** packet [x] of the stream a packetizer set up as [pk0] emits, for blocks
    stamped from [anchor] on: packet [x / n_flows] of flow [x mod n_flows] *)
Definition dante_packet (pk0 : packetizer) (anchor x : Z) (e : Z * buf Z * Z) : Prop :=
  let q := x / n_flows pk0 in
  exists fl, get (flows pk0) (x mod n_flows pk0) = Some fl
    /\ e.1.1 = x mod n_flows pk0
    /\ blen e.1.2 = RTP_HEADER_LEN + n_ch fl * total_of pk0 * 3
    /\ parse_rtp_header e.1.2
       = Some (RtpParams (fl_payload_type fl mod 128) (u16 (fl_seq fl + q))
                 (u32 (anchor + q * total_of pk0)) (fl_ssrc fl)).

(** after [j] blocks *)
Definition pushed (pk0 : packetizer) (anchor j : Z) (w : packetizer * flow_trace) : Prop :=
  let '(pk, t) := w in
  let q := j / frames_per_packet pk0 in
  exists win, pk_ok pk win /\ same_setup pk0 pk /\ Z.of_nat (length win) = j mod frames_per_packet pk0
    /\ (forall p, win !! 0%nat = Some p -> p_ts p = u32 (anchor + q * total_of pk0))
    /\ (forall i, 0 <= i < n_flows pk0 -> exists fl, get (flows pk0) i = Some fl
          /\ get (flows pk) i = Some (ReacFlow (ch_start fl) (n_ch fl) (fl_payload_type fl)
                                        (fl_ssrc fl) (u16 (fl_seq fl + q))))
    /\ Z.of_nat (length t) = n_flows pk0 * q
    /\ (forall x e, t !! x = Some e -> dante_packet pk0 anchor (Z.of_nat x) e).

Lemma pushed_start pk0 anchor : pk_ok pk0 [] -> pushed pk0 anchor 0 (pk0, []).
Proof.
  intros HK. pose proof HK as (HS & _ & Hlt & _). pose proof (static_bounds _ HS) as (_ & _ & B3 & _).
  exists []. rewrite Z.div_0_l, Z.mod_0_l, Z.mul_0_r by lia. repeat (split; [done|]).
  split; [|done]. intros i Hi. pose proof HS as (_ & _ & _ & _ & HF).
  destruct (HF i Hi) as (fl & Hfl & HV). exists fl. split; [done|].
  rewrite Hfl, Z.add_0_r, u16_small by apply HV. by destruct fl.
Qed.

(** the first pending frame gives the window its timestamp *)
Lemma first_ts pk0 anchor j win frame c :
  1 <= frames_per_packet pk0 -> total_of pk0 = frames_per_packet pk0 * sps_of pk0 ->
  Z.of_nat (length win) = j mod frames_per_packet pk0 ->
  (forall p, win !! 0%nat = Some p -> p_ts p = u32 (anchor + j / frames_per_packet pk0 * total_of pk0)) ->
  forall p, (win ++ [Pending frame (u32 (anchor + j * sps_of pk0)) c]) !! 0%nat = Some p ->
    p_ts p = u32 (anchor + j / frames_per_packet pk0 * total_of pk0).
Proof.
  intros Hf Ht Hl Hts p Hp. destruct win as [|p0 win]; [|by apply Hts].
  injection Hp as <-. simpl in Hl |- *. rewrite Ht.
  pose proof (Z.div_mod j (frames_per_packet pk0) ltac:(lia)) as E. rewrite <- Hl, Z.add_0_r in E.
  rewrite E at 1. f_equal. ring.
Qed.

Lemma ok_push_timeline pk0 anchor j frame c w :
  pk_ok pk0 [] -> 0 <= j -> pushed pk0 anchor j w ->
  bytes_upto frame (nch_of pk0 * sps_of pk0 * 3) ->
  ok (dante_pcm_sink trace_flow frame (u32 (anchor + j * sps_of pk0)) c w) (pushed pk0 anchor (j + 1)).
Proof.
  destruct w as [pk t]. intros HK0 Hj (win & HK & HE & Hl & Hts & Hfl & Ht & Htr) HB.
  pose proof HE as (E1 & E2 & E3). pose proof HK0 as (HS0 & _).
  pose proof (static_bounds _ HS0) as (B1 & B2 & B3 & B4 & _).
  pose proof (Z.div_mod j (frames_per_packet pk0) ltac:(lia)) as Ej.
  pose proof (Z.mod_pos_bound j (frames_per_packet pk0) ltac:(lia)) as Hm.
  pose proof (first_ts pk0 anchor j win frame c ltac:(lia) B4 Hl Hts) as Hts'.
  set (fpp := frames_per_packet pk0) in *. set (q := j / fpp) in *. set (r := j mod fpp) in *.
  unfold dante_pcm_sink. cbn [fst snd]. apply ok_push with (win := win); [done| | |].
  { unfold frame_ok, nch_of, sps_of in *; cbn. rewrite E1. split; [done|apply u32_range]. }
  - intros pk' Hlt HE' HF HK'. rewrite E2 in Hlt.
    assert ((j + 1) / fpp = q /\ (j + 1) mod fpp = r + 1) as [Eq Er].
    { replace (j + 1) with (q * fpp + (r + 1)) by lia. split; [apply row_div|apply row_mod]; lia. }
    unfold pushed. fold fpp. eexists. rewrite Eq, Er. split; [exact HK'|].
    split; [by eapply same_setup_trans|].
    split; [rewrite length_app; cbn [length]; lia|]. split; [exact Hts'|].
    split; [|done]. intros i Hi. rewrite HF. by apply Hfl.
  - intros pk' es Hfull HE' HF HK' Hes Hw. rewrite E2 in Hfull. rewrite E3 in Hes.
    assert ((j + 1) / fpp = q + 1 /\ (j + 1) mod fpp = 0) as [Eq Er].
    { replace (j + 1) with ((q + 1) * fpp + 0) by lia. split; [apply row_div|apply row_mod]; lia. }
    unfold pushed. fold fpp. exists []. rewrite Eq, Er. split; [done|].
    split; [by eapply same_setup_trans|].
    split; [done|]. split; [done|]. split; [|split].
    + intros i Hi. destruct (Hfl i Hi) as (fl & G1 & G2). exists fl. split; [done|].
      rewrite HF, E3, decide_True, G2 by done. unfold bump; cbn. by rewrite u16_add_l, Z.add_assoc.
    + rewrite length_app. lia.
    + intros x e Hx. apply lookup_app_Some in Hx as [Hx|[Hge Hx]]; [by apply Htr|].
      pose proof (lookup_lt_Some _ _ _ Hx) as Hlt.
      set (i := (x - length t)%nat) in *.
      assert (Z.of_nat x = q * n_flows pk0 + Z.of_nat i) as Ex by lia.
      destruct (Hw _ _ Hx) as (fl' & p0 & G1 & G2 & G3 & _ & G5 & G6 & _).
      destruct (Hfl (Z.of_nat i)) as (fl & K1 & K2); [lia|].
      rewrite K2 in G1. injection G1 as <-. cbn in G5, G6.
      unfold dante_packet. rewrite Ex, row_div, row_mod by lia. exists fl.
      assert (total_of pk = total_of pk0) as Et by (unfold total_of, sps_of; by rewrite E1, E2).
      rewrite Et in G5. rewrite (Hts' _ G2) in G6. by repeat split.
Qed.
End Timeline.

(** * The Dante path, end to end *)

Section Dante.
Context {L : ReacLib} {D : ReacDoc L}.
Implicit Types (pl : pipeline (packetizer * flow_trace)).

(** after a run that accepted [g] frames and concealed [c] blocks *)
Definition dante_inv (pk0 : packetizer) (anchor g c : Z) pl (w : packetizer * flow_trace) : Prop :=
  0 <= g /\ 0 <= c
  /\ (exists h, pipeline_ok pl h) /\ mode pl = pk_mode pk0
  /\ pcm_sink pl = Some (dante_pcm_sink trace_flow)
  /\ clock_at anchor (g + c) pl /\ pushed pk0 anchor (g + c) w
  /\ packets (stats pl) = u64 g /\ concealed_count (stats pl) = u64 c.

Lemma dante_step pk0 anchor g c pl raw len w :
  pk_ok pk0 [] -> dante_inv pk0 anchor g c pl w -> bytes_upto raw len ->
  ok (pipeline_on_frame pl raw len emit_noop w) (fun '(_, pl', w') =>
    dante_inv pk0 anchor (g + Z.b2z (well_formed raw len)) (c + if well_formed raw len then frame_lost pl raw else 0) pl' w'
    /\ clock pl' = if well_formed raw len then frame_clock pl raw else clock pl).
Proof.
  intros HK0 (Hg & Hc & (h & HK) & Hm & Hsink & Hat & Hpush & I1 & I2) HB.
  assert (channels pl = nch_of pk0 /\ sps pl = sps_of pk0) as [Ec Es]
    by (unfold channels, sps, nch_of, sps_of; by rewrite Hm).
  assert (bytes_upto raw len -> well_formed raw len = true -> bytes_upto raw 1492) as HB'
    by (intros HB0 WF; by rewrite (well_formed_len _ _ WF) in HB0).
  apply ok_on_frame with (h := h) (J := fun i => pushed pk0 anchor (g + c + i)); [done|done| | | |].
  - intros ->. cbn [Z.b2z]. rewrite !Z.add_0_r. split; [|done]. do 2 (split; [done|]).
    split; [exists h; by apply malformed_ok|]. repeat (split; [done|]). done.
  - intros _. by rewrite Z.add_0_r.
  - intros i pl' cpcm w' WF Hi (_ & _ & _ & M4 & _) HJ B1 _ _. unfold deliver. rewrite M4, Hsink.
    rewrite (block_ts_at _ _ _ _ _ i Hat HK (HB' HB WF)), Es, Z.add_assoc.
    apply ok_push_timeline; [done|lia|done|by rewrite <- Ec, <- Es].
  - intros pl' pcm w' WF (_ & _ & _ & M4 & _) HJ B1 _ _. unfold deliver. rewrite M4, Hsink.
    pose proof (frame_lost_range pl raw) as Hn.
    rewrite (real_ts_at _ _ _ _ _ Hat HK (HB' HB WF)), Es.
    eapply ok_mono; [apply ok_push_timeline; [done| |exact HJ|by rewrite <- Ec, <- Es]; lia|].
    intros w'' Hw'' pl'' (D1 & D2 & D3 & _ & _ & _ & D7 & D8 & _) HK''. cbv beta.
    rewrite WF. cbn [Z.b2z]. split; [|done].
    pose proof (clock_at_next _ _ _ _ _ _ Hat HK (HB' HB WF) D1 D2) as Hat'.
    unfold dante_inv. replace (g + 1 + (c + frame_lost pl raw)) with (g + c + frame_lost pl raw + 1) by lia.
    split; [lia|]. split; [lia|]. split; [by eexists|]. rewrite D1, D3, D7, D8, I1, I2, !u64_add_l.
    repeat (split; [done|]). done.
Qed.

Lemma dante_frames pk0 anchor : forall frames g c pl w,
  pk_ok pk0 [] -> dante_inv pk0 anchor g c pl w -> Forall (fun f => bytes_upto f.1 f.2) frames ->
  ok (pipeline_run pl frames emit_noop w) (fun '(pl', w') =>
    dante_inv pk0 anchor (g + accepted frames) (c + lost_among (last_of (clock pl)) frames) pl' w').
Proof.
  induction frames as [|[raw len] frames IH]; intros g c pl w HK0 HI HF.
  - cbn. by rewrite !Z.add_0_r.
  - apply Forall_cons_1 in HF as [HB HF]. cbn [pipeline_run]. ok_step.
    eapply ok_mono; [by eapply dante_step|]. intros [[r pl'] w'] (HI' & C').
    eapply ok_mono; [by eapply IH|]. intros [pl'' w''] HI''. rewrite accepted_cons, lost_among_cons, Z.add_assoc.
    rewrite C' in HI''. destruct (well_formed raw len); by rewrite ?Z.add_0_r, ?Z.add_assoc in *.
Qed.

Lemma dante_start m pt base cpf anchor planar0 fls :
  mode_ok m -> 0 < cpf -> 0 <= pt < 256 -> 0 <= base < 4294967296 -> 0 <= anchor < 4294967296 ->
  blen planar0 = WINDOW_BYTES ->
  (forall i, 0 <= i < flow_count (n_channels m) cpf ->
     get fls i = Some (nth_flow (n_channels m) cpf pt base i)) ->
  let pk0 := packetizer_init planar0 m 4 fls (flow_count (n_channels m) cpf) in
  pk_ok pk0 []
  /\ dante_inv pk0 anchor 0 0
       (pipeline_set_pcm_sink (Some (dante_pcm_sink trace_flow))
          (pipeline_anchor anchor (pipeline_init m pt base))) (pk0, []).
Proof.
  intros HM Hc Hpt Hb Ha Hpl Hfl pk0. pose proof HM as (HM1 & HM2 & _).
  pose proof (flow_count_spec (n_channels m) cpf Hc ltac:(lia)) as (N1 & N2).
  assert (pk_ok pk0 []) as HK0.
  { split; [|split; [done|split; [done|by split]]]. split; [done|].
    split; [unfold pk0, packetizer_init, PACKETIZER_MAX_FPP; simpl; lia|]. split; [done|].
    split; [simpl; lia|]. intros i Hi. eexists. split; [by apply Hfl|].
    apply nth_flow_valid; try done; lia. }
  split; [done|]. unfold dante_inv. split; [lia|]. split; [lia|]. split.
  - exists (fun _ => []). split; [done|]. split; [apply init_params_ok; [done|lia]|].
    split; [done|]. split; [done|]. split; [apply init_rep; lia|]. split; [done|].
    unfold rtp_params_ok, stats_ok; cbn. by intuition lia.
  - do 3 (split; [done|]). split; [by apply pushed_start|done].
Qed.

(** what [g] accepted and [c] concealed blocks give: the packets in the order of
    sending, and the counters *)
Definition dante_stream_of m (pt base cpf anchor g c : Z) pl (t : flow_trace) : Prop :=
  let n := flow_count (n_channels m) cpf in
  Z.of_nat (length t) = n * ((g + c) / 4)
  /\ concealed_count (stats pl) = u64 c /\ packets (stats pl) = u64 g
  /\ forall x e, t !! x = Some e ->
       let i := Z.of_nat x mod n in let q := Z.of_nat x / n in
       e.1.1 = i
       /\ blen e.1.2 = 12 + Z.min cpf (n_channels m - i * cpf) * (4 * samples_per_pkt m) * 3
       /\ parse_rtp_header e.1.2
          = Some (RtpParams (pt mod 128) (u16 q) (u32 (anchor + q * (4 * samples_per_pkt m)))
                    (u32 (base + i))).

Lemma dante_stream m (pt base cpf anchor : Z) planar0 fls (frames : list (buf Z * Z)) :
  mode_ok m -> 0 < cpf -> 0 <= pt < 256 -> 0 <= base < 4294967296 -> 0 <= anchor < 4294967296 ->
  blen planar0 = WINDOW_BYTES ->
  (forall i, 0 <= i < flow_count (n_channels m) cpf -> get fls i = Some (nth_flow (n_channels m) cpf pt base i)) ->
  Forall (fun f => bytes_upto f.1 f.2) frames ->
  exists pl pk t,
    pipeline_run (pipeline_set_pcm_sink (Some (dante_pcm_sink trace_flow))
        (pipeline_anchor anchor (pipeline_init m pt base)))
      frames emit_noop (packetizer_init planar0 m 4 fls (flow_count (n_channels m) cpf), []) = Ok (pl, (pk, t))
    /\ dante_stream_of m pt base cpf anchor (accepted frames) (lost_among None frames) pl t.
Proof.
  intros HM Hc Hpt Hb Ha Hpl Hfl HB. pose proof HM as (HM1 & _).
  pose proof (flow_count_spec (n_channels m) cpf Hc ltac:(lia)) as (N1 & _).
  destruct (dante_start m pt base cpf anchor planar0 fls) as [HK0 HI]; try done.
  pose proof (dante_frames _ anchor frames 0 0 _ _ HK0 HI HB) as H.
  apply ok_iff in H as ([pl [pk t]] & Hrun & _ & _ & _ & _ & _ & _ & (win & _ & _ & _ & _ & _ & Hlen & Hst) & I1 & I2).
  exists pl, pk, t. split; [exact Hrun|]. rewrite !Z.add_0_l in *.
  split; [exact Hlen|]. do 2 (split; [done|]). intros x e He.
  destruct (Hst x e He) as (fl & F1 & F2 & F3 & F4). cbn [n_flows packetizer_init flows] in F1, F2, F4.
  rewrite Hfl in F1 by (apply Z.mod_pos_bound; lia). injection F1 as <-. by repeat split.
Qed.

(** * Properties *)

(** C4: the Dante stream has no gap.  Over any sequence of received byte
    strings the whole path (decoder, clock, concealment, packetizer) runs into
    no undefined behaviour.  With at most [REAC_MAX_CHANNELS] flows, packet x of
    the output belongs to flow x mod n, is complete, and has the flow's
    payload type and ssrc (base + flow index), sequence number x / n mod 2^16
    and timestamp anchor + (x / n) * 4 * samples_per_pkt mod 2^32; n packets
    leave for every four blocks: the accepted frames, and one concealed block
    for every packet missing between them. *)
Theorem dante_gapless m (pt base cpf anchor : Z) planar0 (frames : list (buf Z * Z))
  (HM : mode_ok m) (Hcpf : 0 < cpf <= INT_MAX - 40) (Hpt : 0 <= pt < 256) (Hbase : 0 <= base < 4294967296)
  (Hanchor : 0 <= anchor < 4294967296) (Hpl : blen planar0 = WINDOW_BYTES)
  (HB : Forall (fun f => bytes_upto f.1 f.2) frames) :
  let n := (n_channels m + cpf - 1) / cpf in
  let c := lost_among None frames in
  exists pl pk t,
    run_dante_path m pt base cpf anchor planar0 frames = Ok (Some (pl, pk, t))
    /\ 0 < n <= REAC_MAX_CHANNELS
    /\ Z.of_nat (length t) = n * ((accepted frames + c) / 4)
    /\ concealed_count (stats pl) = u64 c /\ packets (stats pl) = u64 (accepted frames)
    /\ forall x e, t !! x = Some e ->
         let i := Z.of_nat x mod n in let q := Z.of_nat x / n in
         e.1.1 = i
         /\ blen e.1.2 = 12 + Z.min cpf (n_channels m - i * cpf) * (4 * samples_per_pkt m) * 3
         /\ parse_rtp_header e.1.2
            = Some (RtpParams (pt mod 128) (u16 q) (u32 (anchor + q * (4 * samples_per_pkt m)))
                      (u32 (base + i))).
Proof.
  intros n c. pose proof HM as (HM1 & HM2 & _).
  assert (@REAC_MAX_CHANNELS L = 40) as E40 by apply doc_max_channels.
  pose proof (flow_count_spec (n_channels m) cpf ltac:(lia) ltac:(lia)) as (N1 & N2 & N3).
  unfold flow_count in N1, N2, N3. fold n in N1, N2, N3. assert (n <= n_channels m) as Hn by nia.
  assert (ok (run_dante_path m pt base cpf anchor planar0 frames) (fun r => exists pl pk t,
    r = Some (pl, pk, t) /\ dante_stream_of m pt base cpf anchor (accepted frames) c pl t)) as H.
  { unfold run_dante_path. ok_step. apply ok_dante_build_flows;
      [lia|lia|lia|by rewrite blen_undef by lia|unfold flow_count; fold n; lia|].
    intros fls _ _ Hfl. unfold flow_count in Hfl |- *. fold n in Hfl |- *.
    rewrite (proj2 (Z.ltb_ge n 0)) by lia.
    destruct (dante_stream m pt base cpf anchor planar0 fls frames) as (pl & pk & t & Hrun & HS); try done.
    { lia. }
    { unfold flow_count. fold n. intros i Hi. by rewrite Hfl, decide_True. }
    unfold flow_count in Hrun. fold n in Hrun. rewrite Hrun. do 2 ok_step. by exists pl, pk, t. }
  apply ok_iff in H as (r & Hr & pl & pk & t & -> & H1 & H2 & H3 & H5). unfold flow_count in *. fold n in H1, H5.
  exists pl, pk, t. split; [exact Hr|]. split; [lia|]. by repeat (split; [done|]).
Qed.

(** The flow split is a partition.  For positive sizes the call either
    refuses (-1, nothing written) because more than [max] flows would be
    needed, or returns ceil(n_channels / ch_per_flow) flows such that every
    channel is in exactly one flow, all flows but the last have the full
    width, identifiers are pairwise distinct, sequence numbers start at 0 and
    no other cell of the array is written. *)
Theorem dante_build_flows_partition fls (max nch cpf pt base : Z)
  (Hc : 0 < cpf) (Hn : 0 < nch) (Hint : nch + cpf <= INT_MAX) (Hmax : max <= blen fls)
  (Hpt : 0 <= pt < 256) :
  let n := (nch + cpf - 1) / cpf in
  let call := dante_build_flows fls max nch cpf pt base in
  (max < n -> call = Ok (-1, fls))
  /\ (n <= max -> exists fls', call = Ok (n, fls')
       /\ (forall c, 0 <= c < nch -> exists i fl, 0 <= i < n /\ get fls' i = Some fl
             /\ ch_start fl <= c < ch_start fl + n_ch fl
             /\ forall i' fl', 0 <= i' < n -> get fls' i' = Some fl' ->
                  ch_start fl' <= c < ch_start fl' + n_ch fl' -> i' = i)
       /\ (forall i, 0 <= i < n -> exists fl, get fls' i = Some fl /\ flow_valid nch fl
             /\ n_ch fl <= cpf /\ (i + 1 < n -> n_ch fl = cpf)
             /\ fl_payload_type fl = pt /\ fl_seq fl = 0)
       /\ (forall i i' fl fl', 0 <= i < n -> 0 <= i' < n -> get fls' i = Some fl ->
             get fls' i' = Some fl' -> fl_ssrc fl = fl_ssrc fl' -> i = i')
       /\ forall i, n <= i -> get fls' i = get fls i).
Proof.
  intros n call. pose proof (flow_count_spec nch cpf Hc Hn) as (N1 & N2 & N3).
  unfold flow_count in *. fold n in N1, N2, N3.
  assert (ok call (fun r => (max < n /\ r = (-1, fls)) \/ (n <= max /\ r.1 = n
    /\ forall i, get r.2 i = if decide (0 <= i < n) then Some (nth_flow nch cpf pt base i) else get fls i))) as H.
  { apply ok_dante_build_flows; try done; unfold flow_count; fold n; auto. }
  apply ok_iff in H as ([r fls'] & Hcall & H). simpl in H. split; intros Hle.
  { destruct H as [[_ H]|[? _]]; [by rewrite Hcall, H|lia]. }
  destruct H as [[? _]|(_ & -> & Hg)]; [lia|]. exists fls'. split; [done|].
  assert (forall i fl, 0 <= i < n -> get fls' i = Some fl -> fl = nth_flow nch cpf pt base i) as Hget
    by (intros i fl Hi; rewrite Hg, decide_True by done; by intros [= <-]).
  split; [|split; [|split]].
  - intros c Hc'. assert (0 <= c / cpf < n) as Hq
      by (split; [apply Z.div_pos; lia|apply Z.div_lt_upper_bound; lia]).
    pose proof (Z.div_mod c cpf ltac:(lia)). pose proof (Z.mod_pos_bound c cpf Hc).
    exists (c / cpf), (nth_flow nch cpf pt base (c / cpf)). split; [done|].
    rewrite Hg, decide_True by done. split; [done|]. split; [cbn; lia|].
    intros i' fl' Hi' Hfl' Hin. rewrite (Hget _ _ Hi' Hfl') in Hin. cbn in Hin. nia.
  - intros i Hi. exists (nth_flow nch cpf pt base i). rewrite Hg, decide_True by done.
    split; [done|]. split; [by apply nth_flow_valid|]. cbn. split; [lia|]. split; [nia|done].
  - intros i i' fl fl' Hi Hi' Hfl Hfl'. rewrite (Hget _ _ Hi Hfl), (Hget _ _ Hi' Hfl'). cbn.
    unfold INT_MAX in *. assert (n <= nch) by nia. intros He. unfold u32 in He.
    clear - He Hi Hi' H Hint Hc. Z.div_mod_to_equations. lia.
  - intros i Hi. by rewrite Hg, decide_False by lia.
Qed.

(** C15: one push.  While the window has room a frame is only buffered, and
    nothing is emitted.  The frame that fills it makes every flow send one
    packet, in flow order, stamped with the first frame's timestamp, flagged
    when any buffered frame was concealed, and holding sample for sample the
    flow's channels of all the buffered frames in time order; each flow's
    sequence number advances by one and the window is empty again. *)
Theorem packetizer_push_correct pk win frame (ts c : Z) t
  (HK : pk_ok pk win) (HB : bytes_upto frame (n_channels (pk_mode pk) * samples_per_pkt (pk_mode pk) * 3))
  (Hts : 0 <= ts < 4294967296) :
  let win' := win ++ [Pending frame ts c] in
  exists pk' es, packetizer_push pk frame ts c trace_flow t = Ok (pk', t ++ es)
    /\ same_setup pk pk'
    /\ (Z.of_nat (length win') < frames_per_packet pk ->
          es = [] /\ pk_ok pk' win' /\ flows pk' = flows pk)
    /\ (frames_per_packet pk <= Z.of_nat (length win') ->
          Z.of_nat (length es) = n_flows pk /\ pk_ok pk' []
          /\ (forall i e, es !! i = Some e -> window_packet pk win' (Z.of_nat i) e)
          /\ (forall i, 0 <= i < n_flows pk -> get (flows pk') i = bump <$> get (flows pk) i)).
Proof.
  intros win'. pose proof HK as (_ & Hfb & Hlt & _).
  assert (Z.of_nat (length win') = Z.of_nat (length win) + 1) as Hl
    by (unfold win'; rewrite length_app; cbn [length]; lia).
  assert (ok (packetizer_push pk frame ts c trace_flow t) (fun '(pk', t') => exists es,
    t' = t ++ es /\ same_setup pk pk'
    /\ (Z.of_nat (length win') < frames_per_packet pk -> es = [] /\ pk_ok pk' win' /\ flows pk' = flows pk)
    /\ (frames_per_packet pk <= Z.of_nat (length win') ->
          Z.of_nat (length es) = n_flows pk /\ pk_ok pk' []
          /\ (forall i e, es !! i = Some e -> window_packet pk win' (Z.of_nat i) e)
          /\ (forall i, 0 <= i < n_flows pk -> get (flows pk') i = bump <$> get (flows pk) i)))) as H.
  { apply ok_push with (win := win); [done|by split| |].
    - intros pk' Hlt' HE HF HK'. exists []. rewrite app_nil_r. repeat (split; [done|]). lia.
    - intros pk' es Hfull HE HF HK' Hes Hw. exists es. repeat (split; [done|]). split; [lia|].
      intros _. repeat (split; [done|]). intros i Hi. by rewrite HF, decide_True. }
  apply ok_iff in H as ([pk' t'] & Hr & es & -> & H1 & H2 & H3). by exists pk', es.
Qed.
End Dante.

(** * Evaluation *)

Lemma dante_gapless_witness :
  exists pl pk t, run_dante_path (L := documented_lib) mode48 96 305419896 8 4294967290
      (undef (WINDOW_BYTES (L := documented_lib))) demo_frames = Ok (Some (pl, pk, t))
    /\ Z.of_nat (length t) = 5 /\ packets (stats pl) = 2.
Proof.
  destruct (dante_gapless (L := documented_lib) (D := documented_lib_doc) mode48 96 305419896 8 4294967290
    (undef (WINDOW_BYTES (L := documented_lib))) demo_frames mode48_ok ltac:(unfold INT_MAX; lia) ltac:(lia) ltac:(lia) ltac:(lia)
    ltac:(by vm_compute) demo_frames_bytes) as (pl & pk & t & H1 & _ & H2 & _ & H3 & _).
  exists pl, pk, t. split; [exact H1|]. split; [refine (eq_trans H2 _); by vm_compute|].
  refine (eq_trans H3 _). by vm_compute.
Defined.

Lemma dante_build_flows_partition_witness :
  exists fls, dante_build_flows (undef 40) 40 40 8 96 305419896 = Ok (5, fls)
    /\ exists i fl, 0 <= i < 5 /\ get fls i = Some fl /\ ch_start fl <= 17 < ch_start fl + n_ch fl.
Proof.
  destruct (proj2 (dante_build_flows_partition (undef 40) 40 40 8 96 305419896 ltac:(lia) ltac:(lia)
    ltac:(unfold INT_MAX; lia) ltac:(by vm_compute) ltac:(lia)) ltac:(by vm_compute))
    as (fls & H1 & H2 & _).
  exists fls. split; [exact H1|]. destruct (H2 17 ltac:(lia)) as (i & fl & Hi & Hfl & Hc & _).
  exists i, fl. split; [exact Hi|]. by split.
Defined.

(** a packetizer of one flow over the two-channel test mode, two frames per packet *)
Definition toy_pk : packetizer :=
  packetizer_init (undef (WINDOW_BYTES (L := documented_lib))) toy_mode 2
    (of_list [ReacFlow 0 2 96 7 65535]) 1.

Lemma toy_pk_ok : pk_ok (L := documented_lib) toy_pk [].
Proof.
  split; [|split; [done|split; [done|by split]]]. split; [by vm_compute|].
  split; [by vm_compute|]. split; [by vm_compute|]. split; [by vm_compute|].
  intros i Hi. cbn in Hi. assert (i = 0) as -> by lia. eexists. split; [reflexivity|].
  unfold flow_valid; cbn. lia.
Qed.

Lemma packetizer_push_correct_witness :
  exists pk', packetizer_push (L := documented_lib) toy_pk toy_pcm 77 1 trace_flow [] = Ok (pk', [])
    /\ pk_ok (L := documented_lib) pk' [Pending toy_pcm 77 1].
Proof.
  destruct (packetizer_push_correct (L := documented_lib) (D := documented_lib_doc) toy_pk [] toy_pcm 77 1 []
    toy_pk_ok toy_bytes ltac:(lia)) as (pk' & es & H1 & _ & H2 & _).
  destruct H2 as (-> & HK & _); [by vm_compute|]. exists pk'. split; [exact H1|exact HK].
Defined.
