(* ===== verification/Factor.v ===== *)
(** The pipeline and the packetizer only write to the world their callbacks act
    on: what they emit does not depend on it.  So a run with any callback is the
    run that records the calls, followed by the callback over the record.  This
    carries the theorems on recorded streams over to the real callbacks: the UDP
    sender, the packet counter, the flow senders. *)

From S2P Require Import Prelude LibReac Pcm Decode MediaClock Plc Rtp Pipeline Packetizer.

(** the callback over a list of calls *)
Fixpoint emits {C W} (emit : C -> W -> res W) (cs : list C) (w : W) : res W :=
  match cs with [] => mret w | c :: cs => w ← emit c w; emits emit cs w end.

Lemma emits_app {C W} (emit : C -> W -> res W) cs cs' w :
  emits emit (cs ++ cs') w = (w ← emits emit cs w; emits emit cs' w).
Proof.
  revert w. induction cs as [|c cs IH]; intros w; [done|]. cbn [emits app].
  destruct (emit c w); [|done]. apply IH.
Qed.

Lemma res_bind_assoc {A B C} (m : res A) (f : A -> res B) (g : B -> res C) :
  ((m ≫= f) ≫= g) = (m ≫= fun a => f a ≫= g).
Proof. by destruct m. Qed.

(** * Factoring through the record *)

Section Factor.
(** [V1] and [V2] are the worlds of the recording and of the real run; both hold
    a state [S] that evolves on its own, and the record or the callback's world *)
Context {C W S V1 V2 : Type} (emit : C -> W -> res W).
Context (in1 : S -> list C -> V1) (in2 : S -> W -> V2).

Definition factors {A B} (R : A -> B -> Prop) (f1 : V1 -> res (A * V1)) (f2 : V2 -> res (B * V2)) : Prop :=
  forall s cs a v, f1 (in1 s cs) = Ok (a, v) ->
  exists s' new b, v = in1 s' (cs ++ new) /\ R a b
    /\ forall w, f2 (in2 s w) = (w' ← emits emit new w; mret (b, in2 s' w')).

(** for computations that return the world alone *)
Definition factors_w (f1 : V1 -> res V1) (f2 : V2 -> res V2) : Prop :=
  forall s cs v, f1 (in1 s cs) = Ok v ->
  exists s' new, v = in1 s' (cs ++ new)
    /\ forall w, f2 (in2 s w) = (w' ← emits emit new w; mret (in2 s' w')).

Lemma factors_ret {A B} (R : A -> B -> Prop) a b : R a b -> factors R (fun v => Ok (a, v)) (fun v => Ok (b, v)).
Proof. intros HR s cs a' v [= <- <-]. exists s, [], b. by rewrite app_nil_r. Qed.

Lemma factors_bind {A B A' B'} (R : A -> B -> Prop) (R' : A' -> B' -> Prop) f1 f2 g1 g2 :
  factors R f1 f2 -> (forall a b, R a b -> factors R' (g1 a) (g2 b)) ->
  factors R' (fun v => '(a, v) ← f1 v; g1 a v) (fun v => '(b, v) ← f2 v; g2 b v).
Proof.
  intros Hf Hg s cs a' v H. destruct (f1 (in1 s cs)) as [[a v1]|] eqn:E1; [|done]. cbn in H.
  destruct (Hf _ _ _ _ E1) as (s1 & new1 & b & -> & HR & H2).
  destruct (Hg a b HR _ _ _ _ H) as (s2 & new2 & b' & -> & HR' & H2').
  exists s2, (new1 ++ new2), b'. rewrite app_assoc. split; [done|]. split; [done|]. intros w.
  rewrite H2, emits_app, !res_bind_assoc. destruct (emits emit new1 w) as [w1|]; [|done]. apply H2'.
Qed.

Lemma factors_bind_w {A' B'} (R' : A' -> B' -> Prop) f1 f2 g1 g2 :
  factors_w f1 f2 -> factors R' g1 g2 ->
  factors R' (fun v => v ← f1 v; g1 v) (fun v => v ← f2 v; g2 v).
Proof.
  intros Hf Hg s cs a' v H. destruct (f1 (in1 s cs)) as [v1|] eqn:E1; [|done]. cbn in H.
  destruct (Hf _ _ _ E1) as (s1 & new1 & -> & H2).
  destruct (Hg _ _ _ _ H) as (s2 & new2 & b' & -> & HR' & H2').
  exists s2, (new1 ++ new2), b'. rewrite app_assoc. split; [done|]. split; [done|]. intros w.
  rewrite H2, emits_app, !res_bind_assoc. destruct (emits emit new1 w) as [w1|]; [|done]. apply H2'.
Qed.

(** a computation that does not touch the world *)
Lemma factors_pure {T A B} (R : A -> B -> Prop) (m : res T) f1 f2 :
  (forall x, m = Ok x -> factors R (f1 x) (f2 x)) ->
  factors R (fun v => x ← m; f1 x v) (fun v => x ← m; f2 x v).
Proof. intros H. destruct m as [x|e]; [by apply (H x)|]. by intros s cs a v Hv. Qed.

Lemma factors_for {A B} (R : A -> B -> Prop) (body1 : Z -> A * V1 -> res (A * V1)) body2 lo hi :
  (forall i a b, R a b -> factors R (fun v => body1 i (a, v)) (fun v => body2 i (b, v))) ->
  forall a b, R a b ->
  factors R (fun v => for_ lo hi body1 (a, v)) (fun v => for_ lo hi body2 (b, v)).
Proof.
  intros Hb. unfold for_. generalize (Z.to_nat (hi - lo)) as n. intros n. revert lo.
  induction n as [|n IH]; intros lo a b HR; cbn [for_loop]; [by apply factors_ret|].
  intros s cs a' v H. destruct (body1 lo (a, in1 s cs)) as [[a1 v1]|] eqn:E1; [|done]. cbn [mbind res_bind] in H.
  destruct (Hb lo a b HR _ _ _ _ E1) as (s1 & new1 & b1 & -> & HR1 & H2).
  destruct (IH (lo + 1) a1 b1 HR1 _ _ _ _ H) as (s2 & new2 & b2 & -> & HR2 & H2').
  exists s2, (new1 ++ new2), b2. rewrite app_assoc. split; [done|]. split; [done|]. intros w.
  rewrite H2, emits_app, !res_bind_assoc. destruct (emits emit new1 w) as [w1|]; [|done]. apply H2'.
Qed.

(** * The pipeline *)

Section Pipeline.
Context {L : ReacLib}.
Implicit Types (pl : pipeline V1) (pm : pipeline V2).

(** the same pipeline, but for the sinks, which factor *)
Definition same_pl pl pm : Prop :=
  mode pm = mode pl /\ clock pm = clock pl /\ rtp pm = rtp pl /\ plc_state pm = plc_state pl
  /\ stats pm = stats pl
  /\ match pcm_sink pl, pcm_sink pm with
     | None, None => True
     | Some f1, Some f2 => forall planar ts c, factors_w (f1 planar ts c) (f2 planar ts c)
     | _, _ => False
     end.

Lemma same_set_clock c pl pm : same_pl pl pm -> same_pl (set_clock c pl) (set_clock c pm).
Proof. by intros (E1 & E2 & E3 & E4 & E5 & E6). Qed.
Lemma same_set_rtp r pl pm : same_pl pl pm -> same_pl (set_rtp r pl) (set_rtp r pm).
Proof. by intros (E1 & E2 & E3 & E4 & E5 & E6). Qed.
Lemma same_set_plc r pl pm : same_pl pl pm -> same_pl (set_plc r pl) (set_plc r pm).
Proof. by intros (E1 & E2 & E3 & E4 & E5 & E6). Qed.
Lemma same_set_stats f pl pm : same_pl pl pm -> same_pl (set_stats f pl) (set_stats f pm).
Proof. intros (E1 & E2 & E3 & E4 & E5 & E6). unfold same_pl; cbn. by rewrite E5. Qed.

(** callbacks that factor *)
Context (e1 : pipeline_emit_fn V1) (e2 : pipeline_emit_fn V2).
Context (Hemit : forall pkt n c, factors_w (e1 pkt n c) (e2 pkt n c)).

Lemma factors_w_if (b : bool) f1 f2 : factors_w f1 f2 ->
  factors_w (fun v => if b then f1 v else mret v) (fun v => if b then f2 v else mret v).
Proof.
  intros H. destruct b; [done|]. intros s cs v [= <-]. exists s, []. by rewrite app_nil_r.
Qed.

Lemma emit_pcm_factors pl pm planar ts c : same_pl pl pm ->
  factors same_pl (emit_pcm pl planar ts c e1) (emit_pcm pm planar ts c e2).
Proof.
  intros HS. pose proof HS as (E1 & E2 & E3 & E4 & E5 & E6). unfold emit_pcm.
  apply (factors_bind same_pl); [|intros; by apply factors_ret, same_set_stats].
  destruct (pcm_sink pl) as [f1|], (pcm_sink pm) as [f2|]; try done.
  - apply (factors_bind_w same_pl _ _ (fun v => Ok (pl, v)) (fun v => Ok (pm, v))); [apply E6|by apply factors_ret].
  - cbn [rtp set_rtp mode]. rewrite E1, E3.
    apply (factors_pure same_pl). intros [n pkt] _.
    apply (factors_bind_w same_pl _ _ (fun v => Ok (_, v)) (fun v => Ok (_, v))); [by apply factors_w_if|].
    apply factors_ret. rewrite <- E3. by repeat first [apply same_set_rtp | apply same_set_stats].
Qed.

Lemma conceal_factors step sps i pl pm : same_pl pl pm ->
  factors same_pl (fun v => conceal_step step sps e1 i (pl, v)) (fun v => conceal_step step sps e2 i (pm, v)).
Proof.
  intros HS. pose proof HS as (_ & _ & _ & E4 & _). unfold conceal_step.
  apply (factors_pure same_pl). intros d _. rewrite E4. apply (factors_pure same_pl). intros [tier cpcm] _.
  by apply emit_pcm_factors, same_set_stats.
Qed.

Definition same_result (a : Z * pipeline V1) (b : Z * pipeline V2) : Prop := a.1 = b.1 /\ same_pl a.2 b.2.

Lemma on_frame_factors pl pm raw len : same_pl pl pm ->
  factors same_result (pipeline_on_frame pl raw len e1) (pipeline_on_frame pm raw len e2).
Proof.
  intros HS. pose proof HS as (E1 & E2 & E3 & E4 & E5 & _). unfold pipeline_on_frame. rewrite E1, E2.
  apply (factors_pure same_result). intros [ns pcm] _. destruct (ns <? 0).
  { apply factors_ret. split; [done|]. by apply same_set_stats. }
  apply (factors_pure same_result). intros f _.
  destruct (media_clock_on_packet (clock pl) (counter f)) as [mc step]. cbn [mode set_clock set_stats]. rewrite E1.
  apply (factors_bind same_pl).
  { apply factors_for; [intros i a b; apply conceal_factors|]. by apply same_set_stats, same_set_clock. }
  intros pl1 pm1 HS1. apply (factors_bind same_pl); [by apply emit_pcm_factors|].
  intros pl2 pm2 HS2. pose proof HS2 as (_ & _ & _ & F4 & _). rewrite F4.
  apply (factors_pure same_result). intros pc _. apply factors_ret. split; [done|]. by apply same_set_plc.
Qed.

Lemma run_factors frames : forall pl pm, same_pl pl pm ->
  factors same_pl (pipeline_run pl frames e1) (pipeline_run pm frames e2).
Proof.
  induction frames as [|[raw len] frames IH]; intros pl pm HS; cbn [pipeline_run]; [by apply factors_ret|].
  apply (factors_bind same_result same_pl _ _ (fun a v => let '(_, pl) := a in pipeline_run pl frames e1 v)
    (fun b v => let '(_, pm) := b in pipeline_run pm frames e2 v)); [by apply on_frame_factors|].
  intros [r pl1] [r' pm1] [_ HS1]. by apply IH.
Qed.
End Pipeline.
End Factor.

(** * The packetizer *)

Section Push.
Context {L : ReacLib} {C W V1 V2 S : Type} (emit : C -> W -> res W) (in1 : S -> list C -> V1) (in2 : S -> W -> V2).
Context (e1 : packetizer_emit_fn V1) (e2 : packetizer_emit_fn V2).
Context (Hemit : forall i pkt n c, factors_w emit in1 in2 (e1 i pkt n c) (e2 i pkt n c)).

Lemma emit_flow_factors nch total i pk :
  factors emit in1 in2 eq (fun v => emit_flow nch total e1 i (pk, v)) (fun v => emit_flow nch total e2 i (pk, v)).
Proof.
  unfold emit_flow. apply factors_pure. intros fl _. apply factors_pure. intros [n pkt] _.
  destruct (n >? 0); [|by apply factors_ret].
  apply factors_bind_w; [done|]. apply factors_pure. intros fls _. by apply factors_ret.
Qed.

Lemma push_factors pk planar ts c :
  factors emit in1 in2 eq (packetizer_push pk planar ts c e1) (packetizer_push pk planar ts c e2).
Proof.
  unfold packetizer_push. apply factors_pure. intros total _. apply factors_pure. intros pl _.
  apply factors_pure. intros fb _. case_match; [by apply factors_ret|].
  apply (factors_bind _ _ _ eq eq); [|intros pk1 ? <-; by apply factors_ret].
  apply factors_for; [|done]. intros i pk1 ? <-. apply emit_flow_factors.
Qed.
End Push.

(** * The two recordings *)

(** a callback over the recorded packets of the default path *)
Definition replayed {W} (emit : buf Z * Z -> W -> res W) : pipeline_emit_fn W := fun pkt n c w => emit (pkt, c) w.

Lemma trace_factors {W} (emit : buf Z * Z -> W -> res W) pkt n c :
  factors_w emit (fun (_ : unit) t => t) (fun _ w => w) (trace_emit pkt n c) (replayed emit pkt n c).
Proof.
  intros s cs v [= <-]. exists s, [(pkt, c)]. split; [done|]. intros w. cbn. unfold replayed.
  by destruct (emit (pkt, c) w).
Qed.

(** running a fresh pipeline with any callback *)
Lemma run_replayed `{L : ReacLib} {W} (emit : buf Z * Z -> W -> res W) pl (pm : pipeline W) frames pl' t w :
  same_pl emit (fun (_ : unit) t => t) (fun _ w => w) pl pm ->
  pipeline_run pl frames trace_emit [] = Ok (pl', t) ->
  exists pm', same_pl emit (fun (_ : unit) t => t) (fun _ w => w) pl' pm'
    /\ pipeline_run pm frames (replayed emit) w = (w' ← emits emit t w; mret (pm', w')).
Proof.
  intros HS Hrun.
  destruct (run_factors emit (fun (_ : unit) t => t) (fun _ w => w) trace_emit (replayed emit)
    (fun pkt n c => trace_factors emit pkt n c) frames pl pm HS tt [] pl' t Hrun) as (_ & new & pm' & -> & HR & H).
  exists pm'. split; [done|]. apply H.
Qed.

(** the flows' packets: flow index, bytes, flag *)
Definition flow_replayed {W} (emit : Z * buf Z * Z -> W -> res W) : packetizer_emit_fn W :=
  fun i pkt n c w => emit (i, pkt, c) w.

Lemma flow_factors {W} (emit : Z * buf Z * Z -> W -> res W) i pkt n c :
  factors_w emit (fun (_ : unit) t => t) (fun _ w => w) (trace_flow i pkt n c) (flow_replayed emit i pkt n c).
Proof.
  intros s cs v [= <-]. exists s, [(i, pkt, c)]. split; [done|]. intros w. cbn. unfold flow_replayed.
  by destruct (emit (i, pkt, c) w).
Qed.

Lemma sink_factors `{L : ReacLib} {W} (emit : Z * buf Z * Z -> W -> res W) planar ts c :
  factors_w emit pair pair (dante_pcm_sink trace_flow planar ts c) (dante_pcm_sink (flow_replayed emit) planar ts c).
Proof.
  intros pk cs v H. unfold dante_pcm_sink in *. cbn [fst snd] in *. destruct v as [pk' cs'].
  destruct (push_factors emit (fun (_ : unit) t => t) (fun _ w => w) trace_flow (flow_replayed emit)
    (fun i pkt n c => flow_factors emit i pkt n c) pk planar ts c tt cs pk' cs' H) as (_ & new & ? & -> & <- & H2).
  exists pk', new. split; [done|]. apply H2.
Qed.

Lemma noop_factors {C W S} (emit : C -> W -> res W) pkt n c :
  factors_w emit (@pair S (list C)) (@pair S W) (emit_noop pkt n c) (emit_noop pkt n c).
Proof. intros s cs v [= <-]. exists s, []. by rewrite app_nil_r. Qed.

(** running the Dante path with any callback *)
Lemma dante_replayed `{L : ReacLib} {W} (emit : Z * buf Z * Z -> W -> res W) pl pm frames pk pl' pk' t w :
  same_pl emit (@pair packetizer flow_trace) (@pair packetizer W) pl pm ->
  pipeline_run pl frames emit_noop (pk, []) = Ok (pl', (pk', t)) ->
  exists pm', same_pl emit (@pair packetizer flow_trace) (@pair packetizer W) pl' pm'
    /\ pipeline_run pm frames emit_noop (pk, w) = (w' ← emits emit t w; mret (pm', (pk', w'))).
Proof.
  intros HS Hrun.
  destruct (run_factors emit (@pair packetizer flow_trace) (@pair packetizer W) emit_noop emit_noop (fun pkt n c => noop_factors emit pkt n c)
    frames pl pm HS pk [] pl' (pk', t) Hrun) as (s' & new & pm' & [= <- ->] & HR & H).
  exists pm'. split; [done|]. apply H.
Qed.
