(* ===== verification/Ring.v ===== *)
(** reac_ring.c: the planar single-producer single-consumer ring between the RX
    feeder and the PipeWire callback.  This file takes its operations one at a
    time, each run to its end; RingSpsc.v interleaves them. *)

From S2P Require Import Prelude.

(** [struct reac_ring] over samples of type [F] *)
Record ring {F : Type} : Type := Ring {
  r_buf : buf F;       (* channel c at c * capacity *)
  r_capacity : Z;      (* uint32_t, per-channel slots *)
  r_mask : Z;          (* uint32_t *)
  r_channels : Z;      (* uint32_t *)
  r_head : Z;          (* _Atomic uint32_t *)
  r_tail : Z;          (* _Atomic uint32_t *)
  r_underruns : Z;     (* _Atomic uint64_t *)
  r_overruns : Z;      (* _Atomic uint64_t *)
}.
Arguments ring F : clear implicits.

(** smallest power of two not below [v], at least 2 *)
Definition next_pow2 (v : Z) : Z :=
  if v <? 2 then 2 else
  let v := u32 (v - 1) in
  let v := Z.lor v (Z.shiftr v 1) in
  let v := Z.lor v (Z.shiftr v 2) in
  let v := Z.lor v (Z.shiftr v 4) in
  let v := Z.lor v (Z.shiftr v 8) in
  let v := Z.lor v (Z.shiftr v 16) in
  u32 (v + 1).

(** memory of the consumer: output planes, which the [dst] pointers of
    [reac_ring_read_planar] point into (several may point at one plane) *)
Abbreviation planes F := (list (buf F)).

Section Ring.
Context {F : Type} (fzero : F).
Implicit Types (r : ring F).

Definition set_head (b : buf F) (h : Z) r : ring F :=
  Ring _ b (r_capacity r) (r_mask r) (r_channels r) h (r_tail r) (r_underruns r) (r_overruns r).
Definition set_tail (t : Z) r : ring F :=
  Ring _ (r_buf r) (r_capacity r) (r_mask r) (r_channels r) (r_head r) t (r_underruns r) (r_overruns r).
Definition add_overruns (n : Z) r : ring F :=
  Ring _ (r_buf r) (r_capacity r) (r_mask r) (r_channels r) (r_head r) (r_tail r)
    (r_underruns r) (u64 (r_overruns r + n)).
Definition add_underruns (n : Z) r : ring F :=
  Ring _ (r_buf r) (r_capacity r) (r_mask r) (r_channels r) (r_head r) (r_tail r)
    (u64 (r_underruns r + n)) (r_overruns r).

(** [calloc_ok] is whether the allocator found the memory; [None] is -1 *)
Definition reac_ring_init (calloc_ok : bool) (channels_ capacity_frames : Z) : option (ring F) :=
  let cap := next_pow2 capacity_frames in
  if negb calloc_ok then None
  else Some (Ring _ (filled_with (cap * channels_) fzero) cap (u32 (cap - 1)) channels_ 0 0 0 0).

Definition reac_ring_readable r : Z := Z.land (u32 (r_head r - r_tail r)) (r_mask r).

Definition reac_ring_writable r : Z := u32 (r_mask r - reac_ring_readable r).

(** the two copy loops of [reac_ring_write]: the state is the buffer and [pos] *)
Definition write_sample (planar : buf F) (base src mask_ s : Z) (st : buf F * Z) : res (buf F * Z) :=
  let '(b, pos) := st in
  v ← rd planar (src + s);
  b ← wr b (base + pos) v;
  mret (b, Z.land (u32 (pos + 1)) mask_).

Definition write_channel (planar : buf F) (cap mask_ stride h w c : Z) (b : buf F) : res (buf F) :=
  '(b, _) ← for_ 0 w (write_sample planar (c * cap) (c * stride) mask_) (b, h);
  mret b.

Definition reac_ring_write r (planar : buf F) (n : Z) : res (Z * ring F) :=
  let n := if n >? r_mask r then r_mask r else n in
  let stride := n in
  let free_slots := reac_ring_writable r in
  let over := n >? free_slots in
  let r := if over then add_overruns (u32 (n - free_slots)) r else r in
  let w := if over then free_slots else n in
  if over && (w =? 0) then mret (0, r) else
  let h := r_head r in
  b ← for_ 0 (r_channels r) (write_channel planar (r_capacity r) (r_mask r) stride h w) (r_buf r);
  mret (w, set_head b (Z.land (u32 (h + w)) (r_mask r)) r).

Definition plane_wr (m : planes F) (p i : Z) (v : F) : res (planes F) :=
  if p <? 0 then Err NullPointer else
  match m !! Z.to_nat p with
  | None => Err NullPointer
  | Some b => b ← wr b i v; mret (<[Z.to_nat p := b]> m)
  end.

Definition read_sample (b : buf F) (base mask_ p s : Z) (st : planes F * Z) : res (planes F * Z) :=
  let '(m, pos) := st in
  v ← rd b (base + pos);
  m ← plane_wr m p s v;
  mret (m, Z.land (u32 (pos + 1)) mask_).

Definition read_channel (b : buf F) (cap mask_ t real n : Z) (dst : buf Z) (c : Z) (m : planes F)
  : res (planes F) :=
  p ← rd dst c;
  '(m, _) ← for_ 0 real (read_sample b (c * cap) mask_ p) (m, t);
  for_ real n (fun s m => plane_wr m p s fzero) m.

Definition reac_ring_read_planar r (dst : buf Z) (channels_ n : Z) (m : planes F)
  : res (Z * ring F * planes F) :=
  let avail := reac_ring_readable r in
  let real := if avail <? n then avail else n in
  let t := r_tail r in
  let nch := if channels_ <? r_channels r then channels_ else r_channels r in
  m ← for_ 0 nch (read_channel (r_buf r) (r_capacity r) (r_mask r) t real n dst) m;
  let r := set_tail (Z.land (u32 (t + real)) (r_mask r)) r in
  let r := if real <? n then add_underruns (u32 (n - real)) r else r in
  mret (real, r, m).

Definition reac_ring_trim r (keep : Z) : Z * ring F :=
  let avail := reac_ring_readable r in
  if avail <=? keep then (0, r) else
  let drop := u32 (avail - keep) in
  (drop, set_tail (Z.land (u32 (r_tail r + drop)) (r_mask r)) r).

(** * Specification: a bounded queue of sample columns *)

(** geometry: a power-of-two capacity and cursors inside it *)
Definition ring_ok r : Prop :=
  (exists k, 1 <= k <= 31 /\ r_capacity r = 2 ^ k) /\ r_mask r = r_capacity r - 1
  /\ 0 <= r_channels r /\ 0 <= r_head r < r_capacity r /\ 0 <= r_tail r < r_capacity r
  /\ blen (r_buf r) = r_capacity r * r_channels r.

Definition fill r : Z := (r_head r - r_tail r) mod r_capacity r.

(** slot [i] of the readable region of channel [c] *)
Definition slot r (c i : Z) : Z := c * r_capacity r + (r_tail r + i) mod r_capacity r.

(** channel [c] holds [q c], oldest sample first *)
Definition holds r (q : Z -> list F) : Prop :=
  forall c, 0 <= c < r_channels r ->
    Z.of_nat (length (q c)) = fill r
    /\ forall i v, q c !! i = Some v -> get (r_buf r) (slot r c (Z.of_nat i)) = Some v.

(** row [c] of a planar block: its first [w] samples at stride [stride] *)
Definition row (planar : buf F) (stride w c : Z) : list F :=
  (fun s => default fzero (get planar (c * stride + s))) <$> seqZ 0 w.

(** plane [p] holds [l] followed by silence up to [n] *)
Definition plane_holds (m0 m : planes F) (p n : Z) (l : list F) : Prop :=
  exists b0 b, m0 !! Z.to_nat p = Some b0 /\ m !! Z.to_nat p = Some b /\ blen b = blen b0
    /\ (forall s, 0 <= s < n -> get b s = Some (default fzero (l !! Z.to_nat s)))
    /\ (forall s, n <= s -> get b s = get b0 s).
End Ring.

(** * Lemmas *)

Section Lemmas.
Context {F : Type} (fzero : F).
Implicit Types (r : ring F).

Lemma land_mask k x : 0 <= k -> Z.land x (2 ^ k - 1) = x mod 2 ^ k.
Proof. intros Hk. rewrite <- Z.land_ones by done. by rewrite Z.ones_equiv. Qed.

Lemma u32_mod_pow2 k x : 0 <= k <= 31 -> u32 x mod 2 ^ k = x mod 2 ^ k.
Proof.
  intros Hk. unfold u32. change 4294967296 with (2 ^ 32).
  replace (2 ^ 32) with (2 ^ k * 2 ^ (32 - k)) by (rewrite <- Z.pow_add_r by lia; f_equal; lia).
  apply Z.mod_mod_divide. apply Z.divide_factor_l.
Qed.

Lemma ring_cap r : ring_ok r -> 2 <= r_capacity r <= 2147483648.
Proof.
  intros ((k & Hk & ->) & _). split.
  - change 2 with (2 ^ 1) at 1. apply Z.pow_le_mono_r; lia.
  - change 2147483648 with (2 ^ 31). apply Z.pow_le_mono_r; lia.
Qed.

(** masking a 32-bit index is reduction modulo the capacity *)
Lemma ring_mask r x : ring_ok r -> Z.land (u32 x) (r_mask r) = x mod r_capacity r.
Proof.
  intros ((k & Hk & E) & -> & _). rewrite E, land_mask by lia. apply u32_mod_pow2. lia.
Qed.

Lemma readable_fill r : ring_ok r -> reac_ring_readable r = fill r.
Proof. intros H. unfold reac_ring_readable. by apply ring_mask. Qed.

Lemma fill_range r : ring_ok r -> 0 <= fill r < r_capacity r.
Proof. intros H. pose proof (ring_cap r H). apply Z.mod_pos_bound. lia. Qed.

Lemma writable_free r : ring_ok r -> reac_ring_writable r = r_capacity r - 1 - fill r.
Proof.
  intros H. pose proof (ring_cap r H). pose proof (fill_range r H). unfold reac_ring_writable.
  rewrite readable_fill by done. destruct H as (_ & -> & _). apply Z.mod_small. lia.
Qed.

(** positions on the circle *)
Lemma circle_pos cap h s x :
  0 < cap -> 0 <= s < cap -> 0 <= x < cap -> (x - h) mod cap = s <-> x = (h + s) mod cap.
Proof.
  intros Hc Hs Hx. split; intros H.
  - rewrite <- H, Zplus_mod_idemp_r. replace (h + (x - h)) with x by lia. by rewrite Z.mod_small.
  - rewrite H, Zminus_mod_idemp_l. replace (h + s - h) with s by lia. by apply Z.mod_small.
Qed.

Lemma circle_off cap h s : 0 < cap -> 0 <= s < cap -> ((h + s) mod cap - h) mod cap = s.
Proof. intros Hc Hs. apply circle_pos; try done. by apply Z.mod_pos_bound. Qed.

(** ** Writing *)

(** channels [0 .. c-1] have received their [w] samples from position [h] on *)
Definition filled_cells (cap h w stride : Z) (planar b0 : buf F) (c : Z) (b : buf F) : Prop :=
  blen b = blen b0
  /\ forall c' i, 0 <= c' -> 0 <= i < cap ->
       get b (c' * cap + i)
       = if (c' <? c) && ((i - h) mod cap <? w) then get planar (c' * stride + (i - h) mod cap)
         else get b0 (c' * cap + i).

Lemma filled_next cap h w stride planar b0 c b b' :
  0 < cap -> 0 <= c -> filled_cells cap h w stride planar b0 c b -> blen b' = blen b ->
  (forall c' i, 0 <= c' -> 0 <= i < cap ->
     get b' (c' * cap + i)
     = if (c' =? c) && ((i - h) mod cap <? w) then get planar (c' * stride + (i - h) mod cap)
       else get b (c' * cap + i)) ->
  filled_cells cap h w stride planar b0 (c + 1) b'.
Proof.
  intros Hcap Hc [H1 H2] Hl H. split; [congruence|]. intros c' i Hc' Hi.
  rewrite H, H2 by done.
  destruct (Z.eqb_spec c' c), (Z.ltb_spec c' c), (Z.ltb_spec c' (c + 1)); try lia;
    cbn [andb]; done.
Qed.

Lemma ok_write_channel r planar stride w c b (Q : buf F -> Prop) :
  ring_ok r -> 0 <= c < r_channels r -> 0 <= w < r_capacity r ->
  blen b = r_capacity r * r_channels r ->
  (forall s, 0 <= s < w -> is_Some (get planar (c * stride + s))) ->
  (forall b', blen b' = blen b ->
     (forall c' i, 0 <= c' -> 0 <= i < r_capacity r ->
        get b' (c' * r_capacity r + i)
        = if (c' =? c) && ((i - r_head r) mod r_capacity r <? w)
          then get planar (c' * stride + (i - r_head r) mod r_capacity r)
          else get b (c' * r_capacity r + i)) -> Q b') ->
  ok (write_channel planar (r_capacity r) (r_mask r) stride (r_head r) w c b) Q.
Proof.
  intros HR Hc Hw Hb Hp HQ. pose proof (ring_cap r HR) as Hcap. pose proof HR as (_ & _ & _ & Hh & _).
  assert (0 <= c * r_capacity r /\ c * r_capacity r + r_capacity r <= r_capacity r * r_channels r) as Hbase by nia.
  assert (forall x, 0 <= x mod r_capacity r < r_capacity r) as Hm by (intros; apply Z.mod_pos_bound; lia).
  unfold write_channel. ok_step.
  apply ok_for with (P := fun s '(b', pos) => blen b' = blen b
    /\ pos = (r_head r + s) mod r_capacity r
    /\ forall c' i, 0 <= c' -> 0 <= i < r_capacity r ->
         get b' (c' * r_capacity r + i)
         = if (c' =? c) && ((i - r_head r) mod r_capacity r <? s)
           then get planar (c' * stride + (i - r_head r) mod r_capacity r)
           else get b (c' * r_capacity r + i)).
  - lia.
  - rewrite Z.add_0_r, Z.mod_small by done. repeat (split; [done|]). intros c' i _ _.
    pose proof (Hm (i - r_head r)). by rewrite (proj2 (Z.ltb_ge _ 0)), andb_false_r by lia.
  - intros s [b' pos] Hs (H1 & -> & H2). pose proof (Hm (r_head r + s)) as Hpos.
    destruct (Hp s Hs) as [v Hv]. unfold write_sample. ok_step. ok_read Hv. ok_steps.
    split; [by rewrite blen_upd|]. split.
    { rewrite ring_mask by done. by rewrite Zplus_mod_idemp_l, Z.add_assoc. }
    intros c' i Hc' Hi. rewrite get_upd by lia.
    pose proof (circle_pos (r_capacity r) (r_head r) s i ltac:(lia) ltac:(lia) Hi) as Hcp.
    case_decide as Ej.
    + destruct (lex_inj (r_capacity r) c' i c ((r_head r + s) mod r_capacity r)) as [-> ->]; try done; try lia.
      rewrite (proj2 Hcp eq_refl), Z.eqb_refl, (proj2 (Z.ltb_lt s (s + 1))) by lia. by rewrite Hv.
    + rewrite H2 by done. destruct (Z.eqb_spec c' c) as [->|]; [|done]. cbn [andb].
      destruct (Z.ltb_spec ((i - r_head r) mod r_capacity r) s),
        (Z.ltb_spec ((i - r_head r) mod r_capacity r) (s + 1)); try done; try lia.
  - intros [b' pos] (H1 & _ & H2). ok_step. by apply HQ.
Qed.

Lemma row_length planar stride w c : 0 <= w -> Z.of_nat (length (row fzero planar stride w c)) = w.
Proof. intros. unfold row. rewrite length_fmap, length_seqZ. lia. Qed.

Lemma row_lookup planar stride w c i v :
  row fzero planar stride w c !! i = Some v ->
  Z.of_nat i < w /\ v = default fzero (get planar (c * stride + Z.of_nat i)).
Proof.
  unfold row. rewrite list_lookup_fmap, fmap_Some. intros (s & Hs & ->).
  apply lookup_seqZ in Hs as [-> ?]. by rewrite Z.add_0_l.
Qed.

(** once [w] cells of every channel have been filled and the head moved past them,
    the channels hold that much more *)
Lemma holds_appended r r' q planar stride w :
  ring_ok r -> holds r q -> 0 <= w <= r_mask r - fill r ->
  (forall c s, 0 <= c < r_channels r -> 0 <= s < w -> is_Some (get planar (c * stride + s))) ->
  r_capacity r' = r_capacity r -> r_channels r' = r_channels r -> r_tail r' = r_tail r ->
  r_head r' = (r_head r + w) mod r_capacity r ->
  filled_cells (r_capacity r) (r_head r) w stride planar (r_buf r) (r_channels r) (r_buf r') ->
  fill r' = fill r + w /\ holds r' (fun c => q c ++ row fzero planar stride w c).
Proof.
  intros HR HH Hw Hp E2 E4 E6 Hh' [_ HF]. pose proof (ring_cap r HR) as Hcap. pose proof (fill_range r HR) as Hf.
  pose proof HR as (_ & Hmask & _).
  assert (fill r' = fill r + w) as Hf'.
  { unfold fill. rewrite Hh', E2, E6, Zminus_mod_idemp_l.
    replace (r_head r + w - r_tail r) with (r_head r - r_tail r + w) by lia.
    rewrite <- Zplus_mod_idemp_l. fold (fill r). apply Z.mod_small. lia. }
  split; [done|]. intros c Hc. rewrite E4 in Hc. destruct (HH c Hc) as [L1 L2]. split.
  { rewrite length_app, Hf', <- L1, Nat2Z.inj_add, row_length by lia. done. }
  intros i v Hi. unfold slot. rewrite E2, E6, HF by (try lia; apply Z.mod_pos_bound; lia).
  assert (((r_tail r + Z.of_nat i) mod r_capacity r - r_head r) mod r_capacity r
          = (Z.of_nat i - fill r) mod r_capacity r) as ->.
  { unfold fill. rewrite Zminus_mod_idemp_l, Zminus_mod_idemp_r. f_equal. lia. }
  rewrite (proj2 (Z.ltb_lt c (r_channels r))) by lia. cbn [andb].
  apply lookup_app_Some in Hi as [Hi|[Hge Hi]].
  - pose proof (lookup_lt_Some _ _ _ Hi) as Hlt.
    rewrite (proj2 (Z.ltb_ge _ w)); [by apply L2|].
    replace (Z.of_nat i - fill r) with (Z.of_nat i - fill r + 1 * r_capacity r - 1 * r_capacity r) by lia.
    rewrite Zminus_mod, Z.mul_1_l, Z_mod_same_full, Z.sub_0_r, Zmod_mod.
    rewrite Z.mod_small by lia. lia.
  - apply row_lookup in Hi as [Hi ->].
    rewrite Z.mod_small by lia. replace (Z.of_nat i - fill r) with (Z.of_nat (i - length (q c))) by lia.
    rewrite (proj2 (Z.ltb_lt _ w)) by lia.
    destruct (Hp c (Z.of_nat (i - length (q c)))) as [v' ->]; [lia|lia|done].
Qed.

(** the ring after the producer has stored its samples and moved the head *)
Lemma ok_ring_write r q planar n (Q : Z * ring F -> Prop) :
  ring_ok r -> holds r q -> 0 <= n ->
  let stride := Z.min n (r_mask r) in
  let w := Z.min stride (r_mask r - fill r) in
  (forall c s, 0 <= c < r_channels r -> 0 <= s < w -> is_Some (get planar (c * stride + s))) ->
  (forall r', ring_ok r' -> r_capacity r' = r_capacity r -> r_channels r' = r_channels r ->
     r_underruns r' = r_underruns r -> r_tail r' = r_tail r ->
     r_overruns r' = (if stride >? r_mask r - fill r then u64 (r_overruns r + (stride - w)) else r_overruns r) ->
     fill r' = fill r + w ->
     holds r' (fun c => q c ++ row fzero planar stride w c) -> Q (w, r')) ->
  ok (reac_ring_write r planar n) Q.
Proof.
  intros HR HH Hn stride w Hp HQ. pose proof (ring_cap r HR) as Hcap. pose proof (fill_range r HR) as Hf.
  pose proof HR as (Hk & Hmask & Hch & Hh & Ht & Hb). unfold reac_ring_write. cbv zeta.
  rewrite writable_free by done. replace (r_capacity r - 1 - fill r) with (r_mask r - fill r) by lia.
  assert ((if n >? r_mask r then r_mask r else n) = stride) as -> by (unfold stride; rewrite Z.gtb_ltb; destruct (Z.ltb_spec (r_mask r) n); lia).
  set (r1 := if stride >? r_mask r - fill r then add_overruns _ r else r).
  assert ((if stride >? r_mask r - fill r then r_mask r - fill r else stride) = w) as ->
    by (unfold w; rewrite Z.gtb_ltb; destruct (Z.ltb_spec (r_mask r - fill r) stride); lia).
  assert (r_buf r1 = r_buf r /\ r_capacity r1 = r_capacity r /\ r_mask r1 = r_mask r
    /\ r_channels r1 = r_channels r /\ r_head r1 = r_head r /\ r_tail r1 = r_tail r
    /\ r_underruns r1 = r_underruns r) as (E1 & E2 & E3 & E4 & E5 & E6 & E7) by (unfold r1; by case_match).
  assert (r_overruns r1 = if stride >? r_mask r - fill r then u64 (r_overruns r + (stride - w)) else r_overruns r) as E8.
  { unfold r1. rewrite Z.gtb_ltb. destruct (Z.ltb_spec (r_mask r - fill r) stride); [|done]. cbn.
    f_equal. f_equal. unfold w. rewrite Z.min_r by lia. apply Z.mod_small. lia. }
  clearbody r1.
  assert (ring_ok r1) as HR1 by (unfold ring_ok; by rewrite E1, E2, E3, E4, E5, E6).
  assert (fill r1 = fill r) as Hf1 by (unfold fill; by rewrite E2, E5, E6).
  destruct ((stride >? r_mask r - fill r) && (w =? 0)) eqn:Eearly.
  { apply andb_true_iff in Eearly as [_ Hw0%Z.eqb_eq]. ok_step. rewrite <- Hw0.
    apply HQ; try done; [lia|]. intros c Hc. rewrite E4 in Hc. destruct (HH c Hc) as [L1 L2].
    rewrite Hf1, Hw0. cbn [row seqZ Z.to_nat seq fmap list_fmap].
    unfold row. rewrite app_nil_r. split; [done|]. unfold slot. by rewrite E1, E2, E6. }
  ok_step.
  apply ok_for with (P := filled_cells (r_capacity r1) (r_head r1) w stride planar (r_buf r1)); [lia| | |].
  - split; [done|]. intros c' i Hc' Hi. by rewrite (proj2 (Z.ltb_ge c' 0)) by lia.
  - intros c b Hc HF. destruct HF as [HF1 HF2]. apply ok_write_channel; [done|done|lia| | |].
    + rewrite HF1. apply HR1.
    + intros s Hs. apply Hp; [by rewrite <- E4|done].
    + intros b' Hb' Hg. eapply filled_next; try done; lia.
  - intros b HF. pose proof HF as [HF1 _]. ok_step. set (r' := set_head b _ r1).
    assert (r_head r' = (r_head r + w) mod r_capacity r) as Hh' by (unfold r'; cbn; by rewrite ring_mask, E2, E5).
    rewrite E1, E2, E4, E5 in HF.
    destruct (holds_appended r r' q planar stride w) as [Hf' HH']; try done; [lia|].
    apply HQ; try done. unfold ring_ok. rewrite Hh'. unfold r'; cbn. rewrite E2, E3, E4, E6, HF1, E1.
    repeat (split; [done|]). split; [apply Z.mod_pos_bound; lia|done].
Qed.

(** ** Reading *)

Lemma ok_plane_wr (m : planes F) p b b0 i v (Q : planes F -> Prop) :
  0 <= p -> m !! Z.to_nat p = Some b0 -> 0 <= i < blen b ->
  Q (<[Z.to_nat p := upd b i v]> m) ->
  ok (plane_wr (<[Z.to_nat p := b]> m) p i v) Q.
Proof.
  intros Hp Hm Hi HQ. unfold plane_wr. destruct (Z.ltb_spec p 0); [lia|].
  rewrite list_lookup_insert_eq by (by eapply lookup_lt_Some). rewrite wr_upd by done.
  cbn [mbind res_bind]. ok_step. by rewrite list_insert_insert_eq.
Qed.

(** one channel: real samples, then silence *)
Lemma ok_read_channel r q c p bp real n dst m (Q : planes F -> Prop) :
  ring_ok r -> holds r q -> 0 <= c < r_channels r -> 0 <= real <= n -> real <= fill r ->
  get dst c = Some p -> 0 <= p -> m !! Z.to_nat p = Some bp -> n <= blen bp ->
  (forall b, blen b = blen bp ->
     (forall s, 0 <= s < n -> get b s = Some (default fzero (take (Z.to_nat real) (q c) !! Z.to_nat s))) ->
     (forall s, n <= s -> get b s = get bp s) ->
     Q (<[Z.to_nat p := b]> m)) ->
  ok (read_channel fzero (r_buf r) (r_capacity r) (r_mask r) (r_tail r) real n dst c m) Q.
Proof.
  intros HR HH Hc Hreal Hfill Hd Hp Hm Hn HQ. pose proof (ring_cap r HR) as Hcap.
  pose proof HR as (_ & _ & _ & _ & Ht & _). destruct (HH c Hc) as [L1 L2].
  assert (Z.of_nat (length (take (Z.to_nat real) (q c))) = real) as Hlt by (rewrite length_take; lia).
  unfold read_channel. ok_step. ok_read Hd. ok_step.
  apply ok_for with (P := fun s '(m', pos) => exists b, m' = <[Z.to_nat p := b]> m
    /\ blen b = blen bp /\ pos = (r_tail r + s) mod r_capacity r
    /\ (forall i, 0 <= i < s -> get b i = Some (default fzero (take (Z.to_nat real) (q c) !! Z.to_nat i)))
    /\ (forall i, s <= i -> get b i = get bp i)).
  - lia.
  - exists bp. rewrite list_insert_id by done. rewrite Z.add_0_r, Z.mod_small by done.
    repeat (split; [done|]). split; [lia|done].
  - intros s [m' pos] Hs (b & -> & H1 & -> & H2 & H3).
    destruct (lookup_lt_is_Some_2 (q c) (Z.to_nat s)) as [v Hv]; [lia|].
    pose proof (L2 _ _ Hv) as Hg. unfold slot in Hg. rewrite Z2Nat.id in Hg by lia.
    unfold read_sample. ok_step. ok_read Hg. ok_step.
    eapply ok_plane_wr; [done|exact Hm|lia|]. ok_step. exists (upd b s v).
    split; [done|]. split; [by rewrite blen_upd|]. split.
    { rewrite ring_mask by done. by rewrite Zplus_mod_idemp_l, Z.add_assoc. }
    split; intros i Hi; rewrite get_upd by lia; case_decide; subst; try lia.
    + by rewrite lookup_take_lt, Hv by lia.
    + apply H2. lia.
    + apply H3. lia.
  - intros [m' pos] (b & -> & H1 & _ & H2 & H3).
    apply ok_for with (P := fun s m' => exists b', m' = <[Z.to_nat p := b']> m /\ blen b' = blen bp
      /\ (forall i, 0 <= i < s -> get b' i = Some (default fzero (take (Z.to_nat real) (q c) !! Z.to_nat i)))
      /\ (forall i, s <= i -> get b' i = get bp i)).
    + lia.
    + by exists b.
    + intros s m' Hs (b' & -> & H1' & H2' & H3'). eapply ok_plane_wr; [done|exact Hm|lia|].
      exists (upd b' s fzero). split; [done|]. split; [by rewrite blen_upd|].
      split; intros i Hi; rewrite get_upd by lia; case_decide; subst; try lia.
      * by rewrite lookup_ge_None_2 by lia.
      * apply H2'. lia.
      * apply H3'. lia.
    + intros m' (b' & -> & H1' & H2' & H3'). by apply HQ.
Qed.

(** the planes after channels [0 .. c-1] *)
Definition read_planes (q : Z -> list F) (real n : Z) (dst : buf Z) (m0 : planes F) (c : Z) (m : planes F)
  : Prop :=
  (forall p b, m !! p = Some b -> exists b0, m0 !! p = Some b0 /\ blen b = blen b0
      /\ forall s, n <= s -> get b s = get b0 s)
  /\ (forall p b0, m0 !! p = Some b0 -> is_Some (m !! p))
  /\ (forall c' p, 0 <= c' < c -> get dst c' = Some p ->
        (forall c'', c' < c'' < c -> get dst c'' <> Some p) ->
        plane_holds fzero m0 m p n (take (Z.to_nat real) (q c')))
  /\ (forall p : nat, (forall c', 0 <= c' < c -> get dst c' <> Some (Z.of_nat p)) -> m !! p = m0 !! p).

Lemma read_planes_next q real n dst m0 c m p b b0 :
  0 <= c -> get dst c = Some p -> 0 <= p -> (forall c' p', 0 <= c' <= c -> get dst c' = Some p' -> 0 <= p') ->
  read_planes q real n dst m0 c m -> m !! Z.to_nat p = Some b0 -> blen b = blen b0 ->
  (forall s, 0 <= s < n -> get b s = Some (default fzero (take (Z.to_nat real) (q c) !! Z.to_nat s))) ->
  (forall s, n <= s -> get b s = get b0 s) ->
  read_planes q real n dst m0 (c + 1) (<[Z.to_nat p := b]> m).
Proof.
  intros Hc Hd Hp Hnn (R1 & R2 & R3 & R4) Hm Hb G1 G2.
  pose proof (lookup_lt_Some _ _ _ Hm) as Hlt.
  destruct (R1 _ _ Hm) as (b00 & Hm0 & Hb0 & Hr0). split; [|split; [|split]].
  - intros p' b' H. destruct (decide (p' = Z.to_nat p)) as [->|Hne].
    + rewrite list_lookup_insert_eq in H by done. injection H as <-. exists b00.
      split; [done|]. split; [congruence|]. intros s Hs. rewrite G2 by done. by apply Hr0.
    + rewrite list_lookup_insert_ne in H by done. by apply R1.
  - intros p' b' H. destruct (decide (p' = Z.to_nat p)) as [->|Hne].
    + rewrite list_lookup_insert_eq by done. by eexists.
    + rewrite list_lookup_insert_ne by done. by eapply R2.
  - intros c' p' Hc' Hd' Hlast. destruct (decide (c' = c)) as [->|Hne].
    + assert (p' = p) as -> by congruence. exists b00, b. rewrite list_lookup_insert_eq by done.
      split; [done|]. split; [done|]. split; [congruence|]. split; [done|].
      intros s Hs. rewrite G2 by done. by apply Hr0.
    + assert (p' <> p) as Hpp by (intros ->; by apply (Hlast c); [lia|]).
      destruct (R3 c' p') as (x & y & Hx & Hy & Hxy); [lia|done|intros c'' ?; apply Hlast; lia|].
      pose proof (Hnn c' p' ltac:(lia) Hd').
      exists x, y. rewrite list_lookup_insert_ne by lia. done.
  - intros p' H. assert (Z.of_nat p' <> p) as Hpp by (intros <-; by apply (H c); [lia|]).
    rewrite list_lookup_insert_ne by lia. apply R4. intros c' Hc'. apply H. lia.
Qed.

Lemma ok_read_planar r q dst channels_ n m (Q : Z * ring F * planes F -> Prop) :
  ring_ok r -> holds r q -> 0 <= n ->
  let real := Z.min (fill r) n in let nch := Z.min channels_ (r_channels r) in
  0 <= nch ->
  (forall c, 0 <= c < nch -> exists p b, get dst c = Some p /\ 0 <= p /\ m !! Z.to_nat p = Some b
                                        /\ n <= blen b) ->
  (forall r' m', ring_ok r' -> r_capacity r' = r_capacity r -> r_channels r' = r_channels r ->
     r_overruns r' = r_overruns r -> fill r' = fill r - real ->
     r_underruns r' = (if real <? n then u64 (r_underruns r + u32 (n - real)) else r_underruns r) ->
     holds r' (fun c => drop (Z.to_nat real) (q c)) ->
     read_planes q real n dst m nch m' -> Q (real, r', m')) ->
  ok (reac_ring_read_planar fzero r dst channels_ n m) Q.
Proof.
  intros HR HH Hn real nch Hnch Hd HQ. pose proof (ring_cap r HR) as Hcap. pose proof (fill_range r HR) as Hf.
  pose proof HR as (Hk & Hmask & Hch & Hh & Ht & Hb). unfold reac_ring_read_planar.
  rewrite readable_fill by done. cbv zeta.
  assert ((if fill r <? n then fill r else n) = real) as ->
    by (unfold real; destruct (Z.ltb_spec (fill r) n); lia).
  assert ((if channels_ <? r_channels r then channels_ else r_channels r) = nch) as ->
    by (unfold nch; destruct (Z.ltb_spec channels_ (r_channels r)); lia).
  ok_step. apply ok_for with (P := read_planes q real n dst m); [lia| | |].
  - split; [intros p b Hp; by exists b|]. split; [intros p b Hp; by exists b|]. split; [lia|done].
  - intros c m' Hc HP. destruct (Hd c Hc) as (p & b0 & Hdc & Hp & Hm & Hb0).
    pose proof HP as (R1 & R2 & _). destruct (R2 _ _ Hm) as [b1 Hm1].
    destruct (R1 _ _ Hm1) as (b0' & Hm0 & Hb1 & _). assert (b0' = b0) as -> by congruence.
    eapply ok_read_channel; try done; try lia. intros b G1 G2 G3.
    eapply read_planes_next; try done; [lia|].
    intros c' p' Hc' Hd'. destruct (Hd c') as (p'' & _ & Hd'' & ? & _); [lia|].
    assert (p' = p'') as -> by congruence. done.
  - intros m' HP. ok_step. set (r1 := set_tail _ r).
    assert (r_tail r1 = (r_tail r + real) mod r_capacity r) as Ht1 by (unfold r1; cbn; by apply ring_mask).
    assert (fill r1 = fill r - real) as Hf1.
    { unfold fill. rewrite Ht1. unfold r1; cbn. rewrite Zminus_mod_idemp_r.
      replace (r_head r - (r_tail r + real)) with (r_head r - r_tail r - real) by lia.
      rewrite <- Zminus_mod_idemp_l. fold (fill r). apply Z.mod_small. lia. }
    assert (ring_ok r1) as HR1.
    { unfold ring_ok. rewrite Ht1. unfold r1; cbn. repeat (split; [done|]). split; [apply Z.mod_pos_bound; lia|done]. }
    assert (holds r1 (fun c => drop (Z.to_nat real) (q c))) as HH1.
    { intros c Hc. destruct (HH c Hc) as [L1 L2]. split; [rewrite length_drop; lia|].
      intros i v Hi. rewrite lookup_drop in Hi. pose proof (L2 _ _ Hi) as Hg.
      unfold slot in *. rewrite Ht1. unfold r1; cbn. rewrite Zplus_mod_idemp_l.
      replace (r_tail r + real + Z.of_nat i) with (r_tail r + Z.of_nat (Z.to_nat real + i)) by lia. done. }
    destruct (real <? n) eqn:En; apply HQ; done.
Qed.

Lemma ring_trim_spec r q keep :
  ring_ok r -> holds r q -> 0 <= keep ->
  let d := fill r - Z.min keep (fill r) in
  let '(dropped, r') := reac_ring_trim r keep in
  dropped = d /\ ring_ok r' /\ r_head r' = r_head r /\ r_capacity r' = r_capacity r
  /\ r_channels r' = r_channels r /\ fill r' = fill r - d
  /\ r_underruns r' = r_underruns r /\ r_overruns r' = r_overruns r
  /\ holds r' (fun c => drop (Z.to_nat d) (q c)).
Proof.
  intros HR HH Hk d. pose proof (ring_cap r HR) as Hcap. pose proof (fill_range r HR) as Hf.
  unfold reac_ring_trim. rewrite readable_fill by done. cbv zeta.
  destruct (Z.leb_spec (fill r) keep) as [Hle|Hlt].
  { assert (d = 0) as -> by (unfold d; lia). repeat (split; [done|]). split; [lia|]. done. }
  assert (u32 (fill r - keep) = d) as -> by (unfold d; rewrite Z.min_l by lia; apply Z.mod_small; lia).
  assert (0 <= d <= fill r) as Hd by lia. clearbody d. set (r1 := set_tail _ r).
  assert (r_tail r1 = (r_tail r + d) mod r_capacity r) as Ht1 by (unfold r1; cbn; by apply ring_mask).
  pose proof HR as (Hk' & Hmask & Hch & Hh & Ht & Hb).
  split; [done|]. split.
  { unfold ring_ok. rewrite Ht1. unfold r1; cbn. repeat (split; [done|]). split; [apply Z.mod_pos_bound; lia|done]. }
  do 3 (split; [done|]).
  assert (fill r1 = fill r - d) as Hf1.
  { unfold fill. rewrite Ht1. unfold r1; cbn. rewrite Zminus_mod_idemp_r.
    replace (r_head r - (r_tail r + d)) with (r_head r - r_tail r - d) by lia.
    rewrite <- Zminus_mod_idemp_l. fold (fill r). apply Z.mod_small. lia. }
  split; [done|]. do 2 (split; [done|]).
  intros c Hc. destruct (HH c Hc) as [L1 L2]. split; [rewrite length_drop; lia|].
  intros i v Hi. rewrite lookup_drop in Hi. pose proof (L2 _ _ Hi) as Hg.
  unfold slot in *. rewrite Ht1. unfold r1; cbn. rewrite Zplus_mod_idemp_l.
  by replace (r_tail r + d + Z.of_nat i) with (r_tail r + Z.of_nat (Z.to_nat d + i)) by lia.
Qed.
End Lemmas.

(** ** The capacity *)

(** [x] holds the bits of [u] smeared over the [n] positions below them *)
Definition smeared (n u x : Z) : Prop :=
  forall i, 0 <= i -> Z.testbit x i = true <-> exists j, i <= j < i + n /\ Z.testbit u j = true.

Lemma smeared_double n u x : 0 < n -> smeared n u x -> smeared (2 * n) u (Z.lor x (Z.shiftr x n)).
Proof.
  unfold smeared. intros Hn H i Hi. rewrite Z.lor_spec, Z.shiftr_spec, orb_true_iff by done.
  rewrite H, H by lia. split.
  - intros [(j & Hj & B)|(j & Hj & B)]; exists j; (split; [lia|done]).
  - intros (j & Hj & B). destruct (decide (j < i + n)); [left|right]; exists j; (split; [lia|done]).
Qed.

Lemma smeared_ones u x : 0 < u < 4294967296 -> 0 <= x -> smeared 32 u x -> x = 2 ^ (Z.log2 u + 1) - 1.
Proof.
  intros Hu Hx H. replace (2 ^ (Z.log2 u + 1) - 1) with (Z.ones (Z.log2 u + 1)) by (rewrite Z.ones_equiv; lia).
  pose proof (Z.log2_nonneg u).
  assert (Z.log2 u < 32) by (apply Z.log2_lt_pow2; [lia|change (2 ^ 32) with 4294967296; lia]).
  apply Z.bits_inj'. intros i Hi. destruct (decide (i <= Z.log2 u)) as [Hle|Hgt].
  - rewrite Z.ones_spec_low by lia. apply H; [done|]. exists (Z.log2 u). split; [lia|].
    apply Z.bit_log2. lia.
  - rewrite Z.ones_spec_high by lia. apply not_true_iff_false. rewrite (H i Hi).
    intros (j & Hj & B). rewrite Z.bits_above_log2 in B by lia. done.
Qed.

Lemma next_pow2_spec v :
  v <= 2147483648 ->
  exists k, 1 <= k <= 31 /\ next_pow2 v = 2 ^ k /\ Z.max v 2 <= 2 ^ k /\ 2 ^ (k - 1) < Z.max v 2.
Proof.
  intros Hv. unfold next_pow2. destruct (Z.ltb_spec v 2) as [Hlt|Hge].
  { exists 1. change (2 ^ 1) with 2. change (2 ^ (1 - 1)) with 1. lia. }
  cbv zeta. set (u := v - 1). assert (u32 u = u) as -> by (apply Z.mod_small; lia).
  assert (smeared 1 u u) as S0.
  { intros i Hi. split; [intros B; exists i; split; [lia|done]|].
    intros (j & Hj & B). by replace i with j by lia. }
  apply (smeared_double 1) in S0; [|lia]. apply (smeared_double 2) in S0; [|lia].
  apply (smeared_double 4) in S0; [|lia]. apply (smeared_double 8) in S0; [|lia].
  apply (smeared_double 16) in S0; [|lia]. change (2 * 16) with 32 in S0.
  assert (forall x n, 0 <= x -> 0 <= Z.lor x (Z.shiftr x n)) as Hnn
    by (intros; apply Z.lor_nonneg; split; [done|by apply Z.shiftr_nonneg]).
  apply smeared_ones in S0; [|unfold u; lia|repeat apply Hnn; unfold u; lia].
  cbn [Z.mul Pos.mul] in S0. rewrite S0. clear S0.
  pose proof (Z.log2_spec u ltac:(unfold u; lia)) as [L1 L2].
  pose proof (Z.log2_nonneg u). change (Z.succ (Z.log2 u)) with (Z.log2 u + 1) in L2.
  assert (Z.log2 u < 31) by (apply Z.log2_lt_pow2; [unfold u; lia|change (2 ^ 31) with 2147483648; unfold u; lia]).
  exists (Z.log2 u + 1). replace (Z.log2 u + 1 - 1) with (Z.log2 u) by lia.
  assert (2 ^ (Z.log2 u + 1) <= 2 ^ 31) as Hp by (apply Z.pow_le_mono_r; lia).
  change (2 ^ 31) with 2147483648 in Hp.
  rewrite Z.sub_add. unfold u32. rewrite Z.mod_small by lia. unfold u in *. lia.
Qed.

Lemma ring_init_ok {F} (fzero : F) channels_ capacity_frames r :
  0 <= channels_ -> capacity_frames <= 2147483648 ->
  reac_ring_init fzero true channels_ capacity_frames = Some r ->
  ring_ok r /\ holds r (fun _ => []).
Proof.
  intros Hc Hf [= <-]. destruct (next_pow2_spec capacity_frames Hf) as (k & Hk & E & _).
  assert (0 < 2 ^ k) by (apply Z.pow_pos_nonneg; lia).
  assert (2 ^ k <= 2 ^ 31) as Hp by (apply Z.pow_le_mono_r; lia).
  change (2 ^ 31) with 2147483648 in Hp. rewrite E.
  split.
  - unfold ring_ok; cbn. split; [by exists k|]. split; [apply Z.mod_small; lia|].
    do 3 (split; [lia|]). rewrite blen_filled_with by nia. done.
  - intros c _. unfold fill; cbn. by split.
Qed.

(** * The ring against an abstract queue *)

Section Queue.
Context {F : Type} (fzero : F).

(** one call of the producer or of the consumer *)
Inductive ring_op : Type :=
| OpWrite (planar : buf F) (n : Z)
| OpRead (dst : buf Z) (channels_ n : Z) (m : planes F)
| OpTrim (keep : Z).

Inductive ring_out : Type :=
| Wrote (w : Z)
| Got (real : Z) (m : planes F)
| Dropped (n : Z).

Definition ring_do (r : ring F) (o : ring_op) : res (ring_out * ring F) :=
  match o with
  | OpWrite planar n => '(w, r) ← reac_ring_write r planar n; mret (Wrote w, r)
  | OpRead dst ch n m => '(real, r, m) ← reac_ring_read_planar fzero r dst ch n m; mret (Got real m, r)
  | OpTrim keep => let '(d, r) := reac_ring_trim r keep in mret (Dropped d, r)
  end.

Fixpoint ring_run (r : ring F) (ops : list ring_op) : res (list ring_out * ring F) :=
  match ops with
  | [] => mret ([], r)
  | o :: ops =>
      '(out, r) ← ring_do r o;
      '(outs, r) ← ring_run r ops;
      mret (out :: outs, r)
  end.

(** the queue: number of sample columns, and their samples channel by channel *)
Definition queue : Type := Z * (Z -> list F).

Inductive queue_step (cap channels_ : Z) : queue -> ring_op -> ring_out -> queue -> Prop :=
| queue_write len q planar n :
    let stride := Z.min n (cap - 1) in
    let w := Z.min stride (cap - 1 - len) in
    queue_step cap channels_ (len, q) (OpWrite planar n) (Wrote w)
      (len + w, fun c => q c ++ row fzero planar stride w c)
| queue_read len q dst ch n m m' :
    let real := Z.min len n in
    let nch := Z.min ch channels_ in
    (forall c p, 0 <= c < nch -> get dst c = Some p ->
       (forall c', c < c' < nch -> get dst c' <> Some p) ->
       plane_holds fzero m m' p n (take (Z.to_nat real) (q c))) ->
    (forall p : nat, (forall c, 0 <= c < nch -> get dst c <> Some (Z.of_nat p)) -> m' !! p = m !! p) ->
    queue_step cap channels_ (len, q) (OpRead dst ch n m) (Got real m')
      (len - real, fun c => drop (Z.to_nat real) (q c))
| queue_trim len q keep :
    let d := len - Z.min keep len in
    queue_step cap channels_ (len, q) (OpTrim keep) (Dropped d)
      (len - d, fun c => drop (Z.to_nat d) (q c)).

Inductive queue_steps (cap channels_ : Z) : queue -> list ring_op -> list ring_out -> queue -> Prop :=
| queue_nil q : queue_steps cap channels_ q [] [] q
| queue_cons q1 q2 q3 o out ops outs :
    queue_step cap channels_ q1 o out q2 -> queue_steps cap channels_ q2 ops outs q3 ->
    queue_steps cap channels_ q1 (o :: ops) (out :: outs) q3.

(** calls within the memory they are given, for a ring of the given geometry *)
Definition op_ok (cap channels_ : Z) (o : ring_op) : Prop :=
  match o with
  | OpWrite planar n => 0 <= n /\ forall i, 0 <= i < channels_ * Z.min n (cap - 1) -> is_Some (get planar i)
  | OpRead dst ch n m => 0 <= n /\ 0 <= ch /\ forall c, 0 <= c < Z.min ch channels_ ->
      exists p b, get dst c = Some p /\ 0 <= p /\ m !! Z.to_nat p = Some b /\ n <= blen b
  | OpTrim keep => 0 <= keep
  end.

(** the ring represents the queue *)
Definition represents (r : ring F) (q : queue) : Prop := ring_ok r /\ fill r = q.1 /\ holds r q.2.

Lemma ring_do_spec r q o :
  represents r q -> op_ok (r_capacity r) (r_channels r) o ->
  ok (ring_do r o) (fun '(out, r') => exists q', queue_step (r_capacity r) (r_channels r) q o out q' /\ represents r' q'
    /\ r_capacity r' = r_capacity r /\ r_channels r' = r_channels r).
Proof.
  destruct q as [len q]. intros (HR & Hf & HH) Ho. cbn [fst snd] in *. subst len.
  pose proof (ring_cap r HR) as Hcap. pose proof (fill_range r HR) as Hfr.
  pose proof HR as (_ & Hmask & Hch & _ & _ & _).
  destruct o as [planar n|dst ch n m|keep]; cbn [op_ok ring_do] in *.
  - destruct Ho as [Hn Hp]. ok_step. eapply (ok_ring_write fzero); [done|done|done| |].
    + rewrite Hmask. intros c s Hc Hs. apply Hp.
      pose proof (lex_lt (Z.min n (r_capacity r - 1)) (r_channels r) c s Hc ltac:(lia)). lia.
    + rewrite Hmask. intros r' HR' E1 E2 _ _ _ Hf' HH'. ok_step. eexists. split; [apply queue_write|].
      split; [by split|done].
  - destruct Ho as (Hn & Hc & Hd). ok_step. eapply ok_read_planar; [done|done|done|lia|exact Hd|].
    intros r' m' HR' E1 E2 _ Ef _ HH' (_ & _ & HP & HP'). ok_step. eexists.
    split; [by apply queue_read|].
    split; [by split|done].
  - pose proof (ring_trim_spec r q keep HR HH Ho) as H. cbv zeta in H.
    destruct (reac_ring_trim r keep) as [d r']. destruct H as (-> & HR' & _ & E1 & E2 & Hf' & _ & _ & HH').
    eexists. split; [apply queue_trim|]. by split.
Qed.
End Queue.

(** * Properties *)

(** C7: the ring is a bounded queue.  From a state that represents a queue, any
    sequence of writes, reads and trims within their memory runs into no
    undefined behaviour, and its results are those of the abstract queue of
    [capacity - 1] columns: a write appends what fits and reports it, a read
    hands every channel's oldest samples to the plane it is the last one to
    point at, padded with silence, and touches no other plane, a trim drops the
    oldest columns down to [keep]. *)
Theorem reac_ring_refines_queue {F} (fzero : F) (ops : list (ring_op (F := F))) r q
  (HR : represents r q) (Hops : Forall (op_ok (r_capacity r) (r_channels r)) ops) :
  exists outs r' q', ring_run fzero r ops = Ok (outs, r')
    /\ queue_steps fzero (r_capacity r) (r_channels r) q ops outs q' /\ represents r' q'.
Proof.
  revert r q HR Hops. induction ops as [|o ops IH]; intros r q HR Hops.
  - exists [], r, q. split; [done|]. split; [constructor|done].
  - apply Forall_cons_1 in Hops as [Ho Hops].
    pose proof (ring_do_spec fzero r q o HR Ho) as H.
    apply ok_iff in H as ([out r1] & Hdo & q1 & Hs1 & HR1 & E1 & E2).
    rewrite <- E1, <- E2 in Hops. destruct (IH r1 q1 HR1 Hops) as (outs & r' & q' & Hrun & Hs & HR').
    exists (out :: outs), r', q'. cbn [ring_run]. rewrite Hdo. cbn [mbind res_bind]. rewrite Hrun.
    split; [done|]. split; [|done]. rewrite E1, E2 in Hs. by econstructor.
Qed.

(** Initialisation.  For a request of at most 2^31 frames the ring is empty
    and well formed, and its capacity is the least power of two that is at
    least 2 and not below the request. *)
Theorem reac_ring_init_capacity {F} (fzero : F) (channels_ frames : Z)
  (Hc : 0 <= channels_) (Hf : frames <= 2147483648) :
  exists r, reac_ring_init fzero true channels_ frames = Some r
    /\ represents r (0, fun _ => []) /\ r_channels r = channels_
    /\ exists k, r_capacity r = 2 ^ k /\ Z.max frames 2 <= 2 ^ k < 2 * Z.max frames 2.
Proof.
  eexists. split; [reflexivity|].
  destruct (ring_init_ok fzero channels_ frames _ Hc Hf eq_refl) as [HR HH].
  split; [by split|]. split; [done|].
  destruct (next_pow2_spec frames Hf) as (k & Hk & E & H1 & H2). exists k. split; [exact E|].
  replace (2 ^ k) with (2 * 2 ^ (k - 1)) in *; [lia|].
  rewrite <- Z.pow_succ_r by lia. f_equal. lia.
Qed.

(** What the counters count, and what an overrun loses.  A write that does
    not fit keeps every sample already queued and the first [free] new ones, and
    drops the newest; [overruns] grows by the number of per-channel samples
    refused.  A read that finds too little leaves the ring empty, and
    [underruns] grows by the number of per-channel samples silenced. *)
Theorem reac_ring_counters {F} (fzero : F) r q (planar : buf F) (dst : buf Z) (ch n : Z) (m : planes F)
  (HR : ring_ok r) (HH : holds r q) (Hch : 0 < r_channels r)
  (Hw : op_ok (r_capacity r) (r_channels r) (OpWrite planar n))
  (Hr : op_ok (r_capacity r) (r_channels r) (OpRead dst ch n m)) (Hn : n <= r_mask r) :
  let free := r_mask r - fill r in
  (free < n -> exists r', reac_ring_write r planar n = Ok (free, r')
     /\ r_overruns r' = u64 (r_overruns r + (n - free)) /\ fill r' = r_mask r
     /\ holds r' (fun c => q c ++ row fzero planar n free c))
  /\ (fill r < n -> exists r' m', reac_ring_read_planar fzero r dst ch n m = Ok (fill r, r', m')
     /\ r_underruns r' = u64 (r_underruns r + (n - fill r)) /\ fill r' = 0).
Proof.
  intros free. destruct Hw as [Hn0 Hp], Hr as (_ & Hc0 & Hd).
  pose proof (ring_cap r HR) as Hcap. pose proof (fill_range r HR) as Hf. pose proof HR as (_ & Hmask & _).
  rewrite <- Hmask, Z.min_l in Hp by lia. split.
  - intros Hlt. assert (ok (reac_ring_write r planar n) (fun '(w, r') => w = free
      /\ r_overruns r' = u64 (r_overruns r + (n - free)) /\ fill r' = r_mask r
      /\ holds r' (fun c => q c ++ row fzero planar n free c))) as H.
    { eapply (ok_ring_write fzero); [done|done|done| |]; rewrite (Z.min_l n) by lia.
      - intros c s Hc Hs. apply Hp. pose proof (lex_lt n (r_channels r) c s Hc ltac:(lia)). lia.
      - fold free. rewrite Z.min_r by lia. intros r' _ _ _ _ _ Eo Ef HH'.
        rewrite Z.gtb_ltb, (proj2 (Z.ltb_lt free n)) in Eo by lia. split; [done|]. split; [done|].
        split; [unfold free in Ef; lia|done]. }
    apply ok_iff in H as ([w r'] & Hrun & -> & H). by exists r'.
  - intros Hlt. assert (ok (reac_ring_read_planar fzero r dst ch n m) (fun '(real, r', m') => real = fill r
      /\ r_underruns r' = u64 (r_underruns r + (n - fill r)) /\ fill r' = 0)) as H.
    { eapply ok_read_planar; [done|done|done|lia|exact Hd|]. rewrite Z.min_l by lia.
      intros r' m' _ _ _ _ Ef Eu _ _. rewrite (proj2 (Z.ltb_lt _ n)) in Eu by lia.
      assert (u32 (n - fill r) = n - fill r) as Eq by (apply Z.mod_small; lia). rewrite Eq in Eu.
      split; [done|]. split; [done|lia]. }
    apply ok_iff in H as ([[real r'] m'] & Hrun & -> & H). by exists r', m'.
Qed.

(** * Evaluation *)

(** one channel, four slots *)
Definition toy_ring : ring Z :=
  default (Ring _ [] 0 0 0 0 0 0 0) (reac_ring_init 0 true 1 4).

Lemma toy_ring_ok : represents toy_ring (0, fun _ => []).
Proof. split; [|split; [done|]]; apply (ring_init_ok 0 1 4); (lia || done). Qed.

Definition toy_ops : list (ring_op (F := Z)) :=
  [OpWrite (of_list [11; 12; 13]) 3; OpRead (of_list [0]) 1 2 [undef 2]; OpWrite (of_list [14; 15]) 2;
   OpTrim 2; OpRead (of_list [0]) 1 4 [undef 4]].

Lemma toy_ops_ok : Forall (op_ok (r_capacity toy_ring) (r_channels toy_ring)) toy_ops.
Proof.
  repeat constructor; try (cbn; lia).
  - intros i Hi. change (0 <= i < 3) in Hi.
    assert (i = 0 \/ i = 1 \/ i = 2) as [->|[->| ->]] by lia; by eexists.
  - intros c Hc. change (0 <= c < 1) in Hc. assert (c = 0) as -> by lia. by exists 0, (undef 2).
  - intros i Hi. change (0 <= i < 2) in Hi. assert (i = 0 \/ i = 1) as [->| ->] by lia; by eexists.
  - intros c Hc. change (0 <= c < 1) in Hc. assert (c = 0) as -> by lia. by exists 0, (undef 4).
Qed.

Lemma reac_ring_refines_queue_witness :
  exists outs r' q', ring_run 0 toy_ring toy_ops = Ok (outs, r')
    /\ queue_steps 0 4 1 (0, fun _ => []) toy_ops outs q' /\ represents r' q'.
Proof. exact (reac_ring_refines_queue 0 toy_ops toy_ring (0, fun _ => []) toy_ring_ok toy_ops_ok). Defined.

Lemma reac_ring_init_capacity_witness :
  exists r, reac_ring_init 0 true 40 12000 = Some r /\ exists k, r_capacity r = 2 ^ k /\ 12000 <= 2 ^ k < 24000.
Proof.
  destruct (reac_ring_init_capacity 0 40 12000 ltac:(lia) ltac:(lia)) as (r & H1 & _ & _ & k & H2 & H3).
  exists r. split; [exact H1|]. exists k. split; [exact H2|exact H3].
Defined.

Lemma reac_ring_counters_witness :
  exists r' m', reac_ring_read_planar 0 toy_ring (of_list [0]) 1 2 [undef 2] = Ok (0, r', m')
    /\ r_underruns r' = 2.
Proof.
  destruct (proj2 (reac_ring_counters 0 toy_ring (fun _ => []) (of_list [7; 8]) (of_list [0]) 1 2 [undef 2]
    (proj1 toy_ring_ok) (proj2 (proj2 toy_ring_ok)) ltac:(by vm_compute)
    ltac:(split; [lia|]; intros i Hi; change (0 <= i < 2) in Hi;
          assert (i = 0 \/ i = 1) as [->| ->] by lia; by eexists)
    ltac:(split; [lia|]; split; [lia|]; intros c Hc; change (0 <= c < 1) in Hc;
          assert (c = 0) as -> by lia; by exists 0, (undef 2)) ltac:(by vm_compute)) ltac:(by vm_compute))
    as (r' & m' & H1 & H2 & _).
  exists r', m'. split; [exact H1|exact H2].
Defined.
