(* ===== verification/RingSpsc.v ===== *)
(** reac_ring.c under concurrency: the feeder thread's [reac_ring_write] and the
    realtime callback's [reac_ring_read_planar] and [reac_ring_trim] interleaved
    at every access to shared memory (each atomic load and store, each slot).  A
    step of a thread names its access as an [action]; what the loads of the other
    side's cursor may give is up to the memory.  Here it is sequentially consistent:
    a load gives the newest value.  RingRelaxed has the memory of C11. *)

From S2P Require Import Prelude Ring.

Section Spsc.
Context {F : Type}.

(** where the producer is in [reac_ring_write]; [row c s] is its planar block *)
Inductive producer : Type :=
| PIdle
| PCall (row : Z -> Z -> F) (n : Z)                          (* before loading head *)
| PHead (row : Z -> Z -> F) (n h : Z)                        (* head loaded, before tail *)
| PCopy (row : Z -> Z -> F) (h w c s pos : Z).               (* in the copy loops *)

(** where the consumer is; [got c] are the samples it has read of channel [c] *)
Inductive consumer : Type :=
| CIdle
| CCall (n : Z)
| CHead (n h : Z)
| CCopy (n t real c s pos : Z) (got : Z -> list F)
| CTrim (keep : Z)
| CTrimHead (keep h : Z).

(** one completed read: where in the stream it started, how many columns *)
Record delivery : Type := Delivery { d_start : Z; d_real : Z; d_got : Z -> list F }.

(** the shared ring, the two threads, and the history: every column published,
    how many of them were consumed or trimmed, and the completed reads *)
Record config : Type := Config {
  shared : ring F;
  prod : producer;
  cons : consumer;
  published : list (Z -> F);
  consumed : Z;
  outputs : list delivery;
}.

Definition readable_of (r : ring F) (h t : Z) : Z := Z.land (u32 (h - t)) (r_mask r).
Definition next_pos (r : ring F) (pos : Z) : Z := Z.land (u32 (pos + 1)) (r_mask r).

(** the samples a write of [n] tries to store *)
Definition clipped (r : ring F) (n : Z) : Z := if n >? r_mask r then r_mask r else n.

Definition columns (row : Z -> Z -> F) (w : Z) : list (Z -> F) :=
  (fun s c => row c s) <$> seqZ 0 w.

(** what a step does to shared memory.  The stores of the cursors say also how many
    columns have been published, or consumed, by then; the counters of overruns and
    underruns are left out, nothing depends on them *)
Inductive action : Type :=
| ALocal
| ALoadTail (v : Z)          (* acquire, by the producer *)
| ALoadHead (v : Z)          (* acquire, by the consumer *)
| AStoreHead (v n : Z)       (* release *)
| AStoreTail (v n : Z)       (* release *)
| AWrite (i : Z)             (* plain, by the producer *)
| ARead (i : Z).             (* plain, by the consumer *)

(** the loads a thread does of its own cursor give what it has stored last *)
Inductive step : action -> config -> config -> Prop :=
(* producer *)
| p_call r c hist k out row n :
    0 <= n ->
    step ALocal (Config r PIdle c hist k out) (Config r (PCall row n) c hist k out)
| p_load_head r c hist k out row n :
    step ALocal (Config r (PCall row n) c hist k out) (Config r (PHead row n (r_head r)) c hist k out)
| p_full r c hist k out row n h t :
    let free := u32 (r_mask r - readable_of r h t) in
    clipped r n > free -> free = 0 ->
    step (ALoadTail t) (Config r (PHead row n h) c hist k out)
      (Config (add_overruns (u32 (clipped r n - free)) r) PIdle c hist k out)
| p_overrun r c hist k out row n h t :
    let free := u32 (r_mask r - readable_of r h t) in
    clipped r n > free -> free <> 0 ->
    step (ALoadTail t) (Config r (PHead row n h) c hist k out)
      (Config (add_overruns (u32 (clipped r n - free)) r) (PCopy row h free 0 0 h) c hist k out)
| p_fits r c hist k out row n h t :
    let free := u32 (r_mask r - readable_of r h t) in
    clipped r n <= free ->
    step (ALoadTail t) (Config r (PHead row n h) c hist k out)
      (Config r (PCopy row h (clipped r n) 0 0 h) c hist k out)
| p_store r c hist k out row h w ch s pos :
    ch < r_channels r -> s < w ->
    step (AWrite (ch * r_capacity r + pos)) (Config r (PCopy row h w ch s pos) c hist k out)
      (Config (set_head (upd (r_buf r) (ch * r_capacity r + pos) (row ch s)) (r_head r) r)
         (PCopy row h w ch (s + 1) (next_pos r pos)) c hist k out)
| p_next r c hist k out row h w ch s pos :
    ch < r_channels r -> s = w ->
    step ALocal (Config r (PCopy row h w ch s pos) c hist k out)
      (Config r (PCopy row h w (ch + 1) 0 h) c hist k out)
| p_publish r c hist k out row h w ch s pos :
    ch = r_channels r ->
    let v := Z.land (u32 (h + w)) (r_mask r) in
    step (AStoreHead v (Z.of_nat (length hist) + w)) (Config r (PCopy row h w ch s pos) c hist k out)
      (Config (set_head (r_buf r) v r) PIdle c (hist ++ columns row w) k out)
(* consumer *)
| c_call r p hist k out n :
    0 <= n ->
    step ALocal (Config r p CIdle hist k out) (Config r p (CCall n) hist k out)
| c_load_head r p hist k out n h :
    step (ALoadHead h) (Config r p (CCall n) hist k out) (Config r p (CHead n h) hist k out)
| c_load_tail r p hist k out n h :
    let avail := readable_of r h (r_tail r) in
    step ALocal (Config r p (CHead n h) hist k out)
      (Config r p (CCopy n (r_tail r) (if avail <? n then avail else n) 0 0 (r_tail r) (fun _ => []))
         hist k out)
| c_read r p hist k out n t real ch s pos got v :
    ch < r_channels r -> s < real -> get (r_buf r) (ch * r_capacity r + pos) = Some v ->
    step (ARead (ch * r_capacity r + pos)) (Config r p (CCopy n t real ch s pos got) hist k out)
      (Config r p (CCopy n t real ch (s + 1) (next_pos r pos)
         (fun c' => if c' =? ch then got c' ++ [v] else got c')) hist k out)
| c_next r p hist k out n t real ch s pos got :
    ch < r_channels r -> s = real ->
    step ALocal (Config r p (CCopy n t real ch s pos got) hist k out)
      (Config r p (CCopy n t real (ch + 1) 0 t got) hist k out)
| c_finish r p hist k out n t real ch s pos got :
    ch = r_channels r ->
    let v := Z.land (u32 (t + real)) (r_mask r) in
    step (AStoreTail v (k + real)) (Config r p (CCopy n t real ch s pos got) hist k out)
      (Config (if real <? n then add_underruns (u32 (n - real)) (set_tail v r) else set_tail v r)
         p CIdle hist (k + real) (out ++ [Delivery k real got]))
| c_trim r p hist k out keep :
    0 <= keep ->
    step ALocal (Config r p CIdle hist k out) (Config r p (CTrim keep) hist k out)
| c_trim_head r p hist k out keep h :
    step (ALoadHead h) (Config r p (CTrim keep) hist k out) (Config r p (CTrimHead keep h) hist k out)
| c_trim_keep r p hist k out keep h :
    readable_of r h (r_tail r) <= keep ->
    step ALocal (Config r p (CTrimHead keep h) hist k out) (Config r p CIdle hist k out)
| c_trim_drop r p hist k out keep h :
    let avail := readable_of r h (r_tail r) in
    let drop := u32 (avail - keep) in
    let v := Z.land (u32 (r_tail r + drop)) (r_mask r) in
    avail > keep ->
    step (AStoreTail v (k + drop)) (Config r p (CTrimHead keep h) hist k out)
      (Config (set_tail v r) p CIdle hist (k + drop) out).

(** a sequentially consistent memory *)
Definition newest (a : action) (x : config) : Prop :=
  match a with
  | ALoadTail v => v = r_tail (shared x)
  | ALoadHead v => v = r_head (shared x)
  | _ => True
  end.

Inductive steps : config -> config -> Prop :=
| steps_refl x : steps x x
| steps_cons a x y z : step a x y -> newest a x -> steps y z -> steps x z.

(** the slot a thread is about to access *)
Definition writing (x : config) : option Z :=
  match prod x with
  | PCopy _ _ w c s pos =>
      if (c <? r_channels (shared x)) && (s <? w) then Some (c * r_capacity (shared x) + pos) else None
  | _ => None
  end.
Definition reading (x : config) : option Z :=
  match cons x with
  | CCopy _ _ real c s pos _ =>
      if (c <? r_channels (shared x)) && (s <? real) then Some (c * r_capacity (shared x) + pos) else None
  | _ => None
  end.

(** * The invariant *)

Definition hlen (x : config) : Z := Z.of_nat (length (published x)).

(** slot of column [a] of the stream *)
Definition slot_of (r : ring F) (c a : Z) : Z := c * r_capacity r + a mod r_capacity r.

Definition column_at (hist : list (Z -> F)) (a c : Z) : option F :=
  (fun f => f c) <$> hist !! Z.to_nat a.

Definition producer_ok (r : ring F) (hist : list (Z -> F)) (k : Z) (p : producer) : Prop :=
  let len := Z.of_nat (length hist) in
  match p with
  | PIdle => True
  | PCall _ n => 0 <= n
  | PHead _ n h => 0 <= n /\ h = r_head r
  | PCopy row h w c s pos =>
      h = r_head r /\ 0 <= w <= k + r_capacity r - 1 - len /\ 0 <= c <= r_channels r /\ 0 <= s <= w
      /\ pos = (len + s) mod r_capacity r
      /\ (forall c' s', 0 <= c' < r_channels r -> 0 <= s' < w ->
            c' < c \/ (c' = c /\ s' < s) ->
            get (r_buf r) (slot_of r c' (len + s')) = Some (row c' s'))
  end.

Definition consumer_ok (r : ring F) (hist : list (Z -> F)) (k : Z) (c : consumer) : Prop :=
  let len := Z.of_nat (length hist) in
  match c with
  | CIdle => True
  | CCall n => 0 <= n
  | CTrim keep => 0 <= keep
  | CHead n h => 0 <= n /\ exists a, k <= a <= len /\ h = a mod r_capacity r
  | CTrimHead keep h => 0 <= keep /\ exists a, k <= a <= len /\ h = a mod r_capacity r
  | CCopy n t real ch s pos got =>
      t = r_tail r /\ 0 <= real <= n /\ real <= len - k /\ 0 <= ch <= r_channels r /\ 0 <= s <= real
      /\ pos = (k + s) mod r_capacity r
      /\ (forall c', 0 <= c' < r_channels r ->
            Z.of_nat (length (got c')) = (if c' <? ch then real else if c' =? ch then s else 0)
            /\ forall i v, got c' !! i = Some v -> column_at hist (k + Z.of_nat i) c' = Some v)
  end.

Definition inv (x : config) : Prop :=
  let r := shared x in let k := consumed x in
  ring_ok r /\ 0 <= k <= hlen x /\ hlen x <= k + r_capacity r - 1
  /\ r_head r = hlen x mod r_capacity r /\ r_tail r = k mod r_capacity r
  /\ (forall c a, 0 <= c < r_channels r -> k <= a < hlen x ->
        get (r_buf r) (slot_of r c a) = column_at (published x) a c)
  /\ producer_ok r (published x) k (prod x) /\ consumer_ok r (published x) k (cons x)
  /\ Forall (fun d => 0 <= d_start d /\ d_start d + d_real d <= k /\ 0 <= d_real d
       /\ forall c, 0 <= c < r_channels r -> Z.of_nat (length (d_got d c)) = d_real d
            /\ forall i v, d_got d c !! i = Some v ->
                 column_at (published x) (d_start d + Z.of_nat i) c = Some v) (outputs x).

(** what the invariant needs of a load, new or old: a tail that leaves the producer
    no room it does not have, a head behind which nothing is missing *)
Definition load_ok (a : action) (x : config) : Prop :=
  match a with
  | ALoadTail v => exists m, 0 <= m <= consumed x /\ hlen x <= m + r_capacity (shared x) - 1 /\ v = m mod r_capacity (shared x)
  | ALoadHead v => exists m, consumed x <= m <= hlen x /\ v = m mod r_capacity (shared x)
  | _ => True
  end.

(** the reads are disjoint pieces of the stream, one after the other *)
Definition in_order (outs : list delivery) : Prop := forall i j d e, (i < j)%nat ->
  outs !! i = Some d -> outs !! j = Some e -> d_start d + d_real d <= d_start e.

(** a ring just initialised, both threads idle *)
Definition start (r : ring F) : config := Config r PIdle CIdle [] 0 [].
End Spsc.
Arguments producer F : clear implicits.
Arguments consumer F : clear implicits.
Arguments config F : clear implicits.

(** * Preservation *)

Section Invariant.
Context {F : Type}.
Implicit Types (r : ring F) (hist : list (Z -> F)).

Lemma slot_inj r c a c' a' :
  ring_ok r -> a <= a' < a + r_capacity r -> slot_of r c a = slot_of r c' a' -> c = c' /\ a = a'.
Proof.
  intros HR Ha E. pose proof (ring_cap r HR) as Hcap. unfold slot_of in E.
  apply lex_inj in E as [-> E]; [|apply Z.mod_pos_bound; lia..]. split; [done|].
  assert ((a' - a) mod r_capacity r = 0) as H0
    by (rewrite Zminus_mod, E, Z.sub_diag; apply Z.mod_0_l; lia).
  rewrite Z.mod_small in H0 by lia. lia.
Qed.

Lemma slot_range r c a :
  ring_ok r -> 0 <= c < r_channels r -> 0 <= slot_of r c a < blen (r_buf r).
Proof.
  intros HR Hc. pose proof (ring_cap r HR) as Hcap. pose proof HR as (_ & _ & _ & _ & _ & ->).
  unfold slot_of. pose proof (Z.mod_pos_bound a (r_capacity r) ltac:(lia)). nia.
Qed.

Lemma readable_between r a k :
  ring_ok r -> k <= a <= k + r_capacity r - 1 ->
  readable_of r (a mod r_capacity r) (k mod r_capacity r) = a - k.
Proof.
  intros HR Ha. pose proof (ring_cap r HR). unfold readable_of. rewrite ring_mask by done.
  rewrite Zminus_mod_idemp_l, Zminus_mod_idemp_r. apply Z.mod_small. lia.
Qed.

Lemma next_pos_mod r x : ring_ok r -> next_pos r (x mod r_capacity r) = (x + 1) mod r_capacity r.
Proof. intros HR. unfold next_pos. rewrite ring_mask by done. by rewrite Zplus_mod_idemp_l. Qed.

Lemma column_at_app hist hist' a c v :
  0 <= a -> column_at hist a c = Some v -> column_at (hist ++ hist') a c = Some v.
Proof.
  intros Ha H. unfold column_at in *. apply fmap_Some in H as (f & Hf & ->).
  by rewrite (lookup_app_l_Some _ _ _ _ Hf).
Qed.

Lemma column_at_lt hist a c :
  0 <= a < Z.of_nat (length hist) -> is_Some (column_at hist a c).
Proof.
  intros Ha. unfold column_at. destruct (lookup_lt_is_Some_2 hist (Z.to_nat a)) as [f ->]; [lia|].
  by eexists.
Qed.

Lemma column_at_new hist row w a c :
  0 <= w -> Z.of_nat (length hist) <= a < Z.of_nat (length hist) + w ->
  column_at (hist ++ columns row w) a c = Some (row c (a - Z.of_nat (length hist))).
Proof.
  intros Hw Ha. unfold column_at, columns. rewrite lookup_app_r by lia.
  rewrite list_lookup_fmap, lookup_seqZ_lt by lia. cbn. do 2 f_equal. lia.
Qed.

Lemma columns_length row w : 0 <= w -> Z.of_nat (length (columns (F := F) row w)) = w.
Proof. intros Hw. unfold columns. rewrite length_fmap, length_seqZ. lia. Qed.

(** the consumer does not see the producer's cursor or counters move *)
Lemma consumer_ok_ext r r' hist hist' k c :
  r_tail r' = r_tail r -> r_capacity r' = r_capacity r -> r_channels r' = r_channels r -> 0 <= k ->
  consumer_ok r hist k c -> consumer_ok r' (hist ++ hist') k c.
Proof.
  intros E1 E2 E3 Hk H. pose proof (length_app hist hist') as Hl. destruct c; cbn in *; try done.
  - destruct H as (? & a & ? & ?). split; [done|]. exists a. rewrite E2. split; [lia|done].
  - destruct H as (-> & H2 & H3 & H4 & H5 & H6 & H7). rewrite E1, E2, E3.
    do 2 (split; [done|]). split; [lia|]. do 3 (split; [done|]).
    intros c' Hc'. destruct (H7 c' Hc') as [L1 L2]. split; [done|].
    intros i v Hi. apply column_at_app; [lia|]. by apply L2.
  - destruct H as (? & a & ? & ?). split; [done|]. exists a. rewrite E2. split; [lia|done].
Qed.

Lemma consumer_ok_same r r' hist k c :
  r_tail r' = r_tail r -> r_capacity r' = r_capacity r -> r_channels r' = r_channels r -> 0 <= k ->
  consumer_ok r hist k c -> consumer_ok r' hist k c.
Proof.
  intros E1 E2 E3 Hk H. rewrite <- (app_nil_r hist). apply (consumer_ok_ext r); done || lia.
Qed.

(** the producer keeps its room when the consumer moves the tail on *)
Lemma producer_ok_ext r r' hist k k' p :
  r_head r' = r_head r -> r_capacity r' = r_capacity r -> r_channels r' = r_channels r ->
  r_buf r' = r_buf r -> k <= k' ->
  producer_ok r hist k p -> producer_ok r' hist k' p.
Proof.
  intros E1 E2 E3 E4 Hk H. destruct p; cbn in *; try done.
  - by rewrite E1.
  - destruct H as (-> & H2 & H3 & H4 & H5 & H6). rewrite E1, E2, E3, E4.
    split; [done|]. split; [lia|]. do 3 (split; [done|]).
    intros c' s' Hc' Hs' Hd. unfold slot_of. rewrite E2. by apply H6.
Qed.

Lemma ring_ok_ext r r' :
  ring_ok r -> r_capacity r' = r_capacity r -> r_mask r' = r_mask r -> r_channels r' = r_channels r ->
  blen (r_buf r') = blen (r_buf r) -> 0 <= r_head r' < r_capacity r -> 0 <= r_tail r' < r_capacity r ->
  ring_ok r'.
Proof.
  intros (H1 & H2 & H3 & H4 & H5 & H6) E1 E2 E3 E4 E5 E6. unfold ring_ok. by rewrite E1, E2, E3, E4.
Qed.

Definition outputs_ok (nch : Z) hist (k : Z) (outs : list (delivery (F := F))) : Prop :=
  Forall (fun d => 0 <= d_start d /\ d_start d + d_real d <= k /\ 0 <= d_real d
       /\ forall c, 0 <= c < nch -> Z.of_nat (length (d_got d c)) = d_real d
            /\ forall i v, d_got d c !! i = Some v ->
                 column_at hist (d_start d + Z.of_nat i) c = Some v) outs.

Lemma outputs_ok_app nch hist hist' k outs :
  outputs_ok nch hist k outs -> outputs_ok nch (hist ++ hist') k outs.
Proof.
  intros H. eapply Forall_impl; [exact H|]. intros d (H1 & H2 & H3 & H4). do 3 (split; [done|]).
  intros c Hc. destruct (H4 c Hc) as [L1 L2]. split; [done|]. intros i v Hi.
  apply column_at_app; [lia|]. by apply L2.
Qed.

Lemma outputs_ok_mono nch hist k k' outs : k <= k' -> outputs_ok nch hist k outs -> outputs_ok nch hist k' outs.
Proof.
  intros Hk H. eapply Forall_impl; [exact H|]. intros d (H1 & H2 & H3 & H4). split; [done|]. split; [lia|done].
Qed.

(** the room the producer finds when the tail it reads stands for [m] columns *)
Lemma free_slots_bound r hist m :
  ring_ok r -> 0 <= m <= Z.of_nat (length hist) -> Z.of_nat (length hist) <= m + r_capacity r - 1 ->
  r_head r = Z.of_nat (length hist) mod r_capacity r ->
  u32 (r_mask r - readable_of r (r_head r) (m mod r_capacity r)) = m + r_capacity r - 1 - Z.of_nat (length hist).
Proof.
  intros HR Hm Hl ->. pose proof (ring_cap r HR). pose proof HR as (_ & E & _).
  rewrite readable_between, E by (done || lia). unfold u32. rewrite Z.mod_small; lia.
Qed.

Lemma clipped_range r n : ring_ok r -> 0 <= n -> 0 <= clipped r n <= r_mask r.
Proof.
  intros HR Hn. pose proof (ring_cap r HR). pose proof HR as (_ & Hm & _).
  unfold clipped. rewrite Z.gtb_ltb. destruct (Z.ltb_spec (r_mask r) n); lia.
Qed.

(** ** The producer's steps *)

Lemma inv_start_copy r r' c hist k out row w :
  inv (Config r (PHead row w (r_head r)) c hist k out) ->
  r_buf r' = r_buf r -> r_capacity r' = r_capacity r -> r_mask r' = r_mask r ->
  r_channels r' = r_channels r -> r_head r' = r_head r -> r_tail r' = r_tail r ->
  0 <= w <= k + r_capacity r - 1 - Z.of_nat (length hist) ->
  inv (Config r' (PCopy row (r_head r) w 0 0 (r_head r)) c hist k out).
Proof.
  intros (HR & Hk & Hl & Hh & Ht & Hq & _ & Hc & Ho) E1 E2 E3 E4 E5 E6 Hw. cbn in *.
  pose proof HR as (_ & _ & Hch & Hhr & Htr & _).
  unfold inv; cbn. rewrite E2, E4, E5, E6. unfold slot_of in *. rewrite E2, E1.
  split; [eapply ring_ok_ext; try done; by rewrite ?E1, ?E5, ?E6|]. do 5 (split; [done|]).
  split; [|split; [eapply (consumer_ok_same r); done || lia|done]].
  split; [done|]. split; [lia|]. split; [lia|]. split; [lia|].
  rewrite Z.add_0_r. split; [done|]. lia.
Qed.

Lemma inv_store r c hist k out row h w ch s pos :
  inv (Config r (PCopy row h w ch s pos) c hist k out) -> ch < r_channels r -> s < w ->
  inv (Config (set_head (upd (r_buf r) (ch * r_capacity r + pos) (row ch s)) (r_head r) r)
         (PCopy row h w ch (s + 1) (next_pos r pos)) c hist k out).
Proof.
  intros (HR & Hk & Hl & Hh & Ht & Hq & (-> & Hw & Hch & Hs & -> & Hd) & Hc & Ho) Hlt Hsw. unfold inv in *; cbn in *.
  unfold hlen in *; cbn in *. pose proof HR as (_ & _ & _ & Hhr & Htr & _). pose proof (ring_cap r HR) as Hcap.
  set (len := Z.of_nat (length hist)) in *.
  change (ch * r_capacity r + (len + s) mod r_capacity r) with (slot_of r ch (len + s)).
  assert (0 <= slot_of r ch (len + s) < blen (r_buf r)) as Hsl by (apply slot_range; [done|lia]).
  split; [eapply ring_ok_ext; try done; cbn; by rewrite blen_upd|]. do 4 (split; [done|]).
  split; [|split; [|split; [eapply (consumer_ok_same r); done || lia|done]]].
  - intros c' a Hc' Ha. change (slot_of (set_head _ _ r) c' a) with (slot_of r c' a).
    rewrite get_upd_ne; [by apply Hq|lia|].
    intros E. apply slot_inj in E; [lia|done|lia].
  - split; [done|]. split; [done|]. split; [lia|]. split; [lia|].
    split; [rewrite next_pos_mod by done; f_equal; lia|].
    intros c' s' Hc' Hs' Hdone. change (slot_of (set_head _ _ r) c' (len + s')) with (slot_of r c' (len + s')).
    rewrite get_upd by done. destruct (decide (slot_of r c' (len + s') = slot_of r ch (len + s))) as [E|Hne].
    + assert (c' = ch /\ s' = s) as [-> ->]; [|done].
      destruct (Z.le_ge_cases s' s).
      * apply slot_inj in E; [lia|done|lia].
      * symmetry in E. apply slot_inj in E; [lia|done|lia].
    + apply Hd; [done|done|]. destruct Hdone as [?|[-> ?]]; [by left|].
      right. split; [done|]. assert (s' <> s) by (intros ->; done). lia.
Qed.

Lemma inv_publish r c hist k out row h w s pos :
  inv (Config r (PCopy row h w (r_channels r) s pos) c hist k out) ->
  inv (Config (set_head (r_buf r) (Z.land (u32 (h + w)) (r_mask r)) r) PIdle c
         (hist ++ columns row w) k out).
Proof.
  intros (HR & Hk & Hl & Hh & Ht & Hq & (-> & Hw & Hch & Hs & -> & Hd) & Hc & Ho). unfold inv in *; cbn in *.
  unfold hlen in *; cbn in *. pose proof HR as (_ & _ & _ & Hhr & Htr & _). pose proof (ring_cap r HR) as Hcap.
  assert (Z.of_nat (length (hist ++ columns row w)) = Z.of_nat (length hist) + w) as El
    by (rewrite length_app, Nat2Z.inj_add, columns_length by lia; done).
  rewrite El, ring_mask by done.
  split; [eapply ring_ok_ext; try done; cbn; apply Z.mod_pos_bound; lia|]. split; [lia|]. split; [lia|].
  split; [by rewrite Hh, Zplus_mod_idemp_l|]. split; [done|].
  split; [|split; [done|split; [apply (consumer_ok_ext r); done || lia|by apply outputs_ok_app]]].
  intros c' a Hc' Ha. change (slot_of (set_head _ _ r) c' a) with (slot_of r c' a).
  destruct (decide (a < Z.of_nat (length hist))) as [Hlt|Hge].
  - rewrite Hq by lia. destruct (column_at_lt hist a c') as [v Hv]; [lia|]. rewrite Hv.
    symmetry. apply column_at_app; [lia|done].
  - rewrite column_at_new by lia.
    replace a with (Z.of_nat (length hist) + (a - Z.of_nat (length hist))) at 1 by lia.
    apply Hd; lia.
Qed.

(** ** The consumer's steps *)

(** the consumer moves the tail past [d] columns *)
Lemma inv_advance r r' p c hist k out out' d :
  inv (Config r p c hist k out) -> 0 <= d <= Z.of_nat (length hist) - k ->
  r_buf r' = r_buf r -> r_capacity r' = r_capacity r -> r_mask r' = r_mask r ->
  r_channels r' = r_channels r -> r_head r' = r_head r ->
  r_tail r' = Z.land (u32 (r_tail r + d)) (r_mask r) ->
  outputs_ok (r_channels r) hist (k + d) out' ->
  inv (Config r' p CIdle hist (k + d) out').
Proof.
  intros (HR & Hk & Hl & Hh & Ht & Hq & Hp & _ & _) Hd E1 E2 E3 E4 E5 E6 Ho. unfold inv, hlen in *; cbn in *.
  pose proof (ring_cap r HR) as Hcap. pose proof HR as (_ & _ & _ & Hhr & _).
  rewrite ring_mask, Ht, Zplus_mod_idemp_l in E6 by done.
  rewrite E2, E4, E5. unfold slot_of in *. rewrite E1, E2.
  split; [eapply ring_ok_ext; try done; rewrite ?E1, ?E5, ?E6; (done || apply Z.mod_pos_bound; lia)|].
  split; [lia|]. split; [lia|]. split; [done|]. split; [done|].
  split; [intros c' a Hc' Ha; apply Hq; lia|].
  split; [by apply (producer_ok_ext r _ _ k); (done || lia)|]. by split.
Qed.

Lemma inv_read r p hist k out n t real ch s pos got v :
  inv (Config r p (CCopy n t real ch s pos got) hist k out) -> ch < r_channels r -> s < real ->
  get (r_buf r) (ch * r_capacity r + pos) = Some v ->
  inv (Config r p (CCopy n t real ch (s + 1) (next_pos r pos)
         (fun c' => if c' =? ch then got c' ++ [v] else got c')) hist k out).
Proof.
  intros (HR & Hk & Hl & Hh & Ht & Hq & Hp & (-> & Hre & Hrl & Hch & Hs & -> & Hg) & Ho) Hlt Hsr Hv.
  unfold inv, hlen in *; cbn in *.
  do 7 (split; [done|]). split; [|done]. split; [done|]. split; [done|]. split; [done|]. split; [done|].
  split; [lia|]. split; [rewrite next_pos_mod by done; f_equal; lia|].
  intros c' Hc'. destruct (Hg c' Hc') as [L1 L2]. destruct (Z.eqb_spec c' ch) as [->|Hne].
  - rewrite Z.ltb_irrefl in *. rewrite length_app; cbn [length]. split; [lia|].
    intros i v' Hi. apply lookup_snoc_Some in Hi as [[_ Hi]|[-> <-]]; [by apply L2|].
    rewrite L1, <- Hq by lia. exact Hv.
  - done.
Qed.

(** what the consumer is about to read is there *)
Lemma read_enabled r p hist k out n t real ch s pos got :
  inv (Config r p (CCopy n t real ch s pos got) hist k out) -> ch < r_channels r -> s < real ->
  is_Some (get (r_buf r) (ch * r_capacity r + pos)).
Proof.
  intros (HR & Hk & Hl & Hh & Ht & Hq & Hp & (-> & Hre & Hrl & Hch & Hs & -> & Hg) & Ho) Hlt Hsr.
  unfold hlen in *; cbn in *. fold (slot_of r ch (k + s)). rewrite Hq by lia.
  apply column_at_lt. lia.
Qed.

Lemma readable_cursors r p c hist k out a :
  inv (Config r p c hist k out) -> k <= a <= Z.of_nat (length hist) ->
  readable_of r (a mod r_capacity r) (r_tail r) = a - k.
Proof.
  intros (HR & Hk & Hl & Hh & Ht & _) Ha. unfold hlen in *; cbn in *. rewrite Ht.
  apply readable_between; [done|lia].
Qed.

Lemma inv_local r p p' c c' hist k out :
  inv (Config r p c hist k out) -> (producer_ok r hist k p -> producer_ok r hist k p') ->
  (consumer_ok r hist k c -> consumer_ok r hist k c') -> inv (Config r p' c' hist k out).
Proof.
  intros (HR & Hk & Hl & Hh & Ht & Hq & Hp & Hc & Ho) H1 H2. do 6 (split; [done|]).
  split; [by apply H1|]. split; [by apply H2|done].
Qed.

Lemma inv_producer_call r c hist k out row n h t :
  inv (Config r (PHead row n h) c hist k out) -> load_ok (ALoadTail t) (Config r (PHead row n h) c hist k out) ->
  0 <= n /\ h = r_head r /\ 0 <= clipped r n <= r_capacity r - 1
  /\ exists m, 0 <= m <= k /\ Z.of_nat (length hist) <= m + r_capacity r - 1 /\ t = m mod r_capacity r
       /\ u32 (r_mask r - readable_of r h t) = m + r_capacity r - 1 - Z.of_nat (length hist).
Proof.
  intros (HR & Hk & Hl & Hh & Ht & _ & (Hn & ->) & _) (m & Hm & Hlm & ->). unfold hlen in *; cbn in *.
  pose proof (clipped_range r n HR Hn). pose proof HR as (_ & Em & _).
  do 2 (split; [done|]). split; [lia|]. exists m. do 3 (split; [done|]). apply free_slots_bound; (done || lia).
Qed.

(** the producer goes on to the next channel *)
Lemma inv_producer_next r c hist k out row h w ch pos :
  inv (Config r (PCopy row h w ch w pos) c hist k out) -> ch < r_channels r ->
  inv (Config r (PCopy row h w (ch + 1) 0 h) c hist k out).
Proof.
  intros HI Hlt. eapply inv_local; [exact HI| |done]. intros (-> & Hw & Hch & Hs & _ & Hd). cbn.
  split; [done|]. split; [done|]. split; [lia|]. split; [lia|].
  destruct HI as (HR & Hk & Hl & Hh & _). unfold hlen in *; cbn in *.
  split; [by rewrite Z.add_0_r|]. intros c' s' Hc' Hs' Hdone. apply Hd; lia.
Qed.

(** the consumer takes a number of columns to copy *)
Lemma inv_start_read r p hist k out n h :
  inv (Config r p (CHead n h) hist k out) ->
  inv (Config r p (CCopy n (r_tail r) (if readable_of r h (r_tail r) <? n then readable_of r h (r_tail r) else n)
                     0 0 (r_tail r) (fun _ => [])) hist k out).
Proof.
  intros HI. eapply inv_local; [exact HI|done|]. intros (Hn & a & Ha & ->).
  rewrite (readable_cursors _ _ _ _ _ _ _ HI Ha). cbn.
  destruct HI as (HR & Hk & Hl & Hh & Ht & _). unfold hlen in *; cbn in *.
  pose proof HR as (_ & _ & Hch & _).
  split; [done|]. destruct (Z.ltb_spec (a - k) n); (split; [lia|]; split; [lia|]; split; [lia|];
    split; [lia|]; split; [by rewrite Z.add_0_r|]; intros c' Hc'; split; [|done];
    destruct (Z.ltb_spec c' 0), (c' =? 0); done || lia).
Qed.

(** and goes on to the next channel *)
Lemma inv_consumer_next r p hist k out n t real ch pos got :
  inv (Config r p (CCopy n t real ch real pos got) hist k out) -> ch < r_channels r ->
  inv (Config r p (CCopy n t real (ch + 1) 0 t got) hist k out).
Proof.
  intros HI Hlt. eapply inv_local; [exact HI|done|]. intros (-> & Hre & Hrl & Hch & Hs & _ & Hg). cbn.
  destruct HI as (HR & Hk & Hl & Hh & Ht & _). unfold hlen in *; cbn in *.
  do 3 (split; [done|]). split; [lia|]. split; [lia|]. split; [by rewrite Z.add_0_r|].
  intros c' Hc'. destruct (Hg c' Hc') as [L1 L2]. split; [|done]. rewrite L1.
  destruct (Z.ltb_spec c' ch), (Z.ltb_spec c' (ch + 1)), (Z.eqb_spec c' ch), (Z.eqb_spec c' (ch + 1)); lia.
Qed.

(** it delivers what it has copied *)
Lemma inv_finish r p hist k out n t real s pos got :
  inv (Config r p (CCopy n t real (r_channels r) s pos got) hist k out) ->
  inv (Config (let v := Z.land (u32 (t + real)) (r_mask r) in
               if real <? n then add_underruns (u32 (n - real)) (set_tail v r) else set_tail v r)
         p CIdle hist (k + real) (out ++ [Delivery k real got])).
Proof.
  intros HI. pose proof HI as (HR & Hk & Hl & Hh & Ht & Hq & Hp & (Et & Hre & Hrl & _ & Hs & -> & Hg) & Ho).
  unfold hlen in *; cbn in *. eapply inv_advance; [exact HI|lia|..]; try (by destruct (real <? n)).
  - destruct (real <? n); cbn; by rewrite Et.
  - apply Forall_app. split; [eapply outputs_ok_mono; [|exact Ho]; lia|].
    apply Forall_singleton; cbn. do 3 (split; [lia|]). intros c' Hc'.
    destruct (Hg c' Hc') as [L1 L2]. by rewrite L1, (proj2 (Z.ltb_lt _ _)) by lia.
Qed.

(** what a step leaves alone *)
Lemma step_geometry a (x y : config F) : step a x y ->
  r_channels (shared y) = r_channels (shared x) /\ r_capacity (shared y) = r_capacity (shared x).
Proof. destruct 1; cbn; try case_match; done. Qed.

Lemma inv_step a (x y : config F) : step a x y -> load_ok a x -> inv x -> inv y.
Proof.
  destruct 1; intros HL HI; try subst s; try subst ch; eauto using inv_store, inv_publish,
    inv_producer_next, inv_start_read, inv_read, inv_consumer_next, inv_finish; try (by eapply inv_local).
  - destruct (inv_producer_call _ _ _ _ _ _ _ _ _ HI HL) as (Hn & -> & Hc & m & Hm & Hlm & _ & Hf).
    fold free in Hf. eapply inv_start_copy; [|done..|lia].
    eapply inv_local; [exact HI| |done]. intros _. cbn. split; [lia|done].
  - destruct (inv_producer_call _ _ _ _ _ _ _ _ _ HI HL) as (Hn & -> & Hc & m & Hm & Hlm & _ & Hf).
    fold free in Hf. eapply inv_start_copy; [|done..|lia]. eapply inv_local; [exact HI| |done].
    intros _. cbn. split; [lia|done].
  - pose proof HI as (HR & Hk & Hl & Hh & Ht & Hq & Hp & (Hke & a & Ha & Eh) & Ho).
    unfold hlen in *; cbn in *. subst h. unfold v, drop, avail in *.
    pose proof (readable_cursors _ _ _ _ _ _ _ HI Ha) as Er. rewrite Er in *.
    pose proof (ring_cap r HR).
    assert (u32 (a - k - keep) = a - k - keep) as -> by (apply Z.mod_small; lia).
    eapply inv_advance; [exact HI|lia|done..|]. eapply outputs_ok_mono; [|exact Ho]. lia.
Qed.

Lemma in_order_step a (x y : config F) : step a x y -> inv x -> in_order (outputs x) -> in_order (outputs y).
Proof.
  destruct 1; try done. intros (_ & _ & _ & _ & _ & _ & _ & _ & Ho) HO. cbn in *. intros i j d e Hij Hi Hj.
  apply lookup_snoc_Some in Hj as [[Hlt Hj]|[-> <-]].
  - apply lookup_snoc_Some in Hi as [[_ Hi]|[-> <-]]; [by apply (HO i j)|lia].
  - apply lookup_snoc_Some in Hi as [[_ Hi]|[-> <-]]; [|lia].
    rewrite Forall_forall in Ho. apply (Ho d). by eapply list_elem_of_lookup_2.
Qed.

(** the newest values will do *)
Lemma newest_ok a (x : config F) : inv x -> newest a x -> load_ok a x.
Proof.
  intros (HR & Hk & Hl & Hh & Ht & _) H. destruct a; try done; cbn in *; rewrite H.
  - exists (consumed x). by repeat (split; [lia|]).
  - exists (hlen x). split; [lia|done].
Qed.

Lemma inv_steps (x y : config F) : steps x y -> inv x -> inv y.
Proof. induction 1; eauto using inv_step, newest_ok. Qed.

Lemma inv_start r : represents r (0, fun _ => []) -> r_head r = 0 -> r_tail r = 0 -> inv (start r).
Proof.
  intros (HR & _) Hh Ht. pose proof (ring_cap r HR). unfold inv, hlen; cbn.
  split; [done|]. split; [lia|]. split; [lia|]. rewrite Hh, Ht, Z.mod_0_l by lia.
  do 2 (split; [done|]). split; [lia|]. by repeat split.
Qed.
End Invariant.

(** * Properties *)

(** The lock-free ring is safe under every interleaving on a sequentially
    consistent memory.  From an initialised ring, in every state that any interleaving of the two threads'
    accesses reaches: the slot the producer is about to write is never the slot
    the consumer is about to read; that slot is inside the buffer and holds an
    initialised sample; and every completed read delivered, for every channel,
    exactly the columns published from its starting point on, in order, with
    nothing repeated, torn or invented. *)
Theorem spsc_safe {F} (fzero : F) (channels_ frames : Z) r (x : config F)
  (Hc : 0 <= channels_) (Hf : frames <= 2147483648)
  (Hr : reac_ring_init fzero true channels_ frames = Some r) (Hx : steps (start r) x) :
  (forall i j, writing x = Some i -> reading x = Some j -> i <> j)
  /\ (forall j, reading x = Some j -> is_Some (get (r_buf (shared x)) j))
  /\ (forall i, writing x = Some i -> 0 <= i < blen (r_buf (shared x)))
  /\ (forall d, d ∈ outputs x ->
        0 <= d_start d /\ d_start d + d_real d <= consumed x
        /\ forall c, 0 <= c < r_channels (shared x) ->
             Z.of_nat (length (d_got d c)) = d_real d
             /\ forall i v, d_got d c !! i = Some v ->
                  exists col, published x !! Z.to_nat (d_start d + Z.of_nat i) = Some col /\ col c = v)
  /\ 0 <= consumed x <= Z.of_nat (length (published x)).
Proof.
  destruct (ring_init_ok fzero channels_ frames r Hc Hf Hr) as [HR HH].
  assert (inv x) as HI.
  { eapply inv_steps; [exact Hx|]. unfold reac_ring_init in Hr. injection Hr as <-.
    apply inv_start; [|done|done]. by split. }
  clear Hx HR HH Hr. destruct x as [r1 p c hist k out]. unfold writing, reading; cbn.
  pose proof HI as (HR & Hk & Hl & Hh & Ht & Hq & Hp & Hcn & Ho). unfold hlen in *; cbn in *.
  split; [|split; [|split; [|split; [|done]]]].
  - intros i j Hi Hj. destruct p as [| | |row h w pc ps ppos]; try done.
    destruct c as [| | |n t real cc cs cpos got| |]; try done.
    destruct (Z.ltb_spec pc (r_channels r1)), (Z.ltb_spec ps w); try done. injection Hi as <-.
    destruct (Z.ltb_spec cc (r_channels r1)), (Z.ltb_spec cs real); try done. injection Hj as <-.
    destruct Hp as (-> & P2 & P3 & P4 & -> & _), Hcn as (-> & C2 & C3 & C4 & C5 & -> & _).
    fold (slot_of r1 pc (Z.of_nat (length hist) + ps)). fold (slot_of r1 cc (k + cs)).
    intros E. symmetry in E. apply slot_inj in E; [lia|done|lia].
  - intros j Hj. destruct c as [| | |n t real cc cs cpos got| |]; try done.
    destruct (Z.ltb_spec cc (r_channels r1)), (Z.ltb_spec cs real); try done. injection Hj as <-.
    by eapply read_enabled.
  - intros i Hi. destruct p as [| | |row h w pc ps ppos]; try done.
    destruct (Z.ltb_spec pc (r_channels r1)), (Z.ltb_spec ps w); try done. injection Hi as <-.
    destruct Hp as (-> & P2 & P3 & P4 & -> & _). apply slot_range; [done|lia].
  - intros d Hd. rewrite Forall_forall in Ho. destruct (Ho d Hd) as (O1 & O2 & O3 & O4).
    do 2 (split; [done|]). intros c' Hc'. destruct (O4 c' Hc') as [L1 L2]. split; [done|].
    intros i v Hi. specialize (L2 i v Hi). unfold column_at in L2.
    apply fmap_Some in L2 as (col & ? & ->). by exists col.
Qed.

Lemma spsc_safe_witness :
  exists x, steps (start toy_ring) x /\ writing x = Some 0 /\ 0 <= consumed x.
Proof.
  set (x := Config toy_ring (PCopy (fun _ s => 11 + s) 0 3 0 0 0) CIdle [] 0 []).
  assert (steps (start toy_ring) x) as Hx.
  { eapply steps_cons; [by apply (p_call _ _ _ _ _ (fun _ s => 11 + s) 3)|done|].
    eapply steps_cons; [apply p_load_head|done|]. eapply steps_cons; [by apply (p_fits _ _ _ _ _ _ _ _ 0)|done|].
    apply steps_refl. }
  exists x. split; [exact Hx|]. split; [reflexivity|].
  apply (spsc_safe 0 1 4 toy_ring x ltac:(lia) ltac:(lia) eq_refl Hx).
Defined.
