(* ===== verification/RingRelaxed.v ===== *)
(** reac_ring.c on the memory of C11.  An acquire load of the other side's cursor may
    give an old value; what a thread knows of the other side's plain accesses is what
    the release stores it has read from carry.  A plain access that the other side's
    conflicting access does not happen before is a data race.  The ring has none, and
    delivers the stream on this memory too. *)

From S2P Require Import Prelude Ring RingSpsc.

(** * The memory *)

(** a store of a cursor: its value, the storing thread's clock, and the columns
    published (consumed) by then *)
Record message : Type := Message { m_value : Z; m_time : Z; m_count : Z }.

(** the stores of the two cursors in their modification order, each with one writing
    thread; the newest one the other thread has read; for each thread a clock of its
    plain accesses and how far it is synchronised with the other's; for each cell of
    the buffer the times of the last write and of the last read *)
Record memory : Type := Memory {
  heads : list message;
  tails : list message;
  c_seen : nat;
  p_seen : nat;
  p_clock : Z;
  c_clock : Z;
  c_view : Z;
  p_view : Z;
  wrote : Z -> Z;
  fetched : Z -> Z;
}.

(** after [reac_ring_init], before the threads start *)
Definition memory_start : memory :=
  Memory [Message 0 0 0] [Message 0 0 0] 0 0 0 0 0 0 (fun _ => 0) (fun _ => 0).

Definition stamp (f : Z -> Z) (i t : Z) : Z -> Z := fun j => if j =? i then t else f j.

(** coherence: a load never goes back; an acquire load joins the view *)
Inductive access : action -> memory -> memory -> Prop :=
| a_local m : access ALocal m m
| a_load_head hs ts cs ps pc cc cv pv wr fe j v t n :
    (cs <= j)%nat -> hs !! j = Some (Message v t n) ->
    access (ALoadHead v) (Memory hs ts cs ps pc cc cv pv wr fe) (Memory hs ts j ps pc cc (Z.max cv t) pv wr fe)
| a_load_tail hs ts cs ps pc cc cv pv wr fe j v t n :
    (ps <= j)%nat -> ts !! j = Some (Message v t n) ->
    access (ALoadTail v) (Memory hs ts cs ps pc cc cv pv wr fe) (Memory hs ts cs j pc cc cv (Z.max pv t) wr fe)
| a_store_head hs ts cs ps pc cc cv pv wr fe v n :
    access (AStoreHead v n) (Memory hs ts cs ps pc cc cv pv wr fe)
      (Memory (hs ++ [Message v pc n]) ts cs ps pc cc cv pv wr fe)
| a_store_tail hs ts cs ps pc cc cv pv wr fe v n :
    access (AStoreTail v n) (Memory hs ts cs ps pc cc cv pv wr fe)
      (Memory hs (ts ++ [Message v cc n]) cs ps pc cc cv pv wr fe)
| a_write hs ts cs ps pc cc cv pv wr fe i :
    access (AWrite i) (Memory hs ts cs ps pc cc cv pv wr fe)
      (Memory hs ts cs ps (pc + 1) cc cv pv (stamp wr i (pc + 1)) fe)
| a_read hs ts cs ps pc cc cv pv wr fe i :
    access (ARead i) (Memory hs ts cs ps pc cc cv pv wr fe)
      (Memory hs ts cs ps pc (cc + 1) cv pv wr (stamp fe i (cc + 1))).

Section Relaxed.
Context {F : Type}.
Implicit Types (x y : config F) (m : memory) (r : ring F) (hist : list (Z -> F)).

Definition state : Type := config F * memory.

(** the threads on this memory *)
Definition rstep (s s' : state) : Prop := exists a, step a s.1 s'.1 /\ access a s.2 s'.2.

Inductive rsteps : state -> state -> Prop :=
| rsteps_refl s : rsteps s s
| rsteps_cons s s' s'' : rstep s s' -> rsteps s' s'' -> rsteps s s''.

(** a thread is about to touch a cell whose last conflicting access it is not
    synchronised with *)
Definition race (s : state) : Prop :=
  (exists i, writing s.1 = Some i /\ p_view s.2 < fetched s.2 i)
  \/ (exists i, reading s.1 = Some i /\ c_view s.2 < wrote s.2 i).

(** * The invariant *)

(** the stores [ms] of one cursor: their values, at most [top] columns each, in
    increasing order; every access of the storing thread to a column it [covers] was
    over by the store *)
Definition log_ok r (top : Z) (covers : Z -> Z -> Prop) (at_ : Z -> Z) (ms : list message) : Prop :=
  (forall j v t n, ms !! j = Some (Message v t n) ->
     v = n mod r_capacity r /\ 0 <= n <= top
     /\ forall c a, 0 <= c < r_channels r -> covers n a -> at_ (slot_of r c a) <= t)
  /\ (forall i j a b, (i <= j)%nat -> ms !! i = Some a -> ms !! j = Some b -> m_count a <= m_count b).

(** the last store is of the cursor's value [v], at [n] columns *)
Definition last_is (ms : list message) (v n : Z) : Prop := exists t, last ms = Some (Message v t n).

(** the columns a head gives to the consumer, and a tail to the producer *)
Definition given_by_head (k n a : Z) : Prop := k <= a < n.
Definition given_by_tail (len cap n a : Z) : Prop := len <= a < n + cap.

(** what the two threads have made of the last cursor they read *)
Definition room (len cap n : Z) (p : producer F) : Prop :=
  match p with PCopy _ _ w _ _ _ => len + w <= n + cap - 1 | _ => True end.
Definition sees (k v n : Z) (c : consumer F) : Prop :=
  match c with
  | CHead _ h | CTrimHead _ h => h = v
  | CCopy _ _ real _ _ _ _ => real <= n - k
  | _ => True
  end.

Record sync_ok (x : config F) (m : memory) : Prop := {
  s_heads : log_ok (shared x) (hlen x) (given_by_head (consumed x)) (wrote m) (heads m);
  s_tails : log_ok (shared x) (consumed x) (given_by_tail (hlen x) (r_capacity (shared x))) (fetched m) (tails m);
  s_head : last_is (heads m) (r_head (shared x)) (hlen x);
  s_tail : last_is (tails m) (r_tail (shared x)) (consumed x);
  s_consumer : exists v t n, heads m !! c_seen m = Some (Message v t n) /\ consumed x <= n /\ t <= c_view m
                 /\ sees (consumed x) v n (cons x);
  s_producer : exists v t n, tails m !! p_seen m = Some (Message v t n)
                 /\ hlen x <= n + r_capacity (shared x) - 1 /\ t <= p_view m
                 /\ room (hlen x) (r_capacity (shared x)) n (prod x);
  s_wrote : forall i, wrote m i <= p_clock m;
  s_fetched : forall i, fetched m i <= c_clock m;
}.

(** ** Logs *)

Lemma log_weaken r top top' (covers covers' : Z -> Z -> Prop) at_ ms : top <= top' ->
  (forall n a, n <= top -> covers' n a -> covers n a) ->
  log_ok r top covers at_ ms -> log_ok r top' covers' at_ ms.
Proof.
  intros Ht Hc [H HM]. split; [|done]. intros j v t n Hj. destruct (H j v t n Hj) as (H1 & H2 & H3).
  split; [done|]. split; [lia|]. intros c a Hch Ha. apply H3; [done|]. apply Hc; [lia|done].
Qed.

(** an access to a column that none of the stores covers *)
Lemma log_stamp r top covers at_ ms c0 a0 t0 : ring_ok r ->
  (forall n a, n <= top -> covers n a -> a0 < a < a0 + r_capacity r \/ a < a0 < a + r_capacity r) ->
  log_ok r top covers at_ ms -> log_ok r top covers (stamp at_ (slot_of r c0 a0) t0) ms.
Proof.
  intros HR Hd [H HM]. split; [|done]. intros j v t n Hj. destruct (H j v t n Hj) as (H1 & H2 & H3).
  split; [done|]. split; [done|]. intros c a Hch Ha. unfold stamp.
  destruct (Z.eqb_spec (slot_of r c a) (slot_of r c0 a0)) as [E|_]; [|by apply H3].
  destruct (Hd n a ltac:(lia) Ha) as [Hlt|Hlt].
  - symmetry in E. apply slot_inj in E; [lia|done|lia].
  - apply slot_inj in E; [lia|done|lia].
Qed.

(** one more store, of a thread whose accesses are all before [t] *)
Lemma log_append r top covers at_ ms t n : 0 <= top <= n -> (forall i, at_ i <= t) ->
  log_ok r top covers at_ ms -> log_ok r n covers at_ (ms ++ [Message (n mod r_capacity r) t n]).
Proof.
  intros Hn Ht [H HM]. split.
  - intros j v t' n' Hj. apply lookup_snoc_Some in Hj as [[_ Hj]|[-> [= <- <- <-]]].
    + destruct (H j v t' n' Hj) as (H1 & H2 & H3). split; [done|]. split; [lia|done].
    + split; [done|]. split; [lia|]. intros c a _ _. apply Ht.
  - intros i j a b Hij Hi Hj. apply lookup_snoc_Some in Hj as [[Hlt Hj]|[-> <-]].
    + apply lookup_snoc_Some in Hi as [[_ Hi]|[-> <-]]; [by apply (HM i j)|lia].
    + apply lookup_snoc_Some in Hi as [[_ Hi]|[-> <-]]; [|done]. destruct a as [v' t' n'].
      destruct (H i v' t' n' Hi) as (_ & H2 & _). cbn. lia.
Qed.

Lemma last_is_snoc ms v t n : last_is (ms ++ [Message v t n]) v n.
Proof. exists t. by rewrite last_snoc. Qed.

(** ** Loads *)

(** what a load may give is enough for the threads' own invariant *)
Lemma access_load_ok a x m m' : sync_ok x m -> access a m m' -> load_ok a x.
Proof.
  intros HS HA. destruct HA as [|? ? ? ? ? ? ? ? ? ? j v t n Hj Hm|? ? ? ? ? ? ? ? ? ? j v t n Hj Hm| | | |]; try done.
  - destruct HS as [[H HM] _ _ _ (v0 & t0 & n0 & H0 & Hk & _) _ _ _]. cbn in *.
    destruct (H j v t n Hm) as (-> & Hn & _). pose proof (HM _ _ _ _ Hj H0 Hm). cbn in *. exists n. split; [lia|done].
  - destruct HS as [_ [H HM] _ _ _ (v0 & t0 & n0 & H0 & Hl & _) _ _]. cbn in *.
    destruct (H j v t n Hm) as (-> & Hn & _). pose proof (HM _ _ _ _ Hj H0 Hm). cbn in *. exists n. split; [lia|]. split; [lia|done].
Qed.
(** ** Steps that store nothing *)

(** what the logs depend on *)
Definition same_ring x y : Prop :=
  r_capacity (shared y) = r_capacity (shared x) /\ r_channels (shared y) = r_channels (shared x)
  /\ r_head (shared y) = r_head (shared x) /\ r_tail (shared y) = r_tail (shared x)
  /\ hlen y = hlen x /\ consumed y = consumed x.

Definition consumer_sync x m : Prop :=
  exists v t n, heads m !! c_seen m = Some (Message v t n) /\ consumed x <= n /\ t <= c_view m /\ sees (consumed x) v n (cons x).
Definition producer_sync x m : Prop :=
  exists v t n, tails m !! p_seen m = Some (Message v t n)
    /\ hlen x <= n + r_capacity (shared x) - 1 /\ t <= p_view m /\ room (hlen x) (r_capacity (shared x)) n (prod x).

Lemma log_ext r r' top covers at_ ms : r_capacity r' = r_capacity r -> r_channels r' = r_channels r ->
  log_ok r top covers at_ ms -> log_ok r' top covers at_ ms.
Proof. intros E1 E2 H. unfold log_ok, slot_of in *. by rewrite E1, E2. Qed.

Lemma sync_view x y m m' : same_ring x y ->
  heads m' = heads m -> tails m' = tails m -> wrote m' = wrote m -> fetched m' = fetched m ->
  p_clock m' = p_clock m -> c_clock m' = c_clock m ->
  consumer_sync y m' -> producer_sync y m' -> sync_ok x m -> sync_ok y m'.
Proof.
  intros (E1 & E2 & E3 & E4 & E5 & E6) F1 F2 F3 F4 F5 F6 HC HP [H1 H2 H3 H4 _ _ H7 H8].
  split; try done; rewrite ?F1, ?F2, ?F3, ?F4, ?F5, ?F6, ?E1, ?E3, ?E4, ?E5, ?E6; try done; by eapply log_ext.
Qed.

(** the memory as it was *)
Lemma sync_local x y m : same_ring x y ->
  (forall n, room (hlen x) (r_capacity (shared x)) n (prod x) -> room (hlen x) (r_capacity (shared x)) n (prod y)) ->
  (forall v n, consumed x <= n <= hlen x -> v = n mod r_capacity (shared x) ->
     sees (consumed x) v n (cons x) -> sees (consumed x) v n (cons y)) ->
  sync_ok x m -> sync_ok y m.
Proof.
  intros HE Hroom Hsees HS. pose proof HE as (E1 & E2 & E3 & E4 & E5 & E6). pose proof (s_consumer _ _ HS) as (v & t & n & H1 & H2 & H3 & H4).
  pose proof (s_producer _ _ HS) as (v' & t' & n' & G1 & G2 & G3 & G4).
  destruct (proj1 (s_heads _ _ HS) _ _ _ _ H1) as (Hv & Hn & _).
  eapply sync_view; [exact HE| | | | | | | | |exact HS]; try done.
  - exists v, t, n. rewrite E6. split; [done|]. split; [done|]. split; [done|]. apply Hsees; [lia|done|done].
  - exists v', t', n'. rewrite E5, E1. split; [done|]. split; [done|]. split; [done|]. by apply Hroom.
Qed.

(** ** The steps *)

Lemma sync_step_local x y m : step ALocal x y -> inv x -> sync_ok x m -> sync_ok y m.
Proof.
  intros Hs HI. remember ALocal as a eqn:Ea. destruct Hs; try discriminate Ea; clear Ea;
    apply sync_local; try done.
  intros v k' Hk Ev Eh. unfold hlen in *; cbn in *.
  pose proof (readable_cursors _ _ _ _ _ _ k' HI Hk) as Er. rewrite <- Ev, <- Eh in Er. fold avail in Er.
  destruct (Z.ltb_spec avail n); lia.
Qed.

Lemma sync_step_load_head x y m m' v : step (ALoadHead v) x y -> access (ALoadHead v) m m' -> sync_ok x m -> sync_ok y m'.
Proof.
  intros Hs HA HS. pose proof (access_load_ok _ _ _ _ HS HA) as (n' & Hn' & _).
  inversion HA as [|hs ts cs ps pc cc cv pv wr fe j v' t n Hj Hm| | | | |]; subst.
  pose proof HS as [[H HM] _ _ _ (v0 & t0 & n0 & H0 & Hk & _) HP _ _]. cbn in *.
  destruct (H j v t n Hm) as (Ev & Hn & _). pose proof (HM _ _ _ _ Hj H0 Hm). cbn in *.
  assert (same_ring x y /\ prod y = prod x /\ sees (consumed y) v n (cons y)) as (HE & Ep & Hsees)
    by (remember (ALoadHead v) as a eqn:Ea; destruct Hs; try discriminate Ea; by injection Ea as ->).
  pose proof HE as (E1 & E2 & E3 & E4 & E5 & E6).
  eapply sync_view; [exact HE| | | | | | | | |exact HS]; try done.
  - exists v, t, n. cbn. rewrite E6 in *. split; [done|]. split; [lia|]. split; [lia|done].
  - unfold producer_sync. by rewrite E1, E5, Ep.
Qed.

(** a tail read leaves the producer with room for what it goes on to copy *)
Lemma load_tail_room x y t n : step (ALoadTail t) x y -> inv x -> t = n mod r_capacity (shared x) ->
  0 <= n <= consumed x -> hlen x <= n + r_capacity (shared x) - 1 ->
  same_ring x y /\ cons y = cons x /\ room (hlen y) (r_capacity (shared y)) n (prod y).
Proof.
  intros Hs HI Et Hn Hl. remember (ALoadTail t) as a eqn:Ea. destruct Hs; try discriminate Ea; injection Ea as ->;
    (split; [done|]); (split; [done|]); try done;
    destruct HI as (HR & Hk & _ & Hh & _ & _ & (_ & Eh) & _); unfold hlen in *; cbn in *;
    pose proof (free_slots_bound r hist n HR ltac:(lia) Hl Hh) as Ef; rewrite <- Et, <- Eh in Ef; fold free in Ef; lia.
Qed.

Lemma sync_step_load_tail x y m m' t : step (ALoadTail t) x y -> access (ALoadTail t) m m' -> inv x -> sync_ok x m -> sync_ok y m'.
Proof.
  intros Hs HA HI HS. inversion HA as [| |hs ts cs ps pc cc cv pv wr fe j v' t' n Hj Hm| | | |]; subst.
  pose proof HS as [_ [H HM] _ _ HC (v0 & t0 & n0 & H0 & Hl & _) _ _]. cbn in *.
  destruct (H j t t' n Hm) as (Ev & Hn & _). pose proof (HM _ _ _ _ Hj H0 Hm). cbn in *.
  destruct (load_tail_room x y t n Hs HI Ev Hn ltac:(lia)) as (HE & Ec & Hroom). pose proof HE as (E1 & E2 & E3 & E4 & E5 & E6).
  eapply sync_view; [exact HE| | | | | | | | |exact HS]; try done.
  - unfold consumer_sync. by rewrite E6, Ec.
  - exists t, t', n. cbn. split; [done|]. split; [rewrite E1, E5; lia|]. split; [lia|done].
Qed.

Lemma sync_step_write x y m m' i : step (AWrite i) x y -> access (AWrite i) m m' -> inv x -> sync_ok x m -> sync_ok y m'.
Proof.
  intros Hs HA HI [H1 H2 H3 H4 H5 H6 H7 H8]. inversion HA; subst.
  remember (AWrite i) as a eqn:Ea. destruct Hs; try discriminate Ea; injection Ea as <-.
  pose proof HI as (HR & Hk & Hl & _ & _ & _ & (-> & Hw & Hch & Hs & -> & _) & _). unfold hlen in *; cbn in *.
  fold (slot_of r ch (Z.of_nat (length hist) + s)).
  split; cbn in *; unfold hlen in *; cbn in *; try done.
  - apply (log_ext r); [done..|]. apply log_stamp; [done| |done]. unfold given_by_head. intros n a Hn Ha. right. lia.
  - intros j. unfold stamp. specialize (H7 j). case_match; lia.
Qed.

Lemma sync_step_read x y m m' i : step (ARead i) x y -> access (ARead i) m m' -> inv x -> sync_ok x m -> sync_ok y m'.
Proof.
  intros Hs HA HI [H1 H2 H3 H4 H5 H6 H7 H8]. inversion HA; subst.
  remember (ARead i) as a eqn:Ea. destruct Hs; try discriminate Ea; injection Ea as <-.
  pose proof HI as (HR & Hk & Hl & _ & _ & _ & _ & (-> & Hre & Hrl & Hch & Hs & -> & _) & _). unfold hlen in *; cbn in *.
  fold (slot_of r ch (k + s)).
  split; cbn in *; unfold hlen in *; cbn in *; try done.
  - apply log_stamp; [done| |done]. unfold given_by_tail. intros n' a Hn Ha. left. lia.
  - intros j. unfold stamp. specialize (H8 j). case_match; lia.
Qed.

(** publishing: the new head covers what has just been written, the room shrinks *)
Lemma sync_step_store_head x y m m' v n : step (AStoreHead v n) x y -> access (AStoreHead v n) m m' -> inv x -> sync_ok x m -> sync_ok y m'.
Proof.
  intros Hs HA HI [H1 H2 H3 H4 (v1 & t1 & n1 & HC) (v2 & t2 & n2 & G1 & G2 & G3 & G4) H7 H8]. inversion HA; subst.
  remember (AStoreHead v n) as a eqn:Ea. destruct Hs; try discriminate Ea; injection Ea as <- <-.
  pose proof HI as (HR & Hk & Hl & Hh & _ & _ & (Eh & Hw & _) & _). unfold hlen in *; cbn in *.
  assert (v0 = (Z.of_nat (length hist) + w) mod r_capacity r) as Ev
    by (unfold v0; by rewrite ring_mask, Eh, Hh, Zplus_mod_idemp_l by done).
  assert (Z.of_nat (length (hist ++ columns row w)) = Z.of_nat (length hist) + w) as El
    by (rewrite length_app, Nat2Z.inj_add, columns_length by lia; done).
  split; cbn in *; unfold hlen in *; cbn in *; rewrite ?El; try done.
  - apply (log_ext r); [done..|]. rewrite Ev. eapply log_append; [|done|exact H1]. lia.
  - apply (log_ext r); [done..|]. eapply log_weaken; [| |exact H2]; [lia|]. unfold given_by_tail. intros. lia.
  - by apply last_is_snoc.
  - exists v1, t1, n1. destruct HC as (HC & HC'). split; [by apply lookup_app_l_Some|done].
  - exists v2, t2, n2. split; [done|]. split; [lia|done].
Qed.

(** moving the tail: the new one covers what has just been read, less is given *)
Lemma sync_advance r p c hist k out m m' r' out' d v :
  inv (Config r p c hist k out) -> sync_ok (Config r p c hist k out) m -> access (AStoreTail v (k + d)) m m' ->
  r_capacity r' = r_capacity r -> r_channels r' = r_channels r -> r_head r' = r_head r -> r_tail r' = v ->
  v = Z.land (u32 (r_tail r + d)) (r_mask r) -> 0 <= d ->
  (forall v n, consumed (Config r p c hist k out) <= n -> v = n mod r_capacity r -> n <= Z.of_nat (length hist) -> sees k v n c -> d <= n - k) ->
  sync_ok (Config r' p CIdle hist (k + d) out') m'.
Proof.
  intros HI [H1 H2 H3 H4 (v1 & t1 & n1 & F1 & F2 & F3 & F4) (v2 & t2 & n2 & G1 & G2 & G3 & G4) H7 H8] HA E1 E2 E3 E4 Ev Hd Hsee.
  inversion HA; subst. pose proof HI as (HR & Hk & Hl & Hh & Ht & _). unfold hlen in *; cbn in *.
  destruct (proj1 H1 _ _ _ _ F1) as (Hv1 & Hn1 & _). specialize (Hsee v1 n1 F2 Hv1 ltac:(lia) F4).
  assert (r_tail r' = (k + d) mod r_capacity r) as Ev' by (by rewrite Ev, ring_mask, Ht, Zplus_mod_idemp_l by done).
  split; cbn in *; unfold hlen in *; cbn in *; rewrite ?E1, ?E3; try done.
  - apply (log_ext r); [done..|]. eapply log_weaken; [| |exact H1]; [lia|]. unfold given_by_head. intros. lia.
  - apply (log_ext r); [done..|]. rewrite Ev'. eapply log_append; [|done|exact H2]. lia.
  - by apply last_is_snoc.
  - exists v1, t1, n1. split; [done|]. split; [lia|done].
  - exists v2, t2, n2. split; [by apply lookup_app_l_Some|done].
Qed.

Lemma sync_step_store_tail x y m m' v n : step (AStoreTail v n) x y -> access (AStoreTail v n) m m' -> inv x -> sync_ok x m -> sync_ok y m'.
Proof.
  intros Hs HA HI HS. remember (AStoreTail v n) as a eqn:Ea. destruct Hs; try discriminate Ea; injection Ea as <- <-.
  - pose proof HI as (_ & _ & _ & _ & _ & _ & _ & (Et & Hre & _) & _). cbn in Et.
    eapply (sync_advance r); [exact HI|exact HS|exact HA|by destruct (real <? n0)..|by rewrite <- Et|lia|]. by cbn.
  - pose proof HI as (HR & Hk & Hl & _ & _ & _ & _ & (Hke & a' & Ha & Eh) & _). unfold hlen in *; cbn in *.
    pose proof (readable_cursors _ _ _ _ _ _ _ HI Ha) as Er. rewrite <- Eh in Er. fold avail in Er.
    pose proof (ring_cap r HR). assert (drop = avail - keep) as Ed by (unfold drop; apply Z.mod_small; lia).
    eapply (sync_advance r); [exact HI|exact HS|exact HA|done..|lia|].
    cbn. intros v' n' Hn' Ev Hn'' E'. assert (a' = n'); [|lia].
    rewrite <- E' in Ev. pose proof (readable_cursors _ _ _ _ _ _ n' HI ltac:(lia)) as Er'. rewrite <- Ev in Er'.
    fold avail in Er'. lia.
Qed.

Lemma sync_step a x y m m' : step a x y -> access a m m' -> inv x -> sync_ok x m -> sync_ok y m'.
Proof.
  destruct a; eauto using sync_step_load_head, sync_step_load_tail, sync_step_write, sync_step_read,
    sync_step_store_head, sync_step_store_tail.
  intros Hs HA. inversion HA; subst. by apply sync_step_local.
Qed.

(** ** Reachable states *)

Definition relaxed_inv (s : state) : Prop := inv s.1 /\ sync_ok s.1 s.2 /\ in_order (outputs s.1).

Lemma relaxed_step s s' : rstep s s' -> relaxed_inv s -> relaxed_inv s'.
Proof.
  intros (a & Hs & HA) (HI & HS & HO). split; [|split].
  - eapply inv_step; [exact Hs|by eapply access_load_ok|done].
  - by eapply sync_step.
  - by eapply in_order_step.
Qed.

Lemma relaxed_steps s s' : rsteps s s' -> relaxed_inv s -> relaxed_inv s'.
Proof. induction 1; eauto using relaxed_step. Qed.

Lemma log_start r top covers : 0 <= top -> 0 <= r_capacity r -> log_ok r top covers (fun _ => 0) [Message 0 0 0].
Proof.
  intros Ht Hc. split.
  - intros j v t n Hj. apply list_lookup_singleton_Some in Hj as [_ [= <- <- <-]]. by rewrite Zmod_0_l.
  - intros i j a b _ Hi Hj. apply list_lookup_singleton_Some in Hi as [_ <-]. by apply list_lookup_singleton_Some in Hj as [_ <-].
Qed.

Lemma relaxed_start r : represents r (0, fun _ => []) -> r_head r = 0 -> r_tail r = 0 -> relaxed_inv (start r, memory_start).
Proof.
  intros HR Hh Ht. pose proof (ring_cap r (proj1 HR)). split; [by apply inv_start|]. split; [|by intros i j d e _ Hi].
  split; cbn; rewrite ?Hh, ?Ht; try done; try (apply log_start; unfold hlen; cbn; lia); try by exists 0.
  - exists 0, 0, 0. by repeat (split; [done|]).
  - exists 0, 0, 0. unfold hlen; cbn. split; [done|]. split; [lia|done].
Qed.

(** ** What the invariant says of the two threads *)

(** the cell the producer writes is that of a column the tail it has read gives it *)
Lemma writing_column x m i : inv x -> sync_ok x m -> writing x = Some i ->
  exists c b v t n, 0 <= c < r_channels (shared x) /\ i = slot_of (shared x) c b
    /\ tails m !! p_seen m = Some (Message v t n) /\ t <= p_view m
    /\ given_by_tail (hlen x) (r_capacity (shared x)) n b /\ n <= consumed x.
Proof.
  destruct x as [r p c hist k out]. intros HI HS. unfold writing; cbn. destruct p as [| | |row h w ch s pos]; try done.
  destruct (Z.ltb_spec ch (r_channels r)), (Z.ltb_spec s w); try done. intros [= <-].
  pose proof (s_producer _ _ HS) as (v & t & n & G1 & G2 & G3 & G4).
  destruct (proj1 (s_tails _ _ HS) _ _ _ _ G1) as (_ & Hn & _).
  destruct HI as (HR & Hk & Hl & _ & _ & _ & (_ & Hw & Hch & Hs & -> & _) & _). unfold hlen in *; cbn in *.
  exists ch, (Z.of_nat (length hist) + s), v, t, n. split; [lia|]. split; [done|]. split; [done|]. split; [done|].
  unfold given_by_tail. lia.
Qed.

(** and the one the consumer reads that of a column the head it has read gives it *)
Lemma reading_column x m i : inv x -> sync_ok x m -> reading x = Some i ->
  exists c a v t n, 0 <= c < r_channels (shared x) /\ i = slot_of (shared x) c a
    /\ heads m !! c_seen m = Some (Message v t n) /\ t <= c_view m
    /\ given_by_head (consumed x) n a /\ n <= hlen x.
Proof.
  destruct x as [r p c hist k out]. intros HI HS. unfold reading; cbn. destruct c as [| | |n0 t0 real ch s pos got| |]; try done.
  destruct (Z.ltb_spec ch (r_channels r)), (Z.ltb_spec s real); try done. intros [= <-].
  pose proof (s_consumer _ _ HS) as (v & t & n & G1 & G2 & G3 & G4).
  destruct (proj1 (s_heads _ _ HS) _ _ _ _ G1) as (_ & Hn & _).
  destruct HI as (HR & Hk & Hl & _ & _ & _ & _ & (_ & Hre & Hrl & Hch & Hs & -> & _) & _). unfold hlen in *; cbn in *.
  exists ch, (k + s), v, t, n. split; [lia|]. split; [done|]. split; [done|]. split; [done|].
  unfold given_by_head. lia.
Qed.

Lemma no_race s : relaxed_inv s -> ~ race s.
Proof.
  intros (HI & HS & _) [(i & Hw & Hlt)|(i & Hr & Hlt)].
  - destruct (writing_column _ _ _ HI HS Hw) as (c & b & v & t & n & Hc & -> & Hm & Ht & Hb & _).
    destruct (proj1 (s_tails _ _ HS) _ _ _ _ Hm) as (_ & _ & H). pose proof (H c b Hc Hb). lia.
  - destruct (reading_column _ _ _ HI HS Hr) as (c & b & v & t & n & Hc & -> & Hm & Ht & Hb & _).
    destruct (proj1 (s_heads _ _ HS) _ _ _ _ Hm) as (_ & _ & H). pose proof (H c b Hc Hb). lia.
Qed.

(** ** The sequentially consistent runs are among these *)

Lemma newest_access a x m : sync_ok x m -> newest a x -> exists m', access a m m'.
Proof.
  intros HS HN. destruct m as [hs ts cs ps pc cc cv pv wr fe]. destruct a as [|v|v|v n|v n|i|i]; try by eexists; constructor.
  - destruct (s_tail _ _ HS) as (t & Ht). cbn in *. rewrite last_lookup in Ht.
    pose proof (s_producer _ _ HS) as (v0 & t0 & n0 & H0 & _). cbn in H0. apply lookup_lt_Some in H0.
    rewrite HN. eexists. eapply a_load_tail; [|exact Ht]. lia.
  - destruct (s_head _ _ HS) as (t & Ht). cbn in *. rewrite last_lookup in Ht.
    pose proof (s_consumer _ _ HS) as (v0 & t0 & n0 & H0 & _). cbn in H0. apply lookup_lt_Some in H0.
    rewrite HN. eexists. eapply a_load_head; [|exact Ht]. lia.
Qed.

Lemma rsteps_app s s' s'' : rsteps s s' -> rsteps s' s'' -> rsteps s s''.
Proof. induction 1; [done|]. intros H2. eapply rsteps_cons; eauto. Qed.

Lemma steps_relaxed x y : steps x y -> forall m, relaxed_inv (x, m) -> exists m', rsteps (x, m) (y, m').
Proof.
  induction 1 as [x|a x y z Hs HN Hst IH]; intros m HI; [exists m; apply rsteps_refl|].
  destruct (newest_access a x m (proj1 (proj2 HI)) HN) as [m1 HA].
  assert (rstep (x, m) (y, m1)) as Hr by by exists a.
  destruct (IH m1) as [m2 H2]; [by eapply relaxed_step|]. exists m2. by eapply rsteps_cons.
Qed.
End Relaxed.

Lemma rsteps_step {F} a (x y : config F) m m' s :
  step a x y -> access a m m' -> rsteps (y, m') s -> rsteps (x, m) s.
Proof. intros Hs HA. apply rsteps_cons. by exists a. Qed.

(** a freshly initialised ring *)
Lemma relaxed_init {F} (fzero : F) channels_ frames r : 0 <= channels_ -> frames <= 2147483648 ->
  reac_ring_init fzero true channels_ frames = Some r -> relaxed_inv (start r, memory_start).
Proof.
  intros Hc Hf Hr. destruct (ring_init_ok fzero channels_ frames r Hc Hf Hr) as [HR HH].
  unfold reac_ring_init in Hr. injection Hr as <-. apply relaxed_start; [by split|done|done].
Qed.

(** * Properties *)

(** C5: the lock-free ring is safe on the memory of C11.  From an initialised ring,
    in every state that any interleaving of the two threads reaches, with acquire
    loads that may give old values of the other side's cursor: there is no data race,
    every cell a thread is about to touch is in the buffer and was last touched by the
    other side before something this side has synchronised with; the cell the consumer
    is about to read holds a sample; and the completed reads are disjoint pieces of the
    published stream, in order, each delivering for every channel exactly the columns
    published from its starting point on, nothing repeated, torn or invented. *)
Theorem spsc_race_free {F} (fzero : F) (channels_ frames : Z) r (x : config F) m
  (Hc : 0 <= channels_) (Hf : frames <= 2147483648)
  (Hr : reac_ring_init fzero true channels_ frames = Some r) (Hx : rsteps (start r, memory_start) (x, m)) :
  ~ race (x, m)
  /\ (forall i, writing x = Some i -> 0 <= i < blen (r_buf (shared x)))
  /\ (forall j, reading x = Some j -> is_Some (get (r_buf (shared x)) j))
  /\ in_order (outputs x)
  /\ (forall d, d ∈ outputs x ->
        0 <= d_start d /\ 0 <= d_real d /\ d_start d + d_real d <= consumed x
        /\ forall c, 0 <= c < r_channels (shared x) -> forall i v, d_got d c !! i = Some v ->
             exists col, published x !! Z.to_nat (d_start d + Z.of_nat i) = Some col /\ col c = v)
  /\ (forall d c, d ∈ outputs x -> 0 <= c < r_channels (shared x) -> Z.of_nat (length (d_got d c)) = d_real d)
  /\ 0 <= consumed x <= Z.of_nat (length (published x)).
Proof.
  assert (relaxed_inv (x, m)) as HR by (by eapply relaxed_steps, relaxed_init).
  destruct HR as (HI & HS & HO). cbn in HI, HS, HO. pose proof HI as (HR & Hk & _ & _ & _ & _ & _ & _ & Ho).
  split; [by apply no_race|]. split.
  { intros i Hi. destruct (writing_column _ _ _ HI HS Hi) as (c & b & _ & _ & _ & Hcc & -> & _). by apply slot_range. }
  split.
  { intros i Hi. destruct (reading_column _ _ _ HI HS Hi) as (c & a & v & t & n & Hcc & -> & _ & _ & Ha & Hn).
    destruct HI as (_ & _ & _ & _ & _ & Hq & _). unfold given_by_head in Ha. rewrite Hq by lia. apply column_at_lt. unfold hlen in *. lia. }
  split; [done|]. rewrite Forall_forall in Ho. split; [|split; [|done]].
  - intros d Hd. destruct (Ho d Hd) as (O1 & O2 & O3 & O4). do 3 (split; [done|]). intros c Hcc i v Hi.
    destruct (O4 c Hcc) as [_ L2]. specialize (L2 i v Hi). apply fmap_Some in L2 as (col & ? & ->). by exists col.
  - intros d c Hd Hcc. by apply Ho.
Qed.

(** one column is published, read, and the tail moved on; then the producer, with three
    more, still reads the old tail: it finds room for two and drops one *)
Lemma stale_tail : exists x m, rsteps (start toy_ring, memory_start) (x, m)
  /\ writing x = Some 1 /\ consumed x = 1 /\ r_overruns (shared x) = 1 /\ p_seen m = 0%nat.
Proof.
  set (row := fun _ s : Z => 11 + s). unfold start, memory_start. eexists _, _. split.
  - eapply rsteps_step; [apply (p_call _ _ _ _ _ row 1); by vm_compute|apply a_local|].
    eapply rsteps_step; [apply p_load_head|apply a_local|].
    eapply rsteps_step; [apply (p_fits _ _ _ _ _ _ _ _ 0); by vm_compute|by apply (a_load_tail _ _ _ _ _ _ _ _ _ _ 0 0 0 0); [lia|]|].
    eapply rsteps_step; [apply p_store; by vm_compute|apply a_write|].
    eapply rsteps_step; [apply p_next; by vm_compute|apply a_local|].
    eapply rsteps_step; [apply p_publish; by vm_compute|apply a_store_head|].
    eapply rsteps_step; [apply (c_call _ _ _ _ _ 1); by vm_compute|apply a_local|].
    eapply rsteps_step; [apply (c_load_head _ _ _ _ _ _ 1); by vm_compute|by apply (a_load_head _ _ _ _ _ _ _ _ _ _ 1 1 1 1); [lia|]|].
    eapply rsteps_step; [apply c_load_tail|apply a_local|].
    eapply rsteps_step; [apply (c_read _ _ _ _ _ _ _ _ _ _ _ _ 11); by vm_compute|apply a_read|].
    eapply rsteps_step; [apply c_next; by vm_compute|apply a_local|].
    eapply rsteps_step; [apply c_finish; by vm_compute|apply a_store_tail|].
    eapply rsteps_step; [apply (p_call _ _ _ _ _ row 3); by vm_compute|apply a_local|].
    eapply rsteps_step; [apply p_load_head|apply a_local|].
    eapply rsteps_step; [apply (p_overrun _ _ _ _ _ _ _ _ 0); by vm_compute|by apply (a_load_tail _ _ _ _ _ _ _ _ _ _ 0 0 0 0); [lia|]|].
    apply rsteps_refl.
  - by repeat (split; [by vm_compute|]).
Qed.

Lemma spsc_race_free_witness :
  exists x m, rsteps (start toy_ring, memory_start) (x, m) /\ writing x = Some 1 /\ ~ race (x, m).
Proof.
  destruct stale_tail as (x & m & Hx & Hw & _). exists x, m. split; [exact Hx|]. split; [exact Hw|].
  exact (proj1 (spsc_race_free 0 1 4 toy_ring x m ltac:(lia) ltac:(lia) eq_refl Hx)).
Defined.
