(* ===== verification/RingQueue.v ===== *)
(** The ring's two threads, interleaved access by access on the memory of C11, are an
    atomic queue: each call takes effect at once, at its store of a cursor, and between
    these stores nothing happens that the queue could tell (linearizability). *)

From stdpp Require Import relations.
From S2P Require Import Prelude Ring RingSpsc RingRelaxed.

Section Queue.
Context {F : Type}.
Implicit Types (x y : config F) (r : ring F) (hist : list (Z -> F)).

(** * The queue *)

(** every column ever put in, how many were taken out or dropped, and what was taken *)
Record queue_state : Type := QueueState {
  q_hist : list (Z -> F);
  q_taken : Z;
  q_out : list (delivery (F := F));
}.

Inductive queue_op : Type :=
| Enqueue (cols : list (Z -> F))
| Dequeue (count : Z)
| Discard (count : Z).

(** at most [cap - 1] columns of [channels] samples wait *)
Inductive queue_step (channels cap : Z) : queue_op -> queue_state -> queue_state -> Prop :=
| q_enqueue hist k out cols :
    Z.of_nat (length hist) + Z.of_nat (length cols) - k <= cap - 1 ->
    queue_step channels cap (Enqueue cols) (QueueState hist k out) (QueueState (hist ++ cols) k out)
| q_dequeue hist k out count got :
    0 <= count <= Z.of_nat (length hist) - k ->
    (forall c, 0 <= c < channels -> got c = (fun col => col c) <$> take (Z.to_nat count) (drop (Z.to_nat k) hist)) ->
    queue_step channels cap (Dequeue count) (QueueState hist k out)
      (QueueState hist (k + count) (out ++ [Delivery k count got]))
| q_discard hist k out count :
    0 <= count <= Z.of_nat (length hist) - k ->
    queue_step channels cap (Discard count) (QueueState hist k out) (QueueState hist (k + count) out).

Definition queue_reach (channels cap : Z) : queue_state -> queue_state -> Prop :=
  rtc (fun q q' => exists op, queue_step channels cap op q q').

(** the queue behind a state of the threads *)
Definition queue_of x : queue_state := QueueState (published x) (consumed x) (outputs x).

(** what a step of a thread is to the queue *)
Definition commits (a : action) x y : Prop :=
  let step_ := queue_step (r_channels (shared x)) (r_capacity (shared x)) in
  match a with
  | AStoreHead _ _ => exists cols, step_ (Enqueue cols) (queue_of x) (queue_of y)
  | AStoreTail _ _ => exists count, step_ (Dequeue count) (queue_of x) (queue_of y)
                        \/ step_ (Discard count) (queue_of x) (queue_of y)
  | _ => queue_of y = queue_of x
  end.

(** * Lemmas *)

(** samples read one by one are the columns read *)
Lemma got_columns hist k real c (got : list F) : 0 <= k -> Z.of_nat (length got) = real -> k + real <= Z.of_nat (length hist) ->
  (forall i v, got !! i = Some v -> column_at hist (k + Z.of_nat i) c = Some v) ->
  got = (fun col => col c) <$> take (Z.to_nat real) (drop (Z.to_nat k) hist).
Proof.
  intros Hk Hl Hr H. apply list_eq_same_length with (n := length got); [|done|].
  - rewrite length_fmap, length_take, length_drop. lia.
  - intros i v w Hi Hv Hw. specialize (H i v Hv). unfold column_at in H.
    rewrite list_lookup_fmap, lookup_take_lt, lookup_drop in Hw by lia.
    replace (Z.to_nat (k + Z.of_nat i)) with (Z.to_nat k + i)%nat in H by lia. congruence.
Qed.

Lemma step_commits a x y : step a x y -> inv x -> commits a x y.
Proof.
  intros Hs HI. destruct Hs; try done.
  - pose proof HI as (_ & _ & _ & _ & _ & _ & (_ & Hw & _) & _). cbn in *.
    exists (columns row w). apply q_enqueue. rewrite columns_length by lia. cbn. lia.
  - pose proof HI as (_ & Hk & _ & _ & _ & _ & _ & (_ & Hre & Hrl & _ & _ & _ & Hg) & _). unfold hlen in *; cbn in *.
    exists real. left. unfold queue_of; cbn [published consumed outputs].
    apply q_dequeue; [lia|]. intros c Hc. destruct (Hg c Hc) as [L1 L2]. subst ch.
    rewrite (proj2 (Z.ltb_lt c (r_channels r))) in L1 by lia. apply got_columns; [lia|lia|lia|done].
  - pose proof HI as (HR & Hk & Hl & _ & _ & _ & _ & (Hke & a' & Ha & Eh) & _). unfold hlen in *; cbn in *.
    pose proof (readable_cursors _ _ _ _ _ _ _ HI Ha) as Er. rewrite <- Eh in Er. fold avail in Er.
    pose proof (ring_cap r HR). assert (drop = avail - keep) as Ed by (unfold drop; apply Z.mod_small; lia).
    exists drop. right. unfold queue_of; cbn [published consumed outputs]. apply q_discard. lia.
Qed.

Lemma commits_reach a x y : commits a x y -> queue_reach (r_channels (shared x)) (r_capacity (shared x)) (queue_of x) (queue_of y).
Proof.
  destruct a; cbn; intros H; try (by rewrite H).
  - destruct H as (cols & H). apply rtc_once. by exists (Enqueue cols).
  - destruct H as (count & [H|H]); apply rtc_once; eauto.
Qed.

Lemma rsteps_reach (s s' : state) : rsteps s s' -> relaxed_inv s ->
  r_channels (shared s'.1) = r_channels (shared s.1) /\ r_capacity (shared s'.1) = r_capacity (shared s.1)
  /\ queue_reach (r_channels (shared s.1)) (r_capacity (shared s.1)) (queue_of s.1) (queue_of s'.1).
Proof.
  induction 1 as [s|s s' s'' Hr _ IH]; intros HI; [by repeat split|].
  destruct (IH (relaxed_step _ _ Hr HI)) as (E1 & E2 & HQ). destruct Hr as (a & Hs & HA).
  destruct (step_geometry _ _ _ Hs) as [G1 G2]. rewrite G1 in E1, HQ. rewrite G2 in E2, HQ. split; [done|]. split; [done|].
  etrans; [|exact HQ]. apply (commits_reach a). eapply step_commits; [exact Hs|apply HI].
Qed.
End Queue.

(** * Properties *)

(** C6: the ring is a queue for its two threads (linearizability).  From an
    initialised ring, whatever the interleaving and however old the cursors read: the
    columns published, consumed and handed out are those of a run of an atomic queue of
    capacity - 1 columns; and every further step of a thread is, to that queue, nothing,
    except the producer's store of head, which puts in the columns it has copied, and
    the consumer's of tail, which takes out the columns it hands on, all channels of
    them, or drops some.  So each call takes effect at one instant between its
    beginning and its end. *)
Theorem spsc_linearizable {F} (fzero : F) (channels_ frames : Z) r (x : config F) m
  (Hc : 0 <= channels_) (Hf : frames <= 2147483648)
  (Hr : reac_ring_init fzero true channels_ frames = Some r) (Hx : rsteps (start r, memory_start) (x, m)) :
  queue_reach (r_channels r) (r_capacity r) (QueueState [] 0 []) (queue_of x)
  /\ forall a y m', step a x y -> access a m m' -> commits a x y.
Proof.
  pose proof (relaxed_init fzero channels_ frames r Hc Hf Hr) as HI. split.
  - by apply (rsteps_reach _ _ Hx HI).
  - intros a y m' Hs _. eapply step_commits; [exact Hs|]. by apply (relaxed_steps _ _ Hx HI).
Qed.

(** a write, a read of its column, and a second write that has read an old tail *)
Lemma spsc_linearizable_witness :
  exists x : config Z, queue_reach 1 4 (QueueState [] 0 []) (queue_of x) /\ consumed x = 1.
Proof.
  destruct stale_tail as (x & m & Hx & _ & Hk & _). exists x. split; [|exact Hk].
  exact (proj1 (spsc_linearizable 0 1 4 toy_ring x m ltac:(lia) ltac:(lia) eq_refl Hx)).
Defined.
