(* ===== verification/RingProgress.v ===== *)
(** Progress of the ring's two threads, on the memory of RingRelaxed: each finishes its
    call in a bounded number of its own steps, whatever the other one does and however
    old the cursors are that it reads (wait-freedom). *)

From S2P Require Import Prelude Ring RingSpsc RingRelaxed.

Section Progress.
Context {F : Type}.
Implicit Types (x y : config F) (r : ring F).

(** own steps left before the copy loops of [w] columns are over, at channel [c]
    and column [s] *)
Definition copy_work r (w c s : Z) : Z := (r_channels r - c) * (w + 1) - s + 1.

Definition prod_work x : Z :=
  let r := shared x in
  match prod x with
  | PIdle => 0
  | PCall _ _ => 3 + r_channels r * r_capacity r
  | PHead _ _ _ => 2 + r_channels r * r_capacity r
  | PCopy _ _ w c s _ => copy_work r w c s
  end.

Definition cons_work x : Z :=
  let r := shared x in
  match cons x with
  | CIdle => 0
  | CCall _ => 3 + r_channels r * r_capacity r
  | CHead _ _ => 2 + r_channels r * r_capacity r
  | CCopy _ _ real c s _ _ => copy_work r real c s
  | CTrim _ => 2
  | CTrimHead _ _ => 1
  end.

(** the longest call *)
Definition call_bound x : Z := 3 + r_channels (shared x) * r_capacity (shared x).

(** a run during which a thread never is idle, with the number of its own steps *)
Inductive busy_run {T} (thread : config F -> T) (idle : T) : state -> nat -> state -> Prop :=
| busy_refl s : busy_run thread idle s 0 s
| busy_other s s' n s'' :
    thread s.1 <> idle -> rstep s s' -> thread s'.1 = thread s.1 ->
    busy_run thread idle s' n s'' -> busy_run thread idle s n s''
| busy_own s s' n s'' :
    thread s.1 <> idle -> rstep s s' -> thread s'.1 <> thread s.1 ->
    busy_run thread idle s' n s'' -> busy_run thread idle s (S n) s''.

(** ** The measures *)

Lemma prod_work_ext x y : prod y = prod x -> r_channels (shared y) = r_channels (shared x) ->
  r_capacity (shared y) = r_capacity (shared x) -> prod_work y = prod_work x.
Proof. unfold prod_work, copy_work. by intros -> -> ->. Qed.

Lemma cons_work_ext x y : cons y = cons x -> r_channels (shared y) = r_channels (shared x) ->
  r_capacity (shared y) = r_capacity (shared x) -> cons_work y = cons_work x.
Proof. unfold cons_work, copy_work. by intros -> -> ->. Qed.

Lemma copy_work_start r w : 0 <= w <= r_capacity r - 1 -> 0 <= r_channels r ->
  0 <= copy_work r w 0 0 <= 1 + r_channels r * r_capacity r.
Proof. unfold copy_work. nia. Qed.

Lemma copy_work_pos r w c s : 0 <= c <= r_channels r -> 0 <= s <= w -> (c = r_channels r -> s = 0) ->
  0 < copy_work r w c s.
Proof.
  unfold copy_work. intros Hc Hs H. destruct (decide (c = r_channels r)) as [->|]; [rewrite H by done; lia|]. nia.
Qed.

(** the room and the copy of the producer's next move *)
Lemma free_room r c hist k out row n h t :
  inv (Config r (PHead row n h) c hist k out) -> load_ok (ALoadTail t) (Config r (PHead row n h) c hist k out) ->
  0 <= u32 (r_mask r - readable_of r h t) <= r_capacity r - 1 /\ 0 <= clipped r n <= r_capacity r - 1.
Proof.
  intros HI HL. destruct (inv_producer_call _ _ _ _ _ _ _ _ _ HI HL) as (Hn & _ & Hc & m & Hm & Hlm & _ & ->).
  destruct HI as (_ & Hk & _). unfold hlen in *; cbn in *. lia.
Qed.

(** the column is back at 0 when the copy loops are over *)
Definition copies_ok x : Prop :=
  (forall row h w c s pos, prod x = PCopy row h w c s pos -> c = r_channels (shared x) -> s = 0)
  /\ (forall n t real c s pos got, cons x = CCopy n t real c s pos got -> c = r_channels (shared x) -> s = 0).

Lemma copies_step a x y : step a x y -> copies_ok x -> copies_ok y.
Proof.
  intros Hs [Hp Hc]. split.
  - intros row' h' w' c' s' pos' Hy Hch. destruct Hs; cbn in *; try discriminate;
      try (injection Hy; intros; subst); try done; try lia; try (by eapply Hp).
    by destruct (real <? n); eapply Hp.
  - intros n' t' real' c' s' pos' got' Hy Hch. destruct Hs; cbn in *; try discriminate;
      try (injection Hy; intros; subst); try done; try lia; by eapply Hc.
Qed.

Definition live_inv x : Prop := inv x /\ copies_ok x.

Definition live_state (s : state) : Prop := relaxed_inv s /\ copies_ok s.1.

Lemma live_step (s s' : state (F := F)) : rstep s s' -> live_state s -> live_state s'.
Proof. intros Hs [H1 H2]. split; [by eapply relaxed_step|]. destruct Hs as (a & Hs & _). by eapply copies_step. Qed.

Lemma live_steps (s s' : state (F := F)) : rsteps s s' -> live_state s -> live_state s'.
Proof. induction 1; eauto using live_step. Qed.

(** a step is the producer's own, and brings it closer to the end of its call,
    or the consumer's, and leaves the producer where it is *)
Lemma prod_step a x y : live_inv x -> load_ok a x -> step a x y -> prod x <> PIdle ->
  (prod y = prod x /\ prod_work y = prod_work x) \/ (prod y <> prod x /\ 0 <= prod_work y < prod_work x).
Proof.
  intros [HI [HC _]] HL Hs. destruct (step_geometry _ _ _ Hs) as [G1 G2]. pose proof HI as (HR & _ & _ & _ & _ & _ & Hp & _).
  pose proof (ring_cap _ HR) as Hcap. pose proof HR as (_ & _ & Hch & _).
  destruct Hs; intros Hidle; cbn [prod cons shared r_channels r_capacity set_head set_tail add_overruns] in *;
    try done; try (left; split; [done|]; by apply prod_work_ext);
    right; (split; [try done; intros E; injection E; intros; lia|]); unfold prod_work; cbn.
  - nia.
  - nia.
  - destruct (free_room _ _ _ _ _ _ _ _ _ HI HL) as (Hf & _).
    pose proof (copy_work_start r free Hf Hch). unfold copy_work in *; cbn. lia.
  - destruct (free_room _ _ _ _ _ _ _ _ _ HI HL) as (_ & Hf).
    pose proof (copy_work_start r (clipped r n) Hf Hch). lia.
  - destruct Hp as (_ & Hw & Hc & Hsw & _). unfold copy_work; cbn. nia.
  - destruct Hp as (_ & Hw & Hc & Hsw & _). unfold copy_work; cbn. nia.
  - rewrite (HC _ _ _ _ _ _ eq_refl) by done. unfold copy_work. lia.
Qed.

(** the same for the consumer *)
Lemma avail_room r p c hist k out n h :
  inv (Config r p c hist k out) -> c = CHead n h ->
  0 <= (if readable_of r h (r_tail r) <? n then readable_of r h (r_tail r) else n) <= r_capacity r - 1.
Proof.
  intros HI ->. pose proof HI as (HR & Hk & Hl & _ & _ & _ & _ & (Hn & a & Ha & ->) & _). cbn in *.
  rewrite (readable_cursors _ _ _ _ _ _ _ HI Ha). unfold hlen in *; cbn in *.
  destruct (Z.ltb_spec (a - k) n); lia.
Qed.

Lemma cons_step a x y : live_inv x -> load_ok a x -> step a x y -> cons x <> CIdle ->
  (cons y = cons x /\ cons_work y = cons_work x) \/ (cons y <> cons x /\ 0 <= cons_work y < cons_work x).
Proof.
  intros [HI [_ HC]] HL Hs. destruct (step_geometry _ _ _ Hs) as [G1 G2]. pose proof HI as (HR & _ & _ & _ & _ & _ & _ & Hp & _).
  pose proof (ring_cap _ HR) as Hcap. pose proof HR as (_ & _ & Hch & _).
  destruct Hs; intros Hidle; cbn [prod cons shared r_channels r_capacity set_head set_tail add_overruns] in *;
    try done; try (left; split; [done|]; by apply cons_work_ext);
    right; (split; [try done; intros E; injection E; intros; lia|]); unfold cons_work; cbn.
  - nia.
  - pose proof (avail_room _ _ _ _ _ _ _ _ HI eq_refl) as Hf. fold avail in Hf.
    pose proof (copy_work_start r _ Hf Hch). lia.
  - destruct Hp as (_ & Hw & _ & Hc & Hsw & _). unfold copy_work; cbn. nia.
  - destruct Hp as (_ & Hw & _ & Hc & Hsw & _). unfold copy_work; cbn. nia.
  - rewrite (HC _ _ _ _ _ _ _ eq_refl) by done. unfold copy_work. lia.
  - lia.
  - lia.
  - lia.
Qed.

(** ** Enabledness *)

(** the producer can take a step of its own, whatever tail its load gives *)
Lemma prod_enabled x t : live_inv x -> prod x <> PIdle ->
  exists a y, step a x y /\ (forall v, a = ALoadTail v -> v = t) /\ (forall v, a <> ALoadHead v)
    /\ cons y = cons x /\ prod y <> prod x.
Proof.
  destruct x as [r p c hist k out]; cbn. intros [HI _] Hidle.
  pose proof HI as (_ & _ & _ & _ & _ & _ & Hp & _). cbn in Hp. destruct p as [|row n|row n h|row h w ch s pos]; [done|..].
  - eexists _, _. split; [apply p_load_head|done].
  - destruct (Z.leb_spec (clipped r n) (u32 (r_mask r - readable_of r h t))) as [L|L].
    { eexists _, _. split; [by apply (p_fits _ _ _ _ _ _ _ _ t)|]. split; [|done]. by intros v [= ->]. }
    destruct (decide (u32 (r_mask r - readable_of r h t) = 0)) as [E|N]; eexists _, _.
    + split; [apply (p_full _ _ _ _ _ _ _ _ t); [lia|exact E]|]. split; [|done]. by intros v [= ->].
    + split; [apply (p_overrun _ _ _ _ _ _ _ _ t); [lia|exact N]|]. split; [|done]. by intros v [= ->].
  - destruct Hp as (_ & Hw & Hc & Hs & _). destruct (decide (ch = r_channels r)) as [E|N].
    { eexists _, _. split; [by apply p_publish|done]. }
    destruct (decide (s = w)) as [->|Nw]; eexists _, _.
    + split; [apply p_next; [lia|done]|]. do 3 (split; [done|]). intros E; injection E; intros; lia.
    + split; [apply p_store; lia|]. do 3 (split; [done|]). intros E; injection E; intros; lia.
Qed.

(** the consumer, whatever head *)
Lemma cons_enabled x h : live_inv x -> cons x <> CIdle ->
  exists a y, step a x y /\ (forall v, a = ALoadHead v -> v = h) /\ (forall v, a <> ALoadTail v)
    /\ prod y = prod x /\ cons y <> cons x.
Proof.
  destruct x as [r p c hist k out]; cbn. intros [HI _] Hidle.
  pose proof HI as (_ & _ & _ & _ & _ & _ & _ & Hp & _). cbn in Hp.
  destruct c as [|n|n h0|n t real ch s pos got|keep|keep h0]; [done|..].
  - eexists _, _. split; [apply (c_load_head _ _ _ _ _ _ h)|]. split; [|done]. by intros v [= ->].
  - eexists _, _. split; [apply c_load_tail|done].
  - destruct Hp as (Et & Hw & Hl & Hc & Hs & Ep & _). destruct (decide (ch = r_channels r)) as [E|N].
    { eexists _, _. split; [by apply c_finish|done]. }
    destruct (decide (s = real)) as [->|Nw].
    + eexists _, _. split; [apply c_next; [lia|done]|]. do 3 (split; [done|]). intros E; injection E; intros; lia.
    + destruct (read_enabled r p hist k out n t real ch s pos got HI) as [v Hv]; [lia|lia|]. eexists _, _.
      split; [apply c_read; [lia|lia|exact Hv]|]. do 3 (split; [done|]). intros E; injection E; intros; lia.
  - eexists _, _. split; [apply (c_trim_head _ _ _ _ _ _ h)|]. split; [|done]. by intros v [= ->].
  - destruct (Z.leb_spec (readable_of r h0 (r_tail r)) keep); eexists _, _.
    + split; [by apply c_trim_keep|done].
    + split; [apply c_trim_drop; lia|done].
Qed.

(** on the memory: each can read again the cursor it has read last *)
Lemma prod_rstep x m : live_state (x, m) -> prod x <> PIdle ->
  exists s, rstep (x, m) s /\ cons s.1 = cons x /\ prod s.1 <> prod x.
Proof.
  intros [(HI & HS & _) HC] Hidle. pose proof (s_producer _ _ HS) as (v & t & n & Hm & _). cbn in *.
  destruct (prod_enabled x v (conj HI HC) Hidle) as (a & y & Hs & Ht & Hh & E).
  destruct m as [hs ts cs ps pc cc cv pv wr fe]. cbn in Hm.
  assert (exists m', access a (Memory hs ts cs ps pc cc cv pv wr fe) m') as [m' HA].
  { destruct a as [|u|u|u c|u c|i|i]; try by eexists; constructor.
    - rewrite (Ht u eq_refl). eexists. by eapply a_load_tail.
    - by destruct (Hh u). }
  exists (y, m'). split; [by exists a|done].
Qed.

Lemma cons_rstep x m : live_state (x, m) -> cons x <> CIdle ->
  exists s, rstep (x, m) s /\ prod s.1 = prod x /\ cons s.1 <> cons x.
Proof.
  intros [(HI & HS & _) HC] Hidle. pose proof (s_consumer _ _ HS) as (v & t & n & Hm & _). cbn in *.
  destruct (cons_enabled x v (conj HI HC) Hidle) as (a & y & Hs & Ht & Hh & E).
  destruct m as [hs ts cs ps pc cc cv pv wr fe]. cbn in Hm.
  assert (exists m', access a (Memory hs ts cs ps pc cc cv pv wr fe) m') as [m' HA].
  { destruct a as [|u|u|u c|u c|i|i]; try by eexists; constructor.
    - by destruct (Hh u).
    - rewrite (Ht u eq_refl). eexists. by eapply a_load_head. }
  exists (y, m'). split; [by exists a|done].
Qed.

(** ** Bounded calls *)

Lemma busy_bound {T} (thread : config F -> T) (idle : T) (work : config F -> Z) :
  (forall a x y, live_inv x -> load_ok a x -> step a x y -> thread x <> idle ->
     (thread y = thread x /\ work y = work x) \/ (thread y <> thread x /\ 0 <= work y < work x)) ->
  forall s n s', busy_run thread idle s n s' -> live_state s -> n = 0%nat \/ Z.of_nat n <= work s.1.
Proof.
  intros Hstep.
  assert (forall s s', live_state s -> rstep s s' -> thread s.1 <> idle ->
     (thread s'.1 = thread s.1 /\ work s'.1 = work s.1) \/ (thread s'.1 <> thread s.1 /\ 0 <= work s'.1 < work s.1)) as Hr.
  { intros s s' [(HI & HS & _) HC] (a & Hs & HA). apply (Hstep a); [by split|by eapply access_load_ok|done]. }
  intros s n s' Hrun. induction Hrun as [s|s s' n s'' Hx Hs E Hrun IH|s s' n s'' Hx Hs E Hrun IH]; intros HI.
  - by left.
  - destruct (Hr s s' HI Hs Hx) as [[_ <-]|[N _]]; [|done]. apply IH. by eapply live_step.
  - right. destruct (Hr s s' HI Hs Hx) as [[N _]|[_ Hw]]; [done|].
    destruct IH as [->|IH]; [by eapply live_step|lia|lia].
Qed.
Lemma prod_work_le x : live_inv x -> prod_work x <= call_bound x.
Proof.
  intros [(HR & Hk & Hl & _ & _ & _ & Hp & _) _]. pose proof (ring_cap _ HR). pose proof HR as (_ & _ & Hch & _).
  unfold prod_work, call_bound, copy_work, hlen in *. destruct (prod x); cbn in *; [nia|lia|lia|].
  destruct Hp as (_ & Hw & Hc & Hs & _). nia.
Qed.

Lemma cons_work_le x : live_inv x -> cons_work x <= call_bound x.
Proof.
  intros [(HR & Hk & Hl & _ & _ & _ & _ & Hp & _) _]. pose proof (ring_cap _ HR). pose proof HR as (_ & _ & Hch & _).
  unfold cons_work, call_bound, copy_work, hlen in *. destruct (cons x); cbn in *; [nia|lia|lia| |nia|nia].
  destruct Hp as (_ & Hw & Hlw & Hc & Hs & _). nia.
Qed.

Lemma steps_geometry (s s' : state (F := F)) : rsteps s s' -> call_bound s'.1 = call_bound s.1.
Proof.
  induction 1 as [|s s' s'' (a & Hs & _) _ IH]; [done|]. rewrite IH. unfold call_bound.
  by destruct (step_geometry _ _ _ Hs) as [-> ->].
Qed.
End Progress.

(** * Properties *)

(** C38: the ring is wait-free.  In every state any interleaving reaches, however old
    the cursors read, a thread inside a call can always take its next step, and it takes
    at most 3 + channels * capacity steps of its own before the call returns, however
    many steps the other thread takes meanwhile: neither side ever waits for the
    other. *)
Theorem spsc_wait_free {F} (fzero : F) (channels_ frames : Z) r (x : config F) m
  (Hc : 0 <= channels_) (Hf : frames <= 2147483648)
  (Hr : reac_ring_init fzero true channels_ frames = Some r) (Hx : rsteps (start r, memory_start) (x, m)) :
  (prod x <> PIdle -> exists s, rstep (x, m) s /\ cons s.1 = cons x /\ prod s.1 <> prod x)
  /\ (cons x <> CIdle -> exists s, rstep (x, m) s /\ prod s.1 = prod x /\ cons s.1 <> cons x)
  /\ (forall n s, busy_run prod PIdle (x, m) n s -> Z.of_nat n <= 3 + r_channels r * r_capacity r)
  /\ (forall n s, busy_run cons CIdle (x, m) n s -> Z.of_nat n <= 3 + r_channels r * r_capacity r).
Proof.
  destruct (ring_init_ok fzero channels_ frames r Hc Hf Hr) as [HR HH].
  assert (live_state (x, m)) as HL by (eapply live_steps; [exact Hx|]; split; [by eapply relaxed_init|by split]).
  pose proof HL as [(HI & _) HC]. cbn in HI, HC.
  pose proof (steps_geometry _ _ Hx) as E. change (call_bound (start r, memory_start).1) with (3 + r_channels r * r_capacity r) in E.
  pose proof (ring_cap _ HR). pose proof HR as (_ & _ & Hch & _).
  split; [by apply prod_rstep|]. split; [by apply cons_rstep|]. rewrite <- E.
  split; intros n s Hrun.
  - destruct (busy_bound prod PIdle prod_work prod_step _ n s Hrun HL) as [->|]; [rewrite E; nia|].
    pose proof (prod_work_le x (conj HI HC)). cbn in *. lia.
  - destruct (busy_bound cons CIdle cons_work cons_step _ n s Hrun HL) as [->|]; [rewrite E; nia|].
    pose proof (cons_work_le x (conj HI HC)). cbn in *. lia.
Qed.

(** a writer of three columns, one step into its call *)
Lemma spsc_wait_free_witness :
  exists x m, rsteps (start toy_ring, memory_start) (x, m) /\ prod x <> PIdle
    /\ exists s, rstep (x, m) s /\ cons s.1 = cons x /\ prod s.1 <> prod x.
Proof.
  set (x := Config toy_ring (PCall (fun _ s => 11 + s) 3) CIdle [] 0 []).
  assert (rsteps (start toy_ring, memory_start) (x, memory_start)) as Hx.
  { eapply rsteps_step; [by apply (p_call _ _ _ _ _ (fun _ s => 11 + s) 3)|apply a_local|apply rsteps_refl]. }
  exists x, memory_start. split; [exact Hx|]. split; [done|].
  by apply (proj1 (spsc_wait_free 0 1 4 toy_ring x memory_start ltac:(lia) ltac:(lia) eq_refl Hx)).
Defined.
