(* ===== verification/Rounding.v ===== *)
(** Rounding in a binary floating-point format, over the Standard Library's
    executable specification of IEEE 754, for any precision and exponent range:
    exact cases, and the bounds that rounding to nearest never crosses.  A bound is
    a non-negative integer below 2^prec, so that comparisons with it stay in Z. *)

From Stdlib Require Export Floats.SpecFloat.
From S2P Require Import Prelude.

#[export] Instance location_eq_dec : EqDecision location.
Proof. solve_decision. Defined.

(** * Digits *)

Lemma pow2_pos k : 0 <= k -> 0 < 2 ^ k.
Proof. intros. by apply Z.pow_pos_nonneg. Qed.

Lemma digits_log2 p : Zpos (digits2_pos p) = Z.log2 (Zpos p) + 1.
Proof.
  induction p as [p IH|p IH|]; [| |done]; cbn [digits2_pos]; rewrite Pos2Z.inj_succ, IH.
  - change (Zpos p~1) with (2 * Zpos p + 1). rewrite Z.log2_succ_double by lia. lia.
  - change (Zpos p~0) with (2 * Zpos p). rewrite Z.log2_double by lia. lia.
Qed.

Lemma Zdigits2_log2 n : 0 < n -> Zdigits2 n = Z.log2 n + 1.
Proof. destruct n; [lia| |lia]. intros _. apply digits_log2. Qed.

Lemma Zdigits2_shift n k : 0 < n -> 0 <= k -> Zdigits2 (n * 2 ^ k) = Zdigits2 n + k.
Proof.
  intros Hn Hk. assert (0 < 2 ^ k) by (apply Z.pow_pos_nonneg; lia).
  rewrite !Zdigits2_log2 by nia. rewrite Z.log2_mul_pow2 by lia. lia.
Qed.

Lemma digits_bound n d : 0 < n -> Zdigits2 n = d -> 2 ^ (d - 1) <= n < 2 ^ d.
Proof.
  intros Hn <-. rewrite Zdigits2_log2 by done. rewrite Z.add_simpl_r.
  change (Z.log2 n + 1) with (Z.succ (Z.log2 n)). by apply Z.log2_spec.
Qed.

Lemma digits_small p k : 0 <= k -> Zpos p < 2 ^ k -> Zpos (digits2_pos p) <= k.
Proof.
  intros Hk Hp. rewrite digits_log2.
  assert (Z.log2 (Zpos p) < k) by (apply Z.log2_lt_pow2; lia). lia.
Qed.

Lemma Zdigits2_small n k : 0 <= n -> 0 <= k -> n < 2 ^ k -> Zdigits2 n <= k.
Proof. intros Hn Hk H. destruct n as [|p|]; [done|by apply digits_small|lia]. Qed.

Lemma Zdigits2_nonneg n : 0 <= Zdigits2 n.
Proof. by destruct n. Qed.

Lemma digits_unique n d : 2 ^ (d - 1) <= n < 2 ^ d -> 0 < d -> Zdigits2 n = d.
Proof.
  intros [H1 H2] Hd. assert (0 < n) by (pose proof (pow2_pos (d - 1)); lia).
  rewrite Zdigits2_log2 by done. rewrite (Z.log2_unique n (d - 1)); [lia|lia|].
  by replace (Z.succ (d - 1)) with d by lia.
Qed.

(** * Shifts *)

Lemma iter_pos_comm {A} (f : A -> A) p x : f (SpecFloat.iter_pos f p x) = SpecFloat.iter_pos f p (f x).
Proof. revert x. induction p as [p IH|p IH|]; intros x; simpl; by rewrite ?IH. Qed.

Lemma iter_pos_succ {A} (f : A -> A) p x :
  SpecFloat.iter_pos f (Pos.succ p) x = SpecFloat.iter_pos f p (f x).
Proof.
  revert x. induction p as [p IH|p IH|]; intros x; simpl; rewrite ?IH, ?iter_pos_comm; done.
Qed.

Lemma shr_1_double m : 0 < m -> shr_1 (Build_shr_record (m * 2) false false) = Build_shr_record m false false.
Proof. intros Hm. destruct m as [|p|]; [lia| |lia]. by rewrite Z.mul_comm. Qed.

Lemma iter_shr p m :
  0 < m -> SpecFloat.iter_pos shr_1 p (Build_shr_record (m * 2 ^ Zpos p) false false) = Build_shr_record m false false.
Proof.
  revert m. induction p as [|p IH] using Pos.peano_ind; intros m Hm.
  - change (2 ^ 1) with 2. by apply shr_1_double.
  - rewrite iter_pos_succ, Pos2Z.inj_succ, Z.pow_succ_r by lia.
    replace (m * (2 * 2 ^ Z.pos p)) with (m * 2 ^ Z.pos p * 2) by ring.
    rewrite shr_1_double by (apply Z.mul_pos_pos; [done|apply Z.pow_pos_nonneg; lia]). by apply IH.
Qed.

Lemma shr_exact m e n :
  0 < m -> 0 <= n ->
  shr (Build_shr_record (m * 2 ^ n) false false) e n = (Build_shr_record m false false, e + n).
Proof.
  intros Hm Hn. destruct n as [|p|]; [|by cbn [shr]; rewrite iter_shr|lia].
  cbn [shr]. by rewrite Z.mul_1_r, Z.add_0_r.
Qed.

Lemma shr_nonpos r e n : n <= 0 -> shr r e n = (r, e).
Proof. destruct n; (done || lia). Qed.

(** so does a shift of nothing *)
Lemma shr_zero e n : (shr (Build_shr_record 0 false false) e n).1 = Build_shr_record 0 false false.
Proof.
  destruct n as [|p|p]; [done| |done]. cbn [shr fst]. induction p as [|p IH] using Pos.peano_ind; [done|].
  by rewrite iter_pos_succ.
Qed.

Lemma shr_1_floor r : 0 <= shr_m r -> shr_m (shr_1 r) = shr_m r / 2.
Proof.
  destruct r as [m r s]. cbn [shr_m]. destruct m as [|p|]; [done| |lia]. intros _.
  destruct p as [p|p|]; cbn [shr_1 shr_m]; [|by rewrite (Pos2Z.inj_xO p), Z.mul_comm, Z.div_mul|done].
  rewrite Pos2Z.inj_xI. by rewrite Z.mul_comm, Z.div_add_l.
Qed.

(** a shift to the right keeps the integer part *)
Lemma shr_floor r e n : 0 <= shr_m r -> shr_m (shr r e n).1 = shr_m r / 2 ^ Z.max n 0 /\ (shr r e n).2 = e + Z.max n 0.
Proof.
  intros Hr. destruct n as [|p|p]; cbn [shr fst snd]; [by rewrite Z.div_1_r, Z.add_0_r| |by rewrite Z.div_1_r, Z.add_0_r].
  split; [|done]. revert r Hr. induction p as [|p IH] using Pos.peano_ind; intros r Hr.
  { by apply shr_1_floor. }
  rewrite iter_pos_succ, IH by (rewrite shr_1_floor by done; apply Z.div_pos; lia).
  rewrite shr_1_floor by done. rewrite !Z.max_l, Pos2Z.inj_succ, Z.pow_succ_r by lia.
  by rewrite Z.div_div by (try apply Z.pow_pos_nonneg; lia).
Qed.

Lemma shr_loc_floor m e l n : 0 <= m ->
  shr_m (shr (shr_record_of_loc m l) e n).1 = m / 2 ^ Z.max n 0 /\ (shr (shr_record_of_loc m l) e n).2 = e + Z.max n 0.
Proof.
  intros Hm. assert (shr_m (shr_record_of_loc m l) = m) as E by by destruct l as [|[]].
  pose proof (shr_floor (shr_record_of_loc m l) e n) as H. rewrite E in H. by apply H.
Qed.

Lemma iter_xO p k : Zpos (Pos.iter xO p k) = Zpos p * 2 ^ Zpos k.
Proof.
  induction k as [|k IH] using Pos.peano_ind; [by rewrite Z.mul_comm|].
  rewrite Pos.iter_succ, Pos2Z.inj_succ, Z.pow_succ_r by lia.
  change (Zpos (Pos.iter xO p k)~0) with (2 * Zpos (Pos.iter xO p k)). rewrite IH. ring.
Qed.

Lemma shl_align_spec p e e' :
  e' <= e -> shl_align p e e' = (Z.to_pos (Zpos p * 2 ^ (e - e')), e').
Proof.
  intros He. unfold shl_align. destruct (e' - e) as [|d|d] eqn:E; [|lia|].
  - replace (e - e') with 0 by lia. rewrite Z.mul_1_r. f_equal. lia.
  - replace (e - e') with (Zpos d) by lia. by rewrite <- iter_xO.
Qed.

Lemma shl_align_id p e e' : e <= e' -> shl_align p e e' = (p, e).
Proof. intros He. unfold shl_align. destruct (e' - e) eqn:E; (done || lia). Qed.

(** * Comparing [m * 2^e] with an integer *)

(** [m * 2^e <= n] and [m * 2^e < n], [n <= m * 2^e] *)
Definition scaled_le (m e n : Z) : Prop := m * 2 ^ Z.max e 0 <= n * 2 ^ Z.max (- e) 0.
Definition scaled_lt (m e n : Z) : Prop := m * 2 ^ Z.max e 0 < n * 2 ^ Z.max (- e) 0.
Definition scaled_ge (m e n : Z) : Prop := n * 2 ^ Z.max (- e) 0 <= m * 2 ^ Z.max e 0.

Section Scaled.
Implicit Types (m e n k K : Z).

(** both sides over a common power *)
Lemma scale_common m e n K : 0 <= K -> 0 <= e + K ->
  exists c, 0 < c /\ m * 2 ^ (e + K) = m * 2 ^ Z.max e 0 * c /\ n * 2 ^ K = n * 2 ^ Z.max (- e) 0 * c.
Proof.
  intros HK He. exists (2 ^ Z.min K (e + K)). split; [apply pow2_pos; lia|].
  rewrite <- !Z.mul_assoc, <- !Z.pow_add_r by lia. split; do 2 f_equal; lia.
Qed.

Lemma scaled_le_at K m e n : 0 <= K -> 0 <= e + K -> scaled_le m e n <-> m * 2 ^ (e + K) <= n * 2 ^ K.
Proof. intros HK He. destruct (scale_common m e n K HK He) as (c & Hc & -> & ->). unfold scaled_le. by rewrite <- Z.mul_le_mono_pos_r. Qed.

Lemma scaled_lt_at K m e n : 0 <= K -> 0 <= e + K -> scaled_lt m e n <-> m * 2 ^ (e + K) < n * 2 ^ K.
Proof. intros HK He. destruct (scale_common m e n K HK He) as (c & Hc & -> & ->). unfold scaled_lt. by rewrite <- Z.mul_lt_mono_pos_r. Qed.

Lemma scaled_ge_at K m e n : 0 <= K -> 0 <= e + K -> scaled_ge m e n <-> n * 2 ^ K <= m * 2 ^ (e + K).
Proof. intros HK He. destruct (scale_common m e n K HK He) as (c & Hc & -> & ->). unfold scaled_ge. by rewrite <- Z.mul_le_mono_pos_r. Qed.

(** moving a power of two between mantissa and exponent *)
Lemma scaled_le_shift m e n k : 0 <= k -> scaled_le (m * 2 ^ k) e n <-> scaled_le m (e + k) n.
Proof.
  intros Hk. rewrite (scaled_le_at (Z.max 0 (- e)) _ e), (scaled_le_at (Z.max 0 (- e)) m (e + k)) by lia.
  rewrite <- Z.mul_assoc, <- Z.pow_add_r by lia. by replace (k + (e + Z.max 0 (- e))) with (e + k + Z.max 0 (- e)) by lia.
Qed.

Lemma scaled_le_mono m e n n' : scaled_le m e n -> n <= n' -> scaled_le m e n'.
Proof. unfold scaled_le. intros H Hn. pose proof (pow2_pos (Z.max (- e) 0) ltac:(lia)). nia. Qed.

Lemma scaled_lt_le m e n : scaled_lt m e n -> scaled_le m e n.
Proof. unfold scaled_lt, scaled_le. lia. Qed.

Lemma scaled_le_add m1 m2 e n1 n2 : scaled_le m1 e n1 -> scaled_le m2 e n2 -> scaled_le (m1 + m2) e (n1 + n2).
Proof. unfold scaled_le. lia. Qed.

Lemma scaled_le_sub m1 m2 e n1 n2 : scaled_le m1 e n1 -> scaled_ge m2 e n2 -> scaled_le (m1 - m2) e (n1 - n2).
Proof. unfold scaled_le, scaled_ge. lia. Qed.

Lemma scaled_ge_shift m e n k : 0 <= k -> scaled_ge (m * 2 ^ k) e n <-> scaled_ge m (e + k) n.
Proof.
  intros Hk. rewrite (scaled_ge_at (Z.max 0 (- e)) _ e), (scaled_ge_at (Z.max 0 (- e)) m (e + k)) by lia.
  rewrite <- Z.mul_assoc, <- Z.pow_add_r by lia. by replace (k + (e + Z.max 0 (- e))) with (e + k + Z.max 0 (- e)) by lia.
Qed.

Lemma scaled_ge_digits m e : 0 < m -> scaled_ge m e 1 -> 1 <= Zdigits2 m + e.
Proof.
  intros Hm. set (K := Z.max 0 (- e)). assert (0 <= K /\ 0 <= e + K) as [A1 A2] by (unfold K; lia). clearbody K.
  rewrite (scaled_ge_at K), Z.mul_1_l by lia. intros H. pose proof (digits_bound m _ Hm eq_refl) as [_ HB].
  pose proof (Zdigits2_nonneg m). assert (2 ^ K < 2 ^ (Zdigits2 m + (e + K))) as HL.
  { rewrite Z.pow_add_r by lia. eapply Z.le_lt_trans; [exact H|].
    apply Z.mul_lt_mono_pos_r; [by apply pow2_pos|done]. }
  apply Z.pow_lt_mono_r_iff in HL; lia.
Qed.

(** the quotient [q] of [m1 * 2^e1] by [m2 * 2^e2] *)
Lemma scaled_div m1 e1 a m2 e2 b n q r e :
  0 < m2 -> 0 <= r -> 0 <= n -> e <= e1 - e2 -> scaled_le m1 e1 a -> scaled_ge m2 e2 b -> a <= n * b ->
  q * m2 + r = m1 * 2 ^ (e1 - e2 - e) -> scaled_le q e n /\ (0 < r -> scaled_lt q e n).
Proof.
  intros Hm2 Hr Hn He. set (K := Z.abs e + Z.abs e1 + Z.abs e2).
  assert (0 <= K /\ 0 <= e + K /\ 0 <= e1 + K /\ 0 <= e2 + K) as (A & A0 & A1 & A2) by (unfold K; lia). clearbody K.
  rewrite (scaled_le_at K m1), (scaled_ge_at K m2), (scaled_le_at K q), (scaled_lt_at K q) by lia.
  set (c := m2 * 2 ^ (e2 + K)). set (p := 2 ^ (e + K)). intros H1 H2 Hab Hq.
  assert (0 < 2 ^ (e2 + K) /\ 0 < p /\ 0 < 2 ^ K) as (P1 & P2 & P3) by (repeat split; apply pow2_pos; lia).
  assert (0 < c) as Hc by (unfold c; nia).
  assert ((q * p) * c + r * (p * 2 ^ (e2 + K)) = m1 * 2 ^ (e1 + K) * 2 ^ K) as E.
  { unfold c. replace (q * p * (m2 * 2 ^ (e2 + K)) + r * (p * 2 ^ (e2 + K))) with ((q * m2 + r) * (p * 2 ^ (e2 + K))) by ring.
    rewrite Hq. unfold p. rewrite <- !Z.mul_assoc, <- !Z.pow_add_r by lia. do 2 f_equal. lia. }
  assert (m1 * 2 ^ (e1 + K) * 2 ^ K <= (n * 2 ^ K) * c) as HU.
  { etrans; [apply Z.mul_le_mono_nonneg_r; [lia|exact H1]|]. replace (n * 2 ^ K * c) with (n * c * 2 ^ K) by ring.
    apply Z.mul_le_mono_nonneg_r; [lia|]. etrans; [apply Z.mul_le_mono_nonneg_r; [lia|exact Hab]|]. nia. }
  assert (0 < p * 2 ^ (e2 + K)) by nia. split; [|intros Hr']; nia.
Qed.

Lemma scaled_le_mul m1 e1 n1 m2 e2 n2 : 0 <= m1 -> 0 <= m2 -> scaled_le m1 e1 n1 -> scaled_le m2 e2 n2 ->
  scaled_le (m1 * m2) (e1 + e2) (n1 * n2).
Proof.
  intros Hm1 Hm2. set (K1 := Z.max 0 (- e1)). set (K2 := Z.max 0 (- e2)).
  assert (0 <= K1 /\ 0 <= e1 + K1 /\ 0 <= K2 /\ 0 <= e2 + K2) as (A1 & A2 & A3 & A4) by (unfold K1, K2; lia). clearbody K1 K2.
  rewrite (scaled_le_at K1 m1 e1), (scaled_le_at K2 m2 e2), (scaled_le_at (K1 + K2)) by lia. intros H1 H2.
  replace (m1 * m2 * 2 ^ (e1 + e2 + (K1 + K2))) with ((m1 * 2 ^ (e1 + K1)) * (m2 * 2 ^ (e2 + K2))).
  - rewrite (Z.pow_add_r 2 K1) by lia. replace (n1 * n2 * (2 ^ K1 * 2 ^ K2)) with ((n1 * 2 ^ K1) * (n2 * 2 ^ K2)) by ring.
    apply Z.mul_le_mono_nonneg; try done; apply Z.mul_nonneg_nonneg; try done; apply Z.pow_nonneg; lia.
  - replace (e1 + e2 + (K1 + K2)) with ((e1 + K1) + (e2 + K2)) by lia. rewrite (Z.pow_add_r 2 (e1 + K1)) by lia. ring.
Qed.

Lemma scaled_le_mono_l m m' e n : scaled_le m' e n -> m <= m' -> scaled_le m e n.
Proof. unfold scaled_le. intros H Hm. pose proof (pow2_pos (Z.max e 0) ltac:(lia)). nia. Qed.

(** a positive mantissa bounds the exponent *)
Lemma scaled_le_digits m e n k : 0 < m -> scaled_le m e n -> n < 2 ^ k -> 0 <= k -> Zdigits2 m + e <= k.
Proof.
  intros Hm H Hn Hk. set (K := Z.max 0 (- e)). assert (0 <= K /\ 0 <= e + K) as [A1 A2] by (unfold K; lia). clearbody K.
  rewrite (scaled_le_at K) in H by lia. pose proof (digits_bound m _ Hm eq_refl) as [HB _].
  assert (2 ^ (Zdigits2 m - 1 + (e + K)) < 2 ^ (k + K)) as HL.
  { assert (0 < Zdigits2 m) by (rewrite Zdigits2_log2 by done; pose proof (Z.log2_nonneg m); lia).
    rewrite (Z.pow_add_r 2 (_ - 1)), (Z.pow_add_r 2 k) by lia. eapply Z.le_lt_trans; [|eapply Z.le_lt_trans; [exact H|]].
    - apply Z.mul_le_mono_nonneg_r; [apply Z.pow_nonneg; lia|done].
    - apply Z.mul_lt_mono_pos_r; [by apply pow2_pos|done]. }
  apply Z.pow_lt_mono_r_iff in HL; lia.
Qed.
End Scaled.

(** * Rounding to nearest *)

Section Round.
Context (prec emax : Z) (Hprec : 1 < prec) (Hemax : 2 * prec <= emax).
Abbreviation fexp := (SpecFloat.fexp prec emax).
Abbreviation emin := (SpecFloat.emin prec emax).
Implicit Types (x y : spec_float).

Lemma fexp_eq d : fexp d = Z.max (d - prec) emin.
Proof. done. Qed.

Lemma emin_neg : emin < 0.
Proof. unfold SpecFloat.emin. lia. Qed.

(** the shift before rounding: the integer part at the exponent [E] *)
Lemma shift_once m e l n :
  0 <= m -> scaled_le m e n ->
  let r := shr_fexp prec emax m e l in let E := Z.max e (fexp (Zdigits2 m + e)) in
  r.2 = E /\ shr_m r.1 = m / 2 ^ (E - e) /\ 0 <= shr_m r.1 < 2 ^ prec
  /\ shr_m r.1 * 2 ^ (E - e) <= m /\ scaled_le (shr_m r.1) E n.
Proof.
  intros Hm Hle r E. set (d := Zdigits2 m) in *.
  pose proof (shr_loc_floor m e l (fexp (d + e) - e) Hm) as [Eq Ee].
  change (shr _ e (fexp (d + e) - e)) with r in Eq, Ee.
  replace (e + Z.max (fexp (d + e) - e) 0) with E in Ee by (unfold E; lia).
  replace (Z.max (fexp (d + e) - e) 0) with (E - e) in Eq by (unfold E; lia).
  assert (0 <= E - e) as HE by (unfold E; lia). pose proof (pow2_pos (E - e) HE) as Hp.
  assert (shr_m r.1 * 2 ^ (E - e) <= m) as Hqm by (rewrite Eq, Z.mul_comm; by apply Z.mul_div_le).
  split; [done|]. split; [done|]. split; [split; [rewrite Eq; apply Z.div_pos; lia|]|split; [done|]].
  - rewrite Eq. apply Z.div_lt_upper_bound; [done|]. rewrite <- Z.pow_add_r by lia.
    destruct (decide (m = 0)) as [->|]; [apply pow2_pos; lia|].
    pose proof (digits_bound m d ltac:(lia) eq_refl) as [_ HB]. eapply Z.lt_le_trans; [exact HB|].
    apply Z.pow_le_mono_r; [lia|]. unfold E. rewrite fexp_eq. lia.
  - replace E with (e + (E - e)) by lia. rewrite <- scaled_le_shift by done. by eapply scaled_le_mono_l.
Qed.

(** a value of at most [n] is not shifted past the units *)
Lemma shift_bound m e n : 0 <= m -> 0 <= n < 2 ^ prec -> scaled_le m e n ->
  e < Z.max e (fexp (Zdigits2 m + e)) -> Z.max e (fexp (Zdigits2 m + e)) <= 0.
Proof.
  intros Hm Hn Hle HE. pose proof emin_neg. rewrite fexp_eq in *. destruct (decide (m = 0)) as [->|].
  - change (Zdigits2 0) with 0 in *. lia.
  - pose proof (scaled_le_digits m e n prec ltac:(lia) Hle ltac:(lia) ltac:(lia)). lia.
Qed.

(** a value that is not exact lies strictly between its integer part and the next *)
Lemma inexact_below m e l n :
  0 <= m -> 0 <= n < 2 ^ prec ->
  (l = loc_Exact -> scaled_le m e n) -> (l <> loc_Exact -> scaled_lt m e n /\ e <= 0) ->
  let r := shr_fexp prec emax m e l in
  loc_of_shr_record r.1 <> loc_Exact -> scaled_le (shr_m r.1 + 1) r.2 n.
Proof.
  intros Hm Hn Hex Hin r HR.
  assert (scaled_le m e n) as Hle by (destruct (decide (l = loc_Exact)); [by apply Hex|by apply scaled_lt_le, Hin]).
  pose proof (shift_once m e l n Hm Hle) as (Ee & Eq & Hq & Hqm & Hqn). fold r in Ee, Eq, Hq, Hqm, Hqn.
  pose proof (shift_bound m e n Hm Hn Hle) as HE0. rewrite Ee. set (d := Zdigits2 m) in *. set (E := Z.max e (fexp (d + e))) in *.
  set (q := shr_m r.1) in *. destruct (decide (e < E)) as [HeE|HeE].
  2: { assert (r.1 = shr_record_of_loc m l) as Er.
       { change r with (shr (shr_record_of_loc m l) e (fexp (d + e) - e)). by rewrite shr_nonpos by (unfold E in *; lia). }
       rewrite Er in HR. destruct (decide (l = loc_Exact)) as [->|Hl]; [done|]. destruct (Hin Hl) as [Hlt He0].
       assert (E = e) as -> by (unfold E in *; lia). assert (q = m) as -> by (rewrite Eq, Z.sub_diag, Z.div_1_r; done).
       unfold scaled_lt, scaled_le in *. rewrite (Z.max_r e 0) in * by lia. lia. }
  specialize (HE0 HeE). unfold scaled_le in *. rewrite (Z.max_r E 0), (Z.max_l (- E)) in * by lia.
  rewrite (Z.max_r e 0), (Z.max_l (- e)) in * by lia. change (2 ^ 0) with 1 in *.
  destruct (decide (q + 1 <= n * 2 ^ (- E))) as [|Hbad]; [lia|]. exfalso. assert (q = n * 2 ^ (- E)) as Eqn by lia.
  assert (m = q * 2 ^ (E - e)) as Em.
  { apply Z.le_antisymm; [|done]. rewrite Eqn, <- Z.mul_assoc, <- Z.pow_add_r by lia.
    replace (- E + (E - e)) with (- e) by lia. lia. }
  destruct (decide (l = loc_Exact)) as [->|Hl].
  - apply HR. change r with (shr (shr_record_of_loc m loc_Exact) e (fexp (d + e) - e)). cbn [shr_record_of_loc].
    destruct (decide (q = 0)) as [Hq0|]; [rewrite Em, Hq0, Z.mul_0_l, shr_zero; done|].
    rewrite Em at 1. replace (fexp (d + e) - e) with (E - e) by (unfold E in *; lia). by rewrite shr_exact by lia.
  - destruct (Hin Hl) as [Hlt _]. unfold scaled_lt in Hlt.
    rewrite (Z.max_r e 0), (Z.max_l (- e)), Em, Eqn, <- (Z.mul_assoc n), <- Z.pow_add_r in Hlt by lia.
    replace (- E + (E - e)) with (- e) in Hlt by lia. change (2 ^ 0) with 1 in Hlt. lia.
Qed.

(** the mantissa after the first rounding *)
Lemma round_once m e l n :
  0 <= m -> 0 <= n < 2 ^ prec ->
  (l = loc_Exact -> scaled_le m e n) -> (l <> loc_Exact -> scaled_lt m e n /\ e <= 0) ->
  let r := shr_fexp prec emax m e l in
  let R := round_nearest_even (shr_m r.1) (loc_of_shr_record r.1) in
  r.2 = Z.max e (fexp (Zdigits2 m + e)) /\ 0 <= R <= 2 ^ prec /\ scaled_le R r.2 n
  /\ m / 2 ^ (r.2 - e) <= R.
Proof.
  intros Hm Hn Hex Hin r R.
  assert (scaled_le m e n) as Hle by (destruct (decide (l = loc_Exact)); [by apply Hex|by apply scaled_lt_le, Hin]).
  pose proof (shift_once m e l n Hm Hle) as (Ee & Eq & Hq & Hqm & Hqn). pose proof (inexact_below m e l n Hm Hn Hex Hin) as HI.
  cbv zeta in HI. fold r in Ee, Eq, Hq, Hqm, Hqn, HI. rewrite Ee in *. split; [done|]. rewrite <- Eq.
  assert (R = shr_m r.1 \/ R = shr_m r.1 + 1 /\ loc_of_shr_record r.1 <> loc_Exact) as [->|[-> HR]].
  { unfold R, round_nearest_even. destruct (loc_of_shr_record r.1) as [|[]]; auto. destruct (Z.even _); auto. }
  - split; [lia|]. by split.
  - split; [lia|]. split; [by apply HI|lia].
Qed.

(** the second one only meets a mantissa of a power of two *)
Lemma round_twice R E : 0 <= R <= 2 ^ prec -> emin <= E ->
  shr_fexp prec emax R E loc_Exact
  = if decide (R = 2 ^ prec) then (Build_shr_record (2 ^ (prec - 1)) false false, E + 1)
    else (Build_shr_record R false false, E).
Proof.
  intros HR HE. unfold shr_fexp. cbn [shr_record_of_loc]. rewrite fexp_eq. case_decide as HD.
  - rewrite HD at 2. rewrite <- (Z.mul_1_l (2 ^ prec)), Zdigits2_shift by lia. change (Zdigits2 1) with 1.
    replace (Z.max (1 + prec + E - prec) emin - E) with 1 by lia. rewrite HD.
    replace (2 ^ prec) with (2 ^ (prec - 1) * 2 ^ 1) by (rewrite <- Z.pow_add_r by lia; f_equal; lia).
    apply shr_exact; [apply pow2_pos; lia|lia].
  - apply shr_nonpos. pose proof (Zdigits2_small R prec ltac:(lia) ltac:(lia) ltac:(lia)). lia.
Qed.

(** a result of magnitude at most [n], its sign, and its being in the format *)
Definition within x (n : Z) : Prop :=
  match x with
  | S754_zero _ => True
  | S754_finite _ m e => emin <= e /\ scaled_le (Zpos m) e n
  | _ => False
  end.

Definition signed (s : bool) x : Prop :=
  match x with S754_zero s' | S754_finite s' _ _ | S754_infinity s' => s' = s | S754_nan => False end.

Definition valid x : Prop := valid_binary prec emax x = true.

Lemma valid_finite s m e :
  valid (S754_finite s m e) <-> Z.max (Zpos (digits2_pos m) + e - prec) emin = e /\ e <= emax - prec.
Proof.
  unfold valid, valid_binary, bounded, canonical_mantissa. rewrite fexp_eq, andb_true_iff.
  by rewrite Z.eqb_eq, Z.leb_le.
Qed.

(** a mantissa as long as the format allows *)
Lemma round_canonical m e R E :
  0 <= m -> 0 < R < 2 ^ prec -> e <= E -> E = fexp (Zdigits2 m + e) -> m / 2 ^ (E - e) <= R -> fexp (Zdigits2 R + E) = E.
Proof.
  intros Hm HR HeE HE Hq. rewrite fexp_eq in *.
  pose proof (Zdigits2_small R prec ltac:(lia) ltac:(lia) ltac:(lia)) as HD.
  destruct (Z.max_spec (Zdigits2 m + e - prec) emin) as [[H1 H2]|[H1 H2]]; [lia|].
  assert (0 < m) as Hm' by (destruct (decide (m = 0)) as [->|]; [change (Zdigits2 0) with 0 in *; lia|lia]).
  pose proof (digits_bound m _ Hm' eq_refl) as [HB _].
  assert (2 ^ (prec - 1) <= R).
  { etrans; [|exact Hq]. apply Z.div_le_lower_bound; [apply pow2_pos; lia|]. rewrite <- Z.pow_add_r by lia.
    etrans; [|exact HB]. apply Z.pow_le_mono_r; lia. }
  rewrite (digits_unique R prec) by lia. lia.
Qed.

Lemma round_within s m e l n :
  0 <= m -> 0 <= n < 2 ^ prec ->
  (l = loc_Exact -> scaled_le m e n) -> (l <> loc_Exact -> scaled_lt m e n /\ e <= 0) ->
  let x := binary_round_aux prec emax s m e l in
  within x n /\ signed s x /\ (e <= fexp (Zdigits2 m + e) -> valid x).
Proof.
  intros Hm Hn Hex Hin x. pose proof (round_once m e l n Hm Hn Hex Hin) as H. unfold x, binary_round_aux.
  destruct (shr_fexp prec emax m e l) as [r1 E]. cbn [fst snd] in H. destruct H as (HE & HR & Hle & Hq).
  set (R := round_nearest_even _ _) in *. assert (emin <= E) as HEm by (rewrite HE, fexp_eq; lia).
  assert (forall p e', scaled_le (Zpos p) e' n -> e' <= emax - prec) as Hover.
  { intros p e' Hp. pose proof (scaled_le_digits (Zpos p) e' n prec ltac:(lia) Hp ltac:(lia) ltac:(lia)).
    cbn [Zdigits2] in *. lia. }
  rewrite round_twice by done. case_decide as HD; cbn [shr_m].
  - assert (scaled_le (2 ^ (prec - 1)) (E + 1) n) as Hle'.
    { rewrite <- scaled_le_shift, <- Z.pow_add_r by lia. replace (prec - 1 + 1) with prec by lia. by rewrite <- HD. }
    assert (Zdigits2 (2 ^ (prec - 1)) = prec) as HP.
    { rewrite <- (Z.mul_1_l (2 ^ _)), Zdigits2_shift by lia. change (Zdigits2 1) with 1. lia. }
    destruct (2 ^ (prec - 1)) as [|p|p] eqn:Ep; [pose proof (pow2_pos (prec - 1)); lia| |pose proof (pow2_pos (prec - 1)); lia].
    rewrite (proj2 (Z.leb_le _ _) (Hover _ _ Hle')). split; [split; [lia|done]|]. split; [done|]. intros _.
    apply valid_finite. cbn [Zdigits2] in HP. rewrite HP. split; [lia|by eapply Hover].
  - destruct R as [|p|p] eqn:Ep; [done| |lia].
    rewrite (proj2 (Z.leb_le _ _) (Hover _ _ Hle)). split; [split; [lia|done]|]. split; [done|]. intros He.
    apply valid_finite. split; [|by eapply Hover].
    apply (round_canonical m e (Zpos p) E); try done; rewrite ?HE, ?Z.max_r in *; lia.
Qed.

Lemma within_mono x n n' : within x n -> n <= n' -> within x n'.
Proof. destruct x; try done. intros [? ?] ?. split; [done|by eapply scaled_le_mono]. Qed.

(** ** Multiplication *)

Lemma mul_digits m1 m2 : 0 < m1 -> 0 < m2 -> Zdigits2 m1 + Zdigits2 m2 - 1 <= Zdigits2 (m1 * m2).
Proof.
  intros H1 H2. rewrite !Zdigits2_log2 by nia. pose proof (Z.log2_mul_below m1 m2 H1 H2). lia.
Qed.

Lemma mul_within x y a b :
  within x a -> within y b -> 0 <= a -> 0 <= b -> a * b < 2 ^ prec -> within (SFmul prec emax x y) (a * b).
Proof.
  destruct x as [sx| | |sx mx ex], y as [sy| | |sy my ey]; try done. intros [_ Hx] [_ Hy] Ha Hb Hab. cbn [SFmul].
  apply round_within; [lia|nia|intros _|done]. rewrite Pos2Z.inj_mul. by apply scaled_le_mul.
Qed.

Lemma mul_valid x y a b : within x a -> within y b -> 0 <= a -> 0 <= b -> a * b < 2 ^ prec ->
  valid x -> valid y -> valid (SFmul prec emax x y).
Proof.
  destruct x as [sx| | |sx mx ex], y as [sy| | |sy my ey]; try done. intros [_ Hx] [_ Hy] Ha Hb Hab Vx Vy. cbn [SFmul].
  apply valid_finite in Vx as [Vx _], Vy as [Vy _]. pose proof (mul_digits (Zpos mx) (Zpos my) ltac:(lia) ltac:(lia)) as HD.
  rewrite <- Pos2Z.inj_mul in HD. cbn [Zdigits2] in HD. pose proof emin_neg. eapply (round_within _ _ _ _ (a * b)); [lia|nia|intros _|done|].
  - rewrite Pos2Z.inj_mul. by apply scaled_le_mul.
  - rewrite fexp_eq. cbn [Zdigits2]. lia.
Qed.

(** ** Division *)

(** finite and at least [n] *)
Definition at_least x (n : Z) : Prop :=
  match x with S754_finite _ m e => scaled_ge (Zpos m) e n | _ => False end.

Lemma new_location_exact p r : new_location p r = loc_Exact <-> r = 0.
Proof.
  unfold new_location, new_location_even, new_location_odd. destruct (Z.even p), (Z.eqb_spec r 0); by split.
Qed.

Lemma div_core m1 e1 m2 e2 :
  exists q r e, SFdiv_core_binary prec emax (Zpos m1) e1 (Zpos m2) e2 = (q, e, new_location (Zpos m2) r)
    /\ e = Z.min (fexp (Zpos (digits2_pos m1) + e1 - (Zpos (digits2_pos m2) + e2))) (e1 - e2)
    /\ q * Zpos m2 + r = Zpos m1 * 2 ^ (e1 - e2 - e) /\ 0 <= r < Zpos m2 /\ 0 <= q.
Proof.
  unfold SFdiv_core_binary. cbn [Zdigits2]. set (e := Z.min _ _). set (s := e1 - e2 - e).
  assert (0 <= s) as Hs by (unfold s, e; lia).
  assert (match s with Z0 => Zpos m1 | Zpos _ => Z.shiftl (Zpos m1) s | Zneg _ => 0 end = Zpos m1 * 2 ^ s) as ->.
  { destruct s; [by rewrite Z.mul_1_r|by apply Z.shiftl_mul_pow2|lia]. }
  pose proof (Z_div_mod (Zpos m1 * 2 ^ s) (Zpos m2) ltac:(lia)) as H. destruct (Z.div_eucl _ _) as [q r].
  destruct H as [H1 H2]. exists q, r, e. split; [done|]. split; [done|].
  split; [by rewrite (Z.mul_comm q)|]. split; [done|].
  assert (0 <= Zpos m1 * 2 ^ s) by (apply Z.mul_nonneg_nonneg; [done|by apply Z.pow_nonneg]). nia.
Qed.

Lemma div_within x y a b n :
  within x a -> at_least y b -> 1 <= b -> 0 <= a < 2 ^ prec -> 0 <= n < 2 ^ prec -> a <= n * b ->
  within (SFdiv prec emax x y) n /\ (valid x -> valid y -> valid (SFdiv prec emax x y)).
Proof.
  destruct x as [sx| | |sx mx ex], y as [sy| | |sy my ey]; try done. intros [_ Hx] Hy Hb Ha Hn Hab. cbn [SFdiv].
  destruct (div_core mx ex my ey) as (q & r & e & -> & He & Hq & Hr & Hq0).
  destruct (scaled_div (Zpos mx) ex a (Zpos my) ey b n q r e) as [Hle Hlt]; try done; try lia.
  assert (e <= 0) as He0.
  { pose proof (scaled_le_digits (Zpos mx) ex a prec ltac:(lia) Hx ltac:(lia) ltac:(lia)) as D1.
    assert (scaled_ge (Zpos my) ey 1) as Hy1.
    { cbn [at_least] in Hy. unfold scaled_ge in *. pose proof (pow2_pos (Z.max (- ey) 0) ltac:(lia)). nia. }
    pose proof (scaled_ge_digits (Zpos my) ey ltac:(lia) Hy1) as D2. pose proof emin_neg. rewrite fexp_eq in He.
    cbn [Zdigits2] in *. lia. }
  pose proof (round_within (xorb sx sy) q e (new_location (Zpos my) r) n Hq0 Hn) as H. rewrite new_location_exact in H.
  destruct H as (H1 & _ & H3); [by intros _|intros ?; split; [apply Hlt; lia|done]|]. split; [done|].
  intros Vx Vy. apply H3. rewrite fexp_eq in *.
  assert (Zpos (digits2_pos mx) + ex - (Zpos (digits2_pos my) + ey) <= Zdigits2 q + e); [|lia].
  pose proof (Zdigits2_nonneg q). destruct (decide (Zpos (digits2_pos mx) + (ex - ey - e) - Zpos (digits2_pos my) <= 0)) as [|Hp]; [lia|].
  pose proof (digits_bound (Zpos mx) _ ltac:(lia) eq_refl) as [B1 _]. pose proof (digits_bound (Zpos my) _ ltac:(lia) eq_refl) as [_ B2].
  cbn [Zdigits2] in B1, B2. set (d1 := Zpos (digits2_pos mx)) in *. set (d2 := Zpos (digits2_pos my)) in *.
  assert (2 ^ (d1 + (ex - ey - e) - d2 - 1) <= q) as HQ.
  { apply Z.lt_succ_r. apply (Z.mul_lt_mono_pos_r (2 ^ d2)); [apply pow2_pos; lia|]. rewrite <- Z.pow_add_r by lia.
    replace (d1 + (ex - ey - e) - d2 - 1 + d2) with (d1 - 1 + (ex - ey - e)) by lia.
    rewrite Z.pow_add_r by lia. assert (0 < 2 ^ (ex - ey - e)) by (apply pow2_pos; lia). nia. }
  assert (0 < q) by (pose proof (pow2_pos (d1 + (ex - ey - e) - d2 - 1) ltac:(lia)); lia).
  pose proof (digits_bound q _ ltac:(lia) eq_refl) as [_ B3].
  assert (d1 + (ex - ey - e) - d2 - 1 < Zdigits2 q); [|lia]. apply (Z.pow_lt_mono_r_iff 2); lia.
Qed.

(** ** Exact results *)

(** rounding is exact when the dropped digits are zeros, and overflows above emax *)
Lemma round_to_exact s m n e :
  0 < m -> 0 <= n -> Z.max (Zdigits2 m + (e + n) - prec) emin = e + n ->
  binary_round_aux prec emax s (m * 2 ^ n) e loc_Exact
  = if e + n <=? emax - prec then S754_finite s (Z.to_pos m) (e + n) else S754_infinity s.
Proof.
  intros Hm Hn Hc. unfold binary_round_aux, shr_fexp. cbn [shr_record_of_loc].
  rewrite fexp_eq, Zdigits2_shift by lia.
  replace (Z.max (Zdigits2 m + n + e - prec) emin - e) with n by lia.
  rewrite shr_exact by lia. cbn [shr_m loc_of_shr_record round_nearest_even].
  rewrite fexp_eq, Hc, Z.sub_diag. cbn [shr shr_m]. destruct m; (done || lia).
Qed.

(** an integer of the precision's length *)
Lemma binary_round_integer s p :
  Zpos (digits2_pos p) <= prec ->
  binary_round prec emax s p 0
  = S754_finite s (Z.to_pos (Zpos p * 2 ^ (prec - Zpos (digits2_pos p)))) (Zpos (digits2_pos p) - prec).
Proof.
  intros Hd. set (d := Zpos (digits2_pos p)) in *. assert (0 < d) by (unfold d; lia).
  assert (0 < Zpos p * 2 ^ (prec - d)) as Hm by (pose proof (pow2_pos (prec - d)); lia).
  assert (emin <= 1 - prec) as Hemin by (unfold SpecFloat.emin; lia).
  unfold binary_round. fold d. rewrite fexp_eq, Z.max_l by lia. rewrite shl_align_spec by lia.
  replace (0 - (d + 0 - prec)) with (prec - d) by lia. replace (d + 0 - prec) with (d - prec) by lia.
  rewrite Z2Pos.id by done.
  rewrite <- (Z.mul_1_r (Zpos p * 2 ^ (prec - d))) at 1. change 1 with (2 ^ 0) at 1.
  rewrite round_to_exact; [by rewrite Z.add_0_r, (proj2 (Z.leb_le _ _)) by lia|done|lia|].
  rewrite Zdigits2_shift by lia. cbn [Zdigits2]. fold d. lia.
Qed.

(** its mantissa *)
Lemma integer_mantissa p :
  Zpos (digits2_pos p) <= prec ->
  let m := Z.to_pos (Zpos p * 2 ^ (prec - Zpos (digits2_pos p))) in
  Zpos (digits2_pos m) = prec /\ Zpos m = Zpos p * 2 ^ (prec - Zpos (digits2_pos p)).
Proof.
  intros Hd m. set (d := Zpos (digits2_pos p)) in *.
  assert (0 < Zpos p * 2 ^ (prec - d)) as Hm by (pose proof (pow2_pos (prec - d)); lia).
  assert (Zpos m = Zpos p * 2 ^ (prec - d)) as E by (unfold m; by rewrite Z2Pos.id).
  split; [|done]. change (Zpos (digits2_pos m)) with (Zdigits2 (Zpos m)).
  rewrite E, Zdigits2_shift by lia. cbn [Zdigits2]. fold d. lia.
Qed.

(** ** Addition *)

Lemma binary_round_within s p e n : scaled_le (Zpos p) e n -> 0 <= n < 2 ^ prec ->
  let x := binary_round prec emax s p e in within x n /\ signed s x /\ valid x.
Proof.
  intros Hp Hn x. unfold x, binary_round.
  set (f := fexp (Zpos (digits2_pos p) + e)). destruct (Z.le_ge_cases f e) as [Hf|Hf].
  - rewrite shl_align_spec by done. set (k := e - f). assert (0 <= k) by (unfold k; lia).
    assert (0 < Zpos p * 2 ^ k) by (pose proof (pow2_pos k); lia). rewrite Z2Pos.id by done.
    destruct (round_within s (Zpos p * 2 ^ k) f loc_Exact n) as (H1 & H2 & H3); [lia|done| |done|].
    { intros _. rewrite scaled_le_shift by done. by replace (f + k) with e by (unfold k; lia). }
    split; [done|]. split; [done|]. apply H3. rewrite Zdigits2_shift by lia. cbn [Zdigits2].
    replace (Zpos (digits2_pos p) + k + f) with (Zpos (digits2_pos p) + e) by (unfold k; lia). done.
  - rewrite shl_align_id by done.
    destruct (round_within s (Zpos p) e loc_Exact n) as (H1 & H2 & H3); [lia|done|done|done|]. auto.
Qed.

Lemma binary_normalize_within z e sz n : scaled_le (Z.abs z) e n -> 0 <= n < 2 ^ prec ->
  let x := binary_normalize prec emax z e sz in
  within x n /\ valid x /\ (z <> 0 -> signed (z <? 0) x) /\ (z = 0 -> x = S754_zero sz).
Proof.
  intros Hz Hn x. unfold x. destruct z as [|p|p]; [done| |];
    (destruct (binary_round_within false p e n) as (?&?&?); [done|done|]);
    (destruct (binary_round_within true p e n) as (?&?&?); [done|done|]); done.
Qed.

(** the mantissa at an exponent below its own *)
Lemma aligned m e ez : ez <= e -> Zpos (shl_align m e ez).1 = Zpos m * 2 ^ (e - ez).
Proof.
  intros He. rewrite shl_align_spec by done. cbn [fst]. rewrite Z2Pos.id; [done|]. pose proof (pow2_pos (e - ez)). lia.
Qed.

Lemma aligned_le m e ez n : ez <= e -> scaled_le (Zpos m) e n -> scaled_le (Zpos m * 2 ^ (e - ez)) ez n.
Proof. intros He H. rewrite scaled_le_shift by lia. by replace (ez + (e - ez)) with e by lia. Qed.

Lemma aligned_ge m e ez n : ez <= e -> scaled_ge (Zpos m) e n -> scaled_ge (Zpos m * 2 ^ (e - ez)) ez n.
Proof. intros He H. rewrite scaled_ge_shift by lia. by replace (ez + (e - ez)) with e by lia. Qed.

Lemma add_within x y a b :
  within x a -> within y b -> 0 <= a -> 0 <= b -> a + b < 2 ^ prec ->
  let z := SFadd prec emax x y in
  within z (a + b) /\ (valid x -> valid y -> valid z).
Proof.
  destruct x as [sx| | |sx mx ex], y as [sy| | |sy my ey]; try done.
  - by destruct sx, sy.
  - intros _ [Hm Hy] Ha Hb Hab z. split; [split; [done|]|done]. eapply scaled_le_mono; [done|lia].
  - intros [Hm Hx] _ Ha Hb Hab z. split; [split; [done|]|done]. eapply scaled_le_mono; [done|lia].
  - intros [_ Hx] [_ Hy] Ha Hb Hab z. unfold z. cbn [SFadd]. set (ez := Z.min ex ey).
    rewrite !aligned by lia.
    pose proof (aligned_le mx ex ez _ ltac:(lia) Hx) as Hx'. pose proof (aligned_le my ey ez _ ltac:(lia) Hy) as Hy'.
    set (A := Zpos mx * 2 ^ (ex - ez)) in *. set (B := Zpos my * 2 ^ (ey - ez)) in *.
    assert (0 <= A /\ 0 <= B) as [HA HB] by (unfold A, B; split; apply Z.mul_nonneg_nonneg; try done; by apply Z.pow_nonneg).
    destruct (binary_normalize_within (cond_Zopp sx A + cond_Zopp sy B) ez false (a + b)) as (H1 & H2 & _); [|lia|done].
    eapply scaled_le_mono_l; [by eapply scaled_le_add|]. destruct sx, sy; cbn [cond_Zopp]; lia.
Qed.

(** ** Comparison and difference of positive values *)

(** a larger exponent is a larger magnitude *)
Lemma larger_exponent m1 e1 m2 e2 :
  Z.max (Zpos (digits2_pos m1) + e1 - prec) emin = e1 ->
  Z.max (Zpos (digits2_pos m2) + e2 - prec) emin = e2 -> e1 < e2 ->
  Zpos m1 * 2 ^ (e1 - emin) < Zpos m2 * 2 ^ (e2 - emin).
Proof.
  intros H1 H2 Hlt.
  pose proof (digits_bound (Zpos m1) _ ltac:(lia) eq_refl) as [_ B1]. cbn [Zdigits2] in B1.
  pose proof (digits_bound (Zpos m2) _ ltac:(lia) eq_refl) as [B2 _]. cbn [Zdigits2] in B2.
  assert (Zpos (digits2_pos m2) = prec) as D2 by lia. rewrite D2 in B2.
  apply Z.lt_le_trans with (2 ^ prec * 2 ^ (e1 - emin)).
  - apply Z.mul_lt_mono_pos_r; [apply pow2_pos; lia|]. eapply Z.lt_le_trans; [exact B1|apply Z.pow_le_mono_r; lia].
  - rewrite <- Z.pow_add_r by lia. apply Z.le_trans with (2 ^ (prec - 1) * 2 ^ (e2 - emin)).
    + rewrite <- Z.pow_add_r by lia. apply Z.pow_le_mono_r; lia.
    + apply Z.mul_le_mono_nonneg_r; [apply Z.pow_nonneg; lia|done].
Qed.

Lemma compare_finite m1 e1 m2 e2 :
  Z.max (Zpos (digits2_pos m1) + e1 - prec) emin = e1 ->
  Z.max (Zpos (digits2_pos m2) + e2 - prec) emin = e2 ->
  match Z.compare e1 e2 with Lt => Lt | Gt => Gt | Eq => Pos.compare_cont Eq m1 m2 end
  = Z.compare (Zpos m1 * 2 ^ (e1 - emin)) (Zpos m2 * 2 ^ (e2 - emin)).
Proof.
  intros H1 H2. destruct (Z.compare_spec e1 e2) as [->|Hlt|Hgt].
  - change (Pos.compare_cont Eq m1 m2) with (Z.compare (Zpos m1) (Zpos m2)). pose proof (pow2_pos (e2 - emin) ltac:(lia)).
    set (a := 2 ^ (e2 - emin)) in *. clearbody a.
    destruct (Z.compare_spec (Zpos m1) (Zpos m2)), (Z.compare_spec (Zpos m1 * a) (Zpos m2 * a)); try done; nia.
  - symmetry. by apply larger_exponent.
  - symmetry. apply Z.compare_gt_iff. by apply larger_exponent.
Qed.

(** [y < x] between positive values, over a common exponent *)
Lemma ltb_positive mx ex my ey ez :
  valid (S754_finite false mx ex) -> valid (S754_finite false my ey) -> ez <= ex -> ez <= ey -> emin <= ez ->
  SFltb (S754_finite false my ey) (S754_finite false mx ex)
  = (Zpos my * 2 ^ (ey - ez) <? Zpos mx * 2 ^ (ex - ez)).
Proof.
  intros [Vx _]%valid_finite [Vy _]%valid_finite Hx Hy Hz. unfold SFltb. cbn [SFcompare]. rewrite compare_finite by done.
  replace (ey - emin) with ((ey - ez) + (ez - emin)) by lia. replace (ex - emin) with ((ex - ez) + (ez - emin)) by lia.
  rewrite !Z.pow_add_r, !Z.mul_assoc by lia. pose proof (pow2_pos (ez - emin) ltac:(lia)).
  set (c := 2 ^ (ez - emin)) in *. clearbody c.
  destruct (Z.compare_spec (Zpos my * 2 ^ (ey - ez) * c) (Zpos mx * 2 ^ (ex - ez) * c)),
    (Z.ltb_spec (Zpos my * 2 ^ (ey - ez)) (Zpos mx * 2 ^ (ex - ez))); try done; nia.
Qed.

(** [x - y] for [0 < y < x]: positive, and below [a - b] when [x <= a] and [b <= y] *)
Lemma sub_within mx ex my ey a b :
  let x := S754_finite false mx ex in let y := S754_finite false my ey in
  valid x -> valid y -> within x a -> at_least y b -> 0 <= a < 2 ^ prec -> 0 <= b -> SFltb y x = true ->
  let z := SFsub prec emax x y in within z (a - b) /\ valid z /\ signed false z /\ 0 <= a - b.
Proof.
  intros x y Vx Vy Hx Hy Ha Hb Hlt z. unfold x, y in *. unfold z. cbn [SFsub cond_Zopp]. set (ez := Z.min ex ey).
  pose proof Vx as [Mx _]%valid_finite. pose proof Vy as [My _]%valid_finite.
  rewrite (ltb_positive _ _ _ _ ez) in Hlt by (done || lia). apply Z.ltb_lt in Hlt. rewrite !aligned by lia.
  destruct Hx as [_ Hx]. cbn [at_least] in Hy.
  pose proof (aligned_le mx ex ez _ ltac:(lia) Hx) as Hx'. pose proof (aligned_ge my ey ez _ ltac:(lia) Hy) as Hy'.
  set (A := Zpos mx * 2 ^ (ex - ez)) in *. set (B := Zpos my * 2 ^ (ey - ez)) in *.
  pose proof (scaled_le_sub _ _ _ _ _ Hx' Hy') as H.
  assert (0 <= a - b) as Hab.
  { unfold scaled_le in H. pose proof (pow2_pos (Z.max ez 0) ltac:(lia)). pose proof (pow2_pos (Z.max (- ez) 0) ltac:(lia)). nia. }
  destruct (binary_normalize_within (A - B) ez false (a - b)) as (H1 & H2 & H3 & _); [by rewrite Z.abs_eq by lia|lia|].
  split; [done|]. split; [done|]. rewrite (proj2 (Z.ltb_ge _ 0)) in H3 by lia. split; [apply H3; lia|done].
Qed.

(** a positive value that [y] is not below has [y]'s bound *)
Lemma not_above_within mx ex my ey n :
  let x := S754_finite false mx ex in let y := S754_finite false my ey in
  valid x -> valid y -> within y n -> SFltb y x = false -> within x n.
Proof.
  intros x y Vx Vy [Hy1 Hy2] Hlt. unfold x, y in *. set (ez := Z.min ex ey).
  pose proof Vx as [Mx _]%valid_finite. pose proof Vy as [My _]%valid_finite.
  rewrite (ltb_positive _ _ _ _ ez) in Hlt by (done || lia). apply Z.ltb_ge in Hlt. split; [lia|].
  pose proof (aligned_le my ey ez _ ltac:(lia) Hy2) as H.
  assert (scaled_le (Zpos mx * 2 ^ (ex - ez)) ez n) as H' by by eapply scaled_le_mono_l.
  rewrite scaled_le_shift in H' by lia. by replace (ez + (ex - ez)) with ex in H' by lia.
Qed.

(** ** Signs *)

Lemma round_aux_sign s m e l : let x := binary_round_aux prec emax s m e l in x = S754_nan \/ signed s x.
Proof.
  unfold binary_round_aux. destruct (shr_fexp _ _ _ _ _) as [? ?]. destruct (shr_fexp _ _ _ _ _) as [r e'].
  destruct (shr_m r); [by right| |by left]. right. by destruct (_ <=? _).
Qed.

Lemma round_sign s p e : let x := binary_round prec emax s p e in x = S754_nan \/ signed s x.
Proof. unfold binary_round. destruct (shl_align _ _ _). apply round_aux_sign. Qed.

Lemma mul_sign a b x y : signed a x -> signed b y ->
  SFmul prec emax x y = S754_nan \/ signed (xorb a b) (SFmul prec emax x y).
Proof.
  destruct x, y; cbn [signed SFmul]; try done; intros -> ->; try (by left); try (by right). apply round_aux_sign.
Qed.

Lemma div_sign a b x y : signed a x -> signed b y ->
  SFdiv prec emax x y = S754_nan \/ signed (xorb a b) (SFdiv prec emax x y).
Proof.
  destruct x, y; cbn [signed SFdiv]; try done; intros -> ->; try (by left); try (by right).
  destruct (SFdiv_core_binary _ _ _ _ _ _) as [[? ?] ?]. apply round_aux_sign.
Qed.

Lemma add_sign s x y : signed s x -> signed s y -> SFadd prec emax x y = S754_nan \/ signed s (SFadd prec emax x y).
Proof.
  destruct x as [sx|sx| |sx mx ex], y as [sy|sy| |sy my ey]; cbn [signed SFadd]; try done; intros -> ->;
    try (destruct s; by right); try by right.
  set (A := fst _). set (B := fst _). destruct s; cbn [cond_Zopp]; [change (- Zpos A + - Zpos B) with (Zneg (A + B))|change (Zpos A + Zpos B) with (Zpos (A + B))];
    apply round_sign.
Qed.

(** ** Lower bounds *)

Lemma round_at_least s m e l k n :
  0 <= m -> 0 <= k < 2 ^ prec ->
  (l = loc_Exact -> scaled_le m e k) -> (l <> loc_Exact -> scaled_lt m e k /\ e <= 0) ->
  1 <= n -> scaled_ge m e n -> at_least (binary_round_aux prec emax s m e l) n.
Proof.
  intros Hm Hk Hex Hin Hn Hge. pose proof (round_within s m e l k Hm Hk Hex Hin) as (HW & _).
  pose proof (round_once m e l k Hm Hk Hex Hin) as H. unfold binary_round_aux in *.
  destruct (shr_fexp prec emax m e l) as [r1 E]. cbn [fst snd] in H. destruct H as (HE & HR & Hle & Hq).
  set (R := round_nearest_even _ _) in *. assert (emin <= E) as HEm by (rewrite HE, fexp_eq; lia).
  assert (0 < m) as Hm'.
  { unfold scaled_ge in Hge. pose proof (pow2_pos (Z.max (- e) 0) ltac:(lia)). pose proof (pow2_pos (Z.max e 0) ltac:(lia)). nia. }
  assert (scaled_ge R E n) as HRn.
  { assert (e <= E) as HeE by lia. replace E with (e + (E - e)) by lia. rewrite <- scaled_ge_shift by lia.
    assert (E = e \/ E <= 0) as [HE0|HE0].
    - destruct (decide (E = e)) as [|Hne]; [by left|]. right. rewrite fexp_eq in HE. pose proof emin_neg.
      assert (scaled_le m e k) as Hmk by (destruct (decide (l = loc_Exact)); [by apply Hex|by apply scaled_lt_le, Hin]).
      pose proof (scaled_le_digits m e k prec Hm' Hmk ltac:(lia) ltac:(lia)). lia.
    - rewrite HE0, Z.sub_diag in Hq |- *. rewrite Z.div_1_r in Hq. rewrite Z.mul_1_r. unfold scaled_ge in *.
      pose proof (pow2_pos (Z.max e 0) ltac:(lia)). nia.
    - unfold scaled_ge in *. rewrite (Z.max_r e), (Z.max_l (- e)), Z.mul_1_r in * by lia.
      replace (- e) with (- E + (E - e)) in * by lia. rewrite Z.pow_add_r, Z.mul_assoc in * by lia.
      apply Z.mul_le_mono_nonneg_r; [by apply Z.pow_nonneg|]. etrans; [|exact Hq]. apply Z.div_le_lower_bound; [apply pow2_pos; lia|lia]. }
  assert (forall p e', scaled_ge (Zpos p) e' n -> at_least (if e' <=? emax - prec then S754_finite s p e' else S754_infinity s) n \/ emax - prec < e') as HF.
  { intros p e' Hp. destruct (Z.leb_spec e' (emax - prec)); [by left|by right]. }
  rewrite round_twice in * by done. case_decide as HD; cbn [shr_m] in *.
  - assert (scaled_ge (2 ^ (prec - 1)) (E + 1) n) as Hge'.
    { rewrite <- scaled_ge_shift, <- Z.pow_add_r by lia. replace (prec - 1 + 1) with prec by lia. by rewrite <- HD. }
    destruct (2 ^ (prec - 1)) as [|p|p] eqn:Ep; [pose proof (pow2_pos (prec - 1)); lia| |done].
    by destruct (_ <=? _).
  - destruct R as [|p|p] eqn:Ep; [|by destruct (_ <=? _)|done].
    unfold scaled_ge in HRn. pose proof (pow2_pos (Z.max (- E) 0) ltac:(lia)). nia.
Qed.

Lemma div_at_least x y a c d n :
  within x a -> at_least x c -> at_least y 1 -> within y d -> 0 <= a < 2 ^ prec -> 1 <= n -> n * d <= c ->
  at_least (SFdiv prec emax x y) n.
Proof.
  destruct x as [sx| | |sx mx ex], y as [sy| | |sy my ey]; try done. intros [_ Hx] Hc Hy [_ Hd] Ha Hn Hnd. cbn [SFdiv].
  destruct (div_core mx ex my ey) as (q & r & e & -> & He & Hq & Hr & Hq0). cbn [at_least] in Hc, Hy.
  destruct (scaled_div (Zpos mx) ex a (Zpos my) ey 1 a q r e) as [Hle Hlt]; try done; try lia.
  assert (e <= 0) as He0.
  { pose proof (scaled_le_digits (Zpos mx) ex a prec ltac:(lia) Hx ltac:(lia) ltac:(lia)) as D1.
    pose proof (scaled_ge_digits (Zpos my) ey ltac:(lia) Hy) as D2. pose proof emin_neg. rewrite fexp_eq in He.
    cbn [Zdigits2] in *. lia. }
  apply (round_at_least _ _ _ _ a); try done; rewrite ?new_location_exact.
  { intros ?. split; [apply Hlt; lia|done]. }
  set (K := Z.abs e + Z.abs ex + Z.abs ey).
  assert (0 <= K /\ 0 <= ex + K /\ 0 <= ey + K /\ 0 <= ex - ey - e) as (A & A1 & A2 & A3) by (unfold K; lia). clearbody K.
  rewrite (scaled_ge_at K) in Hc by lia. rewrite (scaled_le_at K (Zpos my)) in Hd by lia.
  assert (0 < 2 ^ (ey + K) /\ 0 < 2 ^ (- e) /\ 0 < 2 ^ K) as (P1 & P2 & P3) by (repeat split; apply pow2_pos; lia).
  assert (n * 2 ^ (- e) * Zpos my <= Zpos mx * 2 ^ (ex - ey - e)) as HN.
  { apply (Z.mul_le_mono_pos_r _ _ (2 ^ (ey + K))); [done|].
    replace (Zpos mx * 2 ^ (ex - ey - e) * 2 ^ (ey + K)) with (Zpos mx * 2 ^ (ex + K) * 2 ^ (- e)).
    - apply Z.le_trans with (c * 2 ^ K * 2 ^ (- e)); [|by apply Z.mul_le_mono_nonneg_r; [lia|]].
      replace (n * 2 ^ (- e) * Zpos my * 2 ^ (ey + K)) with (n * (Zpos my * 2 ^ (ey + K)) * 2 ^ (- e)) by ring.
      apply Z.mul_le_mono_nonneg_r; [lia|]. apply Z.le_trans with (n * (d * 2 ^ K)); [apply Z.mul_le_mono_nonneg_l; lia|].
      rewrite Z.mul_assoc. apply Z.mul_le_mono_nonneg_r; lia.
    - rewrite <- !Z.mul_assoc, <- !Z.pow_add_r by lia. do 2 f_equal. lia. }
  unfold scaled_ge. rewrite (Z.max_r e), (Z.max_l (- e)), Z.mul_1_r by lia. nia.
Qed.

(** the difference of two values that are not negative *)
Lemma sub_magnitude x y a b :
  signed false x -> signed false y -> within x a -> within y b -> valid x -> valid y -> 0 <= a -> 0 <= b -> Z.max a b < 2 ^ prec ->
  let z := SFsub prec emax x y in within z (Z.max a b) /\ valid z.
Proof.
  destruct x as [sx| | |sx mx ex], y as [sy| | |sy my ey]; cbn [signed];
    intros Sx Sy Hx Hy Vx Vy Ha Hb Hm; try done; subst sx sy.
  - done.
  - split; [|done]. eapply (within_mono (S754_finite true my ey)); [exact Hy|lia].
  - split; [|done]. eapply within_mono; [exact Hx|lia].
  - cbn [SFsub cond_Zopp]. set (ez := Z.min ex ey). rewrite !aligned by lia. destruct Hx as [_ Hx], Hy as [_ Hy].
    pose proof (aligned_le mx ex ez _ ltac:(lia) Hx) as Hx'. pose proof (aligned_le my ey ez _ ltac:(lia) Hy) as Hy'.
    set (A := Zpos mx * 2 ^ (ex - ez)) in *. set (B := Zpos my * 2 ^ (ey - ez)) in *.
    assert (0 <= A /\ 0 <= B) as [HA HB] by (unfold A, B; split; apply Z.mul_nonneg_nonneg; try done; by apply Z.pow_nonneg).
    destruct (binary_normalize_within (A - B) ez false (Z.max a b)) as (H1 & H2 & _); [|lia|done].
    destruct (Z.le_ge_cases B A).
    + eapply scaled_le_mono_l; [eapply scaled_le_mono; [exact Hx'|lia]|lia].
    + eapply scaled_le_mono_l; [eapply scaled_le_mono; [exact Hy'|lia]|lia].
Qed.
End Round.
