(* ===== verification/Float32.v ===== *)
(** The float arithmetic of reac_rx.c and reac_tx.c: IEEE binary32 through the
    Standard Library's executable specification, round to nearest even, and what
    scaling by 2^23, clamping and rounding to an integer compute. *)

From S2P Require Import Prelude.
From S2P Require Export Rounding.

(** binary32: 24 bits of precision, exponents below 128 *)
Definition f32 : Type := spec_float.
Definition f32_of_int (x : Z) : f32 := binary_normalize 24 128 x 0 false.
Definition f32_mul : f32 -> f32 -> f32 := SFmul 24 128.
Definition f32_div : f32 -> f32 -> f32 := SFdiv 24 128.
Definition f32_gt (x y : f32) : bool := SFltb y x.
Definition f32_lt (x y : f32) : bool := SFltb x y.
Definition f32_zero : f32 := S754_zero false.

(** [n / 2^k] rounded to the nearest integer, ties to even *)
Definition rne (n k : Z) : Z :=
  let q := n / 2 ^ k in
  let r := n mod 2 ^ k in
  match Z.compare (2 * r) (2 ^ k) with
  | Lt => q
  | Eq => if Z.even q then q else q + 1
  | Gt => q + 1
  end.

(** [lrintf] in the default rounding mode; [invalid] is the unspecified result
    the C library gives for a NaN or an infinity *)
Definition lrintf (invalid : Z) (x : f32) : Z :=
  match x with
  | S754_zero _ => 0
  | S754_finite s m e =>
      let a := if 0 <=? e then Zpos m * 2 ^ e else rne (Zpos m) (- e) in
      if s then - a else a
  | _ => invalid
  end.

(** * Specification: values in units of 2^-149 *)

Definition f32_valid (x : f32) : Prop := valid_binary 24 128 x = true.

Definition f32_finite (x : f32) : bool :=
  match x with S754_zero _ | S754_finite _ _ _ => true | _ => false end.

Definition units (x : f32) : Z :=
  match x with
  | S754_finite s m e => (if s then -1 else 1) * (Zpos m * 2 ^ (e + 149))
  | _ => 0
  end.

(** the nearest integer to the value *)
Definition nearest (u : Z) : Z := (if u <? 0 then -1 else 1) * rne (Z.abs u) 149.

Lemma f32_fexp d : fexp 24 128 d = Z.max (d - 24) (-149).
Proof. done. Qed.

Lemma f32_exact s m n e :
  (0 < m)%Z -> 0 <= n -> Z.max (Zdigits2 m + (e + n) - 24) (-149) = e + n ->
  binary_round_aux 24 128 s (m * 2 ^ n) e loc_Exact
  = if e + n <=? 104 then S754_finite s (Z.to_pos m) (e + n) else S754_infinity s.
Proof. exact (round_to_exact 24 128 s m n e). Qed.

(** * Rounding to an integer *)

(** off by at most half a unit *)
Lemma rne_error n k : 0 <= k -> 2 * Z.abs (rne n k * 2 ^ k - n) <= 2 ^ k.
Proof.
  intros Hk. pose proof (pow2_pos k Hk) as Hp. unfold rne.
  pose proof (Z.div_mod n (2 ^ k) ltac:(lia)) as E. pose proof (Z.mod_pos_bound n (2 ^ k) Hp) as Hr.
  set (q := n / 2 ^ k) in *. set (r := n mod 2 ^ k) in *. set (p := 2 ^ k) in *. clearbody q r p.
  destruct (Z.compare_spec (2 * r) p); [destruct (Z.even q)|..]; nia.
Qed.

Lemma rne_exact n k : 0 <= k -> rne (n * 2 ^ k) k = n.
Proof.
  intros Hk. pose proof (pow2_pos k Hk). unfold rne. rewrite Z.div_mul, Z.mod_mul, Z.mul_0_r by lia.
  by destruct (Z.compare_spec 0 (2 ^ k)); try lia.
Qed.

Lemma rne_scale n k j : 0 <= k -> 0 <= j -> rne (n * 2 ^ j) (k + j) = rne n k.
Proof.
  intros Hk Hj. pose proof (pow2_pos k Hk). pose proof (pow2_pos j Hj).
  unfold rne. rewrite Z.pow_add_r by done.
  rewrite Z.div_mul_cancel_r, Zmult_mod_distr_r by lia.
  replace (2 * (n mod 2 ^ k * 2 ^ j)) with (2 ^ j * (2 * (n mod 2 ^ k))) by ring.
  replace (2 ^ k * 2 ^ j) with (2 ^ j * 2 ^ k) by ring.
  by rewrite <- Zmult_compare_compat_l by lia.
Qed.

Lemma rne_nonneg n k : 0 <= k -> 0 <= n -> 0 <= rne n k.
Proof.
  intros Hk Hn. pose proof (pow2_pos k Hk). unfold rne.
  assert (0 <= n / 2 ^ k) by (apply Z.div_pos; lia). repeat case_match; lia.
Qed.

Lemma nearest_error u : 2 * Z.abs (nearest u * 2 ^ 149 - u) <= 2 ^ 149.
Proof.
  unfold nearest. pose proof (rne_error (Z.abs u) 149 ltac:(lia)) as H.
  set (p := 2 ^ 149) in *. clearbody p. destruct (Z.ltb_spec u 0); lia.
Qed.

Lemma nearest_le u c : u <= c * 2 ^ 149 -> nearest u <= c.
Proof.
  intros H. pose proof (nearest_error u) as He. pose proof (pow2_pos 149 ltac:(lia)).
  set (p := 2 ^ 149) in *. clearbody p. nia.
Qed.

Lemma nearest_ge u c : c * 2 ^ 149 <= u -> c <= nearest u.
Proof.
  intros H. pose proof (nearest_error u) as He. pose proof (pow2_pos 149 ltac:(lia)).
  set (p := 2 ^ 149) in *. clearbody p. nia.
Qed.

Lemma nearest_exact c : nearest (c * 2 ^ 149) = c.
Proof. apply Z.le_antisymm; [by apply nearest_le|by apply nearest_ge]. Qed.

(** * Valid finite values *)

Lemma f32_valid_finite s m e :
  f32_valid (S754_finite s m e) <->
  Z.max (Zpos (digits2_pos m) + e - 24) (-149) = e /\ e <= 104.
Proof. exact (valid_finite 24 128 s m e). Qed.

Lemma lrintf_nearest invalid x :
  f32_valid x -> f32_finite x = true -> lrintf invalid x = nearest (units x).
Proof.
  destruct x as [s| | |s m e]; try done.
  intros [Hc Hb]%f32_valid_finite _. unfold lrintf, nearest, units.
  assert (0 < 2 ^ (e + 149)) as Hp by (apply pow2_pos; lia).
  assert (rne (Zpos m * 2 ^ (e + 149)) 149 = if 0 <=? e then Zpos m * 2 ^ e else rne (Zpos m) (- e)) as <-.
  { destruct (Z.leb_spec 0 e).
    - rewrite Z.pow_add_r, Z.mul_assoc by lia. apply rne_exact. lia.
    - replace 149 with (- e + (e + 149)) at 2 by lia. apply rne_scale; lia. }
  set (a := Zpos m * 2 ^ (e + 149)) in *. assert (0 < a) by (unfold a; lia). clearbody a.
  destruct s; [rewrite (proj2 (Z.ltb_lt _ 0)) by lia|rewrite (proj2 (Z.ltb_ge _ 0)) by lia];
    replace (Z.abs _) with a by lia; lia.
Qed.

Lemma units_pos m e : -149 <= e -> 0 < Zpos m * 2 ^ (e + 149).
Proof. intros He. pose proof (pow2_pos (e + 149) ltac:(lia)). lia. Qed.

(** the comparison of finite values is that of their units *)
Lemma f32_lt_units x y :
  f32_valid x -> f32_valid y -> f32_finite x = true -> f32_finite y = true ->
  f32_lt x y = (units x <? units y).
Proof.
  intros Hx Hy. destruct x as [sx| | |sx mx ex], y as [sy| | |sy my ey]; try done; intros _ _;
    try apply f32_valid_finite in Hx as [Hx _]; try apply f32_valid_finite in Hy as [Hy _];
    try pose proof (units_pos mx ex ltac:(lia)); try pose proof (units_pos my ey ltac:(lia)).
  - unfold f32_lt, SFltb, units; cbn [SFcompare]. destruct sy; symmetry; [apply Z.ltb_ge|apply Z.ltb_lt]; lia.
  - unfold f32_lt, SFltb, units; cbn [SFcompare]. destruct sx; symmetry; [apply Z.ltb_lt|apply Z.ltb_ge]; lia.
  - unfold f32_lt, SFltb, units; cbn [SFcompare].
    pose proof (compare_finite 24 128 ltac:(lia) mx ex my ey Hx Hy) as Hc. change (SpecFloat.emin 24 128) with (-149) in Hc.
    change (ex - -149) with (ex + 149) in Hc. change (ey - -149) with (ey + 149) in Hc.
    change (Pos.compare_cont Eq mx my) with (Z.compare (Zpos mx) (Zpos my)) in *.
    set (a := Zpos mx * 2 ^ (ex + 149)) in *. set (b := Zpos my * 2 ^ (ey + 149)) in *. clearbody a b.
    destruct sx, sy.
    + destruct (Z.compare_spec ex ey), (Z.compare_spec (Zpos mx) (Zpos my)), (Z.compare_spec a b);
        cbn [CompOpp]; destruct (Z.ltb_spec (-1 * a) (-1 * b)); try done; lia.
    + destruct (Z.ltb_spec (-1 * a) (1 * b)); [done|lia].
    + destruct (Z.ltb_spec (1 * a) (-1 * b)); [lia|done].
    + destruct (Z.compare_spec ex ey), (Z.compare_spec (Zpos mx) (Zpos my)), (Z.compare_spec a b);
        destruct (Z.ltb_spec (1 * a) (1 * b)); try done; lia.
Qed.

(** * Integers, and scaling by 2^23 *)

Definition c23 : f32 := f32_of_int 8388608.

Lemma c23_finite : c23 = S754_finite false 8388608 0.
Proof. reflexivity. Qed.

(** dividing a 24-bit integer by 2^23 is exact *)
Lemma div_c23 s p :
  Zpos (digits2_pos p) <= 24 ->
  f32_div (binary_round 24 128 s p 0) c23
  = S754_finite s (Z.to_pos (Zpos p * 2 ^ (24 - Zpos (digits2_pos p)))) (Zpos (digits2_pos p) - 47).
Proof.
  intros Hd. pose proof (integer_mantissa 24 p Hd) as [Dm Em]. rewrite (binary_round_integer 24 128), c23_finite by done.
  set (m := Z.to_pos _) in *. set (d := Zpos (digits2_pos p)) in *. clearbody m.
  unfold f32_div. cbn [SFdiv]. unfold SFdiv_core_binary. cbn [Zdigits2]. rewrite Dm.
  change (Zpos (digits2_pos 8388608)) with 24. rewrite f32_fexp.
  replace (Z.min (Z.max (24 + (d - 24) - (24 + 0) - 24) (-149)) (d - 24 - 0)) with (d - 48) by lia.
  replace (d - 24 - 0 - (d - 48)) with 24 by lia. rewrite Z.shiftl_mul_pow2 by lia.
  assert (Z.div_eucl (Zpos m * 2 ^ 24) 8388608 = (Zpos m * 2, 0)) as ->.
  { pose proof (Z_div_mod_full (Zpos m * 2 ^ 24) 8388608 ltac:(lia)) as H.
    destruct (Z.div_eucl _ _) as [q r]. destruct H as [H1 H2]. unfold Remainder in H2.
    change (2 ^ 24) with 16777216 in H1. f_equal; lia. }
  rewrite xorb_false_r. change (new_location 8388608 0) with loc_Exact.
  change (Zpos m * 2) with (Zpos m * 2 ^ 1).
  rewrite f32_exact; cbn [Zdigits2]; rewrite ?Dm; try lia. rewrite (proj2 (Z.leb_le _ _)) by lia.
  by replace (d - 48 + 1) with (d - 47) by lia.
Qed.

(** multiplying a valid finite value by 2^23 is exact, or overflows *)
Lemma mul_c23 s m e :
  f32_valid (S754_finite s m e) ->
  let d := Zpos (digits2_pos m) in
  f32_mul (S754_finite s m e) c23
  = if e + d - 1 <=? 104 then S754_finite s (Z.to_pos (Zpos m * 2 ^ (24 - d))) (e + d - 1)
    else S754_infinity s.
Proof.
  intros [Hc Hb]%f32_valid_finite d. fold d in Hc. assert (0 < d) by (unfold d; lia).
  assert (d <= 24) as Hd by lia. pose proof (integer_mantissa 24 m Hd) as [Dm Em]. fold d in Dm, Em.
  set (m' := Z.to_pos (Zpos m * 2 ^ (24 - d))) in *. clearbody m'.
  rewrite c23_finite. unfold f32_mul. cbn [SFmul]. rewrite xorb_false_r, Z.add_0_r, Pos2Z.inj_mul.
  replace (Zpos m * 8388608) with (Zpos m' * 2 ^ (d - 1)).
  - rewrite f32_exact; cbn [Zdigits2]; rewrite ?Dm; try lia. by replace (e + (d - 1)) with (e + d - 1) by lia.
  - rewrite Em, <- Z.mul_assoc, <- Z.pow_add_r by lia. by replace (24 - d + (d - 1)) with 23 by lia.
Qed.

(** ** Values *)

Lemma f32_of_int_spec v :
  Z.abs v < 2 ^ 24 ->
  f32_valid (f32_of_int v) /\ f32_finite (f32_of_int v) = true /\ units (f32_of_int v) = v * 2 ^ 149.
Proof.
  intros Hv. destruct v as [|p|p]; [done| |]; unfold f32_of_int; cbn [binary_normalize];
    (assert (Zpos (digits2_pos p) <= 24) as Hd by (apply digits_small; lia));
    rewrite (binary_round_integer 24 128) by (done || lia); pose proof (integer_mantissa 24 p Hd) as [Dm Em];
    (split; [apply f32_valid_finite; rewrite Dm; lia|]); (split; [done|]); unfold units; rewrite Em;
    rewrite <- Z.mul_assoc, <- Z.pow_add_r by lia;
    replace (24 - Zpos (digits2_pos p) + (Zpos (digits2_pos p) - 24 + 149)) with 149 by lia; lia.
Qed.

(** a sample divided by 2^23, and back *)
Lemma f32_div_mul v :
  Z.abs v < 2 ^ 24 ->
  let x := f32_div (f32_of_int v) c23 in
  f32_valid x /\ f32_finite x = true /\ units x * 2 ^ 23 = v * 2 ^ 149.
Proof.
  intros Hv x. unfold x. destruct v as [|p|p]; [done| |]; unfold f32_of_int; cbn [binary_normalize];
    (assert (Zpos (digits2_pos p) <= 24) as Hd by (apply digits_small; lia));
    rewrite div_c23 by done; pose proof (integer_mantissa 24 p Hd) as [Dm Em];
    (split; [apply f32_valid_finite; rewrite Dm; lia|]); (split; [done|]); unfold units; rewrite Em.
  - replace (1 * (Zpos p * 2 ^ (24 - Zpos (digits2_pos p)) * 2 ^ (Zpos (digits2_pos p) - 47 + 149)) * 2 ^ 23)
      with (Zpos p * (2 ^ (24 - Zpos (digits2_pos p)) * 2 ^ (Zpos (digits2_pos p) - 47 + 149) * 2 ^ 23)) by ring.
    rewrite <- !Z.pow_add_r by lia. do 2 f_equal. lia.
  - replace (-1 * (Zpos p * 2 ^ (24 - Zpos (digits2_pos p)) * 2 ^ (Zpos (digits2_pos p) - 47 + 149)) * 2 ^ 23)
      with (Zneg p * (2 ^ (24 - Zpos (digits2_pos p)) * 2 ^ (Zpos (digits2_pos p) - 47 + 149) * 2 ^ 23)) by lia.
    rewrite <- !Z.pow_add_r by lia. do 2 f_equal. lia.
Qed.

(** the product with 2^23 of a finite value *)
Lemma f32_mul_spec x :
  f32_valid x -> f32_finite x = true ->
  let y := f32_mul x c23 in
  f32_valid y
  /\ ((f32_finite y = true /\ units y = units x * 2 ^ 23)
      \/ (y = S754_infinity false /\ 2 ^ 23 * 2 ^ 149 <= units x * 2 ^ 23)
      \/ (y = S754_infinity true /\ units x * 2 ^ 23 <= - (2 ^ 23 * 2 ^ 149))).
Proof.
  destruct x as [s| | |s m e]; try done; [by intros; split; [|left]|].
  intros HV _ y. pose proof HV as [Hc Hb]%f32_valid_finite. unfold y. rewrite mul_c23 by done.
  set (d := Zpos (digits2_pos m)) in *. assert (0 < d) by (unfold d; lia).
  pose proof (integer_mantissa 24 m ltac:(fold d; lia)) as [Dm Em]. fold d in Dm, Em.
  set (m' := Z.to_pos (Zpos m * 2 ^ (24 - d))) in *. clearbody m'.
  assert (Zpos m' * 2 ^ (e + d - 1 + 149) = Zpos m * 2 ^ (e + 149) * 2 ^ 23) as Hu.
  { rewrite Em, <- !Z.mul_assoc, <- !Z.pow_add_r by lia. do 2 f_equal. lia. }
  destruct (Z.leb_spec (e + d - 1) 104) as [Hle|Hgt].
  - split; [apply f32_valid_finite; rewrite Dm; lia|]. left. split; [done|]. unfold units. rewrite Hu. ring.
  - split; [done|]. right.
    assert (2 ^ 23 * 2 ^ 149 <= Zpos m * 2 ^ (e + 149) * 2 ^ 23) as Hbig.
    { rewrite <- Hu. pose proof (digits_bound (Zpos m') _ ltac:(lia) eq_refl) as [B _]. cbn [Zdigits2] in B.
      rewrite Dm in B. apply Z.mul_le_mono_nonneg; try lia. apply Z.pow_le_mono_r; lia. }
    unfold units. set (a := Zpos m * 2 ^ (e + 149)) in *. set (b := 2 ^ 23 * 2 ^ 149) in *.
    destruct s; [right|left]; (split; [done|]); nia.
Qed.
