(* ===== verification/Float64.v ===== *)
(** The double-precision arithmetic of reac_rx.c, reac_source_node.c and tone.c: IEEE
    binary64 through the Standard Library's executable specification, and bounds on
    what each operation gives. *)

From S2P Require Import Prelude.
From S2P Require Export Rounding.

(** binary64: 53 bits of precision, exponents below 1024 *)
Definition f64 : Type := spec_float.
Definition f64_of_int (x : Z) : f64 := binary_normalize 53 1024 x 0 false.
Definition f64_add : f64 -> f64 -> f64 := SFadd 53 1024.
Definition f64_sub : f64 -> f64 -> f64 := SFsub 53 1024.
Definition f64_mul : f64 -> f64 -> f64 := SFmul 53 1024.
Definition f64_div : f64 -> f64 -> f64 := SFdiv 53 1024.
Definition f64_gt (x y : f64) : bool := SFltb y x.
Definition f64_zero : f64 := S754_zero false.

(** [(int)x]: truncation, undefined when the value does not fit *)
Definition f64_to_int (x : f64) : res Z :=
  match x with
  | S754_zero _ => mret 0
  | S754_finite s m e =>
      let a := if 0 <=? e then Z.shiftl (Zpos m) e else Z.shiftr (Zpos m) (- e) in
      int (if s then - a else a)
  | _ => Err SignedOverflow
  end.

(** * Specification *)

(** a double of magnitude at most [n] *)
Definition f64_in (x : f64) (n : Z) : Prop := valid 53 1024 x /\ within 53 1024 x n /\ 0 <= n < 2 ^ 53.

(** a double of value at least [n] *)
Definition f64_ge (x : f64) (n : Z) : Prop := valid 53 1024 x /\ at_least x n /\ 1 <= n.

(** not above zero: zero, negative, or not a number *)
Definition f64_nonpos (x : f64) : Prop :=
  match x with
  | S754_zero _ | S754_nan => True
  | S754_infinity s | S754_finite s _ _ => s = true
  end.

#[export] Instance signed_dec s x : Decision (signed s x).
Proof. destruct x; cbn; apply _. Defined.

(** * Lemmas *)

Lemma f64_in_mono x n n' : f64_in x n -> n <= n' -> n' < 2 ^ 53 -> f64_in x n'.
Proof. intros (V & H & Hn) Hle Hn'. split; [done|]. split; [by eapply within_mono|lia]. Qed.

Lemma f64_mul_in x y a b : f64_in x a -> f64_in y b -> a * b < 2 ^ 53 -> f64_in (f64_mul x y) (a * b).
Proof.
  intros (Vx & Hx & Ha) (Vy & Hy & Hb) Hab. unfold f64_in, f64_mul.
  split; [eapply (mul_valid 53 1024); eauto; lia|]. split; [apply (mul_within 53 1024); auto; lia|]. nia.
Qed.

Lemma f64_div_in x y a b n : f64_in x a -> f64_ge y b -> a <= n * b -> 0 <= n < 2 ^ 53 -> f64_in (f64_div x y) n.
Proof.
  intros (Vx & Hx & Ha) (Vy & Hy & Hb) Hab Hn.
  destruct (div_within 53 1024 ltac:(lia) ltac:(lia) x y a b n Hx Hy Hb Ha Hn Hab) as [H1 H2]. split; [by apply H2|by split].
Qed.

Lemma f64_add_in x y a b : f64_in x a -> f64_in y b -> a + b < 2 ^ 53 -> f64_in (f64_add x y) (a + b).
Proof.
  intros (Vx & Hx & Ha) (Vy & Hy & Hb) Hab.
  destruct (add_within 53 1024 ltac:(lia) ltac:(lia) x y a b Hx Hy) as [H1 H2]; [lia..|]. split; [by apply H2|]. split; [done|lia].
Qed.

(** the quotient of at least [c] by at most [d] *)
Lemma f64_div_ge x y a c d k n : f64_in x a -> f64_ge x c -> f64_in y d -> f64_ge y 1 -> f64_in (f64_div x y) k -> 1 <= n -> n * d <= c ->
  f64_ge (f64_div x y) n.
Proof.
  intros (_ & Hx & Ha) (_ & Hc & _) (_ & Hd & _) (_ & Hy & _) (V & _) Hn Hnd. split; [done|]. split; [|done].
  by apply (div_at_least 53 1024 ltac:(lia) ltac:(lia) x y a c d n).
Qed.

Lemma f64_sub_in x y a b : f64_in x a -> f64_in y b -> signed false x -> signed false y -> f64_in (f64_sub x y) (Z.max a b).
Proof.
  intros (Vx & Hx & Ha) (Vy & Hy & Hb) Sx Sy.
  destruct (sub_magnitude 53 1024 ltac:(lia) ltac:(lia) x y a b Sx Sy Hx Hy Vx Vy) as [H1 H2]; [lia..|]. split; [done|]. split; [done|lia].
Qed.

(** ** Integers *)

Lemma f64_of_int_exact s p : Zpos p < 2 ^ 53 -> exists m e,
  binary_round 53 1024 s p 0 = S754_finite s m e /\ -52 <= e <= 0 /\ Zpos m = Zpos p * 2 ^ (- e)
  /\ Zpos (digits2_pos m) = 53.
Proof.
  intros Hp. pose proof (digits_small p 53 ltac:(lia) Hp) as Hd.
  rewrite (binary_round_integer 53 1024) by (done || lia). destruct (integer_mantissa 53 p Hd) as [Dm Em].
  eexists _, _. split; [done|]. split; [lia|]. split; [|done]. rewrite Em. do 2 f_equal. lia.
Qed.

Lemma f64_of_int_in v : Z.abs v < 2 ^ 53 -> f64_in (f64_of_int v) (Z.abs v) /\ signed (v <? 0) (f64_of_int v).
Proof.
  intros Hv. destruct (binary_normalize_within 53 1024 ltac:(lia) ltac:(lia) v 0 false (Z.abs v)) as (H1 & H2 & H3 & _).
  { unfold scaled_le. by rewrite !Z.mul_1_r. }
  { lia. }
  split; [split; [done|split; [done|lia]]|]. destruct v as [|p|p]; [done|by apply H3..].
Qed.

Lemma f64_of_int_ge v : 0 < v < 2 ^ 53 -> f64_ge (f64_of_int v) v.
Proof.
  intros Hv. destruct v as [|p|p]; [lia| |lia]. unfold f64_of_int. cbn [binary_normalize].
  destruct (f64_of_int_in (Zpos p) ltac:(lia)) as [(V & _) _]. unfold f64_of_int in V. cbn [binary_normalize] in V.
  destruct (f64_of_int_exact false p ltac:(lia)) as (m & e & E & He & Hm & _). rewrite E in *.
  split; [done|]. split; [|lia]. unfold at_least, scaled_ge. rewrite Hm, (Z.max_r e), Z.max_l by lia.
  change (2 ^ 0) with 1. lia.
Qed.

Lemma ok_f64_to_int x n (Q : Z -> Prop) : f64_in x n -> n <= INT_MAX -> (forall v, Z.abs v <= n -> Q v) -> ok (f64_to_int x) Q.
Proof.
  unfold INT_MAX. intros (V & H & Hn) Hmax HQ. destruct x as [s| | |s m e]; try done; [apply HQ; lia|].
  unfold f64_to_int. set (a := if 0 <=? e then _ else _).
  assert (0 <= a <= n) as Ha.
  { unfold a. destruct H as [_ H]. unfold scaled_le in H. destruct (Z.leb_spec 0 e).
    - rewrite Z.shiftl_mul_pow2 by done. rewrite (Z.max_l e), (Z.max_r (- e)) in H by lia. pose proof (pow2_pos e). nia.
    - rewrite Z.shiftr_div_pow2 by lia. rewrite (Z.max_r e), (Z.max_l (- e)) in H by lia.
      split; [apply Z.div_pos; [done|apply pow2_pos; lia]|]. apply Z.div_le_upper_bound; [apply pow2_pos; lia|]. lia. }
  clearbody a. ok_step; [destruct s; lia|]. apply HQ. destruct s; lia.
Qed.

(** ** Signs *)

(** no operation of values in range gives a NaN *)
Lemma f64_in_sign s x n : f64_in x n -> x = S754_nan \/ signed s x -> signed s x.
Proof. by intros (_ & H & _) [->|]. Qed.

Lemma signed_nonpos x : x = S754_nan \/ signed true x -> f64_nonpos x.
Proof. intros [->|H]; [done|]. by destruct x. Qed.

(** the quotient and the product of positive values in range *)
Lemma f64_div_positive x y n : signed false x -> signed false y -> f64_in (f64_div x y) n -> signed false (f64_div x y).
Proof. intros Sx Sy H. eapply f64_in_sign; [exact H|]. by apply (div_sign _ _ false false). Qed.

Lemma f64_mul_positive x y n : signed false x -> signed false y -> f64_in (f64_mul x y) n -> signed false (f64_mul x y).
Proof. intros Sx Sy H. eapply f64_in_sign; [exact H|]. by apply (mul_sign _ _ false false). Qed.

Lemma f64_of_int_positive v : 0 <= v < 2 ^ 53 -> signed false (f64_of_int v).
Proof. intros Hv. destruct (f64_of_int_in v ltac:(lia)) as [_ H]. by rewrite (proj2 (Z.ltb_ge v 0)) in H by lia. Qed.

Lemma f64_mul_nonpos x y : signed false x -> f64_nonpos y -> f64_nonpos (f64_mul x y) /\ f64_nonpos (f64_mul y x).
Proof.
  intros Hx Hy. destruct (decide (signed true y)) as [HS|HS].
  - split; apply signed_nonpos; [by apply (mul_sign _ _ false true)|by apply (mul_sign _ _ true false)].
  - destruct y as [[]|[]| |[] ? ?]; try done; by destruct x.
Qed.

Lemma f64_div_nonpos x y : f64_nonpos x -> signed false y -> f64_nonpos (f64_div x y).
Proof.
  intros Hx Hy. destruct (decide (signed true x)) as [HS|HS].
  - apply signed_nonpos. by apply (div_sign _ _ true false).
  - destruct x as [[]|[]| |[] ? ?]; try done; destruct y as [[]|[]| |[] ? ?]; done.
Qed.

Lemma f64_add_nonpos x y : f64_nonpos x -> f64_nonpos y -> f64_nonpos (f64_add x y).
Proof.
  intros Hx Hy. destruct (decide (signed true x /\ signed true y)) as [[]|HS].
  - apply signed_nonpos. by apply add_sign.
  - destruct x as [[]|[]| |[] ? ?]; try done; destruct y as [[]|[]| |[] ? ?]; try done; destruct HS; done.
Qed.
