(* ===== verification/Samples.v ===== *)
(** The sample conversions of the PipeWire bridge: [s24le_to_f32] of reac_rx.c
    and [f32_to_s24le] of reac_tx.c. *)

From S2P Require Import Prelude Pcm Float32.

Definition f32_max24 : f32 := f32_of_int 8388607.
Definition f32_min24 : f32 := f32_of_int (-8388608).

Definition s24le_to_f32 (b : buf Z) (p : Z) : res f32 :=
  v ← load24 b p;
  mret (f32_div (f32_of_int v) c23).

(** [invalid] is what [lrintf] gives for a NaN *)
Definition f32_to_s24le (invalid : Z) (v : f32) (b : buf Z) (p : Z) : res (buf Z) :=
  let x := f32_mul v c23 in
  let x := if f32_gt x f32_max24 then f32_max24 else x in
  let x := if f32_lt x f32_min24 then f32_min24 else x in
  let s := i32 (lrintf invalid x) in
  b ← wr b p (u8 (Z.land s 255));
  b ← wr b (p + 1) (u8 (Z.land (Z.shiftr s 8) 255));
  wr b (p + 2) (u8 (Z.land (Z.shiftr s 16) 255)).

(** * Specification *)

(** the 24-bit code of a float sample: the nearest one, saturated *)
Definition code24 (invalid : Z) (v : f32) : Z :=
  match v with
  | S754_nan => i32 invalid
  | S754_infinity s => if s then SMIN else SMAX
  | _ => clamp24 (nearest (units v * 2 ^ 23))
  end.

(** the float of a 24-bit code *)
Definition float24 (x : Z) : f32 := f32_div (f32_of_int x) c23.

(** the three bytes at [p] are those of the code [x] *)
Definition holds24 (b : buf Z) (p x : Z) : Prop :=
  forall k, 0 <= k < 3 -> get b (p + k) = Some (byte24 x k).

(** the two clamping statements *)
Definition saturate (x : f32) : f32 :=
  let x := if f32_gt x f32_max24 then f32_max24 else x in
  if f32_lt x f32_min24 then f32_min24 else x.

(** * Lemmas *)

Lemma limits :
  f32_valid f32_max24 /\ f32_finite f32_max24 = true /\ units f32_max24 = SMAX * 2 ^ 149
  /\ f32_valid f32_min24 /\ f32_finite f32_min24 = true /\ units f32_min24 = SMIN * 2 ^ 149.
Proof.
  destruct (f32_of_int_spec SMAX) as (VM & FM & UM); [done|].
  by destruct (f32_of_int_spec SMIN) as (Vm & Fm & Um).
Qed.

Lemma saturate_finite invalid y :
  f32_valid y -> f32_finite y = true -> lrintf invalid (saturate y) = clamp24 (nearest (units y)).
Proof.
  intros HV HF. destruct limits as (VM & FM & UM & Vm & Fm & Um). unfold saturate, f32_gt.
  change (SFltb f32_max24 y) with (f32_lt f32_max24 y). rewrite (f32_lt_units f32_max24 y VM HV FM HF), UM.
  pose proof (nearest_le (units y) SMAX) as N1. pose proof (nearest_ge (units y) SMAX) as N2.
  pose proof (nearest_le (units y) SMIN) as N3. pose proof (nearest_ge (units y) SMIN) as N4.
  pose proof (pow2_pos 149 ltac:(lia)) as Hp.
  destruct (Z.ltb_spec (SMAX * 2 ^ 149) (units y)) as [Hg|Hl].
  - rewrite (f32_lt_units f32_max24 f32_min24 VM Vm FM Fm), UM, Um. rewrite (proj2 (Z.ltb_ge _ _)) by (unfold SMAX, SMIN; lia).
    rewrite lrintf_nearest, UM, nearest_exact by done.
    unfold clamp24. rewrite Z.gtb_ltb. destruct (Z.ltb_spec SMAX (nearest (units y))); [done|].
    destruct (Z.ltb_spec (nearest (units y)) SMIN); unfold SMAX, SMIN in *; lia.
  - rewrite (f32_lt_units y f32_min24 HV Vm HF Fm), Um.
    destruct (Z.ltb_spec (units y) (SMIN * 2 ^ 149)) as [Hlt|Hge].
    + rewrite lrintf_nearest, Um, nearest_exact by done.
      unfold clamp24. rewrite Z.gtb_ltb, (proj2 (Z.ltb_ge SMAX _)) by (apply N1; lia).
      destruct (Z.ltb_spec (nearest (units y)) SMIN); [done|]. unfold SMAX, SMIN in *; lia.
    + rewrite lrintf_nearest by done. symmetry. apply clamp24_id. split; [by apply N4|by apply N1].
Qed.

Lemma code24_spec invalid v :
  f32_valid v -> i32 (lrintf invalid (saturate (f32_mul v c23))) = code24 invalid v.
Proof.
  intros HV. destruct v as [s|s| |s m e]; [by destruct s|by destruct s|done|].
  destruct (f32_mul_spec (S754_finite s m e) HV eq_refl) as [Vy [[Fy Uy]|[[Ey Hu]|[Ey Hu]]]];
    unfold code24.
  - rewrite saturate_finite, Uy by done. apply i32_id.
    pose proof (clamp24_range (nearest (units (S754_finite s m e) * 2 ^ 23))).
    unfold SMAX, SMIN, INT_MIN, INT_MAX in *. lia.
  - rewrite Ey. pose proof (nearest_ge _ _ Hu) as Hn. change (2 ^ 23) with 8388608 in Hn.
    change (i32 (lrintf invalid (saturate (S754_infinity false)))) with SMAX.
    unfold clamp24. rewrite Z.gtb_ltb, (proj2 (Z.ltb_lt _ _)); [done|].
    unfold SMAX. change (2 ^ 23) with 8388608. lia.
  - rewrite Ey. assert (units (S754_finite s m e) * 2 ^ 23 <= (- 2 ^ 23) * 2 ^ 149) as Hu' by lia.
    pose proof (nearest_le _ _ Hu') as Hn. change (- 2 ^ 23) with (-8388608) in Hn.
    change (i32 (lrintf invalid (saturate (S754_infinity true)))) with SMIN.
    unfold clamp24, SMAX, SMIN. change (2 ^ 23) with 8388608 in *. rewrite Z.gtb_ltb, (proj2 (Z.ltb_ge _ _)) by lia.
    destruct (Z.ltb_spec (nearest (units (S754_finite s m e) * 8388608)) (-8388608)); lia.
Qed.

Lemma byte24_land s k : 0 <= k -> u8 (Z.land (Z.shiftr s (8 * k)) 255) = byte24 s k.
Proof.
  intros Hk. unfold byte24, u8. change 255 with (Z.ones 8). rewrite Z.land_ones by lia.
  change (2 ^ 8) with 256. by rewrite Zmod_mod.
Qed.

(** the encoder writes the code's three bytes *)
Lemma ok_f32_to_s24le invalid v o0 off N f o i (Q : buf Z -> Prop) :
  f32_valid v -> written o0 off N f o -> 0 <= off -> 0 <= N -> off + N * 3 + 3 <= blen o0 ->
  (forall k, 0 <= k < 3 -> f N k = Some (byte24 (code24 invalid v) k)) -> i = off + N * 3 ->
  (forall o', written o0 off (N + 1) f o' -> Q o') ->
  ok (f32_to_s24le invalid v o i) Q.
Proof.
  intros HV W H1 H2 H3 Hf -> HQ. unfold f32_to_s24le.
  change (if f32_lt (if f32_gt (f32_mul v c23) f32_max24 then f32_max24 else f32_mul v c23) f32_min24
          then f32_min24 else if f32_gt (f32_mul v c23) f32_max24 then f32_max24 else f32_mul v c23)
    with (saturate (f32_mul v c23)).
  cbv zeta. rewrite code24_spec by done.
  rewrite <- (Z.shiftr_0_r (code24 invalid v)) at 1.
  rewrite (byte24_land _ 0), (byte24_land _ 1), (byte24_land _ 2) by lia.
  eapply ok_write3; try done; rewrite Hf by lia; done.
Qed.

Lemma float24_valid x : SMIN <= x <= SMAX -> f32_valid (float24 x) /\ f32_finite (float24 x) = true.
Proof. intros Hx. unfold SMIN, SMAX in Hx. destruct (f32_div_mul x) as (H1 & H2 & _); [lia|by split]. Qed.

(** a code survives the trip through float *)
Lemma code24_float24 invalid x : SMIN <= x <= SMAX -> code24 invalid (float24 x) = x.
Proof.
  intros Hx. unfold float24. assert (Z.abs x < 2 ^ 24) as Ha by (unfold SMIN, SMAX in Hx; lia).
  destruct (f32_div_mul x Ha) as (H1 & H2 & H3).
  assert (clamp24 (nearest (units (f32_div (f32_of_int x) c23) * 2 ^ 23)) = x) as E
    by (rewrite H3, nearest_exact; by apply clamp24_id).
  unfold code24. by destruct (f32_div (f32_of_int x) c23).
Qed.

Lemma ok_s24le_to_f32 b n N (Q : f32 -> Prop) :
  bytes_upto b (N * 3) -> 0 <= n < N ->
  (forall v, sample b n = Some v -> SMIN <= v <= SMAX -> Q (float24 v)) ->
  ok (s24le_to_f32 b (n * 3)) Q.
Proof.
  intros HB Hn HQ. unfold s24le_to_f32. ok_step.
  apply ok_load24; [intros k Hk; apply HB; lia|]. intros p0 p1 p2 E0 E1 E2 Hr.
  ok_step. apply HQ; [|done]. unfold sample. by rewrite E0, E1, E2.
Qed.

(** * Properties *)

Lemma code24_range invalid v : v <> S754_nan -> SMIN <= code24 invalid v <= SMAX.
Proof.
  intros Hn. destruct v as [s|[]| |s mm e]; try done; unfold code24; apply clamp24_range.
Qed.

(** an in-range float is at most half a code away from its code *)
Lemma code24_error invalid v :
  f32_finite v = true -> SMIN * 2 ^ 149 <= units v * 2 ^ 23 <= SMAX * 2 ^ 149 ->
  2 * Z.abs (code24 invalid v * 2 ^ 149 - units v * 2 ^ 23) <= 2 ^ 149.
Proof.
  intros Hf [H1 H2].
  assert (code24 invalid v = nearest (units v * 2 ^ 23)) as ->; [|apply nearest_error].
  assert (code24 invalid v = clamp24 (nearest (units v * 2 ^ 23))) as -> by (by destruct v).
  apply clamp24_id. split; [by apply nearest_ge|by apply nearest_le].
Qed.

(** C35: encoding a sample.  Whatever float it is given, a NaN or an infinity
    included, [f32_to_s24le] stays in bounds, writes the three bytes of one
    code and nothing else.  For a finite sample whose scaled value lies in the
    24-bit range the code is within half a code of it; above the range it is
    the largest code, below it the smallest. *)
Theorem f32_to_s24le_correct invalid v b p
  (HV : f32_valid v) (Hp : 0 <= p) (Hb : p + 3 <= blen b) :
  exists b', f32_to_s24le invalid v b p = Ok b' /\ blen b' = blen b
    /\ holds24 b' p (code24 invalid v)
    /\ (forall j, ~ (p <= j < p + 3) -> get b' j = get b j)
    /\ (f32_finite v = true -> SMIN * 2 ^ 149 <= units v * 2 ^ 23 <= SMAX * 2 ^ 149 ->
          2 * Z.abs (code24 invalid v * 2 ^ 149 - units v * 2 ^ 23) <= 2 ^ 149)
    /\ (v = S754_infinity false \/ f32_finite v = true /\ SMAX * 2 ^ 149 <= units v * 2 ^ 23 ->
          code24 invalid v = SMAX)
    /\ (v = S754_infinity true \/ f32_finite v = true /\ units v * 2 ^ 23 <= SMIN * 2 ^ 149 ->
          code24 invalid v = SMIN).
Proof.
  assert (ok (f32_to_s24le invalid v b p)
    (written b p 1 (fun _ k => Some (byte24 (code24 invalid v) k)))) as H.
  { apply (ok_f32_to_s24le invalid v b p 0 (fun _ k => Some (byte24 (code24 invalid v) k)) b p); [done|apply written_start|lia|lia|lia|done|lia|done]. }
  apply ok_iff in H as (b' & Hrun & Hl & Hw & Hr).
  exists b'. split; [done|]. split; [done|]. split.
  { intros k Hk. specialize (Hw 0 k ltac:(lia) Hk). by rewrite Z.mul_0_l, Z.add_0_r in Hw. }
  split; [intros j Hj; apply Hr; lia|]. split; [apply code24_error|].
  assert (f32_finite v = true -> code24 invalid v = clamp24 (nearest (units v * 2 ^ 23))) as E
    by (by destruct v). split.
  - intros [->|[Hf Hu]]; [done|]. rewrite E by done. pose proof (nearest_ge _ _ Hu) as Hn.
    unfold clamp24. rewrite Z.gtb_ltb. destruct (Z.ltb_spec SMAX (nearest (units v * 2 ^ 23))); [done|].
    destruct (Z.ltb_spec (nearest (units v * 2 ^ 23)) SMIN); unfold SMAX, SMIN in *; lia.
  - intros [->|[Hf Hu]]; [done|]. rewrite E by done. pose proof (nearest_le _ _ Hu) as Hn.
    unfold clamp24. rewrite Z.gtb_ltb. destruct (Z.ltb_spec SMAX (nearest (units v * 2 ^ 23)));
      [unfold SMAX, SMIN in *; lia|].
    destruct (Z.ltb_spec (nearest (units v * 2 ^ 23)) SMIN); unfold SMAX, SMIN in *; lia.
Qed.

(** C34: the conversions are exact inverses on 24-bit audio.  Decoding any three
    bytes gives a finite float, its value the signed code divided by 2^23, and
    encoding that float writes the same three bytes back: the round trip is the
    identity, not merely the identity up to one code. *)
Theorem s24le_f32_roundtrip invalid b p b' q
  (HB : bytes_upto b (blen b)) (Hp : 0 <= p) (Hb : p + 3 <= blen b)
  (Hq : 0 <= q) (Hb' : q + 3 <= blen b') :
  exists v b2, s24le_to_f32 b p = Ok v /\ f32_finite v = true
    /\ (exists x, holds24 b p x /\ units v * 2 ^ 23 = x * 2 ^ 149)
    /\ f32_to_s24le invalid v b' q = Ok b2
    /\ (forall k, 0 <= k < 3 -> get b2 (q + k) = get b (p + k)).
Proof.
  assert (ok (s24le_to_f32 b p) (fun v => exists x, SMIN <= x <= SMAX /\ v = float24 x /\ holds24 b p x)) as H.
  { unfold s24le_to_f32. ok_step. apply ok_load24; [intros k Hk; apply HB; lia|].
    intros p0 p1 p2 E0 E1 E2 Hr. ok_step. exists (s24 p0 p1 p2). split; [done|]. split; [done|].
    destruct (HB p) as (q0 & F0 & R0); [lia|]. destruct (HB (p + 1)) as (q1 & F1 & R1); [lia|].
    destruct (HB (p + 2)) as (q2 & F2 & R2); [lia|].
    assert (q0 = p0 /\ q1 = p1 /\ q2 = p2) as (-> & -> & ->) by (repeat split; congruence).
    intros k Hk. rewrite byte24_s24 by done.
    assert (k = 0 \/ k = 1 \/ k = 2) as [->|[->| ->]] by lia; rewrite ?Z.add_0_r; done. }
  apply ok_iff in H as (v & Hv & x & Hx & -> & Hh).
  destruct (float24_valid x Hx) as [V F]. exists (float24 x).
  assert (ok (f32_to_s24le invalid (float24 x) b' q)
    (written b' q 1 (fun _ k => Some (byte24 (code24 invalid (float24 x)) k)))) as H.
  { apply (ok_f32_to_s24le invalid (float24 x) b' q 0 (fun _ k => Some (byte24 (code24 invalid (float24 x)) k)) b' q); [done|apply written_start|lia|lia|lia|done|lia|done]. }
  apply ok_iff in H as (b2 & Hrun & Hl & Hw & Hr). rewrite code24_float24 in Hw by done.
  exists b2. split; [done|]. split; [done|]. split.
  { exists x. split; [done|]. destruct (f32_div_mul x) as (_ & _ & H3); [unfold SMIN, SMAX in *; lia|done]. }
  split; [done|]. intros k Hk. specialize (Hw 0 k ltac:(lia) Hk).
  rewrite Z.mul_0_l, Z.add_0_r in Hw. rewrite Hw. symmetry. by apply Hh.
Qed.

(** 0.1f, and three bytes of a negative code *)
Lemma f32_to_s24le_correct_witness :
  exists b', f32_to_s24le 0 (S754_finite false 13421773 (-27)) (undef 3) 0 = Ok b'
    /\ holds24 b' 0 838861.
Proof.
  destruct (f32_to_s24le_correct 0 (S754_finite false 13421773 (-27)) (undef 3) 0
    ltac:(by vm_compute) ltac:(lia) ltac:(by vm_compute)) as (b' & H1 & _ & H2 & _).
  exists b'. split; [exact H1|].
  assert (code24 0 (S754_finite false 13421773 (-27)) = 838861) as E by (by vm_compute).
  rewrite <- E. exact H2.
Defined.

Lemma s24le_f32_roundtrip_witness :
  exists v b2, s24le_to_f32 (of_list [1; 2; 200]) 0 = Ok v
    /\ f32_to_s24le 0 v (undef 4) 1 = Ok b2 /\ get b2 3 = Some 200.
Proof.
  destruct (s24le_f32_roundtrip 0 (of_list [1; 2; 200]) 0 (undef 4) 1
    ltac:(by apply bytes_of_list) ltac:(lia) ltac:(by vm_compute) ltac:(lia) ltac:(by vm_compute))
    as (v & b2 & H1 & _ & _ & H2 & H3).
  exists v, b2. split; [exact H1|]. split; [exact H2|]. exact (H3 2 ltac:(lia)).
Defined.
