(* ===== verification/Tx.v ===== *)
(** reac_tx.c: the REAC downstream encoder, the inverse of the decode core.  One
    FILLER frame is built from planar float input and sent on the raw socket. *)

From S2P Require Import Prelude LibReac Pcm Decode Float32 Samples.

(** [memset(b + i, v, n)] *)
Definition memset (b : buf Z) (i v n : Z) : res (buf Z) := blit b i (filled_with n v) 0 n.

(** [struct reac_tx] *)
Record reac_tx : Type := ReacTx {
  tx_fd : Z;
  tx_ifindex : Z;
  tx_src : buf Z;      (* uint8_t[6] *)
  tx_counter : Z;      (* uint16_t *)
}.

(** the [planar] argument: an array of plane pointers, [None] for NULL *)
Abbreviation float_planes := (list (option (buf f32))).

(** one call of [sendto]: interface index, destination and frame *)
Record sent_frame : Type := SentFrame { sf_ifindex : Z; sf_dst : list Z; sf_frame : buf Z }.

Section Tx.
Context {L : ReacLib}.
(** what [lrintf] gives for a NaN *)
Context (invalid : Z).

(** [(ch < nch && planar[ch]) ? planar[ch][s] : 0.0f] *)
Definition tx_sample (planar : float_planes) (nch c s : Z) : res f32 :=
  if c <? nch then
    match planar !! Z.to_nat c with
    | None => Err OutOfBounds
    | Some None => mret f32_zero
    | Some (Some plane) => rd plane s
    end
  else mret f32_zero.

(** body of the sample loop *)
Definition tx_put (planar : float_planes) (nch s c : Z) (out : buf Z) : res (buf Z) :=
  v ← tx_sample planar nch c s;
  m ← int (s * REAC_MAX_CHANNELS);
  i ← int (m + c);
  f32_to_s24le invalid v out (REAC_AUDIO_OFFSET + i * REAC_RESOLUTION).

(** everything before the audio *)
Definition tx_header (out : buf Z) (counter : Z) (src : buf Z) : res (buf Z) :=
  out ← memset out 0 0 REAC_FRAME_BYTES;
  (* L2: broadcast dst, our src, EtherType *)
  out ← memset out 0 255 6;
  out ← blit out 6 src 0 6;
  out ← wr out 12 (u8 (Z.land (Z.shiftr REAC_ETHERTYPE 8) 255));
  out ← wr out 13 (u8 (Z.land REAC_ETHERTYPE 255));
  (* sequence counter *)
  out ← wr out REAC_HDR_COUNTER_OFF (u8 (Z.land counter 255));
  wr out (REAC_HDR_COUNTER_OFF + 1) (u8 (Z.land (Z.shiftr counter 8) 255)).

Definition reac_tx_build (out : buf Z) (planar : float_planes) (nch ns counter : Z) (src : buf Z)
  : res (Z * buf Z) :=
  out ← tx_header out counter src;
  (* audio *)
  let frames := if ns <? REAC_SAMPLES_PER_PKT then ns else REAC_SAMPLES_PER_PKT in
  out ← for_ 0 frames (fun s => for_ 0 REAC_MAX_CHANNELS (tx_put planar nch s)) out;
  out ← wr out (REAC_FRAME_BYTES - 2) (u8 REAC_END_MARKER_0);
  out ← wr out (REAC_FRAME_BYTES - 1) (u8 REAC_END_MARKER_1);
  mret (REAC_FRAME_BYTES, out).

(** the stand-in source address of [reac_tx_open] *)
Definition standin : list Z := [0; 64; 171; 196; 128; 246].

(** [socket] is the descriptor [socket()] returned, [ifr] the index found by
    SIOCGIFINDEX or [None] when the ioctl failed; besides the result and the
    object, the descriptors closed *)
Definition reac_tx_open (socket : Z) (ifr : option Z) : Z * reac_tx * list Z :=
  let tx := ReacTx (-1) 0 (of_list standin) 0 in
  if socket <? 0 then (-1, tx, []) else
  match ifr with
  | None => (-1, tx, [socket])
  | Some i => (0, ReacTx socket i (tx_src tx) (tx_counter tx), [])
  end.

Definition reac_tx_close (tx : reac_tx) : reac_tx * list Z :=
  (ReacTx (-1) (tx_ifindex tx) (tx_src tx) (tx_counter tx),
   if tx_fd tx >=? 0 then [tx_fd tx] else []).

(** [r] is what [sendto] returned *)
Definition reac_tx_emit (r : Z) (tx : reac_tx) (planar : float_planes) (nch ns : Z)
  : res (Z * sent_frame * reac_tx) :=
  '(_, frame) ← reac_tx_build (undef REAC_FRAME_BYTES) planar nch ns (tx_counter tx) (tx_src tx);
  mret (r, SentFrame (tx_ifindex tx) (replicate 6 255) frame,
        ReacTx (tx_fd tx) (tx_ifindex tx) (tx_src tx) (u16 (tx_counter tx + 1))).

(** consecutive frames: what [sendto] returned and the planes, per frame *)
Fixpoint tx_run (tx : reac_tx) (blocks : list (Z * float_planes)) (nch ns : Z)
  : res (list sent_frame * reac_tx) :=
  match blocks with
  | [] => mret ([], tx)
  | (r, planar) :: blocks =>
      '(_, f, tx) ← reac_tx_emit r tx planar nch ns;
      '(fs, tx) ← tx_run tx blocks nch ns;
      mret (f :: fs, tx)
  end.

(** * Specification *)

(** the float sent for channel [c], time [s]: zero outside the input *)
Definition tx_value (planar : float_planes) (nch ns c s : Z) : f32 :=
  if (c <? nch) && (s <? ns) then
    match planar !! Z.to_nat c with
    | Some (Some plane) => default f32_zero (get plane s)
    | _ => f32_zero
    end
  else f32_zero.

(** the planes the call reads are there, with initialised floats *)
Definition planes_ok (planar : float_planes) (nch ns : Z) : Prop :=
  forall c s, 0 <= c < Z.min nch 40 -> 0 <= s < Z.min ns 12 ->
    exists plane, planar !! Z.to_nat c = Some plane
      /\ forall p, plane = Some p -> exists v, get p s = Some v /\ f32_valid v.

(** byte [k] of the [n]-th sample of the frame *)
Definition tx_byte (planar : float_planes) (nch ns n k : Z) : option Z :=
  Some (byte24 (code24 invalid (tx_value planar nch ns (n mod 40) (n / 40))) k).

(** a frame of the given counter and audio *)
Definition tx_frame (planar : float_planes) (nch ns counter : Z) (src out0 out : buf Z) : Prop :=
  blen out = blen out0
  /\ (forall i, 0 <= i < 6 -> get out i = Some 255 /\ get out (6 + i) = get src i)
  /\ get out 12 = Some 136 /\ get out 13 = Some 25
  /\ get out 14 = Some (counter mod 256) /\ get out 15 = Some (counter / 256)
  /\ (forall i, 16 <= i < 50 -> get out i = Some 0)
  /\ (forall s c k, 0 <= s < 12 -> 0 <= c < 40 -> 0 <= k < 3 ->
        get out (50 + (s * 40 + c) * 3 + k) = Some (byte24 (code24 invalid (tx_value planar nch ns c s)) k))
  /\ get out 1490 = Some 194 /\ get out 1491 = Some 234
  /\ (forall j, 1492 <= j -> get out j = get out0 j).

(** * Lemmas *)

Context {D : ReacDoc L}.

Lemma code24_zero : code24 invalid f32_zero = 0.
Proof. done. Qed.

Lemma ok_tx_sample planar nch ns c s (Q : f32 -> Prop) :
  planes_ok planar nch ns -> 0 <= c < 40 -> 0 <= s < Z.min ns 12 ->
  (f32_valid (tx_value planar nch ns c s) -> Q (tx_value planar nch ns c s)) ->
  ok (tx_sample planar nch c s) Q.
Proof.
  intros HP Hc Hs HQ. unfold tx_sample, tx_value in *.
  rewrite (proj2 (Z.ltb_lt s ns)), andb_true_r in HQ by lia.
  destruct (Z.ltb_spec c nch) as [Hn|Hn]; [|by apply HQ].
  destruct (HP c s ltac:(lia) Hs) as (plane & E & Hp). rewrite E in HQ. rewrite E.
  destruct plane as [p|]; [|by apply HQ].
  destruct (Hp p eq_refl) as (v & Hv & V). rewrite Hv in HQ. ok_read Hv. by apply HQ.
Qed.

Lemma ok_tx_put planar nch ns out0 out s c :
  planes_ok planar nch ns -> 0 <= s < Z.min ns 12 -> 0 <= c < 40 -> 1492 <= blen out0 ->
  written out0 50 (s * 40 + c) (tx_byte planar nch ns) out ->
  ok (tx_put planar nch s c out) (written out0 50 (s * 40 + c + 1) (tx_byte planar nch ns)).
Proof.
  intros HP Hs Hc Hl W. unfold tx_put. reac_consts. ok_step.
  eapply ok_tx_sample; [done|done|done|]. intros V. ok_steps.
  apply (ok_f32_to_s24le invalid _ out0 50 (s * 40 + c) (tx_byte planar nch ns) out); try done; try lia.
  intros k Hk. unfold tx_byte. by rewrite row_mod, row_div by lia.
Qed.

Lemma ok_memset b i v n (Q : buf Z -> Prop) :
  0 <= i -> 0 <= n -> i + n <= blen b ->
  (forall b', patched b i (i + n) (fun _ => Some v) b' -> Q b') -> ok (memset b i v n) Q.
Proof.
  intros Hi Hn Hb HQ. unfold memset. apply ok_blit; try lia; [by rewrite blen_filled_with|].
  intros b' (H1 & H2 & H3). apply HQ. split; [done|]. split; [|done].
  intros j Hj. rewrite H2 by done. apply get_filled_with. lia.
Qed.

Lemma counter_bytes c :
  0 <= c < 65536 ->
  u8 (Z.land c 255) = c mod 256 /\ u8 (Z.land (Z.shiftr c 8) 255) = c / 256.
Proof.
  intros Hc. change 255 with (Z.ones 8). unfold u8. rewrite !Z.land_ones by lia.
  rewrite Z.shiftr_div_pow2 by lia. change (2 ^ 8) with 256. rewrite !Zmod_mod.
  split; [done|]. apply Z.mod_small. Z.div_mod_to_equations; lia.
Qed.

Lemma ok_tx_header out counter src (Q : buf Z -> Prop) :
  0 <= counter < 65536 -> 1492 <= blen out -> bytes_upto src 6 ->
  (forall o, blen o = blen out
     /\ (forall i, 0 <= i < 6 -> get o i = Some 255 /\ get o (6 + i) = get src i)
     /\ get o 12 = Some 136 /\ get o 13 = Some 25
     /\ get o 14 = Some (counter mod 256) /\ get o 15 = Some (counter / 256)
     /\ (forall i, 16 <= i < 1492 -> get o i = Some 0)
     /\ (forall j, 1492 <= j -> get o j = get out j) -> Q o) ->
  ok (tx_header out counter src) Q.
Proof.
  intros Hc Hl Hsrc HQ. unfold tx_header. reac_consts.
  assert (6 <= blen src) as Hls by (destruct (Hsrc 5) as (v & Hv%get_lt & _); lia).
  destruct (counter_bytes counter Hc) as [-> ->].
  ok_step. apply ok_memset; try lia. intros o1 (L1 & A1 & B1).
  ok_step. apply ok_memset; try lia. intros o2 (L2 & A2 & B2).
  ok_step. apply ok_blit; try lia. intros o3 (L3 & A3 & B3).
  change (u8 (Z.land (Z.shiftr 34841 8) 255)) with 136. change (u8 (Z.land 34841 255)) with 25.
  change (14 + 1) with 15. ok_steps. apply HQ.
  split; [by rewrite !blen_upd, L3, L2|]. split.
  { intros i Hi. get_upds. split; [by rewrite B3, A2 by lia|].
    rewrite A3 by lia. f_equal. lia. }
  get_upds. repeat (split; [done|]). split.
  - intros i Hi. get_upds. by rewrite B3, B2, A1 by lia.
  - intros j Hj. get_upds. by rewrite B3, B2, B1 by lia.
Qed.

Lemma for_max {S} hi (body : Z -> S -> res S) s : for_ 0 hi body s = for_ 0 (Z.max 0 hi) body s.
Proof. unfold for_. by replace (Z.to_nat (Z.max 0 hi - 0)) with (Z.to_nat (hi - 0)) by lia. Qed.

Lemma ok_reac_tx_build out planar nch ns counter src (Q : Z * buf Z -> Prop) :
  planes_ok planar nch ns -> 0 <= counter < 65536 -> 1492 <= blen out -> bytes_upto src 6 ->
  (forall out', tx_frame planar nch ns counter src out out' -> Q (1492, out')) ->
  ok (reac_tx_build out planar nch ns counter src) Q.
Proof.
  intros HP Hc Hl Hsrc HQ. unfold reac_tx_build. ok_step. apply ok_tx_header; try done.
  intros o6 (L6 & H0 & H12 & H13 & H14 & H15 & Hz & Hr). reac_consts. cbv zeta.
  change (1492 - 2) with 1490. change (1492 - 1) with 1491. rewrite for_max.
  assert (Z.max 0 (if ns <? 12 then ns else 12) = Z.max 0 (Z.min ns 12)) as ->
    by (destruct (Z.ltb_spec ns 12); lia).
  ok_step.
  apply (ok_for2 (fun n => written o6 50 n (tx_byte planar nch ns))); [lia|lia|apply written_start| |].
  { intros s c o Hs Hcc W. apply ok_tx_put; try done; lia. }
  intros o7 (L7 & W7 & R7). ok_steps. apply HQ.
  change (u8 194) with 194. change (u8 234) with 234.
  split; [rewrite !blen_upd; congruence|].
  split; [intros i Hi; get_upds; rewrite !R7 by lia; by apply H0|].
  get_upds. rewrite !R7 by lia. repeat (split; [done|]).
  split; [intros i Hi; get_upds; rewrite R7 by lia; apply Hz; lia|].
  split; [|split; [done|split; [done|intros j Hj; get_upds; rewrite R7 by lia; by apply Hr]]].
  intros s c k Hs Hcc Hk. get_upds. destruct (decide (s < ns)) as [Hlt|Hge].
  - rewrite W7 by lia. unfold tx_byte. by rewrite row_mod, row_div by lia.
  - rewrite R7 by lia. rewrite Hz by lia. unfold tx_value.
    rewrite (proj2 (Z.ltb_ge s ns)), andb_false_r, code24_zero by lia. unfold byte24.
    by rewrite Z.shiftr_0_l.
Qed.

(** a built frame is a REAC frame with its counter and its samples *)
Lemma tx_frame_wf planar nch ns counter src out0 out :
  tx_frame planar nch ns counter src out0 out -> 0 <= counter < 65536 ->
  well_formed out 1492 = true /\ le16 out 14 = counter.
Proof.
  intros (_ & _ & H12 & H13 & H14 & H15 & _ & _ & H0 & H1 & _) Hc. split.
  - apply bool_decide_eq_true. reac_consts. change (1492 - 2) with 1490. change (1492 - 1) with 1491. done.
  - unfold le16. change (14 + 1) with 15. rewrite H14, H15. pose proof (Z.div_mod counter 256). lia.
Qed.

Lemma tx_frame_bytes planar nch ns counter src out0 out :
  tx_frame planar nch ns counter src out0 out -> 0 <= counter < 65536 -> bytes_upto src 6 ->
  bytes_upto out 1492.
Proof.
  intros (_ & H0 & H12 & H13 & H14 & H15 & Hz & HA & M0 & M1 & _) Hc Hs i Hi.
  destruct (decide (i < 6)) as [|N1]; [exists 255; split; [by apply H0; lia|lia]|].
  destruct (decide (i < 12)) as [|N2].
  { destruct (Hs (i - 6)) as (v & Hv & Hr); [lia|]. exists v. split; [|done].
    rewrite <- Hv. destruct (H0 (i - 6)) as [_ <-]; [lia|]. f_equal. lia. }
  destruct (decide (i < 16)) as [|N3].
  { assert (i = 12 \/ i = 13 \/ i = 14 \/ i = 15) as [->|[->|[->| ->]]] by lia; eexists;
      (split; [eassumption|Z.div_mod_to_equations; lia]). }
  destruct (decide (i < 50)) as [|N4]; [exists 0; split; [apply Hz; lia|lia]|].
  destruct (decide (i < 1490)) as [|N5].
  { set (n := (i - 50) / 3). set (k := (i - 50) mod 3).
    assert (i = 50 + (n / 40 * 40 + n mod 40) * 3 + k /\ 0 <= n / 40 < 12 /\ 0 <= n mod 40 < 40 /\ 0 <= k < 3)
      as (E & ? & ? & ?) by (unfold n, k; Z.div_mod_to_equations; lia).
    clearbody n k. rewrite E. eexists. split; [by apply HA|apply byte24_range]. }
  assert (i = 1490 \/ i = 1491) as [->| ->] by lia; eexists; (split; [eassumption|lia]).
Qed.

Lemma tx_frame_sample mode planar nch ns counter src out0 out pcm0 pcm c s :
  tx_frame planar nch ns counter src out0 out -> mode_ok mode ->
  n_channels mode = 40 -> samples_per_pkt mode = 12 -> decoded mode out pcm0 pcm ->
  0 <= c < 40 -> 0 <= s < 12 -> tx_value planar nch ns c s <> S754_nan ->
  sample pcm (c * 12 + s) = Some (code24 invalid (tx_value planar nch ns c s)).
Proof.
  intros (_ & _ & _ & _ & _ & _ & _ & HA & _) HM E1 E2 W Hc Hs Hn.
  assert (forall k, 0 <= k < 3 ->
    get pcm ((c * 12 + s) * 3 + k) = Some (byte24 (code24 invalid (tx_value planar nch ns c s)) k)) as HG.
  { intros k Hk. rewrite <- E2. erewrite decoded_get by (try exact W; try done; lia).
    unfold wire_offset. reac_consts. rewrite E1. by apply HA. }
  unfold sample. rewrite <- (Z.add_0_r (_ * 3)) at 1.
  rewrite !HG by lia. by rewrite s24_byte24 by (by apply code24_range).
Qed.

(** * Properties *)

(** C30: a built frame is what the decoder reads back.  For any planes,
    [reac_tx_build] stays in bounds and returns a full frame addressed to the
    broadcast address; the decode core accepts it, finds its counter, and
    decodes for every channel and time the code of the float that was sent:
    that of the plane, or of silence for a channel beyond [nch], a NULL plane or
    a time beyond [ns]. *)
Theorem reac_tx_build_roundtrip mode planar (nch ns counter : Z) src out pcm0
  (HM : mode_ok mode) (E1 : n_channels mode = 40) (E2 : samples_per_pkt mode = 12)
  (HP : planes_ok planar nch ns) (Hc : 0 <= counter < 65536)
  (Hout : 1492 <= blen out) (Hsrc : bytes_upto src 6) (Hpcm : 1440 <= blen pcm0) :
  exists frame pcm, reac_tx_build out planar nch ns counter src = Ok (1492, frame)
    /\ (forall i, 0 <= i < 6 -> get frame i = Some 255 /\ get frame (6 + i) = get src i)
    /\ reac_frame_inspect frame 1492 mode = Ok (ReacFrame counter 1)
    /\ reac_decode frame 1492 mode pcm0 = Ok (12, pcm)
    /\ (forall c s, 0 <= c < 40 -> 0 <= s < 12 -> tx_value planar nch ns c s <> S754_nan ->
         sample pcm (c * 12 + s) = Some (code24 invalid (tx_value planar nch ns c s))).
Proof.
  assert (ok (reac_tx_build out planar nch ns counter src)
    (fun '(n, f) => n = 1492 /\ tx_frame planar nch ns counter src out f)) as H
    by (apply ok_reac_tx_build; auto).
  apply ok_iff in H as ([n frame] & Hrun & -> & HF).
  pose proof (tx_frame_wf _ _ _ _ _ _ _ HF Hc) as [WF Ec].
  pose proof (tx_frame_bytes _ _ _ _ _ _ _ HF Hc Hsrc) as HB.
  assert (ok (reac_decode frame 1492 mode pcm0)
    (fun '(n, pcm) => n = 12 /\ decoded mode frame pcm0 pcm)) as H.
  { apply ok_reac_decode; [done|done|rewrite E1, E2; lia|congruence|].
    intros pcm _ HD. rewrite <- E2. by split. }
  apply ok_iff in H as ([n pcm] & Hdec & -> & HD).
  exists frame, pcm. split; [done|]. split; [apply HF|]. split.
  { rewrite inspect_spec by done. by rewrite WF, Ec. }
  split; [done|]. intros c s Hcc Hs Hn. by eapply tx_frame_sample.
Qed.

(** The sequence counter.  However many blocks are sent and whatever [sendto]
    returns, every call emits exactly one broadcast frame that the receiver
    accepts, and the counters received are the consecutive values from the
    transmitter's counter on, wrapping at 2^16. *)
Theorem tx_run_counters mode tx blocks (nch ns : Z)
  (HP : Forall (fun b => planes_ok b.2 nch ns) blocks)
  (Hc : 0 <= tx_counter tx < 65536) (Hsrc : bytes_upto (tx_src tx) 6) :
  exists frames tx', tx_run tx blocks nch ns = Ok (frames, tx')
    /\ length frames = length blocks
    /\ tx_counter tx' = u16 (tx_counter tx + Z.of_nat (length blocks))
    /\ forall i f, frames !! i = Some f ->
         sf_ifindex f = tx_ifindex tx /\ sf_dst f = replicate 6 255
         /\ reac_frame_inspect (sf_frame f) 1492 mode
            = Ok (ReacFrame (u16 (tx_counter tx + Z.of_nat i)) 1).
Proof.
  revert tx Hc Hsrc. induction HP as [|[r planar] blocks HP _ IH]; intros tx Hc Hsrc.
  - exists [], tx. split; [done|]. split; [done|]. split; [|done].
    cbn [length Z.of_nat]. rewrite Z.add_0_r. symmetry. by apply Z.mod_small.
  - assert (ok (reac_tx_build (undef REAC_FRAME_BYTES) planar nch ns (tx_counter tx) (tx_src tx))
      (fun '(n, f) => tx_frame planar nch ns (tx_counter tx) (tx_src tx) (undef REAC_FRAME_BYTES) f)) as H.
    { apply ok_reac_tx_build; try done. rewrite blen_undef; reac_consts; lia. }
    apply ok_iff in H as ([n frame] & Hrun & HF).
    pose proof (tx_frame_wf _ _ _ _ _ _ _ HF Hc) as [WF Ec].
    pose proof (tx_frame_bytes _ _ _ _ _ _ _ HF Hc Hsrc) as HB.
    set (tx1 := ReacTx (tx_fd tx) (tx_ifindex tx) (tx_src tx) (u16 (tx_counter tx + 1))).
    destruct (IH tx1) as (fs & tx' & Hr & Hl & Ht & Hf); [apply u16_range|done|].
    exists (SentFrame (tx_ifindex tx) (replicate 6 255) frame :: fs), tx'.
    cbn [tx_run]. unfold reac_tx_emit. rewrite Hrun. cbn [mbind res_bind mret res_ret].
    fold tx1. rewrite Hr. cbn [mbind res_bind mret res_ret].
    assert (forall m, u16 (tx_counter tx1 + m) = u16 (tx_counter tx + (1 + m))) as Ea.
    { intros m. cbn [tx1 tx_counter]. unfold u16. rewrite Zplus_mod_idemp_l. f_equal. lia. }
    split; [done|]. split; [cbn; by rewrite Hl|]. split.
    { rewrite Ht, Ea. f_equal. cbn [length]. lia. }
    intros [|i] f Hi; [injection Hi as <-|destruct (Hf i f Hi) as (F1 & F2 & F3)].
    + split; [done|]. split; [done|]. cbn [sf_frame]. rewrite inspect_spec by done.
      rewrite WF, Ec, Z.add_0_r. do 2 f_equal. symmetry. by apply Z.mod_small.
    + split; [done|]. split; [done|]. rewrite F3, Ea. do 3 f_equal. lia.
Qed.
End Tx.

(** * Evaluation: one plane of a ramp, one NULL plane, the other channels silent *)

Definition ramp_plane : buf f32 := of_list (float24 <$> seqZ (-6) 12).
Definition ramp_planes : float_planes := [Some ramp_plane; None].

Lemma ramp_planes_ok : planes_ok ramp_planes 2 12.
Proof.
  intros c s Hc Hs. assert (c = 0 \/ c = 1) as [->| ->] by lia.
  - exists (Some ramp_plane). split; [done|]. intros p [= <-].
    exists (float24 (-6 + s)). split.
    + unfold ramp_plane. rewrite get_of_list by lia. rewrite list_lookup_fmap.
      rewrite lookup_seqZ_lt by lia. cbn. do 2 f_equal. lia.
    + apply float24_valid. unfold SMIN, SMAX. lia.
  - by exists None.
Qed.

Lemma reac_tx_build_roundtrip_witness :
  exists frame pcm,
    reac_tx_build (L := documented_lib) 0 (undef 1492) ramp_planes 2 12 65535 (of_list standin)
      = Ok (1492, frame)
    /\ reac_decode (L := documented_lib) frame 1492 (reac_mode_for (ReacLib := documented_lib) 48000)
         (undef 1440) = Ok (12, pcm)
    /\ sample pcm (0 * 12 + 4) = Some (-2) /\ sample pcm (1 * 12 + 4) = Some 0.
Proof.
  destruct (reac_tx_build_roundtrip (L := documented_lib) (D := documented_lib_doc) 0
    (reac_mode_for (ReacLib := documented_lib) 48000) ramp_planes 2 12 65535 (of_list standin)
    (undef 1492) (undef 1440)
    (reac_mode_for_ok (L := documented_lib) (D := documented_lib_doc) 48000) eq_refl eq_refl
    ramp_planes_ok ltac:(lia) ltac:(by vm_compute) ltac:(by apply bytes_of_list) ltac:(by vm_compute))
    as (frame & pcm & H1 & _ & _ & H2 & H3).
  exists frame, pcm. split; [exact H1|]. split; [exact H2|]. split.
  - refine (eq_trans (H3 0 4 _ _ _) _); [lia|lia|by vm_compute|by vm_compute].
  - refine (eq_trans (H3 1 4 _ _ _) _); [lia|lia|by vm_compute|by vm_compute].
Defined.

Lemma tx_run_counters_witness :
  exists frames tx',
    tx_run (L := documented_lib) 0 (ReacTx 3 7 (of_list standin) 65535)
      [(1492, ramp_planes); (-1, ramp_planes)] 2 12 = Ok (frames, tx')
    /\ tx_counter tx' = 1.
Proof.
  destruct (tx_run_counters (L := documented_lib) (D := documented_lib_doc) 0
    (reac_mode_for (ReacLib := documented_lib) 48000) (ReacTx 3 7 (of_list standin) 65535)
    [(1492, ramp_planes); (-1, ramp_planes)] 2 12
    ltac:(repeat constructor; exact ramp_planes_ok) ltac:(cbn; lia) ltac:(by apply bytes_of_list))
    as (frames & tx' & H1 & _ & H2 & _).
  exists frames, tx'. split; [exact H1|]. exact H2.
Defined.
