(* ===== verification/Rx.v ===== *)
(** reac_rx.c: the feeder of the PipeWire bridge.  Frames of the wire source are
    decoded to planar float and pushed into the ring; the frame counter's slope
    against the monotonic clock gives the rate error. *)

From S2P Require Import Prelude LibReac Pcm Decode Float32 Samples Ring.
From Stdlib Require Import Sorted.
From S2P Require Export Float64.

(** * State *)

Inductive reac_rx_kind : Type := REAC_RX_PCAP | REAC_RX_LIVE.

(** [struct reac_rx], without the thread handle; [source] is the wire source's name *)
Record reac_rx_cfg : Type := RxCfg {
  rx_kind : reac_rx_kind;
  forced_rate : Z;
  pcap_realtime : Z;
}.

Record reac_rx : Type := Rx {
  rx_cfg : reac_rx_cfg;
  rx_ring : ring f32;
  rx_sample_rate : Z;
  ppm_error_milli : Z;   (* _Atomic int *)
  frames_ok : Z;         (* _Atomic uint64_t *)
  frames_bad : Z;        (* _Atomic uint64_t *)
  counter_gaps : Z;      (* _Atomic uint64_t *)
}.

(** the static locals of [update_ppm] *)
Record ppm_state : Type := Ppm {
  win_start_ns : Z;      (* uint64_t *)
  win_frames : Z;        (* uint32_t *)
  ppm_last_counter : Z;  (* uint16_t *)
  have_last : bool;
}.

Definition ppm_initial : ppm_state := Ppm 0 0 0 false.

Definition add_bad (x : reac_rx) : reac_rx :=
  Rx (rx_cfg x) (rx_ring x) (rx_sample_rate x) (ppm_error_milli x) (frames_ok x)
    (u64 (frames_bad x + 1)) (counter_gaps x).
Definition add_ok (r : ring f32) (x : reac_rx) : reac_rx :=
  Rx (rx_cfg x) r (rx_sample_rate x) (ppm_error_milli x) (u64 (frames_ok x + 1))
    (frames_bad x) (counter_gaps x).
Definition add_gaps (n : Z) (x : reac_rx) : reac_rx :=
  Rx (rx_cfg x) (rx_ring x) (rx_sample_rate x) (ppm_error_milli x) (frames_ok x)
    (frames_bad x) (u64 (counter_gaps x + n)).
Definition set_ppm (p : Z) (x : reac_rx) : reac_rx :=
  Rx (rx_cfg x) (rx_ring x) (rx_sample_rate x) p (frames_ok x) (frames_bad x) (counter_gaps x).

Section Rx.
Context {L : ReacLib}.
Implicit Types (rx : reac_rx) (mode : reac_mode) (frame : buf Z).

(** sizes of the local arrays of [feed_frame] *)
Definition FEED_BYTES : Z := REAC_MAX_CHANNELS * REAC_SAMPLES_PER_PKT * REAC_RESOLUTION.
Definition FEED_FLOATS : Z := REAC_MAX_CHANNELS * REAC_SAMPLES_PER_PKT.

(** body of the conversion loop *)
Definition feed_sample (s24_ : buf Z) (ns c s : Z) (planar : buf f32) : res (buf f32) :=
  m ← int (c * ns);
  i ← int (m + s);
  v ← s24le_to_f32 s24_ (i * 3);
  wr planar i v.

Definition feed_frame rx mode frame (len : Z) : res reac_rx :=
  '(ns, s24_) ← reac_decode frame len mode (undef FEED_BYTES);
  if ns <? 0 then mret (add_bad rx) else
  let nch := n_channels mode in
  planar ← for_ 0 nch (fun c => for_ 0 ns (feed_sample s24_ ns c)) (undef FEED_FLOATS);
  '(_, r) ← reac_ring_write (rx_ring rx) planar (u32 ns);
  mret (add_ok r rx).

Definition update_ppm rx (st : ppm_state) (counter_ now_ns : Z) : res (reac_rx * ppm_state) :=
  let st :=
    if have_last st then
      Ppm (win_start_ns st) (u32 (win_frames st + u32 (reac_counter_gap (ppm_last_counter st) counter_ + 1)))
        counter_ true
    else Ppm now_ns (win_frames st) counter_ true in
  let dt := u64 (now_ns - win_start_ns st) in
  if dt >=? 250000000 then
    let obs_pps := f64_div (f64_mul (f64_of_int (win_frames st)) (f64_of_int 1000000000)) (f64_of_int dt) in
    let nom_pps := f64_div (f64_of_int (rx_sample_rate rx)) (f64_of_int REAC_SAMPLES_PER_PKT) in
    let ppm := f64_mul (f64_div (f64_sub obs_pps nom_pps) nom_pps) (f64_of_int 1000000) in
    p ← f64_to_int (f64_mul ppm (f64_of_int 1000));
    mret (set_ppm p rx, Ppm now_ns 0 (ppm_last_counter st) (have_last st))
  else mret (rx, st).

(** [detected] is what [reac_detect_rate_fd] returned, [None] when the capture
    could not be opened *)
Definition reac_rx_open (cfg : reac_rx_cfg) (detected : option Z) (calloc_ok : bool) : option reac_rx :=
  rate ← (if negb (forced_rate cfg =? 0) then Some (forced_rate cfg)
          else match rx_kind cfg with
               | REAC_RX_LIVE => r ← detected; Some (if r >? 0 then r else 48000)
               | REAC_RX_PCAP => Some 48000
               end);
  let depth := u32 (Z.quot rate 4) in
  r ← reac_ring_init f32_zero calloc_ok REAC_MAX_CHANNELS depth;
  mret (Rx cfg r rate 0 0 0 0).

(** ** The loop of the feeder thread *)

(** the locals of [rx_loop] *)
Record loop_state : Type := Loop {
  l_rx : reac_rx;
  l_ppm : ppm_state;
  l_last_counter : Z;
  l_have_counter : bool;
  l_pcap_first_ts : Z;   (* uint64_t *)
  l_wall_first_ns : Z;   (* uint64_t *)
  l_targets : list Z;    (* the deadlines slept until *)
}.

(** what one iteration meets: the return value of the read with the buffer and
    the capture timestamp it left, and the values of the two calls of
    [mono_ns] *)
Record arrival : Type := Arrival {
  a_n : Z;
  a_frame : buf Z;
  a_ts : Z;
  a_wall : Z;
  a_now : Z;
}.

(** [reac_frame_is_reac] and [reac_frame_counter] of libreac *)
Context (is_reac : buf Z -> Z -> bool) (frame_counter : buf Z -> Z).

(** pacing of a replay by the capture timestamps *)
Definition pace (a : arrival) (l : loop_state) : loop_state :=
  let live := match rx_kind (rx_cfg (l_rx l)) with REAC_RX_LIVE => true | _ => false end in
  if negb live && negb (pcap_realtime (rx_cfg (l_rx l)) =? 0) && negb (a_ts a =? 0) then
    let '(first, wall) := if l_wall_first_ns l =? 0 then (a_ts a, a_wall a)
                          else (l_pcap_first_ts l, l_wall_first_ns l) in
    let target := u64 (wall + u64 (u64 (a_ts a - first) * 1000)) in
    Loop (l_rx l) (l_ppm l) (l_last_counter l) (l_have_counter l) first wall (l_targets l ++ [target])
  else l.

(** the gap accounting *)
Definition account (c : Z) (l : loop_state) : loop_state :=
  let rx := l_rx l in
  let rx := if l_have_counter l then
              let gap := reac_counter_gap (l_last_counter l) c in
              if negb (gap =? 0) then add_gaps gap rx else rx
            else rx in
  Loop rx (l_ppm l) c true (l_pcap_first_ts l) (l_wall_first_ns l) (l_targets l).

Definition rx_iteration mode (a : arrival) (l : loop_state) : res loop_state :=
  let live := match rx_kind (rx_cfg (l_rx l)) with REAC_RX_LIVE => true | _ => false end in
  if negb live && (a_n a =? 0) then
    (* end of the capture: reopened, pacing baseline and counter reset *)
    mret (Loop (l_rx l) (l_ppm l) (l_last_counter l) false (l_pcap_first_ts l) 0 (l_targets l))
  else if a_n a <=? 0 then mret l
  else if negb (is_reac (a_frame a) (a_n a)) then mret l
  else
    let l := pace a l in
    let c := frame_counter (a_frame a) in
    let l := account c l in
    '(rx, st) ← update_ppm (l_rx l) (l_ppm l) c (a_now a);
    rx ← feed_frame rx mode (a_frame a) (a_n a);
    mret (Loop rx st (l_last_counter l) (l_have_counter l) (l_pcap_first_ts l) (l_wall_first_ns l)
            (l_targets l)).

Fixpoint rx_loop mode (events : list arrival) (l : loop_state) : res loop_state :=
  match events with
  | [] => mret l
  | a :: events => l ← rx_iteration mode a l; rx_loop mode events l
  end.
End Rx.

(** * Specification *)

Section Spec.
Context {L : ReacLib} {D : ReacDoc L}.
Implicit Types (rx : reac_rx) (mode : reac_mode) (frame : buf Z).

(** the float of channel [c], time [s] of a frame *)
Definition wire_float mode frame (c s : Z) : f32 :=
  match get frame (wire_offset mode c s 0), get frame (wire_offset mode c s 1),
    get frame (wire_offset mode c s 2) with
  | Some p0, Some p1, Some p2 => float24 (s24 p0 p1 p2)
  | _, _, _ => f32_zero
  end.

(** a receiver whose ring carries the mode's channels and a frame at a time *)
Definition rx_ok rx mode (q : queue (F := f32)) : Prop :=
  represents (rx_ring rx) q /\ r_channels (rx_ring rx) = n_channels mode
  /\ samples_per_pkt mode <= r_mask (rx_ring rx).

(** the queue after [w] columns of a frame *)
Definition with_columns (q : queue (F := f32)) (w : Z) (f : Z -> Z -> f32) : queue :=
  (q.1 + w, fun c => q.2 c ++ (f c <$> seqZ 0 w)).

(** columns a frame adds *)
Definition room rx mode : Z :=
  Z.min (samples_per_pkt mode) (r_mask (rx_ring rx) - fill (rx_ring rx)).

(** the conversion loops fill the planar block in order *)
Definition converted mode frame (n : Z) (planar : buf f32) : Prop :=
  blen planar = 480
  /\ forall c s, 0 <= c -> 0 <= s < samples_per_pkt mode -> c * samples_per_pkt mode + s < n ->
       get planar (c * samples_per_pkt mode + s) = Some (wire_float mode frame c s).

(** * Lemmas *)

Lemma wire_float_sample mode frame pcm0 pcm c s v :
  decoded mode frame pcm0 pcm -> mode_ok mode ->
  0 <= c < n_channels mode -> 0 <= s < samples_per_pkt mode ->
  sample pcm (c * samples_per_pkt mode + s) = Some v -> wire_float mode frame c s = float24 v.
Proof.
  intros W HM Hc Hs. unfold sample, wire_float.
  assert (forall k, 0 <= k < 3 -> get frame (wire_offset mode c s k)
    = get pcm ((c * samples_per_pkt mode + s) * 3 + k)) as E
    by (intros; symmetry; by eapply decoded_get).
  rewrite !E by lia. rewrite Z.add_0_r.
  destruct (get pcm _) as [p0|]; [|done]. destruct (get pcm _) as [p1|]; [|done].
  destruct (get pcm _) as [p2|]; [|done]. by intros [= <-].
Qed.

Lemma ok_feed_sample mode frame pcm0 pcm planar c s :
  decoded mode frame pcm0 pcm -> mode_ok mode -> bytes_upto frame 1492 ->
  n_channels mode * samples_per_pkt mode <= 480 ->
  0 <= c < n_channels mode -> 0 <= s < samples_per_pkt mode ->
  converted mode frame (c * samples_per_pkt mode + s) planar ->
  ok (feed_sample pcm (samples_per_pkt mode) c s planar)
     (converted mode frame (c * samples_per_pkt mode + s + 1)).
Proof.
  intros W HM HB HN Hc Hs [Hl HC]. unfold feed_sample.
  pose proof (lex_lt _ _ _ _ Hc Hs) as Hi. assert (0 <= c * samples_per_pkt mode) by nia.
  ok_steps. apply (ok_s24le_to_f32 pcm _ (n_channels mode * samples_per_pkt mode));
    [by eapply decoded_bytes|done|].
  intros v Hv Hr. ok_step. split; [by rewrite blen_upd|].
  intros c' s' Hc' Hs' Hlt. rewrite get_upd by lia. case_decide as E.
  - apply lex_inj in E as [-> ->]; [|done|done]. by rewrite (wire_float_sample _ _ _ _ _ _ _ W HM Hc Hs Hv).
  - apply HC; [done|done|lia].
Qed.

Lemma mode_floats mode : mode_ok mode -> n_channels mode * samples_per_pkt mode <= 480.
Proof. unfold mode_ok. reac_consts. lia. Qed.

Lemma row_converted mode frame planar c w :
  converted mode frame (n_channels mode * samples_per_pkt mode) planar ->
  0 <= c < n_channels mode -> w <= samples_per_pkt mode ->
  row f32_zero planar (samples_per_pkt mode) w c = wire_float mode frame c <$> seqZ 0 w.
Proof.
  intros [_ HC] Hc Hw. unfold row. apply list_fmap_ext. intros i s Hi.
  apply lookup_seqZ in Hi as [-> Hi]. rewrite HC; [done|lia|lia|].
  pose proof (lex_lt (samples_per_pkt mode) (n_channels mode) c (0 + Z.of_nat i) Hc ltac:(lia)). lia.
Qed.

(** feeding one frame *)
Lemma ok_feed_frame rx mode frame len q (Q : reac_rx -> Prop) :
  mode_ok mode -> rx_ok rx mode q -> bytes_upto frame len ->
  (well_formed frame len = false -> Q (add_bad rx)) ->
  (forall r', well_formed frame len = true ->
     represents r' (with_columns q (room rx mode) (wire_float mode frame)) ->
     r_channels r' = r_channels (rx_ring rx) -> r_capacity r' = r_capacity (rx_ring rx) ->
     Q (add_ok r' rx)) ->
  ok (feed_frame rx mode frame len) Q.
Proof.
  intros HM ((HR & Hf & HH) & Ech & Hmask) HB Hbad Hgood. pose proof (mode_floats mode HM) as HN.
  pose proof HM as (HM1 & HM2 & _). unfold feed_frame. ok_step.
  apply ok_reac_decode; [done|done|unfold FEED_BYTES; rewrite blen_undef; reac_consts; lia|exact Hbad|].
  intros pcm WF W. pose proof (well_formed_len _ _ WF) as ->.
  rewrite (proj2 (Z.ltb_ge _ _)) by lia. ok_step.
  apply (ok_for2 (fun n => converted mode frame n)); [lia|lia| | |].
  { split; [unfold FEED_FLOATS; rewrite blen_undef; reac_consts; lia|]. intros c s Hc Hs Hlt. nia. }
  { intros c s planar Hc Hs HC. by eapply ok_feed_sample. }
  intros planar HC. ok_step.
  assert (u32 (samples_per_pkt mode) = samples_per_pkt mode) as -> by (apply Z.mod_small; lia).
  apply (ok_ring_write f32_zero (rx_ring rx) q.2); [done|done|lia| |]; rewrite (Z.min_l _ (r_mask _)) by lia.
  - intros c s Hc Hs. eexists. apply HC; [lia|lia|].
    rewrite Ech in Hc. pose proof (lex_lt (samples_per_pkt mode) (n_channels mode) c s Hc ltac:(lia)). lia.
  - intros r' HR' E1 E2 _ _ _ Ef HH'. ok_step. apply Hgood; try done.
    split; [done|]. split; [rewrite Ef; unfold with_columns, room; cbn [fst]; by rewrite Hf|].
    intros c Hc. destruct (HH' c Hc) as [L1 L2].
    rewrite (row_converted mode frame planar c _ HC) in L1, L2 by (rewrite ?E2, ?Ech in *; lia).
    by split.
Qed.

(** opening gives an empty ring of at least a quarter of a second *)
Lemma reac_rx_open_ok cfg detected rx : reac_rx_open cfg detected true = Some rx -> 0 <= rx_sample_rate rx <= INT_MAX ->
  represents (rx_ring rx) (0, fun _ => []) /\ r_channels (rx_ring rx) = 40 /\ rx_sample_rate rx / 4 <= r_capacity (rx_ring rx).
Proof.
  unfold reac_rx_open, INT_MAX. intros H Hr.
  match type of H with (_ ← ?o; _) = _ => destruct o as [rate|] end; [|done]. cbn [mbind option_bind] in H.
  destruct (reac_ring_init_capacity f32_zero REAC_MAX_CHANNELS (u32 (Z.quot rate 4))) as (r & E & HR & HC & k & Hk & Hcap).
  { reac_consts. lia. }
  { destruct (reac_ring_init _ _ _ _) as [r|]; [|done]. cbn in H. injection H as <-. cbn in Hr.
    rewrite Z.quot_div_nonneg, u32_small by (try (split; [|apply Z.div_lt_upper_bound]); try apply Z.div_pos; lia).
    apply Z.div_le_upper_bound; lia. }
  rewrite E in H. cbn in H. injection H as <-. cbn in *. split; [done|]. split; [rewrite HC; apply doc_max_channels|].
  rewrite Hk. rewrite Z.quot_div_nonneg, u32_small in Hcap by (try (split; [apply Z.div_pos|apply Z.div_lt_upper_bound]); lia). lia.
Qed.

(** * Properties *)

(** Feeding a frame.  A frame that is not a well-formed REAC frame counts as
    bad and leaves the ring alone.  A well-formed one counts as good and
    appends its samples to every channel of the ring, in order, each sample
    being the float of the 24-bit code on the wire; what does not fit the
    ring's free space is its end. *)
Theorem feed_frame_correct rx mode frame len q
  (HM : mode_ok mode) (HR : rx_ok rx mode q) (HB : bytes_upto frame len) :
  exists rx', feed_frame rx mode frame len = Ok rx'
    /\ rx_cfg rx' = rx_cfg rx /\ counter_gaps rx' = counter_gaps rx
    /\ (well_formed frame len = false ->
          rx_ring rx' = rx_ring rx /\ frames_bad rx' = u64 (frames_bad rx + 1) /\ frames_ok rx' = frames_ok rx)
    /\ (well_formed frame len = true ->
          rx_ok rx' mode (with_columns q (room rx mode) (wire_float mode frame))
          /\ frames_ok rx' = u64 (frames_ok rx + 1) /\ frames_bad rx' = frames_bad rx).
Proof.
  assert (ok (feed_frame rx mode frame len) (fun rx' =>
    (well_formed frame len = false /\ rx' = add_bad rx)
    \/ (well_formed frame len = true /\ exists r',
          represents r' (with_columns q (room rx mode) (wire_float mode frame))
          /\ r_channels r' = r_channels (rx_ring rx) /\ r_capacity r' = r_capacity (rx_ring rx)
          /\ rx' = add_ok r' rx))) as H.
  { eapply ok_feed_frame; [done|done|done|intros E; by left|].
    intros r' E H1 H2 H3. right. split; [done|]. by exists r'. }
  apply ok_iff in H as (rx' & Hrun & H). exists rx'. split; [done|].
  destruct H as [[E ->]|[E (r' & H1 & H2 & H3 & ->)]]; rewrite E.
  - by repeat (split; [done|]).
  - split; [done|]. split; [done|]. split; [done|]. intros _. split; [|done].
    destruct HR as ((HR & _) & Ech & Hmask). split; [done|]. cbn [rx_ring add_ok].
    destruct H1 as ((_ & Em & _) & _). destruct HR as (_ & Em0 & _). split; [congruence|]. lia.
Qed.
End Spec.

(** * Rate error over a replayed capture *)

(** [update_ppm] over the frames of a capture: counter and arrival time of each *)
Fixpoint ppm_run `{L : ReacLib} (rx : reac_rx) (st : ppm_state) (frames : list (Z * Z))
  : res (reac_rx * ppm_state) :=
  match frames with
  | [] => mret (rx, st)
  | (c, now) :: frames => '(rx, st) ← update_ppm rx st c now; ppm_run rx st frames
  end.

(** ** A stream that keeps its pace *)

(** from one frame to the next, the counters do not advance faster than twice [b]
    frames per second, on a clock that does not go back *)
Definition paced `{L : ReacLib} (b : Z) (p q : Z * Z) : Prop :=
  0 <= q.2 - p.2 <= 2 ^ 52 /\ (reac_counter_gap p.1 q.1 + 1) * 1000000000 <= 2 * b * (q.2 - p.2).

(** every field inside its C type, the rate error within 2000000 ppm *)
Definition ppm_typed (st : ppm_state) : Prop :=
  0 <= win_start_ns st < 18446744073709551616 /\ 0 <= win_frames st < 4294967296 /\ 0 <= ppm_last_counter st < 65536.

Section Pace.
Context {L : ReacLib} {D : ReacDoc L}.
Context (rate : Z) (Hrate : 12 <= rate <= 768000).
Let b : Z := rate / 12.

(** the state after the frame [f] *)
Definition ppm_inv (f : Z * Z) (st : ppm_state) : Prop :=
  have_last st = true /\ ppm_last_counter st = f.1 /\ 0 <= win_start_ns st <= f.2 /\ 0 <= win_frames st
  /\ f.2 - win_start_ns st < 250000000 /\ win_frames st * 1000000000 <= 2 * b * (f.2 - win_start_ns st).

(** the estimate over a window, in milli-ppm *)
Lemma estimate_defined win dt (Q : Z -> Prop) : 0 <= win <= 200000 -> 250000000 <= dt <= 2 ^ 52 + 250000000 ->
  win * 1000000000 <= 2 * b * dt -> (forall p, Z.abs p <= 2000000000 -> Q p) ->
  ok (f64_to_int (f64_mul (f64_mul (f64_div (f64_sub (f64_div (f64_mul (f64_of_int win) (f64_of_int 1000000000)) (f64_of_int dt))
        (f64_div (f64_of_int rate) (f64_of_int REAC_SAMPLES_PER_PKT))) (f64_div (f64_of_int rate) (f64_of_int REAC_SAMPLES_PER_PKT)))
      (f64_of_int 1000000)) (f64_of_int 1000))) Q.
Proof.
  intros Hw Hdt Hp HQ. rewrite doc_samples_per_pkt. assert (1 <= b <= 64000 /\ 12 * b <= rate <= 12 * (b + 1)) as [Hb Hr].
  { unfold b. Z.div_mod_to_equations. lia. }
  clearbody b. set (nom := f64_div (f64_of_int rate) (f64_of_int 12)).
  assert (f64_in nom (b + 1)) as Hnom.
  { eapply (f64_div_in _ _ rate 12); [|apply f64_of_int_ge; lia|lia|lia].
    pose proof (proj1 (f64_of_int_in rate ltac:(lia))) as H. by rewrite Z.abs_eq in H by lia. }
  assert (signed false nom) as Snom by (eapply f64_div_positive; [apply f64_of_int_positive; lia..|exact Hnom]).
  assert (f64_ge nom b) as Gnom.
  { eapply (f64_div_ge _ _ (Z.abs rate) rate 12); [apply f64_of_int_in; lia|apply f64_of_int_ge; lia| | |exact Hnom|lia|lia].
    - exact (proj1 (f64_of_int_in 12 ltac:(lia))).
    - destruct (f64_of_int_ge 12 ltac:(lia)) as (V & H & _). split; [done|]. split; [|done]. by vm_compute. }
  assert (f64_in (f64_mul (f64_of_int win) (f64_of_int 1000000000)) (win * 1000000000)) as Hm.
  { apply f64_mul_in; [|exact (proj1 (f64_of_int_in 1000000000 ltac:(lia)))|lia].
    pose proof (proj1 (f64_of_int_in win ltac:(lia))) as H. by rewrite Z.abs_eq in H by lia. }
  set (obs := f64_div (f64_mul _ _) (f64_of_int dt)).
  assert (f64_in obs (2 * b)) as Hobs by (eapply f64_div_in; [exact Hm|apply f64_of_int_ge; lia|lia|lia]).
  assert (signed false obs) as Sobs.
  { eapply f64_div_positive; [|apply f64_of_int_positive; lia|exact Hobs].
    eapply f64_mul_positive; [apply f64_of_int_positive; lia..|exact Hm]. }
  pose proof (f64_sub_in _ _ _ _ Hobs Hnom Sobs Snom) as Hsub.
  assert (f64_in (f64_div (f64_sub obs nom) nom) 2) as Hq by (eapply f64_div_in; [exact Hsub|exact Gnom|lia|lia]).
  clearbody nom obs. apply (ok_f64_to_int _ (2 * 1000000 * 1000)); [|unfold INT_MAX; lia|done].
  apply f64_mul_in; [apply f64_mul_in; [done|exact (proj1 (f64_of_int_in 1000000 ltac:(lia)))|lia]|exact (proj1 (f64_of_int_in 1000 ltac:(lia)))|lia].
Qed.

Lemma ppm_paced rx st p q (Q : reac_rx * ppm_state -> Prop) : rx_sample_rate rx = rate -> ppm_inv p st -> paced b p q ->
  q.2 < 18446744073709551616 ->
  (forall e st', ppm_inv q st' -> e = ppm_error_milli rx \/ Z.abs e <= 2000000000 -> Q (set_ppm e rx, st')) ->
  ok (update_ppm rx st q.1 q.2) Q.
Proof.
  intros Hr (I1 & I2 & I3 & I4 & I5 & I6) (P1 & P2) Hq HQ. unfold update_ppm. rewrite I1, I2, Hr.
  assert (1 <= b <= 64000) as Hb by (unfold b; Z.div_mod_to_equations; lia). pose proof (doc_gap_range p.1 q.1) as Hg.
  assert (win_frames st <= 2 * b) as Hwb by nia.
  rewrite (u32_small (_ + 1)), u32_small by lia. cbn [win_start_ns win_frames ppm_last_counter have_last].
  rewrite u64_small by lia. rewrite Z.geb_leb. destruct (Z.leb_spec 250000000 (q.2 - win_start_ns st)) as [Hge|Hlt].
  - ok_step. apply estimate_defined; [lia|lia|lia|]. intros e He. ok_step. apply HQ; [|by right].
    unfold ppm_inv. cbn [win_start_ns win_frames ppm_last_counter have_last]. repeat (split; [done || lia|]). lia.
  - ok_step. assert (rx = set_ppm (ppm_error_milli rx) rx) as -> by by destruct rx. apply HQ; [|by left].
    unfold ppm_inv. cbn [win_start_ns win_frames ppm_last_counter have_last]. repeat (split; [done || lia|]). lia.
Qed.

Lemma ppm_run_paced frames : forall rx st p, rx_sample_rate rx = rate -> ppm_inv p st ->
  Sorted (paced b) (p :: frames) -> Forall (fun f => f.2 < 18446744073709551616) frames ->
  ok (ppm_run rx st frames) (fun '(rx', st') =>
    exists e f, rx' = set_ppm e rx /\ ppm_inv f st' /\ last (p :: frames) = Some f
      /\ (e = ppm_error_milli rx \/ Z.abs e <= 2000000000)).
Proof.
  induction frames as [|q frames IH]; intros rx st p Hr HI HS HF; cbn [ppm_run].
  - ok_step. exists (ppm_error_milli rx), p. split; [by destruct rx|]. split; [done|]. split; [done|by left].
  - apply Forall_cons_1 in HF as [Hq HF]. apply Sorted_inv in HS as [HS Hpq]. inversion Hpq as [|? ? Hp]; subst.
    destruct q as [c now]. ok_step. apply (ppm_paced rx st p (c, now)); [done|done|done|done|]. intros e st1 HI1 He.
    eapply ok_mono; [by apply (IH (set_ppm e rx) st1 (c, now))|]. intros [rx' st'] (e' & f & -> & HI' & Hl & He').
    exists e', f. split; [done|]. split; [done|]. split; [by rewrite last_cons_cons|]. cbn in He'. destruct He' as [->|]; [done|by right].
Qed.

(** the whole run, from the first frame *)
Lemma ppm_run_sound rx frames : rx_sample_rate rx = rate -> Sorted (paced b) frames ->
  Forall (fun f => 0 <= f.1 < 65536 /\ 0 <= f.2 < 18446744073709551616) frames ->
  ok (ppm_run rx ppm_initial frames) (fun '(rx', st') =>
    exists e, rx' = set_ppm e rx /\ (e = ppm_error_milli rx \/ Z.abs e <= 2000000000) /\ ppm_typed st').
Proof.
  intros Hr HS HF. destruct frames as [|[c now] frames].
  { cbn [ppm_run]. ok_step. exists (ppm_error_milli rx). split; [by destruct rx|]. split; [by left|]. unfold ppm_typed. cbn. lia. }
  assert (ppm_inv (c, now) (Ppm now 0 c true)) as HI.
  { apply Forall_cons_1 in HF as [[Hc Hn] _]. unfold ppm_inv. cbn in *. repeat (split; [done || lia|]). lia. }
  cbn [ppm_run]. assert (update_ppm rx ppm_initial c now = Ok (rx, Ppm now 0 c true)) as ->.
  { unfold update_ppm, ppm_initial. cbn [have_last win_frames win_start_ns]. by rewrite Z.sub_diag. }
  cbn [mbind res_bind]. pose proof HF as [_ HF']%Forall_cons_1.
  eapply ok_mono; [apply (ppm_run_paced frames rx _ (c, now)); [done|done|done|eapply Forall_impl; [exact HF'|]; cbn; lia]|].
  intros [rx' st'] (e & f & -> & (I1 & I2 & I3 & I4 & I5 & I6) & Hl & He). exists e. split; [done|]. split; [done|].
  assert (0 <= f.1 < 65536 /\ 0 <= f.2 < 18446744073709551616) as [Hf1 Hf2].
  { apply last_Some_elem_of in Hl. rewrite Forall_forall in HF. by apply HF. }
  assert (b <= 64000) by (unfold b; Z.div_mod_to_equations; lia). unfold ppm_typed. rewrite I2. split; [lia|]. split; [nia|lia].
Qed.
End Pace.

(** [n] frames, 250 us apart (48 kHz), of a capture of [len] frames that is
    replayed from its start when it ends *)
Definition replay (len n : Z) : list (Z * Z) := (fun i => (i mod len, i * 250000)) <$> seqZ 0 n.

Definition rx48 : reac_rx :=
  default (Rx (RxCfg REAC_RX_PCAP 0 1) (Ring _ [] 0 0 0 0 0 0 0) 0 0 0 0 0)
    (reac_rx_open (L := documented_lib) (RxCfg REAC_RX_PCAP 0 1) None true).

Lemma ppm_run_app `{L : ReacLib} fs gs : forall rx st,
  ppm_run rx st (fs ++ gs) = ('(rx, st) ← ppm_run rx st fs; ppm_run rx st gs).
Proof.
  induction fs as [|[c now] fs IH]; intros rx st; [done|]. cbn [app ppm_run].
  destruct (update_ppm rx st c now) as [[rx' st']|]; [|done]. apply IH.
Qed.

Lemma replay_cons len a n : 0 <= a -> 0 < n ->
  replay len (a + n)
  = replay len a ++ (a mod len, a * 250000) :: ((fun i => (i mod len, i * 250000)) <$> seqZ (Z.succ a) (Z.pred n)).
Proof. intros Ha Hn. unfold replay. by rewrite seqZ_app, fmap_app, Z.add_0_l, (seqZ_cons a) by lia. Qed.

(** the estimator's state after frame [i] of the first pass at nominal rate *)
Definition pass_state (i : Z) : ppm_state := Ppm (i / 1000 * 250000000) (i mod 1000) i true.

(** one frame of the first pass: a window closes every 1000 frames, on a rate of
    exactly 4000 frames per second *)
Lemma update_ppm_nominal rx i :
  rx_sample_rate rx = 48000 -> ppm_error_milli rx = 0 -> 0 <= i -> i + 1 < 8000 ->
  update_ppm (L := documented_lib) rx (pass_state i) (i + 1) ((i + 1) * 250000) = Ok (rx, pass_state (i + 1)).
Proof.
  intros E1 E2 H0 H1. unfold update_ppm, pass_state. cbn [have_last win_start_ns win_frames ppm_last_counter].
  change (reac_counter_gap i (i + 1)) with (u16 (i + 1 - i - 1)). replace (i + 1 - i - 1) with 0 by lia.
  change (u32 (u16 0 + 1)) with 1. pose proof (Z.div_mod i 1000 ltac:(lia)) as E.
  pose proof (Z.mod_pos_bound i 1000 ltac:(lia)) as B.
  generalize dependent (i / 1000). intros w E. generalize dependent (i mod 1000). intros m E B.
  assert (u32 (m + 1) = m + 1) as -> by (apply Z.mod_small; lia).
  assert (u64 ((i + 1) * 250000 - w * 250000000) = (m + 1) * 250000) as ->
    by (unfold u64; rewrite Z.mod_small; lia).
  destruct (decide (m = 999)) as [Em|Em].
  - rewrite Em, E1. assert (f64_to_int _ = Ok 0) as -> by (vm_compute; reflexivity).
    assert ((i + 1) / 1000 = w + 1) as -> by (symmetry; apply Z.div_unique with 0; lia).
    assert ((i + 1) mod 1000 = 0) as -> by (symmetry; apply Z.mod_unique with (w + 1); lia).
    replace ((i + 1) * 250000) with ((w + 1) * 250000000) by lia.
    destruct rx. cbn in E1, E2. by subst.
  - assert (((m + 1) * 250000 >=? 250000000) = false) as -> by (rewrite Z.geb_leb; lia).
    assert ((i + 1) / 1000 = w) as -> by (symmetry; apply Z.div_unique with (m + 1); lia).
    assert ((i + 1) mod 1000 = m + 1) as -> by (symmetry; apply Z.mod_unique with w; lia). done.
Qed.

(** the whole first pass *)
Lemma ppm_run_pass (i : nat) rx :
  rx_sample_rate rx = 48000 -> ppm_error_milli rx = 0 -> Z.of_nat i < 8000 ->
  ppm_run (L := documented_lib) rx ppm_initial (replay 8000 (Z.of_nat i + 1)) = Ok (rx, pass_state (Z.of_nat i)).
Proof.
  intros E1 E2. induction i as [|i IH]; intros Hi; [by destruct rx|].
  replace (Z.of_nat (S i)) with (Z.of_nat i + 1) by lia.
  rewrite replay_cons, ppm_run_app, IH by lia. cbn [mbind res_bind ppm_run seqZ fmap list_fmap app].
  rewrite Z.mod_small, update_ppm_nominal by (done || lia). done.
Qed.

(** The rate error, and what a looped capture does to it.  Replaying a
    capture of 8000 frames at its nominal rate, the published error is 0 after
    every number of frames of the first pass; but the estimator keeps its counter
    when the capture starts again, so the wrap counts as 57536 lost frames, and
    the error in milli-ppm no longer fits the [int] it is converted to: the
    conversion is undefined as soon as the second pass begins. *)
Theorem update_ppm_replay_overflow :
  (forall n, 0 <= n <= 8000 -> exists rx st,
    ppm_run (L := documented_lib) rx48 ppm_initial (replay 8000 n) = Ok (rx, st) /\ ppm_error_milli rx = 0)
  /\ (forall n, 8000 < n ->
    ppm_run (L := documented_lib) rx48 ppm_initial (replay 8000 n) = Err SignedOverflow).
Proof.
  pose proof (eq_refl : rx_sample_rate rx48 = 48000) as E1.
  pose proof (eq_refl : ppm_error_milli rx48 = 0) as E2. revert E1 E2. generalize rx48. intros rx E1 E2.
  assert (forall n, 0 < n <= 8000 ->
    ppm_run (L := documented_lib) rx ppm_initial (replay 8000 n) = Ok (rx, pass_state (n - 1))) as H.
  { intros n Hn. pose proof (ppm_run_pass (Z.to_nat (n - 1)) rx E1 E2 ltac:(lia)) as H.
    rewrite Z2Nat.id in H by lia. by replace (n - 1 + 1) with n in H by lia. }
  split; intros n Hn.
  - destruct (decide (n = 0)) as [->|]; [by exists rx, ppm_initial|].
    exists rx, (pass_state (n - 1)). split; [apply H; lia|done].
  - replace n with (8000 + (n - 8000)) by lia. rewrite replay_cons, ppm_run_app, (H 8000) by lia.
    generalize ((fun i => (i mod 8000, i * 250000)) <$> seqZ (Z.succ 8000) (Z.pred (n - 8000))). intros rest.
    cbn [mbind res_bind ppm_run]. unfold update_ppm. rewrite E1.
    assert (f64_to_int _ = Err SignedOverflow) as -> by (vm_compute; reflexivity). done.
Qed.

Lemma update_ppm_replay_overflow_witness :
  (exists rx st, ppm_run (L := documented_lib) rx48 ppm_initial (replay 8000 8000) = Ok (rx, st)
     /\ ppm_error_milli rx = 0)
  /\ ppm_run (L := documented_lib) rx48 ppm_initial (replay 8000 8001) = Err SignedOverflow.
Proof.
  exact (conj (proj1 update_ppm_replay_overflow 8000 ltac:(lia)) (proj2 update_ppm_replay_overflow 8001 eq_refl)).
Defined.

Lemma rx48_ok : rx_ok rx48 (reac_mode_for (ReacLib := documented_lib) 48000) (0, fun _ => []).
Proof.
  split; [|split; [done|by vm_compute]].
  destruct (ring_init_ok f32_zero 40 12000 (rx_ring rx48) ltac:(lia) ltac:(lia) eq_refl) as [H1 H2].
  split; [exact H1|]. by split.
Qed.

Lemma feed_frame_correct_witness :
  exists rx', feed_frame (L := documented_lib) rx48 (reac_mode_for (ReacLib := documented_lib) 48000) ramp_frame 1492
      = Ok rx' /\ frames_ok rx' = 1.
Proof.
  destruct (feed_frame_correct (L := documented_lib) (D := documented_lib_doc) rx48
    (reac_mode_for (ReacLib := documented_lib) 48000) ramp_frame 1492 (0, fun _ => [])
    (reac_mode_for_ok (L := documented_lib) (D := documented_lib_doc) 48000) rx48_ok ramp_frame_bytes)
    as (rx' & H1 & _ & _ & _ & H2).
  exists rx'. split; [exact H1|]. destruct (H2 ltac:(by vm_compute)) as (_ & H3 & _).
  exact (eq_trans H3 eq_refl).
Defined.
