(* ===== verification/Loopback.v ===== *)
(** The bridge end to end: what reac_tx.c encodes, reac_rx.c feeds into the ring. *)

From S2P Require Import Prelude LibReac Pcm Decode Float32 Samples Ring Rx Tx.

Section Loopback.
Context {L : ReacLib} {D : ReacDoc L} (invalid : Z).

(** the float a receiver hears for a float sent *)
Definition heard (v : f32) : f32 := float24 (code24 invalid v).

(** three bytes on the wire *)
Lemma wire_float_code mode frame c s x : n_channels mode = 40 -> 0 <= c < 40 -> SMIN <= x <= SMAX ->
  (forall k, 0 <= k < 3 -> get frame (50 + (s * 40 + c) * 3 + k) = Some (byte24 x k)) ->
  wire_float mode frame c s = float24 x.
Proof.
  intros E1 Hc Hx E. unfold wire_float.
  assert (forall k, 0 <= k < 3 -> get frame (wire_offset mode c s k) = Some (byte24 x k)) as E'.
  { intros k Hk. unfold wire_offset. reac_consts. rewrite E1. by apply E. }
  rewrite !E' by lia. by rewrite s24_byte24.
Qed.

Lemma wire_float_tx mode planar nch ns counter_ src out0 frame c s :
  tx_frame invalid planar nch ns counter_ src out0 frame -> n_channels mode = 40 ->
  0 <= c < 40 -> 0 <= s < 12 -> tx_value planar nch ns c s <> S754_nan ->
  wire_float mode frame c s = heard (tx_value planar nch ns c s).
Proof.
  intros (_ & _ & _ & _ & _ & _ & _ & HA & _) E1 Hc Hs Hn.
  apply wire_float_code; [done|done|by apply code24_range|]. intros k Hk. by apply HA.
Qed.

(** The loopback.  A frame built from planes without NaNs and fed to a
    receiver with room for it adds twelve samples to every channel of the
    ring, each the float of the code nearest the sample sent; so a sample
    that is itself the float of a 24-bit code arrives bit for bit. *)
Theorem loopback mode planar (nch ns counter_ : Z) src rx q
  (HM : mode_ok mode) (E1 : n_channels mode = 40) (E2 : samples_per_pkt mode = 12)
  (HP : planes_ok planar nch ns) (Hc : 0 <= counter_ < 65536) (Hsrc : bytes_upto src 6)
  (HR : rx_ok rx mode q) (Hroom : 12 <= r_mask (rx_ring rx) - fill (rx_ring rx))
  (Hnan : forall c s, 0 <= c < 40 -> 0 <= s < 12 -> tx_value planar nch ns c s <> S754_nan) :
  exists frame rx' q', reac_tx_build invalid (undef REAC_FRAME_BYTES) planar nch ns counter_ src = Ok (1492, frame)
    /\ feed_frame rx mode frame 1492 = Ok rx' /\ frames_ok rx' = u64 (frames_ok rx + 1)
    /\ rx_ok rx' mode q' /\ q'.1 = q.1 + 12
    /\ (forall c, 0 <= c < 40 -> q'.2 c = q.2 c ++ ((fun s => heard (tx_value planar nch ns c s)) <$> seqZ 0 12))
    /\ (forall c s x, 0 <= c < 40 -> 0 <= s < 12 -> SMIN <= x <= SMAX ->
          tx_value planar nch ns c s = float24 x ->
          q'.2 c !! (length (q.2 c) + Z.to_nat s)%nat = Some (float24 x)).
Proof.
  assert (ok (reac_tx_build invalid (undef REAC_FRAME_BYTES) planar nch ns counter_ src)
    (fun '(n, f) => n = 1492 /\ tx_frame invalid planar nch ns counter_ src (undef REAC_FRAME_BYTES) f)) as H.
  { apply ok_reac_tx_build; auto. rewrite blen_undef; reac_consts; lia. }
  apply ok_iff in H as ([n frame] & Hrun & -> & HF).
  pose proof (tx_frame_wf _ _ _ _ _ _ _ _ HF Hc) as [WF _].
  pose proof (tx_frame_bytes _ _ _ _ _ _ _ _ HF Hc Hsrc) as HB.
  set (q' := with_columns q (room rx mode) (wire_float mode frame)).
  assert (room rx mode = 12) as Er by (unfold room; rewrite E2; lia).
  assert (forall c, 0 <= c < 40 ->
    q'.2 c = q.2 c ++ ((fun s => heard (tx_value planar nch ns c s)) <$> seqZ 0 12)) as Hq.
  { intros c Hcc. unfold q', with_columns. cbn [snd]. rewrite Er. f_equal. apply list_fmap_ext.
    intros i s Hi. apply lookup_seqZ in Hi as [-> Hi].
    eapply wire_float_tx; [exact HF|done|done|lia|apply Hnan; lia]. }
  assert (ok (feed_frame rx mode frame 1492) (fun rx' => frames_ok rx' = u64 (frames_ok rx + 1) /\ rx_ok rx' mode q')) as H.
  { eapply ok_feed_frame; [done|done|done|congruence|].
    intros r' _ H1 H2 H3. split; [done|]. destruct HR as ((HR & _) & Ech & Hmask).
    split; [exact H1|]. cbn [rx_ring add_ok]. split; [congruence|].
    destruct H1 as ((_ & Em & _) & _). destruct HR as (_ & Em0 & _). lia. }
  apply ok_iff in H as (rx' & Hfeed & H1 & H2). exists frame, rx', q'.
  split; [done|]. split; [done|]. split; [done|]. split; [done|].
  split; [unfold q', with_columns; cbn [fst]; lia|]. split; [done|].
  intros c s x Hcc Hs Hx E. rewrite Hq by done. rewrite lookup_app_r by lia.
  replace (length (q.2 c) + Z.to_nat s - length (q.2 c))%nat with (Z.to_nat s) by lia.
  rewrite list_lookup_fmap, lookup_seqZ_lt by lia. cbn. rewrite Z2Nat.id by lia.
  unfold heard. by rewrite Z.add_0_l, E, code24_float24.
Qed.
End Loopback.

Lemma ramp_planes_no_nan c s : 0 <= c < 40 -> 0 <= s < 12 -> tx_value ramp_planes 2 12 c s <> S754_nan.
Proof.
  intros Hc Hs H. assert (f32_valid (tx_value ramp_planes 2 12 c s) /\ f32_finite (tx_value ramp_planes 2 12 c s) = true) as [_ HF].
  { unfold tx_value. rewrite (proj2 (Z.ltb_lt s 12)), andb_true_r by lia.
    destruct (Z.ltb_spec c 2); [|done]. assert (c = 0 \/ c = 1) as [->| ->] by lia; [|done].
    change (ramp_planes !! Z.to_nat 0) with (Some (Some ramp_plane)). cbv iota beta. unfold ramp_plane.
    rewrite get_of_list, list_lookup_fmap, lookup_seqZ_lt by lia. cbn.
    apply float24_valid. unfold SMIN, SMAX. lia. }
  by rewrite H in HF.
Qed.

Lemma loopback_witness :
  exists frame rx' q',
    reac_tx_build (L := documented_lib) 0 (undef 1492) ramp_planes 2 12 65535 (of_list standin) = Ok (1492, frame)
    /\ feed_frame (L := documented_lib) rx48 (reac_mode_for (ReacLib := documented_lib) 48000) frame 1492 = Ok rx'
    /\ rx_ok rx' (reac_mode_for (ReacLib := documented_lib) 48000) q' /\ q'.2 0 !! 4%nat = Some (float24 (-2)).
Proof.
  destruct (loopback (L := documented_lib) (D := documented_lib_doc) 0
    (reac_mode_for (ReacLib := documented_lib) 48000) ramp_planes 2 12 65535 (of_list standin) rx48 (0, fun _ => [])
    (reac_mode_for_ok (L := documented_lib) (D := documented_lib_doc) 48000) eq_refl eq_refl
    ramp_planes_ok ltac:(lia) ltac:(by apply bytes_of_list) rx48_ok ltac:(by vm_compute) ramp_planes_no_nan)
    as (frame & rx' & q' & H1 & H2 & _ & H3 & _ & _ & H4).
  exists frame, rx', q'. split; [exact H1|]. split; [exact H2|]. split; [exact H3|].
  assert (SMIN <= -2 <= SMAX) as Hx by (unfold SMIN, SMAX; lia).
  assert (tx_value ramp_planes 2 12 0 4 = float24 (-2)) as E by (by vm_compute).
  exact (H4 0 4 (-2) ltac:(lia) ltac:(lia) Hx E).
Defined.
