(* ===== verification/SinkNode.v ===== *)
(** reac_sink_node.c: the realtime callback of the PipeWire sink.  A quantum is
    not a multiple of the frame's 12 samples, so samples are staged across
    calls and a frame is emitted each time the stage is full.  The README and the
    design document of the bridge describe an earlier sink, without transmitter. *)

From S2P Require Import Prelude LibReac Pcm Decode Float32 Samples Tx.

(** [struct reac_sink_node], the fields the callback uses *)
Record reac_sink_node : Type := SinkNode {
  sk_tx : reac_tx;
  sk_tx_open : bool;
  sk_channels : Z;
  stage : list (buf f32);   (* float[REAC_MAX_CHANNELS][REAC_SAMPLES_PER_PKT] *)
  staged : Z;
}.

Section SinkNode.
Context {L : ReacLib} (invalid : Z).
Implicit Types (n : reac_sink_node) (ins : float_planes).

Definition set_stage (st : list (buf f32)) n : reac_sink_node :=
  SinkNode (sk_tx n) (sk_tx_open n) (sk_channels n) st (staged n).
Definition set_staged (k : Z) n : reac_sink_node :=
  SinkNode (sk_tx n) (sk_tx_open n) (sk_channels n) (stage n) k.
Definition set_tx (tx : reac_tx) n : reac_sink_node :=
  SinkNode tx (sk_tx_open n) (sk_channels n) (stage n) (staged n).

(** the node as [reac_sink_node_new] leaves it: [tx] is the open transmitter,
    [src_mac] the configured source address if any *)
Definition reac_sink_node_new (tx : reac_tx) (cfg_channels : Z) (src_mac : option (list Z)) : reac_sink_node :=
  let channels := if cfg_channels >? REAC_MAX_CHANNELS then REAC_MAX_CHANNELS else cfg_channels in
  let tx := match src_mac with
            | Some mac => ReacTx (tx_fd tx) (tx_ifindex tx) (of_list mac) (tx_counter tx)
            | None => tx
            end in
  SinkNode tx true channels
    (replicate (Z.to_nat REAC_MAX_CHANNELS) (filled_with REAC_SAMPLES_PER_PKT f32_zero)) 0.

(** [n->stage[c][n->staged] = in[c] ? in[c][s] : 0.0f] *)
Definition stage_sample ins (s c : Z) n : res reac_sink_node :=
  v ← match ins !! Z.to_nat c with
      | None => Err OutOfBounds
      | Some None => mret f32_zero
      | Some (Some b) => rd b s
      end;
  match stage n !! Z.to_nat c with
  | None => Err OutOfBounds
  | Some row => row ← wr row (staged n) v; mret (set_stage (<[Z.to_nat c := row]> (stage n)) n)
  end.

(** one sample time: fill a column of the stage, emit when it is full; what
    [sendto] returns is ignored *)
Definition sink_column ins (s : Z) (st : reac_sink_node * list sent_frame)
  : res (reac_sink_node * list sent_frame) :=
  let '(n, out) := st in
  n ← for_ 0 (sk_channels n) (stage_sample ins s) n;
  k ← int (staged n + 1);
  let n := set_staged k n in
  if k =? REAC_SAMPLES_PER_PKT then
    '(_, f, tx) ← reac_tx_emit invalid 0 (sk_tx n) (Some <$> stage n) (sk_channels n) REAC_SAMPLES_PER_PKT;
    mret (set_staged 0 (set_tx tx n), out ++ [f])
  else mret (n, out).

(** [ins] are the buffers [pw_filter_get_dsp_buffer] returned, [None] for an
    unlinked port *)
Definition sink_on_process n ins (nframes : Z) (out : list sent_frame)
  : res (reac_sink_node * list sent_frame) :=
  if negb (sk_tx_open n) then mret (n, out) else
  let have := existsb (fun b => match b with Some _ => true | None => false end)
                (take (Z.to_nat (sk_channels n)) ins) in
  if negb have then mret (n, out) else
  for_ 0 nframes (sink_column ins) (n, out).

Fixpoint sink_run n (quanta : list (float_planes * Z)) (out : list sent_frame)
  : res (reac_sink_node * list sent_frame) :=
  match quanta with
  | [] => mret (n, out)
  | (ins, nframes) :: quanta => '(n, out) ← sink_on_process n ins nframes out; sink_run n quanta out
  end.

(** * Specification *)

(** some port is linked *)
Definition fed (channels : Z) ins : bool :=
  existsb (fun b => match b with Some _ => true | None => false end) (take (Z.to_nat channels) ins).

(** sample [s] of channel [c] of a quantum *)
Definition in_value ins (c s : Z) : f32 :=
  match ins !! Z.to_nat c with
  | Some (Some b) => default f32_zero (get b s)
  | _ => f32_zero
  end.

(** the columns of a quantum *)
Definition quantum ins (nframes : Z) : list (Z -> f32) :=
  (fun s c => in_value ins c s) <$> seqZ 0 nframes.

(** the columns of the quanta that reach the stage *)
Definition input (channels : Z) (quanta : list (float_planes * Z)) : list (Z -> f32) :=
  flat_map (fun q => if fed channels q.1 then quantum q.1 q.2 else []) quanta.

(** buffers of the ports: present as long as the quantum, with valid floats *)
Definition ins_ok (channels : Z) ins (nframes : Z) : Prop :=
  forall c s, 0 <= c < channels -> 0 <= s < nframes ->
    exists b, ins !! Z.to_nat c = Some b
      /\ forall p, b = Some p -> exists v, get p s = Some v /\ f32_valid v.

Definition column_value (cols : list (Z -> f32)) (t c : Z) : f32 :=
  match cols !! Z.to_nat t with Some f => f c | None => f32_zero end.

(** frame [i] of the stream: the counter, and the codes of columns [12 * i] on *)
Definition stream_frame (channels c0 : Z) (cols : list (Z -> f32)) (i : Z) (f : buf Z) : Prop :=
  bytes_upto f 1492 /\ well_formed f 1492 = true /\ le16 f 14 = u16 (c0 + i)
  /\ forall c s k, 0 <= c < 40 -> 0 <= s < 12 -> 0 <= k < 3 ->
       get f (50 + (s * 40 + c) * 3 + k)
       = Some (byte24 (code24 invalid (if c <? channels then column_value cols (12 * i + s) c else f32_zero)) k).

(** the stage [st] holds the last [m] columns of [cols] *)
Definition staged_rows (channels : Z) (cols : list (Z -> f32)) (base m : Z) (st : list (buf f32)) : Prop :=
  length st = 40%nat
  /\ forall c, 0 <= c < 40 -> exists row, st !! Z.to_nat c = Some row /\ blen row = 12
       /\ (forall s, 0 <= s < 12 -> exists v, get row s = Some v /\ f32_valid v)
       /\ (c < channels -> forall s, 0 <= s < m -> get row s = Some (column_value cols (base + s) c)).

(** the node after the columns [cols], the transmitter having started at [c0] *)
Definition sink_inv (channels c0 : Z) (src : buf Z) (cols : list (Z -> f32)) n (out : list sent_frame) : Prop :=
  let len := Z.of_nat (length cols) in
  sk_tx_open n = true /\ sk_channels n = channels /\ staged n = len mod 12
  /\ tx_src (sk_tx n) = src /\ tx_counter (sk_tx n) = u16 (c0 + len / 12)
  /\ Z.of_nat (length out) = len / 12
  /\ (forall i f, out !! i = Some f -> stream_frame channels c0 cols (Z.of_nat i) (sf_frame f))
  /\ staged_rows channels cols (12 * (len / 12)) (len mod 12) (stage n).

(** * Lemmas *)

Context {D : ReacDoc L}.

Lemma column_value_app cols cols' t c :
  0 <= t < Z.of_nat (length cols) -> column_value (cols ++ cols') t c = column_value cols t c.
Proof. intros Ht. unfold column_value. by rewrite lookup_app_l by lia. Qed.

Lemma column_value_last cols f c : column_value (cols ++ [f]) (Z.of_nat (length cols)) c = f c.
Proof. unfold column_value. by rewrite Nat2Z.id, list_lookup_middle. Qed.

Lemma stream_frame_app channels c0 cols cols' i f :
  0 <= i -> 12 * i + 12 <= Z.of_nat (length cols) ->
  stream_frame channels c0 cols i f -> stream_frame channels c0 (cols ++ cols') i f.
Proof.
  intros Hi Hl (H1 & H2 & H3 & H4). split; [done|]. split; [done|]. split; [done|].
  intros c s k Hc Hs Hk. rewrite H4 by done. by rewrite column_value_app by lia.
Qed.

(** one column of the stage *)
Lemma ok_stage_column n ins s nframes (Q : reac_sink_node -> Prop) :
  0 <= sk_channels n <= 40 -> ins_ok (sk_channels n) ins nframes -> 0 <= s < nframes ->
  length (stage n) = 40%nat -> 0 <= staged n < 12 ->
  (forall c row, stage n !! c = Some row -> blen row = 12) ->
  (forall st', length st' = 40%nat ->
     (forall c row, stage n !! c = Some row ->
        st' !! c = Some (if Z.of_nat c <? sk_channels n then upd row (staged n) (in_value ins (Z.of_nat c) s) else row)) ->
     Q (set_stage st' n)) ->
  ok (for_ 0 (sk_channels n) (stage_sample ins s) n) Q.
Proof.
  intros Hch HI Hs Hlen Hst Hrow HQ.
  apply ok_for with (P := fun k n' => exists st', n' = set_stage st' n /\ length st' = 40%nat
    /\ forall c row, stage n !! c = Some row ->
         st' !! c = Some (if Z.of_nat c <? k then upd row (staged n) (in_value ins (Z.of_nat c) s) else row)).
  - lia.
  - exists (stage n). split; [by destruct n|]. split; [done|]. intros c row Hr.
    by rewrite (proj2 (Z.ltb_ge _ 0)) by lia.
  - intros c n' Hc (st' & -> & Hl & H). unfold stage_sample. cbn [stage set_stage staged].
    destruct (HI c s Hc Hs) as (b & Hb & Hp).
    assert (is_Some (stage n !! Z.to_nat c)) as [row Hr] by (apply lookup_lt_is_Some; lia).
    pose proof (H _ _ Hr) as Hr'. rewrite (proj2 (Z.ltb_ge _ _)) in Hr' by lia.
    assert (ok (match ins !! Z.to_nat c with None => Err OutOfBounds | Some None => mret f32_zero
      | Some (Some b) => rd b s end) (eq (in_value ins c s))) as Hv.
    { unfold in_value. rewrite Hb. destruct b as [p|]; [|done].
      destruct (Hp p eq_refl) as (v & Hv & _). ok_read Hv. by rewrite Hv. }
    ok_step. eapply ok_mono; [exact Hv|]. intros v <-. rewrite Hr'. ok_step.
    pose proof (Hrow _ _ Hr). ok_step. ok_step. eexists. split; [reflexivity|].
    split; [by rewrite length_insert|]. intros c' row' Hr2. destruct (decide (c' = Z.to_nat c)) as [->|Hne].
    + rewrite list_lookup_insert_eq by lia. rewrite Hr in Hr2. injection Hr2 as <-.
      rewrite Z2Nat.id by lia. by rewrite (proj2 (Z.ltb_lt _ _)) by lia.
    + rewrite list_lookup_insert_ne by done. rewrite (H _ _ Hr2).
      destruct (Z.ltb_spec (Z.of_nat c') c), (Z.ltb_spec (Z.of_nat c') (c + 1)); try done; lia.
  - intros n' (st' & -> & Hl & H). by apply HQ.
Qed.

(** the stage with one more column *)
Lemma staged_rows_next channels cols base m ins s nframes st st' :
  0 <= channels <= 40 -> ins_ok channels ins nframes -> 0 <= s < nframes -> 0 <= m < 12 ->
  0 <= base -> base + m = Z.of_nat (length cols) ->
  staged_rows channels cols base m st -> length st' = 40%nat ->
  (forall c row, st !! c = Some row ->
     st' !! c = Some (if Z.of_nat c <? channels then upd row m (in_value ins (Z.of_nat c) s) else row)) ->
  staged_rows channels (cols ++ [fun c => in_value ins c s]) base (m + 1) st'.
Proof.
  intros Hch HI Hs Hm Hbase Hlen [_ H] Hl' H'. split; [done|]. intros c Hc.
  destruct (H c Hc) as (row & Hr & Hb & Hv & Hcol). apply H' in Hr. rewrite Z2Nat.id in Hr by lia.
  eexists. split; [exact Hr|]. destruct (Z.ltb_spec c channels) as [Hlt|Hge].
  - split; [by rewrite blen_upd|]. split.
    + intros s' Hs'. rewrite get_upd by lia. case_decide; [|by apply Hv].
      eexists. split; [done|]. destruct (HI c s ltac:(lia) Hs) as (b & Eb & Hp). unfold in_value. rewrite Eb.
      destruct b as [p|]; [|done]. destruct (Hp p eq_refl) as (v & -> & V). done.
    + intros _ s' Hs'. rewrite get_upd by lia. case_decide as E.
      * subst s'. by rewrite Hlen, column_value_last.
      * rewrite column_value_app by lia. apply Hcol; lia.
  - split; [done|]. split; [done|]. intros. lia.
Qed.

(** a full stage is what the transmitter is given *)
Lemma staged_rows_planes channels cols base st :
  0 <= channels <= 40 -> staged_rows channels cols base 12 st ->
  planes_ok (Some <$> st) channels 12
  /\ forall c s, 0 <= c < 40 -> 0 <= s < 12 ->
       tx_value (Some <$> st) channels 12 c s
       = if c <? channels then column_value cols (base + s) c else f32_zero.
Proof.
  intros Hch [Hl H]. split.
  - intros c s Hc Hs. destruct (H c ltac:(lia)) as (row & Hr & _ & Hv & _).
    exists (Some row). split; [by rewrite list_lookup_fmap, Hr|]. intros p [= <-]. apply Hv. lia.
  - intros c s Hc Hs. unfold tx_value. rewrite (proj2 (Z.ltb_lt s 12)), andb_true_r by lia.
    destruct (Z.ltb_spec c channels) as [Hlt|]; [|done].
    destruct (H c Hc) as (row & Hr & _ & _ & Hcol). rewrite list_lookup_fmap, Hr. cbn.
    by rewrite Hcol by lia.
Qed.

Lemma stage_stream_frame channels c0 cols i st src out0 f :
  0 <= channels <= 40 -> staged_rows channels cols (12 * i) 12 st -> bytes_upto src 6 ->
  tx_frame invalid (Some <$> st) channels 12 (u16 (c0 + i)) src out0 f ->
  stream_frame channels c0 cols i f.
Proof.
  intros Hch HS Hsrc HF. pose proof (u16_range (c0 + i)) as Hc.
  destruct (staged_rows_planes _ _ _ _ Hch HS) as [_ HV].
  destruct (tx_frame_wf _ _ _ _ _ _ _ _ HF Hc) as [WF Ec].
  split; [by eapply tx_frame_bytes|]. split; [done|]. split; [done|].
  destruct HF as (_ & _ & _ & _ & _ & _ & _ & HA & _).
  intros c s k Hcc Hs Hk. rewrite HA by done. by rewrite HV.
Qed.

Lemma ok_sink_column channels c0 src cols n out ins nframes s :
  0 <= channels <= 40 -> bytes_upto src 6 -> ins_ok channels ins nframes -> 0 <= s < nframes ->
  sink_inv channels c0 src cols n out ->
  ok (sink_column ins s (n, out))
     (fun '(n', out') => sink_inv channels c0 src (cols ++ [fun c => in_value ins c s]) n' out').
Proof.
  intros Hch Hsrc HI Hs HInv. pose proof HInv as (HO & HC & HSt & HT & HTc & HN & HF & HR).
  set (len := Z.of_nat (length cols)) in *. set (d := len / 12) in *. set (m := len mod 12) in *.
  assert (len = 12 * d + m /\ 0 <= m < 12 /\ 0 <= d) as (El & Hm & Hd) by (unfold d, m; Z.div_mod_to_equations; lia).
  pose proof HR as [Hl40 HR']. unfold sink_column. ok_step.
  apply (ok_stage_column n ins s nframes); rewrite ?HC; try done; [by rewrite HSt| |].
  { intros c row Hr. pose proof (lookup_lt_Some _ _ _ Hr).
    destruct (HR' (Z.of_nat c) ltac:(lia)) as (row' & Hr' & Hb & _). rewrite Nat2Z.id in Hr'. congruence. }
  rewrite HSt. intros st' Hl' H'. cbn [staged set_stage]. rewrite HSt. ok_step.
  assert (staged_rows channels (cols ++ [fun c => in_value ins c s]) (12 * d) (m + 1) st') as HR1
    by (eapply staged_rows_next; try done; lia).
  assert (Z.of_nat (length (cols ++ [fun c => in_value ins c s])) = len + 1) as El'
    by (rewrite length_app; cbn; lia).
  ok_step. rewrite doc_samples_per_pkt. destruct (Z.eqb_spec (m + 1) 12) as [E12|N12].
  - unfold reac_tx_emit. cbn [sk_tx set_staged set_stage stage sk_channels]. rewrite HC, HT, HTc.
    rewrite E12 in HR1. destruct (staged_rows_planes _ _ _ _ Hch HR1) as [HP _].
    ok_step. ok_step. apply ok_reac_tx_build; [done|done|apply u16_range|rewrite blen_undef; reac_consts; lia|done|].
    intros f Hf. ok_steps. pose proof (stage_stream_frame _ _ _ _ _ _ _ _ Hch HR1 Hsrc Hf) as HSF.
    unfold sink_inv. rewrite El'. replace ((len + 1) / 12) with (d + 1) by (Z.div_mod_to_equations; lia).
    replace ((len + 1) mod 12) with 0 by (Z.div_mod_to_equations; lia). cbn.
    do 4 (split; [done|]). split; [unfold u16; rewrite Zplus_mod_idemp_l; f_equal; lia|].
    split; [rewrite length_app; cbn; lia|]. split.
    + intros i g Hi. apply lookup_app_Some in Hi as [Hi|[Hge Hi]].
      * pose proof (lookup_lt_Some _ _ _ Hi). apply stream_frame_app; [lia|lia|by apply HF].
      * assert (i = length out) as -> by (destruct (i - length out)%nat eqn:E; [lia|done]).
        rewrite Nat.sub_diag in Hi. injection Hi as <-. by rewrite HN.
    + destruct HR1 as [R1 R2]. split; [done|]. intros c Hcc.
      destruct (R2 c Hcc) as (row & Q1 & Q2 & Q3 & _). exists row.
      do 3 (split; [done|]). intros _ s' Hs'. lia.
  - ok_step. unfold sink_inv. rewrite El'. replace ((len + 1) / 12) with d by (Z.div_mod_to_equations; lia).
    replace ((len + 1) mod 12) with (m + 1) by (Z.div_mod_to_equations; lia). cbn.
    do 6 (split; [done|]). split; [|done]. intros i g Hi. pose proof (lookup_lt_Some _ _ _ Hi).
    apply stream_frame_app; [lia|lia|by apply HF].
Qed.

Lemma ok_sink_on_process channels c0 src cols n out ins nframes :
  0 <= channels <= 40 -> bytes_upto src 6 -> 0 <= nframes -> ins_ok channels ins nframes ->
  sink_inv channels c0 src cols n out ->
  ok (sink_on_process n ins nframes out)
     (fun '(n', out') =>
        sink_inv channels c0 src (cols ++ if fed channels ins then quantum ins nframes else []) n' out').
Proof.
  intros Hch Hsrc Hn HI HInv. pose proof HInv as (HO & HC & _). unfold sink_on_process.
  rewrite HO, HC. cbn [negb]. fold (fed channels ins). destruct (fed channels ins); cbn [negb].
  - apply ok_for with (P := fun k '(n', out') =>
      sink_inv channels c0 src (cols ++ quantum ins k) n' out').
    + lia.
    + by rewrite app_nil_r.
    + intros k [n' out'] Hk H. eapply ok_mono; [by eapply ok_sink_column|].
      intros [n2 out2]. unfold quantum. rewrite (seqZ_app 0 k 1), fmap_app by lia.
      by rewrite app_assoc, Z.add_0_l.
    + by intros [n' out'].
  - ok_step. by rewrite app_nil_r.
Qed.

Lemma ok_sink_run channels c0 src quanta : forall cols n out,
  0 <= channels <= 40 -> bytes_upto src 6 ->
  Forall (fun q => 0 <= q.2 /\ ins_ok channels q.1 q.2) quanta ->
  sink_inv channels c0 src cols n out ->
  ok (sink_run n quanta out)
     (fun '(n', out') => sink_inv channels c0 src (cols ++ input channels quanta) n' out').
Proof.
  induction quanta as [|[ins nframes] quanta IH]; intros cols n out Hch Hsrc HQ HInv; cbn [sink_run].
  - ok_step. by rewrite app_nil_r.
  - apply Forall_cons_1 in HQ as [[Hn HI] HQ]. ok_step.
    eapply ok_mono; [by eapply ok_sink_on_process|]. intros [n1 out1] H1.
    eapply ok_mono; [by eapply IH|]. intros [n2 out2]. cbn [input flat_map fst snd].
    by rewrite <- app_assoc.
Qed.

Lemma sink_inv_new tx (cfg_channels : Z) mac :
  0 <= cfg_channels -> 0 <= tx_counter tx < 65536 ->
  let n := reac_sink_node_new tx cfg_channels mac in
  sink_inv (sk_channels n) (tx_counter tx) (tx_src (sk_tx n)) [] n [].
Proof.
  intros Hc Ht n. unfold sink_inv. change (Z.of_nat (length (@nil (Z -> f32)))) with 0.
  change (0 mod 12) with 0. change (0 / 12) with 0.
  do 4 (split; [done|]). split; [|split; [done|split; [done|]]].
  { rewrite Z.add_0_r. unfold u16. rewrite Z.mod_small by done. by destruct mac. }
  split; [unfold n; cbn; rewrite length_replicate; reac_consts; done|]. intros c Hcc.
  exists (filled_with REAC_SAMPLES_PER_PKT f32_zero). split.
  { unfold n; cbn. apply lookup_replicate_2. reac_consts. lia. }
  reac_consts. split; [done|]. split; [|lia]. intros s Hs. exists f32_zero. split; [|done].
  by apply get_filled_with.
Qed.

(** a whole session: no undefined behaviour, and the invariant at its end *)
Lemma sink_session tx (cfg_channels : Z) mac quanta (channels := Z.min cfg_channels 40) :
  0 <= cfg_channels -> 0 <= tx_counter tx < 65536 ->
  bytes_upto (tx_src (sk_tx (reac_sink_node_new tx cfg_channels mac))) 6 ->
  Forall (fun q => 0 <= q.2 /\ ins_ok channels q.1 q.2) quanta ->
  exists n' out, sink_run (reac_sink_node_new tx cfg_channels mac) quanta [] = Ok (n', out)
    /\ sink_inv channels (tx_counter tx) (tx_src (sk_tx (reac_sink_node_new tx cfg_channels mac))) (input channels quanta) n' out.
Proof.
  intros Hc Ht Hsrc HQ. pose proof (sink_inv_new tx cfg_channels mac Hc Ht) as H0. cbv zeta in H0.
  assert (sk_channels (reac_sink_node_new tx cfg_channels mac) = channels) as Ech.
  { unfold channels. cbn. reac_consts. rewrite Z.gtb_ltb. destruct (Z.ltb_spec 40 cfg_channels); lia. }
  rewrite Ech in H0.
  pose proof (ok_sink_run channels (tx_counter tx) _ quanta [] _ [] ltac:(unfold channels; lia) Hsrc HQ H0) as H.
  apply ok_iff in H as ([n' out] & Hrun & HI). by exists n', out.
Qed.

(** * Properties *)

(** C13: the sink re-blocks the stream.  From a fresh node, whatever the quanta
    (their sizes need not be multiples of 12) and whatever ports are linked,
    the callback runs into no undefined behaviour; with [T] sample times
    received in quanta that have a linked port, exactly [T / 12] frames have
    been emitted and [T mod 12] samples wait in the stage.  Frame [i] is a
    well-formed REAC frame with the [i]-th counter from the transmitter's on, and
    carries for channel [c] and time [s] the code of the input's sample
    [12 * i + s]: no sample is lost, repeated or moved across a quantum
    boundary.  (README.md and DESIGN.md of the bridge still call the sink inert; this
    is what its code does.) *)
Theorem sink_stream tx (cfg_channels : Z) mac quanta
  (Hc : 0 <= cfg_channels) (Ht : 0 <= tx_counter tx < 65536)
  (Hsrc : bytes_upto (tx_src (sk_tx (reac_sink_node_new tx cfg_channels mac))) 6)
  (HQ : Forall (fun q => 0 <= q.2 /\ ins_ok (Z.min cfg_channels 40) q.1 q.2) quanta) :
  let channels := Z.min cfg_channels 40 in
  let cols := input channels quanta in
  let T := Z.of_nat (length cols) in
  exists n' out, sink_run (reac_sink_node_new tx cfg_channels mac) quanta [] = Ok (n', out)
    /\ Z.of_nat (length out) = T / 12 /\ staged n' = T mod 12
    /\ forall i f, out !! i = Some f ->
         well_formed (sf_frame f) 1492 = true
         /\ le16 (sf_frame f) 14 = u16 (tx_counter tx + Z.of_nat i)
         /\ forall c s k, 0 <= c < 40 -> 0 <= s < 12 -> 0 <= k < 3 ->
              get (sf_frame f) (50 + (s * 40 + c) * 3 + k)
              = Some (byte24 (code24 invalid (if c <? channels
                  then column_value cols (12 * Z.of_nat i + s) c else f32_zero)) k).
Proof.
  intros channels cols T.
  destruct (sink_session tx cfg_channels mac quanta Hc Ht Hsrc HQ) as (n' & out & Hrun & HI).
  exists n', out. split; [exact Hrun|].
  destruct HI as (_ & _ & HS & _ & _ & HN & HF & _).
  split; [exact HN|]. split; [exact HS|]. intros i f Hi. destruct (HF i f Hi) as (_ & F1 & F2 & F3).
  split; [exact F1|]. split; [exact F2|exact F3].
Qed.
End SinkNode.

(** two quanta of 7 samples on one channel, the second port unlinked *)
Definition seven (a : Z) : buf f32 := of_list (float24 <$> seqZ a 7).
Definition demo_quanta : list (float_planes * Z) :=
  [([Some (seven 1); None], 7); ([Some (seven 8); None], 7)].

Lemma demo_quanta_ok : Forall (fun q => 0 <= q.2 /\ ins_ok (Z.min 2 40) q.1 q.2) demo_quanta.
Proof.
  assert (forall a, 0 <= a <= 100 -> ins_ok 2 [Some (seven a); None] 7) as H.
  { intros a Ha c s Hc Hs. assert (c = 0 \/ c = 1) as [->| ->] by lia; [|by exists None].
    exists (Some (seven a)). split; [done|]. intros p [= <-].
    exists (float24 (a + s)). split.
    - unfold seven. rewrite get_of_list by lia. rewrite list_lookup_fmap, lookup_seqZ_lt by lia. cbn. do 2 f_equal. lia.
    - apply float24_valid. unfold SMIN, SMAX. lia. }
  repeat constructor; cbn [fst snd]; try lia; apply H; lia.
Qed.

Lemma sink_stream_witness :
  exists n' out, sink_run (L := documented_lib) 0
      (reac_sink_node_new (L := documented_lib) (ReacTx 3 7 (of_list standin) 65535) 2 None) demo_quanta []
    = Ok (n', out) /\ length out = 1%nat /\ staged n' = 2.
Proof.
  destruct (sink_stream (L := documented_lib) 0 (D := documented_lib_doc) (ReacTx 3 7 (of_list standin) 65535) 2 None
    demo_quanta ltac:(lia) ltac:(cbn; lia) ltac:(by apply bytes_of_list) demo_quanta_ok)
    as (n' & out & H1 & H2 & H3 & _).
  exists n', out. split; [exact H1|]. split; [|exact H3].
  exact (Nat2Z.inj _ 1 H2).
Defined.
