(* ===== verification/SourceNode.v ===== *)
(** reac_source_node.c: the realtime callback of the PipeWire source.  One quantum
    per channel is read from the ring into the port buffers, and the feeder's
    rate error is handed to the resampler. *)

From S2P Require Import Prelude LibReac Float32 Ring Rx.

Definition REAC_MAX_QUANTUM : Z := 8192.

(** [struct port]; [rate_match] is the index of the SPA area, [None] for NULL *)
Record port : Type := Port { rate_match : option Z }.

(** [struct reac_source_node], the fields the callbacks use; [scratch] is the
    index of its plane in the consumer's memory *)
Record reac_source_node : Type := SourceNode {
  sn_channels : Z;
  sn_ports : list (option port);
  scratch : Z;
}.

Section SourceNode.
Context {L : ReacLib}.
Implicit Types (n : reac_source_node) (bufs : list (option Z)).

(** [bufs] are the results of [pw_filter_get_dsp_buffer]: plane indices, [None]
    for NULL *)
Definition pick_buffer n (bufs : list (option Z)) (c : Z) (st : buf Z * Z) : res (buf Z * Z) :=
  let '(dst, got_ports) := st in
  match bufs !! Z.to_nat c with
  | None => Err OutOfBounds
  | Some (Some p) => dst ← wr dst c p; g ← int (got_ports + 1); mret (dst, g)
  | Some None => dst ← wr dst c (scratch n); mret (dst, got_ports)
  end.

(** the last loop: the first port with an area gets the rate *)
Fixpoint publish_rate (ports : list (option port)) (rate : f64) (areas : list f64) : list f64 :=
  match ports with
  | [] => areas
  | Some (Port (Some a)) :: _ => <[Z.to_nat a := rate]> areas
  | _ :: ports => publish_rate ports rate areas
  end.

Definition follower_rate (ppm_milli : Z) : f64 :=
  f64_add (f64_of_int 1) (f64_div (f64_of_int ppm_milli) (f64_of_int 1000000000)).

(** [on_process]: [duration] is the cycle's length, [m] the consumer's planes,
    [areas] the SPA rate areas *)
Definition source_on_process n (bufs : list (option Z)) (duration ppm_milli : Z)
  (r : ring f32) (m : planes f32) (areas : list f64) : res (ring f32 * planes f32 * list f64) :=
  let nframes := if duration >? REAC_MAX_QUANTUM then REAC_MAX_QUANTUM else duration in
  '(dst, got_ports) ← for_ 0 (sn_channels n) (pick_buffer n bufs) (undef REAC_MAX_CHANNELS, 0);
  if got_ports =? 0 then mret (r, m, areas) else
  let '(_, r) := reac_ring_trim r (u32 (nframes * 4)) in
  '(_, r, m) ← reac_ring_read_planar f32_zero r dst (u32 (sn_channels n)) nframes m;
  let rate := follower_rate ppm_milli in
  mret (r, m, publish_rate (take (Z.to_nat (sn_channels n)) (sn_ports n)) rate areas).

(** [on_io_changed] for port number [p]: [SPA_IO_RateMatch] and the size of its
    area are PipeWire's *)
Definition on_io_changed (SPA_IO_RateMatch area_size : Z) (p : option nat) (id : Z) (area : option Z) (size : Z)
  n : reac_source_node :=
  match p with
  | None => n
  | Some p =>
      if id =? SPA_IO_RateMatch then
        SourceNode (sn_channels n)
          (alter (fmap (fun _ => Port (if size >=? area_size then area else None))) p (sn_ports n)) (scratch n)
      else n
  end.

(** * Specification *)

(** the plane channel [c] is read into *)
Definition target n (bufs : list (option Z)) (c : Z) : Z :=
  match bufs !! Z.to_nat c with Some (Some p) => p | _ => scratch n end.

Definition linked (bufs : list (option Z)) (c : Z) : Prop :=
  exists p, bufs !! Z.to_nat c = Some (Some p).

(** every channel has an answer, the port buffers are planes of their own that
    hold [nf] samples, and so is the scratch plane *)
Definition bufs_ok n (bufs : list (option Z)) (nf : Z) (m : planes f32) : Prop :=
  0 <= sn_channels n <= Z.of_nat (length bufs)
  /\ (forall c, 0 <= c < sn_channels n -> 0 <= target n bufs c
        /\ exists b, m !! Z.to_nat (target n bufs c) = Some b /\ nf <= blen b)
  /\ (forall c c', 0 <= c < sn_channels n -> 0 <= c' < sn_channels n -> c <> c' ->
        linked bufs c -> target n bufs c <> target n bufs c').

(** the outcome when a port is linked: [drop_] columns trimmed, [real] read *)
Definition served n bufs (nf : Z) (q : queue (F := f32)) (drop_ real : Z) (m : planes f32)
  (r' : ring f32) (m' : planes f32) : Prop :=
  represents r' (q.1 - drop_ - real, fun c => drop (Z.to_nat (drop_ + real)) (q.2 c))
  /\ (forall c p, 0 <= c < 40 -> bufs !! Z.to_nat c = Some (Some p) ->
        plane_holds f32_zero m m' p nf (take (Z.to_nat real) (drop (Z.to_nat drop_) (q.2 c))))
  /\ (forall p : nat, Z.of_nat p <> scratch n ->
        (forall c, 0 <= c < 40 -> bufs !! Z.to_nat c <> Some (Some (Z.of_nat p))) -> m' !! p = m !! p).

#[export] Instance linked_dec (bufs : list (option Z)) c : Decision (linked bufs c).
Proof.
  destruct (bufs !! Z.to_nat c) as [[p|]|] eqn:E; [left; by exists p|right|right];
    intros [p Hp]; congruence.
Defined.

(** * Lemmas *)

Context {D : ReacDoc L}.

(** the pointer array *)
Lemma ok_pick_buffers n bufs (Q : buf Z * Z -> Prop) :
  sn_channels n <= 40 -> 0 <= sn_channels n <= Z.of_nat (length bufs) ->
  (forall dst got, (forall c, 0 <= c < sn_channels n -> get dst c = Some (target n bufs c)) ->
     (got = 0 <-> forall c, 0 <= c < sn_channels n -> ~ linked bufs c) -> Q (dst, got)) ->
  ok (for_ 0 (sn_channels n) (pick_buffer n bufs) (undef REAC_MAX_CHANNELS, 0)) Q.
Proof.
  intros H40 Hch HQ.
  apply ok_for with (P := fun k '(dst, got) => blen dst = 40 /\ 0 <= got <= k
    /\ (forall c, 0 <= c < k -> get dst c = Some (target n bufs c))
    /\ (got = 0 <-> forall c, 0 <= c < k -> ~ linked bufs c)).
  - lia.
  - split; [rewrite blen_undef; reac_consts; lia|]. split; [lia|]. split; [lia|]. split; [lia|done].
  - intros c [dst got] Hc (Hl & Hg & Hd & Hz). unfold pick_buffer.
    assert (is_Some (bufs !! Z.to_nat c)) as [o Ho] by (apply lookup_lt_is_Some; lia).
    assert (target n bufs c = match o with Some p => p | None => scratch n end) as Et
      by (unfold target; by rewrite Ho).
    assert (linked bufs c <-> is_Some o) as Hlk.
    { unfold linked. rewrite Ho. split; [intros [p [= ->]]; eauto|intros [p ->]; eauto]. }
    rewrite Ho. destruct o as [p|]; ok_steps; (split; [by rewrite blen_upd|]); (split; [lia|]); split.
    1,3: intros c' Hc'; rewrite get_upd by lia; case_decide as E; [by rewrite E, Et|apply Hd; lia].
    + split; [lia|]. intros H. destruct (H c ltac:(lia)). apply Hlk. by eexists.
    + rewrite Hz. split; intros H c' Hc'; [|apply H; lia].
      destruct (decide (c' = c)) as [->|]; [|apply H; lia]. rewrite Hlk. by intros [? ?].
  - intros [dst got] (_ & _ & Hd & Hz). by apply HQ.
Qed.

Lemma ok_source n bufs duration ppm_milli r len q m areas :
  represents r (len, q) -> sn_channels n = 40 -> r_channels r = 40 -> 0 <= duration ->
  bufs_ok n bufs (Z.min duration 8192) m ->
  let nf := Z.min duration 8192 in
  let drop_ := len - Z.min (4 * nf) len in
  let real := Z.min (len - drop_) nf in
  ok (source_on_process n bufs duration ppm_milli r m areas) (fun '(r', m', areas') =>
    ((forall c, 0 <= c < 40 -> ~ linked bufs c) /\ r' = r /\ m' = m /\ areas' = areas)
    \/ (exists c, 0 <= c < 40 /\ linked bufs c)
       /\ served n bufs nf (len, q) drop_ real m r' m'
       /\ r_capacity r' = r_capacity r /\ r_channels r' = r_channels r
       /\ areas' = publish_rate (take 40 (sn_ports n)) (follower_rate ppm_milli) areas).
Proof.
  intros (HR & Hf & HH) H40 HC Hdur (Hch & Hpl & Hdis) nf drop_ real. cbn [fst snd] in *.
  pose proof (fill_range r HR) as Hfr. rewrite H40 in *. unfold source_on_process, REAC_MAX_QUANTUM. rewrite H40.
  assert ((if duration >? 8192 then 8192 else duration) = nf) as ->
    by (unfold nf; rewrite Z.gtb_ltb; destruct (Z.ltb_spec 8192 duration); lia).
  assert (0 <= nf <= 8192) as Hnf by (unfold nf; lia). cbv zeta. rewrite <- H40 at 1.
  ok_step. apply ok_pick_buffers; [lia|by rewrite H40|]. rewrite H40. intros dst got Hd Hz.
  destruct (Z.eqb_spec got 0) as [E|N]; [left; split; [by apply Hz|done]|].
  assert (u32 (nf * 4) = 4 * nf) as -> by (unfold u32; rewrite Z.mod_small; lia).
  change (u32 40) with 40.
  pose proof (ring_trim_spec r q (4 * nf) HR HH ltac:(lia)) as HT. cbv zeta in HT.
  destruct (reac_ring_trim r (4 * nf)) as [d r1].
  destruct HT as (-> & HR1 & _ & E1 & E2 & Hf1 & _ & _ & HH1). rewrite Hf in Hf1, HH1. fold drop_ in Hf1, HH1.
  ok_step. eapply ok_read_planar; [exact HR1|exact HH1|lia|rewrite E2; lia| |].
  { rewrite E2, HC. intros c Hc. destruct (Hpl c ltac:(lia)) as (Hp & b & Hb & Hbl).
    exists (target n bufs c), b. split; [apply Hd; lia|done]. }
  rewrite Hf1, E2, HC. fold real. intros r2 m2 HR2 E3 E4 _ Hf2 _ HH2 (_ & _ & HP & HP').
  ok_step. right. split; [|split; [|split; [congruence|split; [congruence|done]]]].
  { destruct (decide (Exists (linked bufs) (seqZ 0 40))) as [HE|HE].
    - apply Exists_exists in HE as (c & Hc%elem_of_seqZ & Hl). exists c. split; [lia|done].
    - destruct N. apply Hz. intros c Hc Hl. apply HE, Exists_exists. exists c.
      split; [apply elem_of_seqZ; lia|done]. }
  split; [|split].
  - split; [done|]. split; [cbn; lia|]. intros c Hc. destruct (HH2 c Hc) as [L1 L2].
    cbn [fst snd]. rewrite Z2Nat.inj_add, <- drop_drop by (unfold real, drop_; lia). by split.
  - intros c p Hc Hp. assert (target n bufs c = p) as <- by (unfold target; by rewrite Hp).
    apply HP; [lia|by apply Hd|]. intros c' Hc' E. rewrite Hd in E by lia. injection E as E.
    apply (Hdis c c'); [lia|lia|lia|by eexists|done].
  - intros p Hs Hp. apply HP'. intros c Hc. rewrite Hd by lia. intros [= E]. unfold target in E.
    destruct (bufs !! Z.to_nat c) as [[p'|]|] eqn:Eb; [|by rewrite E in Hs|by rewrite E in Hs].
    subst p'. by apply (Hp c).
Qed.

(** * Properties *)

(** C18: the source's callback.  With no linked port the ring, the planes and the
    rate areas are untouched.  Otherwise the queue is first trimmed to its
    newest four quanta, then every linked port receives its channel's oldest
    samples, a whole quantum of them, silence standing for what is missing;
    all channels advance together, linked or not, and no other plane but the
    scratch one is written. *)
Theorem source_on_process_correct n bufs (duration ppm_milli : Z) r q m areas
  (HR : represents r q) (H40 : sn_channels n = 40) (HC : r_channels r = 40) (Hdur : 0 <= duration)
  (HB : bufs_ok n bufs (Z.min duration 8192) m) :
  let nf := Z.min duration 8192 in
  let drop_ := q.1 - Z.min (4 * nf) q.1 in
  let real := Z.min (q.1 - drop_) nf in
  exists r' m' areas', source_on_process n bufs duration ppm_milli r m areas = Ok (r', m', areas')
    /\ ((forall c, 0 <= c < 40 -> ~ linked bufs c) -> r' = r /\ m' = m /\ areas' = areas)
    /\ ((exists c, 0 <= c < 40 /\ linked bufs c) ->
          represents r' (q.1 - drop_ - real, fun c => drop (Z.to_nat (drop_ + real)) (q.2 c))
          /\ (forall c p, 0 <= c < 40 -> bufs !! Z.to_nat c = Some (Some p) ->
                plane_holds f32_zero m m' p nf (take (Z.to_nat real) (drop (Z.to_nat drop_) (q.2 c))))
          /\ (forall p : nat, Z.of_nat p <> scratch n ->
                (forall c, 0 <= c < 40 -> bufs !! Z.to_nat c <> Some (Some (Z.of_nat p))) -> m' !! p = m !! p)
          /\ areas' = publish_rate (take 40 (sn_ports n)) (follower_rate ppm_milli) areas).
Proof.
  intros nf drop_ real. destruct q as [len q]. cbn [fst snd] in *.
  assert (ok (source_on_process n bufs duration ppm_milli r m areas) (fun '(r', m', areas') =>
    ((forall c, 0 <= c < 40 -> ~ linked bufs c) /\ r' = r /\ m' = m /\ areas' = areas)
    \/ (exists c, 0 <= c < 40 /\ linked bufs c)
       /\ served n bufs nf (len, q) drop_ real m r' m'
       /\ r_capacity r' = r_capacity r /\ r_channels r' = r_channels r
       /\ areas' = publish_rate (take 40 (sn_ports n)) (follower_rate ppm_milli) areas)) as H
    by (eapply ok_source; eauto).
  apply ok_iff in H as ([[r' m'] areas'] & Hrun & H). exists r', m', areas'. split; [done|].
  destruct H as [(Hno & -> & -> & ->)|((c & Hc & Hl) & (S1 & S2 & S3) & _ & _ & S4)].
  - split; [done|]. intros (c & Hc & Hl). by destruct (Hno c Hc).
  - split; [intros Hno; by destruct (Hno c Hc)|]. done.
Qed.
End SourceNode.

(** port 3 linked, a quantum of 64 on an empty ring: silence *)
Definition demo_node : reac_source_node :=
  SourceNode 40 (replicate 3 (Some (Port None)) ++ [Some (Port (Some 0))] ++ replicate 36 None) 1.
Definition demo_bufs : list (option Z) := replicate 3 None ++ [Some 0] ++ replicate 36 None.

Lemma demo_bufs_ok : bufs_ok demo_node demo_bufs (Z.min 64 8192) [undef 64; undef 64].
Proof.
  assert (forall c, 0 <= c < 40 -> c <> 3 -> target demo_node demo_bufs c = 1) as H1.
  { intros c Hc Hn. unfold target, demo_bufs. destruct (decide (c < 3)).
    - rewrite lookup_app_l by (rewrite length_replicate; lia). by rewrite lookup_replicate_2 by lia.
    - rewrite lookup_app_r by (rewrite length_replicate; lia). rewrite length_replicate.
      rewrite lookup_app_r by (cbn; lia). cbn [length].
      by rewrite lookup_replicate_2 by lia. }
  split; [done|]. split.
  - intros c Hc. change (sn_channels demo_node) with 40 in Hc. destruct (decide (c = 3)) as [->|Hn].
    + split; [done|]. by exists (undef 64).
    + rewrite H1 by done. split; [done|]. by exists (undef 64).
  - intros c c' Hc Hc' Hne Hl. change (sn_channels demo_node) with 40 in *.
    destruct (decide (c = 3)) as [->|Hn]; [by rewrite (H1 c') by lia|].
    destruct Hl as [p Hp]. specialize (H1 c Hc Hn). unfold target in H1. rewrite Hp in H1. subst p.
    apply list_elem_of_lookup_2, elem_of_app in Hp as [Hp|Hp]; [by apply elem_of_replicate in Hp as [? _]|].
    apply elem_of_app in Hp as [Hp|Hp]; [by apply list_elem_of_singleton in Hp|by apply elem_of_replicate in Hp as [? _]].
Qed.

Lemma source_on_process_correct_witness :
  exists r' m' areas', source_on_process (L := documented_lib) demo_node demo_bufs 64 1500 (rx_ring rx48)
      [undef 64; undef 64] [f64_of_int 1] = Ok (r', m', areas')
    /\ plane_holds f32_zero [undef 64; undef 64] m' 0 64 [].
Proof.
  destruct (source_on_process_correct (L := documented_lib) (D := documented_lib_doc) demo_node demo_bufs 64 1500
    (rx_ring rx48) (0, fun _ => []) [undef 64; undef 64] [f64_of_int 1] (proj1 rx48_ok) eq_refl eq_refl ltac:(lia)
    demo_bufs_ok) as (r' & m' & areas' & H1 & _ & H2).
  exists r', m', areas'. split; [exact H1|].
  destruct (H2 ltac:(exists 3; split; [lia|by exists 0])) as (_ & H3 & _).
  exact (H3 3 0 ltac:(lia) eq_refl).
Defined.
