(* ===== verification/Bridge.v ===== *)
(** reac-pw's receive direction as a whole: the feeder thread of reac_rx.c at one
    end of the ring, the cycles of reac_source_node.c at the other.  Their calls
    on the ring are taken whole, one at a time, in any order; that they are a queue
    when interleaved, too, is shown in RingQueue. *)

From Stdlib Require Import Sorted.
From S2P Require Import Prelude LibReac Pcm Decode MediaClock Plc Rtp Pipeline Float32 Samples Ring Rx SourceNode.

(** * The two ends *)

(** the feeder takes an arrival; PipeWire runs a cycle with its answers for the
    port buffers, its length, and the memory they lie in *)
Inductive bridge_event : Type :=
| Arrives (a : arrival)
| Cycle (bufs : list (option Z)) (duration : Z) (m : planes f32).

(** the locals of the feeder with what [struct reac_rx] shares, the rate areas, and
    the memory after each cycle *)
Record bridge_state : Type := Bridge {
  b_loop : loop_state;
  b_areas : list f64;
  b_out : list (planes f32);
}.

Definition with_ring (r : ring f32) (rx : reac_rx) : reac_rx :=
  Rx (rx_cfg rx) r (rx_sample_rate rx) (ppm_error_milli rx) (frames_ok rx) (frames_bad rx) (counter_gaps rx).
Definition with_rx (rx : reac_rx) (l : loop_state) : loop_state :=
  Loop rx (l_ppm l) (l_last_counter l) (l_have_counter l) (l_pcap_first_ts l) (l_wall_first_ns l) (l_targets l).

Section Bridge.
Context {L : ReacLib} (is_reac : buf Z -> Z -> bool) (frame_counter : buf Z -> Z).

Definition bridge_step (mode : reac_mode) (n : reac_source_node) (e : bridge_event) (st : bridge_state)
  : res bridge_state :=
  match e with
  | Arrives a => l ← rx_iteration is_reac frame_counter mode a (b_loop st); mret (Bridge l (b_areas st) (b_out st))
  | Cycle bufs duration m =>
      let rx := l_rx (b_loop st) in
      '(r, m, areas) ← source_on_process n bufs duration (ppm_error_milli rx) (rx_ring rx) m (b_areas st);
      mret (Bridge (with_rx (with_ring r rx) (b_loop st)) areas (b_out st ++ [m]))
  end.

Fixpoint bridge_run (mode : reac_mode) (n : reac_source_node) (es : list bridge_event) (st : bridge_state)
  : res bridge_state :=
  match es with
  | [] => mret st
  | e :: es => st ← bridge_step mode n e st; bridge_run mode n es st
  end.

(** the state [reac_rx_start] leaves: the thread with its fresh locals *)
Definition bridge_start (rx : reac_rx) (areas : list f64) : bridge_state :=
  Bridge (Loop rx ppm_initial 0 false 0 0 []) areas [].

(** * Specification: a queue of sample columns between the two *)

(** frames the feeder hears, and those it decodes *)
Definition heard (a : arrival) : bool := (0 <? a_n a) && is_reac (a_frame a) (a_n a).
Definition accepted (a : arrival) : bool := heard a && well_formed (a_frame a) (a_n a).

(** some port has a buffer *)
Definition any_linked (bufs : list (option Z)) : bool :=
  existsb (fun b => match b with Some _ => true | None => false end) (take 40 bufs).

(** what one cycle takes: the columns dropped, and those handed on *)
Definition cycle_drop (q : queue (F := f32)) (nf : Z) : Z := q.1 - Z.min (4 * nf) q.1.
Definition cycle_real (q : queue (F := f32)) (nf : Z) : Z := Z.min (q.1 - cycle_drop q nf) nf.

Definition cycle_read (q : queue (F := f32)) (bufs : list (option Z)) (nf : Z) : Z -> list f32 :=
  if any_linked bufs then fun c => take (Z.to_nat (cycle_real q nf)) (drop (Z.to_nat (cycle_drop q nf)) (q.2 c)) else fun _ => [].
Definition cycle_left (q : queue (F := f32)) (bufs : list (option Z)) (nf : Z) : queue :=
  if any_linked bufs
  then (q.1 - cycle_drop q nf - cycle_real q nf, fun c => drop (Z.to_nat (cycle_drop q nf + cycle_real q nf)) (q.2 c))
  else q.

(** the queue of [cap - 1] columns: the samples each cycle hands on, channel by
    channel, and what is left *)
Fixpoint bridge_queue (mode : reac_mode) (cap : Z) (es : list bridge_event) (q : queue (F := f32))
  : list (Z -> list f32) * queue (F := f32) :=
  match es with
  | [] => ([], q)
  | Arrives a :: es =>
      bridge_queue mode cap es
        (if accepted a then with_columns q (Z.min (samples_per_pkt mode) (cap - 1 - q.1)) (wire_float mode (a_frame a)) else q)
  | Cycle bufs duration _ :: es =>
      let nf := Z.min duration 8192 in
      let '(reads, q') := bridge_queue mode cap es (cycle_left q bufs nf) in
      (cycle_read q bufs nf :: reads, q')
  end.

(** nothing is refused or trimmed *)
Fixpoint keeps_up (mode : reac_mode) (cap : Z) (es : list bridge_event) (len : Z) : bool :=
  match es with
  | [] => true
  | Arrives a :: es =>
      if accepted a then (len + samples_per_pkt mode <=? cap - 1) && keeps_up mode cap es (len + samples_per_pkt mode)
      else keeps_up mode cap es len
  | Cycle bufs duration _ :: es =>
      let nf := Z.min duration 8192 in
      if any_linked bufs then (len <=? 4 * nf) && keeps_up mode cap es (len - Z.min len nf) else keeps_up mode cap es len
  end.

(** the samples of channel [c] on the wire, frame after frame *)
Definition wire_stream (mode : reac_mode) (es : list bridge_event) (c : Z) : list f32 :=
  flat_map (fun e => match e with
                     | Arrives a => if accepted a then wire_float mode (a_frame a) c <$> seqZ 0 (samples_per_pkt mode) else []
                     | Cycle _ _ _ => []
                     end) es.

(** the frames the rate estimator sees *)
Definition estimated (es : list bridge_event) : list (Z * Z) :=
  omap (fun e => match e with
                 | Arrives a => if heard a then Some (frame_counter (a_frame a), a_now a) else None
                 | Cycle _ _ _ => None
                 end) es.

Definition event_ok (n : reac_source_node) (e : bridge_event) : Prop :=
  match e with
  | Arrives a => bytes_upto (a_frame a) (a_n a)
  | Cycle bufs duration m => 0 <= duration /\ bufs_ok n bufs (Z.min duration 8192) m
  end.

(** the memory after a cycle: every linked port has its channel's samples, then
    silence *)
Definition hands_on (e : bridge_event) (read : Z -> list f32) (m' : planes f32) : Prop :=
  match e with
  | Arrives _ => False
  | Cycle bufs duration m => forall c p, 0 <= c < 40 -> bufs !! Z.to_nat c = Some (Some p) ->
      plane_holds f32_zero m m' p (Z.min duration 8192) (read c)
  end.

Definition is_cycle (e : bridge_event) : bool := match e with Cycle _ _ _ => true | Arrives _ => false end.
Definition cycles (es : list bridge_event) : list bridge_event := filter (fun e => is_cycle e = true) es.

(** * Lemmas *)

Context {D : ReacDoc L}.

(** the estimator looks at the rate only, and sets the error only *)
Lemma update_ppm_view rx rx' st c now rx1 st1 :
  rx_sample_rate rx' = rx_sample_rate rx -> ppm_error_milli rx' = ppm_error_milli rx ->
  update_ppm rx st c now = Ok (rx1, st1) ->
  update_ppm rx' st c now = Ok (set_ppm (ppm_error_milli rx1) rx', st1) /\ rx_sample_rate rx1 = rx_sample_rate rx.
Proof.
  intros E1 E2. unfold update_ppm. rewrite E1.
  set (st' := if have_last st then _ else _). destruct (u64 (now - win_start_ns st') >=? 250000000).
  - destruct (f64_to_int _) as [p|e]; [|done]. cbn [mbind res_bind mret res_ret]. intros [= <- <-]. by split.
  - unfold mret, res_ret. intros [= <- <-]. split; [|done]. rewrite <- E2. by destruct rx'.
Qed.

(** the two ends agree on the queue [q]; the estimator has got to [rxp], [st] *)
Definition bridge_inv (cap : Z) (q : queue (F := f32)) (rxp : reac_rx) (st : ppm_state) (l : loop_state) : Prop :=
  represents (rx_ring (l_rx l)) q /\ r_channels (rx_ring (l_rx l)) = 40 /\ r_capacity (rx_ring (l_rx l)) = cap
  /\ rx_sample_rate (l_rx l) = rx_sample_rate rxp /\ ppm_error_milli (l_rx l) = ppm_error_milli rxp /\ l_ppm l = st.

Lemma inv_range cap q rxp st l : bridge_inv cap q rxp st l ->
  0 <= q.1 <= cap - 1 /\ r_mask (rx_ring (l_rx l)) = cap - 1 /\ fill (rx_ring (l_rx l)) = q.1.
Proof.
  intros ((HR & Hf & _) & _ & <- & _). pose proof (fill_range _ HR). destruct HR as (_ & Em & _). lia.
Qed.

Lemma ok_rx_iteration mode cap q rxp st a l rxp' st' :
  mode_ok mode -> n_channels mode = 40 -> samples_per_pkt mode <= cap - 1 ->
  bridge_inv cap q rxp st l -> bytes_upto (a_frame a) (a_n a) ->
  ppm_run rxp st (if heard a then [(frame_counter (a_frame a), a_now a)] else []) = Ok (rxp', st') ->
  ok (rx_iteration is_reac frame_counter mode a l)
     (bridge_inv cap (if accepted a then with_columns q (Z.min (samples_per_pkt mode) (cap - 1 - q.1)) (wire_float mode (a_frame a)) else q)
        rxp' st').
Proof.
  intros HM H40 Hcap HI HB Hppm. unfold accepted. destruct (heard a) eqn:Hh.
  2: { cbn in Hppm. injection Hppm as <- <-. cbn [andb]. unfold heard in Hh. unfold rx_iteration. cbv zeta.
       match goal with |- ok (if ?b then _ else _) _ => destruct b end; [by ok_step|].
       destruct (Z.leb_spec (a_n a) 0); [by ok_step|].
       rewrite (proj2 (Z.ltb_lt 0 _)) in Hh by lia. cbn [andb] in Hh. rewrite Hh. cbn [negb]. by ok_step. }
  unfold heard in Hh. apply andb_true_iff in Hh as [Hn%Z.ltb_lt Hr]. cbn [ppm_run] in Hppm.
  destruct (update_ppm rxp st (frame_counter (a_frame a)) (a_now a)) as [[rx1 st1]|e] eqn:Hup; [|done].
  injection Hppm as <- <-. unfold rx_iteration. cbv zeta.
  rewrite (proj2 (Z.eqb_neq (a_n a) 0)), andb_false_r, (proj2 (Z.leb_gt (a_n a) 0)), Hr by lia. cbn [negb andb].
  destruct HI as (HR & HC & Hc & Hrate & Herr & Hst).
  set (l1 := account _ _).
  assert (exists rx2, l_rx l1 = rx2 /\ rx_ring rx2 = rx_ring (l_rx l) /\ rx_sample_rate rx2 = rx_sample_rate rxp
    /\ ppm_error_milli rx2 = ppm_error_milli rxp /\ l_ppm l1 = st) as (rx2 & -> & Er & Es & Ee & ->).
  { eexists. split; [done|]. unfold l1, account, pace. repeat case_match; cbn; by repeat split. }
  destruct (update_ppm_view rxp rx2 st _ _ rx1 st1 Es Ee Hup) as [-> Hrate1].
  destruct (inv_range cap q rxp st l ltac:(by repeat (split; [done|]))) as (Hq & Em & Hf).
  do 3 ok_step. apply ok_feed_frame with (q := q); cbn [rx_ring set_ppm]; [done| |done|..].
  - split; cbn [rx_ring set_ppm]; rewrite Er; [done|]. split; [congruence|lia].
  - intros WF. rewrite WF. ok_step. repeat (split; cbn; [congruence|]). done.
  - intros r' WF HR' E1 E2. rewrite WF. ok_step.
    assert (room (set_ppm (ppm_error_milli rx1) rx2) mode = Z.min (samples_per_pkt mode) (cap - 1 - q.1)) as <-
      by (unfold room; cbn [rx_ring set_ppm]; by rewrite Er, Em, Hf).
    cbn in E1, E2. rewrite Er in E1, E2. repeat (split; cbn; [congruence|]). done.
Qed.

(** a cycle with a linked port *)
Lemma any_linked_spec bufs : 40 <= Z.of_nat (length bufs) ->
  if any_linked bufs then exists c, 0 <= c < 40 /\ linked bufs c else forall c, 0 <= c < 40 -> ~ linked bufs c.
Proof.
  intros Hl. unfold any_linked. destruct (existsb _ _) eqn:E.
  - apply existsb_exists in E as ([p|] & Hin & Hp); [|done]. apply list_elem_of_In, list_elem_of_lookup in Hin as [i Hi].
    apply lookup_take_Some in Hi as [Hi Hlt]. exists (Z.of_nat i). split; [lia|]. exists p. by rewrite Nat2Z.id.
  - intros c Hc [p Hp]. assert (true = false) as H; [|done]. rewrite <- E. symmetry. apply existsb_exists.
    exists (Some p). split; [|done]. apply list_elem_of_In, list_elem_of_lookup. exists (Z.to_nat c).
    apply lookup_take_Some. split; [done|lia].
Qed.

Lemma ok_cycle n cap q rxp st l bufs duration m areas :
  sn_channels n = 40 -> bridge_inv cap q rxp st l -> 0 <= duration -> bufs_ok n bufs (Z.min duration 8192) m ->
  let nf := Z.min duration 8192 in
  ok (source_on_process n bufs duration (ppm_error_milli (l_rx l)) (rx_ring (l_rx l)) m areas) (fun '(r', m', areas') =>
    bridge_inv cap (cycle_left q bufs nf) rxp st (with_rx (with_ring r' (l_rx l)) l)
    /\ hands_on (Cycle bufs duration m) (cycle_read q bufs nf) m').
Proof.
  intros Hn HI Hd HB nf. unfold cycle_left, cycle_read. destruct HI as (HR & HC & Hc & Hrate & Herr & Hst).
  destruct HB as (Hch & HB). rewrite Hn in Hch. pose proof (any_linked_spec bufs ltac:(lia)) as Hl.
  destruct q as [len q]. cbn [fst snd] in *.
  eapply ok_mono; [eapply (ok_source n bufs duration _ _ len q); try done; by split; [rewrite Hn|]|].
  intros [[r' m'] areas'] [(Hno & -> & -> & _)|(Hyes & (S1 & S2 & _) & E1 & E2 & _)].
  - destruct (any_linked bufs); [destruct Hl as (c & Hc' & Hl); by destruct (Hno c Hc')|].
    split; [by repeat (split; [done|])|]. intros c p Hc' Hp. destruct (Hno c Hc'). by exists p.
  - destruct (any_linked bufs); [|destruct Hyes as (c & Hc' & Hy); by destruct (Hl c Hc')].
    split; [|exact S2]. split; [exact S1|]. cbn. repeat (split; [congruence|]). done.
Qed.

(** ** The run *)

Context (mode : reac_mode) (n : reac_source_node) (cap : Z).
Context (HM : mode_ok mode) (H40 : n_channels mode = 40) (Hcap : samples_per_pkt mode <= cap - 1) (Hn : sn_channels n = 40).

Lemma ppm_run_estimated a es rxp st :
  ppm_run rxp st (estimated (Arrives a :: es))
  = ('(rx, st) ← ppm_run rxp st (if heard a then [(frame_counter (a_frame a), a_now a)] else []);
     ppm_run rx st (estimated es)).
Proof.
  rewrite <- ppm_run_app. f_equal. unfold estimated. cbn [omap list_omap]. by destruct (heard a).
Qed.

Lemma ok_bridge_run es : forall q rxp st st1 rxp' stp',
  bridge_inv cap q rxp stp' (b_loop st) -> Forall (event_ok n) es ->
  ppm_run rxp stp' (estimated es) = Ok (rxp', st1) ->
  let '(reads, q') := bridge_queue mode cap es q in
  ok (bridge_run mode n es st) (fun st' =>
    bridge_inv cap q' rxp' st1 (b_loop st')
    /\ exists ms, b_out st' = b_out st ++ ms /\ Forall3 hands_on (cycles es) reads ms).
Proof.
  induction es as [|[a|bufs duration m] es IH]; intros q rxp st st1 rxp' stp' HI HE Hppm; cbn [bridge_queue bridge_run].
  - cbn in Hppm. injection Hppm as <- <-. ok_step. split; [done|]. exists []. rewrite app_nil_r. split; [done|constructor].
  - apply Forall_cons_1 in HE as [HB HE]. rewrite ppm_run_estimated in Hppm.
    destruct (ppm_run rxp stp' _) as [[rxp1 stp1]|e] eqn:E1; [|done]. cbn [mbind res_bind] in Hppm.
    pose proof (ok_rx_iteration mode cap q rxp stp' a (b_loop st) rxp1 stp1 HM H40 Hcap HI HB E1) as H.
    set (q1 := if accepted a then _ else _) in *.
    specialize (IH q1 rxp1). destruct (bridge_queue mode cap es q1) as [reads q'].
    ok_step. unfold bridge_step. ok_step. eapply ok_mono; [exact H|]. intros l HI'. ok_step.
    by apply (IH (Bridge l (b_areas st) (b_out st)) st1 rxp' stp1).
  - apply Forall_cons_1 in HE as [[Hd HB] HE]. change (estimated (_ :: es)) with (estimated es) in Hppm.
    pose proof (ok_cycle n cap q rxp stp' (b_loop st) bufs duration m (b_areas st) Hn HI Hd HB) as H. cbv zeta in H.
    specialize (IH (cycle_left q bufs (Z.min duration 8192)) rxp).
    destruct (bridge_queue mode cap es _) as [reads q'].
    ok_step. unfold bridge_step. ok_step. eapply ok_mono; [exact H|]. intros [[r' m'] areas'] [HI' Hon]. ok_step.
    eapply ok_mono; [by apply (IH (Bridge (with_rx (with_ring r' (l_rx (b_loop st))) (b_loop st)) areas' (b_out st ++ [m'])) st1 rxp' stp')|].
    intros st' (HI2 & ms & E & HF). split; [done|]. exists (m' :: ms). cbn [b_out] in E. rewrite <- app_assoc in E. split; [done|].
    by constructor.
Qed.

(** an estimator that overflows takes the feeder with it *)
Lemma update_ppm_fails rx rx' st c now e :
  rx_sample_rate rx' = rx_sample_rate rx -> update_ppm rx st c now = Err e -> update_ppm rx' st c now = Err e.
Proof.
  intros E1. unfold update_ppm. rewrite E1. set (st' := if have_last st then _ else _).
  destruct (u64 (now - win_start_ns st') >=? 250000000); [|done]. by destruct (f64_to_int _).
Qed.

Lemma rx_iteration_fails a q rxp st l e : bridge_inv cap q rxp st l ->
  ppm_run rxp st (if heard a then [(frame_counter (a_frame a), a_now a)] else []) = Err e ->
  rx_iteration is_reac frame_counter mode a l = Err e.
Proof.
  intros (_ & _ & _ & Hrate & _ & Hst). destruct (heard a) eqn:Hh; [|done]. cbn [ppm_run].
  destruct (update_ppm rxp st _ _) as [[]|e'] eqn:Hup; [done|]. intros [= ->].
  unfold heard in Hh. apply andb_true_iff in Hh as [Hn0%Z.ltb_lt Hr]. unfold rx_iteration. cbv zeta.
  rewrite (proj2 (Z.eqb_neq (a_n a) 0)), andb_false_r, (proj2 (Z.leb_gt (a_n a) 0)), Hr by lia. cbn [negb].
  set (l1 := account _ _).
  assert (l_ppm l1 = st /\ rx_sample_rate (l_rx l1) = rx_sample_rate rxp) as [-> Hr1]
    by (unfold l1, account, pace; repeat case_match; cbn; by split).
  by rewrite (update_ppm_fails rxp (l_rx l1) _ _ _ _ Hr1 Hup).
Qed.

Lemma bridge_run_fails es : forall q rxp st stp e,
  bridge_inv cap q rxp stp (b_loop st) -> Forall (event_ok n) es ->
  ppm_run rxp stp (estimated es) = Err e -> bridge_run mode n es st = Err e.
Proof.
  induction es as [|[a|bufs duration m] es IH]; intros q rxp st stp e HI HE Hppm; [done|..];
    apply Forall_cons_1 in HE as [HB HE]; cbn [bridge_run]; unfold bridge_step.
  - rewrite ppm_run_estimated in Hppm.
    destruct (ppm_run rxp stp (if heard a then _ else _)) as [[rxp1 stp1]|e1] eqn:E1; cbn [mbind res_bind] in Hppm.
    + pose proof (ok_rx_iteration mode cap q rxp stp a (b_loop st) rxp1 stp1 HM H40 Hcap HI HB E1) as H.
      apply ok_iff in H as (l & -> & HI'). cbn [mbind res_bind mret res_ret]. by eapply (IH _ rxp1 (Bridge l _ _)).
    + injection Hppm as ->. by rewrite (rx_iteration_fails a q rxp stp (b_loop st) e HI E1).
  - destruct HB as [Hd HB]. change (estimated (_ :: es)) with (estimated es) in Hppm.
    pose proof (ok_cycle n cap q rxp stp (b_loop st) bufs duration m (b_areas st) Hn HI Hd HB) as H.
    apply ok_iff in H as ([[r' m'] areas'] & -> & HI' & _). cbn [mbind res_bind mret res_ret].
    by eapply (IH _ rxp (Bridge _ _ _)).
Qed.

(** while the consumer keeps up, what is handed on and what waits is the stream *)
Lemma keeps_up_stream es c : Forall (event_ok n) es -> forall q,
  Z.of_nat (length (q.2 c)) = q.1 -> keeps_up mode cap es q.1 = true ->
  let '(reads, q') := bridge_queue mode cap es q in
  concat ((fun r => r c) <$> reads) ++ q'.2 c = q.2 c ++ wire_stream mode es c.
Proof.
  pose proof HM as (_ & HM2 & _).
  induction 1 as [|[a|bufs duration m] es HB HE IH]; intros q Hlen HK; cbn [bridge_queue keeps_up] in *.
  - cbn. by rewrite app_nil_r.
  - change (wire_stream mode (Arrives a :: es) c)
      with ((if accepted a then wire_float mode (a_frame a) c <$> seqZ 0 (samples_per_pkt mode) else []) ++ wire_stream mode es c).
    destruct (accepted a); [|by apply IH]. apply andb_true_iff in HK as [Hr%Z.leb_le HK]. rewrite Z.min_l by lia.
    set (q1 := with_columns q _ _). specialize (IH q1). destruct (bridge_queue mode cap es q1) as [reads q'].
    rewrite IH; [by rewrite app_assoc| |done]. unfold q1; cbn [with_columns fst snd].
    rewrite length_app, length_fmap, length_seqZ. lia.
  - destruct HB as [Hd _]. change (wire_stream mode (_ :: es) c) with (wire_stream mode es c).
    set (nf := Z.min duration 8192) in *. unfold cycle_left, cycle_read. destruct (any_linked bufs).
    2: { specialize (IH q Hlen HK). by destruct (bridge_queue mode cap es q). }
    apply andb_true_iff in HK as [Hl%Z.leb_le HK].
    assert (cycle_drop q nf = 0) as -> by (unfold cycle_drop; lia).
    assert (cycle_real q nf = Z.min q.1 nf) as -> by (unfold cycle_real, cycle_drop; lia).
    set (q1 := (_ : Z, _)). specialize (IH q1). destruct (bridge_queue mode cap es q1) as [reads q'].
    cbn [fmap list_fmap concat]. rewrite <- app_assoc, IH.
    + unfold q1; cbn [snd]. rewrite app_assoc. f_equal. rewrite Z.add_0_l. apply take_drop.
    + unfold q1; cbn [fst snd]. rewrite length_drop. lia.
    + unfold q1; cbn [fst]. by rewrite Z.sub_0_r.
Qed.
End Bridge.

(** a receiver just opened *)
Lemma reac_rx_open_error {L : ReacLib} cfg detected rx : reac_rx_open cfg detected true = Some rx -> ppm_error_milli rx = 0.
Proof.
  unfold reac_rx_open. intros H. match type of H with (_ ← ?o; _) = _ => destruct o as [rate|] end; [|done]. cbn in H.
  by injection H as <-.
Qed.

Lemma bridge_ready {L : ReacLib} {D : ReacDoc L} cfg detected rx areas
  (mode := reac_mode_for (rx_sample_rate rx)) (cap := r_capacity (rx_ring rx)) :
  reac_rx_open cfg detected true = Some rx -> 64 <= rx_sample_rate rx <= INT_MAX ->
  mode_ok mode /\ n_channels mode = 40 /\ samples_per_pkt mode <= cap - 1
  /\ bridge_inv cap (0, fun _ => []) rx ppm_initial (b_loop (bridge_start rx areas)).
Proof.
  intros Hopen Hrate. destruct (reac_rx_open_ok cfg detected rx Hopen ltac:(lia)) as (HR & HC & Hc). fold cap in Hc.
  pose proof (Z.div_le_mono 64 (rx_sample_rate rx) 4 ltac:(lia) ltac:(lia)) as Hd. change (64 / 4) with 16 in Hd.
  assert (samples_per_pkt mode = 12) as H12 by apply doc_mode_samples.
  split; [apply reac_mode_for_ok|]. split; [apply doc_mode_channels|]. split; [rewrite H12; lia|]. by repeat (split; [done|]).
Qed.

(** while the estimator has a result, the events run as the queue says *)
Lemma bridge_run_queue {L : ReacLib} {D : ReacDoc L} is_reac frame_counter cfg detected rx areas n es
  (mode := reac_mode_for (rx_sample_rate rx)) (cap := r_capacity (rx_ring rx)) :
  reac_rx_open cfg detected true = Some rx -> 64 <= rx_sample_rate rx <= INT_MAX -> sn_channels n = 40 -> Forall (event_ok n) es ->
  forall rxp stp, ppm_run rx ppm_initial (estimated is_reac frame_counter es) = Ok (rxp, stp) ->
  let '(reads, q') := bridge_queue is_reac mode cap es (0, fun _ => []) in
  exists st', bridge_run is_reac frame_counter mode n es (bridge_start rx areas) = Ok st'
    /\ represents (rx_ring (l_rx (b_loop st'))) q' /\ ppm_error_milli (l_rx (b_loop st')) = ppm_error_milli rxp
    /\ l_ppm (b_loop st') = stp
    /\ Forall3 hands_on (cycles es) reads (b_out st')
    /\ (keeps_up is_reac mode cap es 0 = true ->
        forall c, 0 <= c < 40 -> concat ((fun r => r c) <$> reads) ++ q'.2 c = wire_stream is_reac mode es c).
Proof.
  intros Hopen Hrate Hn HE rxp stp Hppm. destruct (bridge_ready cfg detected rx areas Hopen Hrate) as (HM & H40 & Hcap & HI).
  fold mode cap in HM, H40, Hcap, HI.
  pose proof (ok_bridge_run is_reac frame_counter mode n cap HM H40 Hcap Hn es _ rx (bridge_start rx areas) stp rxp
    ppm_initial HI HE Hppm) as H.
  pose proof (fun c => keeps_up_stream is_reac mode n cap HM es c HE (0, fun _ => []) eq_refl) as HS.
  destruct (bridge_queue is_reac mode cap es _) as [reads q'].
  apply ok_iff in H as (st' & Hrun & (H1 & _ & _ & _ & H5 & H6) & ms & E & HF).
  exists st'. split; [done|]. split; [done|]. split; [done|]. split; [done|]. cbn [bridge_start b_out app] in E. rewrite E. split; [done|].
  intros HK c _. by apply HS.
Qed.

(** on a stream that keeps its pace it has *)
Lemma bridge_ppm {L : ReacLib} {D : ReacDoc L} cfg detected rx heard_ :
  reac_rx_open cfg detected true = Some rx -> 64 <= rx_sample_rate rx <= 768000 ->
  Sorted (paced (rx_sample_rate rx / 12)) heard_ ->
  Forall (fun f => 0 <= f.1 < 65536 /\ 0 <= f.2 < 18446744073709551616) heard_ ->
  exists rxp stp, ppm_run rx ppm_initial heard_ = Ok (rxp, stp) /\ Z.abs (ppm_error_milli rxp) <= 2000000000 /\ ppm_typed stp.
Proof.
  intros Hopen Hrate Hpace Hheard.
  pose proof (ppm_run_sound (rx_sample_rate rx) ltac:(lia) rx heard_ eq_refl Hpace Hheard) as H.
  apply ok_iff in H as ([rxp stp] & Hppm & e & -> & He & HT). eexists _, stp. split; [exact Hppm|].
  cbn [ppm_error_milli set_ppm]. split; [|done]. destruct He as [->|]; [|done].
  by rewrite (reac_rx_open_error cfg detected rx Hopen).
Qed.

(** * Properties *)

(** C9: reac-pw's receive direction, from the wire to the ports.  Start from a
    receiver that [reac_rx_open] has just opened, and let arrivals and PipeWire
    cycles come in any order.  The ports receive what a queue of sample columns
    hands on: an accepted frame appends its 12 columns, as far as they fit the
    ring; a cycle with a linked port drops the oldest columns beyond four quanta,
    hands on up to a quantum of the rest and fills the ports with silence; one
    without leaves the queue alone.  While the cycles keep up, nothing is lost,
    doubled or reordered: on every channel the samples handed on, then those
    waiting, are the samples of the accepted frames.  The only undefined behaviour
    is that of the rate estimator, which depends on the counters and the arrival
    times alone. *)
Theorem bridge_stream {L : ReacLib} {D : ReacDoc L} is_reac frame_counter cfg detected rx areas n es
  (mode := reac_mode_for (rx_sample_rate rx)) (cap := r_capacity (rx_ring rx))
  (Hopen : reac_rx_open cfg detected true = Some rx) (Hrate : 64 <= rx_sample_rate rx <= INT_MAX)
  (Hn : sn_channels n = 40) (HE : Forall (event_ok n) es) :
  match ppm_run rx ppm_initial (estimated is_reac frame_counter es) with
  | Err e => bridge_run is_reac frame_counter mode n es (bridge_start rx areas) = Err e
  | Ok (rxp, _) =>
      let '(reads, q') := bridge_queue is_reac mode cap es (0, fun _ => []) in
      exists st', bridge_run is_reac frame_counter mode n es (bridge_start rx areas) = Ok st'
        /\ represents (rx_ring (l_rx (b_loop st'))) q' /\ ppm_error_milli (l_rx (b_loop st')) = ppm_error_milli rxp
        /\ Forall3 hands_on (cycles es) reads (b_out st')
        /\ (keeps_up is_reac mode cap es 0 = true ->
            forall c, 0 <= c < 40 -> concat ((fun r => r c) <$> reads) ++ q'.2 c = wire_stream is_reac mode es c)
  end.
Proof.
  destruct (ppm_run rx ppm_initial _) as [[rxp stp]|e] eqn:Hppm.
  - pose proof (bridge_run_queue is_reac frame_counter cfg detected rx areas n es Hopen Hrate Hn HE rxp stp Hppm) as H.
    fold mode cap in H. destruct (bridge_queue is_reac mode cap es _) as [reads q'].
    destruct H as (st' & H1 & H2 & H3 & _ & H4 & H5). by exists st'.
  - destruct (bridge_ready cfg detected rx areas Hopen Hrate) as (HM & H40 & Hcap & HI). by eapply bridge_run_fails.
Qed.

(** C10: the receive direction never meets an undefined operation on a stream that
    keeps its pace.  Whatever PipeWire does in between, and whatever else arrives,
    when the counters of the frames heard never advance faster than twice the
    nominal rate on a clock that does not go back, every arrival and every cycle
    has a result; the published rate error is within 2000000 ppm, an [int]; and
    the estimator's state stays inside its C types. *)
Theorem bridge_defined {L : ReacLib} {D : ReacDoc L} is_reac frame_counter cfg detected rx areas n es
  (mode := reac_mode_for (rx_sample_rate rx)) (heard_ := estimated is_reac frame_counter es)
  (Hopen : reac_rx_open cfg detected true = Some rx) (Hrate : 64 <= rx_sample_rate rx <= 768000)
  (Hn : sn_channels n = 40) (HE : Forall (event_ok n) es)
  (Hpace : Sorted (paced (rx_sample_rate rx / 12)) heard_)
  (Hheard : Forall (fun f => 0 <= f.1 < 65536 /\ 0 <= f.2 < 18446744073709551616) heard_) :
  exists st', bridge_run is_reac frame_counter mode n es (bridge_start rx areas) = Ok st'
    /\ Z.abs (ppm_error_milli (l_rx (b_loop st'))) <= 2000000000 /\ ppm_typed (l_ppm (b_loop st')).
Proof.
  destruct (bridge_ppm cfg detected rx heard_ Hopen Hrate Hpace Hheard) as (rxp & stp & Hppm & He & HT).
  pose proof (bridge_run_queue is_reac frame_counter cfg detected rx areas n es Hopen ltac:(unfold INT_MAX; lia) Hn HE _ stp Hppm) as H.
  fold mode in H. destruct (bridge_queue is_reac mode _ es _) as [reads q'].
  destruct H as (st' & H1 & _ & H3 & H4 & _). exists st'. split; [done|]. by rewrite H3, H4.
Qed.

(** ** Witness *)

(** a frame, a cycle of 64 samples with port 3 linked, a foreign frame, an unlinked cycle *)
Definition demo_arrival (frame : buf Z) (n now : Z) : arrival := Arrival n frame 0 0 now.
Definition demo_bridge_events : list bridge_event :=
  [Arrives (demo_arrival ramp_frame 1492 1000); Cycle demo_bufs 64 [undef 64; undef 64];
   Arrives (demo_arrival (of_list [1; 2; 3]) 3 2000); Arrives (demo_arrival ramp_frame 1492 3000);
   Cycle (replicate 40 None) 64 [undef 64; undef 64]].
Definition demo_is_reac (b : buf Z) (n : Z) : bool := 16 <=? n.
Definition demo_counter (b : buf Z) : Z := 7.

(** a receiver with the smallest ring the theorem allows *)
Definition rx64 : reac_rx :=
  default (Rx (RxCfg REAC_RX_PCAP 64 1) (Ring _ [] 0 0 0 0 0 0 0) 0 0 0 0 0)
    (reac_rx_open (L := documented_lib) (RxCfg REAC_RX_PCAP 64 1) None true).

Lemma demo_bridge_events_ok : Forall (event_ok demo_node) demo_bridge_events.
Proof.
  apply Forall_cons. split; [exact ramp_frame_bytes|]. apply Forall_cons. split; [split; [lia|exact demo_bufs_ok]|].
  apply Forall_cons. split.
  { intros i Hi. cbn [a_frame a_n demo_arrival] in *. rewrite get_of_list by lia. assert (i = 0 \/ i = 1 \/ i = 2) as [->|[->| ->]] by (cbn in Hi; lia); eexists; split; done || lia. }
  apply Forall_cons. split; [exact ramp_frame_bytes|]. apply Forall_singleton. split; [lia|].
  assert (forall c, target demo_node (replicate 40 None) c = 1) as H1.
  { intros c. unfold target. destruct (replicate 40 None !! Z.to_nat c) as [[]|] eqn:E; [|done..].
    by apply lookup_replicate in E as [? _]. }
  split; [done|]. split.
  - intros c Hc. rewrite H1. split; [done|]. by exists (undef 64).
  - intros c c' _ _ _ [p Hp]. by apply lookup_replicate in Hp as [? _].
Qed.

Lemma bridge_stream_witness :
  exists st' reads (q' : queue (F := f32)), bridge_run (L := documented_lib) demo_is_reac demo_counter mode48 demo_node demo_bridge_events
      (bridge_start rx64 [f64_of_int 1]) = Ok st'
    /\ Forall3 (hands_on) (cycles demo_bridge_events) reads (b_out st')
    /\ forall c, 0 <= c < 40 -> concat ((fun r => r c) <$> reads) ++ q'.2 c
         = wire_stream (L := documented_lib) demo_is_reac mode48 demo_bridge_events c.
Proof.
  pose proof (bridge_stream (L := documented_lib) (D := documented_lib_doc) demo_is_reac demo_counter (RxCfg REAC_RX_PCAP 64 1) None
    rx64 [f64_of_int 1] demo_node demo_bridge_events eq_refl ltac:(split; by vm_compute) eq_refl demo_bridge_events_ok) as H.
  assert (ppm_run (L := documented_lib) rx64 ppm_initial (estimated demo_is_reac demo_counter demo_bridge_events)
    = Ok (rx64, Ppm 1000 65536 7 true)) as E by (by vm_compute).
  rewrite E in H. clear E.
  destruct (bridge_queue _ _ _ _ _) as [reads q']. destruct H as (st' & H1 & _ & _ & H2 & H3).
  exists st', reads, q'. split; [exact H1|]. split; [exact H2|]. apply H3. by vm_compute.
Defined.

(** two frames 300 ms apart, their counters one apart, and a cycle between them *)
Definition numbered_frame (k : Z) : buf Z := upd ramp_frame 14 k.
Definition paced_events : list bridge_event :=
  [Arrives (demo_arrival (numbered_frame 3) 1492 1000000); Cycle demo_bufs 64 [undef 64; undef 64];
   Arrives (demo_arrival (numbered_frame 4) 1492 301000000)].
Definition byte_counter (b : buf Z) : Z := default 0 (get b 14).

Lemma numbered_frame_bytes k : 0 <= k < 256 -> bytes_upto (numbered_frame k) 1492.
Proof.
  intros Hk i Hi. unfold numbered_frame. assert (blen ramp_frame = 1492) as Hb by (by vm_compute).
  rewrite get_upd by lia. case_decide; [by exists k|]. by apply ramp_frame_bytes.
Qed.

Lemma paced_events_ok : Forall (event_ok demo_node) paced_events.
Proof.
  apply Forall_cons. split; [by apply numbered_frame_bytes|]. apply Forall_cons. split; [split; [lia|exact demo_bufs_ok]|].
  apply Forall_singleton. by apply numbered_frame_bytes.
Qed.

Lemma bridge_defined_witness :
  exists st', bridge_run (L := documented_lib) demo_is_reac byte_counter mode48 demo_node paced_events
      (bridge_start rx64 [f64_of_int 1]) = Ok st'
    /\ Z.abs (ppm_error_milli (l_rx (b_loop st'))) <= 2000000000
    /\ estimated demo_is_reac byte_counter paced_events = [(3, 1000000); (4, 301000000)].
Proof.
  assert (estimated demo_is_reac byte_counter paced_events = [(3, 1000000); (4, 301000000)]) as E by (by vm_compute).
  destruct (bridge_defined (L := documented_lib) (D := documented_lib_doc) demo_is_reac byte_counter (RxCfg REAC_RX_PCAP 64 1) None
    rx64 [f64_of_int 1] demo_node paced_events eq_refl ltac:(split; by vm_compute) eq_refl paced_events_ok)
    as (st' & H1 & H2 & _).
  - rewrite E. apply Sorted_cons; [apply Sorted_cons; [apply Sorted_nil|apply HdRel_nil]|]. apply HdRel_cons. split; [|by vm_compute].
    split; by vm_compute.
  - rewrite E. apply Forall_cons. split; [cbn; lia|]. apply Forall_singleton. cbn. lia.
  - exists st'. split; [exact H1|]. split; [exact H2|exact E].
Defined.
