(* ===== verification/Relay.v ===== *)
(** Two reac-pw processes and the wire between them: what applications play into the
    sink node of one comes out of the ports of the source node of the other.  Composes
    [SinkNode], with the transmitter and the conversion to 24 bits, and [Bridge], the
    receiver, its ring, and the cycles of the source node. *)

From Stdlib Require Import Sorted.
From S2P Require Import Prelude LibReac Pcm Decode Float32 Samples Tx Ring Rx Loopback SinkNode SourceNode Bridge.

Section Relay.
Context {L : ReacLib} {D : ReacDoc L} (invalid : Z) (is_reac : buf Z -> Z -> bool).

(** the frames the receiver decodes, in the order of their arrival *)
Definition carried (es : list bridge_event) : list (buf Z) :=
  omap (fun e => match e with
                 | Arrives a => if accepted is_reac a then Some (a_frame a) else None
                 | Cycle _ _ _ => None
                 end) es.

(** each is a frame the sink has sent: what arrives is a selection of the frames, some
    perhaps lost, doubled or late *)
Definition sent_as (out : list sent_frame) (idx : list nat) (frames : list (buf Z)) : Prop :=
  Forall2 (fun i b => exists f, out !! i = Some f /\ b = sf_frame f) idx frames.

(** what the receiver hears for time [t] of channel [c] of the sink's input; channels
    that the sink does not have are silent *)
Definition relay_value (channels : Z) (cols : list (Z -> f32)) (c t : Z) : f32 :=
  Loopback.heard invalid (if c <? channels then column_value cols t c else f32_zero).

(** the twelve sample times of each frame that arrives *)
Definition relayed (channels : Z) (cols : list (Z -> f32)) (idx : list nat) (c : Z) : list f32 :=
  flat_map (fun i => relay_value channels cols c <$> seqZ (12 * Z.of_nat i) 12) idx.

(** * Lemmas *)

Lemma wire_stream_carried mode es c :
  wire_stream is_reac mode es c = flat_map (fun b => wire_float mode b c <$> seqZ 0 (samples_per_pkt mode)) (carried es).
Proof.
  induction es as [|[a|bufs duration m] es IH]; [done| |done].
  unfold wire_stream, carried in *. cbn [flat_map omap list_omap]. rewrite IH. by destruct (accepted is_reac a).
Qed.

(** one frame *)
Lemma stream_frame_float mode channels c0 cols i b c :
  n_channels mode = 40 -> samples_per_pkt mode = 12 -> 0 <= c < 40 ->
  (forall t, c < channels -> column_value cols t c <> S754_nan) ->
  stream_frame invalid channels c0 cols i b ->
  wire_float mode b c <$> seqZ 0 (samples_per_pkt mode) = relay_value channels cols c <$> seqZ (12 * i) 12.
Proof.
  intros E1 E2 Hc Hnan (_ & _ & _ & HB). rewrite E2.
  rewrite <- (Z.add_0_r (12 * i)), <- fmap_add_seqZ, <- list_fmap_compose.
  apply list_fmap_ext. intros j s Hs. apply lookup_seqZ in Hs as [-> Hs]. cbn [compose].
  apply wire_float_code; [done|done| |].
  - apply code24_range. destruct (Z.ltb_spec c channels); [by apply Hnan|done].
  - intros k Hk. by rewrite HB by lia.
Qed.

(** frames that arrive are some of those the sink has sent *)
Lemma relayed_wire mode channels c0 cols out idx frames c :
  n_channels mode = 40 -> samples_per_pkt mode = 12 -> 0 <= c < 40 ->
  (forall t, c < channels -> column_value cols t c <> S754_nan) ->
  (forall i f, out !! i = Some f -> stream_frame invalid channels c0 cols (Z.of_nat i) (sf_frame f)) ->
  sent_as out idx frames ->
  flat_map (fun b => wire_float mode b c <$> seqZ 0 (samples_per_pkt mode)) frames = relayed channels cols idx c.
Proof.
  intros E1 E2 Hc Hnan HF. induction 1 as [|i b idx frames (f & Hi & ->) _ IH]; [done|].
  cbn [flat_map]. unfold relayed in *. cbn [flat_map]. rewrite IH. f_equal.
  eapply stream_frame_float; [done..|]. by apply HF.
Qed.

(** all of them *)
Lemma sent_all out : sent_as out (seq 0 (length out)) (sf_frame <$> out).
Proof.
  unfold sent_as. apply Forall2_same_length_lookup. split; [by rewrite length_seq, length_fmap|].
  intros j i b Hj Hb. apply lookup_seq in Hj as [-> _]. apply list_lookup_fmap_Some in Hb as (f & -> & Hf). by exists f.
Qed.

Lemma relayed_all channels cols m c :
  relayed channels cols (seq 0 m) c = relay_value channels cols c <$> seqZ 0 (12 * Z.of_nat m).
Proof.
  induction m as [|m IH]; [done|]. unfold relayed in *. rewrite seq_S, flat_map_app, IH. cbn [flat_map].
  rewrite app_nil_r, <- fmap_app, Nat.add_0_l. f_equal.
  replace (12 * Z.of_nat (S m)) with (12 * Z.of_nat m + 12) by lia. rewrite seqZ_app by lia. by rewrite Z.add_0_l.
Qed.
End Relay.

(** * Properties *)

(** C8: reac-pw at both ends of the wire.  Whatever applications play into a fresh
    sink (quanta of any sizes, any ports linked, no NaN), whatever of its frames reach
    a receiver just opened, among other traffic and in any order with the cycles of
    PipeWire there, as long as the frame counters keep their pace: neither side meets
    an undefined operation, and when the cycles keep up the ports are handed, on every
    channel and then in the ring, exactly the twelve sample times of each frame that
    arrived, in that order.  When the wire loses nothing this is the sink's input, up
    to the samples still in its stage, each sample as the float of its 24-bit code, so
    that a sample that is one already arrives bit for bit.  (This is the transmitting
    sink of reac_sink_node.c, which README.md and DESIGN.md do not know yet.) *)
Theorem relay_stream {L : ReacLib} {D : ReacDoc L} invalid tx (cfg_channels : Z) mac quanta
  is_reac frame_counter cfg detected rx areas n es
  (channels := Z.min cfg_channels 40) (cols := input channels quanta) (T := Z.of_nat (length cols))
  (mode := reac_mode_for (rx_sample_rate rx)) (cap := r_capacity (rx_ring rx))
  (Hc : 0 <= cfg_channels) (Ht : 0 <= tx_counter tx < 65536)
  (Hsrc : bytes_upto (tx_src (sk_tx (reac_sink_node_new tx cfg_channels mac))) 6)
  (HQ : Forall (fun q => 0 <= q.2 /\ ins_ok channels q.1 q.2) quanta)
  (Hnan : forall c t, 0 <= c < channels -> column_value cols t c <> S754_nan)
  (Hopen : reac_rx_open cfg detected true = Some rx) (Hrate : 64 <= rx_sample_rate rx <= 768000)
  (Hn : sn_channels n = 40) (HE : Forall (event_ok n) es)
  (Hpace : Sorted (paced (rx_sample_rate rx / 12)) (estimated is_reac frame_counter es))
  (Hheard : Forall (fun f => 0 <= f.1 < 65536 /\ 0 <= f.2 < 18446744073709551616) (estimated is_reac frame_counter es)) :
  let '(reads, q') := bridge_queue is_reac mode cap es (0, fun _ => []) in
  exists n' out st', sink_run invalid (reac_sink_node_new tx cfg_channels mac) quanta [] = Ok (n', out)
    /\ Z.of_nat (length out) = T / 12
    /\ bridge_run is_reac frame_counter mode n es (bridge_start rx areas) = Ok st'
    /\ Forall3 hands_on (cycles es) reads (b_out st')
    /\ (keeps_up is_reac mode cap es 0 = true -> forall c, 0 <= c < 40 ->
          (forall idx, sent_as out idx (carried is_reac es) ->
             concat ((fun r => r c) <$> reads) ++ q'.2 c = relayed invalid channels cols idx c)
          /\ (carried is_reac es = sf_frame <$> out ->
             concat ((fun r => r c) <$> reads) ++ q'.2 c = relay_value invalid channels cols c <$> seqZ 0 (12 * (T / 12))))
    /\ (forall c t x, 0 <= c < channels -> SMIN <= x <= SMAX -> column_value cols t c = float24 x ->
          relay_value invalid channels cols c t = float24 x).
Proof.
  destruct (sink_session invalid tx cfg_channels mac quanta Hc Ht Hsrc HQ) as (n' & out & Hsink & HI).
  fold channels cols in HI. destruct HI as (_ & _ & _ & _ & _ & HN & HF & _).
  destruct (bridge_ppm cfg detected rx _ Hopen Hrate Hpace Hheard) as (rxp & stp & Hppm & _).
  pose proof (bridge_run_queue is_reac frame_counter cfg detected rx areas n es Hopen ltac:(unfold INT_MAX; lia) Hn HE _ stp Hppm) as H.
  fold mode cap in H. destruct (bridge_queue is_reac mode cap es _) as [reads q'].
  destruct H as (st' & H1 & _ & _ & _ & H4 & H5). exists n', out, st'.
  split; [exact Hsink|]. split; [exact HN|]. split; [exact H1|]. split; [exact H4|]. split.
  - intros HK c Hcc. rewrite H5, wire_stream_carried by done.
    assert (forall idx, sent_as out idx (carried is_reac es) ->
      flat_map (fun b => wire_float mode b c <$> seqZ 0 (samples_per_pkt mode)) (carried is_reac es)
      = relayed invalid channels cols idx c) as HW.
    { intros idx. eapply relayed_wire; [apply doc_mode_channels|apply doc_mode_samples|done| |exact HF].
      intros t Hlt. apply Hnan. lia. }
    split; [done|]. intros E. rewrite (HW (seq 0 (length out))) by (rewrite E; apply sent_all).
    rewrite relayed_all, HN. done.
  - intros c t x Hcc Hx E. unfold relay_value. rewrite (proj2 (Z.ltb_lt c channels)), E by lia.
    unfold Loopback.heard. by rewrite code24_float24.
Qed.

(** ** Witness *)

(** the frame made of two quanta of 7 samples goes to the receiver, which has a cycle
    with port 3 linked after it *)
Definition demo_tx : reac_tx := ReacTx 3 7 (of_list standin) 65535.
Definition demo_sink_run : res (reac_sink_node * list sent_frame) :=
  sink_run (L := documented_lib) 0 (reac_sink_node_new (L := documented_lib) demo_tx 2 None) demo_quanta [].
Definition frames_of (r : res (reac_sink_node * list sent_frame)) : list (buf Z) :=
  match r with Ok (_, out) => sf_frame <$> out | Err _ => [] end.
Definition relay_frames : list (buf Z) := frames_of demo_sink_run.
Definition demo_relay_events : list bridge_event :=
  ((fun f => Arrives (demo_arrival f 1492 1000000)) <$> relay_frames) ++ [Cycle demo_bufs 64 [undef 64; undef 64]].

Lemma relay_frames_bytes : Forall (fun b => bytes_upto b 1492) relay_frames.
Proof.
  assert (relay_frames = [of_list (omap id (default [] (head relay_frames)))]) as -> by (by vm_compute).
  apply Forall_singleton. by apply bytes_of_list; vm_compute.
Qed.

Lemma demo_relay_events_ok : Forall (event_ok demo_node) demo_relay_events.
Proof.
  apply Forall_app. split; [|apply Forall_singleton; split; [lia|exact demo_bufs_ok]].
  apply Forall_fmap. eapply Forall_impl; [exact relay_frames_bytes|]. by intros b Hb.
Qed.

(** what reaches the stage *)
Definition demo_input : list (Z -> f32) := input (Z.min 2 40) demo_quanta.

Lemma demo_input_no_nan c t : 0 <= c < Z.min 2 40 -> column_value demo_input t c <> S754_nan.
Proof.
  intros Hc. change (Z.min 2 40) with 2 in Hc. assert (forallb (fun col => match col 0, col 1 with S754_nan, _ | _, S754_nan => false | _, _ => true end)
    demo_input = true) as H by (by vm_compute).
  rewrite forallb_forall in H. unfold column_value. destruct (demo_input !! Z.to_nat t) as [col|] eqn:E; [|done].
  specialize (H col (proj1 (list_elem_of_In _ _) (list_elem_of_lookup_2 _ _ _ E))).
  assert (c = 0 \/ c = 1) as [->| ->] by lia; destruct (col 0), (col 1); done.
Qed.

Lemma demo_tx_bytes : bytes_upto (tx_src (sk_tx (reac_sink_node_new (L := documented_lib) demo_tx 2 None))) 6.
Proof.
  assert (tx_src (sk_tx (reac_sink_node_new (L := documented_lib) demo_tx 2 None)) = of_list standin) as -> by (by vm_compute).
  by apply bytes_of_list.
Qed.

Lemma demo_carried : carried (L := documented_lib) demo_is_reac demo_relay_events = relay_frames.
Proof. by vm_compute. Qed.

(** all twelve samples of the first frame, the fifth being 5 codes above zero *)
Lemma relay_stream_witness :
  exists n' out st' reads (q' : queue (F := f32)),
    demo_sink_run = Ok (n', out)
    /\ bridge_run (L := documented_lib) demo_is_reac demo_counter (reac_mode_for (ReacLib := documented_lib) 64) demo_node
         demo_relay_events (bridge_start rx64 [f64_of_int 1]) = Ok st'
    /\ concat ((fun r => r 0) <$> reads) ++ q'.2 0 = relay_value 0 (Z.min 2 40) demo_input 0 <$> seqZ 0 12
    /\ relay_value 0 (Z.min 2 40) demo_input 0 4 = float24 5.
Proof.
  assert (estimated demo_is_reac demo_counter demo_relay_events = [(7, 1000000)]) as E by (by vm_compute).
  assert (keeps_up (L := documented_lib) demo_is_reac (reac_mode_for (ReacLib := documented_lib) 64)
    (r_capacity (rx_ring rx64)) demo_relay_events 0 = true) as HK by (by vm_compute).
  pose proof (relay_stream (L := documented_lib) (D := documented_lib_doc) 0 demo_tx 2 None demo_quanta demo_is_reac demo_counter
    (RxCfg REAC_RX_PCAP 64 1) None rx64 [f64_of_int 1] demo_node demo_relay_events ltac:(lia) ltac:(cbn; lia)
    demo_tx_bytes demo_quanta_ok (fun c t Hc => demo_input_no_nan c t Hc) eq_refl ltac:(split; by vm_compute)
    eq_refl demo_relay_events_ok) as H.
  rewrite E in H. specialize (H ltac:(repeat constructor) ltac:(repeat constructor; cbn; lia)).
  destruct (bridge_queue _ _ _ _ _) as [reads q']. destruct H as (n' & out & st' & H1 & H2 & H3 & _ & H5 & H6).
  exists n', out, st', reads, q'. split; [exact H1|]. split; [exact H3|]. split.
  - destruct (H5 HK 0 ltac:(lia)) as [_ H7]. apply H7. rewrite demo_carried. unfold relay_frames, demo_sink_run. rewrite H1. reflexivity.
  - apply (H6 0 4 5); [lia|unfold SMIN, SMAX; lia|vm_compute; reflexivity].
Defined.
