(* ===== verification/PcapSource.v ===== *)
(** pcap_source.c: reading a capture file, as the replay modes do. *)

From S2P Require Import Prelude.

Definition PCAP_MAGIC : Z := 2712847316.       (* 0xA1B2C3D4 *)
Definition PCAP_MAGIC_SWAP : Z := 3569595041.  (* 0xD4C3B2A1 *)

(** an open stream: the file's bytes and the position, which [fseek] may move
    past the end *)
Record file : Type := File { f_bytes : list Z; f_pos : Z }.

(** [struct pcap_source] *)
Record pcap_source : Type := PcapSource {
  ps_f : option file;
  swapped : Z;
}.

(** the bytes [fread] gets, at most [n], and the stream after it *)
Definition fread (f : file) (n : Z) : list Z * file :=
  let got := take (Z.to_nat n) (drop (Z.to_nat (f_pos f)) (f_bytes f)) in
  (got, File (f_bytes f) (f_pos f + Z.of_nat (length got))).

(** [p[0] | p[1] << 8 | p[2] << 16 | p[3] << 24] of four bytes read *)
Definition le32 (p : list Z) (i : Z) : Z :=
  let b k := default 0 (p !! Z.to_nat (i + k)) in
  Z.lor (Z.lor (Z.lor (b 0) (Z.shiftl (b 1) 8)) (Z.shiftl (b 2) 16)) (Z.shiftl (b 3) 24).

(** [__builtin_bswap32] *)
Definition bswap32 (v : Z) : Z :=
  Z.lor (Z.lor (Z.lor (Z.shiftl (u8 v) 24) (Z.shiftl (u8 (Z.shiftr v 8)) 16))
           (Z.shiftl (u8 (Z.shiftr v 16)) 8)) (u8 (Z.shiftr v 24)).

Definition rd_u32 (p : list Z) (i : Z) (swap : Z) : Z :=
  let v := le32 p i in
  if negb (swap =? 0) then bswap32 v else v.

(** [fopen] is the file's content, [None] when it cannot be opened *)
Definition pcap_source_open (fopen : option (list Z)) : Z * pcap_source :=
  match fopen with
  | None => (-1, PcapSource None 0)
  | Some bytes =>
      let '(gh, f) := fread (File bytes 0) 24 in
      if negb (Z.of_nat (length gh) =? 24) then (-1, PcapSource None 0) else
      let magic := le32 gh 0 in
      if magic =? PCAP_MAGIC then (0, PcapSource (Some f) 0)
      else if magic =? PCAP_MAGIC_SWAP then (0, PcapSource (Some f) 1)
      else (-1, PcapSource None 0)
  end.

Section Next.
(** whether [fseek] to a position succeeds *)
Context (fseek_ok : Z -> bool).

(** what one call gives: the return value, the bytes stored from [buf] on (a
    prefix of them when the read fell short), the timestamp stored, if any *)
Record packet : Type := Packet { p_ret : Z; p_data : list Z; p_ts : option Z }.

(** the loop, with fuel: [None] when it runs out *)
Fixpoint next_loop (fuel : nat) (swap cap : Z) (f : file) : option (packet * file) :=
  match fuel with
  | O => None
  | S fuel =>
      let '(ph, f) := fread f 16 in
      let got := Z.of_nat (length ph) in
      if got =? 0 then Some (Packet 0 [] None, f)          (* EOF *)
      else if negb (got =? 16) then Some (Packet (-1) [] None, f)
      else
        let sec := rd_u32 ph 0 swap in
        let usec := rd_u32 ph 4 swap in
        let incl := rd_u32 ph 8 swap in
        if incl >? cap then                                (* skip the body *)
          if fseek_ok (f_pos f + incl)
          then next_loop fuel swap cap (File (f_bytes f) (f_pos f + incl))
          else Some (Packet (-1) [] None, f)
        else
          let '(body, f) := fread f incl in
          if negb (Z.of_nat (length body) =? incl) then Some (Packet (-1) body None, f)
          else Some (Packet incl body (Some (u64 (u64 (sec * 1000000) + usec))), f)
  end.

(** enough for any file: every turn of the loop consumes a record header *)
Definition next_fuel (f : file) : nat := S (length (f_bytes f)).

Definition pcap_source_next (ps : pcap_source) (cap : Z) : option (packet * pcap_source) :=
  match ps_f ps with
  | None => Some (Packet (-1) [] None, ps)
  | Some f =>
      '(p, f) ← next_loop (next_fuel f) (swapped ps) cap f;
      Some (p, PcapSource (Some f) (swapped ps))
  end.

Definition pcap_source_close (ps : pcap_source) : pcap_source := PcapSource None (swapped ps).

(** the callers' [while ((n = pcap_source_next(&ps, buf, sizeof buf, NULL)) > 0)],
    with the frames it hands on *)
Fixpoint read_all (fuel : nat) (ps : pcap_source) (cap : Z) : option (list packet * pcap_source) :=
  match fuel with
  | O => None
  | S fuel =>
      '(p, ps) ← pcap_source_next ps cap;
      if p_ret p >? 0 then '(l, ps) ← read_all fuel ps cap; Some (p :: l, ps)
      else Some ([], ps)
  end.
End Next.

(** * Specification: the files a capture tool writes *)

Record record : Type := Record_ { rec_sec : Z; rec_usec : Z; rec_data : list Z }.

(** the four bytes of a field in the file's byte order *)
Definition u32_bytes (swap : Z) (v : Z) : list Z :=
  let l := [v mod 256; v / 256 mod 256; v / 65536 mod 256; v / 16777216 mod 256] in
  if negb (swap =? 0) then reverse l else l.

Definition rec_len (r : record) : Z := Z.of_nat (length (rec_data r)).

(** a record as stored: sec, usec, captured length, original length, data *)
Definition rec_bytes (swap : Z) (r : record) : list Z :=
  u32_bytes swap (rec_sec r) ++ u32_bytes swap (rec_usec r) ++ u32_bytes swap (rec_len r)
  ++ u32_bytes swap (rec_len r) ++ rec_data r.

Definition capture_file (swap : Z) (rest : list Z) (records : list record) : list Z :=
  u32_bytes swap PCAP_MAGIC ++ rest ++ (records ≫= rec_bytes swap).

Definition rec_ok (r : record) : Prop :=
  0 <= rec_sec r < 4294967296 /\ 0 <= rec_usec r < 4294967296 /\ rec_len r < 4294967296.

Definition rec_packet (r : record) : packet :=
  Packet (rec_len r) (rec_data r) (Some (rec_sec r * 1000000 + rec_usec r)).

(** the records a replay sees: the oversized ones are skipped, and an empty one ends it *)
Fixpoint seen (cap : Z) (records : list record) : list record :=
  match records with
  | [] => []
  | r :: records =>
      if rec_len r >? cap then seen cap records
      else if rec_len r =? 0 then [] else r :: seen cap records
  end.

(** * Lemmas *)

(** a 32-bit value and its four bytes *)
Lemma four_bytes v :
  0 <= v < 4294967296 ->
  v = v mod 256 + v / 256 mod 256 * 256 + v / 65536 mod 256 * 65536 + v / 16777216 mod 256 * 16777216.
Proof. intros H. Z.div_mod_to_equations. lia. Qed.

Lemma lor4 b0 b1 b2 b3 :
  0 <= b0 < 256 -> 0 <= b1 < 256 -> 0 <= b2 < 256 -> 0 <= b3 < 256 ->
  Z.lor (Z.lor (Z.lor b0 (Z.shiftl b1 8)) (Z.shiftl b2 16)) (Z.shiftl b3 24)
  = b0 + b1 * 256 + b2 * 65536 + b3 * 16777216.
Proof.
  intros H0 H1 H2 H3. change 256 with (2 ^ 8) in H0.
  rewrite (lor_shiftl_add b0) by lia. change (2 ^ 8) with 256 in *.
  rewrite (lor_shiftl_add _ b2) by (change (2 ^ 16) with 65536; lia). change (2 ^ 16) with 65536.
  rewrite (lor_shiftl_add _ b3) by (change (2 ^ 24) with 16777216; lia). done.
Qed.

Lemma bytes_shift b0 b1 b2 b3 :
  0 <= b0 < 256 -> 0 <= b1 < 256 -> 0 <= b2 < 256 -> 0 <= b3 < 256 ->
  let v := b0 + b1 * 256 + b2 * 65536 + b3 * 16777216 in
  u8 v = b0 /\ u8 (Z.shiftr v 8) = b1 /\ u8 (Z.shiftr v 16) = b2 /\ u8 (Z.shiftr v 24) = b3.
Proof.
  intros H0 H1 H2 H3 v. unfold u8, v. rewrite !Z.shiftr_div_pow2 by lia.
  change (2 ^ 8) with 256. change (2 ^ 16) with 65536. change (2 ^ 24) with 16777216.
  repeat split; Z.div_mod_to_equations; lia.
Qed.

(** a field is read back in the file's byte order *)
Lemma rd_u32_bytes swap v l1 l2 :
  0 <= v < 4294967296 -> rd_u32 (l1 ++ u32_bytes swap v ++ l2) (Z.of_nat (length l1)) swap = v.
Proof.
  intros Hv. unfold rd_u32, le32.
  assert (forall l k, 0 <= k -> (l1 ++ l ++ l2) !! Z.to_nat (Z.of_nat (length l1) + k) = (l ++ l2) !! Z.to_nat k) as E.
  { intros l k Hk. rewrite lookup_app_r by lia. f_equal. lia. }
  rewrite !E by lia. pose proof (four_bytes v Hv) as Ev. unfold u32_bytes. clear E.
  pose proof (Z.mod_pos_bound v 256 ltac:(lia)) as R0. pose proof (Z.mod_pos_bound (v / 256) 256 ltac:(lia)) as R1.
  pose proof (Z.mod_pos_bound (v / 65536) 256 ltac:(lia)) as R2.
  pose proof (Z.mod_pos_bound (v / 16777216) 256 ltac:(lia)) as R3.
  set (b0 := v mod 256) in *. set (b1 := v / 256 mod 256) in *. set (b2 := v / 65536 mod 256) in *.
  set (b3 := v / 16777216 mod 256) in *. clearbody b0 b1 b2 b3. subst v. clear Hv.
  destruct (negb (swap =? 0)).
  - change (reverse [b0; b1; b2; b3]) with [b3; b2; b1; b0].
    change (default 0 (([b3; b2; b1; b0] ++ l2) !! Z.to_nat 0)) with b3.
    change (default 0 (([b3; b2; b1; b0] ++ l2) !! Z.to_nat 1)) with b2.
    change (default 0 (([b3; b2; b1; b0] ++ l2) !! Z.to_nat 2)) with b1.
    change (default 0 (([b3; b2; b1; b0] ++ l2) !! Z.to_nat 3)) with b0.
    rewrite lor4 by done. unfold bswap32. destruct (bytes_shift b3 b2 b1 b0) as (-> & -> & -> & ->); try done.
    rewrite <- (lor4 b0 b1 b2 b3) by done.
    apply Z.bits_inj'. intros k Hk. rewrite !Z.lor_spec.
    destruct (Z.testbit b0 k), (Z.testbit (Z.shiftl b1 8) k), (Z.testbit (Z.shiftl b2 16) k), (Z.testbit (Z.shiftl b3 24) k); done.
  - change (default 0 (([b0; b1; b2; b3] ++ l2) !! Z.to_nat 0)) with b0.
    change (default 0 (([b0; b1; b2; b3] ++ l2) !! Z.to_nat 1)) with b1.
    change (default 0 (([b0; b1; b2; b3] ++ l2) !! Z.to_nat 2)) with b2.
    change (default 0 (([b0; b1; b2; b3] ++ l2) !! Z.to_nat 3)) with b3.
    by apply lor4.
Qed.

(** ** Reading a record *)

Lemma fread_app l1 l2 l3 n :
  n = Z.of_nat (length l2) ->
  fread (File (l1 ++ l2 ++ l3) (Z.of_nat (length l1))) n
  = (l2, File (l1 ++ l2 ++ l3) (Z.of_nat (length (l1 ++ l2)))).
Proof.
  intros ->. unfold fread. cbn [f_bytes f_pos]. rewrite !Nat2Z.id, drop_app_length, take_app_length.
  rewrite length_app, Nat2Z.inj_add. done.
Qed.

Lemma length_u32_bytes swap v : length (u32_bytes swap v) = 4%nat.
Proof. unfold u32_bytes. by destruct (negb (swap =? 0)). Qed.

Section Read.
Context (fseek_ok : Z -> bool) (swap cap : Z).
Context (Hseek : forall p, fseek_ok p = true) (Hcap : 0 <= cap).

(** the record header *)
Definition rec_header (r : record) : list Z :=
  u32_bytes swap (rec_sec r) ++ u32_bytes swap (rec_usec r) ++ u32_bytes swap (rec_len r)
  ++ u32_bytes swap (rec_len r).

Lemma rec_bytes_eq r : rec_bytes swap r = rec_header r ++ rec_data r.
Proof. unfold rec_bytes, rec_header. by rewrite <- !app_assoc. Qed.

Lemma header_fields r :
  rec_ok r -> rd_u32 (rec_header r) 0 swap = rec_sec r /\ rd_u32 (rec_header r) 4 swap = rec_usec r
    /\ rd_u32 (rec_header r) 8 swap = rec_len r /\ length (rec_header r) = 16%nat.
Proof.
  intros (H1 & H2 & H3). unfold rec_header.
  assert (0 <= rec_len r) by (unfold rec_len; lia).
  split; [by apply (rd_u32_bytes swap _ [])|]. split; [|split].
  - etrans; [|by apply (rd_u32_bytes swap (rec_usec r) (u32_bytes swap (rec_sec r))
      (u32_bytes swap (rec_len r) ++ u32_bytes swap (rec_len r)))].
    by rewrite length_u32_bytes.
  - etrans; [|by apply (rd_u32_bytes swap (rec_len r) (u32_bytes swap (rec_sec r) ++ u32_bytes swap (rec_usec r))
      (u32_bytes swap (rec_len r)))].
    rewrite length_app, !length_u32_bytes. by rewrite <- !app_assoc.
  - by rewrite !length_app, !length_u32_bytes.
Qed.

(** one turn of the loop at a record *)
Lemma next_record fuel l1 r l3 :
  rec_ok r ->
  next_loop fseek_ok (S fuel) swap cap (File (l1 ++ rec_bytes swap r ++ l3) (Z.of_nat (length l1)))
  = if rec_len r >? cap
    then next_loop fseek_ok fuel swap cap (File (l1 ++ rec_bytes swap r ++ l3) (Z.of_nat (length (l1 ++ rec_bytes swap r))))
    else Some (rec_packet r, File (l1 ++ rec_bytes swap r ++ l3) (Z.of_nat (length (l1 ++ rec_bytes swap r)))).
Proof.
  intros Hr. destruct (header_fields r Hr) as (F0 & F4 & F8 & FL). destruct Hr as (R1 & R2 & R3).
  rewrite rec_bytes_eq. cbn [next_loop]. rewrite <- (app_assoc (rec_header r)).
  rewrite (fread_app l1 (rec_header r) (rec_data r ++ l3) 16) by (rewrite FL; done).
  rewrite FL. change (Z.of_nat 16) with 16. cbn [Z.eqb Pos.eqb negb]. rewrite F0, F4, F8. cbn [f_pos f_bytes].
  assert (Z.of_nat (length (l1 ++ rec_header r)) + rec_len r = Z.of_nat (length (l1 ++ rec_header r ++ rec_data r))) as E
    by (unfold rec_len; rewrite !length_app; lia).
  destruct (rec_len r >? cap) eqn:Ec; [by rewrite Hseek, E|].
  pose proof (fread_app (l1 ++ rec_header r) (rec_data r) l3 (rec_len r) eq_refl) as HF.
  rewrite <- !app_assoc in HF. rewrite HF. unfold rec_len at 1. rewrite Z.eqb_refl. cbn [negb].
  do 2 f_equal. unfold rec_packet. do 2 f_equal. unfold u64. rewrite (Z.mod_small (_ * _)) by lia.
  rewrite Z.mod_small by lia. done.
Qed.

Lemma next_eof fuel l : next_loop fseek_ok (S fuel) swap cap (File l (Z.of_nat (length l))) = Some (Packet 0 [] None, File l (Z.of_nat (length l))).
Proof.
  cbn [next_loop]. unfold fread. cbn [f_bytes f_pos]. rewrite Nat2Z.id, drop_all. cbn. by rewrite Z.add_0_r.
Qed.

(** the first record that fits, and the rest *)
Fixpoint next_seen (records : list record) : option (record * list record) :=
  match records with
  | [] => None
  | r :: records => if rec_len r >? cap then next_seen records else Some (r, records)
  end.

Lemma next_records records : forall fuel l1,
  Forall rec_ok records -> (length records < fuel)%nat ->
  next_loop fseek_ok fuel swap cap (File (l1 ++ (records ≫= rec_bytes swap)) (Z.of_nat (length l1)))
  = match next_seen records with
    | None => Some (Packet 0 [] None, File (l1 ++ (records ≫= rec_bytes swap))
                      (Z.of_nat (length (l1 ++ (records ≫= rec_bytes swap)))))
    | Some (r, rest) =>
        Some (rec_packet r, File (l1 ++ (records ≫= rec_bytes swap))
                (Z.of_nat (length (l1 ++ (records ≫= rec_bytes swap))) - Z.of_nat (length (rest ≫= rec_bytes swap))))
    end.
Proof.
  induction records as [|r records IH]; intros fuel l1 HF Hfuel; (destruct fuel as [|fuel]; [cbn in Hfuel; lia|]).
  - cbn [next_seen mbind list_bind]. rewrite app_nil_r. by apply next_eof.
  - apply Forall_cons_1 in HF as [Hr HF]. change ((r :: records) ≫= rec_bytes swap) with (rec_bytes swap r ++ (records ≫= rec_bytes swap)).
    rewrite next_record by done. cbn [next_seen]. destruct (rec_len r >? cap).
    + rewrite (app_assoc l1). apply IH; [done|cbn in Hfuel; lia].
    + do 2 f_equal. f_equal. rewrite !length_app. lia.
Qed.

Lemma length_rec_bytes r : (16 <= length (rec_bytes swap r))%nat.
Proof. unfold rec_bytes. rewrite !length_app, !length_u32_bytes. lia. Qed.

Lemma length_records records : (length records <= length (records ≫= rec_bytes swap))%nat.
Proof.
  induction records as [|r records IH]; [done|].
  change ((r :: records) ≫= rec_bytes swap) with (rec_bytes swap r ++ (records ≫= rec_bytes swap)).
  rewrite length_app. cbn [length]. pose proof (length_rec_bytes r). lia.
Qed.

Lemma next_seen_split records r rest :
  next_seen records = Some (r, rest) ->
  rec_len r <= cap /\ exists skipped, records = skipped ++ r :: rest /\ Forall (fun x => rec_len x > cap) skipped.
Proof.
  induction records as [|x records IH]; [done|]. cbn [next_seen].
  destruct (Z.gtb_spec (rec_len x) cap) as [Hg|Hl].
  - intros H. destruct (IH H) as (Hc & sk & -> & Hs). split; [done|]. exists (x :: sk).
    split; [done|]. constructor; [lia|done].
  - intros [= -> ->]. split; [done|]. by exists [].
Qed.

Lemma seen_next records :
  seen cap records = match next_seen records with
                     | None => []
                     | Some (r, rest) => if rec_len r =? 0 then [] else r :: seen cap rest
                     end.
Proof. induction records as [|x records IH]; [done|]. cbn [seen next_seen]. by destruct (rec_len x >? cap). Qed.

(** the callers' loop over a whole capture *)
Lemma read_records fuel : forall records l1,
  Forall rec_ok records -> (length records < fuel)%nat ->
  exists ps', read_all fseek_ok fuel
      (PcapSource (Some (File (l1 ++ (records ≫= rec_bytes swap)) (Z.of_nat (length l1)))) swap) cap
    = Some (rec_packet <$> seen cap records, ps').
Proof.
  induction fuel as [|fuel IH]; intros records l1 HF Hfuel; [lia|]. cbn [read_all].
  unfold pcap_source_next. cbn [ps_f swapped]. rewrite next_records; [|done|].
  2: { unfold next_fuel. cbn [f_bytes]. rewrite length_app. pose proof (length_records records). lia. }
  rewrite seen_next. destruct (next_seen records) as [[r rest]|] eqn:E.
  - apply next_seen_split in E as (Hc & sk & -> & Hsk). cbn. unfold mret.
    assert (0 <= rec_len r) as Hlen by (unfold rec_len; lia).
    destruct (Z.eqb_spec (rec_len r) 0) as [E0|N0].
    + rewrite E0. cbn. by eexists.
    + rewrite Z.gtb_ltb, (proj2 (Z.ltb_lt 0 _)) by lia.
      set (l2 := l1 ++ (sk ≫= rec_bytes swap) ++ rec_bytes swap r).
      assert (l1 ++ ((sk ++ r :: rest) ≫= rec_bytes swap) = l2 ++ (rest ≫= rec_bytes swap)) as ->.
      { unfold l2. rewrite bind_app. cbn. by rewrite <- !app_assoc. }
      rewrite length_app, Nat2Z.inj_add, Z.add_simpl_r.
      destruct (IH rest l2) as [ps' ->].
      * rewrite Forall_app, Forall_cons in HF. tauto.
      * rewrite length_app in Hfuel. cbn in Hfuel. lia.
      * by eexists.
  - cbn. by eexists.
Qed.
End Read.

(** ** Any file *)

Definition bytes_ok (l : list Z) : Prop := Forall (fun b => 0 <= b < 256) l.

Lemma le32_nonneg l i : bytes_ok l -> 0 <= le32 l i.
Proof.
  intros H. unfold le32.
  assert (forall k, 0 <= default 0 (l !! k)) as B.
  { intros k. destruct (l !! k) eqn:E; [|done]. apply (Forall_lookup_1 _ _ _ _ H) in E. cbn. lia. }
  rewrite !Z.lor_nonneg, !Z.shiftl_nonneg. auto.
Qed.

Lemma rd_u32_nonneg l i swap : bytes_ok l -> 0 <= rd_u32 l i swap.
Proof.
  intros H. unfold rd_u32. destruct (negb _); [|by apply le32_nonneg].
  unfold bswap32. rewrite !Z.lor_nonneg, !Z.shiftl_nonneg. pose proof u8_range. firstorder.
Qed.

(** what is left to read *)
Definition left_in (f : file) : Z := Z.max 0 (Z.of_nat (length (f_bytes f)) - f_pos f).
Definition file_ok (f : file) : Prop := bytes_ok (f_bytes f) /\ 0 <= f_pos f.

(** a read takes what is there *)
Lemma fread_spec f n : file_ok f -> 0 <= n ->
  let '(got, f') := fread f n in
  bytes_ok got /\ Z.of_nat (length got) = Z.min n (left_in f) /\ f_bytes f' = f_bytes f
  /\ f_pos f' = f_pos f + Z.of_nat (length got).
Proof.
  intros [HB Hp] Hn. unfold fread, left_in. cbn [f_bytes f_pos].
  split; [by apply Forall_take, Forall_drop|]. split; [|done]. rewrite length_take, length_drop. lia.
Qed.

(** the loop ends on any file: a turn that goes on has read 16 bytes, and a packet
    handed on takes its own bytes more *)
Lemma next_loop_ends fseek_ok swap cap fuel : forall f, file_ok f -> left_in f < 16 * Z.of_nat fuel ->
  exists p f', next_loop fseek_ok fuel swap cap f = Some (p, f') /\ file_ok f'
    /\ (0 < p_ret p -> p_ret p = Z.of_nat (length (p_data p)) /\ left_in f' + (16 + p_ret p) <= left_in f).
Proof.
  induction fuel as [|fuel IH]; intros f Hf Hfuel; [unfold left_in in *; lia|]. cbn [next_loop].
  pose proof (fread_spec f 16 Hf ltac:(lia)) as H. destruct (fread f 16) as [ph f1]. destruct H as (HB & Hlen & E & Ep).
  pose proof Hf as [HBf Hpf]. assert (file_ok f1) as Hf1 by (split; [by rewrite E|lia]).
  destruct (Z.eqb_spec (Z.of_nat (length ph)) 0) as [|Hne]; [eexists _, _; split; [done|split; [done|cbn; lia]]|].
  destruct (Z.eqb_spec (Z.of_nat (length ph)) 16) as [E16|]; cbn [negb];
    [|eexists _, _; split; [done|split; [done|cbn; lia]]].
  assert (left_in f1 + 16 = left_in f) as Hl by (unfold left_in in *; rewrite E; lia).
  pose proof (rd_u32_nonneg ph 8 swap HB) as Hincl. set (incl := rd_u32 ph 8 swap) in *.
  destruct (incl >? cap).
  - destruct (fseek_ok _); [|eexists _, _; split; [done|split; [done|cbn; lia]]].
    destruct Hf1 as [HB1 Hp1]. assert (file_ok (File (f_bytes f1) (f_pos f1 + incl))) as Hf2 by (split; [done|cbn; lia]).
    destruct (IH _ Hf2) as (p & f' & -> & Hf' & H); [unfold left_in in *; cbn [f_bytes f_pos]; lia|].
    exists p, f'. split; [done|]. split; [done|]. intros Hp. destruct (H Hp) as [H1 H2]. split; [done|].
    unfold left_in in *; cbn [f_bytes f_pos] in *; lia.
  - pose proof (fread_spec f1 incl Hf1 Hincl) as H. destruct (fread f1 incl) as [body f2].
    destruct H as (HB2 & Hlen2 & E2 & Ep2). pose proof Hf1 as [HB1 Hp1].
    assert (file_ok f2) as Hf2 by (split; [by rewrite E2|lia]).
    destruct (Z.eqb_spec (Z.of_nat (length body)) incl) as [Ei|]; cbn [negb]; eexists _, _;
      (split; [done|split; [done|cbn [p_ret p_data]]]); [|lia].
    intros Hi. split; [done|]. unfold left_in in *. rewrite E2. lia.
Qed.

(** a call of the reader on any stream *)
Lemma next_ends fseek_ok cap ps : (forall f, ps_f ps = Some f -> file_ok f) ->
  exists p ps', pcap_source_next fseek_ok ps cap = Some (p, ps') /\ (forall f, ps_f ps' = Some f -> file_ok f)
    /\ (0 < p_ret p -> exists f f', ps_f ps = Some f /\ ps_f ps' = Some f' /\ p_ret p = Z.of_nat (length (p_data p))
          /\ left_in f' + (16 + p_ret p) <= left_in f).
Proof.
  intros Hf. destruct ps as [[f|] sw]; [|by eexists _, _].
  unfold pcap_source_next; cbn [ps_f swapped] in *. pose proof (Hf f eq_refl) as Hok.
  destruct (next_loop_ends fseek_ok sw cap (next_fuel f) f Hok) as (p & f' & -> & Hf' & H).
  { destruct Hok. unfold next_fuel, left_in. lia. }
  eexists _, _. split; [done|]. split; [by intros ? [= <-]|]. intros Hp. destruct (H Hp). by exists f, f'.
Qed.

(** the bytes of the file a list of packets has taken *)
Definition taken (l : list packet) : Z := foldr (fun p n => 16 + p_ret p + n) 0 l.

(** the callers' loop ends on any stream *)
Lemma read_all_ends fseek_ok cap fuel : forall ps f, ps_f ps = Some f -> file_ok f -> left_in f < 16 * Z.of_nat fuel ->
  exists l ps', read_all fseek_ok fuel ps cap = Some (l, ps') /\ taken l <= left_in f
    /\ Forall (fun p => 0 < p_ret p /\ p_ret p = Z.of_nat (length (p_data p))) l.
Proof.
  induction fuel as [|fuel IH]; intros ps f E Hf Hfuel; [unfold left_in in *; lia|]. cbn [read_all].
  destruct (next_ends fseek_ok cap ps) as (p & ps1 & -> & Hok & Hp); [intros f0 E0; congruence|]. cbn [mbind option_bind].
  destruct (Z.gtb_spec (p_ret p) 0) as [Hr|Hr].
  - destruct (Hp Hr) as (f0 & f1 & E0 & E1 & Hl & Hd). assert (f0 = f) as -> by congruence.
    destruct (IH ps1 f1 E1 (Hok _ E1) ltac:(lia)) as (l & ps' & -> & Ht & HF). exists (p :: l), ps'. split; [done|].
    split; [cbn [taken foldr]; unfold taken in Ht; lia|]. by constructor.
  - exists [], ps1. split; [done|]. split; [unfold left_in; cbn; lia|done].
Qed.

(** opening any file *)
Lemma open_ok bytes : bytes_ok bytes ->
  forall f, ps_f (pcap_source_open (Some bytes)).2 = Some f -> file_ok f /\ left_in f <= Z.of_nat (length bytes) - 24.
Proof.
  intros HB f. unfold pcap_source_open. pose proof (fread_spec (File bytes 0) 24 ltac:(split; [done|done]) ltac:(lia)) as H.
  destruct (fread _ 24) as [gh f1]. destruct H as (_ & Hl & E & Ep). cbn [f_bytes f_pos] in *.
  destruct (Z.eqb_spec (Z.of_nat (length gh)) 24) as [E24|]; [|done]. cbn [negb].
  assert (file_ok f1 /\ left_in f1 <= Z.of_nat (length bytes) - 24) as H.
  { split; [split; [by rewrite E|lia]|]. unfold left_in in *. cbn [f_bytes f_pos] in *. rewrite E. lia. }
  destruct (_ =? PCAP_MAGIC); [by intros [= <-]|]. destruct (_ =? PCAP_MAGIC_SWAP); [by intros [= <-]|done].
Qed.

(** opening a well-formed capture and reading it to its end *)
Lemma capture_read fseek_ok swap cap rest records fuel :
  (forall p, fseek_ok p = true) ->
  length rest = 20%nat -> Forall rec_ok records -> (length records < fuel)%nat -> swap = 0 \/ swap = 1 ->
  exists ps ps', pcap_source_open (Some (capture_file swap rest records)) = (0, ps)
    /\ read_all fseek_ok fuel ps cap = Some (rec_packet <$> seen cap records, ps').
Proof.
  intros Hseek Hrest HF Hfuel Hsw.
  exists (PcapSource (Some (File (capture_file swap rest records) 24)) swap).
  destruct (read_records fseek_ok swap cap Hseek fuel records (u32_bytes swap PCAP_MAGIC ++ rest) HF Hfuel) as [ps' Hrd].
  rewrite length_app, length_u32_bytes, Hrest in Hrd. change (Z.of_nat (4 + 20)) with 24 in Hrd.
  rewrite <- app_assoc in Hrd. exists ps'. split; [|exact Hrd].
  assert (fread (File (capture_file swap rest records) 0) 24
    = (u32_bytes swap PCAP_MAGIC ++ rest, File (capture_file swap rest records) 24)) as HR.
  { unfold capture_file. rewrite (app_assoc (u32_bytes swap PCAP_MAGIC)).
    assert (24 = Z.of_nat (length (u32_bytes swap PCAP_MAGIC ++ rest))) as EL
      by (rewrite length_app, length_u32_bytes, Hrest; done).
    etrans; [exact (fread_app [] _ _ 24 EL)|]. cbn [app]. by rewrite <- EL. }
  unfold pcap_source_open. rewrite HR.
  rewrite length_app, length_u32_bytes, Hrest. change (Z.of_nat (4 + 20)) with 24. cbn [Z.eqb Pos.eqb negb].
  destruct Hsw as [->| ->].
  + by change (le32 (u32_bytes 0 PCAP_MAGIC ++ rest) 0) with PCAP_MAGIC.
  + by change (le32 (u32_bytes 1 PCAP_MAGIC ++ rest) 0) with PCAP_MAGIC_SWAP.
Qed.

(** * Properties *)

(** C28: replaying a capture.  On any file of bytes, however damaged, every call
    returns, and so does the callers' loop: it needs no more turns than the file
    has 16-byte headers, and the packets handed on, each with a header, take no
    more than the bytes after the file header, whatever lengths the headers claim
    and whichever seeks fail.  On a file of well-formed records, of either byte
    order, opening succeeds and the loop hands on, in order and byte for byte,
    exactly the records that fit the caller's buffer, with their timestamps in
    microseconds; the larger ones are skipped.  A record of length 0 ends the
    replay, since its return value is the one of the end of file. *)
Theorem pcap_replay fseek_ok (swap cap : Z) (Hcap : 0 <= cap) :
  (forall ps, (forall f, ps_f ps = Some f -> file_ok f) -> is_Some (pcap_source_next fseek_ok ps cap))
  /\ (forall bytes ps fuel, bytes_ok bytes -> pcap_source_open (Some bytes) = (0, ps) ->
      Z.of_nat (length bytes) < 16 * Z.of_nat fuel ->
      exists l ps', read_all fseek_ok fuel ps cap = Some (l, ps') /\ taken l <= Z.of_nat (length bytes) - 24)
  /\ ((forall p, fseek_ok p = true) -> forall rest records fuel,
      length rest = 20%nat -> Forall rec_ok records -> (length records < fuel)%nat -> swap = 0 \/ swap = 1 ->
      exists ps ps', pcap_source_open (Some (capture_file swap rest records)) = (0, ps)
        /\ read_all fseek_ok fuel ps cap = Some (rec_packet <$> seen cap records, ps')).
Proof.
  split; [|split].
  - intros ps Hf. destruct (next_ends fseek_ok cap ps Hf) as (p & ps' & -> & _). by eexists.
  - intros bytes ps fuel HB Ho Hfuel. pose proof (open_ok bytes HB) as H. rewrite Ho in H. cbn [snd] in H.
    destruct (ps_f ps) as [f|] eqn:E.
    + destruct (H f eq_refl) as [Hf Hl]. destruct (read_all_ends fseek_ok cap fuel ps f E Hf) as (l & ps' & -> & Ht & _); [lia|].
      exists l, ps'. split; [done|lia].
    + unfold pcap_source_open in Ho. destruct (fread _ 24) as [gh f1]. repeat case_match; by simplify_eq.
  - intros Hseek rest records fuel. by apply capture_read.
Qed.

(** three records in the other byte order, one oversized, then an empty one *)
Definition demo_records : list record :=
  [Record_ 1 500 [1; 2; 3]; Record_ 2 0 [4; 5; 6; 7; 8]; Record_ 3 7 [9]; Record_ 4 0 []; Record_ 5 0 [10]].

Lemma pcap_replay_witness :
  exists ps ps', pcap_source_open (Some (capture_file 1 (replicate 20 0) demo_records)) = (0, ps)
    /\ read_all (fun _ => true) 9 ps 4
       = Some ([Packet 3 [1; 2; 3] (Some 1000500); Packet 1 [9] (Some 3000007)], ps').
Proof.
  exact (proj2 (proj2 (pcap_replay (fun _ => true) 1 4 ltac:(lia))) ltac:(done) (replicate 20 0) demo_records 9%nat
    eq_refl ltac:(repeat constructor; cbn; lia) ltac:(cbn; lia) ltac:(by right)).
Defined.
