(* ===== verification/Send.v ===== *)
(** aes67_send.c: the UDP sender.  Its state is a descriptor and a destination;
    what it asks of the kernel is the list of system calls each operation makes. *)

From S2P Require Import Prelude.

(** [inet_pton(AF_INET, ...)]: the four bytes of the address in network order *)
Class InetPton : Type := { inet_pton : list Z -> option (list Z) }.
Class InetDoc (I : InetPton) : Prop := {
  inet_len : forall s a, inet_pton s = Some a -> length a = 4%nat /\ Forall (fun b => 0 <= b < 256) a;
}.

(** [struct sockaddr_in]: both fields as they are stored, in network order *)
Record sockaddr : Type := SockAddr { sin_addr : list Z; sin_port : list Z }.

(** [struct aes67_sender]; a NULL [dest] is [None] *)
Record aes67_sender : Type := Sender { sd_fd : Z; sd_dest : option sockaddr }.

Inductive sockopt : Type :=
| IP_MULTICAST_TTL (t : Z)
| IP_MULTICAST_LOOP (l : Z)
| IP_MULTICAST_IF (addr : list Z)
| SO_BINDTODEVICE (name : list Z)
| IP_TOS (tos : Z).

Inductive syscall : Type :=
| Setsockopt (fd : Z) (o : sockopt)
| Sendto (fd : Z) (data : buf Z) (dest : sockaddr)
| Close (fd : Z).

Definition htons (port : Z) : list Z := [Z.shiftr port 8; Z.land port 255].

(** [ioctl] is the answer to SIOCGIFADDR for a name, which [strncpy] has cut to
    [IFNAMSIZ - 1] characters *)
Definition ifname_to_addr (ioctl : list Z -> option (list Z)) (ifname : list Z) : option (list Z) :=
  ioctl (take 15 ifname).

(** [socket_] is what [socket()] returns *)
Definition aes67_send_open {I : InetPton} (calloc_ok : bool) (socket_ : Z) (ioctl : list Z -> option (list Z))
  (ip : list Z) (port ttl : Z) (ifname : option (list Z)) : Z * aes67_sender * list syscall :=
  let s := Sender (-1) None in
  if negb calloc_ok then (-1, s, []) else
  match inet_pton ip with
  | None => (-1, s, [])
  | Some a =>
      let fd := socket_ in
      if fd <? 0 then (-1, s, []) else
      let t := u8 (if ttl <? 1 then 1 else ttl) in
      let opts := [IP_MULTICAST_TTL t; IP_MULTICAST_LOOP 1] ++
        match ifname with
        | Some (c :: cs) =>
            match ifname_to_addr ioctl (c :: cs) with Some ia => [IP_MULTICAST_IF ia] | None => [] end
            ++ [SO_BINDTODEVICE (c :: cs)]
        | _ => []
        end in
      (0, Sender fd (Some (SockAddr a (htons port))), Setsockopt fd <$> opts)
  end.

(** [r] is what the kernel answers *)
Definition aes67_send_set_dscp (r : Z) (s : aes67_sender) (dscp : Z) : Z * list syscall :=
  if sd_fd s <? 0 then (-1, []) else
  let tos := Z.shiftl (Z.land dscp 63) 2 in
  (r, [Setsockopt (sd_fd s) (IP_TOS tos)]).

Definition aes67_send_packet (r : Z) (s : aes67_sender) (data : buf Z) : Z * list syscall :=
  if sd_fd s <? 0 then (-1, []) else
  match sd_dest s with
  | None => (-1, [])
  | Some dst => (r, [Sendto (sd_fd s) data dst])
  end.

Definition aes67_send_close (s : aes67_sender) : aes67_sender * list syscall :=
  (Sender (-1) None, if sd_fd s >=? 0 then [Close (sd_fd s)] else []).

(** * Specification: a sender through its life *)

Inductive sender_op : Type := OpDscp (r dscp : Z) | OpSend (r : Z) (data : buf Z) | OpClose.

Fixpoint sender_run (s : aes67_sender) (ops : list sender_op) : list syscall :=
  match ops with
  | [] => []
  | OpDscp r d :: ops => (aes67_send_set_dscp r s d).2 ++ sender_run s ops
  | OpSend r p :: ops => (aes67_send_packet r s p).2 ++ sender_run s ops
  | OpClose :: ops => let '(s, l) := aes67_send_close s in l ++ sender_run s ops
  end.

(** what the operations up to the first close ask of the kernel *)
Fixpoint sender_calls (fd : Z) (dest : sockaddr) (ops : list sender_op) : list syscall :=
  match ops with
  | [] => []
  | OpDscp _ d :: ops => Setsockopt fd (IP_TOS (d mod 64 * 4)) :: sender_calls fd dest ops
  | OpSend _ p :: ops => Sendto fd p dest :: sender_calls fd dest ops
  | OpClose :: _ => [Close fd]
  end.

(** * Lemmas *)

Lemma dscp_tos d : Z.shiftl (Z.land d 63) 2 = d mod 64 * 4.
Proof. change 63 with (Z.ones 6). rewrite Z.land_ones, Z.shiftl_mul_pow2 by lia. done. Qed.

(** a closed sender asks nothing of the kernel *)
Lemma sender_run_closed ops : sender_run (Sender (-1) None) ops = [].
Proof. by induction ops as [|[] ops IH]. Qed.

Lemma sender_run_open fd dest ops : 0 <= fd ->
  sender_run (Sender fd (Some dest)) ops = sender_calls fd dest ops.
Proof.
  intros Hfd. induction ops as [|[r d|r p|] ops IH]; cbn [sender_run sender_calls]; [done|..].
  - unfold aes67_send_set_dscp. cbn [sd_fd]. rewrite (proj2 (Z.ltb_ge fd 0)) by lia.
    cbn [snd app]. by rewrite dscp_tos, IH.
  - unfold aes67_send_packet. cbn [sd_fd sd_dest]. rewrite (proj2 (Z.ltb_ge fd 0)) by lia.
    cbn [snd app]. by rewrite IH.
  - unfold aes67_send_close. cbn [sd_fd]. rewrite Z.geb_leb, (proj2 (Z.leb_le 0 fd)) by lia.
    by rewrite sender_run_closed.
Qed.

(** * Properties *)

(** C33: the sender.  Opening succeeds exactly when memory, the address and the
    socket are there.  From then on every packet is one datagram to that address
    and port, a DSCP class (its low six bits) goes to the high six bits of the
    TOS byte, a close releases the descriptor once, and nothing reaches the
    kernel after it.  The multicast TTL is the one asked for between 1 and 255,
    and is taken modulo 256 above: 256 asks for TTL 0, datagrams that never leave
    the host. *)
Theorem sender_correct {I : InetPton} calloc_ok socket_ ioctl ip port ttl ifname ops (Hport : 0 <= port < 65536) :
  match inet_pton ip with
  | Some a =>
      calloc_ok = true -> 0 <= socket_ ->
      exists s opts dest,
        aes67_send_open calloc_ok socket_ ioctl ip port ttl ifname = (0, s, Setsockopt socket_ <$> opts)
        /\ sender_run s ops = sender_calls socket_ dest ops
        /\ sin_addr dest = a
        /\ (exists hi lo, sin_port dest = [hi; lo] /\ 0 <= hi < 256 /\ 0 <= lo < 256 /\ port = hi * 256 + lo)
        /\ opts !! 0%nat = Some (IP_MULTICAST_TTL (if ttl <? 1 then 1 else ttl mod 256))
        /\ (SO_BINDTODEVICE (default [] ifname) ∈ opts <-> default [] ifname <> [])
  | None => True
  end
  /\ ((inet_pton ip = None \/ calloc_ok = false \/ socket_ < 0) ->
        exists s, aes67_send_open calloc_ok socket_ ioctl ip port ttl ifname = (-1, s, []) /\ sender_run s ops = []).
Proof.
  unfold aes67_send_open. split.
  - destruct (inet_pton ip) as [a|]; [|done]. intros -> Hfd. cbn [negb].
    rewrite (proj2 (Z.ltb_ge socket_ 0)) by lia.
    do 3 eexists. split; [done|]. split; [by apply sender_run_open|]. split; [done|].
    split; [|split].
    + exists (port / 256), (port mod 256). split.
      { unfold htons. change 255 with (Z.ones 8). by rewrite Z.land_ones, Z.shiftr_div_pow2 by lia. }
      repeat split; Z.div_mod_to_equations; lia.
    + cbn [app lookup list_lookup]. by destruct (ttl <? 1).
    + destruct ifname as [[|c cs]|]; cbn [default].
      1,3: split; [|done]; rewrite app_nil_r, !elem_of_cons; intros [?|[?|?%elem_of_nil]]; done.
      split; [done|]. intros _. rewrite !elem_of_app. right. right. by apply list_elem_of_singleton.
  - intros H. exists (Sender (-1) None). split; [|apply sender_run_closed].
    destruct calloc_ok; [|done]. destruct (inet_pton ip); [|done].
    destruct H as [H|[H|H]]; [done|done|]. by rewrite (proj2 (Z.ltb_lt socket_ 0)).
Qed.

(** AF41, two packets, a close and a late packet *)
Lemma sender_correct_witness :
  exists s opts dest,
    aes67_send_open (I := {| inet_pton := Some |}) true 7 (fun _ => None) [239; 69; 1; 2] 5004 300 None
      = (0, s, Setsockopt 7 <$> opts)
    /\ sender_run s [OpDscp 0 34; OpSend 1 [Some 9]; OpClose; OpSend 1 [Some 8]]
       = [Setsockopt 7 (IP_TOS 136); Sendto 7 [Some 9] dest; Close 7]
    /\ sin_addr dest = [239; 69; 1; 2] /\ opts !! 0%nat = Some (IP_MULTICAST_TTL 44).
Proof.
  destruct (proj1 (sender_correct (I := {| inet_pton := Some |}) true 7 (fun _ => None) [239; 69; 1; 2] 5004 300 None
    [OpDscp 0 34; OpSend 1 [Some 9]; OpClose; OpSend 1 [Some 8]] ltac:(lia)) eq_refl ltac:(lia))
    as (s & opts & dest & H1 & H2 & H3 & _ & H4 & _).
  exists s, opts, dest. split; [exact H1|]. split; [exact H2|]. split; [exact H3|exact H4].
Defined.
