(* ===== verification/Sdp.v ===== *)
(** sdp.c: the session description, three [snprintf] calls into one buffer.  A C
    string is the list of its bytes, without the terminating NUL. *)

From S2P Require Import Prelude.
From Stdlib Require Import Ascii.
From Stdlib Require String.
Export String.StringSyntax.

(** the bytes of a literal *)
Definition str (s : String.string) : list Z :=
  (fun a => Z.of_N (N_of_ascii a)) <$> String.list_ascii_of_string s.
Arguments str s%_string_scope.

(** [%d] and [%u] *)
Fixpoint digits (fuel : nat) (n : Z) (acc : list Z) : list Z :=
  match fuel with
  | O => acc
  | S fuel =>
      let acc := (48 + n mod 10) :: acc in
      if n / 10 =? 0 then acc else digits fuel (n / 10) acc
  end.
Definition dec (n : Z) : list Z :=
  if n <? 0 then 45 :: digits 20 (- n) [] else digits 20 n [].

Definition crlf : list Z := [13; 10].

(** [snprintf(out + off, n, ...)] of a formatted [text]: what fits and a NUL are
    stored, the length of the whole text is returned, or -1 when it exceeds [int] *)
Definition snprintf (out : buf Z) (off n : Z) (text : list Z) : res (Z * buf Z) :=
  let len := Z.of_nat (length text) in
  if len >? INT_MAX then mret (-1, out) else
  if n =? 0 then mret (len, out) else
  let stored := take (Z.to_nat (n - 1)) text ++ [0] in
  out ← blit out off (of_list stored) 0 (Z.of_nat (length stored));
  mret (len, out).

(** [struct sdp_params]; a NULL [ts_refclk] is [None] *)
Record sdp_params : Type := SdpParams {
  session_name : list Z;
  origin_ip : list Z;
  mcast_ip : list Z;
  mcast_port : Z;
  payload_type : Z;
  sdp_rate : Z;
  sdp_channels : Z;
  sdp_ttl : Z;
  ptime_ms : Z;
  ts_refclk : option (list Z);
  mediaclk_direct : Z;
}.

(** the three format strings *)
Definition sdp_head (p : sdp_params) : list Z :=
  let ptime := if ptime_ms p >? 0 then ptime_ms p else 1 in
  str "v=0" ++ crlf
  ++ str "o=- 1 1 IN IP4 " ++ origin_ip p ++ crlf
  ++ str "s=" ++ session_name p ++ crlf
  ++ str "c=IN IP4 " ++ mcast_ip p ++ str "/" ++ dec (sdp_ttl p) ++ crlf
  ++ str "t=0 0" ++ crlf
  ++ str "m=audio " ++ dec (mcast_port p) ++ str " RTP/AVP " ++ dec (payload_type p) ++ crlf
  ++ str "a=rtpmap:" ++ dec (payload_type p) ++ str " L24/" ++ dec (sdp_rate p) ++ str "/" ++ dec (sdp_channels p) ++ crlf
  ++ str "a=ptime:" ++ dec ptime ++ crlf.

Definition sdp_clock (refclk : list Z) (direct : Z) : list Z :=
  str "a=ts-refclk:ptp=IEEE1588-2008:" ++ refclk ++ crlf
  ++ str "a=mediaclk:direct=" ++ dec direct ++ crlf.

Definition sdp_tail : list Z := str "a=recvonly" ++ crlf.

(** one [snprintf] and the test that follows it: the new offset, or [None] *)
Definition append (out : buf Z) (cap off : Z) (text : list Z) : res (option Z * buf Z) :=
  let room := u64 (cap - off) in
  '(n, out) ← snprintf out off room text;
  if (n <? 0) || (u64 n >=? room) then mret (None, out) else mret (Some (u64 (off + u64 n)), out).

Definition sdp_build (out : buf Z) (cap : Z) (p : sdp_params) : res (Z * buf Z) :=
  '(o, out) ← append out cap 0 (sdp_head p);
  match o with
  | None => mret (-1, out)
  | Some off =>
      '(o, out) ← match ts_refclk p with
                  | Some refclk => append out cap off (sdp_clock refclk (mediaclk_direct p))
                  | None => mret (Some off, out)
                  end;
      match o with
      | None => mret (-1, out)
      | Some off =>
          '(o, out) ← append out cap off sdp_tail;
          match o with
          | None => mret (-1, out)
          | Some off => mret (off, out)
          end
      end
  end.

(** * Specification *)

Definition sdp_text (p : sdp_params) : list Z :=
  sdp_head p
  ++ match ts_refclk p with Some refclk => sdp_clock refclk (mediaclk_direct p) | None => [] end
  ++ sdp_tail.

(** the C string at the head of a buffer is [text] *)
Definition cstring (b : buf Z) (text : list Z) : Prop :=
  (forall i, 0 <= i < Z.of_nat (length text) -> get b i = text !! Z.to_nat i)
  /\ get b (Z.of_nat (length text)) = Some 0.

(** the number a digit string denotes *)
Fixpoint number (acc : Z) (l : list Z) : Z :=
  match l with [] => acc | d :: l => number (acc * 10 + (d - 48)) l end.

(** * Lemmas *)

Lemma number_app l1 : forall acc l2, number acc (l1 ++ l2) = number (number acc l1) l2.
Proof. induction l1 as [|d l1 IH]; intros acc l2; [done|]. apply IH. Qed.

Lemma digits_spec fuel : forall n acc,
  0 <= n < 10 ^ Z.of_nat fuel -> (0 < fuel)%nat ->
  exists l, digits fuel n acc = l ++ acc /\ l <> [] /\ number 0 l = n /\ Forall (fun d => 48 <= d < 58) l.
Proof.
  induction fuel as [|fuel IH]; intros n acc Hn Hf; [lia|]. cbn [digits].
  pose proof (Z.mod_pos_bound n 10 ltac:(lia)).
  destruct (Z.eqb_spec (n / 10) 0) as [E|N].
  - exists [48 + n mod 10]. split; [done|]. split; [done|]. split; [|repeat constructor; lia].
    cbn [number]. pose proof (Z.div_mod n 10). lia.
  - rewrite Nat2Z.inj_succ, Z.pow_succ_r in Hn by lia.
    destruct fuel as [|fuel].
    { cbn in Hn. destruct N. apply Z.div_small. lia. }
    destruct (IH (n / 10) (48 + n mod 10 :: acc)) as (l & E1 & E2 & E3 & E4); [|lia|].
    { split; [apply Z.div_pos; lia|apply Z.div_lt_upper_bound; lia]. }
    exists (l ++ [48 + n mod 10]). rewrite E1, <- app_assoc. split; [done|]. split; [by destruct l|].
    split; [|apply Forall_app; split; [done|repeat constructor; lia]].
    rewrite number_app, E3. cbn [number]. pose proof (Z.div_mod n 10). lia.
Qed.

(** a decimal field reads back as its value *)
Lemma dec_number n : 0 <= n <= INT_MAX -> number 0 (dec n) = n /\ Forall (fun d => 48 <= d < 58) (dec n).
Proof.
  unfold INT_MAX. intros Hn. unfold dec. rewrite (proj2 (Z.ltb_ge n 0)) by lia.
  destruct (digits_spec 20 n []) as (l & -> & _ & H1 & H2); [change (10 ^ Z.of_nat 20) with 100000000000000000000; lia|lia|].
  by rewrite app_nil_r.
Qed.

(** the text stored so far *)
Definition stored (out0 : buf Z) (text : list Z) (out : buf Z) : Prop :=
  blen out = blen out0
  /\ (forall i, 0 <= i < Z.of_nat (length text) -> get out i = text !! Z.to_nat i)
  /\ (text <> [] -> get out (Z.of_nat (length text)) = Some 0).

Lemma ok_append_text out0 out cap text1 text2 (Q : option Z * buf Z -> Prop) :
  stored out0 text1 out -> text2 <> [] ->
  0 <= cap <= blen out0 -> cap < 18446744073709551616 ->
  Z.of_nat (length text1) < cap \/ (text1 = [] /\ cap = 0) -> Z.of_nat (length text2) <= INT_MAX ->
  (Z.of_nat (length (text1 ++ text2)) < cap -> forall out',
     stored out0 (text1 ++ text2) out' -> Q (Some (Z.of_nat (length (text1 ++ text2))), out')) ->
  (cap <= Z.of_nat (length (text1 ++ text2)) -> forall out', blen out' = blen out0 -> Q (None, out')) ->
  ok (append out cap (Z.of_nat (length text1)) text2) Q.
Proof.
  intros (Hl & Ht & _) Hne Hcap H64 Hroom Hint Hfit Hfull. unfold append, snprintf.
  set (L1 := Z.of_nat (length text1)) in *. set (L2 := Z.of_nat (length text2)) in *.
  rewrite length_app, Nat2Z.inj_add in Hfit, Hfull. fold L1 L2 in Hfit, Hfull.
  assert (u64 (cap - L1) = cap - L1) as -> by (apply Z.mod_small; destruct Hroom as [|[-> ->]]; unfold L1; cbn; lia).
  rewrite Z.gtb_ltb, (proj2 (Z.ltb_ge INT_MAX L2)) by lia.
  assert (u64 L2 = L2) as E2 by (apply Z.mod_small; unfold INT_MAX in *; unfold L2 in *; lia).
  assert (0 <= L2) by (unfold L2; lia). assert (0 <= L1) by (unfold L1; lia).
  destruct (Z.eqb_spec (cap - L1) 0) as [E0|N0].
  { ok_step. ok_step. rewrite (proj2 (Z.ltb_ge L2 0)), E2 by lia. cbn [orb].
    rewrite Z.geb_leb, (proj2 (Z.leb_le _ _)) by lia. ok_step. apply Hfull; lia. }
  assert (L1 < cap) by (destruct Hroom as [|[-> ->]]; [done|unfold L1 in N0; cbn in N0; lia]).
  set (st := take (Z.to_nat (cap - L1 - 1)) text2 ++ [0]).
  assert (Z.of_nat (length st) = Z.min (cap - L1 - 1) L2 + 1) as Lst.
  { unfold st. rewrite length_app, length_take. cbn. unfold L2. lia. }
  ok_step. ok_step. apply ok_blit; try lia; [rewrite blen_of_list; lia|]. intros out' (B1 & B2 & B3).
  ok_step. rewrite (proj2 (Z.ltb_ge L2 0)), E2 by lia. cbn [orb]. rewrite Z.geb_leb.
  destruct (Z.leb_spec (cap - L1) L2) as [Hle|Hlt]; ok_step; [apply Hfull; [lia|congruence]|].
  assert (u64 (L1 + L2) = L1 + L2) as -> by (apply Z.mod_small; lia).
  assert (st = text2 ++ [0]) as Est by (unfold st; rewrite take_ge; [done|unfold L2 in *; lia]).
  apply Hfit; [lia|]. unfold stored. rewrite length_app, Nat2Z.inj_add. fold L1 L2.
  split; [congruence|]. rewrite Lst in B2, B3. split.
  - intros i Hi. destruct (decide (i < L1)) as [Hi1|Hi1].
    + rewrite B3, Ht by lia. by rewrite lookup_app_l by (unfold L1 in *; lia).
    + rewrite B2, get_of_list, Est by lia. rewrite (lookup_app_r text1) by (unfold L1 in *; lia).
      rewrite (lookup_app_l text2) by (unfold L1, L2 in *; lia). f_equal. unfold L1. lia.
  - intros _. rewrite B2, get_of_list, Est by lia.
    rewrite (lookup_app_r text2) by (unfold L2 in *; lia).
    replace (Z.to_nat (0 + (L1 + L2 - L1)) - length text2)%nat with 0%nat by (unfold L2; lia). done.
Qed.

(** the builder, whatever the capacity *)
Lemma ok_sdp_build out cap p (Q : Z * buf Z -> Prop) :
  0 <= cap <= blen out -> cap < 18446744073709551616 -> Z.of_nat (length (sdp_text p)) <= INT_MAX ->
  (Z.of_nat (length (sdp_text p)) < cap -> forall out', blen out' = blen out -> cstring out' (sdp_text p) ->
     Q (Z.of_nat (length (sdp_text p)), out')) ->
  (cap <= Z.of_nat (length (sdp_text p)) -> forall out', blen out' = blen out -> Q (-1, out')) ->
  ok (sdp_build out cap p) Q.
Proof.
  intros Hcap H64 Hlen Hfit Hfull. unfold sdp_build.
  set (T2 := match ts_refclk p with Some refclk => sdp_clock refclk (mediaclk_direct p) | None => [] end).
  assert (sdp_text p = sdp_head p ++ T2 ++ sdp_tail) as ET by done.
  assert (forall a b : list Z, Z.of_nat (length (a ++ b)) = Z.of_nat (length a) + Z.of_nat (length b)) as LA
    by (intros; rewrite length_app; lia).
  rewrite ET, !LA in Hlen, Hfit, Hfull.
  ok_step. apply (ok_append_text out out cap [] (sdp_head p)); [split; [done|split; [cbn; lia|done]]|done|done|done|destruct (decide (cap = 0)); [by right|left; cbn; lia]|lia| |]; cbn [app].
  2: { intros Hc out' Hb. ok_step. apply Hfull; [lia|done]. }
  intros Hc1 out1 S1. ok_step.
  assert (ok (match ts_refclk p with
      | Some refclk => append out1 cap (Z.of_nat (length (sdp_head p))) (sdp_clock refclk (mediaclk_direct p))
      | None => mret (Some (Z.of_nat (length (sdp_head p))), out1) end)
    (fun '(o, out2) => (o = None /\ cap <= Z.of_nat (length (sdp_head p ++ T2)) /\ blen out2 = blen out)
      \/ (o = Some (Z.of_nat (length (sdp_head p ++ T2))) /\ Z.of_nat (length (sdp_head p ++ T2)) < cap
          /\ stored out (sdp_head p ++ T2) out2))) as H.
  { unfold T2 in *. destruct (ts_refclk p) as [rc|].
    - apply (ok_append_text out out1 cap (sdp_head p)); [done|done|done|done|by left|lia| |].
      + intros Hc out' S'. right. done.
      + intros Hc out' Hb. left. done.
    - ok_step. right. by rewrite app_nil_r. }
  eapply ok_mono; [exact H|]. intros [o out2] [(-> & Hc & Hb)|(-> & Hc & S2)].
  { ok_step. apply Hfull; [rewrite LA in Hc; lia|done]. }
  ok_step. apply (ok_append_text out out2 cap (sdp_head p ++ T2)); [done|done|done|done|by left|lia| |].
  - rewrite <- app_assoc, <- ET. intros Hc3 out3 (B1 & B2 & B3). ok_step. rewrite ET, !LA in *.
    apply Hfit; [lia|done|]. split; [rewrite !LA; done|]. rewrite !LA. by apply B3.
  - rewrite <- app_assoc. rewrite !LA. intros Hc3 out3 Hb. ok_step. apply Hfull; [lia|done].
Qed.
