(* ===== verification/Sap.v ===== *)
(** sap.c, and the announcer of main.c built on it: the SAP packet that carries a
    stream's description, its message-id hash, and when it is sent. *)

From S2P Require Import Prelude Send Sdp.

Definition SAP_MIME : list Z := str "application/sdp".

(** reading a C string from a buffer *)
Fixpoint c_string (fuel : nat) (b : buf Z) (i : Z) : res (list Z) :=
  match fuel with
  | O => Err OutOfBounds
  | S fuel => v ← rd b i; if v =? 0 then mret [] else l ← c_string fuel b (i + 1); mret (v :: l)
  end.

Section Sap.
Context {I : InetPton}.

Definition sap_build (out : buf Z) (cap : Z) (origin : list Z) (msg_id_hash : Z) (sdp : list Z)
  : res (Z * buf Z) :=
  match inet_pton origin with
  | None => mret (-1, out)
  | Some a =>
      let mime_len := Z.of_nat (length SAP_MIME) + 1 in
      let sdp_len := Z.of_nat (length sdp) in
      let total := u64 (8 + mime_len + sdp_len) in
      if cap <? total then mret (-1, out) else
      out ← wr out 0 32;
      out ← wr out 1 0;
      out ← wr out 2 (u8 (Z.shiftr msg_id_hash 8));
      out ← wr out 3 (u8 (Z.land msg_id_hash 255));
      out ← blit out 4 (of_list a) 0 4;
      out ← blit out 8 (of_list (SAP_MIME ++ [0])) 0 mime_len;
      out ← blit out (8 + mime_len) (of_list sdp) 0 sdp_len;
      mret (total, out)
  end.

(** [h * 31 + c] over the bytes of the string; 0 is avoided *)
Definition sap_hash (s : list Z) : Z :=
  let h := foldl (fun h c => u16 (h * 31 + c)) 4660 s in
  if h =? 0 then 1 else h.

Definition SAP_MCAST_ADDR : list Z := str "224.0.0.56".
Definition SAP_PORT : Z := 9875.

(** [struct sap_announcer] *)
Record sap_announcer : Type := SapAnnouncer {
  sa_snd : aes67_sender;
  sa_pkt : buf Z;      (* uint8_t[1024] *)
  sa_len : Z;
  sa_active : bool;
}.

(** [sa0] is what the object held before; [calloc_ok], [socket_] and [ioctl] are
    the kernel's answers to [aes67_send_open]; besides the result, the system
    calls made *)
Definition sap_announcer_start (sa0 : sap_announcer) (calloc_ok : bool) (socket_ : Z) (ioctl : list Z -> option (list Z))
  (name : option (list Z)) (mcast : list Z) (port pt rate channels ttl : Z) (origin iface : option (list Z))
  : res (Z * sap_announcer * list syscall) :=
  let sp := SdpParams (default (str "REAC") name) (default (str "0.0.0.0") origin) mcast port pt rate channels ttl
              0 None 0 in
  '(n, sdp) ← sdp_build (undef 768) 768 sp;
  if n <? 0 then mret (-1, SapAnnouncer (sa_snd sa0) (sa_pkt sa0) (sa_len sa0) false, []) else
  text ← c_string 768 sdp 0;
  '(len, pkt) ← sap_build (sa_pkt sa0) 1024 (origin_ip sp) (sap_hash text) text;
  if len <? 0 then mret (-1, SapAnnouncer (sa_snd sa0) pkt len false, []) else
  let '(r, snd, calls) := aes67_send_open calloc_ok socket_ ioctl SAP_MCAST_ADDR SAP_PORT ttl iface in
  if negb (r =? 0) then mret (-1, SapAnnouncer snd pkt len false, calls) else
  mret (0, SapAnnouncer snd pkt len true, calls).

(** the system calls of [sap_announce] *)
Definition sap_announce (sa : sap_announcer) : list syscall :=
  if sa_active sa then (aes67_send_packet 0 (sa_snd sa) (upto (sa_pkt sa) (sa_len sa))).2 else [].

Definition sap_announcer_stop (sa : sap_announcer) : sap_announcer * list syscall :=
  if sa_active sa then
    let '(snd, calls) := aes67_send_close (sa_snd sa) in
    (SapAnnouncer snd (sa_pkt sa) (sa_len sa) false, calls)
  else (sa, []).

(** * Specification: what an RFC 2974 receiver reads in a datagram *)

Record announcement : Type := Announcement {
  an_hash : Z; an_origin : list Z; an_mime : list Z; an_body : list Z;
}.

(** initialised bytes [i .. i + n - 1] *)
Definition bytes_at (b : buf Z) (i n : Z) : option (list Z) := mapM (get b) (seqZ i n).

(** SAPv1, IPv4, announcement, no authentication data, plain payload *)
Definition parse_sap (b : buf Z) : option announcement :=
  h ← bytes_at b 0 8;
  match h with
  | [32; 0; h1; h0; a0; a1; a2; a3] =>
      m ← bytes_at b 8 (Z.of_nat (length SAP_MIME));
      z ← get b (8 + Z.of_nat (length SAP_MIME));
      if negb (z =? 0) then None else
      let start := 9 + Z.of_nat (length SAP_MIME) in
      body ← bytes_at b start (blen b - start);
      Some (Announcement (h1 * 256 + h0) [a0; a1; a2; a3] m body)
  | _ => None
  end.

(** * Lemmas *)

Lemma sap_hash_range s : Forall (fun b => 0 <= b < 256) s -> 0 < sap_hash s < 65536.
Proof.
  intros Hs. unfold sap_hash.
  assert (forall h, 0 <= h < 65536 -> 0 <= foldl (fun h c => u16 (h * 31 + c)) h s < 65536) as H.
  { induction Hs as [|c s _ _ IH]; intros h Hh; [done|]. cbn [foldl]. apply IH, u16_range. }
  specialize (H 4660 ltac:(lia)). cbv zeta. destruct (Z.eqb_spec (foldl (fun h c => u16 (h * 31 + c)) 4660 s) 0); lia.
Qed.

Lemma ok_c_string b text : forall fuel i,
  (forall k, 0 <= k < Z.of_nat (length text) -> get b (i + k) = text !! Z.to_nat k) ->
  get b (i + Z.of_nat (length text)) = Some 0 -> Forall (fun c => c <> 0) text ->
  (length text < fuel)%nat -> c_string fuel b i = Ok text.
Proof.
  induction text as [|c text IH]; intros fuel i Ht Hz Hn Hf; (destruct fuel as [|fuel]; [cbn in Hf; lia|]); cbn [c_string].
  - cbn [length Z.of_nat] in Hz. rewrite Z.add_0_r in Hz. rewrite (proj2 (rd_get _ _ _) Hz). done.
  - apply Forall_cons_1 in Hn as [Hc Hn]. cbn [length] in Ht, Hz, Hf.
    assert (get b i = Some c) as Ec by (rewrite <- (Z.add_0_r i), Ht by lia; done).
    rewrite (proj2 (rd_get _ _ _) Ec). cbn [mbind res_bind]. rewrite (proj2 (Z.eqb_neq c 0) Hc).
    rewrite (IH fuel (i + 1)); [done| | |done|lia].
    + intros k Hk. replace (i + 1 + k) with (i + (k + 1)) by lia. rewrite Ht by lia.
      replace (Z.to_nat (k + 1)) with (S (Z.to_nat k)) by lia. done.
    + rewrite <- Hz. f_equal. lia.
Qed.

Lemma bytes_at_list b i (l : list Z) :
  (forall k, 0 <= k < Z.of_nat (length l) -> get b (i + k) = l !! Z.to_nat k) ->
  bytes_at b i (Z.of_nat (length l)) = Some l.
Proof.
  intros H. unfold bytes_at. apply mapM_Some_2. revert i H. induction l as [|c l IH]; intros i H; [constructor|].
  cbn [length]. rewrite Nat2Z.inj_succ, seqZ_cons by lia. constructor.
  - rewrite <- (Z.add_0_r i), H by (cbn [length]; lia). done.
  - replace (Z.pred (Z.succ (Z.of_nat (length l)))) with (Z.of_nat (length l)) by lia. apply IH.
    intros k Hk. replace (Z.succ i + k) with (i + (k + 1)) by lia. rewrite H by (cbn [length]; lia).
    replace (Z.to_nat (k + 1)) with (S (Z.to_nat k)) by lia. done.
Qed.

(** ** The characters and the size of a description *)

Lemma dec_chars n : Forall (fun c => 0 < c < 256) (dec n).
Proof.
  assert (forall fuel k acc, Forall (fun c => 0 < c < 256) acc -> Forall (fun c => 0 < c < 256) (digits fuel k acc)) as H.
  { induction fuel as [|fuel IH]; intros k acc Hacc; [done|]. cbn [digits]. cbv zeta.
    pose proof (Z.mod_pos_bound k 10 ltac:(lia)).
    destruct (_ =? 0); [|apply IH]; constructor; (done || lia). }
  unfold dec. destruct (n <? 0); [constructor; [lia|]|]; by apply H.
Qed.

Lemma dec_length n : (length (dec n) <= 21)%nat.
Proof.
  assert (forall fuel k acc, (length (digits fuel k acc) <= fuel + length acc)%nat) as H.
  { induction fuel as [|fuel IH]; intros k acc; [cbn; lia|]. cbn [digits]. cbv zeta.
    destruct (_ =? 0); [cbn; lia|]. etrans; [apply IH|]. cbn. lia. }
  unfold dec. destruct (n <? 0); [cbn [length]|]; pose proof (H 20%nat (-n) []); pose proof (H 20%nat n []);
    cbn [length] in *; lia.
Qed.

Lemma sdp_text_chars p :
  Forall (fun c => 0 < c < 256) (session_name p) -> Forall (fun c => 0 < c < 256) (origin_ip p) ->
  Forall (fun c => 0 < c < 256) (mcast_ip p) -> Forall (fun c => 0 < c < 256) (default [] (ts_refclk p)) ->
  Forall (fun c => 0 < c < 256) (sdp_text p).
Proof.
  intros H1 H2 H3 H4. unfold sdp_text, sdp_head, sdp_clock, sdp_tail. cbv zeta.
  destruct (ts_refclk p) as [rc|]; rewrite !Forall_app;
    repeat split; try done; try apply dec_chars; repeat constructor; lia.
Qed.

Lemma sdp_text_length p :
  Z.of_nat (length (session_name p)) <= 1000000 -> Z.of_nat (length (origin_ip p)) <= 1000000 ->
  Z.of_nat (length (mcast_ip p)) <= 1000000 -> ts_refclk p = None ->
  Z.of_nat (length (sdp_text p)) <= INT_MAX.
Proof.
  intros H1 H2 H3 E. unfold sdp_text, sdp_head, sdp_tail, INT_MAX. rewrite E. cbv zeta.
  rewrite !length_app. pose proof dec_length as Hd.
  pose proof (Hd (sdp_ttl p)). pose proof (Hd (mcast_port p)). pose proof (Hd (payload_type p)).
  pose proof (Hd (sdp_rate p)). pose proof (Hd (sdp_channels p)).
  pose proof (Hd (if ptime_ms p >? 0 then ptime_ms p else 1)).
  repeat match goal with |- context [length (str ?s)] => let n := eval vm_compute in (length (str s)) in
    change (length (str s)) with n end.
  change (length crlf) with 2%nat. cbn [length]. lia.
Qed.

Context {ID : InetDoc I}.

(** the builder: an announcement a receiver parses, or -1 *)
Lemma ok_sap_build out cap origin h sdp a (Q : Z * buf Z -> Prop) :
  inet_pton origin = Some a -> 0 <= h < 65536 -> 0 <= cap <= blen out ->
  Z.of_nat (length sdp) < 4294967296 ->
  (24 + Z.of_nat (length sdp) <= cap -> forall out', blen out' = blen out ->
     parse_sap (upto out' (24 + Z.of_nat (length sdp))) = Some (Announcement h a SAP_MIME sdp) ->
     Q (24 + Z.of_nat (length sdp), out')) ->
  (cap < 24 + Z.of_nat (length sdp) -> Q (-1, out)) ->
  ok (sap_build out cap origin h sdp) Q.
Proof.
  intros Ha Hh Hcap Hs Hfit Hfull. destruct (inet_len _ _ Ha) as [La Ba]. unfold sap_build. rewrite Ha.
  change (Z.of_nat (length SAP_MIME) + 1) with 16. change (8 + 16) with 24. cbv zeta.
  set (n := Z.of_nat (length sdp)) in *. assert (0 <= n) by (unfold n; lia).
  assert (u64 (24 + n) = 24 + n) as -> by (apply Z.mod_small; lia).
  destruct (Z.ltb_spec cap (24 + n)) as [Hlt|Hge]; [ok_step; by apply Hfull|].
  ok_steps. apply ok_blit; rewrite ?blen_upd, ?blen_of_list; try lia. intros o1 (L1 & A1 & B1).
  rewrite !blen_upd in L1. ok_step.
  apply ok_blit; rewrite ?blen_of_list; try lia; [done|]. intros o2 (L2 & A2 & B2). ok_step.
  apply ok_blit; rewrite ?blen_of_list; try lia. intros o3 (L3 & A3 & B3). ok_step.
  apply Hfit; [done|congruence|].
  assert (forall i, i < 24 -> get o3 i = get o2 i) as G3 by (intros; apply B3; lia).
  assert (forall i, i < 8 -> get o3 i = get o1 i) as G2 by (intros; rewrite G3 by lia; apply B2; lia).
  destruct a as [|a0 [|a1 [|a2 [|a3 [|]]]]]; try done.
  assert (u8 (Z.shiftr h 8) = h / 256) as E1.
  { unfold u8. rewrite Z.shiftr_div_pow2 by lia. change (2 ^ 8) with 256. apply Z.mod_small. Z.div_mod_to_equations; lia. }
  assert (u8 (Z.land h 255) = h mod 256) as E0.
  { unfold u8. change 255 with (Z.ones 8). rewrite Z.land_ones by lia. change (2 ^ 8) with 256. apply Zmod_mod. }
  unfold parse_sap. rewrite blen_upto by lia.
  assert (bytes_at (upto o3 (24 + n)) 0 8 = Some [32; 0; h / 256; h mod 256; a0; a1; a2; a3]) as ->.
  { apply (bytes_at_list _ 0 [32; 0; h / 256; h mod 256; a0; a1; a2; a3]). intros k Hk. cbn [length] in Hk.
    rewrite get_upto, G2 by lia. rewrite <- E0, <- E1.
    assert (k = 0 \/ k = 1 \/ k = 2 \/ k = 3 \/ 4 <= k) as HC by lia.
    destruct HC as [->|[->|[->|[->|HC]]]]; [rewrite B1 by lia; get_upds; done..|].
    rewrite A1, get_of_list by lia.
    assert (k = 4 \/ k = 5 \/ k = 6 \/ k = 7) as [->|[->|[->| ->]]] by lia; done. }
  cbn [mbind option_bind].
  assert (bytes_at (upto o3 (24 + n)) 8 (Z.of_nat (length SAP_MIME)) = Some SAP_MIME) as ->.
  { apply bytes_at_list. intros k Hk. change (Z.of_nat (length SAP_MIME)) with 15 in Hk.
    rewrite get_upto, G3, A2, get_of_list by lia. rewrite lookup_app_l by (change (length SAP_MIME) with 15%nat; lia).
    f_equal. lia. }
  cbn [mbind option_bind]. change (8 + Z.of_nat (length SAP_MIME)) with 23. change (9 + Z.of_nat (length SAP_MIME)) with 24.
  rewrite get_upto, G3, A2, get_of_list by lia. change ((SAP_MIME ++ [0]) !! Z.to_nat (0 + (23 - 8))) with (Some 0).
  cbn [mbind option_bind Z.eqb negb]. replace (24 + n - 24) with n by lia. unfold n at 2.
  rewrite (bytes_at_list _ 24 sdp).
  - cbn [mbind option_bind]. do 2 f_equal. pose proof (Z.div_mod h 256). lia.
  - intros k Hk. fold n in Hk. rewrite get_upto, A3, get_of_list by lia. f_equal. lia.
Qed.

(** the announcer of a stream *)
Section Start.
Context (sa0 : sap_announcer) (calloc_ok : bool) (socket_ : Z) (ioctl : list Z -> option (list Z)).
Context (name : option (list Z)) (mcast : list Z) (port pt rate channels ttl : Z) (origin iface : option (list Z)).

Definition origin_text : list Z := default (str "0.0.0.0") origin.
Definition announced_text : list Z :=
  sdp_text (SdpParams (default (str "REAC") name) origin_text mcast port pt rate channels ttl 0 None 0).

Context (Hpkt : blen (sa_pkt sa0) = 1024)
  (Hchars : Forall (Forall (fun c => 0 < c < 256)) [default (str "REAC") name; origin_text; mcast])
  (Hlen : Forall (fun l => Z.of_nat (length l) <= 1000000) [default (str "REAC") name; origin_text; mcast]).

Lemma announced_chars : Forall (fun c => 0 < c < 256) announced_text /\ Z.of_nat (length announced_text) <= INT_MAX.
Proof.
  apply Forall_cons_1 in Hchars as [N1 [N2 [N3 _]%Forall_cons_1]%Forall_cons_1].
  apply Forall_cons_1 in Hlen as [K1 [K2 [K3 _]%Forall_cons_1]%Forall_cons_1].
  split; [by apply sdp_text_chars|by apply sdp_text_length].
Qed.

(** the message of an announcer *)
Definition message_ok (sa : sap_announcer) : Prop :=
  exists a, inet_pton origin_text = Some a
    /\ parse_sap (upto (sa_pkt sa) (sa_len sa)) = Some (Announcement (sap_hash announced_text) a SAP_MIME announced_text).

Lemma ok_sap_announcer_start :
  ok (sap_announcer_start sa0 calloc_ok socket_ ioctl name mcast port pt rate channels ttl origin iface)
    (fun '(r, sa, calls) =>
      if decide (is_Some (inet_pton origin_text) /\ Z.of_nat (length announced_text) < 768) then
        let '(r', snd, calls') := aes67_send_open calloc_ok socket_ ioctl SAP_MCAST_ADDR SAP_PORT ttl iface in
        r = (if r' =? 0 then 0 else -1) /\ calls = calls' /\ sa_snd sa = snd /\ sa_active sa = (r' =? 0) /\ message_ok sa
      else r = -1 /\ calls = [] /\ sa_active sa = false).
Proof.
  pose proof announced_chars as [HT HL].
  unfold sap_announcer_start. fold origin_text. set (sp := SdpParams _ _ _ _ _ _ _ _ _ _ _).
  assert (sdp_text sp = announced_text) as Et by done. cbv zeta. ok_step.
  apply (ok_sdp_build (undef 768) 768 sp); rewrite ?Et; [rewrite blen_undef; lia|lia|done| |].
  2: { intros Hc out' _. change (-1 <? 0) with true. cbv iota. ok_step. rewrite decide_False by lia. done. }
  intros Hc out' Hb [HS1 HS2]. rewrite (proj2 (Z.ltb_ge _ 0)) by lia. ok_step.
  assert (c_string 768 out' 0 = Ok announced_text) as ->.
  { apply ok_c_string; [done|done| |lia]. eapply Forall_impl; [exact HT|]. cbn. lia. }
  ok_step. ok_step. change (origin_ip sp) with origin_text.
  assert (0 <= sap_hash announced_text < 65536) as Hh.
  { pose proof (sap_hash_range announced_text) as Hr. lapply Hr; [lia|]. eapply Forall_impl; [exact HT|]. cbn. lia. }
  unfold message_ok.
  destruct (decide (is_Some (inet_pton origin_text) /\ Z.of_nat (length announced_text) < 768)) as [[[a Ea] _]|HD].
  - eapply (ok_sap_build (sa_pkt sa0) 1024 origin_text (sap_hash announced_text) announced_text a); [done|done|lia|lia| |lia].
    intros _ out2 Hb2 HP. rewrite (proj2 (Z.ltb_ge _ 0)) by lia.
    destruct (aes67_send_open _ _ _ _ _ _ _) as [[r' snd] calls']. destruct (r' =? 0) eqn:E; cbn [negb]; ok_step;
      cbn [sa_snd sa_active sa_pkt sa_len]; repeat (split; [done|]); by exists a.
  - destruct (inet_pton origin_text) as [a|] eqn:Ea; [destruct HD; split; [by exists a|lia]|].
    unfold sap_build. rewrite Ea. ok_step. change (-1 <? 0) with true. cbv iota. by ok_step.
Qed.

(** ready or not *)
Lemma ok_sap_started :
  ok (sap_announcer_start sa0 calloc_ok socket_ ioctl name mcast port pt rate channels ttl origin iface)
    (fun '(r, sa, calls) =>
    (forall a g, inet_pton origin_text = Some a -> Z.of_nat (length announced_text) < 768 ->
         calloc_ok = true -> inet_pton SAP_MCAST_ADDR = Some g -> 0 <= socket_ ->
         r = 0 /\ (exists opts, calls = Setsockopt socket_ <$> opts)
         /\ (exists d, sap_announce sa = [Sendto socket_ d (SockAddr g (htons SAP_PORT))]
             /\ parse_sap d = Some (Announcement (sap_hash announced_text) a (str "application/sdp") announced_text)
             /\ 0 < sap_hash announced_text < 65536)
         /\ (sap_announcer_stop sa).2 = [Close socket_] /\ sap_announce (sap_announcer_stop sa).1 = [])
    /\ (inet_pton origin_text = None \/ 768 <= Z.of_nat (length announced_text)
         \/ calloc_ok = false \/ inet_pton SAP_MCAST_ADDR = None \/ socket_ < 0 ->
         r = -1 /\ calls = [] /\ sap_announce sa = [] /\ sap_announcer_stop sa = (sa, []))).
Proof.
  pose proof announced_chars as [HT HL].
  eapply ok_mono; [apply ok_sap_announcer_start|]. intros [[r sa] calls] H.
  unfold sap_announcer_stop, sap_announce, aes67_send_open in *. split.
  - intros a g Ea Hl -> Eg Hs. rewrite decide_True, Eg in H by (split; [by exists a|done]). cbn [negb] in H.
    rewrite (proj2 (Z.ltb_ge _ 0)) in H by done. cbn [Z.eqb] in H.
    destruct H as (-> & -> & Hsnd & -> & a' & Ea' & Hp). rewrite Ea in Ea'. injection Ea' as <-.
    rewrite Hsnd. unfold aes67_send_packet, aes67_send_close. cbn [sd_fd sd_dest].
    rewrite (proj2 (Z.ltb_ge _ 0)) by done. rewrite Z.geb_leb, (proj2 (Z.leb_le 0 _)) by done.
    split; [done|]. split; [by eexists|]. split; [|done]. eexists. split; [done|]. split; [exact Hp|].
    apply sap_hash_range. eapply Forall_impl; [exact HT|]. cbn. lia.
  - intros Hbad. case_decide as HD.
    + destruct HD as [[a Ea] Hl]. destruct Hbad as [?|[?|Hbad]]; [congruence|lia|].
      destruct calloc_ok; cbn [negb] in H; [|by destruct H as (-> & -> & _ & -> & _)].
      destruct (inet_pton SAP_MCAST_ADDR); [|by destruct H as (-> & -> & _ & -> & _)].
      destruct Hbad as [?|[?|Hneg]]; [done|done|]. rewrite (proj2 (Z.ltb_lt _ 0)) in H by done.
      by destruct H as (-> & -> & _ & -> & _).
    + by destruct H as (-> & -> & ->).
Qed.

(** C29: announcing a stream.  When the description of the stream fits the
    announcer's buffer, its origin is an IPv4 address and a socket can be had,
    starting the announcer succeeds, and each announcement is one datagram to
    the SAP group that an RFC 2974 receiver parses: the origin is the address,
    the payload type application/sdp, the body exactly the stream's SDP text,
    the message-id hash the non-zero hash of that text; stopping closes the
    socket, and nothing is announced afterwards.  Otherwise the call fails and
    nothing is ever announced. *)
Theorem sap_announcement :
  exists r sa calls,
    sap_announcer_start sa0 calloc_ok socket_ ioctl name mcast port pt rate channels ttl origin iface = Ok (r, sa, calls)
    /\ (forall a g, inet_pton origin_text = Some a -> Z.of_nat (length announced_text) < 768 ->
         calloc_ok = true -> inet_pton SAP_MCAST_ADDR = Some g -> 0 <= socket_ ->
         r = 0 /\ (exists opts, calls = Setsockopt socket_ <$> opts)
         /\ (exists d, sap_announce sa = [Sendto socket_ d (SockAddr g (htons SAP_PORT))]
             /\ parse_sap d = Some (Announcement (sap_hash announced_text) a (str "application/sdp") announced_text)
             /\ 0 < sap_hash announced_text < 65536)
         /\ (sap_announcer_stop sa).2 = [Close socket_] /\ sap_announce (sap_announcer_stop sa).1 = [])
    /\ (inet_pton origin_text = None \/ 768 <= Z.of_nat (length announced_text)
         \/ calloc_ok = false \/ inet_pton SAP_MCAST_ADDR = None \/ socket_ < 0 ->
         r = -1 /\ calls = [] /\ sap_announce sa = [] /\ sap_announcer_stop sa = (sa, [])).
Proof. apply ok_iff3, ok_sap_started. Qed.
End Start.
End Sap.

(** two streams that differ in their group alone and share a message-id hash *)
Lemma sap_hash_collision :
  let text mcast := sdp_text (SdpParams (str "REAC") (str "0.0.0.0") mcast 5004 97 48000 40 1 0 None 0) in
  sap_hash (text (str "239.69.5.0")) = sap_hash (text (str "239.69.8.162"))
  /\ text (str "239.69.5.0") <> text (str "239.69.8.162").
Proof. split; [by vm_compute|]. intros H. vm_compute in H. discriminate H. Qed.

(** an [inet_pton] that knows two addresses *)
Definition two_addresses : InetPton :=
  {| inet_pton s := if decide (s = str "10.0.0.9") then Some [10; 0; 0; 9]
                    else if decide (s = str "224.0.0.56") then Some [224; 0; 0; 56] else None |}.

Lemma two_addresses_doc : InetDoc two_addresses.
Proof.
  split. intros s a. unfold inet_pton; cbn. repeat case_decide; [| |done]; intros [= <-];
    (split; [done|]); repeat constructor; lia.
Qed.

Definition no_announcer : sap_announcer := SapAnnouncer (Sender (-1) None) (undef 1024) 0 false.

Lemma sap_announcement_witness :
  exists sa calls d, sap_announcer_start (I := two_addresses) no_announcer true 9 (fun _ => None) (Some (str "STAGE"))
      (str "239.69.10.1") 5004 97 48000 40 1 (Some (str "10.0.0.9")) None = Ok (0, sa, calls)
    /\ sap_announce sa = [Sendto 9 d (SockAddr [224; 0; 0; 56] (htons 9875))]
    /\ exists an, parse_sap d = Some an /\ an_origin an = [10; 0; 0; 9] /\ 0 < an_hash an < 65536.
Proof.
  destruct (sap_announcement (I := two_addresses) (ID := two_addresses_doc) no_announcer true 9 (fun _ => None)
    (Some (str "STAGE")) (str "239.69.10.1") 5004 97 48000 40 1 (Some (str "10.0.0.9")) None ltac:(by vm_compute)
    ltac:(repeat constructor; cbn; lia) ltac:(repeat constructor; by vm_compute)) as (r & sa & calls & H1 & H2 & _).
  destruct (H2 [10; 0; 0; 9] [224; 0; 0; 56] ltac:(by vm_compute) ltac:(by vm_compute) eq_refl ltac:(by vm_compute) ltac:(lia))
    as (E & _ & (d & H3 & H4 & H5) & _).
  exists sa, calls, d. rewrite E in H1. split; [exact H1|]. split; [exact H3|].
  eexists. split; [exact H4|]. split; [reflexivity|exact H5].
Defined.
