(* ===== verification/Text.v ===== *)
(** main.c: the readers of the command line's numbers and addresses, [atoi],
    [strrchr] and [sscanf] of the C library as far as main.c uses them. *)

From S2P Require Import Prelude Send Sdp.

(** * The C library *)

Definition is_digit (c : Z) : bool := (48 <=? c) && (c <=? 57).
Definition is_space (c : Z) : bool := (c =? 32) || ((9 <=? c) && (c <=? 13)).

Fixpoint skip_space (s : list Z) : list Z :=
  match s with c :: s' => if is_space c then skip_space s' else s | [] => [] end.

Definition sign (s : list Z) : Z * list Z :=
  match s with
  | c :: s' => if c =? 45 then (-1, s') else if c =? 43 then (1, s') else (1, s)
  | [] => (1, [])
  end.

(** the value of the digits at the head, and the rest *)
Fixpoint decimal (acc : Z) (s : list Z) : Z * list Z :=
  match s with
  | c :: s' => if is_digit c then decimal (acc * 10 + (c - 48)) s' else (acc, s)
  | [] => (acc, [])
  end.

(** undefined when the value does not fit an [int]; 0 without digits *)
Definition atoi (s : list Z) : res Z :=
  let '(sg, s) := sign (skip_space s) in int (sg * (decimal 0 s).1).

(** index of the last [c] *)
Fixpoint strrchr (s : list Z) (c : Z) : option nat :=
  match s with
  | [] => None
  | x :: s => match strrchr s c with Some i => Some (S i) | None => if x =? c then Some O else None end
  end.

(** [%u]: [None] on a matching failure; undefined when the value does not fit *)
Definition scan_u (s : list Z) : res (option (Z * list Z)) :=
  let '(sg, s) := sign (skip_space s) in
  match s with
  | c :: _ =>
      if is_digit c then
        let '(v, s) := decimal 0 s in
        if v <? 4294967296 then mret (Some (u32 (sg * v), s)) else Err SignedOverflow
      else mret None
  | [] => mret None
  end.

(** a literal character of the format *)
Definition scan_char (c : Z) (s : list Z) : option (list Z) :=
  match s with x :: s => if x =? c then Some s else None | [] => None end.

(** [sscanf(s, "%u.%u.%u.%u", ...)] after the first [length got] conversions:
    the values, when all of them succeed *)
Fixpoint scan_quad (n : nat) (got : list Z) (s : list Z) : res (option (list Z)) :=
  r ← scan_u s;
  match r with
  | None => mret None
  | Some (v, s) =>
      match n with
      | O => mret (Some (got ++ [v]))
      | S n => match scan_char 46 s with
               | Some s => scan_quad n (got ++ [v]) s
               | None => mret None
               end
      end
  end.

(** * main.c *)

(** [parse_ipport]: the return value, the buffer [ip] and [*port] if it is set *)
Definition parse_ipport (s : list Z) (ip : buf Z) (ipcap : Z) : res (Z * buf Z * option Z) :=
  match strrchr s 58 with
  | None => mret (-1, ip, None)
  | Some colon =>
      let hl := Z.of_nat colon in
      if (hl =? 0) || (hl >=? ipcap) then mret (-1, ip, None) else
      ip ← blit ip 0 (of_list s) 0 hl;
      ip ← wr ip hl 0;
      p ← atoi (drop (S colon) s);
      if (p <=? 0) || (p >? 65535) then mret (-1, ip, None) else
      mret (0, ip, Some (u16 p))
  end.

(** the entry of an option in a table of them *)
Fixpoint assoc {B} (k : list Z) (l : list (list Z * B)) : option B :=
  match l with [] => None | (k', b) :: l => if decide (k = k') then Some b else assoc k l end.

Definition dot : list Z := [46].

Definition ipv4_add_octet (base : list Z) (add : Z) (out : buf Z) (cap : Z) : res (Z * buf Z) :=
  r ← scan_quad 3 [] base;
  match r with
  | Some [a; b; c; d] =>
      if (a >? 255) || (b >? 255) || (c >? 255) || (d >? 255) then mret (-1, out) else
      let last := u32 (d + u32 add) in
      if last >? 255 then mret (-1, out) else
      '(_, out) ← snprintf out 0 cap (dec a ++ dot ++ dec b ++ dot ++ dec c ++ dot ++ dec last);
      mret (0, out)
  | _ => mret (-1, out)
  end.

(** * Specification *)

Definition dotted (a b c d : Z) : list Z := dec a ++ dot ++ dec b ++ dot ++ dec c ++ dot ++ dec d.

Definition octet (x : Z) : Prop := 0 <= x <= 255.

(** * Lemmas *)

Lemma is_digit_iff c : is_digit c = true <-> 48 <= c < 58.
Proof. unfold is_digit. rewrite andb_true_iff, !Z.leb_le. lia. Qed.

Definition stops (rest : list Z) : Prop := match rest with c :: _ => is_digit c = false | [] => True end.

Lemma decimal_digits l rest : Forall (fun d => 48 <= d < 58) l -> stops rest ->
  forall acc, decimal acc (l ++ rest) = (number acc l, rest).
Proof.
  intros HF Hr. induction HF as [|c l Hc _ IH]; intros acc; cbn [app decimal number].
  - by destruct rest as [|c rest]; cbn [decimal]; [|rewrite Hr].
  - by rewrite (proj2 (is_digit_iff c)).
Qed.

Lemma assoc_in {B} k (l : list (list Z * B)) b : assoc k l = Some b -> k ∈ l.*1.
Proof.
  induction l as [|[k' b'] l IH]; [done|]. cbn [assoc fmap list_fmap fst]. destruct (decide (k = k')) as [->|]; [by left|].
  intros H. right. by apply IH.
Qed.

Lemma dec_cons n : 0 <= n <= INT_MAX -> exists c l, dec n = c :: l /\ 48 <= c < 58.
Proof.
  intros Hn. destruct (dec_number n Hn) as [H1 H2]. destruct (dec n) as [|c l] eqn:E.
  - unfold dec in E. rewrite (proj2 (Z.ltb_ge n 0)) in E by lia. unfold INT_MAX in Hn.
    destruct (digits_spec 20 n []) as (k & Hk & Hne & _); [change (10 ^ Z.of_nat 20) with 100000000000000000000; lia|lia|].
    rewrite Hk, app_nil_r in E. done.
  - apply Forall_cons_1 in H2 as [Hc _]. by exists c, l.
Qed.

(** a decimal field is read back, and reading stops behind it *)
Lemma head_number n rest : 0 <= n <= INT_MAX -> stops rest ->
  sign (skip_space (dec n ++ rest)) = (1, dec n ++ rest) /\ decimal 0 (dec n ++ rest) = (n, rest).
Proof.
  intros Hn Hr. destruct (dec_number n Hn) as [H1 H2]. split.
  - destruct (dec_cons n Hn) as (c & l & -> & Hc). cbn [app skip_space].
    assert (is_space c = false) as ->.
    { unfold is_space. apply orb_false_iff. split; [apply Z.eqb_neq; lia|].
      apply andb_false_iff. right. apply Z.leb_gt. lia. }
    cbn [sign]. by rewrite (proj2 (Z.eqb_neq c 45)), (proj2 (Z.eqb_neq c 43)) by lia.
  - by rewrite decimal_digits, H1.
Qed.

Lemma atoi_dec n : 0 <= n <= INT_MAX -> atoi (dec n) = Ok n.
Proof.
  intros Hn. destruct (head_number n [] Hn I) as [H1 H2]. rewrite app_nil_r in H1, H2.
  unfold atoi. rewrite H1, H2. cbn [fst]. rewrite Z.mul_1_l. apply ok_eq, ok_int; [unfold INT_MIN; lia|done].
Qed.

Lemma scan_u_dec n rest : 0 <= n <= INT_MAX -> stops rest -> scan_u (dec n ++ rest) = Ok (Some (n, rest)).
Proof.
  intros Hn Hr. destruct (head_number n rest Hn Hr) as [H1 H2]. unfold scan_u. rewrite H1.
  destruct (dec_cons n Hn) as (c & l & E & Hc). rewrite E in *. cbn [app] in *.
  rewrite (proj2 (is_digit_iff c) Hc), H2. unfold INT_MAX in Hn.
  rewrite (proj2 (Z.ltb_lt n _)), Z.mul_1_l, u32_small by lia. done.
Qed.

Lemma scan_quad_dotted a b c d rest : octet a -> octet b -> octet c -> 0 <= d <= INT_MAX -> stops rest ->
  scan_quad 3 [] (dotted a b c d ++ rest) = Ok (Some [a; b; c; d]).
Proof.
  unfold octet, dotted, dot. intros Ha Hb Hc Hd Hr. rewrite <- !app_assoc.
  assert (forall x, x <= 255 -> x <= INT_MAX) as Hx by (unfold INT_MAX; lia).
  cbn [scan_quad]. rewrite scan_u_dec by (done || intuition). cbn [mbind res_bind app scan_char Z.eqb Pos.eqb].
  rewrite scan_u_dec by (done || intuition). cbn [mbind res_bind app scan_char Z.eqb Pos.eqb].
  rewrite scan_u_dec by (done || intuition). cbn [mbind res_bind app scan_char Z.eqb Pos.eqb].
  by rewrite scan_u_dec by (done || intuition).
Qed.

Lemma strrchr_last s rest : 58 ∉ rest -> strrchr (s ++ 58 :: rest) 58 = Some (length s).
Proof.
  intros Hr. induction s as [|c s IH]; cbn [app strrchr length]; [|by rewrite IH].
  assert (strrchr rest 58 = None) as ->; [|done].
  induction rest as [|c rest IH]; [done|]. apply not_elem_of_cons in Hr as [Hc Hr]. cbn [strrchr].
  rewrite IH by done. by rewrite (proj2 (Z.eqb_neq c 58)).
Qed.

Lemma dec_no_colon n : 0 <= n <= INT_MAX -> 58 ∉ dec n.
Proof.
  intros Hn Hin. destruct (dec_number n Hn) as [_ HF].
  apply list_elem_of_In, (proj1 (List.Forall_forall _ _) HF) in Hin. lia.
Qed.

Lemma ok_snprintf_fits out cap text (Q : Z * buf Z -> Prop) :
  Z.of_nat (length text) < cap <= blen out -> Z.of_nat (length text) <= INT_MAX ->
  (forall out', blen out' = blen out -> cstring out' text -> Q (Z.of_nat (length text), out')) ->
  ok (snprintf out 0 cap text) Q.
Proof.
  intros Hc Hi HQ. unfold snprintf. rewrite Z.gtb_ltb, (proj2 (Z.ltb_ge INT_MAX _)) by lia.
  rewrite (proj2 (Z.eqb_neq cap 0)), take_ge by lia.
  ok_step. assert (Z.of_nat (length (text ++ [0])) = Z.of_nat (length text) + 1) as EL by (rewrite length_app; cbn; lia).
  apply ok_blit; try lia; [rewrite blen_of_list; lia|]. intros out' (B1 & B2 & B3). ok_step.
  apply HQ; [done|]. split.
  - intros i Hr. rewrite B2, get_of_list, lookup_app_l by lia. f_equal. lia.
  - rewrite B2, get_of_list by lia. rewrite lookup_app_r by lia.
    by replace (Z.to_nat (0 + (Z.of_nat (length text) - 0)) - length text)%nat with 0%nat by lia.
Qed.

(** four octets take at most fifteen characters *)
Lemma dec_octet_length n : octet n -> (length (dec n) <= 3)%nat.
Proof.
  unfold octet. intros Hn. assert (forallb (fun k => (length (dec (Z.of_nat k)) <=? 3)%nat) (seq 0 256) = true) as H by (vm_compute; reflexivity).
  rewrite forallb_forall in H. specialize (H (Z.to_nat n)). rewrite Z2Nat.id in H by lia.
  apply Nat.leb_le, H, in_seq. lia.
Qed.

Lemma dotted_length a b c d : octet a -> octet b -> octet c -> octet d -> (length (dotted a b c d) <= 15)%nat.
Proof.
  intros Ha Hb Hc Hd. unfold dotted, dot. rewrite !length_app. cbn [length].
  pose proof (dec_octet_length a Ha). pose proof (dec_octet_length b Hb).
  pose proof (dec_octet_length c Hc). pose proof (dec_octet_length d Hd). lia.
Qed.

(** a dotted quad reads back as its octets, so different ones differ *)
Lemma dotted_inj a b c d a' b' c' d' :
  octet a -> octet b -> octet c -> octet d -> octet a' -> octet b' -> octet c' -> octet d' ->
  dotted a b c d = dotted a' b' c' d' -> [a; b; c; d] = [a'; b'; c'; d'].
Proof.
  intros Ha Hb Hc Hd Ha' Hb' Hc' Hd' E.
  assert (forall x, octet x -> 0 <= x <= INT_MAX) as Hx by (unfold octet, INT_MAX; lia).
  pose proof (scan_quad_dotted a b c d [] Ha Hb Hc (Hx _ Hd) I) as H1.
  pose proof (scan_quad_dotted a' b' c' d' [] Ha' Hb' Hc' (Hx _ Hd') I) as H2.
  rewrite E in H1. rewrite H1 in H2. by injection H2 as -> -> -> ->.
Qed.

Lemma ok_ipv4_add_octet a b c d add out cap (Q : Z * buf Z -> Prop) :
  octet a -> octet b -> octet c -> octet d -> 0 <= add <= INT_MAX -> 16 <= cap <= blen out ->
  (d + add <= 255 -> forall out', blen out' = blen out -> cstring out' (dotted a b c (d + add)) -> Q (0, out')) ->
  (255 < d + add -> Q (-1, out)) ->
  ok (ipv4_add_octet (dotted a b c d) add out cap) Q.
Proof.
  intros Ha Hb Hc Hd Hadd Hcap Hfit Hbad. unfold ipv4_add_octet.
  pose proof (scan_quad_dotted a b c d [] Ha Hb Hc) as HS. rewrite app_nil_r in HS.
  unfold octet, INT_MAX in *. rewrite HS by (done || lia). cbn [mbind res_bind].
  assert (forall x, 0 <= x <= 255 -> (x >? 255) = false) as Hle by (intros; rewrite Z.gtb_ltb; apply Z.ltb_ge; lia).
  rewrite !Hle by done. cbn [orb]. rewrite (u32_small add), u32_small, Z.gtb_ltb by lia.
  destruct (Z.ltb_spec 255 (d + add)); [apply Hbad; lia|]. ok_step. fold (dotted a b c (d + add)).
  pose proof (dotted_length a b c (d + add)) as HL. unfold octet in HL.
  apply ok_snprintf_fits; [lia|unfold INT_MAX; lia|]. intros out' H1 H2. ok_step. apply Hfit; [lia|done|done].
Qed.

(** * Properties *)

(** a host and a port *)
Lemma parse_ipport_host host port (ip : buf Z) ipcap : 0 <= ipcap <= blen ip -> 0 <= port <= INT_MAX ->
  exists r ip' p, parse_ipport (host ++ 58 :: dec port) ip ipcap = Ok (r, ip', p)
    /\ (r = 0 <-> host <> [] /\ Z.of_nat (length host) < ipcap /\ 0 < port < 65536)
    /\ (r = 0 -> cstring ip' host /\ p = Some port) /\ (r <> 0 -> r = -1 /\ p = None).
Proof.
  intros Hip Hport. unfold parse_ipport. rewrite strrchr_last by (by apply dec_no_colon).
  destruct (Z.eqb_spec (Z.of_nat (length host)) 0) as [E0|N0]; cbn [orb].
  { exists (-1), ip, None. split; [done|]. split; [|done]. split; [done|]. intros [H _]. by destruct host. }
  rewrite Z.geb_leb. destruct (Z.leb_spec ipcap (Z.of_nat (length host))) as [Hle|Hlt].
  { exists (-1), ip, None. split; [done|]. split; [|done]. split; [done|]. lia. }
  apply (proj1 (ok_iff3 _ _)). ok_step.
  apply ok_blit; rewrite ?blen_of_list, ?length_app; cbn [length]; try lia. intros ip1 (B1 & B2 & B3).
  ok_step. ok_step. ok_step.
  replace (drop (S (length host)) (host ++ 58 :: dec port)) with (dec port)
    by (by rewrite (cons_middle 58 host), app_assoc, drop_app_length' by (rewrite length_app; cbn; lia)).
  rewrite atoi_dec by done. ok_step. rewrite Z.gtb_ltb.
  assert (cstring (upd ip1 (Z.of_nat (length host)) 0) host) as HC.
  { split; [|by rewrite get_upd_eq by lia]. intros i Hi. rewrite get_upd_ne, B2, get_of_list by lia.
    rewrite lookup_app_l by lia. f_equal. lia. }
  destruct (Z.leb_spec port 0), (Z.ltb_spec 65535 port); cbn [orb]; ok_step.
  1-3: split; [lia|]; split; [done|by split].
  rewrite u16_small by lia. split; [|split; [by intros _|done]].
  split; [intros _; split; [by intros ->|lia]|done].
Qed.

(** C32: addresses and ports of the command line.  A host (any text) and a port
    written HOST:PORT are read back as that host, NUL-terminated, and that port,
    as long as the host is not empty and fits the buffer and the port is 1 to
    65535; any other port is refused, and so is a text without a colon.  Flow
    [add]'s address is the base address with [add] added to the last octet, and
    is refused rather than carried into the third when that exceeds 255; the
    addresses of different flows are different. *)
Theorem addresses_correct host port (ip : buf Z) ipcap a b c d add add' (out : buf Z) cap
  (Hip : 0 <= ipcap <= blen ip) (Hport : 0 <= port <= INT_MAX)
  (Ha : octet a) (Hb : octet b) (Hc : octet c) (Hd : octet d)
  (Hadd : 0 <= add <= INT_MAX) (Hadd' : 0 <= add' <= INT_MAX) (Hcap : 16 <= cap <= blen out) :
  (exists r ip' p, parse_ipport (host ++ 58 :: dec port) ip ipcap = Ok (r, ip', p)
    /\ (r = 0 <-> host <> [] /\ Z.of_nat (length host) < ipcap /\ 0 < port < 65536)
    /\ (r = 0 -> cstring ip' host /\ p = Some port) /\ (r <> 0 -> r = -1 /\ p = None))
  /\ (forall s, 58 ∉ s -> parse_ipport s ip ipcap = Ok (-1, ip, None))
  /\ (exists r out', ipv4_add_octet (dotted a b c d) add out cap = Ok (r, out')
    /\ (d + add <= 255 -> r = 0 /\ cstring out' (dotted a b c (d + add)))
    /\ (255 < d + add -> r = -1 /\ out' = out))
  /\ (d + add <= 255 -> d + add' <= 255 -> dotted a b c (d + add) = dotted a b c (d + add') -> add = add').
Proof.
  split; [|split; [|split]].
  - by apply parse_ipport_host.
  - intros s Hs. unfold parse_ipport. assert (strrchr s 58 = None) as ->; [|done].
    induction s as [|x s IH]; [done|]. apply not_elem_of_cons in Hs as [Hx Hs]. cbn [strrchr].
    rewrite IH by done. by rewrite (proj2 (Z.eqb_neq x 58)).
  - apply (proj1 (ok_iff2 _ _)). apply ok_ipv4_add_octet; try done.
    + intros Hle out' _ HC. split; [done|lia].
    + intros Hlt. split; [lia|done].
  - unfold octet in *. intros H1 H2 E.
    pose proof (dotted_inj a b c (d + add) a b c (d + add')) as HI. unfold octet in HI.
    specialize (HI Ha Hb Hc ltac:(lia) Ha Hb Hc ltac:(lia) E). injection HI. lia.
Qed.

(** the default Dante base, and a stream's destination *)
Lemma addresses_correct_witness :
  (exists r ip' p, parse_ipport (str "239.69.1.2" ++ 58 :: dec 5004) (undef 64) 64 = Ok (r, ip', p)
     /\ (r = 0 <-> str "239.69.1.2" <> [] /\ Z.of_nat (length (str "239.69.1.2")) < 64 /\ 0 < 5004 < 65536))
  /\ exists r out', ipv4_add_octet (dotted 239 69 10 0) 4 (undef 64) 64 = Ok (r, out')
     /\ r = 0 /\ cstring out' (dotted 239 69 10 4).
Proof.
  destruct (addresses_correct (str "239.69.1.2") 5004 (undef 64) 64 239 69 10 0 4 5 (undef 64) 64
    ltac:(rewrite blen_undef; lia) ltac:(unfold INT_MAX; lia) ltac:(unfold octet; lia) ltac:(unfold octet; lia)
    ltac:(unfold octet; lia) ltac:(unfold octet; lia) ltac:(unfold INT_MAX; lia) ltac:(unfold INT_MAX; lia)
    ltac:(rewrite blen_undef; lia)) as (H1 & _ & H2 & _).
  split.
  - destruct H1 as (r & ip' & p & H1 & H3 & _). exists r, ip', p. by split.
  - destruct H2 as (r & out' & H2 & H3 & _). exists r, out'. split; [done|]. by apply H3.
Defined.

(** an [inet_pton] that reads dotted quads *)
#[export] Instance quad_inet : InetPton := {
  inet_pton s := match scan_quad 3 [] s with
                 | Ok (Some [a; b; c; d]) =>
                     if decide (Forall (fun x => 0 <= x < 256) [a; b; c; d]) then Some [a; b; c; d] else None
                 | _ => None
                 end;
}.

#[export] Instance quad_inet_doc : InetDoc quad_inet.
Proof.
  split. intros s l. cbn [inet_pton quad_inet]. destruct (scan_quad 3 [] s) as [[[|a [|b [|c [|d [|]]]]]|]|]; try done.
  case_decide as H; [|done]. intros [= <-]. by split.
Qed.
