(* ===== verification/Pw.v ===== *)
(** reac-pw: the construction and destruction of its two nodes, and its main
    function.  What PipeWire and the kernel answer is an argument; what is acquired
    and given back is a trace. *)

From S2P Require Import Prelude LibReac Float32 Send Sdp Text Ring Rx Tx SourceNode SinkNode.

(** * Resources *)

Inductive resource : Type :=
| Library      (* pw_init *)
| RxRing       (* the memory of [ring] *)
| TxRing       (* the memory of [tx_ring] *)
| MainLoop
| SourceMemory | SourceFilter
| SinkMemory | SinkFilter | SinkSocket
| Feeder.      (* the thread of [reac_rx_start] *)

#[export] Instance resource_eq_dec : EqDecision resource.
Proof. solve_decision. Defined.

Inductive event : Type := Gets (r : resource) | Drops (r : resource).

(** * The nodes *)

(** PipeWire's answers to a constructor: the node's memory, the filter, each port,
    and what [pw_filter_connect] returns *)
Record node_answers : Type := NodeAnswers {
  na_calloc : bool;
  na_filter : bool;
  na_ports : list bool;
  na_connect : Z;
}.

Section Pw.
Context {L : ReacLib}.

(** the ports that could be added *)
Definition added_ports (a : node_answers) : list (option port) :=
  (fun c => if default false (na_ports a !! c) then Some (Port None) else None) <$> seq 0 (Z.to_nat REAC_MAX_CHANNELS).

(** [scratch_] is the plane the node's scratch buffer is *)
Definition reac_source_node_new (a : node_answers) (scratch_ : Z) : option reac_source_node * list event :=
  if negb (na_calloc a) then (None, []) else
  if negb (na_filter a) then (None, [Gets SourceMemory; Drops SourceMemory]) else
  let es := [Gets SourceMemory; Gets SourceFilter] in
  if na_connect a <? 0 then (None, es ++ [Drops SourceFilter; Drops SourceMemory]) else
  (Some (SourceNode REAC_MAX_CHANNELS (added_ports a) scratch_), es).

Definition reac_source_node_destroy (n : option reac_source_node) : list event :=
  match n with None => [] | Some _ => [Drops SourceFilter; Drops SourceMemory] end.

(** the answers to [reac_tx_open] are its arguments *)
Definition sink_node_new (a : node_answers) (socket : Z) (ifr : option Z) (cfg_channels : Z) (src_mac : option (list Z))
  : option reac_sink_node * list event :=
  if negb (na_calloc a) then (None, []) else
  let '(r, tx, closed) := reac_tx_open socket ifr in
  let es := Gets SinkMemory :: if socket <? 0 then [] else [Gets SinkSocket] in
  if negb (r =? 0) then (None, es ++ ((fun _ => Drops SinkSocket) <$> closed) ++ [Drops SinkMemory]) else
  let closing := (fun _ => Drops SinkSocket) <$> (reac_tx_close tx).2 in
  if negb (na_filter a) then (None, es ++ closing ++ [Drops SinkMemory]) else
  let es := es ++ [Gets SinkFilter] in
  if na_connect a <? 0 then (None, es ++ [Drops SinkFilter] ++ closing ++ [Drops SinkMemory]) else
  (Some (reac_sink_node_new tx cfg_channels src_mac), es).

Definition reac_sink_node_destroy (n : option reac_sink_node) : list event :=
  match n with
  | None => []
  | Some n =>
      [Drops SinkFilter] ++ (if sk_tx_open n then (fun _ => Drops SinkSocket) <$> (reac_tx_close (sk_tx n)).2 else [])
      ++ [Drops SinkMemory]
  end.

(** * The main function *)

Record pw_options : Type := PwOptions {
  po_kind : reac_rx_kind;
  po_source : option (list Z);
  po_forced_rate : Z;
  po_tx : option (list Z);
}.

Definition default_pw : pw_options := PwOptions REAC_RX_PCAP None 0 None.

(** every option takes a value *)
Definition pw_table : list (list Z * (list Z -> pw_options -> res pw_options)) := [
  (str "--pcap", fun v o => mret (PwOptions REAC_RX_PCAP (Some v) (po_forced_rate o) (po_tx o)));
  (str "--live", fun v o => mret (PwOptions REAC_RX_LIVE (Some v) (po_forced_rate o) (po_tx o)));
  (str "--rate", fun v o => n ← atoi v; mret (PwOptions (po_kind o) (po_source o) n (po_tx o)));
  (str "--tx", fun v o => mret (PwOptions (po_kind o) (po_source o) (po_forced_rate o) (Some v)))].

(** [None] is the usage message *)
Fixpoint pw_args (args : list (list Z)) (o : pw_options) : res (option pw_options) :=
  match args with
  | [] => mret (Some o)
  | a :: rest =>
      match assoc a pw_table, rest with
      | Some f, v :: rest => o ← f v o; pw_args rest o
      | _, _ => mret None
      end
  end.

(** the answers to [main]: the detected rate ([None]: no capture), the allocations of
    the rings, whether there is a main loop or [pw_main_loop_new] returns NULL, the two
    nodes, the socket of the sink, [pthread_create] *)
Record pw_answers : Type := PwAnswers {
  pa_detected : option Z;
  pa_ring : bool;
  pa_loop : bool;
  pa_source : node_answers;
  pa_tx_ring : bool;
  pa_sink : node_answers;
  pa_socket : Z;
  pa_ifr : option Z;
  pa_thread : Z;
}.

(** what runs while the main loop does *)
Record running : Type := Running {
  rn_rx : reac_rx;
  rn_source : reac_source_node;
  rn_sink : option reac_sink_node;
}.

(** the source address of the sink's frames *)
Definition roland_oui_mac : list Z := [0; 64; 171; 0; 0; 1].

(** the sink, when --tx asks for it *)
Definition pw_sink (w : pw_answers) (o : pw_options) : option reac_sink_node * list event :=
  match po_tx o with
  | None => (None, [])
  | Some _ =>
      let '(n, es) := sink_node_new (pa_sink w) (pa_socket w) (pa_ifr w) REAC_MAX_CHANNELS (Some roland_oui_mac) in
      (n, (if pa_tx_ring w then [Gets TxRing] else []) ++ es)
  end.

(** the feeder's thread is started, and joined; its ring is its owner's *)
Definition reac_rx_start (w : pw_answers) : Z * list event :=
  (pa_thread w, if pa_thread w =? 0 then [Gets Feeder] else []).
Definition reac_rx_stop : list event := [Drops Feeder].
Definition reac_rx_close : list event := [].

(** the samples of a ring, if they were allocated *)
Definition reac_ring_free (allocated : bool) (r : resource) : list event := if allocated then [Drops r] else [].

(** the end of [main], after the loop has been left *)
Definition pw_teardown (w : pw_answers) (o : pw_options) (r : running) : list event :=
  reac_rx_stop ++ reac_source_node_destroy (Some (rn_source r)) ++ reac_sink_node_destroy (rn_sink r)
  ++ (match po_tx o with Some _ => reac_ring_free (pa_tx_ring w) TxRing | None => [] end)
  ++ reac_rx_close ++ reac_ring_free true RxRing ++ [Drops MainLoop; Drops Library].

(** [main] with its options; besides exit status and trace, what ran; [scratch_] as
    above.  The main loop is used without a look at it: [pw_main_loop_get_loop] reads
    the loop it is given, which NULL is not *)
Definition pw_run (w : pw_answers) (scratch_ : Z) (o : pw_options) : res (Z * list event * option running) :=
  match reac_rx_open (RxCfg (po_kind o) (po_forced_rate o) 1) (pa_detected w) (pa_ring w) with
  | None => mret (1, [Gets Library], None)
  | Some rx =>
      if negb (pa_loop w) then Err NullPointer else
      let es := [Gets Library; Gets RxRing; Gets MainLoop] in
      let '(src, more) := reac_source_node_new (pa_source w) scratch_ in
      let es := es ++ more in
      match src with
      | None => mret (1, es, None)
      | Some src =>
          let '(sink, more) := pw_sink w o in
          let es := es ++ more in
          let '(rc, more) := reac_rx_start w in
          let es := es ++ more in
          if negb (rc =? 0) then mret (1, es, None) else
          let r := Running rx src sink in
          mret (0, es ++ pw_teardown w o r, Some r)
      end
  end.

Definition pw_main (w : pw_answers) (scratch_ : Z) (args : list (list Z)) : res (Z * list event * option running) :=
  o ← pw_args args default_pw;
  match o with
  | None => mret (2, [], None)
  | Some o => match po_source o with None => mret (2, [], None) | Some _ => pw_run w scratch_ o end
  end.
End Pw.

(** * Specification: who uses what *)

(** what a resource works on while it lives: the callbacks of a filter on their
    node, the ring or the socket, the feeder on the ring *)
Definition uses (r : resource) : list resource :=
  match r with
  | MainLoop => [Library]
  | SourceFilter => [MainLoop; SourceMemory; RxRing]
  | SinkFilter => [MainLoop; SinkMemory; SinkSocket]
  | Feeder => [RxRing]
  | _ => []
  end.

(** a legal trace takes nothing twice, starts nothing without what it uses, gives
    back only what is held and nothing that something alive still uses; the result is
    what is held at the end *)
Fixpoint legal (es : list event) (have : list resource) : option (list resource) :=
  match es with
  | [] => Some have
  | Gets r :: es =>
      if bool_decide (r ∉ have) && forallb (fun u => bool_decide (u ∈ have)) (uses r) then legal es (r :: have) else None
  | Drops r :: es =>
      if bool_decide (r ∈ have) && forallb (fun h => bool_decide (r ∉ uses h)) have
      then legal es (filter (fun h => h <> r) have) else None
  end.

Lemma legal_app es1 : forall es2 have, legal (es1 ++ es2) have = (have ← legal es1 have; legal es2 have).
Proof.
  induction es1 as [|[r|r] es1 IH]; intros es2 have; [done|..]; cbn [app legal]; destruct (_ && _); [apply IH|done..].
Qed.

(** * Lemmas *)

Section PwLemmas.
Context {L : ReacLib} {D : ReacDoc L}.

(** the source leaves its two resources or none; they can be given back *)
Lemma source_node_new_legal a scratch_ :
  let '(n, es) := reac_source_node_new a scratch_ in
  match n with
  | None => legal es [MainLoop; RxRing; Library] = Some [MainLoop; RxRing; Library]
  | Some n => es = [Gets SourceMemory; Gets SourceFilter] /\ sn_channels n = 40
  end.
Proof.
  unfold reac_source_node_new. destruct (na_calloc a); [|done]. destruct (na_filter a); [|done]. cbn [negb].
  destruct (na_connect a <? 0); [done|]. split; [done|apply doc_max_channels].
Qed.

(** so does the sink *)
Lemma sink_node_new_legal a socket ifr ch mac :
  let '(n, es) := sink_node_new a socket ifr ch mac in
  match n with
  | None => es = [] \/ es = [Gets SinkMemory; Drops SinkMemory] \/ es = [Gets SinkMemory; Gets SinkSocket; Drops SinkSocket; Drops SinkMemory]
            \/ es = [Gets SinkMemory; Gets SinkSocket; Gets SinkFilter; Drops SinkFilter; Drops SinkSocket; Drops SinkMemory]
  | Some n => es = [Gets SinkMemory; Gets SinkSocket; Gets SinkFilter]
      /\ reac_sink_node_destroy (Some n) = [Drops SinkFilter; Drops SinkSocket; Drops SinkMemory]
      /\ exists tx, n = reac_sink_node_new tx ch mac /\ tx_counter tx = 0
  end.
Proof.
  unfold sink_node_new, reac_tx_open. destruct (na_calloc a); [|by left]. cbn [negb].
  destruct (Z.ltb_spec socket 0) as [Hs|Hs]; [right; by left|]. destruct ifr as [i|]; cbn [Z.eqb negb]; [|right; right; by left].
  unfold reac_tx_close. cbn [tx_fd snd]. rewrite Z.geb_leb, (proj2 (Z.leb_le 0 socket)) by done.
  destruct (na_filter a); cbn [negb]; [|right; right; by left].
  destruct (na_connect a <? 0); [right; right; by right|]. split; [done|]. split; [|by eexists].
  unfold reac_sink_node_destroy. cbn [sk_tx_open reac_sink_node_new sk_tx reac_tx_close].
  destruct mac; cbn [tx_fd snd reac_tx_close]; by rewrite Z.geb_leb, (proj2 (Z.leb_le 0 socket)) by done.
Qed.

(** the feeder could be opened, and there is no main loop *)
Definition loopless w o : bool :=
  bool_decide (is_Some (reac_rx_open (RxCfg (po_kind o) (po_forced_rate o) 1) (pa_detected w) (pa_ring w))) && negb (pa_loop w).

Lemma pw_run_loopless w scratch_ o : loopless w o = true -> pw_run w scratch_ o = Err NullPointer.
Proof.
  unfold loopless, pw_run. intros [H1 H2]%andb_true_iff. apply bool_decide_eq_true in H1 as [rx ->]. by rewrite H2.
Qed.

(** [pw_run], by its answers *)
Lemma pw_run_legal w scratch_ o : loopless w o = false ->
  ok (pw_run w scratch_ o) (fun '(rc, es, run) => exists left, legal es [] = Some left
    /\ match run with
       | None => rc = 1
       | Some r => rc = 0 /\ left = [] /\ sn_channels (rn_source r) = 40
           /\ reac_rx_open (RxCfg (po_kind o) (po_forced_rate o) 1) (pa_detected w) (pa_ring w) = Some (rn_rx r)
           /\ forall n, rn_sink r = Some n ->
                exists tx, n = reac_sink_node_new tx REAC_MAX_CHANNELS (Some roland_oui_mac) /\ tx_counter tx = 0
       end).
Proof.
  unfold loopless, pw_run. destruct (reac_rx_open _ _ _) as [rx|]; [|by eexists].
  rewrite bool_decide_true by (by eexists). cbn [andb]. intros ->.
  pose proof (source_node_new_legal (pa_source w) scratch_) as H.
  destruct (reac_source_node_new _ _) as [[src|] es1]; cycle 1.
  { ok_step. rewrite legal_app. cbn -[legal] in *. exists [MainLoop; RxRing; Library]. split; [|done]. exact H. }
  destruct H as [-> Hch]. unfold pw_sink, pw_teardown, reac_rx_start, reac_ring_free. destruct (po_tx o); cycle 1.
  { destruct (pa_thread w =? 0); eexists; (split; [by vm_compute|]); [|done]. by repeat (split; [done|]). }
  pose proof (sink_node_new_legal (pa_sink w) (pa_socket w) (pa_ifr w) REAC_MAX_CHANNELS (Some roland_oui_mac)) as H.
  destruct (sink_node_new _ _ _ _ _) as [[sink|] es2].
  - destruct H as (-> & Hd & Htx). cbn [rn_source rn_sink]. rewrite Hd.
    destruct (pa_tx_ring w), (pa_thread w =? 0); eexists; (split; [by vm_compute|]); try done;
      (repeat (split; [done|])); by intros n [= <-].
  - destruct H as [->|[->|[->| ->]]];
    (destruct (pa_tx_ring w), (pa_thread w =? 0); eexists; (split; [by vm_compute|]); try done; by repeat (split; [done|])).
Qed.
End PwLemmas.

(** * Properties *)

(** C39: reac-pw takes and gives back what it uses in a legal order, whatever its
    arguments and whatever PipeWire and the kernel answer, as long as there is a main
    loop: when [pw_main_loop_new] returns NULL after the feeder has been opened, the
    program goes on with the null pointer, which is undefined behaviour.  A command
    line it does not understand, or one without a source, ends with status 2 before
    anything is taken.  Otherwise nothing is ever started without what it uses, given
    back twice or while something alive still uses it: the ring outlives the feeder and
    the source's callback, the socket and the memory of a node outlive its callbacks.
    With status 1 nothing has run; with status 0 everything has been given back, and
    what ran is a feeder over the ring [reac_rx_open] made, a source of 40 channels,
    and, when --tx could have it, a sink of 40 channels that transmits (the
    documents call it inert) with a frame counter that starts at 0. *)
Theorem pw_main_lifecycle {L : ReacLib} {D : ReacDoc L} w scratch_ args :
  match pw_args args default_pw with
  | Err e => pw_main w scratch_ args = Err e
  | Ok None => pw_main w scratch_ args = Ok (2, [], None)
  | Ok (Some o) =>
      if decide (po_source o = None) then pw_main w scratch_ args = Ok (2, [], None) else
      if loopless w o then pw_main w scratch_ args = Err NullPointer else
      exists rc es run left, pw_main w scratch_ args = Ok (rc, es, run) /\ legal es [] = Some left
        /\ match run with
           | None => rc = 1
           | Some r => rc = 0 /\ left = [] /\ sn_channels (rn_source r) = 40
               /\ reac_rx_open (RxCfg (po_kind o) (po_forced_rate o) 1) (pa_detected w) (pa_ring w) = Some (rn_rx r)
               /\ forall n, rn_sink r = Some n -> sk_tx_open n = true /\
                    exists tx, n = reac_sink_node_new tx REAC_MAX_CHANNELS (Some roland_oui_mac) /\ tx_counter tx = 0
           end
  end.
Proof.
  unfold pw_main. destruct (pw_args args default_pw) as [[o|]|e]; [|done..]. cbn [mbind res_bind].
  destruct (po_source o) as [path|]; [|by rewrite decide_True by done]. rewrite decide_False by done.
  destruct (loopless w o) eqn:E; [by apply pw_run_loopless|].
  pose proof (pw_run_legal w scratch_ o E) as H. apply ok_iff in H as ([[rc es] run] & -> & left & H1 & H2).
  exists rc, es, run, left. split; [done|]. split; [done|]. destruct run as [r|]; [|done].
  destruct H2 as (? & ? & ? & ? & Hn). repeat (split; [done|]). intros n E'. specialize (Hn n E'). split; [|done].
  by destruct Hn as (tx & -> & _).
Qed.

(** no main loop *)
Example pw_main_no_loop w scratch_ :
  pa_ring w = true -> pa_loop w = false ->
  pw_main (L := documented_lib) w scratch_ [str "--pcap"; str "x.pcap"; str "--rate"; str "64"] = Err NullPointer.
Proof. intros Hr Hl. unfold pw_main. cbn. unfold pw_run. cbn [po_kind po_forced_rate]. by rewrite Hr, Hl. Qed.

(** a run with both nodes *)
Definition demo_answers : pw_answers :=
  let a := NodeAnswers true true (replicate 40 true) 0 in PwAnswers None true true a true a 5 (Some 2) 0.
Definition demo_pw_args : list (list Z) := [str "--pcap"; str "x.pcap"; str "--tx"; str "eth1"; str "--rate"; str "64"].

Example pw_main_both :
  exists es r, pw_main (L := documented_lib) demo_answers 0 demo_pw_args = Ok (0, es, Some r)
    /\ Drops SinkSocket ∈ es /\ is_Some (rn_sink r).
Proof. eexists _, _. split; [reflexivity|]. split; [repeat first [left | right]; reflexivity|by eexists]. Qed.

Lemma pw_main_lifecycle_witness :
  exists es r, pw_main (L := documented_lib) demo_answers 0 demo_pw_args = Ok (0, es, Some r)
    /\ legal es [] = Some [] /\ Drops SinkSocket ∈ es /\ is_Some (rn_sink r).
Proof.
  destruct pw_main_both as (es & r & Hm & Hd & Hs).
  pose proof (pw_main_lifecycle (L := documented_lib) (D := documented_lib_doc) demo_answers 0 demo_pw_args) as H.
  destruct (pw_args demo_pw_args default_pw) as [[o|]|e]; [|congruence..].
  destruct (decide (po_source o = None)); [congruence|]. destruct (loopless _ o); [congruence|].
  destruct H as (rc & es' & run & left & Hm' & Hl & Hr). rewrite Hm in Hm'. injection Hm' as <- <- <-.
  destruct Hr as (_ & -> & _). by exists es, r.
Defined.
