(* ===== verification/Tone.v ===== *)
(** tone.c and run_gen_tone of main.c: the test-tone generator.  Its arithmetic is
    double precision; [sin] is the C library's, of which only the range on finite
    arguments is used. *)

From S2P Require Import Prelude LibReac Pcm Rtp Pipeline Send Sap.
From S2P Require Export Float64.

(** the function of [<math.h>], and what the C standard says of it *)
Class Libm : Type := { sin : f64 -> f64 }.

Definition f64_finite (x : f64) : bool :=
  match x with S754_zero _ | S754_finite _ _ _ => true | _ => false end.

Class LibmDoc (M : Libm) : Prop := {
  doc_sin_range : forall x, valid 53 1024 x -> f64_finite x = true -> f64_in (sin x) 1;
  doc_sin_invalid : forall x, f64_finite x = false -> sin x = S754_nan;
}.

(** the decimal literal 6.283185307179586 *)
Definition TWO_PI : f64 := f64_div (f64_of_int 6283185307179586) (f64_of_int 1000000000000000).

(** * tone.c *)

(** [struct tone] *)
Record tone : Type := Tone {
  phase : f64;
  freq_hz : Z;
  amplitude : Z;
  per_channel_detune : Z;
}.

Definition tone_init (freq_hz amplitude per_channel_detune : Z) : tone :=
  Tone f64_zero freq_hz (if amplitude >? SMAX then SMAX else amplitude) per_channel_detune.

(** [while (t->phase > TWO_PI) t->phase -= TWO_PI] *)
Fixpoint wrap_phase (fuel : nat) (p : f64) : option f64 :=
  if f64_gt p TWO_PI then
    match fuel with O => None | S fuel => wrap_phase fuel (f64_sub p TWO_PI) end
  else Some p.

(** a number of turns that is enough: the integer part and one more *)
Definition wrap_fuel (p : f64) : nat :=
  match p with
  | S754_finite _ m e => S (Z.to_nat (if 0 <=? e then Z.shiftl (Zpos m) e else Z.shiftr (Zpos m) (- e)))
  | _ => O
  end.

Section Fill.
Context {M : Libm}.
Implicit Types (t : tone) (mode : reac_mode).

(** [TWO_PI * f / sr] *)
Definition step_of mode (f : f64) : f64 := f64_div (f64_mul TWO_PI f) (f64_of_int (sample_rate mode)).

(** the argument of [sin] for sample [s] at frequency [f] *)
Definition tone_argument t (f w : f64) (s : Z) : f64 :=
  f64_add (f64_mul (phase t) (f64_div f (f64_of_int (freq_hz t)))) (f64_mul w (f64_of_int s)).

(** [v * (double)t->amplitude] *)
Definition tone_value t (f w : f64) (s : Z) : f64 :=
  let v := sin (tone_argument t f w s) in
  f64_mul v (f64_of_int (amplitude t)).

(** body of the inner loop *)
Definition tone_sample t (f w : f64) (ns ch s : Z) (out : buf Z) : res (buf Z) :=
  x ← f64_to_int (tone_value t f w s);
  m ← int (ch * ns);
  i ← int (m + s);
  store24 out (i * 3) x.

(** body of the outer loop *)
Definition tone_channel t mode (ch : Z) (out : buf Z) : res (buf Z) :=
  d ← int (ch * per_channel_detune t);
  k ← int (freq_hz t + d);
  let f := f64_of_int k in
  let w := step_of mode f in
  for_ 0 (samples_per_pkt mode) (tone_sample t f w (samples_per_pkt mode) ch) out.

(** the phase before it is kept bounded *)
Definition next_phase t mode : f64 :=
  f64_add (phase t) (f64_mul (step_of mode (f64_of_int (freq_hz t))) (f64_of_int (samples_per_pkt mode))).

Definition tone_fill t (out : buf Z) mode : option (res (tone * buf Z)) :=
  match for_ 0 (n_channels mode) (tone_channel t mode) out with
  | Err e => Some (Err e)
  | Ok out =>
      p ← wrap_phase (wrap_fuel (next_phase t mode)) (next_phase t mode);
      Some (Ok (Tone p (freq_hz t) (amplitude t) (per_channel_detune t), out))
  end.
End Fill.

(** * main.c, [run_gen_tone] *)

(** [struct timespec] *)
Record timespec : Type := Timespec { tv_sec : Z; tv_nsec : Z }.

(** what the loop does, in order: system calls of the senders, and the deadlines of
    [clock_nanosleep] *)
Inductive tone_event : Type :=
| Sys (c : syscall)
| SleepUntil (t : timespec).

(** [while (next.tv_nsec >= 1000000000L) { ... }] *)
Fixpoint carry_seconds (fuel : nat) (t : timespec) : option (res timespec) :=
  if tv_nsec t >=? 1000000000 then
    match fuel with
    | O => None
    | S fuel =>
        match long (tv_sec t + 1) with
        | Err e => Some (Err e)
        | Ok s => carry_seconds fuel (Timespec s (tv_nsec t - 1000000000))
        end
    end
  else Some (Ok t).

(** [next.tv_nsec += pkt_ns] and the carry *)
Definition advance (t : timespec) (pkt_ns : Z) : option (res timespec) :=
  match long (tv_nsec t + pkt_ns) with
  | Err e => Some (Err e)
  | Ok n => carry_seconds (Z.to_nat (n / 1000000000)) (Timespec (tv_sec t) n)
  end.

(** the locals of the loop *)
Record gen_state : Type := Gen {
  g_tone : tone;
  g_rtp : rtp_params;
  g_next : timespec;
  g_count : Z;          (* unsigned long *)
  g_pcm : buf Z;
  g_pkt : buf Z;
  g_events : list tone_event;
}.

Section Gen.
Context {L : ReacLib} {M : Libm}.
Implicit Types (mode : reac_mode) (snd : aes67_sender) (sap : option sap_announcer).

(** [if (sap) sap_announce(sap)] *)
Definition announce_if sap : list tone_event := Sys <$> match sap with Some sa => sap_announce sa | None => [] end.

(** one packet: built, sent, counted *)
Definition gen_packet mode snd sap (pps : Z) (st : gen_state) (tn : tone) (pcm : buf Z) : res gen_state :=
  let rtp := g_rtp st in
  '(n, pkt) ← rtp_l24_build (g_pkt st) (RTP_HEADER_LEN + REAC_MAX_CHANNELS * 24 * 3) rtp pcm mode;
  let sent := if n >? 0 then Sys <$> (aes67_send_packet 0 snd (upto pkt n)).2 else [] in
  let rtp := RtpParams (payload_type rtp) (u16 (seq rtp + 1)) (u32 (timestamp rtp + u32 (samples_per_pkt mode))) (ssrc rtp) in
  let count := u64 (g_count st + 1) in
  let announced := if (pps >? 0) && (count mod u64 pps =? 0) then announce_if sap else [] in
  mret (Gen tn rtp (g_next st) count pcm pkt (g_events st ++ sent ++ announced)).

(** one turn of the loop *)
Definition gen_turn mode snd sap (pps pkt_ns : Z) (st : gen_state) : option (res gen_state) :=
  r ← tone_fill (g_tone st) (g_pcm st) mode;
  match ('(tn, pcm) ← r; gen_packet mode snd sap pps st tn pcm) with
  | Err e => Some (Err e)
  | Ok st =>
      fmap (M := option) (fmap (M := res) (fun next =>
          Gen (g_tone st) (g_rtp st) next (g_count st) (g_pcm st) (g_pkt st) (g_events st ++ [SleepUntil next])))
        (advance (g_next st) pkt_ns)
  end.

(** the loop finds [g_stop] clear [turns] times *)
Fixpoint gen_loop mode snd sap (pps pkt_ns : Z) (turns : nat) (st : gen_state) : option (res gen_state) :=
  match turns with
  | O => Some (Ok st)
  | S turns =>
      r ← gen_turn mode snd sap pps pkt_ns st;
      match r with Err e => Some (Err e) | Ok st => gen_loop mode snd sap pps pkt_ns turns st end
  end.

(** [now] is the first reading of CLOCK_MONOTONIC *)
Definition run_gen_tone mode snd (pt ssrc_ freq detune : Z) sap (turns : nat) (now : timespec)
  : option (res (Z * list tone_event)) :=
  let tn := tone_init freq 6000000 detune in
  let rtp := RtpParams pt 0 0 ssrc_ in
  match (pps ← idiv (sample_rate mode) (samples_per_pkt mode); pkt_ns ← idiv 1000000000 pps; mret (pps, pkt_ns)) with
  | Err e => Some (Err e)
  | Ok (pps, pkt_ns) =>
      fmap (M := option) (fmap (M := res) (fun st => (0, g_events st)))
        (gen_loop mode snd sap pps pkt_ns turns
           (Gen tn rtp now 0 (undef (REAC_MAX_CHANNELS * 24 * 3)) (undef (RTP_HEADER_LEN + REAC_MAX_CHANNELS * 24 * 3))
              (announce_if sap)))
  end.
End Gen.

(** * Specification *)

(** a phase between 0 and 2 pi *)
Definition phase_ok (p : f64) : Prop := f64_in p 7 /\ signed false p /\ f64_gt p TWO_PI = false.

(** a tone the arithmetic of [tone_fill] can carry *)
Definition tone_ok (t : tone) (mode : reac_mode) : Prop :=
  1 <= freq_hz t /\ freq_hz t + n_channels mode * Z.abs (per_channel_detune t) <= INT_MAX
  /\ Z.abs (amplitude t) <= SMAX /\ 0 < sample_rate mode <= INT_MAX /\ phase_ok (phase t).

(** * Lemmas *)

(** ** The phase loop *)

Lemma two_pi_value : TWO_PI = S754_finite false 7074237752028440 (-50).
Proof. by vm_compute. Qed.

Lemma two_pi_in : f64_in TWO_PI 7 /\ f64_ge TWO_PI 6 /\ signed false TWO_PI.
Proof.
  rewrite two_pi_value. unfold f64_in, f64_ge, within, at_least, scaled_le, scaled_ge.
  by repeat split; vm_compute.
Qed.

(** a phase above 2 pi loses at least 6 and stays positive *)
Lemma wrap_step p k : f64_in p k -> signed false p -> f64_gt p TWO_PI = true ->
  f64_in (f64_sub p TWO_PI) (k - 6) /\ signed false (f64_sub p TWO_PI) /\ 6 <= k.
Proof.
  intros (Vp & Hp & Hk) Sp Hgt. destruct two_pi_in as ((V2 & _) & (_ & H2 & _) & _).
  rewrite two_pi_value in *. unfold f64_gt, f64_sub in *. destruct p as [[]|[]| |[] m e]; try done.
  destruct (sub_within 53 1024 ltac:(lia) ltac:(lia) m e 7074237752028440 (-50) k 6 Vp V2 Hp H2 Hk ltac:(lia) Hgt)
    as (H3 & H4 & H5 & H6).
  split; [split; [done|split; [done|lia]]|]. split; [done|lia].
Qed.

(** one that is not is within its bound *)
Lemma wrapped_in p k : f64_in p k -> signed false p -> f64_gt p TWO_PI = false -> f64_in p 7.
Proof.
  intros (Vp & Hp & Hk) Sp Hgt. destruct two_pi_in as ((V2 & H2 & _) & _).
  rewrite two_pi_value in *. unfold f64_gt in *. destruct p as [s|[]| |[] m e]; try done.
  split; [done|]. split; [|lia]. by apply (not_above_within 53 1024 ltac:(lia) m e _ _ 7 Vp V2 H2 Hgt).
Qed.

(** what the loop leaves is a wrapped phase; it has one turn per 6 of the bound *)
Lemma wrap_phase_ok fuel : forall p k, f64_in p k -> signed false p -> k < 6 * (Z.of_nat fuel + 1) ->
  exists p', wrap_phase fuel p = Some p' /\ phase_ok p'.
Proof.
  induction fuel as [|fuel IH]; intros p k Hp Sp Hf; cbn [wrap_phase]; destruct (f64_gt p TWO_PI) eqn:E;
    try (exists p; split; [done|]; split; [by eapply wrapped_in|done]).
  - destruct (wrap_step p k Hp Sp E) as (_ & _ & H). lia.
  - destruct (wrap_step p k Hp Sp E) as (H1 & H2 & _). apply (IH _ (k - 6)); [done|done|lia].
Qed.

Lemma wrap_fuel_bound p k : f64_in p k -> k < 2 ^ 53 - 1 -> f64_in p (Z.of_nat (wrap_fuel p)).
Proof.
  intros (V & H & Hk) Hk'. split; [done|]. destruct p as [s|s| |s m e]; try done; cbn [wrap_fuel].
  destruct H as [He H]. cbn [within]. unfold scaled_le in *. destruct (Z.leb_spec 0 e).
  - rewrite Z.shiftl_mul_pow2 by done. rewrite (Z.max_l e), (Z.max_r (- e)) in * by lia. pose proof (pow2_pos e).
    change (2 ^ 0) with 1 in *. split; [split; [done|]|]; lia.
  - rewrite Z.shiftr_div_pow2 by lia. rewrite (Z.max_r e), (Z.max_l (- e)) in * by lia.
    pose proof (pow2_pos (- e) ltac:(lia)) as Hp. change (2 ^ 0) with 1 in *.
    assert (0 <= Zpos m / 2 ^ (- e)) by (apply Z.div_pos; lia).
    pose proof (Z.mul_succ_div_gt (Zpos m) (2 ^ (- e)) Hp).
    assert (Zpos m / 2 ^ (- e) <= k) by (apply Z.div_le_upper_bound; lia).
    split; [split; [done|]|]; nia.
Qed.

(** the loop ends within its fuel *)
Lemma wrap_phase_ends p k : f64_in p k -> k < 2 ^ 53 - 1 -> signed false p ->
  exists p', wrap_phase (wrap_fuel p) p = Some p' /\ phase_ok p'.
Proof. intros Hp Hk Sp. eapply wrap_phase_ok; [by eapply wrap_fuel_bound|done|lia]. Qed.

(** ** The phase of a packet *)

Lemma f64_of_int_bound v n : Z.abs v <= n -> n <= INT_MAX -> f64_in (f64_of_int v) n.
Proof. unfold INT_MAX. intros Hv Hn. eapply f64_in_mono; [apply f64_of_int_in; lia|done|lia]. Qed.

Section PhaseLemmas.
Context (t : tone) (mode : reac_mode) (Hsr : 0 < sample_rate mode <= INT_MAX) (Hns : 0 < samples_per_pkt mode <= 24).

Lemma step_of_in v n : Z.abs v <= n -> n <= INT_MAX -> f64_in (step_of mode (f64_of_int v)) (7 * n).
Proof.
  intros Hv Hn. unfold INT_MAX in *. unfold step_of.
  assert (f64_in (f64_mul TWO_PI (f64_of_int v)) (7 * n)) as H1.
  { apply f64_mul_in; [exact (proj1 two_pi_in)|by apply f64_of_int_bound|lia]. }
  apply (f64_div_in _ _ (7 * n) (sample_rate mode)); [done|apply f64_of_int_ge; lia|nia|lia].
Qed.

(** the phase after the packet, before it is wrapped *)
Lemma next_phase_in : 0 < freq_hz t <= INT_MAX -> phase_ok (phase t) -> f64_in (next_phase t mode) (7 + 7 * INT_MAX * 24) /\ signed false (next_phase t mode).
Proof.
  intros Hf Hphase.
  destruct Hphase as (Hp & Sp & _). unfold next_phase.
  pose proof (step_of_in (freq_hz t) INT_MAX ltac:(lia) ltac:(lia)) as Hw.
  assert (f64_in (f64_mul (step_of mode (f64_of_int (freq_hz t))) (f64_of_int (samples_per_pkt mode))) (7 * INT_MAX * 24)) as Hm.
  { apply f64_mul_in; [done|apply f64_of_int_bound; unfold INT_MAX; lia|done]. }
  assert (forall v, 0 < v <= INT_MAX -> signed false (f64_of_int v)) as Hs by (unfold INT_MAX; intros v Hv; apply f64_of_int_positive; lia).
  assert (f64_in (f64_add (phase t) (f64_mul (step_of mode (f64_of_int (freq_hz t))) (f64_of_int (samples_per_pkt mode)))) (7 + 7 * INT_MAX * 24)) as HA
    by by apply f64_add_in.
  split; [done|]. eapply f64_in_sign; [exact HA|]. apply add_sign; [done|].
  eapply f64_mul_positive; [|apply Hs; unfold INT_MAX; lia|exact Hm].
  assert (f64_in (f64_mul TWO_PI (f64_of_int (freq_hz t))) (7 * INT_MAX)) as H3.
  { apply f64_mul_in; [exact (proj1 two_pi_in)|apply f64_of_int_bound; lia|done]. }
  eapply f64_div_positive; [|by apply Hs|exact Hw].
  eapply f64_mul_positive; [exact (proj2 (proj2 two_pi_in))|by apply Hs|exact H3].
Qed.

(** the phase is brought back *)
Lemma next_phase_wraps : 0 < freq_hz t <= INT_MAX -> phase_ok (phase t) ->
  exists p, wrap_phase (wrap_fuel (next_phase t mode)) (next_phase t mode) = Some p /\ phase_ok p.
Proof. intros Hf Hp. destruct (next_phase_in Hf Hp) as [Hn Sn]. by apply (wrap_phase_ends _ _ Hn). Qed.

(** at a frequency that is not positive it is never above zero, and stays as it is *)
Lemma next_phase_stays : INT_MIN <= freq_hz t <= 0 -> f64_nonpos (phase t) ->
  wrap_phase (wrap_fuel (next_phase t mode)) (next_phase t mode) = Some (next_phase t mode) /\ f64_nonpos (next_phase t mode).
Proof.
  unfold INT_MIN, INT_MAX in *. intros Hf Hp.
  assert (forall v, 0 < v <= 2147483647 -> signed false (f64_of_int v)) as Hs by (intros v Hv; apply f64_of_int_positive; lia).
  assert (f64_nonpos (next_phase t mode)) as Hn.
  { apply f64_add_nonpos; [done|]. apply (f64_mul_nonpos (f64_of_int (samples_per_pkt mode))); [apply Hs; lia|]. apply f64_div_nonpos; [|by apply Hs].
    apply (f64_mul_nonpos TWO_PI); [exact (proj2 (proj2 two_pi_in))|]. destruct (decide (freq_hz t = 0)) as [->|]; [done|].
    destruct (f64_of_int_in (freq_hz t) ltac:(lia)) as [_ H]. rewrite (proj2 (Z.ltb_lt _ 0)) in H by lia. apply signed_nonpos. by right. }
  split; [|done]. assert (f64_gt (next_phase t mode) TWO_PI = false) as E.
  { rewrite two_pi_value. by destruct (next_phase t mode) as [[]|[]| |[] ? ?]. }
  destruct (wrap_fuel _); cbn [wrap_phase]; by rewrite E.
Qed.
End PhaseLemmas.

(** ** One packet of tone *)

Section FillLemmas.
Context {M : Libm} {MD : LibmDoc M}.
Context (t : tone) (mode : reac_mode).
Context (HT : tone_ok t mode) (Hch : 0 < n_channels mode) (Hns : 0 < samples_per_pkt mode <= 24)
  (Hsize : n_channels mode * samples_per_pkt mode * 3 <= INT_MAX).

(** the frequency of channel [ch] *)
Definition channel_freq (ch : Z) : Z := freq_hz t + ch * per_channel_detune t.

(** the value of sample [s] of channel [ch], in 24-bit counts *)
Definition tone_level (ch s : Z) : Z :=
  let f := f64_of_int (channel_freq ch) in
  match f64_to_int (tone_value t f (step_of mode f) s) with Ok x => x | Err _ => 0 end.

Lemma freq_range ch : 0 <= ch < n_channels mode ->
  Z.abs (ch * per_channel_detune t) <= INT_MAX /\ Z.abs (channel_freq ch) <= INT_MAX.
Proof.
  intros Hc. destruct HT as (H1 & H2 & _). unfold channel_freq.
  assert (Z.abs (ch * per_channel_detune t) <= n_channels mode * Z.abs (per_channel_detune t)); [|lia].
  rewrite Z.abs_mul. apply Z.mul_le_mono_nonneg_r; lia.
Qed.

(** the argument of [sin] *)
Lemma tone_argument_in v s : Z.abs v <= INT_MAX -> 0 <= s < 24 ->
  f64_in (tone_argument t (f64_of_int v) (step_of mode (f64_of_int v)) s) (7 * INT_MAX + 7 * INT_MAX * 24).
Proof.
  unfold tone_argument.
  intros Hv Hs. pose proof HT as (H1 & H2 & Ha & Hsr & (Hp & _) ). pose proof (step_of_in mode Hsr v INT_MAX Hv ltac:(lia)) as Hw.
  assert (f64_in (f64_div (f64_of_int v) (f64_of_int (freq_hz t))) INT_MAX) as Hr.
  { apply (f64_div_in _ _ INT_MAX (freq_hz t)); [by apply f64_of_int_bound|apply f64_of_int_ge; unfold INT_MAX in *; nia|unfold INT_MAX; nia|done]. }
  apply f64_add_in; [by apply f64_mul_in|apply f64_mul_in; [done|apply f64_of_int_bound; unfold INT_MAX; lia|done]|done].
Qed.

Lemma tone_value_in v s : Z.abs v <= INT_MAX -> 0 <= s < 24 ->
  f64_in (tone_value t (f64_of_int v) (step_of mode (f64_of_int v)) s) (Z.abs (amplitude t)).
Proof.
  intros Hv Hs. pose proof HT as (_ & _ & Ha & _). destruct (tone_argument_in v s Hv Hs) as (V & W & _).
  unfold SMAX in *. unfold tone_value. replace (Z.abs (amplitude t)) with (1 * Z.abs (amplitude t)) by lia.
  apply f64_mul_in; [|apply f64_of_int_bound; unfold INT_MAX; lia|lia].
  set (x := tone_argument _ _ _ _) in *. clearbody x. apply doc_sin_range; [done|]. by destruct x.
Qed.

(** the conversion to [int32_t] is defined *)
Lemma level_value ch s : 0 <= ch < n_channels mode -> 0 <= s < samples_per_pkt mode ->
  f64_to_int (tone_value t (f64_of_int (channel_freq ch)) (step_of mode (f64_of_int (channel_freq ch))) s)
  = Ok (tone_level ch s) /\ Z.abs (tone_level ch s) <= Z.abs (amplitude t).
Proof.
  intros Hc Hs. destruct HT as (_ & _ & Ha & _). destruct (freq_range ch Hc) as [_ Hf].
  pose proof (tone_value_in _ s Hf ltac:(lia)) as Hv. unfold tone_level.
  set (x := tone_value _ _ _ _) in *. clearbody x. assert (Z.abs (amplitude t) <= INT_MAX) as Hm by (unfold SMAX, INT_MAX in *; lia).
  assert (ok (f64_to_int x) (fun v => Z.abs v <= Z.abs (amplitude t))) as H by by eapply ok_f64_to_int.
  by destruct (f64_to_int x).
Qed.

(** byte [k] of sample [n] of the block *)
Definition tone_byte (n k : Z) : option Z :=
  Some (byte24 (tone_level (n / samples_per_pkt mode) (n mod samples_per_pkt mode)) k).

Lemma ok_tone_fill out : n_channels mode * samples_per_pkt mode * 3 <= blen out ->
  exists p out', tone_fill t out mode = Some (Ok (Tone p (freq_hz t) (amplitude t) (per_channel_detune t), out'))
    /\ written out 0 (n_channels mode * samples_per_pkt mode) tone_byte out'
    /\ wrap_phase (wrap_fuel (next_phase t mode)) (next_phase t mode) = Some p
    /\ tone_ok (Tone p (freq_hz t) (amplitude t) (per_channel_detune t)) mode.
Proof.
  intros Hout. pose proof HT as (H1 & H2 & Ha & Hsr & Hp). unfold tone_fill.
  assert (ok (for_ 0 (n_channels mode) (tone_channel t mode) out)
    (written out 0 (n_channels mode * samples_per_pkt mode) tone_byte)) as HL.
  { apply (ok_for (fun c => written out 0 (c * samples_per_pkt mode) tone_byte)); [lia|apply written_start| |done].
    intros c o Hc W. destruct (freq_range c Hc) as [F1 F2]. unfold tone_channel, INT_MAX in *.
    unfold channel_freq in F2. ok_steps. fold (channel_freq c).
    apply (ok_for (fun s => written out 0 (c * samples_per_pkt mode + s) tone_byte)); [lia|by rewrite Z.add_0_r| |].
    - intros s o' Hs W'. unfold tone_sample. destruct (level_value c s Hc Hs) as [-> Hr]. do 2 ok_step.
      pose proof (lex_lt _ _ _ _ Hc Hs). assert (0 <= c * samples_per_pkt mode) by nia. ok_steps.
      rewrite Z.add_assoc. eapply (ok_store24 out 0 _ tone_byte); [done|lia|lia|lia| |lia|done].
      intros k Hk. unfold tone_byte. rewrite row_div, row_mod by done. rewrite clamp24_id; [done|].
      unfold SMIN, SMAX in *. lia.
    - intros o'. by replace (c * samples_per_pkt mode + samples_per_pkt mode) with ((c + 1) * samples_per_pkt mode) by lia. }
  apply ok_iff in HL as (out' & -> & W). destruct (next_phase_wraps t mode Hsr Hns) as (p & Ep & Hp'); [unfold INT_MAX in *; nia|done|]. rewrite Ep. cbn [mbind option_bind].
  exists p, out'. by repeat (split; [done|]).
Qed.
End FillLemmas.

(** ** Deadlines *)

(** a time of [n] nanoseconds, and back *)
Definition at_ns (n : Z) : timespec := Timespec (n / 1000000000) (n mod 1000000000).
Definition ns_of (t : timespec) : Z := tv_sec t * 1000000000 + tv_nsec t.

Lemma carry_seconds_ok fuel : forall s n, 0 <= n -> n / 1000000000 <= Z.of_nat fuel -> 0 <= s ->
  s + n / 1000000000 <= 9223372036854775807 ->
  carry_seconds fuel (Timespec s n) = Some (Ok (at_ns (s * 1000000000 + n))).
Proof.
  induction fuel as [|fuel IH]; intros s n Hn Hf Hs Hmax; cbn [carry_seconds tv_sec tv_nsec]; rewrite Z.geb_leb;
    (destruct (Z.leb_spec 1000000000 n) as [Hge|Hlt];
     [|unfold at_ns; rewrite Z.div_add_l, Z.div_small, Z.add_0_r by lia; by rewrite Z.add_comm, Z.mod_add, Z.mod_small by lia]).
  - Z.div_mod_to_equations. lia.
  - assert (n / 1000000000 = (n - 1000000000) / 1000000000 + 1) as E by (Z.div_mod_to_equations; lia).
    assert (0 <= (n - 1000000000) / 1000000000) by (apply Z.div_pos; lia).
    assert (long (s + 1) = Ok (s + 1)) as -> by (apply ok_eq, ok_long; [lia|done]).
    rewrite IH by lia. do 3 f_equal. lia.
Qed.

Lemma advance_ok n d : 0 <= n -> 0 <= d <= 1000000000 -> n / 1000000000 < 9223372036854775806 ->
  advance (at_ns n) d = Some (Ok (at_ns (n + d))).
Proof.
  intros Hn Hd Hmax. unfold advance, at_ns. cbn [tv_sec tv_nsec]. pose proof (Z.mod_pos_bound n 1000000000 ltac:(lia)).
  assert (long (n mod 1000000000 + d) = Ok (n mod 1000000000 + d)) as -> by (apply ok_eq, ok_long; [lia|done]).
  assert ((n mod 1000000000 + d) / 1000000000 < 2) by (apply Z.div_lt_upper_bound; lia).
  assert (0 <= (n mod 1000000000 + d) / 1000000000) by (apply Z.div_pos; lia).
  rewrite carry_seconds_ok; [|lia|lia|apply Z.div_pos; lia|lia].
  unfold at_ns. pose proof (Z.div_mod n 1000000000 ltac:(lia)). do 4 f_equal; lia.
Qed.

(** ** The stream *)

(** the tone after one packet, and after [i] *)
Definition tone_next (mode : reac_mode) (t : tone) : tone :=
  match wrap_phase (wrap_fuel (next_phase t mode)) (next_phase t mode) with
  | Some p => Tone p (freq_hz t) (amplitude t) (per_channel_detune t)
  | None => t
  end.
Definition tone_at (mode : reac_mode) (t : tone) (i : nat) : tone := Nat.iter i (tone_next mode) t.

(** packet number [i] of the stream *)
Definition tone_packet {M : Libm} (mode : reac_mode) (t : tone) (pt ssrc_ : Z) (i : nat) (pkt : buf Z) : Prop :=
  packet_spec mode (RtpParams pt (u16 (Z.of_nat i)) (u32 (Z.of_nat i * samples_per_pkt mode)) ssrc_) 0
    (fun c s => Some (tone_level (tone_at mode t i) mode c s)) (pkt, 0).

(** what turn [i] does *)
Definition turn_events (mode : reac_mode) (fd : Z) (dest : sockaddr) (sap : option sap_announcer) (start : Z) (i : nat) (pkt : buf Z)
  : list tone_event :=
  let pps := sample_rate mode / samples_per_pkt mode in
  [Sys (Sendto fd pkt dest)]
  ++ (if (Z.of_nat i + 1) mod pps =? 0 then announce_if sap else [])
  ++ [SleepUntil (at_ns (start + (Z.of_nat i + 1) * (1000000000 / pps)))].

(** the tone stays in range, and only its phase moves *)
Lemma tone_at_ok mode t : tone_ok t mode -> 0 <= n_channels mode -> 0 < samples_per_pkt mode <= 24 -> forall i,
  tone_ok (tone_at mode t i) mode /\ amplitude (tone_at mode t i) = amplitude t /\ freq_hz (tone_at mode t i) = freq_hz t.
Proof.
  intros HT Hch Hns. induction i as [|i ((H1 & H2 & Ha & Hsr & Hp) & Ea & Ef)]; [done|].
  unfold tone_at in *. rewrite Nat.iter_succ. set (u := Nat.iter i _ _) in *.
  destruct (next_phase_wraps u mode Hsr Hns) as (p & Ep & Hp').
  { unfold INT_MAX in *. nia. }
  { done. }
  unfold tone_next. rewrite Ep. split; [by repeat (split; [done|])|done].
Qed.

Section GenLemmas.
Context {L : ReacLib} {D : ReacDoc L} {M : Libm} {MD : LibmDoc M}.
Context (mode : reac_mode) (HM : mode_ok mode) (Hrate : samples_per_pkt mode <= sample_rate mode <= INT_MAX).
Context (fd : Z) (dest : sockaddr) (Hfd : 0 <= fd) (sap : option sap_announcer).
Context (pt ssrc_ : Z) (Hpt : 0 <= pt < 256) (Hssrc : 0 <= ssrc_ < 4294967296).
Context (t0 : tone) (HT : tone_ok t0 mode) (start : Z) (Hstart : 0 <= start).

Let ns : Z := samples_per_pkt mode.
Let pps : Z := sample_rate mode / ns.
Let pkt_ns : Z := 1000000000 / pps.
Let snd : aes67_sender := Sender fd (Some dest).

Lemma tone_pps : 0 < pps <= INT_MAX /\ 0 <= pkt_ns <= 1000000000.
Proof.
  pose proof HM as (_ & HM2 & _). unfold pkt_ns. assert (0 < pps <= INT_MAX) as Hp.
  { unfold pps, ns in *. split; [apply Z.div_str_pos; lia|]. apply Z.div_le_upper_bound; unfold INT_MAX in *; nia. }
  split; [done|]. split; [apply Z.div_pos; lia|]. apply Z.div_le_upper_bound; nia.
Qed.

(** the state after [i] turns *)
Definition gen_inv (i : nat) (st : gen_state) : Prop :=
  (exists pkts, length pkts = i
     /\ g_events st = announce_if sap ++ concat (imap (turn_events mode fd dest sap start) pkts)
     /\ forall j pkt, pkts !! j = Some pkt -> tone_packet mode t0 pt ssrc_ j pkt)
  /\ g_tone st = tone_at mode t0 i /\ tone_ok (g_tone st) mode
  /\ g_rtp st = RtpParams pt (u16 (Z.of_nat i)) (u32 (Z.of_nat i * ns)) ssrc_
  /\ g_next st = at_ns (start + Z.of_nat i * pkt_ns) /\ g_count st = Z.of_nat i
  /\ blen (g_pcm st) = 2880 /\ blen (g_pkt st) = 2892.

Lemma tone_mode_size : 0 < n_channels mode <= 40 /\ 0 < ns <= 24 /\ n_channels mode * ns * 3 <= 2880.
Proof. pose proof HM as (H1 & H2 & _). rewrite doc_max_channels in H1. fold ns in H2. nia. Qed.

(** building and sending one packet *)
Lemma ok_gen_packet st i pcm tn : g_rtp st = RtpParams pt (u16 (Z.of_nat i)) (u32 (Z.of_nat i * ns)) ssrc_ ->
  g_count st = Z.of_nat i -> Z.of_nat i + 1 < 18446744073709551616 -> blen (g_pkt st) = 2892 ->
  written (g_pcm st) 0 (n_channels mode * ns) (tone_byte (tone_at mode t0 i) mode) pcm -> tone_ok (tone_at mode t0 i) mode ->
  ok (gen_packet mode snd sap pps st tn pcm) (fun st' =>
    exists pkt pkt', tone_packet mode t0 pt ssrc_ i pkt /\ blen pkt' = 2892
      /\ st' = Gen tn (RtpParams pt (u16 (Z.of_nat (S i))) (u32 (Z.of_nat (S i) * ns)) ssrc_) (g_next st) (Z.of_nat (S i)) pcm pkt'
                 (g_events st ++ [Sys (Sendto fd pkt dest)]
                    ++ if (Z.of_nat i + 1) mod pps =? 0 then announce_if sap else [])).
Proof.
  intros Hr Hc Hi Hl W HTi. destruct tone_mode_size as (S1 & S2 & S3). destruct tone_pps as [Hp _]. unfold INT_MAX in *.
  unfold gen_packet. rewrite Hr, Hc. ok_step.
  apply (ok_build_packet mode _ _ _ _ 0); fold ns.
  - done.
  - unfold rtp_params_ok. cbn [payload_type seq timestamp ssrc].
    pose proof (u16_range (Z.of_nat i)). pose proof (u32_range (Z.of_nat i * ns)). lia.
  - eapply written_bytes; [exact W|]. intros n k _ _. eexists. split; [done|]. apply byte24_range.
  - reac_consts. unfold RTP_HEADER_LEN. lia.
  - intros pkt' Hb HS _. rewrite Z.gtb_ltb, (proj2 (Z.ltb_lt _ _)) by (unfold RTP_HEADER_LEN; nia).
    cbn [payload_type seq timestamp ssrc]. ok_step. eexists _, pkt'. split; [|split; [lia|]].
    + eapply packet_spec_ext; [exact HS|]. intros c s Hc' Hs. cbn beta. fold ns in Hs |- *.
      destruct (level_value (tone_at mode t0 i) mode HTi ltac:(lia) S2 ltac:(fold ns; unfold INT_MAX; lia) c s Hc' Hs) as [_ Hv].
      destruct HTi as (_ & _ & Ha & _). eapply (written_sample _ _ _ _ _ (tone_level (tone_at mode t0 i) mode c s)); [exact W|by apply lex_lt| |unfold SMIN, SMAX in *; lia].
      intros k Hk. unfold tone_byte. fold ns. by rewrite row_div, row_mod.
    + rewrite (u64_small (Z.of_nat i + 1)), (u64_small pps) by lia. rewrite Z.gtb_ltb, (proj2 (Z.ltb_lt 0 pps)) by lia. cbn [andb].
      unfold aes67_send_packet, snd. cbn [sd_fd sd_dest]. rewrite (proj2 (Z.ltb_ge fd 0)) by done.
      cbn [Datatypes.snd fmap list_fmap]. rewrite u16_add_l, u32_add_r, u32_add_l. f_equal; [|lia].
      f_equal; f_equal; lia.
Qed.

Lemma gen_turn_ok i st : gen_inv i st -> start / 1000000000 + Z.of_nat i < 9223372036854775805 ->
  exists st', gen_turn mode snd sap pps pkt_ns st = Some (Ok st') /\ gen_inv (S i) st'.
Proof.
  intros ((pkts & Hlen & Hev & Hpk) & Ht & HTi & Hr & Hn & Hc & Hb1 & Hb2) Hi.
  destruct tone_mode_size as (S1 & S2 & S3). destruct tone_pps as [Hp Hd]. unfold gen_turn.
  destruct (ok_tone_fill (g_tone st) mode HTi ltac:(lia) S2 ltac:(fold ns; unfold INT_MAX; lia) (g_pcm st)) as (p & pcm & -> & W & Ep & HT'); [fold ns; lia|].
  set (tn := Tone p _ _ _) in *. cbn [mbind option_bind res_bind].
  assert (tn = tone_at mode t0 (S i)) as Etn.
  { unfold tone_at. rewrite Nat.iter_succ. fold (tone_at mode t0 i). rewrite <- Ht. unfold tone_next. by rewrite Ep. }
  assert (0 <= start / 1000000000) by (apply Z.div_pos; lia).
  rewrite Ht in W, HTi. pose proof (ok_gen_packet st i pcm tn Hr Hc ltac:(lia) Hb2 W HTi) as HO.
  apply ok_iff in HO as (st1 & -> & pkt & pkt' & HP & Hl' & ->). cbn [g_next g_tone g_rtp g_count g_pcm g_pkt g_events]. rewrite Hn.
  rewrite advance_ok; [|nia|done|].
  2: { apply Z.div_lt_upper_bound; [lia|]. pose proof (Z.div_mod start 1000000000 ltac:(lia)).
       pose proof (Z.mod_pos_bound start 1000000000 ltac:(lia)). nia. }
  cbn [fmap option_fmap option_map res_fmap]. eexists. split; [done|]. unfold gen_inv. cbn [g_next g_tone g_rtp g_count g_pcm g_pkt g_events].
  split; [|rewrite <- Etn; split; [done|]; split; [done|]; split; [done|]; split; [f_equal; lia|]; split; [done|]; split; [|done]].
  - exists (pkts ++ [pkt]). split; [rewrite length_app, Hlen; cbn; lia|]. split.
    + rewrite Hev, imap_app, concat_app. cbn [imap concat]. rewrite Nat.add_0_r, Hlen, app_nil_r, <- !app_assoc.
      do 2 f_equal. unfold turn_events. fold ns pps pkt_ns.
      by replace (start + Z.of_nat i * pkt_ns + pkt_ns) with (start + (Z.of_nat i + 1) * pkt_ns) by lia.
    + intros j x Hx. apply lookup_app_Some in Hx as [Hx|[Hj Hx]]; [by apply Hpk|].
      apply list_lookup_singleton_Some in Hx as [Hj0 <-]. by replace j with i by lia.
  - by rewrite (written_blen _ _ _ _ _ W).
Qed.

Lemma gen_loop_ok n : forall i st, gen_inv i st -> start / 1000000000 + Z.of_nat (i + n) < 9223372036854775806 ->
  exists st', gen_loop mode snd sap pps pkt_ns n st = Some (Ok st') /\ gen_inv (i + n) st'.
Proof.
  induction n as [|n IH]; intros i st HI Hi; cbn [gen_loop]; [exists st; by rewrite Nat.add_0_r|].
  destruct (gen_turn_ok i st HI ltac:(lia)) as (st1 & -> & H1). cbn [mbind option_bind].
  destruct (IH (S i) st1 H1 ltac:(lia)) as (st' & -> & H2). exists st'. split; [done|]. by replace (i + S n)%nat with (S i + n)%nat by lia.
Qed.
End GenLemmas.

(** ** The generator always goes on *)

Section Ends.
Context {L : ReacLib} {M : Libm}.
Context (mode : reac_mode) (Hsr : 0 < sample_rate mode <= INT_MAX) (Hns : 0 < samples_per_pkt mode <= 24).

(** whatever the frequency *)
Definition phase_inv (t : tone) : Prop :=
  (0 < freq_hz t <= INT_MAX /\ phase_ok (phase t)) \/ (INT_MIN <= freq_hz t <= 0 /\ f64_nonpos (phase t)).

Lemma tone_fill_ends t out : phase_inv t ->
  exists r, tone_fill t out mode = Some r /\ forall tn pcm, r = Ok (tn, pcm) -> phase_inv tn.
Proof.
  intros HI. unfold tone_fill. destruct (for_ _ _ _ _) as [out'|e]; [|by eexists].
  destruct HI as [[Hf Hp]|[Hf Hp]].
  - destruct (next_phase_wraps t mode Hsr Hns Hf Hp) as (p & -> & Hp'). eexists. split; [done|]. intros tn pcm [= <- <-]. by left.
  - destruct (next_phase_stays t mode Hsr Hns Hf Hp) as [-> Hp']. eexists. split; [done|]. intros tn pcm [= <- <-]. by right.
Qed.

Lemma advance_ends t d : is_Some (advance t d).
Proof.
  unfold advance. destruct (long _) as [n|e]; [|by eexists]. generalize (tv_sec t).
  assert (n / 1000000000 <= Z.of_nat (Z.to_nat (n / 1000000000))) as H by lia. revert H.
  generalize (Z.to_nat (n / 1000000000)). intros fuel. revert n. induction fuel as [|fuel IH]; intros n Hf s; cbn [carry_seconds tv_nsec tv_sec];
    rewrite Z.geb_leb; (destruct (Z.leb_spec 1000000000 n); [|by eexists]).
  - Z.div_mod_to_equations. lia.
  - destruct (long (s + 1)); [|by eexists]. apply IH.
    replace n with (n - 1000000000 + 1 * 1000000000) in Hf by lia. rewrite Z.div_add in Hf by lia. lia.
Qed.

Lemma gen_loop_ends snd sap pps pkt_ns turns : forall st, phase_inv (g_tone st) -> is_Some (gen_loop mode snd sap pps pkt_ns turns st).
Proof.
  induction turns as [|turns IH]; intros st HI; cbn [gen_loop]; [by eexists|]. unfold gen_turn.
  destruct (tone_fill_ends (g_tone st) (g_pcm st) HI) as (r & -> & Hr). cbn [mbind option_bind].
  destruct r as [[tn pcm]|e]; cbn [mbind res_bind]; [|by eexists]. specialize (Hr tn pcm eq_refl).
  destruct (gen_packet _ _ _ _ _ _ _) as [st1|e] eqn:E; [|by eexists].
  assert (g_tone st1 = tn) as Et.
  { unfold gen_packet in E. destruct (rtp_l24_build _ _ _ _ _) as [[n pkt]|e]; [|done]. by injection E as <-. }
  destruct (advance_ends (g_next st1) pkt_ns) as [[next|e] ->]; cbn; [|by eexists]. apply IH. by rewrite <- Et in Hr.
Qed.

Lemma run_gen_tone_ends snd pt ssrc_ freq detune sap turns now : INT_MIN <= freq <= INT_MAX ->
  is_Some (run_gen_tone mode snd pt ssrc_ freq detune sap turns now).
Proof.
  intros Hf. unfold run_gen_tone. destruct (idiv _ _ ≫= _) as [[pps pkt_ns]|e]; [|by eexists].
  apply fmap_is_Some, gen_loop_ends. cbn [g_tone]. unfold phase_inv, tone_init. cbn [freq_hz phase].
  destruct (decide (0 < freq)); [left|right]; (split; [lia|done]).
Qed.
End Ends.

(** * What the generator leaves undefined *)

(** nothing keeps the frequency from 0, where the phase of a channel is 0/0: the
    conversion of its sample to [int32_t] is undefined *)
Lemma zero_frequency_fill {M : Libm} {MD : LibmDoc M} t mode out :
  freq_hz t = 0 -> phase t = f64_zero -> 0 < n_channels mode -> 0 < samples_per_pkt mode ->
  tone_fill t out mode = Some (Err SignedOverflow).
Proof.
  intros Hf Hp Hc Hs. unfold tone_fill. rewrite for_cons by done.
  assert (f64_div (f64_of_int 0) (f64_of_int 0) = S754_nan) as E by by vm_compute.
  assert (tone_channel t mode 0 out = Err SignedOverflow) as ->; [|done].
  unfold tone_channel. rewrite Hf, Z.mul_0_l. change (int 0) with (Ok 0). cbn [mbind res_bind].
  change (int (0 + 0)) with (Ok 0). cbn [mbind res_bind]. rewrite for_cons by done.
  assert (forall w, tone_value t (f64_of_int 0) w 0 = S754_nan) as Hv.
  { intros w. unfold tone_value, tone_argument. rewrite Hf, Hp, E, (doc_sin_invalid _); done. }
  unfold tone_sample. by rewrite Hv.
Qed.

(** a channel whose frequency is not a multiple of the base's is not continuous:
    its phase is the base phase scaled, and jumps when that one is wrapped.  Channel
    1 at 1025 Hz, in millionths of a radian: where the fifth packet of a 1000 Hz
    base ends, and where the sixth begins, 2 pi and a fortieth of a turn earlier *)
Definition microradians (x : f64) : res Z := f64_to_int (f64_mul x (f64_of_int 1000000)).

Example detuned_jump :
  let mode := ReacMode 48000 40 12 in
  let t := tone_init 1000 6000000 25 in
  let at_ i s := microradians (tone_argument (tone_at mode t i) (f64_of_int 1025) (step_of mode (f64_of_int 1025)) s) in
  at_ 4%nat 12 = Ok 8050331 /\ at_ 5%nat 0 = Ok 1610066 /\ microradians TWO_PI = Ok 6283185.
Proof. by vm_compute. Qed.

(** at 44.1 kHz a second's worth of packets is over 3100 ns early *)
Example pace_44100 : let pps := 44100 / 12 in pps * (1000000000 / pps) = 1000000000 - 3100.
Proof. done. Qed.

(** * Properties *)

(** C21: the stream of the tone generator.  At a positive frequency, and detunings
    that keep every channel's frequency an [int], the generator meets no undefined
    operation however long it runs: each turn sends one packet to the destination,
    with consecutive sequence numbers, timestamps one packet apart and, for channel
    [c] and time [s], the sample [tone_level], of magnitude at most 6000000, which
    its saturation never alters; announces the stream at the start and then once
    per second's worth of packets; and sleeps until a deadline that lies exactly
    [i + 1] packet durations after the start, in normal form.  The phase stays
    between 0 and 2 pi. *)
Theorem tone_stream {L : ReacLib} {D : ReacDoc L} {M : Libm} {MD : LibmDoc M} mode fd dest sap pt ssrc_ freq detune turns now
  (HM : mode_ok mode) (Hrate : samples_per_pkt mode <= sample_rate mode <= INT_MAX) (Hfd : 0 <= fd)
  (Hpt : 0 <= pt < 256) (Hssrc : 0 <= ssrc_ < 4294967296)
  (Hfreq : 1 <= freq) (Hdetune : freq + n_channels mode * Z.abs detune <= INT_MAX)
  (Hsec : 0 <= tv_sec now) (Hnsec : 0 <= tv_nsec now < 1000000000)
  (Hturns : tv_sec now + Z.of_nat turns < 9223372036854775806) :
  let t := tone_init freq 6000000 detune in
  exists pkts, length pkts = turns
    /\ run_gen_tone mode (Sender fd (Some dest)) pt ssrc_ freq detune sap turns now
       = Some (Ok (0, announce_if sap ++ concat (imap (turn_events mode fd dest sap (ns_of now)) pkts)))
    /\ forall i pkt, pkts !! i = Some pkt ->
         tone_packet mode t pt ssrc_ i pkt /\ phase_ok (phase (tone_at mode t i))
         /\ forall c s, 0 <= c < n_channels mode -> 0 <= s < samples_per_pkt mode ->
              Z.abs (tone_level (tone_at mode t i) mode c s) <= 6000000.
Proof.
  intros t. pose proof HM as (S1 & S2 & S3). rewrite doc_max_channels in S1. unfold INT_MAX in *.
  assert (tone_ok t mode) as HT.
  { unfold t, tone_ok, tone_init, INT_MAX, SMAX. cbn [freq_hz amplitude per_channel_detune phase].
    change (6000000 >? 8388607) with false. cbn iota. by repeat (split; [lia|]). }
  set (start := ns_of now). assert (0 <= start) as Hstart by (unfold start, ns_of; lia).
  assert (at_ns start = now) as Enow.
  { unfold at_ns, start, ns_of. rewrite Z.div_add_l, Z.div_small, Z.add_0_r by lia.
    rewrite Z.add_comm, Z.mod_add, Z.mod_small by lia. by destruct now. }
  assert (start / 1000000000 = tv_sec now) as Esec by (unfold start, ns_of; rewrite Z.div_add_l, Z.div_small; lia).
  destruct (tone_pps mode HM Hrate) as [Hp _]. unfold INT_MAX in Hp.
  destruct (gen_loop_ok mode HM Hrate fd dest Hfd sap pt ssrc_ Hpt Hssrc t start Hstart turns 0
    (Gen t (RtpParams pt 0 0 ssrc_) now 0 (undef (REAC_MAX_CHANNELS * 24 * 3)) (undef (RTP_HEADER_LEN + REAC_MAX_CHANNELS * 24 * 3))
       (announce_if sap))) as (st & Hrun & (pkts & Hlen & Hev & Hpk) & _).
  - unfold gen_inv. cbn [g_events g_tone g_rtp g_next g_count g_pcm g_pkt]. split; [exists []; by rewrite app_nil_r|].
    split; [done|]. split; [done|]. split; [done|]. split; [by rewrite Z.add_0_r|]. split; [done|].
    unfold RTP_HEADER_LEN. rewrite doc_max_channels, !blen_undef by lia. done.
  - rewrite Esec. lia.
  - exists pkts. split; [done|]. split.
    + unfold run_gen_tone, idiv. rewrite (proj2 (Z.eqb_neq (samples_per_pkt mode) 0)), Z.quot_div_nonneg by lia.
      assert (int (sample_rate mode / samples_per_pkt mode) = Ok (sample_rate mode / samples_per_pkt mode)) as -> by (apply ok_eq, ok_int; [unfold INT_MIN, INT_MAX; lia|done]).
      cbn [mbind res_bind]. rewrite (proj2 (Z.eqb_neq _ 0)), Z.quot_div_nonneg by lia.
      pose proof (proj2 (tone_pps mode HM Hrate)).
      assert (int (1000000000 / (sample_rate mode / samples_per_pkt mode)) = Ok (1000000000 / (sample_rate mode / samples_per_pkt mode))) as -> by (apply ok_eq, ok_int; [unfold INT_MIN, INT_MAX; lia|done]).
      cbn [mbind res_bind mret res_ret]. fold t. rewrite Hrun. cbn [fmap option_fmap option_map res_fmap]. by rewrite Hev.
    + intros i pkt Hi. pose proof (tone_at_ok mode t HT ltac:(lia) S2 i) as (HTi & Ea & _). split; [by apply Hpk|].
      split; [by apply HTi|]. intros c s Hc Hs.
      destruct (level_value (tone_at mode t i) mode HTi ltac:(lia) S2 ltac:(unfold INT_MAX; nia) c s Hc Hs) as [_ H].
      rewrite Ea in H. exact H.
Qed.

(** a mono tone of 440 Hz: two packets and an announcer that has nothing to say *)
Definition square_sine : Libm := {|
  sin x := match x with
           | S754_zero s => S754_zero s
           | S754_finite s _ _ => S754_finite s 4503599627370496 (-53)
           | _ => S754_nan
           end |}.

Lemma square_sine_doc : LibmDoc square_sine.
Proof.
  split; [|by intros []]. intros [s|s| |s m e] _ HF; done.
Qed.

Definition mono_mode : reac_mode := ReacMode 48000 1 12.

Lemma tone_stream_witness :
  exists a b, run_gen_tone (L := documented_lib) (M := square_sine) mono_mode (Sender 7 (Some (SockAddr [239; 69; 1; 2] [19; 140])))
      97 305419896 440 10 None 2 (Timespec 5 999900000)
    = Some (Ok (0, [Sys (Sendto 7 a (SockAddr [239; 69; 1; 2] [19; 140])); SleepUntil (Timespec 6 150000);
                    Sys (Sendto 7 b (SockAddr [239; 69; 1; 2] [19; 140])); SleepUntil (Timespec 6 400000)]))
    /\ payload_sample a 1 = Some 3000000 /\ parse_rtp_header b = Some (RtpParams 97 1 12 305419896).
Proof.
  destruct (tone_stream (L := documented_lib) (D := documented_lib_doc) (M := square_sine) (MD := square_sine_doc) mono_mode 7
    (SockAddr [239; 69; 1; 2] [19; 140]) None 97 305419896 440 10 2 (Timespec 5 999900000) ltac:(by vm_compute)
    ltac:(by vm_compute) ltac:(lia) ltac:(lia) ltac:(lia) ltac:(lia) ltac:(by vm_compute) ltac:(by vm_compute) ltac:(by vm_compute) ltac:(by vm_compute))
    as (pkts & Hlen & Hrun & Hpk).
  destruct pkts as [|a [|b [|]]]; try discriminate Hlen. exists a, b. split.
  { etransitivity; [exact Hrun|]. unfold announce_if, turn_events. cbn [fmap list_fmap app imap concat]. reflexivity. }
  destruct (Hpk 0%nat a eq_refl) as ((_ & _ & _ & _ & Ha) & _). destruct (Hpk 1%nat b eq_refl) as ((_ & _ & _ & Hb & _) & _).
  split; [|exact Hb]. etransitivity; [apply (Ha 0 1); cbn; lia|]. by vm_compute.
Defined.
