(* ===== verification/PtpClock.v ===== *)
(** ptp_clock.c: the RTP timestamp of a TAI instant (RFC 7273, direct=0). *)

From S2P Require Import Prelude.

(** [tai_sec] is a [uint64_t], [tai_nsec] a [uint32_t], [rate] an [int] *)
Definition tai_to_rtp_ts (tai_sec tai_nsec rate : Z) : Z :=
  let sub := u64 (u64 (tai_nsec * u64 rate) + 500000000) / 1000000000 in
  let total := u64 (u64 (tai_sec * u64 rate) + sub) in
  u32 (Z.land total 4294967295).

(** [tai] is what [clock_gettime(CLOCK_TAI)] gave, [None] when it failed *)
Definition ptp_now_tai (tai : option (Z * Z)) : Z * option (Z * Z) :=
  match tai with
  | None => (-1, None)
  | Some (s, n) => (0, Some (u64 s, u32 n))
  end.

(** the anchor of [run_dante] *)
Definition dante_anchor (tai : option (Z * Z)) (rate : Z) : Z :=
  match ptp_now_tai tai with
  | (0, Some (s, n)) => tai_to_rtp_ts s n rate
  | _ => 0
  end.

(** the sample nearest to an instant of the second *)
Definition nearest_sample (nsec rate : Z) : Z := (nsec * rate + 500000000) / 1000000000.

(** The RTP timestamp of an instant.  For any 64-bit TAI second, a nanosecond
    below one second and a rate of at most 192 kHz, nothing overflows harmfully:
    the result is the number of samples since the epoch, rounded to the nearest,
    modulo 2^32; the rounding is off by at most half a sample, one second later
    is exactly [rate] samples later, and time never runs backwards within a
    second. *)
Theorem tai_to_rtp_ts_correct sec nsec rate
  (Hs : 0 <= sec < 18446744073709551616) (Hn : 0 <= nsec < 1000000000) (Hr : 0 < rate <= 192000) :
  tai_to_rtp_ts sec nsec rate = u32 (sec * rate + nearest_sample nsec rate)
  /\ 2 * Z.abs (nearest_sample nsec rate * 1000000000 - nsec * rate) <= 1000000000
  /\ 0 <= nearest_sample nsec rate <= rate
  /\ (sec + 1 < 18446744073709551616 ->
        tai_to_rtp_ts (sec + 1) nsec rate = u32 (tai_to_rtp_ts sec nsec rate + rate))
  /\ (forall nsec', nsec <= nsec' -> nearest_sample nsec rate <= nearest_sample nsec' rate).
Proof.
  assert (forall s, tai_to_rtp_ts s nsec rate = u32 (s * rate + nearest_sample nsec rate)) as H.
  { intros s. unfold tai_to_rtp_ts, nearest_sample.
    assert (u64 rate = rate) as -> by (apply Z.mod_small; lia).
    assert (0 <= nsec * rate < 192000000000000) by nia.
    assert (u64 (u64 (nsec * rate) + 500000000) = nsec * rate + 500000000) as ->
      by (unfold u64; rewrite (Z.mod_small (nsec * rate)), Z.mod_small; lia).
    set (k := (nsec * rate + 500000000) / 1000000000). cbv zeta.
    change 4294967295 with (Z.ones 32). rewrite Z.land_ones by lia. unfold u32, u64.
    change (2 ^ 32) with 4294967296. rewrite Zmod_mod.
    assert (forall x, (x mod 18446744073709551616) mod 4294967296 = x mod 4294967296) as E.
    { intros x. apply Z.mod_mod_divide. by exists 4294967296. }
    rewrite E, <- Zplus_mod_idemp_l, E, Zplus_mod_idemp_l. done. }
  split; [apply H|]. unfold nearest_sample in *. split; [Z.div_mod_to_equations; lia|].
  split; [split; [apply Z.div_pos; nia|]|split].
  - apply Z.lt_succ_r, Z.div_lt_upper_bound; nia.
  - intros _. rewrite !H. unfold u32. rewrite Zplus_mod_idemp_l. f_equal. lia.
  - intros nsec' Hle. apply Z.div_le_mono; nia.
Qed.

Lemma tai_to_rtp_ts_correct_witness :
  tai_to_rtp_ts 1700000000 999999999 48000 = u32 (1700000001 * 48000).
Proof.
  exact (eq_trans (proj1 (tai_to_rtp_ts_correct 1700000000 999999999 48000 ltac:(lia) ltac:(lia) ltac:(lia))) eq_refl).
Defined.
