(* ===== verification/Listen.v ===== *)
(** reac_capture.c and the live mode of main.c: frames taken from the capture
    socket go through the pipeline, and the stream's SAP announcement is repeated
    about once a second. *)

From S2P Require Import Prelude LibReac Pcm Decode MediaClock Plc Rtp Pipeline Packetizer Factor.

(** * The capture socket *)

(** [struct reac_capture]; [nonblock] is the O_NONBLOCK flag of the descriptor *)
Record reac_capture : Type := Capture { cap_fd : Z; nonblock : bool }.

(** what one [recv] gives, and whether a stop signal has arrived by then *)
Inductive recv_result : Type :=
| Received (data : list Z)   (* a packet, of any size *)
| TryAgain                   (* EINTR, EAGAIN or EWOULDBLOCK *)
| RecvError.
Record recv_event : Type := Event { ev_result : recv_result; ev_stop : bool }.

(** [socket], the interface index and [bind], as the kernel answers; besides the
    result, the descriptors closed *)
Definition reac_capture_open (socket : Z) (ifindex : option Z) (bound : bool) : Z * reac_capture * list Z :=
  if socket <? 0 then (-1, Capture (-1) false, []) else
  match ifindex with
  | None => (-1, Capture (-1) false, [socket])
  | Some _ => if bound then (0, Capture socket false, []) else (-1, Capture (-1) false, [socket])
  end.

(** [fcntl] fails when the argument is [None] *)
Definition reac_capture_set_nonblock (flags : option unit) (b : bool) (c : reac_capture) : Z * reac_capture :=
  if cap_fd c <? 0 then (-1, c) else
  match flags with None => (-1, c) | Some _ => (0, Capture (cap_fd c) b) end.

Definition reac_capture_close (c : reac_capture) : reac_capture := Capture (-1) (nonblock c).

(** the test on the ethertype, after [recv] into [cap] bytes *)
Definition is_reac_type (d : list Z) : bool :=
  (14 <=? Z.of_nat (length d)) && bool_decide (d !! 12%nat = Some 136) && bool_decide (d !! 13%nat = Some 25).

(** the outcome of a call: it waits for ever when the socket has nothing more *)
Inductive next_result : Type :=
| Next (n : Z) (data : list Z) (stop : bool) (rest : list recv_event)
| Waiting.

(** [reac_capture_next] over the results [recv] will give; [stop] is whether the
    signal handler has already run *)
Fixpoint reac_capture_next (c : reac_capture) (cap : Z) (stop : bool) (evs : list recv_event) : next_result :=
  if cap_fd c <? 0 then Next (-1) [] stop evs else
  match evs with
  | [] => Waiting
  | Event r s :: evs =>
      let stop := stop || s in
      match r with
      | TryAgain => Next 0 [] stop evs
      | RecvError => Next (-1) [] stop evs
      | Received data =>
          let d := take (Z.to_nat cap) data in
          if is_reac_type d then Next (Z.of_nat (length d)) d stop evs
          else if nonblock c then Next 0 [] stop evs
          else reac_capture_next c cap stop evs
      end
  end.

(** the build for systems without AF_PACKET *)
Definition stub_capture_open (c : reac_capture) : Z * reac_capture := (-1, Capture (-1) (nonblock c)).

Definition stub_capture_set_nonblock (b : bool) (c : reac_capture) : Z * reac_capture := (-1, c).

Definition stub_capture_next (c : reac_capture) : Z := -1.

Definition stub_capture_close (c : reac_capture) : reac_capture := c.

(** it behaves as one whose sockets cannot be opened *)
Lemma no_packet_unavailable b flags cap stop evs :
  let c := (stub_capture_open (Capture 0 false)).2 in
  reac_capture_open (-1) None false = (-1, c, [])
  /\ reac_capture_set_nonblock flags b c = stub_capture_set_nonblock b c
  /\ reac_capture_next c cap stop evs = Next (stub_capture_next c) [] stop evs
  /\ reac_capture_close c = stub_capture_close c.
Proof. by destruct evs. Qed.

(** * The live mode *)

(** [frame_wanted]; [bcast_only] is the option's global *)
Definition frame_wanted (bcast_only : bool) (b : buf Z) (n : Z) : res bool :=
  if negb bcast_only then mret true else
  if n <? 6 then mret false else
  b0 ← rd b 0; b1 ← rd b 1; b2 ← rd b 2; b3 ← rd b 3; b4 ← rd b 4; b5 ← rd b 5;
  mret (Z.land (Z.land (Z.land (Z.land (Z.land b0 b1) b2) b3) b4) b5 =? 255).

(** the 2048-byte frame buffer after [recv] of [d] *)
Definition frame_buffer (d : list Z) : buf Z := of_list d ++ undef (2048 - Z.of_nat (length d)).

(** the state of [run_listen]'s loops: the pipeline, the world its packets and
    announcements go to, and the frame counter *)
Record listen_state (W : Type) : Type := Listen {
  l_pl : pipeline W;
  l_w : W;
  l_fc : Z;              (* unsigned long *)
}.
Arguments Listen {W}.
Arguments l_pl {W}.
Arguments l_w {W}.
Arguments l_fc {W}.

Section Listen.
Context {L : ReacLib} {W : Type}.
(** [emit_udp] and [sap_announce] on that world *)
Context (emit : pipeline_emit_fn W) (announce : W -> W).

Definition sap_announced (l : listen_state W) : listen_state W := Listen (l_pl l) (announce (l_w l)) (l_fc l).

(** one frame of the blocking loop *)
Definition listen_frame (bcast_only : bool) (pps : Z) (d : list Z) (n : Z) (l : listen_state W) : res (listen_state W) :=
  w ← frame_wanted bcast_only (frame_buffer d) n;
  if negb w then mret l else
  '(_, pl, w) ← pipeline_on_frame (l_pl l) (frame_buffer d) n emit (l_w l);
  if pps >? 0 then
    let fc := u64 (l_fc l + 1) in
    let l := Listen pl w fc in
    mret (if fc mod pps =? 0 then sap_announced l else l)
  else mret (Listen pl w (l_fc l)).

(** [while (!g_stop) ...], with fuel; the result tells whether it has been left *)
Fixpoint listen_loop (fuel : nat) (bcast_only : bool) (pps : Z) (c : reac_capture) (stop : bool)
  (evs : list recv_event) (l : listen_state W) : option (res (bool * listen_state W)) :=
  match fuel with
  | O => None
  | S fuel =>
      if stop then Some (mret (true, l)) else
      match reac_capture_next c 2048 stop evs with
      | Waiting => Some (mret (false, l))
      | Next n d stop evs =>
          if n <? 0 then Some (mret (true, l))
          else if n =? 0 then listen_loop fuel bcast_only pps c stop evs (sap_announced l)
          else match listen_frame bcast_only pps d n l with
               | Err e => Some (Err e)
               | Ok l => listen_loop fuel bcast_only pps c stop evs l
               end
      end
  end.

(** [pps] of [run_listen] *)
Definition listen_pps (m : reac_mode) : Z :=
  if samples_per_pkt m =? 0 then 0 else Z.quot (sample_rate m) (samples_per_pkt m).

(** one frame of [listen_on_readable]; [pkts] is [g_listen_pkts] *)
Definition readable_frame (bcast_only : bool) (d : list Z) (n : Z) (st : pipeline W * W * Z) : res (pipeline W * W * Z) :=
  let '(pl, w, pkts) := st in
  wanted ← frame_wanted bcast_only (frame_buffer d) n;
  if negb wanted then mret st else
  '(_, pl, w) ← pipeline_on_frame pl (frame_buffer d) n emit w;
  mret (pl, w, u64 (pkts + 1)).

(** [listen_on_readable]: the event loop's callback drains what is ready on the
    non-blocking socket, whose [recv] gives [rs] and then EAGAIN *)
Fixpoint listen_on_readable (bcast_only : bool) (c : reac_capture) (rs : list recv_result)
  (st : pipeline W * W * Z) : res (pipeline W * W * Z) :=
  match rs with
  | [] => mret st
  | r :: rs =>
      match reac_capture_next c 2048 false [Event r false] with
      | Waiting => mret st
      | Next n d _ _ =>
          if n <=? 0 then mret st else
          st ← readable_frame bcast_only d n st;
          listen_on_readable bcast_only c rs st
      end
  end.

(** the counters [listen_on_publish] gives to [ubus_stats_update]: snapshot,
    packet rate, uptime in seconds *)
Definition published (m : reac_mode) (pl : pipeline W) (pkts : Z) : res (pipeline_stats * Z * Z) :=
  pps ← idiv (sample_rate m) (samples_per_pkt m);
  mret (pipeline_get_stats pl, pps, u32 (pkts / (if pps =? 0 then 1 else pps))).
End Listen.

(** * Specification *)

(** what the loop makes of the events until it is left or waits *)
Inductive turn : Type := Idle | Frame (d : list Z).

#[export] Instance turn_eq_dec : EqDecision turn.
Proof. solve_decision. Defined.

(** [busy]: inside [reac_capture_next], which does not look at the stop flag *)
Fixpoint turns (busy stop : bool) (evs : list recv_event) : list turn :=
  if negb busy && stop then [] else
  match evs with
  | [] => []
  | Event r s :: evs =>
      match r with
      | RecvError => []
      | TryAgain => Idle :: turns false (stop || s) evs
      | Received data =>
          let d := take (Z.to_nat 2048) data in
          if is_reac_type d then Frame d :: turns false (stop || s) evs else turns true (stop || s) evs
      end
  end.

(** destination address ff:ff:ff:ff:ff:ff *)
Definition broadcast (d : list Z) : bool :=
  (6 <=? Z.of_nat (length d)) && forallb (fun b => b =? 255) (take 6 d).

(** the frames that reach the pipeline *)
Definition wanted (bcast_only : bool) (ts : list turn) : list (list Z) :=
  flat_map (fun t => match t with
                     | Frame d => if negb bcast_only || broadcast d then [d] else []
                     | Idle => []
                     end) ts.

(** the frames one readable callback takes from the socket *)
Fixpoint drained (rs : list recv_result) : list turn :=
  match rs with
  | Received data :: rs =>
      let d := take (Z.to_nat 2048) data in
      if is_reac_type d then Frame d :: drained rs else []
  | _ => []
  end.

Definition idles (ts : list turn) : Z :=
  Z.of_nat (length (filter (fun t => t = Idle) ts)).

Definition result_ok (r : recv_result) : Prop :=
  match r with Received data => Forall (fun b => 0 <= b < 256) data | _ => True end.
Definition data_ok (e : recv_event) : Prop := result_ok (ev_result e).

(** what a live session hands to the network, in order *)
Inductive live_event : Type := Media (e : buf Z * Z) | Announced.

Definition media (evs : list live_event) : trace :=
  omap (fun e => match e with Media p => Some p | Announced => None end) evs.
Definition announcements (evs : list live_event) : Z :=
  Z.of_nat (length (omap (fun e => match e with Media _ => None | Announced => Some tt end) evs)).

(** a world driven by such events *)
Definition happens {W} (h : live_event -> W -> W) (evs : list live_event) (w : W) : W := foldl (fun w e => h e w) w evs.
Definition live_emit {W} (h : live_event -> W -> W) : pipeline_emit_fn W := fun pkt _ c w => mret (h (Media (pkt, c)) w).

(** * Lemmas *)

Lemma land_mask255 b : 0 <= b < 256 -> Z.land b 255 = b.
Proof. intros Hb. change 255 with (Z.ones 8). rewrite Z.land_ones by lia. by apply Z.mod_small. Qed.

Lemma land_byte x b : 0 <= b < 256 -> Z.land x b = 255 <-> b = 255 /\ Z.land x 255 = 255.
Proof.
  intros Hb. split; [|by intros [-> ->]]. intros H.
  assert (b = 255) as ->; [|done].
  rewrite <- (land_mask255 b) by done. rewrite <- H at 1.
  by rewrite (Z.land_comm x b), Z.land_assoc, Z.land_diag, Z.land_comm.
Qed.

Lemma get_frame_buffer d i : 0 <= i < Z.of_nat (length d) -> get (frame_buffer d) i = d !! Z.to_nat i.
Proof.
  intros Hi. unfold frame_buffer. rewrite get_lookup by lia. unfold of_list.
  rewrite lookup_app_l by (rewrite length_fmap; lia). rewrite list_lookup_fmap.
  destruct (d !! Z.to_nat i) eqn:E; [done|]. apply lookup_ge_None in E. lia.
Qed.

Lemma frame_buffer_bytes d : Forall (fun b => 0 <= b < 256) d -> bytes_upto (frame_buffer d) (Z.of_nat (length d)).
Proof.
  intros H i Hi. rewrite get_frame_buffer by done.
  destruct (lookup_lt_is_Some_2 d (Z.to_nat i)) as [v Hv]; [lia|]. exists v. split; [done|].
  by apply (Forall_lookup_1 _ _ _ _ H Hv).
Qed.

(** the test on the destination address *)
Lemma frame_wanted_spec bcast_only d :
  Forall (fun b => 0 <= b < 256) d ->
  frame_wanted bcast_only (frame_buffer d) (Z.of_nat (length d)) = Ok (negb bcast_only || broadcast d).
Proof.
  intros HB. unfold frame_wanted, broadcast. destruct bcast_only; [|done]. cbn [negb orb].
  destruct (Z.ltb_spec (Z.of_nat (length d)) 6) as [Hl|Hl].
  { by rewrite (proj2 (Z.leb_gt _ _)) by lia. }
  rewrite (proj2 (Z.leb_le 6 _)) by lia. cbn [andb].
  destruct d as [|b0 [|b1 [|b2 [|b3 [|b4 [|b5 d]]]]]]; try (cbn in Hl; lia).
  assert (forall i v, (b0 :: b1 :: b2 :: b3 :: b4 :: b5 :: d) !! Z.to_nat i = Some v -> 0 <= i < 6 ->
    rd (frame_buffer (b0 :: b1 :: b2 :: b3 :: b4 :: b5 :: d)) i = Ok v) as HR.
  { intros i v Hv Hi. apply rd_get. rewrite get_frame_buffer by (cbn [length]; lia). done. }
  rewrite (HR 0 b0), (HR 1 b1), (HR 2 b2), (HR 3 b3), (HR 4 b4), (HR 5 b5) by (done || lia).
  cbn [mbind res_bind]. unfold mret, res_ret. f_equal.
  do 6 (apply Forall_cons_1 in HB as [? HB]).
  apply eq_true_iff_eq. rewrite Z.eqb_eq. cbn [take forallb]. rewrite !andb_true_iff, !Z.eqb_eq.
  rewrite (land_byte _ b5) by done.
  rewrite <- (Z.land_assoc _ b4), (land_mask255 b4), (land_byte _ b4) by done.
  rewrite <- (Z.land_assoc _ b3), (land_mask255 b3), (land_byte _ b3) by done.
  rewrite <- (Z.land_assoc _ b2), (land_mask255 b2), (land_byte _ b2) by done.
  rewrite <- (Z.land_assoc _ b1), (land_mask255 b1), (land_byte _ b1) by done.
  rewrite (land_mask255 b0) by done. tauto.
Qed.

(** a call of [reac_capture_next] is the next turn *)
Lemma next_turn c stop evs :
  0 <= cap_fd c -> nonblock c = false -> Forall data_ok evs ->
  match reac_capture_next c 2048 stop evs with
  | Waiting => turns true stop evs = []
  | Next n d stop' rest =>
      Forall data_ok rest /\ (length rest < length evs)%nat
      /\ ((n = -1 /\ turns true stop evs = [])
          \/ (n = 0 /\ turns true stop evs = Idle :: turns false stop' rest)
          \/ (n = Z.of_nat (length d) /\ 14 <= n /\ Forall (fun b => 0 <= b < 256) d
              /\ turns true stop evs = Frame d :: turns false stop' rest))
  end.
Proof.
  intros Hfd Hnb HD. revert stop. induction HD as [|[r s] evs Hr HD IH]; intros stop;
    cbn [reac_capture_next turns negb andb].
  - by rewrite (proj2 (Z.ltb_ge _ 0)) by lia.
  - rewrite (proj2 (Z.ltb_ge _ 0)) by lia. destruct r as [data| |].
    + destruct (is_reac_type (take (Z.to_nat 2048) data)) eqn:E.
      * split; [done|]. split; [cbn; lia|]. right. right. split; [done|].
        unfold is_reac_type in E. apply andb_true_iff in E as [[E%Z.leb_le _]%andb_true_iff _].
        split; [done|]. split; [|done]. by apply Forall_take.
      * rewrite Hnb. specialize (IH (stop || s)). destruct (reac_capture_next _ _ _ _) as [n d stop' rest|]; [|done].
        destruct IH as (H1 & H2 & H3). split; [done|]. split; [cbn; lia|done].
    + split; [done|]. split; [cbn; lia|]. right. by left.
    + split; [done|]. split; [cbn; lia|]. by left.
Qed.

(** a call that does not fail has used up a result of [recv] *)
Lemma next_consumes c cap evs : forall stop n d stop' rest,
  reac_capture_next c cap stop evs = Next n d stop' rest -> n < 0 \/ (length rest < length evs)%nat.
Proof.
  induction evs as [|[r s] evs IH]; intros stop n d stop' rest; cbn [reac_capture_next];
    (destruct (cap_fd c <? 0); [intros [= <-]; left; lia|]); [done|].
  cbn [length]. destruct r as [data| |]; [|intros [=]; subst; right; lia|intros [=]; subst; left; lia].
  destruct (is_reac_type _); [intros [=]; subst; right; lia|].
  destruct (nonblock c); [intros [=]; subst; right; lia|]. intros H. destruct (IH _ _ _ _ _ H); [by left|right; lia].
Qed.

(** the blocking loop comes to its end or to where it waits *)
Lemma listen_loop_ends {L : ReacLib} {W} (emit : pipeline_emit_fn W) announce bcast_only pps c fuel : forall stop evs l,
  (length evs < fuel)%nat -> is_Some (listen_loop emit announce fuel bcast_only pps c stop evs l).
Proof.
  induction fuel as [|fuel IH]; intros stop evs l Hf; [lia|]. cbn [listen_loop]. destruct stop; [by eexists|].
  destruct (reac_capture_next _ _ _ _) as [n d stop' rest|] eqn:E; [|by eexists].
  apply next_consumes in E. destruct (Z.ltb_spec n 0); [by eexists|].
  destruct (n =? 0); [apply IH; lia|]. destruct (listen_frame _ _ _ _ _ _ _) as [l'|e]; [apply IH; lia|by eexists].
Qed.

Lemma div_succ a p : 0 < p -> 0 <= a -> (a + 1) / p = a / p + if (a + 1) mod p =? 0 then 1 else 0.
Proof.
  intros Hp Ha. destruct (Z.eqb_spec ((a + 1) mod p) 0) as [E|N]; Z.div_mod_to_equations; nia.
Qed.

Definition buffers_of (ds : list (list Z)) : list (buf Z * Z) :=
  (fun d => (frame_buffer d, Z.of_nat (length d))) <$> ds.

Lemma buffers_of_app ds ds' : buffers_of (ds ++ ds') = buffers_of ds ++ buffers_of ds'.
Proof. apply fmap_app. Qed.

Lemma pipeline_run_app {L : ReacLib} {W} (emit : pipeline_emit_fn W) fs fs' pl w :
  pipeline_run pl (fs ++ fs') emit w = ('(pl, w) ← pipeline_run pl fs emit w; pipeline_run pl fs' emit w).
Proof.
  revert pl w. induction fs as [|[raw len] fs IH]; intros pl w; [done|]. cbn [pipeline_run app].
  destruct (pipeline_on_frame pl raw len emit w) as [[[r pl'] w']|e]; [|done]. apply IH.
Qed.

(** ** Sessions over any world *)

Lemma happens_app {W} (h : live_event -> W -> W) evs evs' w : happens h (evs ++ evs') w = happens h evs' (happens h evs w).
Proof. apply foldl_app. Qed.

Lemma media_app evs evs' : media (evs ++ evs') = media evs ++ media evs'.
Proof. apply omap_app. Qed.

Lemma announcements_app evs evs' : announcements (evs ++ evs') = announcements evs + announcements evs'.
Proof. unfold announcements. rewrite omap_app, length_app. lia. Qed.

Lemma media_packets t : media (Media <$> t) = t /\ announcements (Media <$> t) = 0.
Proof.
  induction t as [|e t [IH1 IH2]]; [done|]. unfold media, announcements in *. cbn [fmap list_fmap omap list_omap].
  split; [by f_equal|done].
Qed.

Lemma emits_packets {W} (h : live_event -> W -> W) t w :
  emits (fun e w => mret (h (Media e) w)) t w = Ok (happens h (Media <$> t) w).
Proof. revert w. induction t as [|e t IH]; intros w; [done|]. cbn [emits fmap list_fmap happens foldl mbind res_bind]. apply IH. Qed.

Section Session.
Context {L : ReacLib} {D : ReacDoc L} {W : Type} (h : live_event -> W -> W).
Context (m : reac_mode) (pt ssrc_ : Z) (pl0 : pipeline trace) (w0 : W).

(** the pipeline and the world of a session that has taken the frames [fs] and
    handed on [evs]: what the recording pipeline [pl0] makes of these frames, but
    for where the packets go *)
Definition session (fs : list (list Z)) (evs : list live_event) (pl : pipeline W) (w : W) : Prop :=
  exists plt bad, pipeline_run pl0 (buffers_of fs) trace_emit [] = Ok (plt, media evs)
    /\ run_inv m pt ssrc_ 0 bad plt (media evs)
    /\ same_pl (fun e w => mret (h (Media e) w)) (fun (_ : unit) t => t) (fun _ w => w) plt pl
    /\ w = happens h evs w0.

Lemma session_announced fs evs pl w : session fs evs pl w -> session fs (evs ++ [Announced]) pl (h Announced w).
Proof.
  intros (plt & bad & H1 & H2 & H3 & ->). exists plt, bad. rewrite media_app, app_nil_r, happens_app. done.
Qed.

Lemma ok_session_frame fs evs pl w d : session fs evs pl w -> Forall (fun b => 0 <= b < 256) d ->
  ok (pipeline_on_frame pl (frame_buffer d) (Z.of_nat (length d)) (live_emit h) w)
    (fun '(_, pl', w') => exists new, session (fs ++ [d]) (evs ++ (Media <$> new)) pl' w').
Proof.
  intros (plt & bad & H1 & H2 & H3 & ->) HB.
  pose proof (run_step m pt ssrc_ 0 bad plt (frame_buffer d) (Z.of_nat (length d)) (media evs) H2
    (frame_buffer_bytes d HB)) as H.
  apply ok_iff in H as ([[r plt'] t'] & Hrun & HI' & _).
  destruct (on_frame_factors (fun e w => mret (h (Media e) w)) (fun (_ : unit) t => t) (fun _ w => w)
    trace_emit (live_emit h) (fun pkt n c => trace_factors _ pkt n c) plt pl (frame_buffer d) (Z.of_nat (length d)) H3
    tt (media evs) (r, plt') t' Hrun) as (_ & new & [r' pl'] & -> & [Er HS'] & Hw).
  cbn [fst snd] in Er, HS'. rewrite Hw, emits_packets. cbn [mbind res_bind]. ok_step. exists new.
  destruct (media_packets new) as [E _]. unfold session. rewrite media_app, E, happens_app.
  eexists plt', _. split; [|by split].
  rewrite buffers_of_app, pipeline_run_app, H1. cbn [mbind res_bind buffers_of fmap list_fmap pipeline_run]. by rewrite Hrun.
Qed.

(** the frames kept by --bcast-only *)
Lemma wanted_frame bcast_only d : wanted bcast_only [Frame d] = if negb bcast_only || broadcast d then [d] else [].
Proof. cbn. apply app_nil_r. Qed.

Lemma wanted_cons bcast_only t ts : wanted bcast_only (t :: ts) = wanted bcast_only [t] ++ wanted bcast_only ts.
Proof. cbn [wanted flat_map]. by rewrite app_nil_r. Qed.

(** one frame in the loop *)
Lemma ok_listen_frame bcast_only pps fs evs d l :
  session fs evs (l_pl l) (l_w l) -> Forall (fun b => 0 <= b < 256) d -> 0 < pps ->
  0 <= l_fc l -> l_fc l + 1 < 18446744073709551616 ->
  ok (listen_frame (live_emit h) (h Announced) bcast_only pps d (Z.of_nat (length d)) l) (fun l' => exists new,
    session (fs ++ wanted bcast_only [Frame d]) (evs ++ new) (l_pl l') (l_w l')
    /\ l_fc l' = l_fc l + Z.of_nat (length (wanted bcast_only [Frame d]))
    /\ announcements new = l_fc l' / pps - l_fc l / pps).
Proof.
  intros HS HB Hp Hfc0 Hfc. unfold listen_frame. rewrite frame_wanted_spec, wanted_frame by done.
  cbn [mbind res_bind]. destruct (negb bcast_only || broadcast d); cbn [negb].
  - ok_step. eapply ok_mono; [by apply ok_session_frame|]. intros [[r pl'] w'] (new & HS').
    rewrite Z.gtb_ltb, (proj2 (Z.ltb_lt 0 pps)) by done. ok_step.
    assert (u64 (l_fc l + 1) = l_fc l + 1) as -> by (apply Z.mod_small; lia).
    pose proof (div_succ (l_fc l) pps Hp Hfc0) as Hdiv. destruct (media_packets new) as [_ E].
    destruct ((l_fc l + 1) mod pps =? 0); cbn [sap_announced l_pl l_w l_fc].
    + exists ((Media <$> new) ++ [Announced]). rewrite app_assoc, announcements_app, E.
      split; [by apply session_announced|]. split; [done|]. change (announcements [Announced]) with 1. cbn [length]. lia.
    + exists (Media <$> new). split; [done|]. split; [done|]. rewrite E. cbn [length]. lia.
  - ok_step. exists []. rewrite !app_nil_r. split; [done|]. change (announcements []) with 0. cbn [length]. split; lia.
Qed.

(** the loop *)
Lemma ok_listen_loop bcast_only pps c : 0 <= cap_fd c -> nonblock c = false -> 0 < pps ->
  forall fuel stop rs fs evs l,
  Forall data_ok rs -> (length rs < fuel)%nat ->
  session fs evs (l_pl l) (l_w l) -> 0 <= l_fc l -> l_fc l + Z.of_nat (length rs) < 18446744073709551616 ->
  let ts := turns false stop rs in
  exists left l' new, listen_loop (live_emit h) (h Announced) fuel bcast_only pps c stop rs l = Some (Ok (left, l'))
    /\ session (fs ++ wanted bcast_only ts) (evs ++ new) (l_pl l') (l_w l')
    /\ l_fc l' = l_fc l + Z.of_nat (length (wanted bcast_only ts))
    /\ announcements new = idles ts + (l_fc l' / pps - l_fc l / pps).
Proof.
  intros Hfd Hnb Hp. induction fuel as [|fuel IH]; intros stop rs fs evs l HD Hfuel HS Hfc0 Hfc ts; [lia|].
  assert (forall left : bool, ts = [] -> exists l' new, @Some (res (bool * listen_state W)) (Ok (left, l)) = Some (Ok (left, l'))
    /\ session (fs ++ wanted bcast_only ts) (evs ++ new) (l_pl l') (l_w l')
    /\ l_fc l' = l_fc l + Z.of_nat (length (wanted bcast_only ts))
    /\ announcements new = idles ts + (l_fc l' / pps - l_fc l / pps)) as Hend.
  { intros left ->. exists l, []. rewrite !app_nil_r. split; [done|]. split; [done|].
    change (idles []) with 0. change (announcements []) with 0. cbn [length wanted flat_map]. lia. }
  cbn [listen_loop]. destruct stop; [exists true; apply Hend; unfold ts; by destruct rs|].
  assert (ts = turns true false rs) as Ets by (unfold ts; by destruct rs).
  pose proof (next_turn c false rs Hfd Hnb HD) as HN. rewrite <- Ets in HN.
  destruct (reac_capture_next c 2048 false rs) as [n d stop' rest|]; [|exists false; by apply Hend].
  destruct HN as (HD' & Hlen & [[-> HN]|[[-> ->]|(-> & H14 & HB & ->)]]).
  - exists true. by apply Hend.
  - clear Hend. change (0 <? 0) with false. change (0 =? 0) with true. cbv iota.
    destruct (IH stop' rest fs (evs ++ [Announced]) (sap_announced (h Announced) l) HD' ltac:(lia)
      (session_announced _ _ _ _ HS) Hfc0 ltac:(cbn [sap_announced l_fc]; lia)) as (lf & l' & new & H1 & H2 & H3 & H4).
    exists lf, l', (Announced :: new). rewrite <- app_assoc in H2. split; [exact H1|]. split; [exact H2|]. split; [exact H3|].
    change (Announced :: new) with ([Announced] ++ new). rewrite announcements_app, H4. cbn [sap_announced l_fc].
    unfold idles. rewrite filter_cons_True by done. change (announcements [Announced]) with 1. cbn [length]. lia.
  - clear Hend. rewrite (proj2 (Z.ltb_ge _ 0)), (proj2 (Z.eqb_neq _ 0)) by lia.
    pose proof (ok_listen_frame bcast_only pps fs evs d l HS HB Hp Hfc0 ltac:(lia)) as H.
    apply ok_iff in H as (l1 & Hf & new1 & HS1 & Hk & Ha). rewrite Hf.
    assert (l_fc l <= l_fc l1 <= l_fc l + 1) as Hfc1 by (rewrite Hk, wanted_frame; destruct (_ || _); cbn; lia).
    destruct (IH stop' rest (fs ++ wanted bcast_only [Frame d]) (evs ++ new1) l1 HD' ltac:(lia) HS1 ltac:(lia) ltac:(lia))
      as (lf & l' & new & H1 & H2 & H3 & H4).
    exists lf, l', (new1 ++ new). rewrite wanted_cons, app_assoc, (app_assoc evs), announcements_app, length_app.
    split; [exact H1|]. split; [exact H2|]. unfold idles in *. rewrite filter_cons_False by done. lia.
Qed.

(** the callback of the event loop *)
Lemma ok_listen_on_readable bcast_only c : 0 <= cap_fd c -> nonblock c = true ->
  forall rs fs evs pl w pkts, Forall result_ok rs -> session fs evs pl w ->
  0 <= pkts < 18446744073709551616 ->
  ok (listen_on_readable (live_emit h) bcast_only c rs (pl, w, pkts)) (fun '(pl', w', pkts') => exists new,
    session (fs ++ wanted bcast_only (drained rs)) (evs ++ (Media <$> new)) pl' w'
    /\ pkts' = u64 (pkts + Z.of_nat (length (wanted bcast_only (drained rs))))).
Proof.
  intros Hfd Hnb. induction rs as [|r rs IH]; intros fs evs pl w pkts HR HS Hk; cbn [listen_on_readable drained].
  { ok_step. exists []. rewrite !app_nil_r, Z.add_0_r, u64_small by done. done. }
  apply Forall_cons_1 in HR as [Hr HR]. cbn [reac_capture_next].
  rewrite (proj2 (Z.ltb_ge _ 0)) by lia. rewrite Hnb.
  assert (ok (A := pipeline W * W * Z) (mret (pl, w, pkts)) (fun '(pl', w', pkts') => exists new,
    session (fs ++ []) (evs ++ (Media <$> new)) pl' w' /\ pkts' = u64 (pkts + 0))) as Hend
    by (ok_step; exists []; by rewrite !app_nil_r, Z.add_0_r, u64_small by done).
  destruct r as [data| |]; [|done|done].
  destruct (is_reac_type (take (Z.to_nat 2048) data)) eqn:E; [|done]. clear Hend.
  set (d := take (Z.to_nat 2048) data) in *.
  assert (Forall (fun b => 0 <= b < 256) d) as HB by (by apply Forall_take).
  assert (14 <= Z.of_nat (length d)) as H14 by (by apply andb_true_iff in E as [[E%Z.leb_le _]%andb_true_iff _]).
  rewrite (proj2 (Z.leb_gt _ 0)) by lia. ok_step. unfold readable_frame. rewrite frame_wanted_spec by done.
  rewrite wanted_cons, wanted_frame. cbn [mbind res_bind]. destruct (negb bcast_only || broadcast d); cbn [negb].
  - ok_step. eapply ok_mono; [by apply ok_session_frame|]. intros [[r' pl'] w'] (new & HS'). ok_step.
    eapply ok_mono; [apply (IH _ _ _ _ _ HR HS'), u64_range|]. intros [[pl'' w''] pkts''] (new' & HS'' & E'').
    exists (new ++ new'). rewrite fmap_app, (app_assoc evs), (app_assoc fs). split; [done|].
    rewrite E'', u64_add_l. f_equal. cbn [length app]. lia.
  - ok_step. apply IH; done.
Qed.
End Session.

(** the session as [run_listen] sets it up *)
Lemma session_start {L : ReacLib} {D : ReacDoc L} {W} (h : live_event -> W -> W) m pt ssrc_ xfade fade (w0 : W) :
  mode_ok m -> fade <= 81920 -> 0 <= pt < 256 -> 0 <= ssrc_ < 4294967296 ->
  session h m pt ssrc_ (fresh m pt ssrc_ xfade fade 0) w0 [] [] (pipeline_init_ex m pt ssrc_ xfade fade) w0.
Proof.
  intros HM Hf Hpt Hs. exists (fresh m pt ssrc_ xfade fade 0), 0. split; [done|].
  split; [apply fresh_inv; try done; lia|]. split; [|done]. by repeat split.
Qed.
