(* ===== verification/Ubus.v ===== *)
(** ubus_stats.c: the status object of a live stream, and the event loop that serves
    it.  The answers of libubus are arguments; the events of the loop are a list.
    The build without libubus is the functions [stub_...]. *)

From S2P Require Import Prelude LibReac Pcm Decode MediaClock Plc Rtp Pipeline Sdp Listen.

(** * The status object *)

Definition tier_name (t : Z) : list Z :=
  if t =? PLC_TIER_REPEAT_XFADE then str "crossfade"
  else if t =? PLC_TIER_BURST_FADE then str "burst_fade"
  else if t =? PLC_TIER_HOLD_LAST then str "hold_last"
  else if t =? PLC_TIER_SILENCE then str "silence"
  else str "clean".

(** [struct ubus_stats], without the objects of libubus; the char arrays are the
    strings they hold *)
Record ubus_stats : Type := UbusStats {
  u_objname : list Z;       (* char[64] *)
  u_name : list Z;          (* char[32] *)
  u_iface : list Z;         (* char[16] *)
  u_mcast : list Z;         (* char[32] *)
  u_ssrc : list Z;          (* char[16] *)
  u_rate : Z;
  u_channels : Z;
  u_stats : pipeline_stats;
  u_pps : Z;
  u_uptime : Z;             (* unsigned *)
  u_interval : Z;           (* unsigned pub_interval_s *)
}.

(** the fields of a reply *)
Inductive blob : Type :=
| BString (s : list Z)
| BU8 (v : Z)
| BU32 (v : Z)
| BU64 (v : Z).
Definition reply : Type := list (list Z * blob).

Definition status_cb (h : ubus_stats) : reply :=
  [(str "name", BString (u_name h)); (str "iface", BString (u_iface h));
   (str "rate", BU32 (u32 (u_rate h))); (str "channels", BU32 (u32 (u_channels h)));
   (str "mcast", BString (u_mcast h)); (str "ssrc", BString (u_ssrc h));
   (str "running", BU8 1); (str "uptime_s", BU32 (u_uptime h));
   (str "packets_per_sec", BU32 (u32 (u_pps h))); (str "rtp_seq", BU32 (last_seq (u_stats h)));
   (str "loss_total", BU64 (loss_total (u_stats h))); (str "packets", BU64 (packets (u_stats h)));
   (str "concealed", BU64 (concealed_count (u_stats h)));
   (str "plc_tier", BString (tier_name (last_tier (u_stats h))))].

(** [strncpy] into a cleared array of [n] characters *)
Definition strncpy (n : nat) (s : list Z) : list Z := take (n - 1) s.

(** [calloc], [ubus_connect] and [ubus_add_object] succeed or not; [None] is NULL *)
Definition ubus_stats_start (calloc_ok connected added : bool) (name iface : option (list Z)) (rate channels : Z)
  (mcast ssrc : option (list Z)) : option ubus_stats :=
  if negb (calloc_ok && connected && added) then None else
  let name := strncpy 32 (default (str "reac") name) in
  Some (UbusStats (take 63 (str "reac-aes67." ++ name)) name (strncpy 16 (default [] iface))
          (strncpy 32 (default [] mcast)) (strncpy 16 (default [] ssrc)) rate channels
          (PipelineStats 0 0 0 0 0 0) 0 0 0).

Definition ubus_stats_update (h : option ubus_stats) (s : pipeline_stats) (packets_per_sec uptime_s : Z)
  : option ubus_stats :=
  h ← h;
  Some (UbusStats (u_objname h) (u_name h) (u_iface h) (u_mcast h) (u_ssrc h) (u_rate h) (u_channels h)
          s packets_per_sec uptime_s (u_interval h)).

Definition set_interval (n : Z) (h : ubus_stats) : ubus_stats :=
  UbusStats (u_objname h) (u_name h) (u_iface h) (u_mcast h) (u_ssrc h) (u_rate h) (u_channels h)
    (u_stats h) (u_pps h) (u_uptime h) n.

(** * The event loop *)

Inductive loop_event : Type :=
| CaptureReadable (rs : list recv_result)  (* and what [recv] gives until EAGAIN *)
| PublishTimer
| StatusCall.

Section Loop.
Context {S : Type}.
(** the callbacks of [struct ubus_stats_loop_cb]; the second one updates the object *)
Context (on_capture_readable : option (list recv_result -> S -> res S)).
Context (on_publish : option (option ubus_stats -> S -> res (option ubus_stats * S))).

(** the object, the callbacks' context, the replies sent and the timers armed
    (milliseconds) *)
Record loop_state : Type := LoopState {
  ls_h : option ubus_stats;
  ls_ctx : S;
  ls_replies : list reply;
  ls_timers : list Z;
}.

Definition on_cap_uloop (rs : list recv_result) (l : loop_state) : res loop_state :=
  match on_capture_readable with
  | Some f => s ← f rs (ls_ctx l); mret (LoopState (ls_h l) s (ls_replies l) (ls_timers l))
  | None => mret l
  end.

(** [(int)h->pub_interval_s * 1000] *)
Definition timer_set (l : loop_state) : res loop_state :=
  t ← int (i32 (from_option u_interval 0 (ls_h l)) * 1000);
  mret (LoopState (ls_h l) (ls_ctx l) (ls_replies l) (ls_timers l ++ [t])).

Definition on_pub_uloop (l : loop_state) : res loop_state :=
  l ← match on_publish with
      | Some f => '(h, s) ← f (ls_h l) (ls_ctx l); mret (LoopState h s (ls_replies l) (ls_timers l))
      | None => mret l
      end;
  timer_set l.

Definition loop_step (l : loop_state) (e : loop_event) : res loop_state :=
  match e with
  | CaptureReadable rs => on_cap_uloop rs l
  | PublishTimer => on_pub_uloop l
  | StatusCall => mret (LoopState (ls_h l) (ls_ctx l) (ls_replies l ++ (status_cb <$> option_list (ls_h l))) (ls_timers l))
  end.

(** [uloop_run] over the events until the signal *)
Fixpoint uloop_run (l : loop_state) (evs : list loop_event) : res loop_state :=
  match evs with [] => mret l | e :: evs => l ← loop_step l e; uloop_run l evs end.

Definition ubus_stats_run (h : option ubus_stats) (interval : Z) (s : S) (evs : list loop_event) : res (Z * loop_state) :=
  match h with
  | None => mret (-1, LoopState None s [] [])
  | Some h =>
      l ← timer_set (LoopState (Some (set_interval (if interval =? 0 then 1 else interval) h)) s [] []);
      l ← uloop_run l evs;
      mret (0, l)
  end.
End Loop.
Arguments loop_state : clear implicits.
Arguments LoopState {S}.
Arguments ls_h {S}.
Arguments ls_ctx {S}.
Arguments ls_replies {S}.
Arguments ls_timers {S}.

(** calls of libubus and [free] *)
Inductive ubus_call : Type := UbusHandleEvent | UbusFree | Free.

Definition ubus_stats_poll (h : option ubus_stats) : list ubus_call :=
  match h with None => [] | Some _ => [UbusHandleEvent] end.

Definition ubus_stats_stop (h : option ubus_stats) : list ubus_call :=
  match h with None => [] | Some _ => [UbusFree; Free] end.

(** * The build without libubus *)

Definition stub_ubus_stats_start (name iface : option (list Z)) (rate channels : Z) (mcast ssrc : option (list Z))
  : option ubus_stats := None.

Definition stub_ubus_stats_update (h : option ubus_stats) (s : pipeline_stats) (packets_per_sec uptime_s : Z)
  : option ubus_stats := h.

Definition stub_ubus_stats_poll (h : option ubus_stats) : list ubus_call := [].

Definition stub_ubus_stats_run (h : option ubus_stats) (interval : Z) : Z := -1.

Definition stub_ubus_stats_stop (h : option ubus_stats) : list ubus_call := [].

(** to its callers that build is one where the bus cannot be reached *)
Lemma no_ubus_unreachable {S} f g name iface rate channels mcast ssrc st pps uptime interval (s : S) evs :
  let h := ubus_stats_start true false false name iface rate channels mcast ssrc in
  h = stub_ubus_stats_start name iface rate channels mcast ssrc
  /\ ubus_stats_update h st pps uptime = stub_ubus_stats_update h st pps uptime
  /\ ubus_stats_poll h = stub_ubus_stats_poll h
  /\ ubus_stats_run f g h interval s evs = Ok (stub_ubus_stats_run h interval, LoopState None s [] [])
  /\ ubus_stats_stop h = stub_ubus_stats_stop h.
Proof. done. Qed.

(** a loop that starts: the publish timer is armed for a second *)
Lemma ubus_stats_run_start {S} f g us (s : S) evs :
  ubus_stats_run f g (Some us) 1 s evs
  = (l ← uloop_run f g (LoopState (Some (set_interval 1 us)) s [] [1000]) evs; mret (0, l)).
Proof. done. Qed.

(** a status call before the first tick names the crossfade tier, although nothing
    has been concealed: the counters start cleared, and tier 0 is a tier *)
Lemma fresh_status_tier name iface rate channels mcast ssrc us :
  ubus_stats_start true true true name iface rate channels mcast ssrc = Some us ->
  (str "plc_tier", BString (str "crossfade")) ∈ status_cb us
  /\ (str "concealed", BU64 0) ∈ status_cb us.
Proof.
  intros [= <-]. unfold status_cb. split; rewrite !elem_of_cons; cbn [u_stats last_tier concealed_count].
  - do 13 right. by left.
  - do 12 right. by left.
Qed.
