(* ===== verification/Replay.v ===== *)
(** main.c: the capture replay modes, --count-rtp, --udp and --dump-samples. *)

From S2P Require Import Prelude LibReac Pcm Decode MediaClock Plc Rtp Pipeline PcapSource.

(** * The reading loop
    [while ((n = pcap_source_next(&ps, buf, sizeof buf, NULL)) > 0) body] *)

(** [buf] after a read of [d] into it *)
Definition received (buf0 : buf Z) (d : list Z) : buf Z := of_list d ++ drop (length d) buf0.

(** size of the callers' buffer *)
Definition READ_BYTES : Z := 2048.

Section Loop.
Context (fseek_ok : Z -> bool) {S : Type}.
Implicit Types (body : buf Z -> Z -> S -> res S) (s : S).

(** with fuel: [None] when it runs out *)
Fixpoint while_next (fuel : nat) (ps : pcap_source) (b : buf Z) body s : option (res (pcap_source * S)) :=
  match fuel with
  | O => None
  | Datatypes.S fuel =>
      '(p, ps) ← pcap_source_next fseek_ok ps READ_BYTES;
      if p_ret p >? 0 then
        let b := received b (p_data p) in
        match body b (p_ret p) s with
        | Ok s => while_next fuel ps b body s
        | Err e => Some (Err e)
        end
      else Some (Ok (ps, s))
  end.
End Loop.

(** * --count-rtp *)

Record counters : Type := Counters { total : Z; c_concealed : Z }.

Definition emit_count : pipeline_emit_fn counters := fun _ _ concealed c =>
  t ← int (total c + 1);
  k ← (if negb (concealed =? 0) then int (c_concealed c + 1) else mret (c_concealed c));
  mret (Counters t k).

Section Run.
Context {L : ReacLib} (fseek_ok : Z -> bool).

(** body of [run_pcap]'s loop *)
Definition pcap_frame {W} (emit : pipeline_emit_fn W) (b : buf Z) (n : Z) (st : pipeline W * W)
  : res (pipeline W * W) :=
  '(_, pl, w) ← pipeline_on_frame st.1 b n emit st.2;
  mret (pl, w).

(** [fopen] is the content of the file, [None] when it cannot be opened *)
Definition run_pcap {W} (fuel : nat) (fopen : option (list Z)) (m : reac_mode) (pt ssrc : Z)
  (emit : pipeline_emit_fn W) (ctx : W) : option (res (Z * W)) :=
  let pl := pipeline_init m pt ssrc in
  let '(r, ps) := pcap_source_open fopen in
  if negb (r =? 0) then Some (Ok (1, ctx)) else
  fmap (M := option) (fmap (M := res) (fun st => (0, st.2.2)))
    (while_next fseek_ok fuel ps (undef READ_BYTES) (pcap_frame emit) (pl, ctx)).

(** * --dump-samples: the lines printed *)

Inductive line : Type :=
| Malformed (frame : Z)
| Samples (frame seq_ : Z) (values : list Z).

(** [v] of the printing loop *)
Definition dump_value (pcm : buf Z) (i : Z) (values : list Z) : res (list Z) :=
  p0 ← rd pcm (i * 3); p1 ← rd pcm (i * 3 + 1); p2 ← rd pcm (i * 3 + 2);
  let v := i32 (Z.lor (Z.lor p0 (u32 (Z.shiftl p1 8))) (u32 (Z.shiftl p2 16))) in
  mret (values ++ [if Z.land v 8388608 =? 0 then v else Z.lor v (Z.lnot 16777215)]).

Definition dump_frame (m : reac_mode) (b : buf Z) (n : Z) (st : buf Z * Z * list line)
  : res (buf Z * Z * list line) :=
  let '(pcm, frame, out) := st in
  '(ns, pcm) ← reac_decode b n m pcm;
  next ← int (frame + 1);
  if ns <? 0 then mret (pcm, next, out ++ [Malformed frame]) else
  f ← reac_frame_inspect b n m;
  total ← int (n_channels m * ns);
  values ← for_ 0 total (dump_value pcm) [];
  mret (pcm, next, out ++ [Samples frame (counter f) values]).

(** [None] as a value is the exit with status 1 *)
Definition dump_samples (fuel : nat) (fopen : option (list Z)) (m : reac_mode) : option (res (option (list line))) :=
  let '(r, ps) := pcap_source_open fopen in
  if negb (r =? 0) then Some (Ok None) else
  fmap (M := option) (fmap (M := res) (fun st => Some st.2.2))
    (while_next fseek_ok fuel ps (undef READ_BYTES) (dump_frame m) (undef PCM_BYTES, 0, [])).
End Run.

(** * Specification *)

Section Spec.
Context {L : ReacLib}.

(** the frames of a capture, as the callers see them *)
Definition frames_of (records : list record) : list (list Z) := rec_data <$> seen READ_BYTES records.

Definition frame_len (d : list Z) : Z := Z.of_nat (length d).
Definition good (d : list Z) : bool := well_formed (of_list d) (frame_len d).

(** packets lost between the accepted frames, after the counter [last] *)
Definition lost_frames (last : option Z) (frames : list (list Z)) : Z :=
  missing last ((fun d => le16 (of_list d) 14) <$> filter (fun d => good d = true) frames).

Definition good_count (frames : list (list Z)) : Z := Z.of_nat (length (filter (fun d => good d = true) frames)).

(** sample [i] in the order of the planar buffer *)
Definition frame_values (m : reac_mode) (d : list Z) : list Z :=
  (fun i => default 0 (wire_sample m (of_list d) (i / samples_per_pkt m) (i mod samples_per_pkt m)))
  <$> seqZ 0 (n_channels m * samples_per_pkt m).

Definition frame_line (m : reac_mode) (k : nat) (d : list Z) : line :=
  if good d then Samples (Z.of_nat k) (le16 (of_list d) 14) (frame_values m d) else Malformed (Z.of_nat k).
End Spec.


(** * Lemmas *)

(** ** The loop runs the body over the frames read *)

Section LoopLemmas.
Context (fseek_ok : Z -> bool) {S : Type} (body : buf Z -> Z -> S -> res S) (s : S).

(** the body over a list of frames, as the buffer holds them *)
Fixpoint run_list (b : buf Z) (l : list packet) (s : S) : res S :=
  match l with
  | [] => mret s
  | p :: l => let b := received b (p_data p) in s ← body b (p_ret p) s; run_list b l s
  end.

Lemma while_next_list fuel : forall ps b s l ps',
  read_all fseek_ok fuel ps READ_BYTES = Some (l, ps') ->
  exists ps'', while_next fseek_ok fuel ps b body s = Some (s ← run_list b l s; mret (ps'', s)).
Proof.
  induction fuel as [|fuel IH]; intros ps b s0 l ps' H; [done|]. cbn [read_all while_next] in *.
  destruct (pcap_source_next fseek_ok ps READ_BYTES) as [[p ps1]|]; [|done]. cbn in *.
  destruct (p_ret p >? 0).
  - destruct (read_all fseek_ok fuel ps1 READ_BYTES) as [[l' ps2]|] eqn:E; [|done].
    cbn in H. injection H as <- <-. cbn [run_list].
    destruct (body _ _ s0) as [s1|e]; cbn; [|by exists ps1]. by eapply IH.
  - injection H as <- <-. by exists ps1.
Qed.

(** the loop ends on any file *)
Lemma while_next_ends fuel bytes ps b s0 : bytes_ok bytes -> pcap_source_open (Some bytes) = (0, ps) ->
  Z.of_nat (length bytes) < 16 * Z.of_nat fuel -> is_Some (while_next fseek_ok fuel ps b body s0).
Proof.
  intros HB Ho Hf. pose proof (open_ok bytes HB) as H. rewrite Ho in H. cbn [snd] in H. destruct (ps_f ps) as [f|] eqn:E.
  - destruct (H f eq_refl) as [Hok Hl]. destruct (read_all_ends fseek_ok READ_BYTES fuel ps f E Hok) as (l & ps' & Hr & _); [lia|].
    destruct (while_next_list fuel ps b s0 l ps' Hr) as [ps'' ->]. by eexists.
  - unfold pcap_source_open in Ho. destruct (fread _ 24) as [gh f1]. repeat case_match; by simplify_eq.
Qed.

(** an invariant of the body carries over to the loop *)
Lemma ok_run_list (P : nat -> S -> Prop) (frames : list (list Z)) :
  (forall b d k s, frames !! k = Some d -> P k s -> ok (body (received b d) (frame_len d) s) (P (Datatypes.S k))) ->
  forall b l k s, p_data <$> l = drop k frames -> Forall (fun p => p_ret p = frame_len (p_data p)) l -> P k s ->
  ok (run_list b l s) (P (k + length l)%nat).
Proof.
  intros Hbody b l. revert b. induction l as [|p l IH]; intros b k s0 Hl HF HP; cbn [run_list length].
  - by rewrite Nat.add_0_r.
  - apply Forall_cons_1 in HF as [Hp HF].
    assert (frames !! k = Some (p_data p)) as Hk.
    { rewrite <- (Nat.add_0_r k), <- lookup_drop, <- Hl. done. }
    ok_step. rewrite Hp. eapply ok_mono; [by apply Hbody|]. intros s1 HP1.
    replace (k + Datatypes.S (length l))%nat with (Datatypes.S k + length l)%nat by lia.
    apply IH; [|done|done]. rewrite <- Nat.add_1_r, <- drop_drop, <- Hl. done.
Qed.
End LoopLemmas.

(** ** The bytes of the frame just read *)

Section Frames.
Context {L : ReacLib} {D : ReacDoc L}.

Lemma get_received b d i : i < frame_len d -> get (received b d) i = get (of_list d) i.
Proof.
  intros Hi. unfold received, frame_len in *. destruct (decide (0 <= i)).
  - rewrite !get_lookup by done. rewrite lookup_app_l; [done|]. unfold of_list. rewrite length_fmap. lia.
  - by rewrite !get_neg by lia.
Qed.

Lemma received_bytes b d : bytes_ok d -> bytes_upto (received b d) (frame_len d).
Proof.
  intros Hd i Hi. rewrite get_received, get_of_list by lia. unfold frame_len in Hi.
  destruct (lookup_lt_is_Some_2 d (Z.to_nat i)) as [v Hv]; [lia|]. exists v. split; [done|].
  by apply (Forall_lookup_1 _ _ _ _ Hd Hv).
Qed.

Lemma well_formed_received b d : well_formed (received b d) (frame_len d) = good d.
Proof.
  unfold good, well_formed. apply bool_decide_ext.
  assert (frame_len d = REAC_FRAME_BYTES -> forall i, i < 1492 -> get (received b d) i = get (of_list d) i) as H.
  { intros E i Hi. apply get_received. rewrite E, doc_frame_bytes. done. }
  split; intros (E & H'); specialize (H E); rewrite E in *; rewrite doc_frame_bytes in *;
    (split; [done|]); revert H'; by rewrite !H by lia.
Qed.

Lemma good_len d : good d = true -> frame_len d = 1492.
Proof. apply well_formed_len. Qed.

Lemma le16_received b d : good d = true -> le16 (received b d) 14 = le16 (of_list d) 14.
Proof. intros Hg%good_len. unfold le16. by rewrite !get_received by lia. Qed.
End Frames.

(** ** Counting *)

Section Count.
Context {L : ReacLib} {D : ReacDoc L}.

(** the default path hands every packet to [emit], whatever that is *)
Lemma ok_deliver_any {W} (pl : pipeline W) planar ts c (emit : pipeline_emit_fn W) w (Q : W -> Prop) :
  mode_ok (mode pl) -> pcm_sink pl = None -> rtp_params_ok (rtp pl) ->
  0 <= ts < 4294967296 -> bytes_upto planar (channels pl * sps pl * 3) ->
  (forall pkt n, ok (emit pkt n c w) Q) ->
  ok (deliver pl planar ts c emit w) Q.
Proof.
  intros HM Hsink (P1 & P2 & P3 & P4) Hts HB HQ. pose proof (pcm_fits _ HM) as (_ & HF & HPK & Hfit).
  unfold channels, sps in *. unfold deliver. rewrite Hsink, HPK. unfold rtp_l24_build. ok_step.
  eapply ok_build_flow; [exact HF|by eapply bytes_is_Some|unfold rtp_params_ok; simpl; lia|by rewrite blen_undef| |];
    unfold RTP_HEADER_LEN.
  - intros Hlt. lia.
  - intros out _ _. pose proof HM as (HM1 & HM2 & _).
    assert (0 < n_channels (mode pl) * samples_per_pkt (mode pl)) by nia.
    rewrite Z.gtb_ltb, (proj2 (Z.ltb_lt _ _)) by lia. apply HQ.
Qed.

Lemma ok_emit_count pkt n (flag : bool) t k (Q : counters -> Prop) :
  0 <= k <= t -> t < INT_MAX -> Q (Counters (t + 1) (k + Z.b2z flag)) ->
  ok (emit_count pkt n (Z.b2z flag) (Counters t k)) Q.
Proof.
  unfold INT_MAX. intros Hk Ht HQ. unfold emit_count. cbn [total c_concealed]. ok_step. ok_step.
  destruct flag; cbn [Z.b2z Z.eqb negb] in *; ok_step; [ok_step; by ok_step|]. rewrite Z.add_0_r in HQ. by ok_step.
Qed.

Lemma ok_count_frame pl h raw len t k (Q : Z * pipeline counters * counters -> Prop) :
  pipeline_ok pl h -> pcm_sink pl = None -> bytes_upto raw len -> 0 <= k <= t ->
  t + (if well_formed raw len then frame_lost pl raw + 1 else 0) <= INT_MAX ->
  (well_formed raw len = false -> Q (-1, set_stats add_malformed pl, Counters t k)) ->
  (forall pl' h', well_formed raw len = true -> frame_done pl raw pl' -> pipeline_ok pl' h' ->
     Q (0, pl', Counters (t + frame_lost pl raw + 1) (k + frame_lost pl raw))) ->
  ok (pipeline_on_frame pl raw len emit_count (Counters t k)) Q.
Proof.
  intros HK Hsink HB Hk Ht Hbad Hgood. pose proof HK as (HM & _).
  eapply ok_on_frame with (J := fun i c => c = Counters (t + i) (k + i)); try done.
  - intros _. by rewrite !Z.add_0_r.
  - intros i pl' cpcm c WF Hi (M1 & _ & _ & M4 & _ & _ & _ & M8 & _) -> B1 _ _. rewrite WF in Ht.
    apply ok_deliver_any; try (unfold channels, sps; by rewrite M1); [by rewrite M4|done|apply block_ts_range|].
    intros pkt n. apply (ok_emit_count pkt n true); [lia|lia|]. cbn [Z.b2z]. f_equal; lia.
  - intros pl' pcm c WF (M1 & _ & _ & M4 & _ & _ & _ & M8 & _) -> B1 _ _. rewrite WF in Ht.
    pose proof (frame_lost_range pl raw).
    apply ok_deliver_any; try (unfold channels, sps; by rewrite M1); [by rewrite M4|done| |].
    { pose proof (well_formed_len _ _ WF) as ->.
      by pose proof (frame_clock_ok _ _ _ HK HB) as (_ & _ & _ & <- & ? & _). }
    intros pkt n. apply (ok_emit_count pkt n false); [lia|lia|]. cbn [Z.b2z]. rewrite Z.add_0_r.
    intros pl'' Hdone HK'. by eapply Hgood.
Qed.

Lemma good_count_cons d ds : good_count (d :: ds) = Z.b2z (good d) + good_count ds.
Proof. unfold good_count. rewrite filter_cons. destruct (good d); case_decide; try done; cbn [length Z.b2z]; lia. Qed.

Lemma lost_frames_cons mc d ds :
  lost_frames (last_of mc) (d :: ds)
  = if good d then let '(mc', step) := media_clock_on_packet mc (le16 (of_list d) 14) in
                   step_silence_packets step + lost_frames (last_of mc') ds
    else lost_frames (last_of mc) ds.
Proof.
  unfold lost_frames. rewrite filter_cons. destruct (good d); case_decide; try done.
  cbn [fmap list_fmap]. rewrite on_packet_missing. by destruct (media_clock_on_packet _ _).
Qed.

Lemma lost_frames_nonneg last ds : 0 <= lost_frames last ds.
Proof. apply missing_nonneg. Qed.

(** what the rest of a capture adds to the counters *)
Lemma ok_count_list : forall l b pl h t k,
  pipeline_ok pl h -> pcm_sink pl = None -> 0 <= k <= t ->
  Forall (fun p => p_ret p = frame_len (p_data p) /\ bytes_ok (p_data p)) l ->
  t + good_count (p_data <$> l) + lost_frames (last_of (clock pl)) (p_data <$> l) <= INT_MAX ->
  ok (run_list (pcap_frame emit_count) b l (pl, Counters t k)) (fun st =>
    st.2 = Counters (t + good_count (p_data <$> l) + lost_frames (last_of (clock pl)) (p_data <$> l))
                    (k + lost_frames (last_of (clock pl)) (p_data <$> l))).
Proof.
  induction l as [|p l IH]; intros b pl h t k HK Hsink Hk HF Ht; cbn [run_list fmap list_fmap].
  { cbn in *. by rewrite !Z.add_0_r. }
  apply Forall_cons_1 in HF as [[Hp Hd] HF]. cbn [fmap list_fmap] in Ht.
  rewrite good_count_cons, lost_frames_cons in *. set (ds := p_data <$> l) in *.
  set (raw := received b (p_data p)) in *. rewrite Hp. ok_step. unfold pcap_frame at 1. cbn [fst snd]. ok_step.
  pose proof (well_formed_received b (p_data p)) as WFe. fold raw in WFe.
  assert (good (p_data p) = true -> media_clock_on_packet (clock pl) (le16 (of_list (p_data p)) 14)
    = (frame_clock pl raw, frame_step pl raw)) as Hstep.
  { intros Hg. unfold frame_clock, frame_step. rewrite <- (le16_received b) by done.
    apply surjective_pairing. }
  assert (0 <= good_count ds) by (unfold good_count; lia).
  pose proof (lost_frames_nonneg (last_of (frame_clock pl raw)) ds). pose proof (lost_frames_nonneg (last_of (clock pl)) ds).
  apply ok_count_frame with (h := h); try done; rewrite ?WFe.
  - by apply received_bytes.
  - destruct (good (p_data p)); [|cbn [Z.b2z] in Ht; lia]. rewrite (Hstep eq_refl) in Ht. cbn [Z.b2z] in Ht. unfold frame_lost. lia.
  - intros WF. rewrite WF in *. ok_step. cbn [Z.b2z] in *. rewrite Z.add_0_l in *.
    by apply (IH raw (set_stats add_malformed pl) h); [apply malformed_ok|..].
  - intros pl' h' WF Hdone HK'. rewrite WF in *. rewrite (Hstep eq_refl) in *. cbn [Z.b2z] in *.
    pose proof Hdone as (_ & D2 & D3 & _). pose proof (frame_lost_range pl raw).
    ok_step. unfold frame_lost in *. set (n := step_silence_packets (frame_step pl raw)) in *.
    eapply ok_mono; [apply (IH raw pl' h'); [done|congruence|lia|done|rewrite D2; lia]|].
    intros st ->. rewrite D2. f_equal; lia.
Qed.
End Count.

(** ** Over a capture, the pipeline *)

Section Buffered.
Context {L : ReacLib} {D : ReacDoc L}.

(** the frames of a list of records as the reading buffer holds them *)
Fixpoint buffered (b0 : buf Z) (l : list packet) : list (buf Z * Z) :=
  match l with
  | [] => []
  | p :: l => let b := received b0 (p_data p) in (b, p_ret p) :: buffered b l
  end.

Lemma run_list_pipeline {W} (emit : pipeline_emit_fn W) l : forall b0 st,
  run_list (pcap_frame emit) b0 l st = pipeline_run st.1 (buffered b0 l) emit st.2.
Proof.
  induction l as [|p l IH]; intros b0 [pl w]; [done|]. cbn [run_list buffered pipeline_run fst snd].
  assert (pcap_frame emit (received b0 (p_data p)) (p_ret p) (pl, w)
    = ('(_, pl, w) ← pipeline_on_frame pl (received b0 (p_data p)) (p_ret p) emit w; mret (pl, w))) as -> by done.
  destruct (pipeline_on_frame pl (received b0 (p_data p)) (p_ret p) emit w) as [[[r pl'] w']|e]; [|done].
  cbn [mbind res_bind mret res_ret]. apply (IH _ (pl', w')).
Qed.

Lemma buffered_bytes l : Forall (fun p => p_ret p = frame_len (p_data p) /\ bytes_ok (p_data p)) l ->
  forall b0, Forall (fun f => bytes_upto f.1 f.2) (buffered b0 l).
Proof.
  induction 1 as [|p l [H1 H2] _ IH]; intros b0; [constructor|]. cbn [buffered]. constructor; [|apply IH].
  cbn [fst snd]. rewrite H1. by apply received_bytes.
Qed.

Lemma accepted_buffered l : Forall (fun p => p_ret p = frame_len (p_data p)) l -> forall b0 last,
  accepted (buffered b0 l) = good_count (p_data <$> l)
  /\ lost_among last (buffered b0 l) = lost_frames last (p_data <$> l).
Proof.
  induction 1 as [|p l Hp _ IH]; intros b0 last; [done|]. cbn [buffered fmap list_fmap].
  pose proof (well_formed_received b0 (p_data p)) as E. rewrite accepted_cons, good_count_cons, Hp, E.
  unfold lost_among, lost_frames in *. rewrite !filter_cons. cbn [fst snd]. rewrite E.
  destruct (IH (received b0 (p_data p)) None) as [-> _]. split; [done|].
  destruct (good (p_data p)) eqn:G; case_decide; try done.
  - cbn [fmap list_fmap missing fst]. rewrite (le16_received b0) by done.
    destruct last as [l0|]; [case_match|]; rewrite ?Z.add_cancel_l; apply (IH (received b0 (p_data p))).
  - apply (IH (received b0 (p_data p))).
Qed.
End Buffered.

(** ** Printing *)

Section Dump.
Context {L : ReacLib} {D : ReacDoc L}.
Implicit Types (m : reac_mode).

Lemma ok_dump_value pcm i values N (Q : list Z -> Prop) :
  bytes_upto pcm (N * 3) -> 0 <= i < N ->
  (forall v, sample pcm i = Some v -> Q (values ++ [v])) ->
  ok (dump_value pcm i values) Q.
Proof.
  intros HB Hi HQ. unfold sample in HQ.
  destruct (HB (i * 3)) as (p0 & E0 & R0); [lia|]. destruct (HB (i * 3 + 1)) as (p1 & E1 & R1); [lia|].
  destruct (HB (i * 3 + 2)) as (p2 & E2 & R2); [lia|].
  unfold dump_value. ok_step. ok_read E0. ok_step. ok_read E1. ok_step. ok_read E2. ok_step.
  rewrite !u32_small by (rewrite Z.shiftl_mul_pow2 by lia; lia).
  pose proof (load24_bits p0 p1 p2 R0 R1 R2) as HL. cbv zeta in HL.
  assert (i32 (Z.lor (Z.lor p0 (Z.shiftl p1 8)) (Z.shiftl p2 16)) = Z.lor (Z.lor p0 (Z.shiftl p1 8)) (Z.shiftl p2 16)) as ->.
  { apply i32_id. change 256 with (2 ^ 8) in R0. rewrite (lor_shiftl_add p0) by lia.
    change (2 ^ 8) with 256 in *. rewrite (lor_shiftl_add _ p2) by (change (2 ^ 16) with 65536; lia).
    change (2 ^ 16) with 65536. unfold INT_MIN, INT_MAX. lia. }
  rewrite HL. apply HQ. by rewrite E0, E1, E2.
Qed.

Lemma wire_sample_received m b d c s : good d = true -> mode_ok m ->
  0 <= c < n_channels m -> 0 <= s < samples_per_pkt m ->
  wire_sample m (received b d) c s = wire_sample m (of_list d) c s.
Proof.
  intros Hg%good_len HM Hc Hs. unfold wire_sample.
  pose proof (wire_offset_range m c s 0 HM Hc Hs ltac:(lia)).
  pose proof (wire_offset_range m c s 1 HM Hc Hs ltac:(lia)).
  pose proof (wire_offset_range m c s 2 HM Hc Hs ltac:(lia)).
  by rewrite !get_received by lia.
Qed.

(** the printing state after [k] frames *)
Definition dumped m (frames : list (list Z)) (k : nat) (st : buf Z * Z * list line) : Prop :=
  blen st.1.1 = PCM_BYTES /\ st.1.2 = Z.of_nat k /\ st.2 = imap (frame_line m) (take k frames).

Lemma dumped_next m frames k d pcm out :
  frames !! k = Some d -> blen pcm = PCM_BYTES -> out = imap (frame_line m) (take k frames) ->
  dumped m frames (S k) (pcm, Z.of_nat k + 1, out ++ [frame_line m k d]).
Proof.
  intros Hd Hp ->. split; [done|]. split; [cbn; lia|]. cbn [snd].
  rewrite (take_S_r _ _ _ Hd), imap_app. cbn [imap]. f_equal. cbn.
  rewrite length_take_le, Nat.add_0_r; [done|]. apply lookup_lt_Some in Hd. lia.
Qed.

Lemma ok_dump_frame m frames b d k st :
  mode_ok m -> Forall bytes_ok frames -> Z.of_nat (length frames) <= INT_MAX ->
  frames !! k = Some d -> dumped m frames k st ->
  ok (dump_frame m (received b d) (frame_len d) st) (dumped m frames (S k)).
Proof.
  intros HM HF Hint Hd. destruct st as [[pcm fr] out]. intros (Hp & Hfr & Hout). cbn [fst snd] in *. subst fr.
  pose proof (pcm_fits _ HM) as (Hfit & _). pose proof (lookup_lt_Some _ _ _ Hd).
  pose proof (Forall_lookup_1 _ _ _ _ HF Hd) as Hdb. pose proof HM as (HM1 & HM2 & _).
  assert (n_channels m * samples_per_pkt m <= 960) as HN by (revert HM1; reac_consts; nia).
  unfold dump_frame. ok_step. apply ok_reac_decode; [done|by apply received_bytes|lia|..];
    rewrite well_formed_received.
  - intros WF. ok_step. ok_step; [unfold INT_MAX in *; lia|]. change (-1 <? 0) with true. cbv iota. ok_step.
    pose proof (dumped_next m frames k d pcm out Hd Hp Hout) as HN'. unfold frame_line in HN'. by rewrite WF in HN'.
  - intros pcm' WF Hdec. ok_step. ok_step; [unfold INT_MAX in *; lia|].
    rewrite (proj2 (Z.ltb_ge (samples_per_pkt m) 0)) by lia.
    rewrite inspect_spec, well_formed_received, WF by (by apply received_bytes). ok_step. ok_step. ok_step. ok_step.
    pose proof (good_len d WF) as Hlen. pose proof (received_bytes b d Hdb) as HB. rewrite Hlen in HB.
    pose proof (decoded_bytes _ _ _ _ Hdec HM HB) as Hbytes.
    ok_step. apply (ok_for (fun i values => values = take (Z.to_nat i) (frame_values m d))); [nia|done| |].
    + intros i values Hi ->. eapply ok_dump_value; [exact Hbytes|done|]. intros v Hv.
      assert (0 <= i / samples_per_pkt m < n_channels m) as Hc
        by (split; [apply Z.div_pos; lia|apply Z.div_lt_upper_bound; lia]).
      assert (0 <= i mod samples_per_pkt m < samples_per_pkt m) as Hs by (apply Z.mod_pos_bound; lia).
      replace (Z.to_nat (i + 1)) with (S (Z.to_nat i)) by lia. symmetry. apply take_S_r.
      unfold frame_values. apply list_lookup_fmap_Some. exists i. split.
      2: { apply lookup_seqZ. lia. }
      rewrite <- (wire_sample_received m b d) by done.
      rewrite <- (sample_wire _ _ _ _ _ _ Hdec HM Hc Hs), Z.mul_comm, <- Z.div_mod, Hv by lia. done.
    + intros values ->. ok_step. rewrite take_ge.
      2: { unfold frame_values. rewrite length_fmap, length_seqZ. lia. }
      cbn [counter]. rewrite le16_received by done.
      assert (blen pcm' = PCM_BYTES) as Hp' by (rewrite (written_blen _ _ _ _ _ Hdec); done).
      pose proof (dumped_next m frames k d pcm' out Hd Hp' Hout) as HN'. unfold frame_line in HN'. by rewrite WF in HN'.
Qed.
End Dump.

(** a fresh pipeline, whatever its world *)
Lemma pipeline_init_ok `{D : ReacDoc} {W} m pt ssrc :
  mode_ok m -> 0 <= pt < 256 -> 0 <= ssrc < 4294967296 ->
  pipeline_ok (W := W) (pipeline_init m pt ssrc) (fun _ => []).
Proof.
  intros HM Hpt Hs. split; [done|]. split; [apply init_params_ok; [done|lia]|].
  split; [done|]. split; [done|]. split; [apply init_rep; apply HM|]. split; [done|].
  unfold rtp_params_ok, stats_ok; cbn. by intuition lia.
Qed.

(** * Properties *)

Section Capture.
Context {L : ReacLib} {D : ReacDoc L}.
(** a well-formed capture file of either byte order, on a seekable stream *)
Context (fseek_ok : Z -> bool) (swap : Z) (rest : list Z) (records : list record) (fuel : nat).
Context (Hseek : forall p, fseek_ok p = true) (Hswap : swap = 0 \/ swap = 1) (Hrest : length rest = 20%nat).
Context (Hrecords : Forall rec_ok records) (Hfuel : (length records < fuel)%nat).
Context (Hbytes : Forall (fun r => bytes_ok (rec_data r)) records).

Lemma seen_sub r : r ∈ seen READ_BYTES records -> r ∈ records.
Proof.
  clear. induction records as [|x l IH]; [done|]. cbn [seen]. rewrite elem_of_cons.
  case_match; [by auto|]. case_match; [by intros ?%elem_of_nil|]. rewrite elem_of_cons. intros [->|H1]; auto.
Qed.

Lemma frames_bytes : Forall bytes_ok (frames_of records).
Proof.
  apply Forall_forall. intros d (r & -> & Hr)%list_elem_of_fmap. apply seen_sub in Hr.
  rewrite Forall_forall in Hbytes. by apply Hbytes.
Qed.

Lemma packets_frames : p_data <$> (rec_packet <$> seen READ_BYTES records) = frames_of records.
Proof. by rewrite <- list_fmap_compose. Qed.

Lemma packets_lengths :
  Forall (fun p => p_ret p = frame_len (p_data p)) (rec_packet <$> seen READ_BYTES records).
Proof. apply Forall_fmap, Forall_forall. by intros r _. Qed.

Lemma seen_buffered :
  Forall (fun f => bytes_upto f.1 f.2) (buffered (undef READ_BYTES) (rec_packet <$> seen READ_BYTES records)).
Proof.
  apply buffered_bytes. apply Forall_fmap, Forall_forall. intros r Hr%seen_sub. split; [done|].
  rewrite Forall_forall in Hbytes. by apply Hbytes.
Qed.

(** the loop of the callers over that file *)
Lemma replay_loop {S} (body : buf Z -> Z -> S -> res S) s :
  exists ps ps', pcap_source_open (Some (capture_file swap rest records)) = (0, ps)
    /\ while_next fseek_ok fuel ps (undef READ_BYTES) body s
       = Some (s ← run_list body (undef READ_BYTES) (rec_packet <$> seen READ_BYTES records) s; mret (ps', s)).
Proof.
  destruct (capture_read fseek_ok swap READ_BYTES rest records fuel Hseek Hrest Hrecords Hfuel Hswap)
    as (ps & ps1 & H1 & H2).
  destruct (while_next_list fseek_ok body fuel ps (undef READ_BYTES) s _ _ H2) as [ps' H3]. by exists ps, ps'.
Qed.

(** --count-rtp.  Over any well-formed capture file the replay runs to its
    end with status 0, and the counts printed are exact: as many real packets as
    accepted frames, and one concealed packet for every packet the frame
    counters show missing between two of them, by the media clock's accounting;
    foreign and damaged frames count for nothing.  (The counters are [int]s: the
    total must fit one.)  A file that cannot be opened gives status 1. *)
Theorem run_pcap_counts m pt ssrc (lost := lost_frames None (frames_of records))
  (HM : mode_ok m) (Hpt : 0 <= pt < 256) (Hssrc : 0 <= ssrc < 4294967296)
  (Hfit : good_count (frames_of records) + lost <= INT_MAX) :
  run_pcap fseek_ok fuel (Some (capture_file swap rest records)) m pt ssrc emit_count (Counters 0 0)
  = Some (Ok (0, Counters (good_count (frames_of records) + lost) lost))
  /\ run_pcap fseek_ok fuel None m pt ssrc emit_count (Counters 0 0) = Some (Ok (1, Counters 0 0)).
Proof.
  split; [|done]. unfold run_pcap.
  destruct (replay_loop (pcap_frame emit_count) (pipeline_init m pt ssrc, Counters 0 0)) as (ps & ps' & -> & ->).
  pose proof (ok_count_list (rec_packet <$> seen READ_BYTES records) (undef READ_BYTES)
    (pipeline_init m pt ssrc) (fun _ => []) 0 0 (pipeline_init_ok _ _ _ HM Hpt Hssrc) eq_refl ltac:(lia)) as H.
  rewrite packets_frames in H. apply ok_iff in H as (st & -> & Hst).
  - cbn. rewrite Hst. cbn [clock pipeline_init pipeline_init_ex]. fold lost. by rewrite !Z.add_0_l.
  - apply Forall_fmap, Forall_forall. intros r Hr. split; [done|]. apply seen_sub in Hr.
    rewrite Forall_forall in Hbytes. by apply Hbytes.
  - exact Hfit.
Qed.

(** C31: --dump-samples.  Over any well-formed capture file one line is printed
    per frame, in order: an accepted frame shows its counter and its samples,
    channel by channel, each the signed value of its 24-bit code on the wire; any
    other frame shows as malformed. *)
Theorem dump_samples_correct m
  (HM : mode_ok m) (Hfit : Z.of_nat (length (frames_of records)) <= INT_MAX) :
  dump_samples fseek_ok fuel (Some (capture_file swap rest records)) m
  = Some (Ok (Some (imap (frame_line m) (frames_of records)))).
Proof.
  unfold dump_samples.
  destruct (replay_loop (dump_frame m) (undef PCM_BYTES, 0, [])) as (ps & ps' & -> & ->).
  pose proof (ok_run_list (dump_frame m) (dumped m (frames_of records)) (frames_of records)
    (fun b d k s Hd HP => ok_dump_frame m _ b d k s HM frames_bytes Hfit Hd HP)
    (undef READ_BYTES) (rec_packet <$> seen READ_BYTES records) 0%nat (undef PCM_BYTES, 0, [])
    packets_frames packets_lengths) as H.
  apply ok_iff in H as ([[pcm fr] out] & -> & _ & _ & Hout).
  - cbn in *. rewrite Hout, take_ge; [done|]. unfold frames_of. rewrite !length_fmap. lia.
  - split; [|split; [done|done]]. cbn. rewrite blen_undef; [done|unfold PCM_BYTES; reac_consts; lia].
Qed.
End Capture.

(** a capture with a gap of two packets and a foreign frame *)
Definition gap_records : list record :=
  [Record_ 1 0 (test_frame 7 (fun i => i)); Record_ 1 1 [1; 2; 3]; Record_ 1 2 (test_frame 10 (fun i => 3 * i))].

Lemma gap_records_ok : Forall rec_ok gap_records /\ Forall (fun r => bytes_ok (rec_data r)) gap_records.
Proof.
  split; [do 3 (apply Forall_cons; split; [by vm_compute|]); by apply Forall_nil|].
  do 3 (apply Forall_cons; split; [apply forall_bytes; by vm_compute|]). by apply Forall_nil.
Qed.

Lemma run_pcap_counts_witness :
  run_pcap (L := documented_lib) (fun _ => true) 4 (Some (capture_file 1 (replicate 20 0) gap_records)) mode48 97 1
    emit_count (Counters 0 0) = Some (Ok (0, Counters 4 2)).
Proof.
  assert (good_count (L := documented_lib) (frames_of gap_records) = 2) as E1 by (by vm_compute).
  assert (lost_frames (L := documented_lib) None (frames_of gap_records) = 2)
    as E2 by (by vm_compute).
  pose proof (proj1 (run_pcap_counts (L := documented_lib) (D := documented_lib_doc) (fun _ => true) 1 (replicate 20 0)
    gap_records 4 (fun _ => eq_refl) ltac:(by right) eq_refl (proj1 gap_records_ok) ltac:(cbn; lia)
    (proj2 gap_records_ok) mode48 97 1 mode48_ok ltac:(lia) ltac:(lia)
    ltac:(rewrite E1, E2; unfold INT_MAX; lia))) as H.
  by rewrite E1, E2 in H.
Defined.

Lemma dump_samples_correct_witness :
  exists v0 v2, dump_samples (L := documented_lib) (fun _ => true) 4
    (Some (capture_file 1 (replicate 20 0) gap_records)) mode48
  = Some (Ok (Some [Samples 0 7 v0; Malformed 1; Samples 2 10 v2])) /\ v2 !! 12%nat = Some (3 * (3 + 4 * 256 + 5 * 65536)).
Proof.
  pose proof (dump_samples_correct (L := documented_lib) (D := documented_lib_doc) (fun _ => true) 1 (replicate 20 0)
    gap_records 4 (fun _ => eq_refl) ltac:(by right) eq_refl (proj1 gap_records_ok) ltac:(cbn; lia)
    (proj2 gap_records_ok) mode48 mode48_ok ltac:(by vm_compute)) as H.
  do 2 eexists. split; [exact H|]. by vm_compute.
Defined.
