(* ===== verification/Live.v ===== *)
(** main.c: what the daemon sends.  The capture replay to UDP, and the live mode
    [run_listen] as a whole: capture socket, SAP announcer, status object and
    event loop or, without libubus, the blocking loop. *)

From S2P Require Import Prelude LibReac Pcm Decode MediaClock Plc Rtp Pipeline Packetizer Factor.
From S2P Require Import PcapSource Send Sdp Sap Text Listen Ubus Replay.

(** [emit_udp] *)
Definition emit_udp (snd : aes67_sender) : pipeline_emit_fn (list syscall) :=
  fun pkt _ _ calls => mret (calls ++ (aes67_send_packet 0 snd pkt).2).

(** [char ip[64]; uint16_t port;] filled by [parse_ipport]; [None] when it fails *)
Definition udp_address (udp : list Z) : res (option (list Z * Z)) :=
  '(r, ip, port) ← parse_ipport udp (undef 64) 64;
  if negb (r =? 0) then mret None else
  ip ← c_string 64 ip 0;
  mret (Some (ip, default 0 port)).

(** the parameters of [run_listen] *)
Record live_cfg : Type := LiveCfg {
  lv_ifname : list Z;
  lv_pt : Z;
  lv_ssrc : Z;
  lv_name : option (list Z);
  lv_udp : option (list Z);
  lv_ssrc_hex : option (list Z);
  lv_xfade : Z;
  lv_fade : Z;
  lv_ttl : Z;
  lv_do_sap : bool;
  lv_origin : list Z;
  lv_iface : option (list Z);
  lv_bcast_only : bool;      (* g_bcast_only *)
}.

(** what the kernel and libubus answer: the capture socket, the announcer's
    socket, the status object ([None] is a build without libubus) *)
Record live_env : Type := LiveEnv {
  le_capture : Z;
  le_ifindex : option Z;
  le_bound : bool;
  le_flags : option unit;
  le_calloc : bool;
  le_socket : Z;
  le_ioctl : list Z -> option (list Z);
  le_ubus : option (bool * bool * bool);
}.

(** exit code, system calls of the senders, replies of the status object; [finished]
    is false while the blocking loop still waits *)
Record live_outcome : Type := LiveOutcome {
  lo_rc : Z;
  lo_calls : list syscall;
  lo_replies : list reply;
  lo_finished : bool;
}.

Section Live.
Context {L : ReacLib} {I : InetPton}.
Implicit Types (m : reac_mode) (cfg : live_cfg) (env : live_env) (sa : sap_announcer) (snd : aes67_sender).

(** [struct sap_announcer sap = {0}] *)
Definition zero_announcer : sap_announcer := SapAnnouncer (Sender 0 None) (filled_with 1024 0) 0 false.

(** the announcer and the first announcement *)
Definition live_sap m cfg env : res (sap_announcer * list syscall) :=
  match lv_do_sap cfg, lv_udp cfg with
  | true, Some udp =>
      a ← udp_address udp;
      match a with
      | Some (ip, port) =>
          '(r, sa, calls) ← sap_announcer_start zero_announcer (le_calloc env) (le_socket env) (le_ioctl env)
            (lv_name cfg) ip port (lv_pt cfg) (sample_rate m) (n_channels m) (lv_ttl cfg) (Some (lv_origin cfg)) (lv_iface cfg);
          mret (sa, if r =? 0 then calls ++ sap_announce sa else calls)
      | None => mret (zero_announcer, [])
      end
  | _, _ => mret (zero_announcer, [])
  end.

Definition live_ubus m cfg env : option ubus_stats :=
  match le_ubus env with
  | None => None
  | Some (calloc_ok, connected, added) =>
      ubus_stats_start calloc_ok connected added (Some (default (lv_ifname cfg) (lv_name cfg))) (Some (lv_ifname cfg))
        (sample_rate m) (n_channels m) (Some (default [] (lv_udp cfg))) (Some (default [] (lv_ssrc_hex cfg)))
  end.

(** [struct listen_ctx] as the callbacks change it: pipeline, calls, [g_listen_pkts] *)
Definition listen_ctx : Type := pipeline (list syscall) * list syscall * Z.

Definition announce_calls sa (calls : list syscall) : list syscall := calls ++ sap_announce sa.

(** [listen_on_publish] *)
Definition listen_on_publish m sa (us : option ubus_stats) (lc : listen_ctx) : res (option ubus_stats * listen_ctx) :=
  let '(pl, calls, pkts) := lc in
  '(s, pps, uptime) ← published m pl pkts;
  mret (ubus_stats_update us s pps uptime, (pl, announce_calls sa calls, pkts)).

(** [evs] is what the event loop serves until a signal, [rs] what the blocking
    loop receives *)
Definition run_listen m snd cfg env (evs : list loop_event) (rs : list recv_event) : option (res live_outcome) :=
  let '(r, c, _) := reac_capture_open (le_capture env) (le_ifindex env) (le_bound env) in
  if negb (r =? 0) then Some (Ok (LiveOutcome 1 [] [] true)) else
  let pl := pipeline_init_ex m (lv_pt cfg) (lv_ssrc cfg) (lv_xfade cfg) (lv_fade cfg) in
  let us := live_ubus m cfg env in
  match live_sap m cfg env with
  | Err e => Some (Err e)
  | Ok (sa, calls) =>
      let '(_, c) := reac_capture_set_nonblock (le_flags env) true c in
      match ubus_stats_run (Some (listen_on_readable (emit_udp snd) (lv_bcast_only cfg) c)) (Some (listen_on_publish m sa))
              us 1 (pl, calls, 0) evs with
      | Err e => Some (Err e)
      | Ok (r, l) =>
          if negb (r =? 0) then
            let '(_, c) := reac_capture_set_nonblock (le_flags env) false c in
            fmap (M := option) (fmap (M := res) (fun '(fin, l) =>
                LiveOutcome 0 (l_w l ++ if (fin : bool) then (sap_announcer_stop sa).2 else []) [] fin))
              (listen_loop (emit_udp snd) (announce_calls sa) (S (length rs)) (lv_bcast_only cfg) (listen_pps m) c false rs
                 (Listen pl calls 0))
          else
            let '(_, calls, _) := ls_ctx l in
            Some (Ok (LiveOutcome 0 (calls ++ (sap_announcer_stop sa).2) (ls_replies l) true))
      end
  end.
End Live.

(** * Specification *)

Section Spec.
Context {L : ReacLib} {D : ReacDoc L} {I : InetPton} {ID : InetDoc I}.
Implicit Types (m : reac_mode) (cfg : live_cfg) (env : live_env) (sa : sap_announcer) (snd : aes67_sender).

(** the system calls of an event of a session *)
Definition live_calls snd sa (e : live_event) : list syscall :=
  match e with
  | Media p => (aes67_send_packet 0 snd p.1).2
  | Announced => sap_announce sa
  end.
Definition live_world snd sa : live_event -> list syscall -> list syscall := fun e calls => calls ++ live_calls snd sa e.

Lemma happens_calls snd sa evs w : happens (live_world snd sa) evs w = w ++ flat_map (live_calls snd sa) evs.
Proof.
  revert w. induction evs as [|e evs IH]; intros w; cbn [happens foldl flat_map]; [by rewrite app_nil_r|].
  unfold happens in IH. rewrite IH. unfold live_world. by rewrite <- app_assoc.
Qed.

(** a host and a port in decimal *)
Lemma udp_address_host (host : list Z) (port : Z) : host <> [] -> Z.of_nat (length host) < 64 -> 0 < port < 65536 ->
  Forall (fun c => c <> 0) host -> udp_address (host ++ 58 :: dec port) = Ok (Some (host, port)).
Proof.
  intros Hhost Hlen Hport Hchars.
  destruct (parse_ipport_host host port (undef 64) 64) as (r & ip & p & E & [_ H1] & H2 & _);
    [rewrite blen_undef; lia|unfold INT_MAX; lia|].
  rewrite (H1 ltac:(by split)) in *. destruct (H2 eq_refl) as [[C1 C2] ->]. unfold udp_address. rewrite E.
  cbn [mbind res_bind negb Z.eqb]. assert (c_string 64 ip 0 = Ok host) as ->; [|done].
  apply ok_c_string; [intros k Hk; rewrite Z.add_0_l; by apply C1|by rewrite Z.add_0_l|done|lia].
Qed.

(** ** The announcer *)

Section Announcer.
Context m cfg env (host : list Z) (port : Z).
Context (Hudp : lv_udp cfg = Some (host ++ 58 :: dec port)) (Hhost : host <> []) (Hlen : Z.of_nat (length host) < 64)
  (Hport : 0 < port < 65536).
Context (Hchars : Forall (Forall (fun c => 0 < c < 256)) [default (str "REAC") (lv_name cfg); lv_origin cfg; host])
  (Hsize : Forall (fun l => Z.of_nat (length l) <= 1000000) [default (str "REAC") (lv_name cfg); lv_origin cfg]).

Definition live_text : list Z :=
  announced_text (lv_name cfg) host port (lv_pt cfg) (sample_rate m) (n_channels m) (lv_ttl cfg) (Some (lv_origin cfg)).

(** the announcer can be set up *)
Definition sap_ready : Prop :=
  lv_do_sap cfg = true /\ is_Some (inet_pton (lv_origin cfg)) /\ Z.of_nat (length live_text) < 768
  /\ le_calloc env = true /\ is_Some (inet_pton SAP_MCAST_ADDR) /\ 0 <= le_socket env.

(** its datagram reads back as the announcement of the stream *)
Definition announces sa : Prop := exists d a g,
  sap_announce sa = [Sendto (le_socket env) d (SockAddr g (htons SAP_PORT))]
  /\ inet_pton (lv_origin cfg) = Some a /\ inet_pton SAP_MCAST_ADDR = Some g
  /\ parse_sap d = Some (Announcement (sap_hash live_text) a (str "application/sdp") live_text)
  /\ (sap_announcer_stop sa).2 = [Close (le_socket env)].

Lemma ok_live_sap : ok (live_sap m cfg env) (fun '(sa, calls) =>
  (sap_ready -> announces sa /\ exists opts, calls = (Setsockopt (le_socket env) <$> opts) ++ sap_announce sa)
  /\ (~ sap_ready -> sap_announce sa = [] /\ (sap_announcer_stop sa).2 = [] /\ calls = [])).
Proof.
  unfold live_sap, sap_ready. rewrite Hudp. destruct (lv_do_sap cfg).
  2: { ok_step. split; [by intros [? _]|done]. }
  apply Forall_cons_1 in Hchars as [N1 [N2 N3]%Forall_cons_1].
  rewrite udp_address_host by (done || (apply Forall_cons_1 in N3 as [N3 _]; eapply Forall_impl; [exact N3|]; cbn; lia)).
  do 2 ok_step. apply Forall_cons_1 in Hsize as [K1 [K2 _]%Forall_cons_1].
  ok_step. eapply ok_mono.
  { apply (ok_sap_started zero_announcer (le_calloc env) (le_socket env) (le_ioctl env) (lv_name cfg) host port (lv_pt cfg)
      (sample_rate m) (n_channels m) (lv_ttl cfg) (Some (lv_origin cfg)) (lv_iface cfg)).
    - apply blen_filled_with. lia.
    - apply Forall_cons. split; [exact N1|]. apply Forall_cons. split; [exact N2|exact N3].
    - apply Forall_cons. split; [exact K1|]. apply Forall_cons. split; [exact K2|]. apply Forall_singleton. lia. }
  intros [[r sa] calls] [Hgood Hbad]. ok_step. fold live_text in Hgood, Hbad. unfold origin_text in *. cbn [default] in *.
  split.
  - intros (_ & [a Ea] & Hl & Hc & [g Eg] & Hs). destruct (Hgood a g Ea Hl Hc Eg Hs) as (-> & [opts ->] & (d & Hd & Hp & _) & Hst & _).
    split; [by exists d, a, g|]. by exists opts.
  - intros Hn. destruct Hbad as (-> & -> & -> & ->); [|done].
    destruct (inet_pton (lv_origin cfg)) as [a|] eqn:Ea; [|by left]. right.
    destruct (Z.leb_spec 768 (Z.of_nat (length live_text))) as [?|Hl]; [by left|]. right.
    destruct (le_calloc env); [|by left]. right. destruct (inet_pton SAP_MCAST_ADDR) as [g|]; [|by left]. right.
    destruct (Z.ltb_spec (le_socket env) 0) as [?|Hs]; [done|]. destruct Hn. by repeat split.
Qed.
End Announcer.
(** ** The two loops *)

(** the frames an event loop takes, its ticks and its status calls *)
Definition loop_frames (bcast_only : bool) (evs : list loop_event) : list (list Z) :=
  flat_map (fun e => match e with CaptureReadable rs => wanted bcast_only (drained rs) | _ => [] end) evs.
Definition ticks (evs : list loop_event) : Z :=
  Z.of_nat (length (omap (fun e => match e with PublishTimer => Some tt | _ => None end) evs)).
Definition event_ok (e : loop_event) : Prop := match e with CaptureReadable rs => Forall result_ok rs | _ => True end.

(** the object with new counters *)
Definition with_counters (us : ubus_stats) (s : pipeline_stats) (pps uptime : Z) : ubus_stats :=
  UbusStats (u_objname us) (u_name us) (u_iface us) (u_mcast us) (u_ssrc us) (u_rate us) (u_channels us) s pps uptime
    (u_interval us).

(** the replies of a session: each status call is answered from the counters of the
    last tick, and a tick takes those of the frames received by then *)
Fixpoint served m cfg (us : ubus_stats) (fs : list (list Z)) (evs : list loop_event) (replies : list reply) : Prop :=
  match evs with
  | [] => replies = []
  | CaptureReadable rs :: evs => served m cfg us (fs ++ wanted (lv_bcast_only cfg) (drained rs)) evs replies
  | PublishTimer :: evs => exists plt t,
      pipeline_run (fresh m (lv_pt cfg) (lv_ssrc cfg) (lv_xfade cfg) (lv_fade cfg) 0) (buffers_of fs) trace_emit [] = Ok (plt, t)
      /\ let pps := sample_rate m / samples_per_pkt m in
         served m cfg (with_counters us (pipeline_get_stats plt) pps (u32 (u64 (Z.of_nat (length fs)) / pps))) fs evs replies
  | StatusCall :: evs => exists rest, replies = status_cb us :: rest /\ served m cfg us fs evs rest
  end.

Section Loops.
Context m cfg env snd.
Context (HM : mode_ok m) (Hrate : samples_per_pkt m <= sample_rate m <= INT_MAX) (Hfade : lv_fade cfg <= 81920)
  (Hpt : 0 <= lv_pt cfg < 256) (Hssrc : 0 <= lv_ssrc cfg < 4294967296).
Context (Hcap : 0 <= le_capture env) (Hif : is_Some (le_ifindex env)) (Hbound : le_bound env = true).

Let fresh_pl : pipeline trace := fresh m (lv_pt cfg) (lv_ssrc cfg) (lv_xfade cfg) (lv_fade cfg) 0.
Let pps : Z := sample_rate m / samples_per_pkt m.

Lemma pps_pos : 0 < pps.
Proof. pose proof HM as (_ & HM2 & _). apply Z.div_str_pos. lia. Qed.

Lemma listen_pps_eq : listen_pps m = pps.
Proof.
  pose proof HM as (_ & HM2 & _). unfold listen_pps. rewrite (proj2 (Z.eqb_neq _ 0)) by lia.
  apply Z.quot_div_nonneg; lia.
Qed.

Lemma capture_opens : reac_capture_open (le_capture env) (le_ifindex env) (le_bound env) = (0, Capture (le_capture env) false, []).
Proof. unfold reac_capture_open. rewrite (proj2 (Z.ltb_ge _ 0)) by done. destruct Hif as [? ->]. by rewrite Hbound. Qed.

(** the session of [snd] and [sa] *)
Definition live_session sa (calls0 : list syscall) (fs : list (list Z)) (evs : list live_event)
  (pl : pipeline (list syscall)) (calls : list syscall) : Prop :=
  session (live_world snd sa) m (lv_pt cfg) (lv_ssrc cfg) fresh_pl calls0 fs evs pl calls.

Lemma live_start sa calls0 :
  live_session sa calls0 [] [] (pipeline_init_ex m (lv_pt cfg) (lv_ssrc cfg) (lv_xfade cfg) (lv_fade cfg)) calls0.
Proof. by apply session_start. Qed.

(** what a session of [calls0] over the frames [fs] has sent *)
Definition sent_of sa (calls0 : list syscall) (fs : list (list Z)) (evs : list live_event) (calls : list syscall) : Prop :=
  calls = calls0 ++ flat_map (live_calls snd sa) evs
  /\ exists plt, pipeline_run fresh_pl (buffers_of fs) trace_emit [] = Ok (plt, media evs).

Lemma live_session_sent sa calls0 fs evs pl calls : live_session sa calls0 fs evs pl calls -> sent_of sa calls0 fs evs calls.
Proof. intros (plt & bad & H1 & _ & _ & ->). split; [apply happens_calls|]. by exists plt. Qed.

(** without libubus, or when it cannot be reached *)
Lemma run_listen_blocking sa calls0 evs rs :
  live_ubus m cfg env = None -> live_sap m cfg env = Ok (sa, calls0) ->
  Forall data_ok rs -> Z.of_nat (length rs) < 18446744073709551616 ->
  let ts := turns false false rs in
  let fs := wanted (lv_bcast_only cfg) ts in
  exists fin calls new, sent_of sa calls0 fs new calls
    /\ announcements new = idles ts + Z.of_nat (length fs) / pps
    /\ run_listen m snd cfg env evs rs
       = Some (Ok (LiveOutcome 0 (calls ++ if (fin : bool) then (sap_announcer_stop sa).2 else []) [] fin)).
Proof.
  intros Hus Hsap HD Hn ts fs. pose proof pps_pos as Hp.
  unfold run_listen. rewrite capture_opens, Hus, Hsap, listen_pps_eq. cbn [negb Z.eqb ubus_stats_run mret res_ret].
  set (c := Capture (le_capture env) false).
  destruct (reac_capture_set_nonblock (le_flags env) true c) as [r1 c1] eqn:E1.
  destruct (reac_capture_set_nonblock (le_flags env) false c1) as [r2 c2] eqn:E2.
  assert (cap_fd c2 = le_capture env /\ nonblock c2 = false) as [Hc Hnb].
  { unfold reac_capture_set_nonblock in *. cbn [cap_fd c] in E1. rewrite (proj2 (Z.ltb_ge _ 0)) in E1 by done.
    destruct (le_flags env); injection E1 as <- <-; cbn [cap_fd c] in E2;
      rewrite (proj2 (Z.ltb_ge _ 0)) in E2 by done; by injection E2 as <- <-. }
  change (-1 =? 0) with false. cbn [negb].
  destruct (ok_listen_loop (live_world snd sa) m (lv_pt cfg) (lv_ssrc cfg) fresh_pl calls0 (lv_bcast_only cfg) pps c2
    ltac:(lia) Hnb Hp (S (length rs)) false rs [] []
    (Listen (pipeline_init_ex m (lv_pt cfg) (lv_ssrc cfg) (lv_xfade cfg) (lv_fade cfg)) calls0 0)
    HD ltac:(lia) (live_start sa calls0) ltac:(cbn; lia) ltac:(cbn; lia)) as (fin & l' & new & H1 & H2 & H3 & H4).
  cbn [app l_fc] in *. fold ts fs in H2, H3, H4. rewrite Z.add_0_l in H3. rewrite H3, Z.div_0_l, Z.sub_0_r in H4 by lia.
  exists fin, (l_w l'), new. split; [by eapply live_session_sent|]. split; [exact H4|].
  change (listen_loop (emit_udp snd) (announce_calls sa)) with (listen_loop (live_emit (live_world snd sa)) (live_world snd sa Announced)).
  by rewrite H1.
Qed.

(** a tick *)
Lemma published_ok (pl : pipeline (list syscall)) pkts :
  published m pl pkts = Ok (pipeline_get_stats pl, pps, u32 (pkts / pps)).
Proof.
  pose proof HM as (_ & HM2 & _). pose proof pps_pos as Hp. unfold published. apply ok_eq. ok_step.
  assert (Z.quot (sample_rate m) (samples_per_pkt m) = pps) as E by (apply Z.quot_div_nonneg; lia).
  assert (pps <= sample_rate m) by (apply Z.div_le_upper_bound; nia).
  apply ok_idiv; [lia|rewrite E; unfold INT_MIN; lia|]. rewrite E. by rewrite (proj2 (Z.eqb_neq pps 0)) by lia.
Qed.

Lemma on_pub_ok sa us (pl : pipeline (list syscall)) calls pkts replies timers : u_interval us = 1 ->
  on_pub_uloop (Some (listen_on_publish m sa)) (LoopState (Some us) (pl, calls, pkts) replies timers)
  = Ok (LoopState (Some (with_counters us (pipeline_get_stats pl) pps (u32 (pkts / pps))))
         (pl, announce_calls sa calls, pkts) replies (timers ++ [1000])).
Proof.
  intros Hint. unfold on_pub_uloop, listen_on_publish. cbn [ls_h ls_ctx]. rewrite published_ok.
  cbn [mbind res_bind mret res_ret ls_replies ls_timers ubus_stats_update option_bind].
  unfold timer_set, with_counters. cbn [ls_h from_option u_interval]. by rewrite Hint.
Qed.

(** the event loop *)
Lemma ok_uloop sa calls0 c : cap_fd c = le_capture env -> nonblock c = true ->
  forall levs us fs evs pl calls replies timers, Forall event_ok levs ->
  live_session sa calls0 fs evs pl calls -> u_interval us = 1 ->
  ok (uloop_run (Some (listen_on_readable (emit_udp snd) (lv_bcast_only cfg) c)) (Some (listen_on_publish m sa))
        (LoopState (Some us) (pl, calls, u64 (Z.of_nat (length fs))) replies timers) levs)
    (fun l => exists new rs, ls_replies l = replies ++ rs /\ served m cfg us fs levs rs
      /\ sent_of sa calls0 (fs ++ loop_frames (lv_bcast_only cfg) levs) (evs ++ new) (ls_ctx l).1.2
      /\ announcements new = ticks levs
      /\ ls_timers l = timers ++ replicate (Z.to_nat (ticks levs)) 1000).
Proof.
  intros Hc Hnb. induction levs as [|e levs IH]; intros us fs evs pl calls replies timers HF HS Hint; cbn [uloop_run].
  { ok_step. exists [], []. rewrite !app_nil_r. split; [done|]. split; [done|].
    split; [by eapply live_session_sent|done]. }
  apply Forall_cons_1 in HF as [He HF]. ok_step. destruct e as [rs| |]; cbn [loop_step event_ok] in *.
  - unfold on_cap_uloop. cbn [ls_ctx]. ok_step.
    change (emit_udp snd) with (live_emit (live_world snd sa)) at 1.
    eapply ok_mono; [eapply ok_listen_on_readable; [lia|done|done|exact HS|apply u64_range]|].
    intros [[pl' calls'] pkts'] (new & HS' & ->). ok_step. cbn [ls_h ls_replies ls_timers].
    rewrite u64_add_l, <- Nat2Z.inj_add, <- length_app.
    eapply ok_mono; [by apply (IH us _ _ pl' calls' replies timers HF HS' Hint)|].
    intros l (new' & rs' & H1 & H2 & H3 & H4 & H5). exists ((Media <$> new) ++ new'), rs'.
    rewrite announcements_app, (proj2 (media_packets new)), Z.add_0_l.
    cbn [served loop_frames flat_map]. rewrite !app_assoc. by repeat (split; [done|]).
  - rewrite on_pub_ok by done. ok_step.
    pose proof (session_announced _ _ _ _ _ _ _ _ _ _ HS) as HS'. set (us' := with_counters _ _ _ _).
    eapply ok_mono; [by apply (IH us' fs (evs ++ [Announced]) pl _ replies (timers ++ [1000]) HF HS')|].
    intros l (new' & rs' & H1 & H2 & H3 & H4 & H5). exists (Announced :: new'), rs'.
    rewrite <- app_assoc in H3.
    assert (ticks (PublishTimer :: levs) = ticks levs + 1) as -> by (unfold ticks; cbn; lia).
    assert (0 <= ticks levs) by (unfold ticks; lia).
    split; [done|]. split; [|split; [done|split]].
    + destruct HS as (plt & bad & Hr & _ & (_ & _ & _ & _ & Est & _) & _). exists plt, (media evs). split; [done|].
      unfold pipeline_get_stats in *. by rewrite <- Est.
    + unfold announcements in *. cbn [omap list_omap length]. lia.
    + rewrite Z2Nat.inj_add, Nat.add_1_r by lia. cbn [replicate]. by rewrite H5, <- app_assoc.
  - ok_step. cbn [ls_h ls_ctx ls_replies ls_timers option_list option_rect fmap list_fmap].
    eapply ok_mono; [by apply (IH us fs evs pl calls (replies ++ [status_cb us]) timers HF HS Hint)|].
    intros l (new' & rs' & H1 & H2 & H3 & H4 & H5). exists new', (status_cb us :: rs').
    rewrite <- app_assoc in H1. split; [done|]. split; [by exists rs'|]. done.
Qed.
End Loops.

(** ** The whole of [run_listen] *)

Section Whole.
Context m cfg env (host : list Z) (port fd : Z) (dest : sockaddr).
Context (HM : mode_ok m) (Hrate : samples_per_pkt m <= sample_rate m <= INT_MAX) (Hfade : lv_fade cfg <= 81920)
  (Hpt : 0 <= lv_pt cfg < 256) (Hssrc : 0 <= lv_ssrc cfg < 4294967296).
Context (Hcap : 0 <= le_capture env) (Hif : is_Some (le_ifindex env)) (Hbound : le_bound env = true) (Hfd : 0 <= fd).
Context (Hudp : lv_udp cfg = Some (host ++ 58 :: dec port)) (Hhost : host <> []) (Hlen : Z.of_nat (length host) < 64)
  (Hport : 0 < port < 65536).
Context (Hchars : Forall (Forall (fun c => 0 < c < 256)) [default (str "REAC") (lv_name cfg); lv_origin cfg; host])
  (Hsize : Forall (fun l => Z.of_nat (length l) <= 1000000) [default (str "REAC") (lv_name cfg); lv_origin cfg]).

(** the system calls of an event: one datagram to the stream's group per packet,
    one to the SAP group per announcement *)
Definition live_call sa (e : live_event) : list syscall :=
  match e with Media p => [Sendto fd p.1 dest] | Announced => sap_announce sa end.

(** an announcer that is ready announces the stream, one that is not is silent *)
Definition announcer_ok sa : Prop :=
  (sap_ready m cfg env host port -> announces m cfg env host port sa)
  /\ (~ sap_ready m cfg env host port -> sap_announce sa = [] /\ (sap_announcer_stop sa).2 = []).

(** the stream of packets of the frames [fs] *)
Definition stream_of_frames (fs : list (list Z)) (t : trace) : Prop := exists plt,
  pipeline_run (fresh m (lv_pt cfg) (lv_ssrc cfg) (lv_xfade cfg) (lv_fade cfg) 0) (buffers_of fs) trace_emit [] = Ok (plt, t).

Lemma live_sap_start : exists sa opts,
  live_sap m cfg env = Ok (sa, (Setsockopt (le_socket env) <$> opts) ++ sap_announce sa) /\ announcer_ok sa.
Proof.
  pose proof (ok_live_sap m cfg env host port Hudp Hhost Hlen Hport Hchars Hsize) as H.
  apply ok_iff2 in H as (sa & calls & -> & Hready & Hnot).
  assert (sap_ready m cfg env host port \/ ~ sap_ready m cfg env host port) as [HR|HR].
  { unfold sap_ready. destruct (lv_do_sap cfg), (inet_pton (lv_origin cfg)), (le_calloc env), (inet_pton SAP_MCAST_ADDR),
      (Z.lt_decidable (Z.of_nat (length (live_text m cfg host port))) 768), (Z.le_decidable 0 (le_socket env));
      try (right; intros (H1 & [? H2] & H3 & H4 & [? H5] & H6); done). left. by repeat split. }
  - destruct (Hready HR) as [HA [opts ->]]. exists sa, opts. by split.
  - destruct (Hnot HR) as (H1 & H2 & ->). exists sa, []. rewrite H1. by split.
Qed.

Lemma live_call_open sa evs : flat_map (live_calls (Sender fd (Some dest)) sa) evs = flat_map (live_call sa) evs.
Proof.
  apply flat_map_ext. intros [p|]; [|done]. cbn [live_calls live_call]. unfold aes67_send_packet. cbn [sd_fd sd_dest].
  by rewrite (proj2 (Z.ltb_ge fd 0)) by done.
Qed.

(** the session without libubus *)
Lemma ok_run_listen evs rs
  (Hubus : live_ubus m cfg env = None) (HD : Forall data_ok rs) (Hn : Z.of_nat (length rs) < 18446744073709551616) :
  let ts := turns false false rs in
  let fs := wanted (lv_bcast_only cfg) ts in
  exists sa opts fin es, announcer_ok sa
    /\ run_listen m (Sender fd (Some dest)) cfg env evs rs
       = Some (Ok (LiveOutcome 0
           ((Setsockopt (le_socket env) <$> opts) ++ flat_map (live_call sa) (Announced :: es)
            ++ if (fin : bool) then (sap_announcer_stop sa).2 else []) [] fin))
    /\ stream_of_frames fs (media es)
    /\ announcements es = idles ts + Z.of_nat (length fs) / (sample_rate m / samples_per_pkt m).
Proof.
  intros ts fs. destruct live_sap_start as (sa & opts & Hsap & HA).
  destruct (run_listen_blocking m cfg env (Sender fd (Some dest)) HM Hrate Hfade Hpt Hssrc Hcap Hif Hbound sa _ evs rs
    Hubus Hsap HD Hn) as (fin & calls & es & [-> [plt Hrun]] & Ha & ->).
  exists sa, opts, fin, es. split; [done|]. split; [|split; [by exists plt|exact Ha]].
  rewrite live_call_open. cbn [flat_map live_call]. by rewrite <- !app_assoc.
Qed.

(** C19: the live session without libubus.  On any sequence of socket events,
    signals, errors and foreign packets included, [run_listen] runs into no
    undefined behaviour, and its system calls are these and no other: the
    options of the announcer's socket, then the packets of the stream, one
    datagram each to the stream's group, and the announcements; the packets are
    those of the pipeline over the REAC frames received before the exit, with
    --bcast-only just the broadcast ones; the stream is announced once at the
    start, once per idle wake-up and once per [sample_rate / samples_per_pkt]
    frames; when the loop is left the announcer's socket is closed. *)
Theorem run_listen_correct evs rs
  (Hubus : live_ubus m cfg env = None) (HD : Forall data_ok rs) (Hn : Z.of_nat (length rs) < 18446744073709551616) :
  let ts := turns false false rs in
  let fs := wanted (lv_bcast_only cfg) ts in
  exists sa opts fin es, announcer_ok sa
    /\ run_listen m (Sender fd (Some dest)) cfg env evs rs
       = Some (Ok (LiveOutcome 0
           ((Setsockopt (le_socket env) <$> opts) ++ flat_map (live_call sa) (Announced :: es)
            ++ if (fin : bool) then (sap_announcer_stop sa).2 else []) [] fin))
    /\ stream_of_frames fs (media es)
    /\ announcements es = idles ts + Z.of_nat (length fs) / (sample_rate m / samples_per_pkt m).
Proof. by apply ok_run_listen. Qed.

(** C20: the live session on the event loop of libubus.  Whatever the loop serves
    until the signal, frames drained from the socket, ticks and status calls in
    any order: no undefined behaviour; the packets sent are those of the
    pipeline over the frames drained, the stream is announced once at the start
    and once per tick, the announcer's socket is closed at the end; each status
    call is answered from the counters of the last tick, which are those of the
    pipeline over the frames received by then (zeros before the first tick). *)
Theorem run_listen_event_loop evs rs
  (Hubus : le_ubus env = Some (true, true, true)) (Hflags : le_flags env = Some tt) (HE : Forall event_ok evs) :
  exists sa opts es replies us, announcer_ok sa
    /\ run_listen m (Sender fd (Some dest)) cfg env evs rs
       = Some (Ok (LiveOutcome 0
           ((Setsockopt (le_socket env) <$> opts) ++ flat_map (live_call sa) (Announced :: es) ++ (sap_announcer_stop sa).2)
           replies true))
    /\ stream_of_frames (loop_frames (lv_bcast_only cfg) evs) (media es)
    /\ announcements es = ticks evs
    /\ live_ubus m cfg env = Some us /\ u_stats us = PipelineStats 0 0 0 0 0 0
    /\ served m cfg (set_interval 1 us) [] evs replies.
Proof.
  destruct live_sap_start as (sa & opts & Hsap & HA).
  unfold run_listen. rewrite (capture_opens env Hcap Hif Hbound), Hsap.
  unfold reac_capture_set_nonblock. cbn [cap_fd]. rewrite (proj2 (Z.ltb_ge _ 0)), Hflags by done.
  destruct (live_ubus m cfg env) as [us|] eqn:Eus; unfold live_ubus in Eus; rewrite Hubus in Eus; [|done].
  assert (u_stats us = PipelineStats 0 0 0 0 0 0) as Hz by (by injection Eus as <-).
  cbn [negb Z.eqb]. rewrite ubus_stats_run_start.
  pose proof (ok_uloop m cfg env (Sender fd (Some dest)) HM Hrate Hssrc Hcap sa ((Setsockopt (le_socket env) <$> opts) ++ sap_announce sa)
    (Capture (le_capture env) true) eq_refl eq_refl evs (set_interval 1 us) [] []
    (pipeline_init_ex m (lv_pt cfg) (lv_ssrc cfg) (lv_xfade cfg) (lv_fade cfg)) _ [] [1000] HE
    (live_start m cfg (Sender fd (Some dest)) HM Hfade Hpt Hssrc sa _) eq_refl) as H.
  apply ok_iff in H as ([h [[pl' calls'] pkts'] replies timers] & Hrun & es & rs' & H1 & H2 & [H3 [plt Hplt]] & H4 & _).
  cbn [ls_ctx ls_replies fst snd app] in *. subst rs' calls'.
  exists sa, opts, es, replies, us. split; [done|]. split; [|split; [by exists plt|by repeat split]].
  change (u64 (Z.of_nat (length []))) with 0 in Hrun.
  unfold listen_ctx in *. rewrite Hrun. cbn [mbind res_bind negb Z.eqb mret res_ret ls_ctx ls_replies].
  rewrite live_call_open. cbn [flat_map live_call]. by rewrite <- !app_assoc.
Qed.
End Whole.

(** ** The capture replay to UDP *)

Section Udp.
Context m (pt ssrc_ fd : Z) (dest : sockaddr) (calls : list syscall).
Context (HM : mode_ok m) (Hpt : 0 <= pt < 256) (Hssrc : 0 <= ssrc_ < 4294967296) (Hfd : 0 <= fd).
(** a well-formed capture file *)
Context (fseek_ok : Z -> bool) (swap : Z) (rest : list Z) (records : list record) (fuel : nat).
Context (Hseek : forall p, fseek_ok p = true) (Hswap : swap = 0 \/ swap = 1) (Hrest : length rest = 20%nat).
Context (Hrecords : Forall rec_ok records) (Hfuel : (length records < fuel)%nat).
Context (Hbytes : Forall (fun r => bytes_ok (rec_data r)) records).

Definition udp_packet (e : buf Z * Z) : syscall := Sendto fd e.1 dest.

(** [emit_udp] on a recorded packet *)
Definition emit_one (e : buf Z * Z) (w : list syscall) : res (list syscall) := emit_udp (Sender fd (Some dest)) e.1 0 e.2 w.

Lemma emits_udp t w : emits emit_one t w = Ok (w ++ (udp_packet <$> t)).
Proof.
  revert w. induction t as [|e t IH]; intros w; cbn [emits fmap list_fmap]; [by rewrite app_nil_r|].
  assert (emit_one e w = Ok (w ++ [udp_packet e])) as ->.
  { unfold emit_one, emit_udp, aes67_send_packet. cbn [sd_fd sd_dest]. by rewrite (proj2 (Z.ltb_ge fd 0)) by done. }
  cbn [mbind res_bind]. by rewrite IH, <- app_assoc.
Qed.

(** the packets of the file's frames, and where they go *)
Definition file_frames : list (buf Z * Z) := buffered (undef READ_BYTES) (rec_packet <$> seen READ_BYTES records).

Lemma replay_run : exists plt t, pipeline_run (fresh m pt ssrc_ 0 0 0) file_frames trace_emit [] = Ok (plt, t)
  /\ run_inv m pt ssrc_ 0 (refused file_frames) plt t
  /\ Z.of_nat (length t) = good_count (frames_of records) + lost_frames None (frames_of records)
  /\ run_pcap fseek_ok fuel (Some (capture_file swap rest records)) m pt ssrc_ (emit_udp (Sender fd (Some dest))) calls
     = Some (Ok (0, calls ++ (udp_packet <$> t))).
Proof.
  assert (Forall (fun f => bytes_upto f.1 f.2) file_frames) as HB by (by apply seen_buffered).
  pose proof (run_frames m pt ssrc_ 0 file_frames 0 (fresh m pt ssrc_ 0 0 0) []
    (fresh_inv m pt ssrc_ 0 0 0 HM ltac:(lia) Hpt Hssrc ltac:(lia)) HB) as H.
  apply ok_iff in H as ([plt t] & Hr & HI & HF & HL & HG).
  change (flagged 1 t = lost_among None file_frames) in HL. change (tlen t - flagged 1 t = accepted file_frames) in HG.
  destruct (accepted_buffered _ (packets_lengths records) (undef READ_BYTES) None) as [EA EL].
  fold file_frames in EA, EL. rewrite packets_frames in EA, EL.
  exists plt, t. split; [done|]. split; [exact HI|]. split; [unfold tlen in HG; rewrite <- EA, <- EL; lia|].
  unfold run_pcap.
  destruct (replay_loop fseek_ok swap rest records fuel Hseek Hswap Hrest Hrecords Hfuel
    (pcap_frame (emit_udp (Sender fd (Some dest)))) (pipeline_init m pt ssrc_, calls)) as (ps & ps' & -> & ->).
  change (negb (0 =? 0)) with false. cbn iota. rewrite run_list_pipeline. fold file_frames. cbn [fst snd].
  destruct (run_replayed emit_one (fresh m pt ssrc_ 0 0 0)
    (pipeline_init m pt ssrc_) file_frames plt t calls) as (pm & _ & Hrun); [by repeat split|done|].
  change (emit_udp (Sender fd (Some dest))) with (replayed emit_one).
  rewrite Hrun, emits_udp. done.
Qed.

(** C22: the replay to UDP.  Over any well-formed capture file the replay runs to
    its end with status 0 and sends, after what has been sent before, exactly one
    datagram per accepted frame and per packet missing between them, each to the
    stream's destination; the j-th is a complete RTP packet with sequence number
    j mod 2^16 and timestamp j * samples_per_pkt mod 2^32. *)
Theorem replay_udp : exists t,
  run_pcap fseek_ok fuel (Some (capture_file swap rest records)) m pt ssrc_ (emit_udp (Sender fd (Some dest))) calls
  = Some (Ok (0, calls ++ (udp_packet <$> t)))
  /\ Z.of_nat (length t) = good_count (frames_of records) + lost_frames None (frames_of records)
  /\ forall j e, t !! j = Some e ->
       blen e.1 = 12 + n_channels m * samples_per_pkt m * 3 /\ bytes_upto e.1 (blen e.1)
       /\ parse_rtp_header e.1
          = Some (RtpParams (pt mod 128) (u16 (Z.of_nat j)) (u32 (Z.of_nat j * samples_per_pkt m)) ssrc_).
Proof.
  destruct replay_run as (plt & t & Hr & HI & Hlen & Hrun). exists t. split; [done|]. split; [done|].
  intros j e Hj. destruct HI as (_ & _ & _ & _ & _ & _ & _ & _ & _ & _ & _ & _ & Hst).
  destruct (Hst j e Hj) as (S1 & S2 & S3). by rewrite S1.
Qed.
End Udp.

(** ** The live session and the replay *)

(** the same frames in the two kinds of buffer *)
Lemma buffers_same ds : forall l b0, p_data <$> l = ds -> Forall (fun p => p_ret p = frame_len (p_data p)) l ->
  Forall2 same_frame (buffered b0 l) (buffers_of ds).
Proof.
  induction ds as [|d ds IH]; intros [|p l] b0 E HF; try done; try by constructor.
  injection E as Ep E. apply Forall_cons_1 in HF as [Hp HF]. cbn [buffered buffers_of fmap list_fmap]. subst d.
  apply Forall2_cons. split; [|by apply IH]. split; cbn [fst snd]; [by rewrite Hp|].
  intros i Hi. rewrite Hp in Hi. unfold frame_len in *. rewrite get_frame_buffer, get_received, get_of_list by (unfold frame_len; lia). done.
Qed.

(** C23: replaying a capture sends what the live session sent.  When the file holds
    the frames a live session of the same stream took from its socket (idle
    wake-ups, foreign packets and unwanted frames aside), the replay sends the
    same datagrams in the same order, bytes, headers and concealed packets
    included: the live session only adds its announcements between them.  (The
    replay has no options for the concealment, so theirs are the defaults.) *)
Theorem replay_equals_live m cfg env host port fd dest
  (HM : mode_ok m) (Hrate : samples_per_pkt m <= sample_rate m <= INT_MAX) (Hx : lv_xfade cfg = 0) (Hf : lv_fade cfg = 0)
  (Hpt : 0 <= lv_pt cfg < 256) (Hssrc : 0 <= lv_ssrc cfg < 4294967296)
  (Hcap : 0 <= le_capture env) (Hif : is_Some (le_ifindex env)) (Hbound : le_bound env = true) (Hfd : 0 <= fd)
  (Hudp : lv_udp cfg = Some (host ++ 58 :: dec port)) (Hhost : host <> []) (Hlen : Z.of_nat (length host) < 64)
  (Hport : 0 < port < 65536)
  (Hchars : Forall (Forall (fun c => 0 < c < 256)) [default (str "REAC") (lv_name cfg); lv_origin cfg; host])
  (Hsize : Forall (fun l => Z.of_nat (length l) <= 1000000) [default (str "REAC") (lv_name cfg); lv_origin cfg])
  (Hubus : live_ubus m cfg env = None) evs rs (HD : Forall data_ok rs) (Hn : Z.of_nat (length rs) < 18446744073709551616)
  fseek_ok swap rest records fuel
  (Hseek : forall p, fseek_ok p = true) (Hswap : swap = 0 \/ swap = 1) (Hrest : length rest = 20%nat)
  (Hrecords : Forall rec_ok records) (Hfuel : (length records < fuel)%nat)
  (Hbytes : Forall (fun r => bytes_ok (rec_data r)) records)
  (Hsame : frames_of records = wanted (lv_bcast_only cfg) (turns false false rs)) :
  exists sa opts fin es,
    run_listen m (Sender fd (Some dest)) cfg env evs rs
    = Some (Ok (LiveOutcome 0
        ((Setsockopt (le_socket env) <$> opts) ++ flat_map (live_call fd dest sa) (Announced :: es)
         ++ if (fin : bool) then (sap_announcer_stop sa).2 else []) [] fin))
    /\ run_pcap fseek_ok fuel (Some (capture_file swap rest records)) m (lv_pt cfg) (lv_ssrc cfg)
         (emit_udp (Sender fd (Some dest))) []
       = Some (Ok (0, flat_map (live_call fd dest sa) (Media <$> media es))).
Proof.
  destruct (ok_run_listen m cfg env host port fd dest HM Hrate ltac:(lia) Hpt Hssrc Hcap Hif Hbound Hfd Hudp Hhost Hlen Hport
    Hchars Hsize evs rs Hubus HD Hn) as (sa & opts & fin & es & _ & Hlive & [plt Hes] & _).
  destruct (replay_run m (lv_pt cfg) (lv_ssrc cfg) fd dest [] HM Hpt Hssrc Hfd fseek_ok swap rest records fuel
    Hseek Hswap Hrest Hrecords Hfuel Hbytes) as (plt' & t & Ht & _ & _ & Hrun).
  exists sa, opts, fin, es. split; [exact Hlive|]. rewrite Hrun. rewrite Hx, Hf, <- Hsame in Hes.
  rewrite (run_agree m (lv_pt cfg) (lv_ssrc cfg) 0 (file_frames records)) with (bad := 0) in Hes.
  - rewrite Ht in Hes. injection Hes as _ ->. do 3 f_equal. cbn [app].
    clear. induction (media es) as [|e l IH]; [done|]. cbn [fmap list_fmap flat_map]. by rewrite IH.
  - apply buffers_same; [by apply packets_frames|by apply packets_lengths].
  - by apply seen_buffered.
  - apply fresh_inv; [done|lia..].
Qed.
End Spec.

(** ** Witnesses *)

Definition demo_live_cfg : live_cfg :=
  LiveCfg (str "eth1") 97 287454020 (Some (str "STAGE")) (Some (str "239.69.1.2" ++ 58 :: dec 5004)) (Some (str "11223344"))
    0 0 1 true (str "10.0.0.9") None true.
Definition demo_live_env (ubus : option (bool * bool * bool)) : live_env :=
  LiveEnv 3 (Some 2) true (Some tt) true 9 (fun _ => None) ubus.
Definition demo_dest : sockaddr := SockAddr [239; 69; 1; 2] (htons 5004).

Lemma demo_live_ok :
  Forall (Forall (fun c => 0 < c < 256)) [default (str "REAC") (lv_name demo_live_cfg); lv_origin demo_live_cfg; str "239.69.1.2"]
  /\ Forall (fun l => Z.of_nat (length l) <= 1000000) [default (str "REAC") (lv_name demo_live_cfg); lv_origin demo_live_cfg].
Proof.
  split.
  - do 3 (apply Forall_cons; split; [apply forall_chars; by vm_compute|]). by apply Forall_nil.
  - do 2 (apply Forall_cons; split; [by vm_compute|]). by apply Forall_nil.
Qed.

(** a broadcast frame, an idle wake-up, a unicast frame and an error *)
Definition unicast_frame : list Z := 0 :: drop 1 (test_frame 1 (fun i => i)).
Definition demo_events : list recv_event :=
  [Event (Received (test_frame 0 (fun i => i))) false; Event TryAgain false;
   Event (Received unicast_frame) false; Event RecvError false].

Lemma demo_events_ok : Forall data_ok demo_events.
Proof.
  unfold demo_events. constructor; [apply forall_bytes; by vm_compute|]. constructor; [done|].
  constructor; [apply forall_bytes; by vm_compute|]. by constructor.
Qed.

Lemma run_listen_correct_witness :
  exists sa opts fin es,
    run_listen (L := documented_lib) mode48 (Sender 7 (Some demo_dest)) demo_live_cfg (demo_live_env None) [] demo_events
      = Some (Ok (LiveOutcome 0 ((Setsockopt 9 <$> opts) ++ flat_map (live_call 7 demo_dest sa) (Announced :: es)
          ++ if (fin : bool) then (sap_announcer_stop sa).2 else []) [] fin))
    /\ announcements es = 1.
Proof.
  destruct (run_listen_correct (L := documented_lib) (D := documented_lib_doc) mode48 demo_live_cfg (demo_live_env None)
    (str "239.69.1.2") 5004 7 demo_dest mode48_ok) with (evs := [] : list loop_event) (rs := demo_events)
    as (sa & opts & fin & es & _ & H1 & _ & H2).
  { split; by vm_compute. } { cbn; lia. } { cbn; lia. } { cbn; lia. } { cbn; lia. } { by eexists. } { done. } { lia. }
  { done. } { done. } { by vm_compute. } { lia. } { apply demo_live_ok. } { apply demo_live_ok. } { done. } { apply demo_events_ok. }
  { by vm_compute. }
  exists sa, opts, fin, es. split; [exact H1|]. rewrite H2. by vm_compute.
Defined.

(** a status call, a frame, a tick and another status call *)
Definition demo_loop : list loop_event :=
  [StatusCall; CaptureReadable [Received (test_frame 0 (fun i => i)); TryAgain]; PublishTimer; StatusCall].

Lemma demo_loop_ok : Forall event_ok demo_loop.
Proof.
  apply Forall_cons. split; [done|]. apply Forall_cons. split.
  { apply Forall_cons. split; [apply forall_bytes; by vm_compute|by apply Forall_singleton]. }
  apply Forall_cons. split; [done|]. by apply Forall_singleton.
Qed.

Lemma run_listen_event_loop_witness :
  exists sa opts es replies us,
    run_listen (L := documented_lib) mode48 (Sender 7 (Some demo_dest)) demo_live_cfg (demo_live_env (Some (true, true, true)))
      demo_loop [] = Some (Ok (LiveOutcome 0 ((Setsockopt 9 <$> opts) ++ flat_map (live_call 7 demo_dest sa) (Announced :: es)
          ++ (sap_announcer_stop sa).2) replies true))
    /\ announcements es = 1 /\ replies !! 0%nat = Some (status_cb (set_interval 1 us)).
Proof.
  destruct (run_listen_event_loop (L := documented_lib) (D := documented_lib_doc) mode48 demo_live_cfg
    (demo_live_env (Some (true, true, true))) (str "239.69.1.2") 5004 7 demo_dest mode48_ok)
    with (evs := demo_loop) (rs := [] : list recv_event) as (sa & opts & es & replies & us & _ & H1 & _ & H2 & _ & _ & H3).
  { split; by vm_compute. } { cbn; lia. } { cbn; lia. } { cbn; lia. } { cbn; lia. } { by eexists. } { done. } { lia. }
  { done. } { done. } { by vm_compute. } { lia. } { apply demo_live_ok. } { apply demo_live_ok. } { done. } { done. }
  { apply demo_loop_ok. }
  exists sa, opts, es, replies, us. split; [exact H1|]. split; [rewrite H2; by vm_compute|].
  destruct H3 as (rest & -> & _). done.
Defined.

Lemma replay_udp_witness :
  exists t, run_pcap (L := documented_lib) (fun _ => true) 4 (Some (capture_file 1 (replicate 20 0) gap_records)) mode48 97 1
      (emit_udp (Sender 7 (Some demo_dest))) [] = Some (Ok (0, [] ++ (udp_packet 7 demo_dest <$> t)))
    /\ length t = 4%nat.
Proof.
  destruct (replay_udp (L := documented_lib) (D := documented_lib_doc) mode48 97 1 7 demo_dest [] mode48_ok ltac:(lia) ltac:(lia)
    ltac:(lia) (fun _ => true) 1 (replicate 20 0) gap_records 4 ltac:(done) ltac:(by right) eq_refl
    (proj1 gap_records_ok) ltac:(cbn; lia) (proj2 gap_records_ok)) as (t & H1 & H2 & _).
  exists t. split; [exact H1|]. apply Nat2Z.inj. rewrite H2. by vm_compute.
Defined.

(** two frames with a gap, foreign traffic and an idle wake-up between them; and their capture *)
Definition live_results : list recv_event :=
  [Event (Received (test_frame 7 (fun i => i))) false; Event (Received [1; 2; 3]) false; Event TryAgain false;
   Event (Received (test_frame 10 (fun i => 3 * i))) true].
Definition live_records : list record := [Record_ 1 0 (test_frame 7 (fun i => i)); Record_ 1 2 (test_frame 10 (fun i => 3 * i))].

Lemma live_results_ok : Forall data_ok live_results.
Proof.
  apply Forall_cons. split; [apply forall_bytes; by vm_compute|]. apply Forall_cons. split; [apply forall_bytes; by vm_compute|].
  apply Forall_cons. split; [done|]. apply Forall_singleton, forall_bytes. by vm_compute.
Qed.

Lemma live_records_ok : Forall rec_ok live_records /\ Forall (fun r => bytes_ok (rec_data r)) live_records.
Proof.
  split; [do 2 (apply Forall_cons; split; [by vm_compute|]); by apply Forall_nil|].
  do 2 (apply Forall_cons; split; [apply forall_bytes; by vm_compute|]). by apply Forall_nil.
Qed.

Lemma replay_equals_live_witness :
  exists sa opts fin es,
    run_listen (L := documented_lib) mode48 (Sender 7 (Some demo_dest)) demo_live_cfg (demo_live_env None) [] live_results
    = Some (Ok (LiveOutcome 0 ((Setsockopt 9 <$> opts) ++ flat_map (live_call 7 demo_dest sa) (Announced :: es)
        ++ if (fin : bool) then (sap_announcer_stop sa).2 else []) [] fin))
    /\ run_pcap (L := documented_lib) (fun _ => true) 3 (Some (capture_file 1 (replicate 20 0) live_records)) mode48 97 287454020
         (emit_udp (Sender 7 (Some demo_dest))) []
       = Some (Ok (0, flat_map (live_call 7 demo_dest sa) (Media <$> media es))).
Proof.
  destruct (replay_equals_live (L := documented_lib) (D := documented_lib_doc) mode48 demo_live_cfg (demo_live_env None)
    (str "239.69.1.2") 5004 7 demo_dest mode48_ok) with (evs := [] : list loop_event) (rs := live_results)
    (fseek_ok := fun _ : Z => true) (swap := 1) (rest := replicate 20 0) (records := live_records) (fuel := 3%nat)
    as (sa & opts & fin & es & H1 & H2).
  { split; by vm_compute. } { done. } { done. } { cbn; lia. } { cbn; lia. } { cbn; lia. } { by eexists. } { done. } { lia. }
  { done. } { done. } { by vm_compute. } { lia. } { apply demo_live_ok. } { apply demo_live_ok. } { done. } { apply live_results_ok. }
  { by vm_compute. } { done. } { by right. } { done. } { apply live_records_ok. } { cbn; lia. } { apply live_records_ok. }
  { by vm_compute. }
  exists sa, opts, fin, es. split; [exact H1|exact H2].
Defined.
