(* ===== verification/Dante.v ===== *)
(** main.c, run_dante: the Dante-compatible profile.  One sender and one SAP
    announcement per flow around the path decoder, pipeline, packetizer; frames
    come from a capture file or from the capture socket. *)

From S2P Require Import Prelude LibReac Pcm Decode MediaClock Plc Rtp Pipeline Packetizer Factor.
From S2P Require Import PcapSource Send Sdp Sap Text PtpClock Listen Replay.

Definition SAP_MCAST_ADDR_DANTE : list Z := str "239.255.255.255".

(** [struct dante_cfg] *)
Record dante_cfg : Type := DanteCfg {
  base_ip : list Z;
  rtp_port : Z;              (* uint16_t *)
  ch_per_flow : Z;
  cfg_pt : Z;                (* uint8_t *)
  ssrc_base : Z;             (* uint32_t *)
  cfg_ttl : Z;
  iface_egress : option (list Z);
  cfg_name : option (list Z);
  cfg_origin : list Z;
  gmid : list Z;
  ptp_domain : Z;
  media_dscp : Z;
  count_only : bool;
  do_sap : bool;
}.

(** what the system answers: [calloc] and [socket] for the i-th sender opened,
    SIOCGIFADDR, CLOCK_TAI *)
Record system : Type := System {
  sys_calloc : Z -> bool;
  sys_socket : Z -> Z;
  sys_ioctl : list Z -> option (list Z);
  sys_tai : option (Z * Z);
}.

(** [char buf[n]; snprintf(buf, sizeof buf, ...)], then read as a string *)
Definition formatted (n : nat) (text : list Z) : res (list Z) :=
  '(_, b) ← snprintf (undef (Z.of_nat n)) 0 (Z.of_nat n) text;
  c_string n b 0.

(** [ipv4_add_octet] into [char fip[64]]; [None] when it fails *)
Definition flow_address (base : list Z) (i : Z) : res (option (list Z)) :=
  '(r, b) ← ipv4_add_octet base i (undef 64) 64;
  if negb (r =? 0) then mret None else s ← c_string 64 b 0; mret (Some s).

(** [struct dante_emit_ctx]: the count, and the system calls made *)
Record dante_world : Type := DanteWorld { d_count : Z; d_calls : list syscall }.
Definition add_calls (l : list syscall) (w : dante_world) : dante_world := DanteWorld (d_count w) (d_calls w ++ l).

Definition dante_emit (senders : option (buf aes67_sender)) (n_flows : Z) : packetizer_emit_fn dante_world :=
  fun flow_index pkt _ _ w =>
    c ← int (d_count w + 1);
    match senders with
    | Some ss =>
        if flow_index <? n_flows then
          s ← rd ss flow_index;
          mret (DanteWorld c (d_calls w ++ (aes67_send_packet 0 s pkt).2))
        else mret (DanteWorld c (d_calls w))
    | None => mret (DanteWorld c (d_calls w))
    end.

(** [dante_sap_announce]; a NULL-like [snd] is [sap_ok = 0] *)
Definition dante_sap_announce (snd : option aes67_sender) (pkts : buf (buf Z)) (lens : buf Z) (n_flows : Z)
  (w : dante_world) : res dante_world :=
  match snd with
  | None => mret w
  | Some snd =>
      for_ 0 n_flows (fun i w =>
        l ← rd lens i;
        if l >? 0 then
          p ← rd pkts i;
          mret (add_calls (aes67_send_packet 0 snd (upto p l)).2 w)
        else mret w) w
  end.

Section Dante.
Context {L : ReacLib} {I : InetPton} (sys : system).
Implicit Types (m : reac_mode) (cfg : dante_cfg) (w : dante_world).

(** [for (int j = 0; j < opened; j++) aes67_send_close(&senders[j]);] *)
Definition close_flow (j : Z) (st : buf aes67_sender * list syscall) : res (buf aes67_sender * list syscall) :=
  let '(ss, calls) := st in
  s ← rd ss j;
  let '(s, l) := aes67_send_close s in
  ss ← wr ss j s;
  mret (ss, calls ++ l).

(** the loop that opens the flows' senders from number [i] on: whether all of
    them could be opened, the array, the system calls *)
Fixpoint open_flows (n : nat) (i : Z) cfg (ss : buf aes67_sender) (calls : list syscall)
  : res (bool * buf aes67_sender * list syscall) :=
  match n with
  | O => mret (true, ss, calls)
  | S n =>
      a ← flow_address (base_ip cfg) i;
      let opened := match a with
        | None => None
        | Some ip =>
            let '(r, s, l) := aes67_send_open (sys_calloc sys i) (sys_socket sys i) (sys_ioctl sys) ip
                                (rtp_port cfg) (cfg_ttl cfg) (iface_egress cfg) in
            if negb (r =? 0) then None else Some (s, l)
        end in
      match opened with
      | None =>
          '(ss, calls) ← for_ 0 i close_flow (ss, calls);
          mret (false, ss, calls)
      | Some (s, l) =>
          ss ← wr ss i s;
          open_flows n (i + 1) cfg ss (calls ++ l ++ (aes67_send_set_dscp 0 s (media_dscp cfg)).2)
      end
  end.

(** the description of a flow *)
Definition flow_sdp m cfg (nm fip gmstr : list Z) (fl : reac_flow) : sdp_params :=
  SdpParams nm (cfg_origin cfg) fip (rtp_port cfg) (fl_payload_type fl) (sample_rate m) (n_ch fl) (cfg_ttl cfg)
    1 (Some gmstr) 0.

(** iteration [i] of the loop that builds the announcements *)
Definition build_announcement m cfg (gmstr : list Z) (fls : buf reac_flow) (i : Z) (st : buf (buf Z) * buf Z)
  : res (buf (buf Z) * buf Z) :=
  let '(pkts, lens) := st in
  a ← flow_address (base_ip cfg) i;
  match a with
  | None => mret (pkts, lens)
  | Some fip =>
      k ← int (i + 1);
      nm ← formatted 64 (default (str "REAC") (cfg_name cfg) ++ str "-" ++ dec k);
      fl ← rd fls i;
      '(n, sdp) ← sdp_build (undef 768) 768 (flow_sdp m cfg nm fip gmstr fl);
      if n >=? 0 then
        text ← c_string 768 sdp 0;
        p ← rd pkts i;
        '(len, p) ← sap_build p 1024 (cfg_origin cfg) (sap_hash text) text;
        pkts ← wr pkts i p;
        lens ← wr lens i len;
        mret (pkts, lens)
      else mret (pkts, lens)
  end.

(** the sockets of the session once it runs: the flows', the announcer's and its
    packets *)
Record session : Type := Session {
  s_flows : Z;
  s_senders : option (buf aes67_sender);
  s_sap : option aes67_sender;
  s_pkts : buf (buf Z);
  s_lens : buf Z;
}.

(** the senders, unless the packets are only counted: whether all of them could be
    opened *)
Definition dante_senders cfg (n : Z) : res (bool * option (buf aes67_sender) * list syscall) :=
  if count_only cfg then mret (true, None, []) else
  '(ok, ss, l) ← open_flows (Z.to_nat n) 0 cfg (undef REAC_MAX_CHANNELS) [];
  mret (ok, Some ss, l).

(** the announcer and its packets *)
Definition dante_announcer m cfg (n : Z) (gmstr : list Z) (fls : buf reac_flow) (ss : option (buf aes67_sender))
  : res (session * list syscall) :=
  let pkts := filled_with REAC_MAX_CHANNELS (undef 1024) in
  let lens := filled_with REAC_MAX_CHANNELS 0 in
  if negb (count_only cfg) && do_sap cfg then
    let '(r, snd, l) := aes67_send_open (sys_calloc sys n) (sys_socket sys n) (sys_ioctl sys)
                          SAP_MCAST_ADDR_DANTE SAP_PORT (cfg_ttl cfg) (iface_egress cfg) in
    if r =? 0 then
      '(pkts, lens) ← for_ 0 n (build_announcement m cfg gmstr fls) (pkts, lens);
      mret (Session n ss (Some snd) pkts lens, l)
    else mret (Session n ss None pkts lens, l)
  else mret (Session n ss None pkts lens, []).

(** everything before the packetizer is set up: an exit code, or the session with
    its flow array and anchor; and the system calls *)
Definition dante_setup m cfg : res ((Z + session * buf reac_flow * Z) * list syscall) :=
  '(n, fls) ← dante_build_flows (undef REAC_MAX_CHANNELS) REAC_MAX_CHANNELS (n_channels m) (ch_per_flow cfg)
                (cfg_pt cfg) (ssrc_base cfg);
  if n <? 0 then mret (inl 2, []) else
  let anchor := dante_anchor (sys_tai sys) (sample_rate m) in
  gmstr ← formatted 80 (gmid cfg ++ str ":" ++ dec (ptp_domain cfg));
  '(opened, ss, calls) ← dante_senders cfg n;
  if negb opened then mret (inl 1, calls) else
  '(s, l) ← dante_announcer m cfg n gmstr fls ss;
  mret (inr (s, fls, anchor), calls ++ l).

(** what the loops carry: the pipeline over the packetizer, and the world *)
Definition dante_state : Type := pipeline (packetizer * dante_world) * (packetizer * dante_world).

Definition dante_frame (b : buf Z) (n : Z) (st : dante_state) : res dante_state :=
  '(_, pl, w) ← pipeline_on_frame st.1 b n emit_noop st.2;
  mret (pl, w).

Definition dante_announce (s : session) (st : dante_state) : res dante_state :=
  let '(pl, (pk, w)) := st in
  w ← dante_sap_announce (s_sap s) (s_pkts s) (s_lens s) (s_flows s) w;
  mret (pl, (pk, w)).

(** [while (!g_stop) ...] over the capture socket; the result tells whether the
    loop has been left *)
Fixpoint dante_live (fuel : nat) (s : session) (pps frames : Z) (c : reac_capture) (stop : bool)
  (evs : list recv_event) (st : dante_state) : option (res (bool * dante_state)) :=
  match fuel with
  | O => None
  | S fuel =>
      if stop then Some (mret (true, st)) else
      match reac_capture_next c 2048 stop evs with
      | Waiting => Some (mret (false, st))
      | Next n d stop evs =>
          if n <? 0 then Some (mret (true, st)) else
          if n =? 0 then
            match dante_announce s st with
            | Err e => Some (Err e)
            | Ok st => dante_live fuel s pps frames c stop evs st
            end
          else
            match (st ← dante_frame (frame_buffer d) n st;
                   if pps >? 0 then
                     let frames := u64 (frames + 1) in
                     st ← (if frames mod pps =? 0 then dante_announce s st else mret st);
                     mret (frames, st)
                   else mret (frames, st)) with
            | Err e => Some (Err e)
            | Ok (frames, st) => dante_live fuel s pps frames c stop evs st
            end
      end
  end.

(** where the frames come from; [None] is a file that cannot be opened *)
Inductive dante_source : Type :=
| FromPcap (fopen : option (list Z))
| FromLive (socket : Z) (ifindex : option Z) (bound : bool) (flags : option unit) (evs : list recv_event)
| FromNowhere.

(** exit code, system calls, the line printed; [finished] is false while a live
    session is still waiting for packets *)
Record outcome : Type := Outcome {
  o_rc : Z;
  o_calls : list syscall;
  o_printed : option (Z * Z);
  o_finished : bool;
}.

(** the frames of the source through the session *)
Definition dante_source_run (fseek_ok : Z -> bool) (fuel : nat) m (src : dante_source) (s : session) (st : dante_state)
  : option (res (Z * bool * dante_state)) :=
  match src with
  | FromPcap fopen =>
      let '(r, ps) := pcap_source_open fopen in
      if negb (r =? 0) then Some (Ok (1, true, st)) else
      fmap (M := option) (fmap (M := res) (fun x => (0, true, x.2)))
        (while_next fseek_ok fuel ps (undef READ_BYTES) dante_frame st)
  | FromLive socket ifindex bound flags evs =>
      let '(r, c, _) := reac_capture_open socket ifindex bound in
      if negb (r =? 0) then Some (Ok (1, true, st)) else
      let '(_, c) := reac_capture_set_nonblock flags false c in
      match idiv (sample_rate m) (samples_per_pkt m) with
      | Err e => Some (Err e)
      | Ok pps =>
          fmap (M := option) (fmap (M := res) (fun x => (0, x.1, x.2)))
            (dante_live fuel s pps 0 c false evs st)
      end
  | FromNowhere => Some (Ok (0, true, st))
  end.

(** the closing of the sockets *)
Definition dante_close (s : session) (calls : list syscall) : res (list syscall) :=
  let calls := match s_sap s with Some snd => calls ++ (aes67_send_close snd).2 | None => calls end in
  match s_senders s with
  | Some ss => '(_, calls) ← for_ 0 (s_flows s) close_flow (ss, calls); mret calls
  | None => mret calls
  end.

(** the state the session starts with; [planar0] is what the local packetizer's
    window held *)
Definition dante_start_state m cfg (planar0 : buf Z) (s : session) (fls : buf reac_flow) (anchor : Z)
  (calls : list syscall) : dante_state :=
  let pk := packetizer_init planar0 m 4 fls (s_flows s) in
  let pl := pipeline_set_pcm_sink (Some (dante_pcm_sink (dante_emit (s_senders s) (s_flows s))))
              (pipeline_anchor anchor (pipeline_init m (cfg_pt cfg) (ssrc_base cfg))) in
  (pl, (pk, DanteWorld 0 calls)).

Definition run_dante (fseek_ok : Z -> bool) (fuel : nat) (planar0 : buf Z) (src : dante_source) m cfg
  : option (res outcome) :=
  match dante_setup m cfg with
  | Err e => Some (Err e)
  | Ok (inl rc, calls) => Some (Ok (Outcome rc calls None true))
  | Ok (inr (s, fls, anchor), calls) =>
      match dante_announce s (dante_start_state m cfg planar0 s fls anchor calls) with
      | Err e => Some (Err e)
      | Ok st =>
          fmap (M := option) (mbind (M := res) (fun '(rc, fin, (_, (_, w))) =>
              if negb fin then Ok (Outcome rc (d_calls w) None false) else
              calls ← dante_close s (d_calls w);
              mret (Outcome rc calls (if count_only cfg then Some (d_count w, s_flows s) else None) true)))
            (dante_source_run fseek_ok fuel m src s st)
      end
  end.
End Dante.

(** * Specification *)

Section Spec.
Context {L : ReacLib} {D : ReacDoc L} {I : InetPton} (sys : system).
Implicit Types (m : reac_mode) (cfg : dante_cfg) (w : dante_world).

(** [inet_pton] reads a dotted quad *)
Definition reads_quads : Prop := forall a b c d, octet a -> octet b -> octet c -> octet d ->
  inet_pton (dotted a b c d) = Some [a; b; c; d].

Definition is_setsockopt (c : syscall) : Prop := match c with Setsockopt _ _ => True | _ => False end.

(** the sender of flow [i] when the base address is a.b.c.d *)
Definition flow_sender cfg (a b c d i : Z) : aes67_sender :=
  Sender (sys_socket sys i) (Some (SockAddr [a; b; c; d + i] (htons (rtp_port cfg)))).

(** the datagram of a recorded flow packet *)
Definition media_call cfg (a b c d : Z) (e : Z * buf Z * Z) : syscall :=
  Sendto (sys_socket sys e.1.1) e.1.2 (SockAddr [a; b; c; d + e.1.1] (htons (rtp_port cfg))).

(** session name and description of flow [i] *)
Definition flow_name cfg (i : Z) : list Z :=
  take 63 (default (str "REAC") (cfg_name cfg) ++ str "-" ++ dec (i + 1)).
Definition flow_text m cfg (a b c d i : Z) : list Z :=
  sdp_text (flow_sdp m cfg (flow_name cfg i) (dotted a b c (d + i)) (take 79 (gmid cfg ++ str ":" ++ dec (ptp_domain cfg)))
    (nth_flow (n_channels m) (ch_per_flow cfg) (cfg_pt cfg) (ssrc_base cfg) i)).

(** ** Strings *)

Lemma c_string_take n text : Forall (fun x => x <> 0) text -> (0 < n)%nat -> forall b,
  (forall i, 0 <= i < Z.of_nat (length (take (n - 1) text)) -> get b i = take (n - 1) text !! Z.to_nat i) ->
  get b (Z.of_nat (length (take (n - 1) text))) = Some 0 ->
  c_string n b 0 = Ok (take (n - 1) text).
Proof.
  intros HF Hn b H1 H2. apply ok_c_string; [intros k Hk; rewrite Z.add_0_l; by apply H1|by rewrite Z.add_0_l|by apply Forall_take|].
  rewrite length_take. lia.
Qed.

Lemma formatted_ok n text : Forall (fun x => x <> 0) text -> (0 < n)%nat -> Z.of_nat (length text) <= INT_MAX ->
  formatted n text = Ok (take (n - 1) text).
Proof.
  intros HF Hn Hi. unfold formatted, snprintf. rewrite Z.gtb_ltb, (proj2 (Z.ltb_ge INT_MAX _)) by lia.
  rewrite (proj2 (Z.eqb_neq (Z.of_nat n) 0)) by lia.
  replace (Z.to_nat (Z.of_nat n - 1)) with (n - 1)%nat by lia. set (st := take (n - 1) text).
  assert (Z.of_nat (length (st ++ [0])) = Z.of_nat (length st) + 1) as EL by (rewrite length_app; cbn; lia).
  assert (Z.of_nat (length st) <= Z.of_nat n - 1) as Hst by (unfold st; rewrite length_take; lia).
  apply ok_eq. ok_step. ok_step.
  apply ok_blit; [lia|lia|lia|rewrite blen_undef; lia|rewrite blen_of_list; lia|]. intros b (B1 & B2 & B3).
  ok_step. apply ok_eq. apply c_string_take; [done|done| |].
  - fold st. intros i Hr. rewrite B2, get_of_list, lookup_app_l by lia. f_equal. lia.
  - fold st. rewrite B2, get_of_list by lia. rewrite lookup_app_r by lia.
    by replace (Z.to_nat (0 + (Z.of_nat (length st) - 0)) - length st)%nat with 0%nat by lia.
Qed.

Lemma dec_nonzero n : Forall (fun x => x <> 0) (dec n).
Proof. eapply Forall_impl; [exact (dec_chars n)|]. cbn. lia. Qed.

Lemma dotted_nonzero a b c d : Forall (fun x => x <> 0) (dotted a b c d).
Proof. unfold dotted, dot. rewrite !Forall_app. repeat split; (apply dec_nonzero || (apply Forall_singleton; done)). Qed.

(** the address of a flow *)
Lemma flow_address_ok a b c d i : octet a -> octet b -> octet c -> octet d -> 0 <= i <= INT_MAX ->
  flow_address (dotted a b c d) i = Ok (if d + i <=? 255 then Some (dotted a b c (d + i)) else None).
Proof.
  intros Ha Hb Hc Hd Hi. apply ok_eq. unfold flow_address. ok_step.
  apply ok_ipv4_add_octet; try done.
  - intros Hle out' Hl [C1 C2]. cbn [Z.eqb negb]. rewrite (proj2 (Z.leb_le _ _)) by lia.
    unfold octet in *. pose proof (dotted_length a b c (d + i) Ha Hb Hc ltac:(unfold octet; lia)) as HL.
    assert (c_string 64 out' 0 = Ok (dotted a b c (d + i))) as ->; [|done].
    apply ok_c_string; [intros k Hk; rewrite Z.add_0_l; by apply C1|by rewrite Z.add_0_l|apply dotted_nonzero|lia].
  - intros Hgt. change (negb (-1 =? 0)) with true. cbv iota. ok_step. by rewrite (proj2 (Z.leb_gt _ _)) by lia.
Qed.

(** [nm] *)
Lemma ok_flow_name cfg i : 0 <= i < 40 -> Forall (fun x => 0 < x < 256) (default (str "REAC") (cfg_name cfg)) ->
  Z.of_nat (length (default (str "REAC") (cfg_name cfg))) <= 1000000 ->
  formatted 64 (default (str "REAC") (cfg_name cfg) ++ str "-" ++ dec (i + 1)) = Ok (flow_name cfg i).
Proof.
  intros Hi Hname Hnl. rewrite formatted_ok; [done| |lia|].
  - apply Forall_app. split; [eapply Forall_impl; [exact Hname|]; cbn; lia|]. apply Forall_app.
    change (str "-") with [45]. split; [by apply Forall_singleton|apply dec_nonzero].
  - rewrite !length_app. pose proof (dec_length (i + 1)). change (length (str "-")) with 1%nat. unfold INT_MAX. lia.
Qed.

(** [gmstr] *)
Lemma ok_gmstr cfg : Forall (fun x => 0 < x < 256) (gmid cfg) -> Z.of_nat (length (gmid cfg)) <= 1000000 ->
  formatted 80 (gmid cfg ++ str ":" ++ dec (ptp_domain cfg)) = Ok (take 79 (gmid cfg ++ str ":" ++ dec (ptp_domain cfg))).
Proof.
  intros Hgm Hgl. rewrite formatted_ok; [done| |lia|].
  - apply Forall_app. split; [eapply Forall_impl; [exact Hgm|]; cbn; lia|].
    change (str ":") with [58]. apply Forall_app. split; [by apply Forall_singleton|apply dec_nonzero].
  - rewrite !length_app. pose proof (dec_length (ptp_domain cfg)). change (length (str ":")) with 1%nat. unfold INT_MAX. lia.
Qed.

(** ** Opening the senders *)

Section Open.
Context (cfg : dante_cfg) (a b c d : Z).
Context (Hbase : base_ip cfg = dotted a b c d) (Ha : octet a) (Hb : octet b) (Hc : octet c) (Hd : octet d).
Context (Hquad : reads_quads) (Hcalloc : forall i, sys_calloc sys i = true).

Lemma send_open_ok i ip adr port ttl ifn : inet_pton ip = Some adr -> 0 <= sys_socket sys i ->
  exists opts, aes67_send_open (sys_calloc sys i) (sys_socket sys i) (sys_ioctl sys) ip port ttl ifn
    = (0, Sender (sys_socket sys i) (Some (SockAddr adr (htons port))), Setsockopt (sys_socket sys i) <$> opts).
Proof.
  intros E Hs. unfold aes67_send_open. rewrite Hcalloc, E. cbn [negb].
  rewrite (proj2 (Z.ltb_ge _ 0)) by done. by eexists.
Qed.

(** a flow whose sender can be opened *)
Lemma open_flows_next n i ss calls :
  0 <= i < blen ss -> d + i <= 255 -> 0 <= sys_socket sys i ->
  exists more, Forall is_setsockopt more
    /\ open_flows sys (S n) i cfg ss calls
       = open_flows sys n (i + 1) cfg (upd ss i (flow_sender cfg a b c d i)) (calls ++ more).
Proof.
  intros Hi Hd' Hs. unfold octet in *. cbn [open_flows]. rewrite Hbase, flow_address_ok by (unfold octet, INT_MAX; lia).
  rewrite (proj2 (Z.leb_le _ _)) by lia. cbn [mbind res_bind].
  destruct (send_open_ok i (dotted a b c (d + i)) [a; b; c; d + i] (rtp_port cfg) (cfg_ttl cfg) (iface_egress cfg))
    as [opts ->]; [apply Hquad; unfold octet; lia|done|]. cbn [negb Z.eqb].
  rewrite (wr_upd ss i) by lia. cbn [mbind res_bind]. eexists. split; [|done].
  rewrite Forall_app. split; [by apply Forall_fmap, Forall_forall|].
  unfold aes67_send_set_dscp. by destruct (_ <? 0); repeat constructor.
Qed.

(** the first [n] flows from [i] on *)
Lemma open_flows_ok r : forall n i ss calls,
  0 <= i -> d + i + Z.of_nat n <= 256 -> i + Z.of_nat n <= blen ss ->
  (forall j, i <= j < i + Z.of_nat n -> 0 <= sys_socket sys j) ->
  (forall j, 0 <= j < i -> get ss j = Some (flow_sender cfg a b c d j)) ->
  exists ss' opens, open_flows sys (n + r) i cfg ss calls = open_flows sys r (i + Z.of_nat n) cfg ss' (calls ++ opens)
    /\ Forall is_setsockopt opens /\ blen ss' = blen ss
    /\ (forall j, 0 <= j < i + Z.of_nat n -> get ss' j = Some (flow_sender cfg a b c d j)).
Proof.
  induction n as [|n IH]; intros i ss calls Hi Hroom Hlen Hs Hss.
  - exists ss, []. rewrite app_nil_r, Z.add_0_r. split; [done|]. split; [done|]. split; [done|]. intros j Hj. apply Hss. lia.
  - change (S n + r)%nat with (S (n + r)). destruct (open_flows_next (n + r) i ss calls) as (more & Hmore & ->); [lia|lia|apply Hs; lia|].
    destruct (IH (i + 1) (upd ss i (flow_sender cfg a b c d i)) (calls ++ more)) as (ss' & opens & -> & H1 & H2 & H3);
      [lia|lia|rewrite blen_upd; lia|intros j Hj; apply Hs; lia| |].
    { intros j Hj. rewrite get_upd by lia. case_decide as E; [by rewrite E|]. apply Hss. lia. }
    exists ss', (more ++ opens). rewrite <- app_assoc. replace (i + 1 + Z.of_nat n) with (i + Z.of_nat (S n)) in * by lia.
    split; [done|]. split; [by apply Forall_app|]. split; [by rewrite H2, blen_upd|done].
Qed.

(** a flow whose sender cannot: no address left, or no socket *)
Lemma open_flows_fails n i ss calls : 0 <= i <= 40 -> 255 < d + i \/ sys_socket sys i < 0 ->
  open_flows sys (S n) i cfg ss calls = ('(ss, calls) ← for_ 0 i close_flow (ss, calls); mret (false, ss, calls)).
Proof.
  intros Hi Hbad. unfold octet in *. cbn [open_flows]. rewrite Hbase, flow_address_ok by (unfold octet, INT_MAX; lia).
  destruct (Z.leb_spec (d + i) 255) as [H|H]; [|done]. cbn [mbind res_bind].
  unfold aes67_send_open. rewrite Hcalloc. cbn [negb]. destruct (inet_pton _); [|done].
  rewrite (proj2 (Z.ltb_lt (sys_socket sys i) 0)) by lia. done.
Qed.
End Open.

(** ** The announcements *)

Section Announce.
Context m cfg (a b c d : Z) (orig : list Z).
Context (Hbase : base_ip cfg = dotted a b c d) (Ha : octet a) (Hb : octet b) (Hc : octet c) (Hd : octet d).
Context (Horig : inet_pton (cfg_origin cfg) = Some orig) (HI : InetDoc I).
Context (Hname : Forall (fun x => 0 < x < 256) (default (str "REAC") (cfg_name cfg)))
  (Horigc : Forall (fun x => 0 < x < 256) (cfg_origin cfg)) (Hgm : Forall (fun x => 0 < x < 256) (gmid cfg)).
Context (Hnl : Z.of_nat (length (default (str "REAC") (cfg_name cfg))) <= 1000000)
  (Hgl : Z.of_nat (length (gmid cfg)) <= 1000000).

Definition gm_string : list Z := take 79 (gmid cfg ++ str ":" ++ dec (ptp_domain cfg)).

Definition sent_announcement (i : Z) (p : buf Z) (l : Z) : Prop :=
  0 < l /\ parse_sap (upto p l)
    = Some (Announcement (sap_hash (flow_text m cfg a b c d i)) orig (str "application/sdp") (flow_text m cfg a b c d i)).

Lemma flow_text_chars i : Forall (fun x => 0 < x < 256) (flow_text m cfg a b c d i).
Proof.
  unfold flow_text. apply sdp_text_chars; cbn [session_name origin_ip mcast_ip ts_refclk flow_sdp]; [|done| |].
  - apply Forall_take, Forall_app. split; [done|]. apply Forall_app. split; [repeat constructor; lia|apply dec_chars].
  - unfold dotted, dot. rewrite !Forall_app. repeat split; (apply dec_chars || (repeat constructor; lia)).
  - apply Forall_take, Forall_app. split; [done|]. apply Forall_app. split; [repeat constructor; lia|apply dec_chars].
Qed.

(** the text and the packet fit, for each of the [n] flows *)
Context (n : Z) (Hn : 0 <= n <= 40) (Hroom : d + n <= 256) (fls : buf reac_flow).
Context (Hfit : forall i, 0 <= i < n -> Z.of_nat (length (flow_text m cfg a b c d i)) < 768).
Context (Hfls : forall i, 0 <= i < n ->
  get fls i = Some (nth_flow (n_channels m) (ch_per_flow cfg) (cfg_pt cfg) (ssrc_base cfg) i)).

(** the arrays after [i] iterations *)
Definition announced (i : Z) (st : buf (buf Z) * buf Z) : Prop :=
  blen st.1 = 40 /\ blen st.2 = 40
  /\ (forall j, 0 <= j < i -> exists p l, get st.1 j = Some p /\ get st.2 j = Some l /\ sent_announcement j p l)
  /\ (forall j, i <= j < n -> exists p, get st.1 j = Some p /\ blen p = 1024).

Lemma ok_build_announcement i st : 0 <= i < n -> announced i st ->
  ok (build_announcement m cfg gm_string fls i st) (announced (i + 1)).
Proof.
  intros Hi (B1 & B2 & Hdone & Htodo). destruct st as [pkts lens]; cbn [fst snd] in *.
  unfold build_announcement. rewrite Hbase.
  assert (0 <= i <= INT_MAX) as Hi' by (unfold INT_MAX; lia).
  rewrite (flow_address_ok a b c d i Ha Hb Hc Hd Hi'), (proj2 (Z.leb_le (d + i) 255)) by lia. ok_step. ok_step.
  ok_step. ok_step. rewrite ok_flow_name by (done || lia).
  ok_step. ok_step. ok_step. eapply ok_rd; [by apply Hfls|].
  set (sp := flow_sdp m cfg (flow_name cfg i) (dotted a b c (d + i)) gm_string _).
  assert (sdp_text sp = flow_text m cfg a b c d i) as Et by done.
  pose proof (Hfit i Hi) as Hf. pose proof (flow_text_chars i) as HC.
  ok_step. apply ok_sdp_build; rewrite ?Et; [rewrite blen_undef; lia|lia|unfold INT_MAX; lia| |lia].
  intros _ sdp Hl [S1 S2]. rewrite Z.geb_leb, (proj2 (Z.leb_le 0 _)) by lia.
  ok_step. assert (c_string 768 sdp 0 = Ok (flow_text m cfg a b c d i)) as ->.
  { apply ok_c_string; [done|done|eapply Forall_impl; [exact HC|]; cbn; lia|lia]. }
  ok_step. destruct (Htodo i ltac:(lia)) as (p & Hp & Hpl). ok_step. eapply ok_rd; [exact Hp|].
  ok_step. eapply ok_sap_build; [exact Horig| |lia|lia| |lia].
  { pose proof (sap_hash_range (flow_text m cfg a b c d i)) as Hr. lapply Hr; [lia|].
    eapply Forall_impl; [exact HC|]. cbn. lia. }
  intros _ p' Hp' Hparse. ok_step. apply ok_wr; [lia|]. ok_step. apply ok_wr; [lia|]. ok_step.
  unfold announced; cbn [fst snd]. rewrite !blen_upd. split; [done|]. split; [done|]. split.
  - intros j Hj. rewrite !get_upd by lia. case_decide as E.
    + subst j. eexists _, _. split; [done|]. split; [done|]. split; [lia|exact Hparse].
    + apply Hdone. lia.
  - intros j Hj. rewrite get_upd by lia. rewrite decide_False by lia. apply Htodo. lia.
Qed.

Lemma ok_build_announcements :
  ok (for_ 0 n (build_announcement m cfg gm_string fls)
        (filled_with REAC_MAX_CHANNELS (undef 1024), filled_with REAC_MAX_CHANNELS 0)) (announced n).
Proof.
  apply (ok_for announced); [lia| |by intros i st Hi HA; apply ok_build_announcement|done].
  split; [|split; [|split; [lia|]]]; cbn [fst snd]; rewrite ?doc_max_channels; [done|done|].
  intros j Hj. exists (undef 1024). split; [|by rewrite blen_undef].
  assert (forall k, (k < 40)%nat -> get (filled_with 40 (undef (A := Z) 1024)) (Z.of_nat k) = Some (undef 1024)) as H.
  { intros k Hk. rewrite get_lookup by lia. rewrite Nat2Z.id. unfold filled_with.
    rewrite lookup_replicate_2 by (change (Z.to_nat 40) with 40%nat; lia). done. }
  specialize (H (Z.to_nat j) ltac:(lia)). by rewrite Z2Nat.id in H by lia.
Qed.

(** sending them *)
Lemma ok_announce_all snd w st : announced n st -> 0 <= sd_fd snd -> is_Some (sd_dest snd) ->
  ok (dante_sap_announce (Some snd) st.1 st.2 n w) (fun w' => exists ps,
    w' = add_calls ((fun p => Sendto (sd_fd snd) p (default (SockAddr [] []) (sd_dest snd))) <$> ps) w
    /\ Z.of_nat (length ps) = n
    /\ forall i p, ps !! i = Some p -> parse_sap p
        = Some (Announcement (sap_hash (flow_text m cfg a b c d (Z.of_nat i))) orig (str "application/sdp")
                  (flow_text m cfg a b c d (Z.of_nat i)))).
Proof.
  intros (_ & _ & HA & _) Hfd [dest Hdest]. unfold dante_sap_announce. rewrite Hdest. cbn [default].
  apply (ok_for (fun i w' => exists ps, w' = add_calls ((fun p => Sendto (sd_fd snd) p dest) <$> ps) w
    /\ Z.of_nat (length ps) = i
    /\ forall k p, ps !! k = Some p -> parse_sap p
        = Some (Announcement (sap_hash (flow_text m cfg a b c d (Z.of_nat k))) orig (str "application/sdp")
                  (flow_text m cfg a b c d (Z.of_nat k))))); [lia| | |done].
  - exists []. split; [|done]. unfold add_calls. destruct w. cbn. by rewrite app_nil_r.
  - intros i w' Hi (ps & -> & Hlen & Hps). destruct (HA i Hi) as (p & l & E1 & E2 & Hl & Hp).
    ok_step. eapply ok_rd; [exact E2|]. rewrite Z.gtb_ltb, (proj2 (Z.ltb_lt 0 l)) by lia.
    ok_step. eapply ok_rd; [exact E1|]. ok_step. unfold aes67_send_packet.
    rewrite (proj2 (Z.ltb_ge (sd_fd snd) 0)), Hdest by lia. exists (ps ++ [upto p l]).
    rewrite fmap_app, length_app. cbn [length fmap list_fmap]. split; [|split; [lia|]].
    + unfold add_calls; cbn. by rewrite app_assoc.
    + intros k q Hq. apply lookup_snoc_Some in Hq as [[_ Hq]|[-> <-]]; [by apply Hps|].
      replace (Z.of_nat (length ps)) with i by lia. done.
Qed.
End Announce.
(** ** Sending the packets *)

Section Send.
Context cfg (a b c d n : Z) (ss : buf aes67_sender) (Hsock : forall i, 0 <= i < n -> 0 <= sys_socket sys i).
Context (Hss : forall j, 0 <= j < n -> get ss j = Some (flow_sender cfg a b c d j)).

(** [dante_emit] over a recorded packet *)
Definition emit_packet (e : Z * buf Z * Z) (w : dante_world) : res dante_world :=
  dante_emit (Some ss) n e.1.1 e.1.2 0 e.2 w.

Lemma emit_packet_ok e w : 0 <= e.1.1 < n -> INT_MIN <= d_count w < INT_MAX ->
  emit_packet e w = Ok (DanteWorld (d_count w + 1) (d_calls w ++ [media_call cfg a b c d e])).
Proof.
  intros He Hw. apply ok_eq. unfold emit_packet, dante_emit. ok_step. apply ok_int; [unfold INT_MIN, INT_MAX in *; lia|].
  rewrite (proj2 (Z.ltb_lt e.1.1 n)) by lia. ok_step. eapply ok_rd; [by apply Hss|]. ok_step.
  unfold aes67_send_packet, media_call. cbn [sd_fd sd_dest flow_sender].
  by rewrite (proj2 (Z.ltb_ge (sys_socket sys e.1.1) 0)) by (by apply Hsock).
Qed.

Lemma emit_packets_ok t : forall w, (forall x e, t !! x = Some e -> 0 <= e.1.1 < n) ->
  0 <= d_count w -> d_count w + Z.of_nat (length t) <= INT_MAX ->
  emits emit_packet t w
  = Ok (DanteWorld (d_count w + Z.of_nat (length t)) (d_calls w ++ (media_call cfg a b c d <$> t))).
Proof.
  induction t as [|e t IH]; intros w Ht Hw Hmax; cbn [emits].
  - destruct w as [k l]. cbn. by rewrite Z.add_0_r, app_nil_r.
  - cbn [length] in Hmax. rewrite emit_packet_ok; [|by apply (Ht 0%nat)|unfold INT_MIN in *; lia].
    cbn [mbind res_bind]. rewrite IH; cbn [d_count d_calls]; [|intros x e' Hx; by apply (Ht (S x))|lia|lia].
    cbn [fmap list_fmap length]. rewrite <- app_assoc. cbn [app]. do 2 f_equal. lia.
Qed.

(** closing the senders *)
Lemma close_flows_ok calls : 0 <= n <= blen ss ->
  ok (for_ 0 n close_flow (ss, calls)) (fun st => st.2 = calls ++ ((fun j => Close (sys_socket sys j)) <$> seqZ 0 n)).
Proof.
  intros Hn. apply (ok_for (fun j st => blen st.1 = blen ss
      /\ (forall k, j <= k < n -> get st.1 k = Some (flow_sender cfg a b c d k))
      /\ st.2 = calls ++ ((fun j => Close (sys_socket sys j)) <$> seqZ 0 j))); [lia| | |].
  - split; [done|]. split; [intros k Hk; apply Hss; lia|]. cbn. by rewrite app_nil_r.
  - intros j [ss1 calls1] Hj (B1 & B2 & B3). cbn [fst snd] in *. unfold close_flow. ok_step.
    eapply ok_rd; [apply B2; lia|]. unfold aes67_send_close. cbn [sd_fd flow_sender].
    rewrite Z.geb_leb, (proj2 (Z.leb_le 0 _)) by (by apply Hsock). ok_step. apply ok_wr; [lia|]. ok_step. cbn [fst snd].
    split; [by rewrite blen_upd|]. split.
    + intros k Hk. rewrite get_upd by lia. rewrite decide_False by lia. apply B2. lia.
    + rewrite B3, seqZ_app, fmap_app, <- app_assoc by lia. by do 2 f_equal.
  - intros [ss1 calls1] (_ & _ & H). done.
Qed.
End Send.

(** the session's loop over the frames read *)
Lemma dante_frames_run l b0 (st : dante_state) :
  run_list dante_frame b0 l st = pipeline_run st.1 (buffered b0 l) emit_noop st.2.
Proof. exact (run_list_pipeline emit_noop l b0 st). Qed.

(** the live session comes to its end or to where it waits *)
Lemma dante_live_ends fuel : forall s pps frames c stop evs st,
  (length evs < fuel)%nat -> is_Some (dante_live fuel s pps frames c stop evs st).
Proof.
  induction fuel as [|fuel IH]; intros s pps frames c stop evs st Hf; [lia|]. cbn [dante_live].
  destruct stop; [by eexists|]. destruct (reac_capture_next _ _ _ _) as [n d stop' rest|] eqn:E; [|by eexists].
  apply next_consumes in E. destruct (Z.ltb_spec n 0); [by eexists|].
  destruct (n =? 0); [destruct (dante_announce _ _); [apply IH; lia|by eexists]|].
  match goal with |- is_Some (match ?x with Ok _ => _ | Err _ => _ end) => destruct x as [[frames' st']|e] end; [apply IH; lia|by eexists].
Qed.

(** a session ends on any source: the fuel need only exceed the file's headers and
    the results of [recv] *)
Lemma run_dante_ends fseek_ok fuel planar0 src m cfg :
  (forall bytes, src = FromPcap (Some bytes) -> bytes_ok bytes /\ Z.of_nat (length bytes) < 16 * Z.of_nat fuel) ->
  (forall socket ifindex bound flags evs, src = FromLive socket ifindex bound flags evs -> (length evs < fuel)%nat) ->
  is_Some (run_dante sys fseek_ok fuel planar0 src m cfg).
Proof.
  intros Hfile Hlive. unfold run_dante. destruct (dante_setup sys m cfg) as [[[rc|[[s fls] anchor]] calls]|e]; [by eexists| |by eexists].
  destruct (dante_announce _ _) as [st|e]; [|by eexists]. apply fmap_is_Some. unfold dante_source_run.
  destruct src as [[bytes|]|socket ifindex bound flags evs|]; [| |idtac|by eexists].
  - destruct (pcap_source_open (Some bytes)) as [r ps] eqn:E. destruct (Z.eqb_spec r 0) as [->|]; [|by eexists].
    cbn [negb]. apply fmap_is_Some. destruct (Hfile bytes eq_refl). by eapply while_next_ends.
  - by eexists.
  - destruct (reac_capture_open _ _ _) as [[r c] ?]. destruct (negb _); [by eexists|].
    destruct (reac_capture_set_nonblock _ _ _) as [? c']. destruct (idiv _ _) as [pps|e]; [|by eexists].
    apply fmap_is_Some, dante_live_ends. by eapply Hlive.
Qed.

(** ** The refused session *)

Section Refused.
Context m cfg (a b c d k : Z).
Context (HM : mode_ok m) (Hcpf : 0 < ch_per_flow cfg <= INT_MAX - 40)
  (Hsend : count_only cfg = false) (Hgm : Forall (fun x => 0 < x < 256) (gmid cfg))
  (Hgl : Z.of_nat (length (gmid cfg)) <= 1000000).
Context (Hbase : base_ip cfg = dotted a b c d) (Ha : octet a) (Hb : octet b) (Hc : octet c) (Hd : octet d).
Context (Hquad : reads_quads) (Hcalloc : forall i, sys_calloc sys i = true).
(** flow [k] is the first one that cannot be opened *)
Context (Hk : 0 <= k < flow_count (n_channels m) (ch_per_flow cfg))
  (Hgood : forall i, 0 <= i < k -> d + i <= 255 /\ 0 <= sys_socket sys i)
  (Hbad : 255 < d + k \/ sys_socket sys k < 0).

(** C37: a session whose flow [k] cannot be opened (the last octet would exceed
    255, or the kernel has no socket) ends with exit code 1 before anything is
    sent: the only system calls are the options of the flows already opened and
    the closing of exactly these, whatever the source. *)
Theorem dante_refused fseek_ok fuel planar0 src :
  exists opens, Forall is_setsockopt opens
    /\ run_dante sys fseek_ok fuel planar0 src m cfg
       = Some (Ok (Outcome 1 (opens ++ ((fun j => Close (sys_socket sys j)) <$> seqZ 0 k)) None true)).
Proof.
  pose proof HM as (HM1 & _). rewrite doc_max_channels in HM1.
  pose proof (flow_count_le (n_channels m) (ch_per_flow cfg) ltac:(lia) ltac:(lia)) as Hn.
  set (n := flow_count (n_channels m) (ch_per_flow cfg)) in *.
  destruct (open_flows_ok cfg a b c d Hbase Ha Hb Hc Hd Hquad Hcalloc (S (Z.to_nat (n - k - 1))) (Z.to_nat k) 0
    (undef REAC_MAX_CHANNELS) []) as (ss & opens & E & Ho & Hl & Hss);
    [lia|destruct (Z.eq_dec k 0); [unfold octet in *; lia|pose proof (Hgood (k - 1)); lia]
    |rewrite doc_max_channels, blen_undef; lia|intros j Hj; apply Hgood; lia|lia|].
  rewrite Z.add_0_l, Z2Nat.id in E, Hss by lia. rewrite doc_max_channels, blen_undef in Hl by lia.
  replace (Z.to_nat k + S (Z.to_nat (n - k - 1)))%nat with (Z.to_nat n) in E by lia.
  pose proof (close_flows_ok cfg a b c d k ss (fun i Hi => proj2 (Hgood i Hi)) Hss opens ltac:(lia)) as HC.
  apply ok_iff in HC as ([ss' calls] & HC & Hcalls). cbn [snd] in Hcalls. subst calls.
  exists opens. split; [done|].
  assert (ok (dante_setup sys m cfg) (fun r => r
    = (inl 1, opens ++ ((fun j => Close (sys_socket sys j)) <$> seqZ 0 k)))) as H.
  { unfold dante_setup. ok_step. apply ok_dante_build_flows;
      [lia|lia|lia|by rewrite doc_max_channels, blen_undef|fold n; rewrite doc_max_channels; lia|].
    intros fls _ _ _. fold n. rewrite (proj2 (Z.ltb_ge n 0)) by lia. ok_step. rewrite ok_gmstr; try done.
    ok_step. ok_step. unfold dante_senders. rewrite Hsend, E, app_nil_l, (open_flows_fails cfg a b c d) by (done || lia).
    rewrite HC. cbn [mbind res_bind mret res_ret]. by repeat ok_step. }
  apply ok_iff in H as (r & Hset & ->). unfold run_dante. by rewrite Hset.
Qed.
End Refused.

(** ** The session *)

Section Session.
Context m cfg (a b c d : Z) (orig : list Z).
Context (HM : mode_ok m) (Hcpf : 0 < ch_per_flow cfg <= INT_MAX - 40) (Hpt : 0 <= cfg_pt cfg < 256)
  (Hssrc : 0 <= ssrc_base cfg < 4294967296) (Hsend : count_only cfg = false) (Hsap : do_sap cfg = true).
Context (Hbase : base_ip cfg = dotted a b c d) (Ha : octet a) (Hb : octet b) (Hc : octet c) (Hd : octet d).
Context (Horig : inet_pton (cfg_origin cfg) = Some orig) {HI : InetDoc I} (Hquad : reads_quads).
Context (Hname : Forall (fun x => 0 < x < 256) (default (str "REAC") (cfg_name cfg)))
  (Horigc : Forall (fun x => 0 < x < 256) (cfg_origin cfg)) (Hgm : Forall (fun x => 0 < x < 256) (gmid cfg))
  (Hnl : Z.of_nat (length (default (str "REAC") (cfg_name cfg))) <= 1000000)
  (Hgl : Z.of_nat (length (gmid cfg)) <= 1000000).
Context (Hcalloc : forall i, sys_calloc sys i = true) (Hsock : forall i, 0 <= i -> 0 <= sys_socket sys i).

Let n : Z := flow_count (n_channels m) (ch_per_flow cfg).
Context (Hroom : d + n <= 256) (Hfit : forall i, 0 <= i < n -> Z.of_nat (length (flow_text m cfg a b c d i)) < 768).

Lemma flow_bounds : 0 < n <= 40.
Proof.
  pose proof HM as (HM1 & _). rewrite doc_max_channels in HM1.
  pose proof (flow_count_le (n_channels m) (ch_per_flow cfg) ltac:(lia) ltac:(lia)). lia.
Qed.

Definition sap_sender : aes67_sender :=
  Sender (sys_socket sys n) (Some (SockAddr [239; 255; 255; 255] (htons SAP_PORT))).

(** the setup succeeds *)
Lemma ok_dante_setup :
  ok (dante_setup sys m cfg) (fun '(r, opens) => Forall is_setsockopt opens
    /\ exists ss pkts lens fls, r = inr (Session n (Some ss) (Some sap_sender) pkts lens, fls, dante_anchor (sys_tai sys) (sample_rate m))
      /\ blen ss = 40 /\ (forall j, 0 <= j < n -> get ss j = Some (flow_sender cfg a b c d j))
      /\ announced m cfg a b c d orig n n (pkts, lens)
      /\ forall i, 0 <= i < n -> get fls i = Some (nth_flow (n_channels m) (ch_per_flow cfg) (cfg_pt cfg) (ssrc_base cfg) i)).
Proof.
  pose proof flow_bounds as Hn. pose proof HM as (HM1 & _). pose proof HM1 as HM1'. rewrite doc_max_channels in HM1'.
  unfold dante_setup. ok_step. apply ok_dante_build_flows;
    [lia|lia|lia|by rewrite blen_undef by lia|fold n; rewrite doc_max_channels; lia|].
  intros fls _ _ Hfl. fold n in Hfl |- *. rewrite (proj2 (Z.ltb_ge n 0)) by lia.
  assert (forall i, 0 <= i < n -> get fls i = Some (nth_flow (n_channels m) (ch_per_flow cfg) (cfg_pt cfg) (ssrc_base cfg) i))
    as Hfl' by (intros i Hi; by rewrite Hfl, decide_True).
  ok_step. rewrite ok_gmstr by done.
  fold (gm_string cfg). ok_step. ok_step. unfold dante_senders. rewrite Hsend. ok_step.
  destruct (open_flows_ok cfg a b c d Hbase Ha Hb Hc Hd Hquad Hcalloc 0 (Z.to_nat n) 0 (undef REAC_MAX_CHANNELS) [])
    as (ss & opens & E & Ho & Hl & Hss); [lia|lia|rewrite doc_max_channels, blen_undef; lia|intros j Hj; apply Hsock; lia|lia|].
  rewrite Nat.add_0_r in E. rewrite E. cbn [open_flows].
  ok_step. ok_step. cbn [negb]. ok_step. unfold dante_announcer. rewrite Hsend, Hsap. cbn [negb andb].
  destruct (send_open_ok Hcalloc n SAP_MCAST_ADDR_DANTE [239; 255; 255; 255] SAP_PORT (cfg_ttl cfg) (iface_egress cfg))
    as [opts ->].
  { change SAP_MCAST_ADDR_DANTE with (dotted 239 255 255 255). apply Hquad; unfold octet; lia. }
  { apply Hsock. lia. }
  cbn [Z.eqb]. ok_step.
  eapply ok_mono; [by apply (ok_build_announcements m cfg a b c d orig Hbase Ha Hb Hc Hd Horig HI Hname Horigc Hgm Hnl n ltac:(lia) Hroom fls Hfit Hfl')|].
  intros [pkts lens] HA. do 2 ok_step. split.
  - apply Forall_app. split; [done|]. by apply Forall_fmap, Forall_forall.
  - exists ss, pkts, lens, fls. split; [done|]. rewrite Hl, doc_max_channels, blen_undef by lia.
    split; [done|]. split; [intros j Hj; apply Hss; lia|]. by split.
Qed.
(** the packetizer's sender is a callback over the record *)
Lemma emit_sink_same ss planar ts k :
  dante_pcm_sink (dante_emit (Some ss) n) planar ts k = dante_pcm_sink (flow_replayed (emit_packet n ss)) planar ts k.
Proof. done. Qed.

Lemma dante_start_same planar0 ss pkts lens fls anchor calls :
  same_pl (emit_packet n ss) (@pair packetizer flow_trace) (@pair packetizer dante_world)
    (pipeline_set_pcm_sink (Some (dante_pcm_sink trace_flow)) (pipeline_anchor anchor (pipeline_init m (cfg_pt cfg) (ssrc_base cfg))))
    (dante_start_state m cfg planar0 (Session n (Some ss) (Some sap_sender) pkts lens) fls anchor calls).1.
Proof.
  unfold same_pl, dante_start_state. cbn. repeat (split; [done|]). intros planar ts k. apply sink_factors.
Qed.

(** a well-formed capture file *)
Context (fseek_ok : Z -> bool) (swap : Z) (rest : list Z) (records : list record) (fuel : nat).
Context (Hseek : forall p, fseek_ok p = true) (Hswap : swap = 0 \/ swap = 1) (Hrest : length rest = 20%nat).
Context (Hrecords : Forall rec_ok records) (Hfuel : (length records < fuel)%nat).
Context (Hbytes : Forall (fun r => bytes_ok (rec_data r)) records).

(** the loop of the session over that file *)
Lemma dante_file planar0 ss pkts lens fls anchor calls : 0 <= anchor < 4294967296 -> blen planar0 = WINDOW_BYTES ->
  (forall j, 0 <= j < n -> get ss j = Some (flow_sender cfg a b c d j)) ->
  (forall i, 0 <= i < n -> get fls i = Some (nth_flow (n_channels m) (ch_per_flow cfg) (cfg_pt cfg) (ssrc_base cfg) i)) ->
  let s := Session n (Some ss) (Some sap_sender) pkts lens in
  exists t pl,
    dante_stream_of m (cfg_pt cfg) (ssrc_base cfg) (ch_per_flow cfg) anchor (good_count (frames_of records))
      (lost_frames None (frames_of records)) pl t
    /\ (Z.of_nat (length t) <= INT_MAX -> exists pm pk',
      dante_source_run fseek_ok fuel m (FromPcap (Some (capture_file swap rest records))) s
        (dante_start_state m cfg planar0 s fls anchor calls)
      = Some (Ok (0, true, (pm, (pk', DanteWorld (Z.of_nat (length t)) (calls ++ (media_call cfg a b c d <$> t))))))).
Proof.
  intros Hanchor Hpl Hss Hfls s. pose proof flow_bounds as Hn.
  destruct (dante_stream m (cfg_pt cfg) (ssrc_base cfg) (ch_per_flow cfg) anchor planar0 fls
    (buffered (undef READ_BYTES) (rec_packet <$> seen READ_BYTES records)))
    as (pl & pk & t & Hrun & HS); try done; [lia|by apply seen_buffered|].
  destruct (accepted_buffered _ (packets_lengths records) (undef READ_BYTES) None) as [EA EL].
  rewrite EA, EL, packets_frames in HS. exists t, pl. split; [exact HS|]. intros Ht. fold n in Hrun.
  destruct (dante_replayed (emit_packet n ss) _ _ _ _ _ _ _ (DanteWorld 0 calls)
    (dante_start_same planar0 ss pkts lens fls anchor calls) Hrun) as (pm & _ & Hrun2).
  rewrite (emit_packets_ok cfg a b c d n ss (fun i Hi => Hsock i (proj1 Hi)) Hss) in Hrun2; cbn [d_count d_calls]; [|idtac|lia|lia].
  2: { intros x e He. destruct HS as (_ & _ & _ & HS). destruct (HS x e He) as (-> & _). apply Z.mod_pos_bound.
       change (flow_count (n_channels m) (ch_per_flow cfg)) with n. lia. }
  cbn [mbind res_bind mret res_ret d_count d_calls] in Hrun2. rewrite Z.add_0_l in Hrun2.
  exists pm, pk. unfold dante_source_run.
  destruct (replay_loop fseek_ok swap rest records fuel Hseek Hswap Hrest Hrecords Hfuel dante_frame
    (dante_start_state m cfg planar0 s fls anchor calls)) as (ps & ps' & -> & ->).
  change (negb (0 =? 0)) with false. cbn iota. rewrite dante_frames_run.
  subst s. cbn [dante_start_state snd s_flows]. rewrite Hrun2. done.
Qed.
Lemma anchor_range : 0 <= dante_anchor (sys_tai sys) (sample_rate m) < 4294967296.
Proof.
  unfold dante_anchor. destruct (ptp_now_tai (sys_tai sys)) as [[] [[]|]]; try lia.
  unfold tai_to_rtp_ts. apply u32_range.
Qed.

(** C1: the Dante session over a capture file, from the sockets to the exit code.
    When the sockets can be had, [run_dante] makes these system calls and no
    other: the options of the flow sockets and of the announcer; one SAP
    datagram per flow, that reads back as the announcement of that flow's own
    group address, name and clock; one datagram per packet of the stream, each
    to its flow's group, the stream being what the accepted frames and the
    concealed blocks give, gap-free from the PTP anchor on; then every socket
    is closed, and the exit code is 0.  (The packets are counted in an [int].) *)
Theorem dante_session planar0 (Hpl : blen planar0 = WINDOW_BYTES) :
  exists opens anns t pl,
    Forall is_setsockopt opens
    /\ Z.of_nat (length anns) = n
    /\ (forall i p, anns !! i = Some p -> parse_sap p
        = Some (Announcement (sap_hash (flow_text m cfg a b c d (Z.of_nat i))) orig (str "application/sdp")
                  (flow_text m cfg a b c d (Z.of_nat i))))
    /\ dante_stream_of m (cfg_pt cfg) (ssrc_base cfg) (ch_per_flow cfg) (dante_anchor (sys_tai sys) (sample_rate m))
         
         (good_count (frames_of records)) (lost_frames None (frames_of records)) pl t
    /\ (Z.of_nat (length t) <= INT_MAX ->
        run_dante sys fseek_ok fuel planar0 (FromPcap (Some (capture_file swap rest records))) m cfg
        = Some (Ok (Outcome 0
            (opens
             ++ ((fun p => Sendto (sys_socket sys n) p (SockAddr [239; 255; 255; 255] (htons SAP_PORT))) <$> anns)
             ++ (media_call cfg a b c d <$> t)
             ++ [Close (sys_socket sys n)] ++ ((fun j => Close (sys_socket sys j)) <$> seqZ 0 n)) None true))).
Proof.
  pose proof flow_bounds as Hn.
  pose proof ok_dante_setup as H. apply ok_iff in H as ([r opens] & Hset & Ho & ss & pkts & lens & fls & -> & Bss & Hss & HA & Hfls).
  set (s := Session n (Some ss) (Some sap_sender) pkts lens) in *.
  set (anchor := dante_anchor _ _) in *. pose proof anchor_range as Hanchor. fold anchor in Hanchor.
  pose proof (ok_announce_all m cfg a b c d orig n ltac:(lia) sap_sender (DanteWorld 0 opens) (pkts, lens) HA
    (Hsock n ltac:(lia)) ltac:(by eexists)) as H. cbn [fst snd] in H.
  apply ok_iff in H as (w & Hann & anns & -> & Hlen & Hanns).
  destruct (dante_file planar0 ss pkts lens fls anchor
    (opens ++ ((fun p => Sendto (sys_socket sys n) p (SockAddr [239; 255; 255; 255] (htons SAP_PORT))) <$> anns)))
    as (t & pl & HS & Hloop); [done..|].
  exists opens, anns, t, pl. do 4 (split; [done|]). intros Ht. destruct (Hloop Ht) as (pm & pk' & Hrun).
  unfold run_dante. rewrite Hset. fold s in Hrun.
  replace (dante_announce s (dante_start_state m cfg planar0 s fls anchor opens))
    with (Ok (dante_start_state m cfg planar0 s fls anchor
      (opens ++ ((fun p => Sendto (sys_socket sys n) p (SockAddr [239; 255; 255; 255] (htons SAP_PORT))) <$> anns)))).
  2: { unfold dante_announce, dante_start_state. cbn [s_sap s_pkts s_lens s_flows s]. by rewrite Hann. }
  rewrite Hrun. cbn [fmap option_fmap option_map mbind res_bind negb].
  pose proof (close_flows_ok cfg a b c d n ss (fun i Hi => Hsock i (proj1 Hi)) Hss (((opens ++ ((fun p => Sendto (sys_socket sys n) p
      (SockAddr [239; 255; 255; 255] (htons SAP_PORT))) <$> anns)) ++ (media_call cfg a b c d <$> t))
      ++ [Close (sys_socket sys n)]) ltac:(lia)) as HC.
  apply ok_iff in HC as ([ss' calls'] & HC & Hcalls). cbn in Hcalls. subst calls'.
  unfold dante_close. cbn [s_sap s_senders s_flows s d_calls].
  replace (aes67_send_close sap_sender).2 with [Close (sys_socket sys n)].
  2: { unfold aes67_send_close, sap_sender. cbn [sd_fd]. by rewrite Z.geb_leb, (proj2 (Z.leb_le 0 _)) by (apply Hsock; lia). }
  rewrite HC. cbn [mbind res_bind mret res_ret]. rewrite Hsend. by rewrite <- !app_assoc.
Qed.
End Session.
End Spec.

(** ** Witnesses *)

Lemma quad_inet_reads : reads_quads (I := quad_inet).
Proof.
  intros a b c d Ha Hb Hc Hd. cbn [inet_pton quad_inet]. rewrite <- (app_nil_r (dotted a b c d)).
  unfold octet in *. rewrite scan_quad_dotted; [|by unfold octet..|unfold INT_MAX; lia|done].
  rewrite decide_True; [done|]. repeat constructor; lia.
Qed.

Definition demo_system : system := System (fun _ => true) (fun i => 10 + i) (fun _ => None) (Some (1700000000, 0)).
Definition demo_cfg : dante_cfg :=
  DanteCfg (str "239.69.1.10") 5004 8 96 305419896 1 None (Some (str "STAGE")) (str "10.0.0.9")
    (str "00-1D-C1-FF-FE-00-00-01") 0 34 false true.

(** the capture with a gap of two packets: 20 announced and sent datagrams *)
Lemma dante_session_witness :
  exists opens anns t,
    length anns = 5%nat /\ length t = 5%nat
    /\ run_dante (L := documented_lib) demo_system (fun _ => true) 4 (undef (WINDOW_BYTES (L := documented_lib)))
         (FromPcap (Some (capture_file 1 (replicate 20 0) gap_records))) mode48 demo_cfg
       = Some (Ok (Outcome 0 (opens
            ++ ((fun p => Sendto 15 p (SockAddr [239; 255; 255; 255] (htons SAP_PORT))) <$> anns)
            ++ (media_call demo_system demo_cfg 239 69 1 10 <$> t)
            ++ [Close 15] ++ [Close 10; Close 11; Close 12; Close 13; Close 14]) None true)).
Proof.
  destruct (dante_session (L := documented_lib) (D := documented_lib_doc) demo_system mode48 demo_cfg 239 69 1 10 [10; 0; 0; 9]
    mode48_ok) with (fseek_ok := fun _ : Z => true) (swap := 1) (rest := replicate 20 0) (records := gap_records) (fuel := 4%nat)
    (planar0 := undef (A := Z) (WINDOW_BYTES (L := documented_lib))) as (opens & anns & t & pl & _ & Hl & _ & (Ht & _) & Hrun).
  { unfold INT_MAX; cbn; lia. } { cbn; lia. } { cbn; lia. } { done. } { done. } { done. }
  { unfold octet; lia. } { unfold octet; lia. } { unfold octet; lia. } { unfold octet; lia. }
  { by vm_compute. } { exact _. } { exact quad_inet_reads. }
  { apply forall_chars; by vm_compute. } { apply forall_chars; by vm_compute. } { apply forall_chars; by vm_compute. }
  { by vm_compute. } { by vm_compute. } { done. } { intros i Hi. cbn; lia. } { by vm_compute. }
  { intros i Hi. assert (0 <= i < 5) as Hi' by (revert Hi; vm_compute; done).
    assert (i = 0 \/ i = 1 \/ i = 2 \/ i = 3 \/ i = 4) as [->|[->|[->|[->| ->]]]] by lia; by vm_compute. }
  { done. } { by right. } { done. } { apply gap_records_ok. } { cbn; lia. } { apply gap_records_ok. } { done. }
  change (flow_count (n_channels mode48) (ch_per_flow demo_cfg)) with 5 in *.
  assert (good_count (L := documented_lib) (frames_of gap_records)
    + lost_frames (L := documented_lib) None (frames_of gap_records) = 4) as E by (by vm_compute).
  rewrite E in Ht. assert (length t = 5%nat) as Hl5 by (apply Nat2Z.inj; exact Ht).
  exists opens, anns, t. split; [apply Nat2Z.inj; exact Hl|]. split; [exact Hl5|].
  apply Hrun. rewrite Hl5. by vm_compute.
Defined.

(** a base address with room for three of the five flows *)
Definition crowded_cfg : dante_cfg :=
  DanteCfg (str "239.69.1.253") 5004 8 96 305419896 1 None (Some (str "STAGE")) (str "10.0.0.9")
    (str "00-1D-C1-FF-FE-00-00-01") 0 34 false true.

Lemma dante_refused_witness :
  exists opens, Forall is_setsockopt opens
    /\ run_dante (L := documented_lib) demo_system (fun _ => true) 4 (undef (WINDOW_BYTES (L := documented_lib)))
         FromNowhere mode48 crowded_cfg = Some (Ok (Outcome 1 (opens ++ [Close 10; Close 11; Close 12]) None true)).
Proof.
  apply (dante_refused (L := documented_lib) (D := documented_lib_doc) demo_system mode48 crowded_cfg 239 69 1 253 3 mode48_ok).
  { unfold INT_MAX; cbn; lia. } { done. } { apply forall_chars; by vm_compute. } { by vm_compute. } { done. }
  { unfold octet; lia. } { unfold octet; lia. } { unfold octet; lia. } { unfold octet; lia. }
  { exact quad_inet_reads. } { done. }
  { change (flow_count (n_channels mode48) (ch_per_flow crowded_cfg)) with 5. lia. }
  { intros i Hi. cbn; lia. } { by left. }
Defined.
