(* ===== verification/Cli.v ===== *)
(** main.c, [main]: the options, what they select, and the modes put together. *)

From S2P Require Import Prelude LibReac Pcm Decode MediaClock Plc Rtp Pipeline Packetizer.
From S2P Require Import PcapSource Send Sdp Sap Text Tone PtpClock Listen Ubus Replay Live Dante.
From coqutil Require Import Datatypes.RecordSetters.
Import DoubleBraceUpdate.

(** * Numbers *)

Definition hex_digit (c : Z) : option Z :=
  if is_digit c then Some (c - 48)
  else if (97 <=? c) && (c <=? 102) then Some (c - 87)
  else if (65 <=? c) && (c <=? 70) then Some (c - 55) else None.

Fixpoint hexadecimal (acc : Z) (s : list Z) : Z :=
  match s with
  | c :: s => match hex_digit c with Some d => hexadecimal (acc * 16 + d) s | None => acc end
  | [] => acc
  end.

(** an 0x before the digits *)
Definition skip_0x (s : list Z) : list Z :=
  match s with
  | 48 :: x :: c :: s' => if ((x =? 120) || (x =? 88)) && bool_decide (is_Some (hex_digit c)) then c :: s' else s
  | _ => s
  end.

(** [strtoul(s, NULL, 16)] *)
Definition strtoul16 (s : list Z) : Z :=
  let '(sg, s) := sign (skip_space s) in
  let v := hexadecimal 0 (skip_0x s) in
  if v >? 18446744073709551615 then 18446744073709551615 else u64 (sg * v).

(** [%08x] *)
Fixpoint hex_digits (n : nat) (v : Z) (acc : list Z) : list Z :=
  match n with
  | O => acc
  | S n => let d := v mod 16 in hex_digits n (v / 16) ((if d <? 10 then 48 + d else 87 + d) :: acc)
  end.
Definition hex08 (v : Z) : list Z := hex_digits 8 v [].

(** * The options *)

(** the variables of [main] the options set *)
Record options : Type := Options {
  o_pcap : option (list Z);
  o_iface : option (list Z);
  o_udp : option (list Z);
  o_name : option (list Z);
  o_origin : list Z;
  o_rate : Z;
  o_rate_auto : bool;
  o_do_dump : bool;
  o_do_count : bool;
  o_do_sdp : bool;
  o_ttl : Z;
  o_plc_xfade : Z;
  o_plc_fade : Z;
  o_do_sap : bool;
  o_gen_tone : bool;
  o_tone_freq : Z;
  o_tone_detune : Z;
  o_iface_egress : option (list Z);
  o_pt : Z;                (* uint8_t *)
  o_ssrc : Z;              (* uint32_t *)
  o_profile_dante : bool;
  o_pt_set : bool;
  o_ptp_domain : Z;
  o_ch_per_flow : Z;
  o_media_dscp : Z;
  o_aes67_base : list Z;
  o_gmid : list Z;
  o_rtp_port : Z;          (* uint16_t *)
  o_bcast_only : bool;     (* g_bcast_only *)
}.

Definition default_options : options :=
  Options None None None None (str "0.0.0.0") 48000 false false false false 1 0 0 true false 440 0 None
    97 287454020 false false 0 8 34 (str "239.69.10.0") (str "00-00-00-00-00-00-00-00") 5004 false.

(** the options that take a value *)
Definition value_options : list (list Z * (list Z -> options -> res options)) := [
  (str "--pcap", fun v o => mret o{{o_pcap := Some v}});
  (str "--listen", fun v o => mret o{{o_iface := Some v}});
  (str "--udp", fun v o => mret o{{o_udp := Some v}});
  (str "--rate", fun v o => if decide (v = str "auto") then mret o{{o_rate_auto := true}}
                            else n ← atoi v; mret o{{o_rate := n}});
  (str "--pt", fun v o => n ← atoi v; mret o{{o_pt := u8 n; o_pt_set := true}});
  (str "--ssrc", fun v o => mret o{{o_ssrc := u32 (strtoul16 v)}});
  (str "--ttl", fun v o => n ← atoi v; mret o{{o_ttl := n}});
  (str "--name", fun v o => mret o{{o_name := Some v}});
  (str "--origin", fun v o => mret o{{o_origin := v}});
  (str "--plc-xfade", fun v o => n ← atoi v; mret o{{o_plc_xfade := n}});
  (str "--plc-fade", fun v o => n ← atoi v; mret o{{o_plc_fade := n}});
  (str "--tone-freq", fun v o => n ← atoi v; mret o{{o_tone_freq := n}});
  (str "--tone-detune", fun v o => n ← atoi v; mret o{{o_tone_detune := n}});
  (str "--iface", fun v o => mret o{{o_iface_egress := Some v}});
  (str "--profile", fun v o => mret o{{o_profile_dante := bool_decide (v = str "dante")}});
  (str "--aes67-base", fun v o => mret o{{o_aes67_base := v}});
  (str "--rtp-port", fun v o => n ← atoi v; mret o{{o_rtp_port := u16 n}});
  (str "--ptp-domain", fun v o => n ← atoi v; mret o{{o_ptp_domain := n}});
  (str "--gmid", fun v o => mret o{{o_gmid := v}});
  (str "--ch-per-flow", fun v o => n ← atoi v; mret o{{o_ch_per_flow := n}});
  (str "--media-dscp", fun v o => n ← atoi v; mret o{{o_media_dscp := n}})].

(** and those that do not *)
Definition flag_options : list (list Z * (options -> options)) := [
  (str "--gen-tone", fun o => o{{o_gen_tone := true}});
  (str "--no-sap", fun o => o{{o_do_sap := false}});
  (str "--sap", fun o => o{{o_do_sap := true}});
  (str "--bcast-only", fun o => o{{o_bcast_only := true}});
  (str "--dante", fun o => o{{o_profile_dante := true}});
  (str "--dump-samples", fun o => o{{o_do_dump := true}});
  (str "--count-rtp", fun o => o{{o_do_count := true}});
  (str "--print-sdp", fun o => o{{o_do_sdp := true}})].

(** the loop over [argv]; [None] is the exit with status 2 *)
Fixpoint parse_args (args : list (list Z)) (o : options) : res (option options) :=
  match args with
  | [] => mret (Some o)
  | a :: rest =>
      match assoc a value_options, rest with
      | Some f, v :: rest => o ← f v o; parse_args rest o
      | _, _ =>
          match assoc a flag_options with
          | Some f => parse_args rest (f o)
          | None => mret None
          end
      end
  end.

(** the profile's fixed rate and default payload type *)
Definition settle_profile (o : options) : options :=
  if o_profile_dante o then
    let o := o{{o_rate := 48000}} in
    if o_pt_set o then o else o{{o_pt := 96}}
  else o.

(** --rate auto; [detected] is what [reac_detect_rate_fd] returns, [None] when the
    capture cannot be opened *)
Definition settle_rate (detected : option Z) (o : options) : options :=
  if o_rate_auto o && negb (o_profile_dante o) then
    match o_iface o, detected with
    | Some _, Some d => if d >? 0 then o{{o_rate := d}} else o
    | _, _ => o
    end
  else o.

(** * The modes *)

(** what the system around the process answers: the files, the sockets in the order
    they are opened, the capture socket, the clock, libubus, and what then arrives *)
Record surroundings : Type := Surroundings {
  w_file : list Z -> option (list Z);
  w_seek : Z -> bool;
  w_detect : option Z;
  w_sys : system;
  w_capture : Z;
  w_ifindex : option Z;
  w_bound : bool;
  w_flags : option unit;
  w_ubus : option (bool * bool * bool);
  w_recv : list recv_event;
  w_loop : list loop_event;
  w_window : buf Z;          (* the bytes the local packetizer's window holds *)
  w_turns : nat;             (* turns of the tone generator before a signal *)
  w_now : timespec;          (* CLOCK_MONOTONIC as it starts *)
}.

(** exit status, system calls of the senders, standard output, replies of the status
    object; [r_finished] is false while a live session waits *)
Record report : Type := Report {
  r_rc : Z;
  r_calls : list syscall;
  r_out : list Z;
  r_replies : list reply;
  r_finished : bool;
}.

Definition quit (rc : Z) (out : list Z) : report := Report rc [] out [] true.

(** the lines of --dump-samples *)
Definition line_text (l : line) : list Z :=
  match l with
  | Malformed k => str "frame " ++ dec k ++ str ": MALFORMED" ++ [10]
  | Samples k seq_ vs => str "frame " ++ dec k ++ str " seq " ++ dec seq_ ++ str ":" ++ flat_map (fun v => str " " ++ dec v) vs ++ [10]
  end.

Definition counts_text (total concealed : Z) : list Z :=
  str "rtp_packets " ++ dec total ++ str " concealed " ++ dec concealed ++ [10].
Definition dante_text (count flows : Z) : list Z := str "rtp_packets " ++ dec count ++ str " flows " ++ dec flows ++ [10].

(** the system calls among what the tone generator does *)
Definition syscall_of (e : tone_event) : option syscall := match e with Sys c => Some c | SleepUntil _ => None end.

Section Main.
Context {L : ReacLib} {I : InetPton} {M : Libm} (w : surroundings).
Implicit Types (o : options) (m : reac_mode).

(** --print-sdp --profile dante, from flow [i] on: the status and the text printed *)
Fixpoint print_flows (n : nat) (i : Z) m o (gmstr : list Z) (fls : buf reac_flow) (out : list Z) : res (Z * list Z) :=
  match n with
  | O => mret (0, out)
  | S n =>
      a ← flow_address (o_aes67_base o) i;
      match a with
      | None => mret (2, out)
      | Some fip =>
          k ← int (i + 1);
          nm ← formatted 64 (default (str "REAC") (o_name o) ++ str "-" ++ dec k);
          fl ← rd fls i;
          '(r, b) ← sdp_build (undef 1024) 1024
            (SdpParams nm (o_origin o) fip (o_rtp_port o) (fl_payload_type fl) (sample_rate m) (n_ch fl) (o_ttl o) 1
               (Some gmstr) 0);
          if r <? 0 then mret (1, out) else
          text ← c_string 1024 b 0;
          last ← int (ch_start fl + n_ch fl - 1);
          print_flows n (i + 1) m o gmstr fls
            (out ++ str "# flow " ++ dec i ++ str "  " ++ fip ++ str "  ch " ++ dec (ch_start fl) ++ str "-" ++ dec last ++ crlf
                 ++ text ++ crlf)
      end
  end.

Definition print_dante_sdp m o : res (Z * list Z) :=
  '(nf, fls) ← dante_build_flows (undef REAC_MAX_CHANNELS) REAC_MAX_CHANNELS (n_channels m) (o_ch_per_flow o) (o_pt o) (o_ssrc o);
  if nf <? 0 then mret (2, []) else
  gmstr ← formatted 80 (o_gmid o ++ str ":" ++ dec (o_ptp_domain o));
  print_flows (Z.to_nat nf) 0 m o gmstr fls [].

Definition print_sdp m o : res (Z * list Z) :=
  match o_udp o with
  | None => mret (2, [])
  | Some udp =>
      a ← udp_address udp;
      match a with
      | None => mret (2, [])
      | Some (ip, port) =>
          '(r, b) ← sdp_build (undef 1024) 1024
            (SdpParams (default (str "REAC") (o_name o)) (o_origin o) ip port (o_pt o) (sample_rate m) (n_channels m) (o_ttl o)
               0 None 0);
          if r <? 0 then mret (1, []) else
          text ← c_string 1024 b 0;
          mret (0, text)
      end
  end.

(** [struct dante_cfg] of the two Dante modes *)
Definition cfg_of o (count_only do_sap : bool) : dante_cfg :=
  DanteCfg (o_aes67_base o) (o_rtp_port o) (o_ch_per_flow o) (o_pt o) (o_ssrc o) (o_ttl o) (o_iface_egress o) (o_name o)
    (o_origin o) (o_gmid o) (o_ptp_domain o) (o_media_dscp o) count_only do_sap.

(** [run_dante(pcap, iface, mode, &cfg)] *)
Definition dante_mode (fuel : nat) m (pcap iface : option (list Z)) (cfg : dante_cfg) : option (res report) :=
  let src := match pcap, iface with
    | Some path, _ => FromPcap (w_file w path)
    | None, Some _ => FromLive (w_capture w) (w_ifindex w) (w_bound w) (w_flags w) (w_recv w)
    | None, None => FromNowhere
    end in
  fmap (M := option) (fmap (M := res) (fun x =>
      Report (o_rc x) (o_calls x) (match o_printed x with Some (c, n) => dante_text c n | None => [] end) [] (o_finished x)))
    (run_dante (w_sys w) (w_seek w) fuel (w_window w) src m cfg).

Definition live_cfg_of o (iface udp : list Z) : live_cfg :=
  LiveCfg iface (o_pt o) (o_ssrc o) (o_name o) (Some udp) (Some (hex08 (o_ssrc o))) (o_plc_xfade o) (o_plc_fade o) (o_ttl o)
    (o_do_sap o) (o_origin o) (o_iface_egress o) (o_bcast_only o).

(** the answers to [run_listen]: its announcer's socket is the second one opened *)
Definition live_env_of : live_env :=
  LiveEnv (w_capture w) (w_ifindex w) (w_bound w) (w_flags w) (sys_calloc (w_sys w) 1) (sys_socket (w_sys w) 1)
    (sys_ioctl (w_sys w)) (w_ubus w).

(** the sending modes of --udp, on a sender that is open *)
Definition udp_mode (fuel : nat) m o (udp ip : list Z) (port : Z) (snd : aes67_sender) (calls : list syscall)
  : option (res report) :=
  let close := (aes67_send_close snd).2 in
  if o_gen_tone o then
    match (if o_do_sap o then
             sap_announcer_start zero_announcer (sys_calloc (w_sys w) 1) (sys_socket (w_sys w) 1) (sys_ioctl (w_sys w))
               (o_name o) ip port (o_pt o) (sample_rate m) (n_channels m) (o_ttl o) (Some (o_origin o)) (o_iface_egress o)
           else mret (0, zero_announcer, [])) with
    | Err e => Some (Err e)
    | Ok (_, sap, more) =>
        fmap (M := option) (fmap (M := res) (fun x =>
            Report x.1 (calls ++ more ++ omap syscall_of x.2 ++ (sap_announcer_stop sap).2 ++ close) [] [] true))
          (run_gen_tone m snd (o_pt o) (o_ssrc o) (o_tone_freq o) (o_tone_detune o)
             (if sa_active sap then Some sap else None) (w_turns w) (w_now w))
    end
  else match o_iface o, o_pcap o with
  | Some iface, _ =>
      fmap (M := option) (fmap (M := res) (fun l =>
          Report (lo_rc l) (calls ++ lo_calls l ++ if lo_finished l then close else []) [] (lo_replies l) (lo_finished l)))
        (run_listen m snd (live_cfg_of o iface udp) live_env_of (w_loop w) (w_recv w))
  | None, Some path =>
      fmap (M := option) (fmap (M := res) (fun x => Report x.1 (x.2 ++ close) [] [] true))
        (run_pcap (w_seek w) fuel (w_file w path) m (o_pt o) (o_ssrc o) (emit_udp snd) calls)
  | None, None => Some (Ok (Report 2 (calls ++ close) [] [] true))
  end.

(** [main] once the options are settled *)
Definition dispatch (fuel : nat) o : option (res report) :=
  let m := reac_mode_for (o_rate o) in
  if o_do_sdp o then
    Some ('(rc, text) ← (if o_profile_dante o then print_dante_sdp m o else print_sdp m o); mret (quit rc text))
  else if o_do_dump o then
    match o_pcap o with
    | None => Some (mret (quit 2 []))
    | Some path =>
        fmap (M := option) (fmap (M := res) (fun ls =>
            match ls with None => quit 1 [] | Some ls => quit 0 (flat_map line_text ls) end))
          (dump_samples (w_seek w) fuel (w_file w path) m)
    end
  else if o_do_count o then
    match o_pcap o with
    | None => Some (mret (quit 2 []))
    | Some path =>
        if o_profile_dante o then dante_mode fuel m (Some path) None (cfg_of o true false) else
        fmap (M := option) (fmap (M := res) (fun x => quit x.1 (counts_text (total x.2) (c_concealed x.2))))
          (run_pcap (w_seek w) fuel (w_file w path) m (o_pt o) (o_ssrc o) emit_count (Counters 0 0))
    end
  else if o_profile_dante o then
    match o_pcap o, o_iface o with
    | None, None => Some (mret (quit 2 []))
    | pcap, iface => dante_mode fuel m pcap iface (cfg_of o false (o_do_sap o))
    end
  else
    match o_udp o with
    | None => Some (mret (quit 2 []))
    | Some udp =>
        match udp_address udp with
        | Err e => Some (Err e)
        | Ok None => Some (mret (quit 2 []))
        | Ok (Some (ip, port)) =>
            let '(r, snd, opens) := aes67_send_open (sys_calloc (w_sys w) 0) (sys_socket (w_sys w) 0) (sys_ioctl (w_sys w))
                                      ip port (o_ttl o) (o_iface_egress o) in
            if negb (r =? 0) then Some (mret (Report 1 opens [] [] true)) else
            udp_mode fuel m o udp ip port snd (opens ++ (aes67_send_set_dscp 0 snd (o_media_dscp o)).2)
        end
    end.

Definition main (fuel : nat) (args : list (list Z)) : option (res report) :=
  match parse_args args default_options with
  | Err e => Some (Err e)
  | Ok None => Some (mret (quit 2 []))
  | Ok (Some o) => dispatch fuel (settle_rate (w_detect w) (settle_profile o))
  end.
End Main.

(** * Specification *)

(** the arguments that give an option *)
Definition opt_arg (name : list Z) (x : option (list Z)) : list (list Z) :=
  match x with Some v => [name; v] | None => [] end.
Definition int_arg (name : list Z) (n : Z) : list (list Z) := [name; dec n].
Definition flag_arg (name : list Z) (b : bool) : list (list Z) := if b then [name] else [].

(** a command line for [o] *)
Definition render (o : options) : list (list Z) :=
  opt_arg (str "--pcap") (o_pcap o) ++ opt_arg (str "--listen") (o_iface o) ++ opt_arg (str "--udp") (o_udp o)
  ++ opt_arg (str "--name") (o_name o) ++ [str "--origin"; o_origin o] ++ int_arg (str "--rate") (o_rate o)
  ++ (if o_rate_auto o then [str "--rate"; str "auto"] else [])
  ++ flag_arg (str "--dump-samples") (o_do_dump o) ++ flag_arg (str "--count-rtp") (o_do_count o)
  ++ flag_arg (str "--print-sdp") (o_do_sdp o) ++ int_arg (str "--ttl") (o_ttl o)
  ++ int_arg (str "--plc-xfade") (o_plc_xfade o) ++ int_arg (str "--plc-fade") (o_plc_fade o)
  ++ [if o_do_sap o then str "--sap" else str "--no-sap"] ++ flag_arg (str "--gen-tone") (o_gen_tone o)
  ++ int_arg (str "--tone-freq") (o_tone_freq o) ++ int_arg (str "--tone-detune") (o_tone_detune o)
  ++ opt_arg (str "--iface") (o_iface_egress o) ++ (if o_pt_set o then int_arg (str "--pt") (o_pt o) else [])
  ++ [str "--ssrc"; hex08 (o_ssrc o)] ++ [str "--profile"; if o_profile_dante o then str "dante" else str "aes67"]
  ++ int_arg (str "--ptp-domain") (o_ptp_domain o) ++ int_arg (str "--ch-per-flow") (o_ch_per_flow o)
  ++ int_arg (str "--media-dscp") (o_media_dscp o) ++ [str "--aes67-base"; o_aes67_base o] ++ [str "--gmid"; o_gmid o]
  ++ int_arg (str "--rtp-port") (o_rtp_port o) ++ flag_arg (str "--bcast-only") (o_bcast_only o).

Definition int_ok (n : Z) : Prop := - INT_MAX <= n <= INT_MAX.

(** one option on a command line, with its value *)
Inductive setting : Type :=
| Pcap (v : list Z) | Iface (v : list Z) | Udp (v : list Z) | Rate (n : Z) | RateAuto
| Pt (n : Z) | Ssrc (n : Z) | Ttl (n : Z) | Name (v : list Z) | Origin (v : list Z)
| PlcXfade (n : Z) | PlcFade (n : Z) | ToneFreq (n : Z) | ToneDetune (n : Z) | IfaceEgress (v : list Z)
| Profile (v : list Z) | Aes67Base (v : list Z) | RtpPort (n : Z) | PtpDomain (n : Z) | Gmid (v : list Z)
| ChPerFlow (n : Z) | MediaDscp (n : Z)
| GenTone | NoSap | Sap | BcastOnly | DanteProfile | DumpSamples | CountRtp | PrintSdp.

(** its arguments *)
Definition setting_args (s : setting) : list (list Z) :=
  match s with
  | Pcap v => [str "--pcap"; v] | Iface v => [str "--listen"; v] | Udp v => [str "--udp"; v]
  | Rate n => [str "--rate"; dec n] | RateAuto => [str "--rate"; str "auto"]
  | Pt n => [str "--pt"; dec n] | Ssrc n => [str "--ssrc"; hex08 n] | Ttl n => [str "--ttl"; dec n]
  | Name v => [str "--name"; v] | Origin v => [str "--origin"; v]
  | PlcXfade n => [str "--plc-xfade"; dec n] | PlcFade n => [str "--plc-fade"; dec n]
  | ToneFreq n => [str "--tone-freq"; dec n] | ToneDetune n => [str "--tone-detune"; dec n]
  | IfaceEgress v => [str "--iface"; v] | Profile v => [str "--profile"; v] | Aes67Base v => [str "--aes67-base"; v]
  | RtpPort n => [str "--rtp-port"; dec n] | PtpDomain n => [str "--ptp-domain"; dec n] | Gmid v => [str "--gmid"; v]
  | ChPerFlow n => [str "--ch-per-flow"; dec n] | MediaDscp n => [str "--media-dscp"; dec n]
  | GenTone => [str "--gen-tone"] | NoSap => [str "--no-sap"] | Sap => [str "--sap"] | BcastOnly => [str "--bcast-only"]
  | DanteProfile => [str "--dante"] | DumpSamples => [str "--dump-samples"] | CountRtp => [str "--count-rtp"]
  | PrintSdp => [str "--print-sdp"]
  end.

(** the one variable it sets (--pt: two) *)
Definition assign (o : options) (s : setting) : options :=
  match s with
  | Pcap v => o{{o_pcap := Some v}} | Iface v => o{{o_iface := Some v}} | Udp v => o{{o_udp := Some v}}
  | Rate n => o{{o_rate := n}} | RateAuto => o{{o_rate_auto := true}}
  | Pt n => o{{o_pt := n mod 256; o_pt_set := true}} | Ssrc n => o{{o_ssrc := n}} | Ttl n => o{{o_ttl := n}}
  | Name v => o{{o_name := Some v}} | Origin v => o{{o_origin := v}}
  | PlcXfade n => o{{o_plc_xfade := n}} | PlcFade n => o{{o_plc_fade := n}}
  | ToneFreq n => o{{o_tone_freq := n}} | ToneDetune n => o{{o_tone_detune := n}}
  | IfaceEgress v => o{{o_iface_egress := Some v}} | Profile v => o{{o_profile_dante := bool_decide (v = str "dante")}}
  | Aes67Base v => o{{o_aes67_base := v}} | RtpPort n => o{{o_rtp_port := n mod 65536}}
  | PtpDomain n => o{{o_ptp_domain := n}} | Gmid v => o{{o_gmid := v}}
  | ChPerFlow n => o{{o_ch_per_flow := n}} | MediaDscp n => o{{o_media_dscp := n}}
  | GenTone => o{{o_gen_tone := true}} | NoSap => o{{o_do_sap := false}} | Sap => o{{o_do_sap := true}}
  | BcastOnly => o{{o_bcast_only := true}} | DanteProfile => o{{o_profile_dante := true}}
  | DumpSamples => o{{o_do_dump := true}} | CountRtp => o{{o_do_count := true}} | PrintSdp => o{{o_do_sdp := true}}
  end.

(** numbers that an [int] holds, an SSRC of 32 bits *)
Definition setting_ok (s : setting) : Prop :=
  match s with
  | Rate n | Pt n | Ttl n | PlcXfade n | PlcFade n | ToneFreq n | ToneDetune n | RtpPort n | PtpDomain n | ChPerFlow n
  | MediaDscp n => int_ok n
  | Ssrc n => 0 <= n < 4294967296
  | _ => True
  end.

(** options a command line can give *)
Definition options_ok (o : options) : Prop :=
  Forall int_ok [o_rate o; o_ttl o; o_plc_xfade o; o_plc_fade o; o_tone_freq o; o_tone_detune o; o_ptp_domain o;
                 o_ch_per_flow o; o_media_dscp o]
  /\ 0 <= o_pt o < 256 /\ (o_pt_set o = false -> o_pt o = 97)
  /\ 0 <= o_ssrc o < 4294967296 /\ 0 <= o_rtp_port o < 65536.

(** * Lemmas *)

(** ** Numbers *)

(** a minus sign before a number *)
Lemma atoi_minus s : atoi (45 :: s) = int (- (decimal 0 s).1).
Proof. reflexivity. Qed.

Lemma dec_neg n : n < 0 -> dec n = 45 :: dec (- n).
Proof. intros Hn. unfold dec. by rewrite (proj2 (Z.ltb_lt n 0)), (proj2 (Z.ltb_ge (- n) 0)) by lia. Qed.

Lemma atoi_dec_int n : int_ok n -> atoi (dec n) = Ok n.
Proof.
  unfold int_ok. intros Hn. destruct (Z.ltb_spec n 0) as [Hneg|]; [|by apply atoi_dec; lia].
  rewrite dec_neg, atoi_minus by done. destruct (head_number (- n) [] ltac:(lia) I) as [_ H]. rewrite app_nil_r in H.
  rewrite H. cbn [fst]. rewrite Z.opp_involutive. apply ok_eq, ok_int; unfold INT_MIN, INT_MAX in *; lia.
Qed.

Lemma dec_not_auto n : int_ok n -> dec n <> str "auto".
Proof.
  unfold int_ok. intros Hn E. destruct (Z.ltb_spec n 0) as [Hneg|Hp].
  - by rewrite dec_neg in E by done.
  - destruct (dec_cons n ltac:(lia)) as (c & l & Ed & Hc). rewrite E in Ed. injection Ed as <- _. lia.
Qed.

Definition hex_char (d : Z) : Z := if d <? 10 then 48 + d else 87 + d.

Lemma hex_char_digit d : 0 <= d < 16 -> hex_digit (hex_char d) = Some d /\ is_space (hex_char d) = false
  /\ hex_char d <> 45 /\ hex_char d <> 43 /\ hex_char d <> 120 /\ hex_char d <> 88.
Proof.
  intros Hd. assert (d = 0 \/ d = 1 \/ d = 2 \/ d = 3 \/ d = 4 \/ d = 5 \/ d = 6 \/ d = 7 \/ d = 8 \/ d = 9 \/ d = 10 \/ d = 11
    \/ d = 12 \/ d = 13 \/ d = 14 \/ d = 15) as H by lia.
  repeat (destruct H as [->|H]; [done|]). by subst d.
Qed.

Lemma hex_digits_cons n v acc : hex_digits (S n) v acc = hex_digits n (v / 16) (hex_char (v mod 16) :: acc).
Proof. done. Qed.

Lemma hexadecimal_digits n : forall v acc l, hexadecimal acc (hex_digits n v l) = hexadecimal (acc * 16 ^ Z.of_nat n + v mod 16 ^ Z.of_nat n) l.
Proof.
  induction n as [|n IH]; intros v acc l.
  - cbn [hex_digits Z.of_nat]. change (16 ^ 0) with 1. by rewrite Z.mod_1_r, Z.mul_1_r, Z.add_0_r.
  - rewrite hex_digits_cons, IH. pose proof (Z.mod_pos_bound v 16 ltac:(lia)) as Hm.
    cbn [hexadecimal]. destruct (hex_char_digit (v mod 16) Hm) as [-> _]. f_equal.
    rewrite Nat2Z.inj_succ, Z.pow_succ_r by lia. rewrite (Z.rem_mul_r v 16) by lia. ring.
Qed.

(** the digits of a 32-bit number *)
Lemma hex08_chars v : exists a b c d e f g h, hex08 v = hex_char <$> [a; b; c; d; e; f; g; h]
  /\ Forall (fun x => 0 <= x < 16) [a; b; c; d; e; f; g; h].
Proof.
  unfold hex08. do 8 eexists. split; [reflexivity|]. repeat (apply Forall_cons; split; [by apply Z.mod_pos_bound|]). by apply Forall_nil.
Qed.

(** the ssrc of the status object reads back as --ssrc *)
Lemma strtoul16_hex08 v : 0 <= v < 4294967296 -> strtoul16 (hex08 v) = v.
Proof.
  intros Hv. assert (hexadecimal 0 (hex08 v) = v) as E.
  { unfold hex08. rewrite hexadecimal_digits. cbn [hexadecimal]. change (16 ^ Z.of_nat 8) with 4294967296.
    rewrite Z.mod_small by done. lia. }
  assert (skip_space (hex08 v) = hex08 v /\ sign (hex08 v) = (1, hex08 v) /\ skip_0x (hex08 v) = hex08 v) as (E1 & E2 & E3).
  { destruct (hex08_chars v) as (a & b & c & d & e & f & g & h & -> & HF).
    apply Forall_cons_1 in HF as [Ha [Hb _]%Forall_cons_1]. cbn [fmap list_fmap].
    destruct (hex_char_digit a Ha) as (_ & S1 & S2 & S3 & _). destruct (hex_char_digit b Hb) as (_ & _ & _ & _ & X1 & X2).
    cbn [skip_space sign]. rewrite S1, (proj2 (Z.eqb_neq _ 45)), (proj2 (Z.eqb_neq _ 43)) by done.
    split; [done|]. split; [done|]. unfold skip_0x. rewrite (proj2 (Z.eqb_neq _ 120)), (proj2 (Z.eqb_neq _ 88)) by done.
    cbn [orb andb]. by repeat case_match. }
  unfold strtoul16. rewrite E1, E2, E3, E, Z.gtb_ltb, (proj2 (Z.ltb_ge _ v)), Z.mul_1_l by lia. apply u64_small. lia.
Qed.

(** ** The argument loop *)

Lemma parse_value name f v rest o : assoc name value_options = Some f ->
  parse_args (name :: v :: rest) o = (o ← f v o; parse_args rest o).
Proof. intros E. cbn [parse_args]. by rewrite E. Qed.

Lemma parse_str name (set : list Z -> options -> options) v rest o :
  assoc name value_options = Some (fun v o => mret (set v o)) ->
  parse_args ([name; v] ++ rest) o = parse_args rest (set v o).
Proof. intros E. cbn [app]. by rewrite (parse_value _ _ _ _ _ E). Qed.

Lemma parse_opt name (set : option (list Z) -> options -> options) x rest o :
  assoc name value_options = Some (fun v o => mret (set (Some v) o)) -> set None o = o ->
  parse_args (opt_arg name x ++ rest) o = parse_args rest (set x o).
Proof. intros E HN. destruct x as [v|]; [by apply (parse_str name (fun v => set (Some v)))|]. by rewrite HN. Qed.

Lemma parse_int name (set : Z -> options -> options) n rest o :
  assoc name value_options = Some (fun v o => n ← atoi v; mret (set n o)) -> int_ok n ->
  parse_args (int_arg name n ++ rest) o = parse_args rest (set n o).
Proof. intros E Hn. cbn [int_arg app]. rewrite (parse_value _ _ _ _ _ E). by rewrite atoi_dec_int by done. Qed.

Lemma parse_flag name (set : bool -> options -> options) b rest o :
  assoc name value_options = None -> assoc name flag_options = Some (set true) -> set false o = o ->
  parse_args (flag_arg name b ++ rest) o = parse_args rest (set b o).
Proof. intros E1 E2 HF. destruct b; [|by rewrite HF]. cbn [flag_arg app parse_args]. by rewrite E1, E2. Qed.

Lemma parse_rate n rest o : int_ok n ->
  parse_args (int_arg (str "--rate") n ++ rest) o = parse_args rest o{{o_rate := n}}.
Proof.
  intros Hn. cbn [int_arg app].
  rewrite (parse_value _ (fun (v : list Z) (o : options) => if decide (v = str "auto") then mret o{{o_rate_auto := true}}
                            else n ← atoi v; mret o{{o_rate := n}})) by done.
  rewrite decide_False by by apply dec_not_auto. by rewrite atoi_dec_int by done.
Qed.

Lemma parse_auto (b : bool) rest o : o{{o_rate_auto := false}} = o ->
  parse_args ((if b then [str "--rate"; str "auto"] else []) ++ rest) o = parse_args rest o{{o_rate_auto := b}}.
Proof. intros HF. destruct b; [done|by rewrite HF]. Qed.

Lemma parse_sap (b : bool) rest o :
  parse_args ([if b then str "--sap" else str "--no-sap"] ++ rest) o = parse_args rest o{{o_do_sap := b}}.
Proof. by destruct b. Qed.

Lemma parse_pt (b : bool) n rest o : 0 <= n < 256 -> (b = false -> o{{o_pt := n; o_pt_set := false}} = o) ->
  parse_args ((if b then int_arg (str "--pt") n else []) ++ rest) o = parse_args rest o{{o_pt := n; o_pt_set := b}}.
Proof.
  intros Hn HF. destruct b; [|by rewrite HF]. cbn [int_arg app].
  rewrite (parse_value _ (fun (v : list Z) (o : options) => n ← atoi v; mret o{{o_pt := u8 n; o_pt_set := true}})) by done.
  rewrite atoi_dec_int by (unfold int_ok, INT_MAX; lia). cbn [mbind res_bind mret res_ret]. by rewrite u8_small by done.
Qed.

Lemma parse_port n rest o : 0 <= n < 65536 ->
  parse_args (int_arg (str "--rtp-port") n ++ rest) o = parse_args rest o{{o_rtp_port := n}}.
Proof.
  intros Hn. cbn [int_arg app].
  rewrite (parse_value _ (fun (v : list Z) (o : options) => n ← atoi v; mret o{{o_rtp_port := u16 n}})) by done.
  rewrite atoi_dec_int by (unfold int_ok, INT_MAX; lia). cbn [mbind res_bind mret res_ret]. by rewrite u16_small by done.
Qed.

Lemma parse_ssrc n rest o : 0 <= n < 4294967296 ->
  parse_args ([str "--ssrc"; hex08 n] ++ rest) o = parse_args rest o{{o_ssrc := n}}.
Proof.
  intros Hn. rewrite (parse_str _ (fun (v : list Z) (o : options) => o{{o_ssrc := u32 (strtoul16 v)}})) by done.
  by rewrite strtoul16_hex08, u32_small by done.
Qed.

Lemma parse_profile (b : bool) rest o :
  parse_args ([str "--profile"; if b then str "dante" else str "aes67"] ++ rest) o = parse_args rest o{{o_profile_dante := b}}.
Proof. by destruct b. Qed.

(** one option, wherever it stands *)
Lemma parse_setting s rest o : setting_ok s -> parse_args (setting_args s ++ rest) o = parse_args rest (assign o s).
Proof.
  destruct s; cbn [setting_ok setting_args assign]; intros Hs; try done;
    try (by apply parse_rate); try (by apply parse_ssrc);
    cbn [app]; (erewrite parse_value by reflexivity); cbv beta; by rewrite atoi_dec_int by done.
Qed.

(** any number of them, in any order: each assignment after the other *)
Lemma parse_settings ss : forall rest o, Forall setting_ok ss ->
  parse_args (flat_map setting_args ss ++ rest) o = parse_args rest (foldl assign o ss).
Proof.
  induction ss as [|s ss IH]; intros rest o H; [done|]. apply Forall_cons_1 in H as [Hs H].
  cbn [flat_map foldl]. by rewrite <- app_assoc, parse_setting, IH by done.
Qed.

(** a name that takes no value is in one table only *)
Lemma option_tables_disjoint a f : assoc a value_options = Some f -> assoc a flag_options = None.
Proof.
  intros Hf. destruct (assoc a flag_options) as [g|] eqn:Hg; [|done]. exfalso.
  assert (Forall (fun k => assoc k value_options = None) flag_options.*1) as HF by (repeat constructor).
  rewrite Forall_forall in HF. apply assoc_in, HF in Hg. congruence.
Qed.

(** a command line is read from left to right *)
Lemma parse_app rest : forall n args o o', (length args <= n)%nat -> parse_args args o = Ok (Some o') ->
  parse_args (args ++ rest) o = parse_args rest o'.
Proof.
  induction n as [|n IH]; intros args o o' Hn H.
  - destruct args; [|cbn in Hn; lia]. by injection H as ->.
  - destruct args as [|a args]; [by injection H as ->|]. cbn [parse_args app length] in *.
    destruct (assoc a value_options) as [f|] eqn:Ef.
    + destruct args as [|v args]; [by rewrite (option_tables_disjoint _ _ Ef) in H|]. cbn [app].
      destruct (f v o) as [o1|e]; [|done]. cbn in H |- *. apply IH; [cbn in Hn; lia|done].
    + destruct (assoc a flag_options) as [g|] eqn:Eg.
      * assert (parse_args (args ++ rest) (g o) = parse_args rest o') as <- by (apply IH; [lia|by destruct args]).
        by destruct (args ++ rest).
      * by destruct args.
Qed.

(** what the loop refuses: an argument no table has, a value option with no value *)
Definition refused (a : list Z) (rest : list (list Z)) : Prop :=
  assoc a flag_options = None /\ (assoc a value_options = None \/ rest = []).

Lemma parse_refused a rest o : refused a rest -> parse_args (a :: rest) o = Ok None.
Proof.
  intros [E [H| ->]]; cbn [parse_args]; rewrite E; [rewrite H; by destruct rest|]. by destruct (assoc a value_options).
Qed.

(** ** Every set of options has its command line *)

Ltac parse_with lem set := rewrite (lem _ set) by (done || (unfold int_ok in *; lia)); cbn beta.

Lemma parse_args_render o : options_ok o -> parse_args (render o) default_options = Ok (Some o).
Proof.
  intros (HF & Hpt & Hset & Hs & Hport). repeat (apply Forall_cons_1 in HF as [? HF]).
  destruct o as [pcap iface udp nm origin rate auto dump count sdp ttl xf fade sap gen freq det eg pt ssrc dante pset dom cpf
    dscp base gm port bc]. cbn in *. unfold render, default_options.
  cbn [o_pcap o_iface o_udp o_name o_origin o_rate o_rate_auto o_do_dump o_do_count o_do_sdp o_ttl o_plc_xfade o_plc_fade o_do_sap o_gen_tone o_tone_freq o_tone_detune o_iface_egress o_pt o_ssrc o_profile_dante o_pt_set o_ptp_domain o_ch_per_flow o_media_dscp o_aes67_base o_gmid o_rtp_port o_bcast_only].
  parse_with parse_opt (fun x o => o{{o_pcap := x}}).
  parse_with parse_opt (fun x o => o{{o_iface := x}}).
  parse_with parse_opt (fun x o => o{{o_udp := x}}).
  parse_with parse_opt (fun x o => o{{o_name := x}}).
  parse_with parse_str (fun x o => o{{o_origin := x}}).
  rewrite parse_rate, parse_auto by done.
  parse_with parse_flag (fun x o => o{{o_do_dump := x}}).
  parse_with parse_flag (fun x o => o{{o_do_count := x}}).
  parse_with parse_flag (fun x o => o{{o_do_sdp := x}}).
  parse_with parse_int (fun x o => o{{o_ttl := x}}).
  parse_with parse_int (fun x o => o{{o_plc_xfade := x}}).
  parse_with parse_int (fun x o => o{{o_plc_fade := x}}).
  rewrite parse_sap.
  parse_with parse_flag (fun x o => o{{o_gen_tone := x}}).
  parse_with parse_int (fun x o => o{{o_tone_freq := x}}).
  parse_with parse_int (fun x o => o{{o_tone_detune := x}}).
  parse_with parse_opt (fun x o => o{{o_iface_egress := x}}).
  rewrite parse_pt by (done || (intros ->; by rewrite Hset)). rewrite parse_ssrc, parse_profile by done.
  parse_with parse_int (fun x o => o{{o_ptp_domain := x}}).
  parse_with parse_int (fun x o => o{{o_ch_per_flow := x}}).
  parse_with parse_int (fun x o => o{{o_media_dscp := x}}).
  parse_with parse_str (fun x o => o{{o_aes67_base := x}}).
  parse_with parse_str (fun x o => o{{o_gmid := x}}).
  rewrite parse_port by done.
  assert (forall b o, o{{o_bcast_only := false}} = o -> parse_args (flag_arg (str "--bcast-only") b) o = Ok (Some o{{o_bcast_only := b}})) as ->; [|done..].
  intros b o1 Hb. destruct b; [done|]. change (mret (M := res) (Some o1) = mret (Some o1{{o_bcast_only := false}})). by rewrite Hb.
Qed.

(** ** What main makes of them *)

(** ** The variables hold values of their C types *)

Definition freq_ok (o : options) : Prop := INT_MIN <= o_tone_freq o <= INT_MAX.
Definition options_typed (o : options) : Prop := freq_ok o /\ 0 <= o_pt o < 256 /\ 0 <= o_ssrc o < 4294967296.

Lemma atoi_range s n : atoi s = Ok n -> INT_MIN <= n <= INT_MAX.
Proof. unfold atoi. destruct (sign _) as [sg s']. intros H. by apply int_inv in H as [-> ?]. Qed.

Lemma assoc_forall {A} (P : A -> Prop) a (l : list (list Z * A)) x : Forall (fun e => P e.2) l -> assoc a l = Some x -> P x.
Proof.
  intros H. induction H as [|[k y] l Hy H IH]; [done|]. cbn [assoc]. case_decide; [by intros [= <-]|done].
Qed.

Lemma value_options_typed : Forall (fun e => forall v o o', options_typed o -> e.2 v o = Ok o' -> options_typed o') value_options.
Proof.
  unfold value_options, options_typed, freq_ok.
  repeat (apply Forall_cons; split; [intros v o o' (H1 & H2 & H3) E; cbn [snd] in E|]); [..|by apply Forall_nil];
    try (by injection E as <-); try case_decide; try (by injection E as <-);
    try (destruct (atoi v) as [n|] eqn:En; [|done]; apply atoi_range in En; by injection E as <-).
  - destruct (atoi v) as [n|]; [|done]. injection E as <-. split; [done|]. split; [apply u8_range|done].
  - injection E as <-. split; [done|]. split; [done|apply u32_range].
Qed.

Lemma flag_options_typed : Forall (fun e => forall o, options_typed o -> options_typed (e.2 o)) flag_options.
Proof. unfold flag_options. by repeat (apply Forall_cons; split; [intros o H; exact H|]). Qed.

Lemma parse_typed n : forall args o o', (length args <= n)%nat -> options_typed o -> parse_args args o = Ok (Some o') ->
  options_typed o'.
Proof.
  induction n as [|n IH]; intros [|a rest] o o' Hn Ho; cbn [length] in Hn; try lia; try (by intros [= <-]).
  cbn [parse_args]. pose proof (assoc_forall (fun f => forall o, options_typed o -> options_typed (f o)) a flag_options) as HF.
  destruct (assoc a value_options) as [f|] eqn:Ef; [destruct rest as [|v rest]|].
  2: { destruct (f v o) as [o1|] eqn:E1; [|done]. cbn [mbind res_bind]. apply IH; [cbn in Hn; lia|].
       by eapply (assoc_forall (fun f => forall v o o', options_typed o -> f v o = Ok o' -> options_typed o'));
         [exact value_options_typed|exact Ef|exact Ho|]. }
  all: destruct (assoc a flag_options) as [g|] eqn:Eg; [|done]; apply IH; [cbn in *; lia|];
    by apply (HF g flag_options_typed eq_refl).
Qed.

(** whatever the command line *)
Lemma main_typed args o : parse_args args default_options = Ok (Some o) -> options_typed o.
Proof. apply (parse_typed _ _ _ _ (le_n _)). unfold options_typed, freq_ok, INT_MIN, INT_MAX; cbn. lia. Qed.

Section MainLemmas.
Context {L : ReacLib} {I : InetPton} {M : Libm} (w : surroundings).

Lemma main_render fuel o : options_ok o ->
  main w fuel (render o) = dispatch w fuel (settle_rate (w_detect w) (settle_profile o)).
Proof. intros Ho. unfold main. by rewrite parse_args_render. Qed.

(** the mode of --count-rtp, and of --print-sdp in the Dante profile *)
Lemma dispatch_count fuel o path : o_do_sdp o = false -> o_do_dump o = false -> o_do_count o = true ->
  o_pcap o = Some path -> o_profile_dante o = false ->
  dispatch w fuel o = fmap (M := option) (fmap (M := res) (fun x => quit x.1 (counts_text (total x.2) (c_concealed x.2))))
    (run_pcap (w_seek w) fuel (w_file w path) (reac_mode_for (o_rate o)) (o_pt o) (o_ssrc o) emit_count (Counters 0 0)).
Proof. intros H1 H2 H3 H4 H5. unfold dispatch. by rewrite H1, H2, H3, H4, H5. Qed.

Lemma dispatch_print_sdp fuel o : o_do_sdp o = true -> o_profile_dante o = false ->
  dispatch w fuel o = Some ('(rc, text) ← print_sdp (reac_mode_for (o_rate o)) o; mret (quit rc text)).
Proof. intros H1 H2. unfold dispatch. by rewrite H1, H2. Qed.

Lemma dispatch_print_dante fuel o : o_do_sdp o = true -> o_profile_dante o = true ->
  dispatch w fuel o = Some ('(rc, text) ← print_dante_sdp (reac_mode_for (o_rate o)) o; mret (quit rc text)).
Proof. intros H1 H2. unfold dispatch. by rewrite H1, H2. Qed.

(** the settled options differ in the rate and, for Dante, the payload type *)
Lemma settled_plain o : o_profile_dante o = false ->
  exists rate, settle_rate (w_detect w) (settle_profile o) = o{{o_rate := rate}}
    /\ (o_rate_auto o = false -> rate = o_rate o).
Proof.
  intros Hd. unfold settle_profile. rewrite Hd. unfold settle_rate. rewrite Hd. cbn [negb]. rewrite andb_true_r.
  assert (o = o{{o_rate := o_rate o}}) as E by (by destruct o).
  destruct (o_rate_auto o); [|by exists (o_rate o)].
  destruct (o_iface o), (w_detect w) as [d|]; try (by exists (o_rate o)).
  destruct (d >? 0); [by exists d|by exists (o_rate o)].
Qed.

Lemma settled_dante o : o_profile_dante o = true ->
  settle_rate (w_detect w) (settle_profile o) = o{{o_rate := 48000; o_pt := if o_pt_set o then o_pt o else 96}}.
Proof.
  intros Hd. unfold settle_profile. rewrite Hd. unfold settle_rate. cbn.
  destruct o; cbn in *; subst. destruct o_pt_set0; cbn; by rewrite andb_false_r.
Qed.

(** ** Every mode ends *)

Context (fuel : nat)
  (Hfiles : forall path bytes, w_file w path = Some bytes -> bytes_ok bytes /\ Z.of_nat (length bytes) < 16 * Z.of_nat fuel)
  (Hrecv : (length (w_recv w) < fuel)%nat).
Context {D : ReacDoc L}.

Lemma dante_mode_ends m pcap iface cfg : is_Some (dante_mode w fuel m pcap iface cfg).
Proof.
  apply fmap_is_Some, run_dante_ends; destruct pcap as [path|], iface as [?|]; intros; simplify_eq; try done.
  all: by eapply Hfiles.
Qed.

Lemma run_pcap_ends {W} path m pt ssrc (emit : pipeline_emit_fn W) (w0 : W) :
  is_Some (run_pcap (w_seek w) fuel (w_file w path) m pt ssrc emit w0).
Proof.
  unfold run_pcap. destruct (w_file w path) as [bytes|] eqn:E; [|by eexists]. destruct (Hfiles path bytes E) as [HB Hl].
  destruct (pcap_source_open (Some bytes)) as [r ps] eqn:Eo. destruct (Z.eqb_spec r 0) as [->|]; [|by eexists].
  cbn [negb]. apply fmap_is_Some. by eapply while_next_ends.
Qed.

Lemma dump_samples_ends path m : is_Some (dump_samples (w_seek w) fuel (w_file w path) m).
Proof.
  unfold dump_samples. destruct (w_file w path) as [bytes|] eqn:E; [|by eexists]. destruct (Hfiles path bytes E) as [HB Hl].
  destruct (pcap_source_open (Some bytes)) as [r ps] eqn:Eo. destruct (Z.eqb_spec r 0) as [->|]; [|by eexists].
  cbn [negb]. apply fmap_is_Some. by eapply while_next_ends.
Qed.

Lemma run_listen_ends m snd cfg env evs rs : is_Some (run_listen m snd cfg env evs rs).
Proof.
  unfold run_listen. destruct (reac_capture_open _ _ _) as [[r c] ?]. destruct (negb _); [by eexists|].
  destruct (live_sap _ _ _) as [[sa calls]|e]; [|by eexists].
  destruct (reac_capture_set_nonblock _ _ _) as [? c1]. destruct (ubus_stats_run _ _ _ _ _ _) as [[r1 ll]|e]; [|by eexists].
  destruct (negb _).
  - destruct (reac_capture_set_nonblock _ _ _) as [? c2]. apply fmap_is_Some, listen_loop_ends. lia.
  - by destruct (ls_ctx ll) as [[? ?] ?].
Qed.

Lemma udp_mode_ends m o udp ip port snd calls : freq_ok o -> 0 < sample_rate m <= INT_MAX -> 0 < samples_per_pkt m <= 24 ->
  is_Some (udp_mode w fuel m o udp ip port snd calls).
Proof.
  intros Hf Hr Hs. unfold udp_mode. destruct (o_gen_tone o).
  { destruct (if o_do_sap o then _ else _) as [[[r sap] more]|e]; [|by eexists]. by apply fmap_is_Some, run_gen_tone_ends. }
  destruct (o_iface o); [apply fmap_is_Some, run_listen_ends|]. destruct (o_pcap o); [|by eexists].
  apply fmap_is_Some, run_pcap_ends.
Qed.

Lemma dispatch_ends o : freq_ok o -> is_Some (dispatch w fuel o).
Proof.
  intros Hf. unfold dispatch. destruct (o_do_sdp o); [by eexists|]. destruct (o_do_dump o).
  { destruct (o_pcap o); [|by eexists]. apply fmap_is_Some, dump_samples_ends. }
  destruct (o_do_count o).
  { destruct (o_pcap o); [|by eexists]. destruct (o_profile_dante o); [apply dante_mode_ends|]. apply fmap_is_Some, run_pcap_ends. }
  destruct (o_profile_dante o); [destruct (o_pcap o), (o_iface o); (by eexists) || apply dante_mode_ends|].
  destruct (o_udp o) as [udp|]; [|by eexists]. destruct (udp_address udp) as [[[ip port]|]|e]; [|by eexists..].
  destruct (aes67_send_open _ _ _ _ _ _ _) as [[r snd] opens]. destruct (negb _); [by eexists|].
  pose proof (doc_mode_rate (o_rate o)). apply udp_mode_ends; [done|unfold INT_MAX; lia|by rewrite doc_mode_samples].
Qed.

(** settling keeps the frequency *)
Lemma settled_freq o : freq_ok o -> freq_ok (settle_rate (w_detect w) (settle_profile o)).
Proof.
  unfold freq_ok. intros H. destruct (o_profile_dante o) eqn:E; [by rewrite settled_dante|].
  by destruct (settled_plain o E) as (rate & -> & _).
Qed.
End MainLemmas.

(** what --print-sdp prints of flow [i] *)
Definition flow_listing `{L : ReacLib} m o (a b c d i : Z) : list Z :=
  let fl := nth_flow (n_channels m) (o_ch_per_flow o) (o_pt o) (o_ssrc o) i in
  str "# flow " ++ dec i ++ str "  " ++ dotted a b c (d + i) ++ str "  ch " ++ dec (ch_start fl)
  ++ str "-" ++ dec (ch_start fl + n_ch fl - 1) ++ crlf ++ flow_text m (cfg_of o false (o_do_sap o)) a b c d i ++ crlf.

Section PrintFlows.
Context {L : ReacLib} {D : ReacDoc L} (m : reac_mode) (o : options) (a b c d : Z).
Context (HM : mode_ok m) (Hcpf : 0 < o_ch_per_flow o <= INT_MAX - 40).
Context (Hbase : o_aes67_base o = dotted a b c d) (Ha : octet a) (Hb : octet b) (Hc : octet c) (Hd : octet d).
Context (Hname : Forall (fun x => 0 < x < 256) (default (str "REAC") (o_name o)))
  (Horig : Forall (fun x => 0 < x < 256) (o_origin o)) (Hgm : Forall (fun x => 0 < x < 256) (o_gmid o))
  (Hnl : Z.of_nat (length (default (str "REAC") (o_name o))) <= 1000000) (Hgl : Z.of_nat (length (o_gmid o)) <= 1000000).

Let n : Z := flow_count (n_channels m) (o_ch_per_flow o).
Let cfg : dante_cfg := cfg_of o false (o_do_sap o).
Context (Hroom : d + n <= 256) (Hfit : forall i, 0 <= i < n -> Z.of_nat (length (flow_text m cfg a b c d i)) < 1024).

Lemma ok_print_flows fls : (forall i, 0 <= i < n -> get fls i = Some (nth_flow (n_channels m) (o_ch_per_flow o) (o_pt o) (o_ssrc o) i)) ->
  0 <= n <= 40 -> forall k i out, 0 <= i -> i + Z.of_nat k <= n ->
  ok (print_flows k i m o (gm_string cfg) fls out) (fun r => r = (0, out ++ flat_map (flow_listing m o a b c d) (seqZ i (Z.of_nat k)))).
Proof.
  intros Hfls Hn. unfold octet in *. induction k as [|k IH]; intros i out Hi Hk.
  { cbn [print_flows]. ok_step. by rewrite app_nil_r. }
  cbn [print_flows]. rewrite Hbase, flow_address_ok, (proj2 (Z.leb_le (d + i) 255)) by (unfold octet, INT_MAX; lia).
  do 4 ok_step. pose proof (ok_flow_name cfg i ltac:(lia) Hname Hnl) as E. cbn [cfg_name cfg cfg_of] in E. rewrite E.
  do 3 ok_step. eapply ok_rd; [apply Hfls; lia|]. pose proof (Hfit i ltac:(lia)) as Hf.
  set (fl := nth_flow _ _ _ _ i). set (sp := SdpParams _ _ _ _ _ _ _ _ _ _ _).
  assert (sdp_text sp = flow_text m cfg a b c d i) as Et by done.
  assert (Forall (fun x => 0 < x < 256) (flow_text m cfg a b c d i)) as HC by by apply flow_text_chars.
  ok_step. apply ok_sdp_build; rewrite ?Et; [rewrite blen_undef; lia|lia|unfold INT_MAX; lia| |lia].
  intros _ sdp Hl [S1 S2]. rewrite (proj2 (Z.ltb_ge _ 0)) by lia.
  ok_step. assert (c_string 1024 sdp 0 = Ok (flow_text m cfg a b c d i)) as ->.
  { apply ok_c_string; [done|done|eapply Forall_impl; [exact HC|]; cbn; lia|lia]. }
  do 2 ok_step. pose proof HM as (HM1 & _). rewrite doc_max_channels in HM1.
  pose proof (flow_count_spec (n_channels m) (o_ch_per_flow o) ltac:(lia) ltac:(lia)) as (_ & Hs & _). fold n in Hs.
  assert (0 <= i * o_ch_per_flow o <= (n - 1) * o_ch_per_flow o) as Hic by nia.
  apply ok_int; [cbn; unfold INT_MIN, INT_MAX; lia..|].
  eapply ok_mono; [apply (IH (i + 1)); lia|]. intros r ->.
  rewrite Nat2Z.inj_succ, (seqZ_cons i), Z.pred_succ by lia. rewrite <- (Z.add_1_r i). cbn [flat_map].
  by rewrite <- (app_assoc out).
Qed.

Lemma ok_print_dante : ok (print_dante_sdp m o) (fun r => r = (0, flat_map (flow_listing m o a b c d) (seqZ 0 n))).
Proof.
  pose proof HM as (HM1 & _). rewrite doc_max_channels in HM1.
  pose proof (flow_count_le (n_channels m) (o_ch_per_flow o) ltac:(lia) ltac:(lia)) as Hn. fold n in Hn.
  unfold print_dante_sdp. ok_step. apply ok_dante_build_flows;
    [lia|lia|lia|by rewrite doc_max_channels, blen_undef|fold n; rewrite doc_max_channels; lia|].
  intros fls _ _ Hfl. fold n in Hfl |- *. rewrite (proj2 (Z.ltb_ge n 0)) by lia.
  pose proof (ok_gmstr cfg Hgm Hgl) as E. cbn [gmid ptp_domain cfg cfg_of] in E.
  ok_step. rewrite E. ok_step.
  pose proof (ok_print_flows fls) as H. unfold gm_string in H. cbn [gmid ptp_domain cfg cfg_of] in H.
  replace (seqZ 0 n) with (seqZ 0 (Z.of_nat (Z.to_nat n))) by (f_equal; lia).
  apply (H ltac:(intros i Hi; by rewrite Hfl, decide_True) ltac:(lia) (Z.to_nat n) 0 []); lia.
Qed.
End PrintFlows.

(** the Dante options with their fixed rate and default payload type *)
Definition dante_options o : options := o{{o_rate := 48000; o_pt := if o_pt_set o then o_pt o else 96}}.

(** * Properties *)

Section Properties.
Context {L : ReacLib} {D : ReacDoc L} {I : InetPton} {M : Libm} (w : surroundings) (fuel : nat) (o : options) (Ho : options_ok o).

(** C25: the command line is read back.  On a command line of any of the 29 options,
    repeated and ordered at will, with any values (numbers of either sign that an [int]
    holds, an SSRC of up to eight hexadecimal digits), [main] ends up with exactly the
    assignments of its options made one after the other, from whatever it started with:
    each option that takes a value and each that does not (--dante as well as
    --profile) sets its own variable and no other.  And every set of options in range
    has a command line, which gives these options from the defaults. *)
Theorem parse_render :
  (forall ss o0, Forall setting_ok ss -> parse_args (flat_map setting_args ss) o0 = Ok (Some (foldl assign o0 ss)))
  /\ parse_args (render o) default_options = Ok (Some o).
Proof.
  split; [|by apply parse_args_render]. intros ss o0 H.
  rewrite <- (app_nil_r (flat_map _ _)). by rewrite parse_settings by done.
Qed.

(** C24: the program comes to an end in every mode but the endless ones.  Whatever
    the command line, whatever the captures hold (any bytes at all) and however
    seeking fails, [main] gives a result, within as many turns of its loops as the
    files have 16-byte headers and the capture socket has results to give: it
    ends, waits for more packets, or meets an undefined operation; no input keeps
    a loop busy for ever, the phase loop of the tone generator included, whatever
    the frequency. *)
Theorem main_terminates args
  (Hfiles : forall path bytes, w_file w path = Some bytes -> bytes_ok bytes /\ Z.of_nat (length bytes) < 16 * Z.of_nat fuel)
  (Hrecv : (length (w_recv w) < fuel)%nat) : is_Some (main w fuel args).
Proof.
  unfold main. destruct (parse_args _ _) as [[o1|]|e] eqn:E; [|by eexists..]. apply dispatch_ends; [done|done|done|].
  apply settled_freq. by apply main_typed in E as [? _].
Qed.

(** C36: what cannot be read ends the program.  When the command line goes on
    after well-formed arguments with one that no option has, or ends in an option
    that misses its value, the exit status is 2 and nothing was opened, sent or
    printed on standard output, whatever came before or comes after. *)
Theorem main_rejects pre a rest o1 (Hpre : parse_args pre default_options = Ok (Some o1)) (Ha : refused a rest) :
  main w fuel (pre ++ a :: rest) = Some (Ok (quit 2 [])).
Proof. unfold main. by rewrite (parse_app _ _ _ _ _ (le_n _) Hpre), parse_refused. Qed.

(** C26: --count-rtp from the command line to the text.  On every command line that
    [main] reads, however written, that has --count-rtp and a --pcap, stays outside the
    Dante profile, and has neither --print-sdp nor --dump-samples, which [main] asks
    about first: over any well-formed capture file the exit status is 0 and the line
    printed gives the exact numbers.  The real packets are the accepted frames, the
    concealed ones those the frame counters show missing between two of them; none of
    the remaining options has a say in it. *)
Theorem main_count_rtp args path swap rest records
  (Hargs : parse_args args default_options = Ok (Some o))
  (Hpcap : o_pcap o = Some path) (Hcount : o_do_count o = true) (Hsdp : o_do_sdp o = false) (Hdump : o_do_dump o = false)
  (Hprofile : o_profile_dante o = false) (Hfile : w_file w path = Some (capture_file swap rest records))
  (Hseek : forall p, w_seek w p = true) (Hswap : swap = 0 \/ swap = 1) (Hrest : length rest = 20%nat)
  (Hrecords : Forall rec_ok records) (Hfuel : (length records < fuel)%nat)
  (Hbytes : Forall (fun r => bytes_ok (rec_data r)) records)
  (lost := lost_frames None (frames_of records)) (total_ := good_count (frames_of records) + lost)
  (Hfit : total_ <= INT_MAX) :
  main w fuel args
  = Some (Ok (quit 0 (str "rtp_packets " ++ dec total_ ++ str " concealed " ++ dec lost ++ [10]))).
Proof.
  unfold main. rewrite Hargs. destruct (settled_plain w o Hprofile) as (rate & -> & _).
  apply main_typed in Hargs as (_ & Hpt & Hssrc).
  rewrite (dispatch_count _ _ _ path) by done. rewrite Hfile.
  rewrite (proj1 (run_pcap_counts (w_seek w) swap rest records fuel Hseek Hswap Hrest Hrecords Hfuel Hbytes
    _ _ _ (reac_mode_for_ok _) Hpt Hssrc Hfit)). done.
Qed.

(** --print-sdp prints the description of the stream --udp names, at the
    rate given, with status 0, when it fits the 1024 bytes of the buffer; a
    longer one is not printed and gives status 1. *)
Theorem main_print_sdp host port
  (Hsdp : o_do_sdp o = true) (Hprofile : o_profile_dante o = false) (Hauto : o_rate_auto o = false)
  (Hudp : o_udp o = Some (host ++ 58 :: dec port)) (Hhost : host <> []) (Hlen : Z.of_nat (length host) < 64)
  (Hport : 0 < port < 65536) (Hhostc : Forall (fun x => 0 < x < 256) host)
  (Hname : Forall (fun x => 0 < x < 256) (default (str "REAC") (o_name o)))
  (Horig : Forall (fun x => 0 < x < 256) (o_origin o))
  (m := reac_mode_for (o_rate o))
  (text := sdp_text (SdpParams (default (str "REAC") (o_name o)) (o_origin o) host port (o_pt o) (sample_rate m)
                       (n_channels m) (o_ttl o) 0 None 0))
  (Hmax : Z.of_nat (length text) <= INT_MAX) :
  main w fuel (render o)
  = Some (Ok (if decide (Z.of_nat (length text) < 1024) then quit 0 text else quit 1 [])).
Proof.
  rewrite main_render by done. destruct (settled_plain w o Hprofile) as (rate & -> & Hr). rewrite (Hr Hauto). clear Hr.
  rewrite dispatch_print_sdp by done. change (reac_mode_for _) with m.
  assert (ok (print_sdp m o{{o_rate := o_rate o}}) (fun r =>
    r = if decide (Z.of_nat (length text) < 1024) then (0, text) else (1, []))) as H.
  { unfold print_sdp. change (o_udp _) with (o_udp o). rewrite Hudp.
    rewrite udp_address_host by (done || (eapply Forall_impl; [exact Hhostc|]; cbn; lia)). do 2 ok_step.
    ok_step. apply ok_sdp_build; fold m; [rewrite blen_undef; lia|lia|exact Hmax| |].
    - change (sdp_text _) with text. intros Hl out _ [C1 C2]. rewrite (proj2 (Z.ltb_ge _ 0)), decide_True by lia.
      ok_step. assert (c_string 1024 out 0 = Ok text) as ->; [|by repeat ok_step].
      apply ok_c_string; [done|done| |lia]. eapply Forall_impl; [by apply (sdp_text_chars (SdpParams _ _ _ _ _ _ _ _ _ _ _)); try done; constructor|]. cbn. lia.
    - change (sdp_text _) with text. intros Hl out _. rewrite decide_False by lia. change (-1 <? 0) with true. cbn iota. by ok_step. }
  apply ok_iff in H as (r & -> & ->). by destruct (decide _).
Qed.

(** C27: --print-sdp of the Dante profile prints what the session announces: for
    each flow of the partition of the channels, in order, its number, group and
    channels, then the very text of the session's SAP announcement, name, address,
    channel count and clock included (the rate is 48000, the
    payload type 96 unless --pt was given). *)
Theorem main_print_dante a b c d (m := reac_mode_for 48000) (n := flow_count (n_channels m) (o_ch_per_flow o))
  (Hsdp : o_do_sdp o = true) (Hprofile : o_profile_dante o = true) (Hcpf : 0 < o_ch_per_flow o <= INT_MAX - 40)
  (Hbase : o_aes67_base o = dotted a b c d) (Ha : octet a) (Hb : octet b) (Hc : octet c) (Hd : octet d)
  (Hname : Forall (fun x => 0 < x < 256) (default (str "REAC") (o_name o)))
  (Horig : Forall (fun x => 0 < x < 256) (o_origin o)) (Hgm : Forall (fun x => 0 < x < 256) (o_gmid o))
  (Hnl : Z.of_nat (length (default (str "REAC") (o_name o))) <= 1000000) (Hgl : Z.of_nat (length (o_gmid o)) <= 1000000)
  (Hroom : d + n <= 256)
  (Hfit : forall i, 0 <= i < n ->
     Z.of_nat (length (flow_text m (cfg_of (dante_options o) false (o_do_sap o)) a b c d i)) < 1024) :
  main w fuel (render o) = Some (Ok (quit 0 (flat_map (flow_listing m (dante_options o) a b c d) (seqZ 0 n)))).
Proof.
  rewrite main_render, settled_dante by done. rewrite dispatch_print_dante by done. fold (dante_options o).
  change (reac_mode_for (o_rate (dante_options o))) with m.
  pose proof (ok_print_dante m (dante_options o) a b c d (reac_mode_for_ok _) Hcpf Hbase Ha Hb Hc Hd Hname Horig Hgm Hnl Hgl
    Hroom Hfit) as H. apply ok_iff in H as (r & -> & ->). done.
Qed.
End Properties.

(** ** Witnesses *)

(** a line with most options given, numbers of both signs and an SSRC in hexadecimal *)
Definition demo_options : options :=
  default_options{{o_pcap := Some (str "stage.pcap"); o_udp := Some (str "239.69.1.2:5004"); o_name := Some (str "STAGE");
    o_rate := 96000; o_do_count := true; o_ttl := -3; o_do_sap := false; o_pt := 98; o_pt_set := true; o_ssrc := 3735928559;
    o_rtp_port := 5006; o_bcast_only := true}}.

Lemma demo_options_ok : options_ok demo_options.
Proof.
  split; [|split; [by vm_compute|split; [by intros ?|by vm_compute]]].
  repeat (apply Forall_cons; split; [by vm_compute|]). by apply Forall_nil.
Qed.

(** a machine with one capture file and no network *)
Definition demo_surroundings : surroundings :=
  Surroundings (fun _ => Some (capture_file 1 (replicate 20 0) gap_records)) (fun _ => true) None demo_system (-1) None false
    None None [] [] (undef 0) 0 (Timespec 0 0).

Lemma parse_render_witness :
  parse_args (render demo_options) default_options = Ok (Some demo_options)
  /\ In (str "deadbeef") (render demo_options)
  /\ parse_args [str "--dante"; str "--ttl"; str "-3"; str "--pt"; str "353"; str "--ttl"; str "7"] default_options
     = Ok (Some default_options{{o_profile_dante := true; o_ttl := 7; o_pt := 97; o_pt_set := true}}).
Proof.
  split; [exact (proj2 (parse_render demo_options demo_options_ok))|].
  split; [cbn; repeat (first [left; reflexivity | right])|].
  apply (proj1 (parse_render demo_options demo_options_ok) [DanteProfile; Ttl (-3); Pt 353; Ttl 7]).
  repeat (apply Forall_cons; split; [by vm_compute|]). by apply Forall_nil.
Defined.

(** a known option, then one that misses its value *)
Lemma main_rejects_witness :
  main (L := documented_lib) (I := quad_inet) (M := square_sine) demo_surroundings 4 [str "--ttl"; str "5"; str "--dante"; str "--pcap"]
  = Some (Ok (quit 2 [])).
Proof.
  apply (main_rejects (L := documented_lib) (I := quad_inet) (M := square_sine) demo_surroundings 4 [str "--ttl"; str "5"; str "--dante"] (str "--pcap") []
    (default_options{{o_ttl := 5; o_profile_dante := true}})); [reflexivity|]. split; [reflexivity|by right].
Defined.

(** a capture of 80 damaged bytes behind its header *)
Definition damaged_surroundings : surroundings :=
  Surroundings (fun _ => Some (u32_bytes 1 PCAP_MAGIC ++ replicate 100 255)) (fun _ => true) None demo_system (-1) None false
    None None [] [] (undef 0) 0 (Timespec 0 0).

Lemma main_terminates_witness :
  is_Some (main (L := documented_lib) (I := quad_inet) (M := square_sine) damaged_surroundings 7 [str "--pcap"; str "x"; str "--dump-samples"]).
Proof.
  apply (main_terminates (L := documented_lib) (D := documented_lib_doc) (I := quad_inet) (M := square_sine) damaged_surroundings 7
    [str "--pcap"; str "x"; str "--dump-samples"]); [|cbn; lia].
  intros path bytes [= <-]. split; [|by vm_compute]. apply forall_bytes. by vm_compute.
Defined.

(** the profile given and taken back, a number that is none, a second --count-rtp *)
Definition count_args : list (list Z) :=
  [str "--dante"; str "--count-rtp"; str "--pcap"; str "stage.pcap"; str "--profile"; str "aes67"; str "--ttl"; str "many"; str "--count-rtp"].
Definition count_options : options := default_options{{o_pcap := Some (str "stage.pcap"); o_do_count := true; o_ttl := 0}}.

Lemma main_count_rtp_witness :
  main (L := documented_lib) (I := quad_inet) (M := square_sine) demo_surroundings 4 count_args
  = Some (Ok (quit 0 (str "rtp_packets 4 concealed 2" ++ [10]))).
Proof.
  assert (good_count (L := documented_lib) (frames_of gap_records) = 2) as E1 by (by vm_compute).
  assert (lost_frames (L := documented_lib) None (frames_of gap_records) = 2) as E2 by (by vm_compute).
  pose proof (main_count_rtp (L := documented_lib) (D := documented_lib_doc) (I := quad_inet) (M := square_sine) demo_surroundings 4 count_options
    count_args (str "stage.pcap") 1 (replicate 20 0) gap_records eq_refl eq_refl eq_refl eq_refl eq_refl eq_refl eq_refl
    (fun _ => eq_refl) ltac:(by right) eq_refl (proj1 gap_records_ok) ltac:(cbn; lia) (proj2 gap_records_ok)
    ltac:(rewrite E1, E2; unfold INT_MAX; lia)) as H.
  rewrite E1, E2 in H. exact H.
Defined.

Definition print_options : options := demo_options{{o_do_count := false; o_do_sdp := true}}.
Definition print_dante_options : options := print_options{{o_profile_dante := true; o_pt_set := false; o_pt := 97}}.

Lemma print_options_ok : options_ok print_options /\ options_ok print_dante_options.
Proof.
  split; (split; [|split; [by vm_compute|split; [by intros ?|by vm_compute]]];
    repeat (apply Forall_cons; split; [by vm_compute|]); by apply Forall_nil).
Qed.

Lemma main_print_sdp_witness :
  exists text, main (L := documented_lib) (I := quad_inet) (M := square_sine) demo_surroundings 0 (render print_options) = Some (Ok (quit 0 text))
    /\ take 8 text = str "v=0" ++ crlf ++ str "o=-".
Proof.
  eexists. split.
  - etransitivity.
    + apply (main_print_sdp (L := documented_lib) (I := quad_inet) (M := square_sine) demo_surroundings 0 print_options (proj1 print_options_ok)
        (str "239.69.1.2") 5004 eq_refl eq_refl eq_refl eq_refl ltac:(done) ltac:(by vm_compute) ltac:(lia)
        ltac:(apply forall_chars; by vm_compute) ltac:(apply forall_chars; by vm_compute) ltac:(apply forall_chars; by vm_compute)
        ltac:(by vm_compute)).
    + rewrite decide_True by (by vm_compute). reflexivity.
  - by vm_compute.
Defined.

Lemma main_print_dante_witness :
  exists text, main (L := documented_lib) (I := quad_inet) (M := square_sine) demo_surroundings 0 (render print_dante_options) = Some (Ok (quit 0 text))
    /\ take 30 text = str "# flow 0  239.69.10.0  ch 0-7" ++ [13].
Proof.
  eexists. split.
  - apply (main_print_dante (L := documented_lib) (D := documented_lib_doc) (I := quad_inet) (M := square_sine) demo_surroundings 0 print_dante_options
      (proj2 print_options_ok) 239 69 10 0 eq_refl eq_refl ltac:(by vm_compute) eq_refl
      ltac:(unfold octet; lia) ltac:(unfold octet; lia) ltac:(unfold octet; lia) ltac:(unfold octet; lia)
      ltac:(apply forall_chars; by vm_compute) ltac:(apply forall_chars; by vm_compute) ltac:(apply forall_chars; by vm_compute)
      ltac:(by vm_compute) ltac:(by vm_compute) ltac:(by vm_compute)).
    intros i Hi. assert (0 <= i < 5) as Hi' by (revert Hi; vm_compute; done).
    assert (i = 0 \/ i = 1 \/ i = 2 \/ i = 3 \/ i = 4) as [->|[->|[->|[->| ->]]]] by lia; by vm_compute.
  - by vm_compute.
Defined.
